(* ===== verification/_CoqProject ===== *)
-Q . S2P
Prelude.v
Text.v
Sha256.v
Clock.v
Json.v
Config.v
Ip.v
Errors.v
Proc.v
History.v
World.v
Demo.v
AuditLog.v
Repos.v
Schema.v
Signer.v
Security.v
Proximity.v
RateLimit.v
Hub.v
Evolve.v
Auth.v
Unlock.v
Der.v
Attestation.v
Enrollment.v
Scripts.v
Api.v
Schemas.v
Http.v
ControllerWs.v
Surface.v
Family.v
Startup.v
Firmware.v
EndToEnd.v
Tooling.v
Board.v
Backend.v
Roles.v
Asked.v
Door.v
Passage.v
