(* ===== verification/Prelude.v ===== *)
(** * Doors control: a verification library for the backend and its controllers

    The program lets a phone open a door. The backend ([src/backend/]) is two
    ASGI applications over one PostgreSQL database, a signing process, and the
    operator's scripts; a controller board ([src/firmware/]) drives each lock:

    - the public API ([app/]) enrols phones, logs users in, and turns an unlock
      request into a signed command for the door's controller;
    - the controllers (ESP32 boards) keep a websocket to the API
      ([app/ws/]), prove their identity on it and broadcast a rotating beacon
      identifier, which the phone has to present as a proof of being near;
    - the signer ([signer/]) holds the private key and signs commands that pass
      its own validation, over a local socket;
    - the admin application ([admin/]) manages doors, controllers and grants;
    - the database ([db/migrations/]) enforces constraints, and chains the rows
      of the audit log by their hashes.

    ** How the model is built

    Text is a list of code points, bytes a list of octets, a Python integer a
    [Z], an instant a number of microseconds. A [dict] that is serialised is an
    association list in insertion order; a table is a [gmap] from its key to a
    record of its columns; a column of a PostgreSQL enum is an inductive type.
    SHA-256, HMAC, base64, UTF-8, JSON and calendar text are computed.

    An [async def] is a [proc]: a tree of atomic steps on the one state
    ([World.World]: tables, hub, challenge store, caches, clock, random source)
    that returns or raises an [Errors.Exn]. A SQL statement is one step, the
    audit insert two (defaults, then trigger and insert), a piece of in-process
    code without an await one. [run] executes one coroutine alone;
    [sys_step] interleaves a pool of them in any order with steps of the
    environment. Shared Python objects (sessions, futures) live in heaps and are
    referred to by their address.

    [Evolve.evolves] relates the worlds around a step: constraints kept, history
    only extended, no row gone, revoked stays revoked, used stays used, the
    clock not back. Every operation is shown to be made of such steps
    ([guar evolves]), which gives the theorems over all interleavings.
    What a request did before a step is kept track of by [History]: [told] says
    that every step of a program is justified by states the program has seen, and
    [told_reach] that it stays so in every interleaving. The lines written to the
    signer's socket are a component of the world that no code reads ([w_asked]).
    [Surface.kept] and [Surface.calm] are two more such relations, for what only
    the administration writes and for refresh tokens; what is shown of a program
    from its structure alone is shown once for every judgement that follows it
    ([Surface.Framed]).

    A process ([Startup.Host]) is the world it shares with the others and an
    environment, connection pools, files and a log of its own; [Startup.lift]
    runs a piece of the backend inside it. A board ([Board.Site]) is the state
    of the firmware in time; [site_step] is a turn of its main loop, a wait or a
    reset.

    ** Files

    Foundations
    - [Prelude]: text, time, lists, tactics, hint databases.
    - [Text]: UTF-8, hexadecimal, decimal, base64, [strip], with round trips.
    - [Sha256]: SHA-256 and HMAC with the published test vectors.
    - [Clock]: UTC texts, [isoformat], ISO weekday; [Json]: values, [dumps],
      [loads] and their round trip. [Ip]: the addresses and networks of
      [ipaddress].
    - [Proc]: coroutines, [run], the interleaving semantics, guarantees;
      [History]: steps justified by what was seen before.
    - [Demo]: a concrete instance of every external class, for the witnesses.

    State
    - [Config]: [core/config.py]. [Errors]: [core/errors.py].
    - [World]: the tables, the shared objects, the statements; [Schema]: the
      unique indexes, foreign keys and checks of migration 003 as the invariant
      [db_ok], kept by each statement (which tests them, as the database does);
      [Evolve]: the relation above for each of them.
    - [Repos]: [db/repositories/] but for the audit log, a module per class,
      a definition per method; [AuditLog]: migrations 004 and 005,
      [repositories/audit.py], [services/audit_service.py].

    Components
    - [Signer]: [signer/protocol.py], [signer/server.py],
      [core/signer_client.py]. [Security]: [core/security.py].
      [Proximity]: [core/proximity.py]. [RateLimit]: [core/ratelimit.py].
      [Hub]: [ws/hub.py].
    - [Auth]: [services/auth_service.py]. [Unlock]: [services/unlock_service.py].
    - [Der], [Attestation]: [core/attestation.py]. [Enrollment]:
      [services/enrollment_service.py].
    - [Scripts]: [scripts/]. [Api]: the endpoints of [app/api/] and
      [admin/main.py]. [Schemas]: [models/schemas.py] and the routes over them.
      [Http]: requests, answers, exception handlers and middleware of the two
      applications ([app/main.py], [admin/main.py]). [ControllerWs]:
      [ws/controller_ws.py].
    - [Startup]: the cache of the settings, [db/pool.py], [Services.build] and
      the constructors it calls, the lifespans, the scripts' connections, the
      start of the signer.
    - [Firmware]: the controller's side of the socket, the relay, the LED and the
      beacon ([firmware/esp32/src/]); [Board]: its main loop ([main.cpp]), with the
      inputs and the schedule of beacon and updates. [EndToEnd]: backend and
      controller together. [Tooling]: [signer/keygen.py],
      [scripts/sign_firmware.py] of the firmware and the check of an update.
    - [Surface]: what the public application cannot write; [Family]: token
      families; [Backend]: all of the backend as tasks of one system. [Asked]: which
      tasks write to the signer, and when; [Door]: backend, signer and controller in
      one statement, from the request to the relay; [Passage]: the same way for a
      request that passes, from the body of the request to the answer. [Roles]: the
      grants, default privileges and refusing triggers of the migrations, the
      partitions that come later, and what each role may do.

    ** What the theorems show

    - The whole way ([Asked], [Door]): [signature_requests_are_justified] (no line
      reaches the signer that a request has not earned, in any interleaving),
      [open_door_was_authorised] (whenever the relay is energised, one request passed
      every check for a door of this controller, lately), assuming that signatures
      are not forged ([Door.unforged]) and that doors and controllers are stored as
      the administration accepts them ([Door.well_stored]);
      [passing_request_opens_the_door] (what passes does open, through signer, hub,
      firmware and back).
    - Opening a door ([Unlock]): [unlock_success] (what is true whenever a door
      opens), [unlock_refused] (a refusal is the first failing entry of a
      checklist that is a function of the stored state, whatever signer and
      controllers are), [unlock_errors_on_record],
      [unlock_commands_are_signable]; [opened_answer_is_true] (what an answer 200
      means, through middleware, session, body and service).
    - All interleavings ([Backend]): [schema_holds_in_every_interleaving],
      [history_is_append_only], [revoked_token_stays_dead],
      [used_code_stays_used], [public_tasks_cannot_administer]; one request after
      the other: [one_refresh_token_per_family].
    - Database roles ([Roles]): [audit_rows_are_out_of_reach],
      [service_roles_never_delete], [backend_works_as_acs_app],
      [pools_execute_their_statements].
    - Applications and processes: [public_answers_are_hardened],
      [locked_out_login_is_answered_429], [administration_has_two_locks],
      [public_routes_are_its_own]; [services_use_their_roles],
      [processes_close_their_pools], [settings_are_read_once],
      [signer_starts_iff_key_is_sound].
    - Audit log: [append_extends_chain], [anchored_head_fixes_log] and
      [edited_row_is_reported] (tamper evidence up to a hash collision, which the
      statements name, and up to the netmask of an address),
      [netmask_is_not_covered], [concurrent_appends_break_chain].
    - Signer: [signs_only_valid_commands], [sign_command_refines_signer],
      [canonical_bytes_determine_command].
    - Sessions: [login_opens_session], [refresh_rotates],
      [refresh_reuse_kills_family], [logout_ends_sessions],
      [session_endpoints_guarded], [admin_endpoints_guarded],
      [refused_login_is_uniform], [login_lockout_iff].
    - Controllers: [controller_authenticated_iff],
      [only_proven_controllers_register], [refused_handshake_audited],
      [disconnect_cleans_up], [silent_controller_dropped], [register_supersedes],
      [send_command_leaves_no_waiter].
    - Enrolment: [enroll_success], [challenge_single_use],
      [key_attestation_accepts_iff], [self_made_chain_accepted], [scan_reads_entries],
      [read_sequence_roundtrip], [reader_in_bounds], [issued_code_is_redeemable].
    - Backend and controller: [controller_opens_for_backend] (from the door's row
      to the acknowledgement), [firmware_rebuilds_signed_bytes],
      [controller_answer_is_proven], [controller_opens_only_signed],
      [replayed_command_refused], [relay_releases], [advertised_is_derived],
      [signed_update_installs], [installed_image_is_signed],
      [signed_text_determines_image], [generated_key_starts_signer].
    - The board in time: [door_open_only_briefly] (an invariant over turns, waits
      and resets), [beacon_follows_clock], [tamper_reaches_audit_log].
    - Edges: [accepted_bodies_leave_to_the_tables], [forwarded_only_from_trusted_proxy],
      [default_admin_is_loopback_only], [ipv4_int_iff], [ip_in_network_of],
      [fresh_beacon_accepted], [accepted_beacon_is_recent].
    Some theorems state behaviour that looks unintended, each next to the
    definition it is about: [third_unlock_in_a_minute_refused],
    [non_ascii_beacon_raises], [concurrent_refreshes_both_succeed],
    [signer_ignores_the_clock], [malformed_challenge_spends_it],
    [software_list_overrides_hardware], [unknown_security_level_accepted],
    [self_made_chain_accepted], [netmask_is_not_covered],
    [non_object_answer_unaudited], [forwarded_leftmost_is_believed],
    [window_order_is_left_to_the_table], [relay_channel_is_ignored],
    [older_version_installs], [offline_tamper_is_lost],
    [empty_allow_list_admits_everyone], [second_pool_failure_leaks],
    [reset_forgets_commands].

    ** Fuel and bounds

    The loops over DER values, over an authorization list and over JSON text have
    a fuel argument, and are run with the length of the input; [Der] and
    [Attestation] show that this is enough on any bytes, and that no subscript is
    outside the buffer ([Der.byte_at] raises there), [Json] that it is for
    everything [dumps] prints. What a controller sends is a finite list of texts,
    and a heartbeat has a number of rounds, after which it is cancelled; the
    theorems are for every list and number. Python integers are unbounded;
    the bounds that the columns, the signer and the eight bytes of a beacon slot
    set are checked where the code or the database checks them.

    ** External code

    Reached through type classes, with the laws that are relied on as fields:
    [Entropy] (octets of the length asked for; every draw has an index, so two
    draws may be equal unless a hypothesis says otherwise), [Postgres] (the text
    of an [inet], time zones, [numeric] text, collation), [Argon2] (a hash verifies its
    password), [Ed25519] (a signature verifies; unforgeability is not assumed:
    theorems speak of verification, but for [open_door_was_authorised], which
    assumes it of the texts that were delivered), [PyRepr] ([repr], exception names and
    [str.lower()], which is known on ASCII only),
    [X509] (certificates and their signature checks), [Pydantic] (conversions of
    values), [Starlette] (headers of a response, encoding of a result),
    [Environment] (reading settings, creating and closing pools), [Unix] (the
    files around a socket), [BoardLibraries] (ArduinoJson and mbedtls),
    [SignerSocket], [Transport] and [WebSocket] (what the other end does, and
    what happens in the meantime). [Demo] and the ends of the files instantiate
    them.

    ** Not modelled

    Argument parsing and prompts (the arguments are given), the set-up of
    logging, the delivery of signals (the end of what a process serves), and the
    routing and HTTP parsing of the framework: a request arrives matched to its
    route, with its parsed fields. Lock waits inside PostgreSQL: a statement is
    atomic; it is not made to fail for a missing privilege, [Roles] shows that
    none is missing. An audit row is taken to find the partition of its month: the
    routing, and the call of [ensure_audit_partition] in the trigger, are not steps
    of the insert (what that function makes of a partition is in [Roles]), and the
    primary key of the audit log is not among the constraints of [db_ok]. User
    names are compared in SQL as ASCII text, which their constraint makes them.
    Of the firmware, Wi-Fi, the radio stack, the HTTP client and the flash, which
    are what the device reports; of the database roles, their passwords,
    connection rights and timeouts. The network between the backend and
    a board is not a queue of its own: what is delivered to a board is any list of
    texts. The Android application (Kotlin) is another program, met only through
    its requests; containers and the reverse proxy are configuration. *)

From Stdlib Require Export ZArith Lia.
From stdpp Require Export base tactics option list sorting gmap strings.

#[global] Set Default Goal Selector "!".

(** ** Text and bytes

    A Python [str] is the list of its code points, a Python [bytes] the list
    of its octets.  Both are lists of [Z]; the two abbreviations only say which
    of the two a definition is about. *)

Abbreviation pystr := (list Z) (only parsing).
Abbreviation bytes := (list Z) (only parsing).

(** Literals: [§"unlock"] is the Python string ['unlock'] (or the bytes
    literal [b'unlock']: an ASCII character is its own UTF-8 encoding). *)
Definition str (s : string) : list Z :=
  (fun a => Z.of_N (Ascii.N_of_ascii a)) <$> String.list_ascii_of_string s.

Arguments str : simpl never.

Declare Scope doors_scope.
Delimit Scope doors_scope with doors.
Notation "§ s" := (str s%string) (at level 1, s at level 0, format "§ s") : doors_scope.
#[global] Open Scope doors_scope.
#[global] Open Scope Z_scope.

(** ** Time

    Every instant is a number of microseconds since the Unix epoch: the
    resolution of PostgreSQL's [timestamptz] and of Python's [datetime]. *)
Abbreviation instant := Z (only parsing).
Definition usec_per_sec : Z := 1000000.
Definition seconds (s : Z) : Z := s * usec_per_sec.

(** ** Tactics *)

(** [lia] with Euclidean division by constants. *)
Ltac Zify.zify_post_hook ::= Z.to_euclidean_division_equations.

(** Case analysis on the scrutinee of the first [match] or [if] of the goal or
    of a hypothesis, keeping the equation. *)
Ltac case_goal :=
  match goal with
  | |- context [match ?x with _ => _ end] => destruct x eqn:?
  end.

Ltac case_hyp H :=
  match type of H with
  | context [match ?x with _ => _ end] => destruct x eqn:?
  end.

(** Boolean tests of the code turned into the propositions they decide. *)
Ltac bool_to_prop :=
  repeat match goal with
  | H : (_ && _)%bool = true |- _ => apply andb_prop in H as [? ?]
  | H : (_ || _)%bool = false |- _ => apply orb_false_elim in H as [? ?]
  | H : negb _ = true |- _ => apply negb_true_iff in H
  | H : negb _ = false |- _ => apply negb_false_iff in H
  | H : (_ <? _)%Z = true |- _ => apply Z.ltb_lt in H
  | H : (_ <? _)%Z = false |- _ => apply Z.ltb_ge in H
  | H : (_ <=? _)%Z = true |- _ => apply Z.leb_le in H
  | H : (_ <=? _)%Z = false |- _ => apply Z.leb_gt in H
  | H : (_ =? _)%Z = true |- _ => apply Z.eqb_eq in H
  | H : (_ =? _)%Z = false |- _ => apply Z.eqb_neq in H
  | H : bool_decide _ = true |- _ => apply bool_decide_eq_true_1 in H
  | H : bool_decide _ = false |- _ => apply bool_decide_eq_false_1 in H
  end.

Lemma range_true a b c : a < b <= c -> (a <? b) && (b <=? c) = true.
Proof. intros [H1 H2]. apply andb_true_intro. by split; [apply Z.ltb_lt|apply Z.leb_le]. Qed.

(** ** Lists *)

(** Python's [s.startswith(p)] and SQL's [s LIKE 'p%'] for a [p] without
    wildcards. *)
Fixpoint starts_with (p s : list Z) : bool :=
  match p, s with
  | [], _ => true
  | _ :: _, [] => false
  | a :: p', b :: s' => (a =? b)%Z && starts_with p' s'
  end.

Lemma starts_with_app p s : starts_with p (p ++ s) = true.
Proof. induction p as [|a p IH]; cbn; [done|]. by rewrite Z.eqb_refl. Qed.

Lemma starts_with_spec p s : starts_with p s = true <-> exists t, s = p ++ t.
Proof.
  split.
  - revert s. induction p as [|a p IH]; intros s H; [by exists s|].
    destruct s as [|b s]; [done|]. cbn in H.
    apply andb_prop in H as [->%Z.eqb_eq H].
    destruct (IH s) as [t ->]; [done|]. by exists t.
  - intros [t E]. rewrite E. apply starts_with_app.
Qed.

(** Two lists split at positions of the same length. *)
Lemma app_split_eq {A} (a b c d : list A) :
  length a = length c -> a ++ b = c ++ d -> a = c /\ b = d.
Proof. intros. by apply app_inj_1. Qed.

Lemma app_split_cons_eq {A} (a b c d : list A) x :
  length a = length c -> a ++ x :: b = c ++ x :: d -> a = c /\ b = d.
Proof. intros Hl E. apply app_split_eq in E as [-> E]; [|done]. by simplify_eq. Qed.

Lemma filter_all {A} (P : A -> Prop) `{!forall x, Decision (P x)} l : Forall P l -> filter P l = l.
Proof. induction 1 as [|x l Hx _ IH]; [done|]. by rewrite filter_cons_True, IH. Qed.

(** Number of elements that satisfy a boolean test: SQL's [count( * )]. *)
Definition count {A} (f : A -> bool) (l : list A) : Z :=
  Z.of_nat (length (filter (fun x => f x = true) l)).

Lemma count_nil {A} (f : A -> bool) : count f [] = 0.
Proof. done. Qed.

Lemma count_cons {A} (f : A -> bool) x l :
  count f (x :: l) = (if f x then 1 else 0) + count f l.
Proof.
  unfold count. rewrite filter_cons. destruct (f x) eqn:E.
  - rewrite decide_True by done. cbn [length]. lia.
  - rewrite decide_False by done. lia.
Qed.

Lemma count_app {A} (f : A -> bool) l1 l2 :
  count f (l1 ++ l2) = count f l1 + count f l2.
Proof. unfold count. rewrite filter_app, length_app. lia. Qed.

Lemma count_nonneg {A} (f : A -> bool) l : 0 <= count f l.
Proof. unfold count. lia. Qed.

Create Rewrite HintDb count.
#[export] Hint Rewrite @count_nil @count_cons @count_app : count.

(** A predicate that holds on every element makes [count] the length. *)
Lemma count_all {A} (f : A -> bool) l :
  Forall (fun x => f x = true) l -> count f l = Z.of_nat (length l).
Proof.
  induction 1 as [|x l Hx _ IH]; [done|].
  rewrite count_cons, Hx, IH. cbn [length]. lia.
Qed.

(** [ORDER BY]: insertion sort by a boolean order. *)
Section sort_by.
Context {A : Type} (leb : A -> A -> bool).

Fixpoint insert_by (x : A) (l : list A) : list A :=
  match l with
  | [] => [x]
  | y :: r => if leb x y then x :: l else y :: insert_by x r
  end.

Definition sort_by (l : list A) : list A := foldr insert_by [] l.

Lemma insert_by_perm x l : insert_by x l ≡ₚ x :: l.
Proof.
  induction l as [|y l IH]; cbn; [done|]. destruct (leb x y); [done|].
  rewrite IH. constructor.
Qed.

Lemma sort_by_perm l : sort_by l ≡ₚ l.
Proof. induction l as [|x l IH]; cbn; [done|]. by rewrite insert_by_perm, IH. Qed.

(** A list in order is left as it is. *)
Lemma sort_by_id l : StronglySorted (fun x y => leb x y = true) l -> sort_by l = l.
Proof.
  induction 1 as [|x l Hl IH Hx]; [done|]. cbn. fold (sort_by l). rewrite IH.
  destruct l as [|y l]; [done|]. cbn. by rewrite (Forall_inv Hx).
Qed.

Lemma elem_of_sort_by x l : x ∈ sort_by l <-> x ∈ l.
Proof. by rewrite sort_by_perm. Qed.
End sort_by.

(** ** Options *)

Definition is_some {A} (o : option A) : bool :=
  match o with Some _ => true | None => false end.

Lemma is_some_true {A} (o : option A) : is_some o = true <-> exists x, o = Some x.
Proof. destruct o; cbn; naive_solver. Qed.

(** ** Hint database shared by the components *)
Create HintDb doors.
#[export] Hint Resolve count_nonneg starts_with_app : doors.
