(* ===== verification/Text.v ===== *)
(** * Text and byte codecs

    The parts of Python's [str], [bytes], [int] and [base64] the backend uses:
    UTF-8, [bytes.hex], decimal and hexadecimal integers, big-endian integers,
    base64 (standard and URL safe), [strip] and [rstrip].  Each codec is
    executable and comes with the round trip the components rely on. *)

From S2P Require Import Prelude.

Definition is_byte (b : Z) : bool := (0 <=? b) && (b <? 256).
Definition all_bytes (l : bytes) : Prop := Forall (fun b => 0 <= b < 256) l.

Lemma all_bytes_app l1 l2 : all_bytes (l1 ++ l2) <-> all_bytes l1 /\ all_bytes l2.
Proof. apply Forall_app. Qed.

Fixpoint all_bytesb (l : bytes) : bool :=
  match l with [] => true | b :: r => is_byte b && all_bytesb r end.

Lemma all_bytesb_spec l : all_bytesb l = true -> all_bytes l.
Proof.
  induction l as [|b r IH]; intros H; [constructor|]. cbn in H. unfold is_byte in H.
  bool_to_prop. constructor; [lia|]. by apply IH.
Qed.

(** ** Characters *)

Definition is_ascii (s : pystr) : bool := forallb (fun c => (0 <=? c) && (c <? 128)) s.

Lemma is_ascii_app s t : is_ascii (s ++ t) = is_ascii s && is_ascii t.
Proof. apply forallb_app. Qed.

(** [str.isspace] of one character. *)
Definition is_space (c : Z) : bool :=
  ((9 <=? c) && (c <=? 13)) || ((28 <=? c) && (c <=? 32)) || (c =? 133) || (c =? 160)
  || (c =? 5760) || ((8192 <=? c) && (c <=? 8202)) || (c =? 8232) || (c =? 8233)
  || (c =? 8239) || (c =? 8287) || (c =? 12288).

Fixpoint lstrip_by (f : Z -> bool) (s : pystr) : pystr :=
  match s with
  | [] => []
  | c :: r => if f c then lstrip_by f r else s
  end.

Definition rstrip_by (f : Z -> bool) (s : pystr) : pystr := rev (lstrip_by f (rev s)).

(** [s.strip()] and [s.rstrip("=")]. *)
Definition strip (s : pystr) : pystr := rstrip_by is_space (lstrip_by is_space s).
Definition rstrip_eq (s : pystr) : pystr := rstrip_by (fun c => c =? 61) s.

(** Lower case, exact on ASCII (other characters are left alone). *)
Definition lower_char (c : Z) : Z := if (65 <=? c) && (c <=? 90) then c + 32 else c.
Definition lower (s : pystr) : pystr := lower_char <$> s.

Lemma lower_idemp s : lower (lower s) = lower s.
Proof.
  unfold lower. rewrite <- list_fmap_compose. apply list_fmap_ext. intros _ c _.
  unfold compose, lower_char. destruct ((65 <=? c) && (c <=? 90)) eqn:E; [|by rewrite E].
  bool_to_prop. destruct ((65 <=? c + 32) && (c + 32 <=? 90)) eqn:E'; [|done].
  bool_to_prop. lia.
Qed.

Lemma rstrip_by_app f s t :
  Forall (fun c => f c = true) t -> rstrip_by f (s ++ t) = rstrip_by f s.
Proof.
  intros H. unfold rstrip_by. rewrite rev_app_distr. f_equal.
  apply Forall_rev in H. revert H. generalize (rev t) as u.
  induction 1 as [|c u Hc _ IH]; cbn; [done|]. by rewrite Hc.
Qed.

Lemma lstrip_by_none f s : Forall (fun c => f c = false) s -> lstrip_by f s = s.
Proof. destruct 1 as [|c s Hc _]; cbn; [done|]. by rewrite Hc. Qed.

Lemma rstrip_by_none f s : Forall (fun c => f c = false) s -> rstrip_by f s = s.
Proof.
  intros H. unfold rstrip_by. rewrite lstrip_by_none; [apply rev_involutive|].
  by apply Forall_rev.
Qed.

(** ** UTF-8 *)

(** [str.encode("utf-8")] of one character; a lone surrogate has no encoding. *)
Definition utf8_char (c : Z) : option bytes :=
  if c <? 0 then None
  else if c <? 128 then Some [c]
  else if c <? 2048 then Some [192 + c / 64; 128 + c mod 64]
  else if (55296 <=? c) && (c <=? 57343) then None
  else if c <? 65536 then Some [224 + c / 4096; 128 + (c / 64) mod 64; 128 + c mod 64]
  else if c <? 1114112 then
    Some [240 + c / 262144; 128 + (c / 4096) mod 64; 128 + (c / 64) mod 64; 128 + c mod 64]
  else None.

Fixpoint utf8_encode (s : pystr) : option bytes :=
  match s with
  | [] => Some []
  | c :: r =>
      match utf8_char c, utf8_encode r with
      | Some b, Some t => Some (b ++ t)
      | _, _ => None
      end
  end.

Definition is_cont (b : Z) : bool := (128 <=? b) && (b <? 192).

(** [bytes.decode("utf-8")], strict: overlong forms, surrogates and values
    past U+10FFFF are refused. *)
Fixpoint utf8_decode (l : bytes) : option pystr :=
  match l with
  | [] => Some []
  | b0 :: r0 =>
      if (0 <=? b0) && (b0 <? 128) then cons b0 <$> utf8_decode r0
      else if (192 <=? b0) && (b0 <? 224) then
        match r0 with
        | b1 :: r1 =>
            let c := (b0 - 192) * 64 + (b1 - 128) in
            if is_cont b1 && (128 <=? c) then cons c <$> utf8_decode r1 else None
        | [] => None
        end
      else if (224 <=? b0) && (b0 <? 240) then
        match r0 with
        | b1 :: b2 :: r2 =>
            let c := (b0 - 224) * 4096 + (b1 - 128) * 64 + (b2 - 128) in
            if is_cont b1 && is_cont b2 && (2048 <=? c)
               && negb ((55296 <=? c) && (c <=? 57343))
            then cons c <$> utf8_decode r2 else None
        | _ => None
        end
      else if (240 <=? b0) && (b0 <? 248) then
        match r0 with
        | b1 :: b2 :: b3 :: r3 =>
            let c := (b0 - 240) * 262144 + (b1 - 128) * 4096 + (b2 - 128) * 64 + (b3 - 128) in
            if is_cont b1 && is_cont b2 && is_cont b3 && (65536 <=? c) && (c <? 1114112)
            then cons c <$> utf8_decode r3 else None
        | _ => None
        end
      else None
  end.

Lemma true_if {A} (b : bool) (x y : A) : b = true -> (if b then x else y) = x.
Proof. by intros ->. Qed.
Lemma false_if {A} (b : bool) (x y : A) : b = false -> (if b then x else y) = y.
Proof. by intros ->. Qed.

(** Decides a boolean combination of comparisons by [lia]. *)
Ltac zbool :=
  first [ rewrite true_if by (unfold is_cont; lia) | rewrite false_if by (unfold is_cont; lia) ].

Lemma utf8_decode_char c b t :
  utf8_char c = Some b -> utf8_decode (b ++ t) = cons c <$> utf8_decode t.
Proof.
  unfold utf8_char. intros H.
  repeat match type of H with
  | (if ?x then _ else _) = _ => destruct x eqn:?; try discriminate
  end; injection H as <-; cbn [app utf8_decode]; repeat zbool; do 2 f_equal; lia.
Qed.

Lemma utf8_roundtrip s b : utf8_encode s = Some b -> utf8_decode b = Some s.
Proof.
  revert b. induction s as [|c s IH]; cbn; intros b H; [by injection H as <-|].
  destruct (utf8_char c) as [bc|] eqn:Ec; [|done].
  destruct (utf8_encode s) as [bs|] eqn:Es; [|done]. injection H as <-.
  rewrite (utf8_decode_char _ _ _ Ec), (IH _ eq_refl). done.
Qed.

Lemma utf8_encode_inj s t b : utf8_encode s = Some b -> utf8_encode t = Some b -> s = t.
Proof. intros Hs%utf8_roundtrip Ht%utf8_roundtrip. congruence. Qed.

Lemma utf8_char_bytes c b : utf8_char c = Some b -> all_bytes b.
Proof.
  unfold utf8_char. intros H.
  repeat match type of H with
  | (if ?x then _ else _) = _ => destruct x eqn:?; try discriminate
  end; injection H as <-; repeat constructor; lia.
Qed.

Lemma utf8_encode_bytes s b : utf8_encode s = Some b -> all_bytes b.
Proof.
  revert b. induction s as [|c s IH]; cbn; intros b H; [injection H as <-; constructor|].
  destruct (utf8_char c) as [bc|] eqn:Ec; [|done].
  destruct (utf8_encode s) as [bs|]; [|done]. injection H as <-.
  apply all_bytes_app. eauto using utf8_char_bytes.
Qed.

Lemma utf8_encode_ascii s : is_ascii s = true -> utf8_encode s = Some s.
Proof.
  unfold is_ascii. induction s as [|c s IH]; cbn; intros H; [done|]. bool_to_prop.
  rewrite IH by done. unfold utf8_char. repeat zbool. done.
Qed.

Lemma utf8_encode_app s t :
  utf8_encode (s ++ t) =
  match utf8_encode s, utf8_encode t with
  | Some a, Some b => Some (a ++ b)
  | _, _ => None
  end.
Proof.
  induction s as [|c s IH]; cbn; [by destruct (utf8_encode t)|].
  rewrite IH. destruct (utf8_char c), (utf8_encode s), (utf8_encode t); try done.
  by rewrite app_assoc.
Qed.

(** ** Decimal integers: [str(z)] and [int(s)] on canonical digits *)

Fixpoint digits_fuel (fuel : nat) (n : Z) (acc : pystr) : pystr :=
  match fuel with
  | O => acc
  | S f => if n <? 10 then 48 + n :: acc else digits_fuel f (n / 10) (48 + n mod 10 :: acc)
  end.

(** One more step than the number of binary digits is enough. *)
Definition digits (n : Z) : pystr := digits_fuel (S (Z.to_nat (Z.log2 n))) n [].

Definition int_str (z : Z) : pystr := if z <? 0 then 45 :: digits (- z) else digits z.

Definition is_digit (c : Z) : bool := (48 <=? c) && (c <=? 57).
Definition digits_val_from (acc : Z) (l : pystr) : Z := fold_left (fun a c => 10 * a + (c - 48)) l acc.
Definition digits_val (l : pystr) : Z := digits_val_from 0 l.

Lemma digits_val_app a l1 l2 :
  digits_val_from a (l1 ++ l2) = digits_val_from (digits_val_from a l1) l2.
Proof. apply fold_left_app. Qed.

Lemma digits_fuel_app fuel n acc : digits_fuel fuel n acc = digits_fuel fuel n [] ++ acc.
Proof.
  revert n acc. induction fuel as [|f IH]; intros n acc; cbn; [done|].
  destruct (n <? 10); [done|]. rewrite IH, (IH _ [_]), <- app_assoc. done.
Qed.

Lemma digits_fuel_val fuel n :
  0 <= n < 2 ^ Z.of_nat fuel -> digits_val (digits_fuel fuel n []) = n.
Proof.
  revert n. induction fuel as [|f IH]; intros n Hn.
  - change (2 ^ Z.of_nat 0) with 1 in Hn. cbn. lia.
  - rewrite Nat2Z.inj_succ, Z.pow_succ_r in Hn by lia. cbn [digits_fuel].
    destruct (n <? 10) eqn:E; bool_to_prop.
    + unfold digits_val, digits_val_from. cbn. lia.
    + rewrite digits_fuel_app. unfold digits_val. rewrite digits_val_app.
      unfold digits_val in IH. rewrite IH by lia. unfold digits_val_from. cbn. lia.
Qed.

Lemma log2_fuel n : 0 <= n -> n < 2 ^ Z.of_nat (S (Z.to_nat (Z.log2 n))).
Proof.
  intros Hn. rewrite Nat2Z.inj_succ, Z2Nat.id by apply Z.log2_nonneg.
  destruct (Z.eq_dec n 0) as [->|]; [done|]. apply Z.log2_spec. lia.
Qed.

Lemma digits_val_digits n : 0 <= n -> digits_val (digits n) = n.
Proof. intros Hn. apply digits_fuel_val. split; [done|]. by apply log2_fuel. Qed.

Lemma digits_fuel_digit fuel n acc :
  0 <= n -> Forall (fun c => is_digit c = true) acc ->
  Forall (fun c => is_digit c = true) (digits_fuel fuel n acc).
Proof.
  revert n acc. induction fuel as [|f IH]; intros n acc Hn Hacc; cbn; [done|].
  destruct (n <? 10) eqn:E; bool_to_prop.
  - constructor; [unfold is_digit; lia|done].
  - apply IH; [lia|]. constructor; [unfold is_digit; lia|done].
Qed.

Lemma digits_digit n : 0 <= n -> Forall (fun c => is_digit c = true) (digits n).
Proof. intros Hn. by apply digits_fuel_digit. Qed.

Lemma digits_not_nil n : digits n <> [].
Proof.
  unfold digits. cbn. destruct (n <? 10); [done|]. rewrite digits_fuel_app.
  intros H. by apply app_eq_nil in H as [_ ?].
Qed.

Lemma digits_cons n : exists c r, digits n = c :: r.
Proof. destruct (digits n) as [|c r] eqn:E; [by apply digits_not_nil in E|]. eauto. Qed.

Lemma digits_inj n m : 0 <= n -> 0 <= m -> digits n = digits m -> n = m.
Proof. intros Hn Hm E. rewrite <- (digits_val_digits n), <- (digits_val_digits m), E; done. Qed.

(** The printed number has a leading zero only when it is zero. *)
Lemma digits_fuel_head fuel n :
  0 < n < 2 ^ Z.of_nat fuel -> exists c r, digits_fuel fuel n [] = c :: r /\ c <> 48.
Proof.
  revert n. induction fuel as [|f IH]; intros n Hn.
  - change (2 ^ Z.of_nat 0) with 1 in Hn. lia.
  - rewrite Nat2Z.inj_succ, Z.pow_succ_r in Hn by lia. cbn.
    destruct (n <? 10) eqn:E; bool_to_prop.
    + eexists _, _. split; [done|]. lia.
    + rewrite digits_fuel_app. destruct (IH (n / 10)) as (c & r & -> & Hc); [lia|]. cbn. eauto.
Qed.

Lemma digits_head n : 0 < n -> exists c r, digits n = c :: r /\ c <> 48.
Proof. intros Hn. apply digits_fuel_head. split; [done|]. apply log2_fuel. lia. Qed.

(** The number of digits. *)
Lemma digits_fuel_length fuel n k :
  0 <= n < 10 ^ Z.of_nat (S k) -> (length (digits_fuel fuel n []) <= S k)%nat.
Proof.
  revert n k. induction fuel as [|f IH]; intros n k Hn; cbn [digits_fuel]; [cbn; lia|].
  destruct (n <? 10) eqn:E; bool_to_prop; [cbn; lia|]. rewrite digits_fuel_app, length_app. cbn [length].
  destruct k as [|k]; [change (10 ^ Z.of_nat 1) with 10 in Hn; lia|].
  rewrite Nat2Z.inj_succ, Z.pow_succ_r in Hn by lia. specialize (IH (n / 10) k ltac:(lia)). lia.
Qed.

Lemma int_str_length z k : 0 <= z < 10 ^ Z.of_nat (S k) -> (length (int_str z) <= S k)%nat.
Proof.
  intros Hz. unfold int_str. rewrite (proj2 (Z.ltb_ge z 0)) by lia. by apply digits_fuel_length.
Qed.

Lemma int_str_inj a b : int_str a = int_str b -> a = b.
Proof.
  assert (Hd : forall x y, 0 <= y -> 45 :: digits x = digits y -> False).
  { intros x y Hy E. pose proof (digits_digit y Hy) as HF. rewrite <- E in HF.
    inversion HF as [|? ? H45 _]. done. }
  unfold int_str. destruct (a <? 0) eqn:Ea, (b <? 0) eqn:Eb; bool_to_prop; intros E.
  - injection E as E. apply digits_inj in E; lia.
  - by destruct (Hd (- a) b).
  - by destruct (Hd (- b) a).
  - apply digits_inj in E; lia.
Qed.

Lemma int_str_ascii z : is_ascii (int_str z) = true.
Proof.
  assert (H : forall n, 0 <= n -> is_ascii (digits n) = true).
  { intros n Hn. unfold is_ascii. pose proof (digits_digit n Hn) as HF.
    induction HF as [|c l Hc _ IH]; cbn; [done|]. rewrite IH. unfold is_digit in Hc. lia. }
  unfold int_str. destruct (z <? 0) eqn:E; bool_to_prop; [|apply H; lia].
  change (is_ascii (45 :: digits (- z))) with (is_ascii (digits (- z))). apply H. lia.
Qed.

(** ** Hexadecimal *)

Definition hex_digit (n : Z) : Z := if n <? 10 then 48 + n else 87 + n.
Definition hex_byte (b : Z) : pystr := [hex_digit (b / 16); hex_digit (b mod 16)].

(** [bytes.hex()] *)
Definition hex (l : bytes) : pystr := l ≫= hex_byte.

Lemma hex_digit_inj a b : 0 <= a < 16 -> 0 <= b < 16 -> hex_digit a = hex_digit b -> a = b.
Proof. unfold hex_digit. intros. destruct (a <? 10) eqn:?, (b <? 10) eqn:?; bool_to_prop; lia. Qed.

Lemma hex_inj a b : all_bytes a -> all_bytes b -> hex a = hex b -> a = b.
Proof.
  intros Ha. revert b. induction Ha as [|x a Hx _ IH]; intros b Hb; destruct Hb as [|y b Hy Hb];
    cbn; intros E; try done.
  injection E as E1 E2 E3. apply hex_digit_inj in E1, E2; [|lia..].
  f_equal; [lia|]. by apply IH.
Qed.

(** ** Big-endian integers *)

(** [int.from_bytes(l, "big")] *)
Definition from_bytes_be (l : bytes) : Z := fold_left (fun a b => a * 256 + b) l 0.

Fixpoint to_bytes_le (n : nat) (z : Z) : bytes :=
  match n with
  | O => []
  | S m => z mod 256 :: to_bytes_le m (z / 256)
  end.

(** [z.to_bytes(n, "big")]: [None] is the [OverflowError] raised for a
    negative number or one that does not fit. *)
Definition to_bytes_be (n : nat) (z : Z) : option bytes :=
  if (0 <=? z) && (z <? 256 ^ Z.of_nat n) then Some (rev (to_bytes_le n z)) else None.

Lemma length_to_bytes_le n z : length (to_bytes_le n z) = n.
Proof. revert z. induction n; cbn; auto. Qed.

Lemma to_bytes_le_bytes n z : all_bytes (to_bytes_le n z).
Proof.
  revert z. induction n as [|n IH]; intros z; cbn; [constructor|].
  constructor; [lia|apply IH].
Qed.

Lemma from_bytes_be_snoc l b : from_bytes_be (l ++ [b]) = from_bytes_be l * 256 + b.
Proof. unfold from_bytes_be. by rewrite fold_left_app. Qed.

Lemma from_to_bytes_le n z :
  0 <= z < 256 ^ Z.of_nat n -> from_bytes_be (rev (to_bytes_le n z)) = z.
Proof.
  revert z. induction n as [|n IH]; intros z Hz.
  - change (256 ^ Z.of_nat 0) with 1 in Hz. cbn. lia.
  - rewrite Nat2Z.inj_succ, Z.pow_succ_r in Hz by lia.
    change (rev (to_bytes_le (S n) z)) with (rev (to_bytes_le n (z / 256)) ++ [z mod 256]).
    rewrite from_bytes_be_snoc, IH; [lia|]. split; [lia|]. apply Z.div_lt_upper_bound; lia.
Qed.

Lemma to_bytes_be_roundtrip n z l : to_bytes_be n z = Some l -> from_bytes_be l = z.
Proof.
  unfold to_bytes_be. case_match eqn:E; [|done]. intros [= <-]. bool_to_prop.
  by apply from_to_bytes_le.
Qed.

Lemma to_bytes_be_length n z l : to_bytes_be n z = Some l -> length l = n.
Proof.
  unfold to_bytes_be. case_match; [|done]. intros [= <-].
  by rewrite length_rev, length_to_bytes_le.
Qed.

Lemma to_bytes_be_bytes n z l : to_bytes_be n z = Some l -> all_bytes l.
Proof.
  unfold to_bytes_be. case_match; [|done]. intros [= <-].
  apply Forall_rev, to_bytes_le_bytes.
Qed.

Lemma from_bytes_be_nonneg l : all_bytes l -> 0 <= from_bytes_be l.
Proof.
  induction l as [|b l IH] using rev_ind; intros H; [done|].
  apply all_bytes_app in H as [Hl Hb]. rewrite from_bytes_be_snoc.
  apply IH in Hl. inversion Hb; subst. lia.
Qed.

(** ** Base64 *)

(** The two alphabets: [std] for [b64encode], [url] for [urlsafe_b64encode]. *)
Inductive alphabet := std | url.

Definition b64_char (a : alphabet) (n : Z) : Z :=
  if n <? 26 then 65 + n
  else if n <? 52 then 71 + n
  else if n <? 62 then n - 4
  else if n =? 62 then match a with std => 43 | url => 45 end
  else match a with std => 47 | url => 95 end.

Definition b64_val (a : alphabet) (c : Z) : option Z :=
  if (65 <=? c) && (c <=? 90) then Some (c - 65)
  else if (97 <=? c) && (c <=? 122) then Some (c - 71)
  else if (48 <=? c) && (c <=? 57) then Some (c + 4)
  else if (c =? match a with std => 43 | url => 45 end) then Some 62
  else if (c =? match a with std => 47 | url => 95 end) then Some 63
  else None.

Fixpoint b64_encode (a : alphabet) (l : bytes) : pystr :=
  match l with
  | [] => []
  | [x] => [b64_char a (x / 4); b64_char a (x mod 4 * 16); 61; 61]
  | [x; y] =>
      [b64_char a (x / 4); b64_char a (x mod 4 * 16 + y / 16); b64_char a (y mod 16 * 4); 61]
  | x :: y :: z :: r =>
      b64_char a (x / 4) :: b64_char a (x mod 4 * 16 + y / 16)
      :: b64_char a (y mod 16 * 4 + z / 64) :: b64_char a (z mod 64) :: b64_encode a r
  end.

(** [base64.b64encode(l).decode("ascii")] *)
Definition b64encode (l : bytes) : pystr := b64_encode std l.

(** [base64.urlsafe_b64encode(l).decode("ascii").rstrip("=")] *)
Definition urlsafe_nopad (l : bytes) : pystr := rstrip_eq (b64_encode url l).

(** [base64.b64decode(s, validate=True)]: strict mode.  [None] is the
    [binascii.Error] (a [ValueError]) raised for a character outside the
    alphabet, a misplaced or missing padding, or data after the padding. *)
Fixpoint b64_decode (a : alphabet) (s : pystr) : option bytes :=
  match s with
  | [] => Some []
  | c0 :: c1 :: c2 :: c3 :: r =>
      match b64_val a c0, b64_val a c1 with
      | Some v0, Some v1 =>
          if c2 =? 61 then
            match c3 =? 61, r with
            | true, [] => Some [v0 * 4 + v1 / 16]
            | _, _ => None
            end
          else if c3 =? 61 then
            match b64_val a c2, r with
            | Some v2, [] => Some [v0 * 4 + v1 / 16; v1 mod 16 * 16 + v2 / 4]
            | _, _ => None
            end
          else
            match b64_val a c2, b64_val a c3, b64_decode a r with
            | Some v2, Some v3, Some t =>
                Some (v0 * 4 + v1 / 16 :: v1 mod 16 * 16 + v2 / 4 :: v2 mod 4 * 64 + v3 :: t)
            | _, _, _ => None
            end
      | _, _ => None
      end
  | _ => None
  end.

Definition b64decode (s : pystr) : option bytes := b64_decode std s.

Lemma b64_val_char a n : 0 <= n < 64 -> b64_val a (b64_char a n) = Some n.
Proof.
  intros H. unfold b64_char, b64_val.
  destruct (n <? 26) eqn:?; [repeat zbool; f_equal; lia|].
  destruct (n <? 52) eqn:?; [repeat zbool; f_equal; lia|].
  destruct (n <? 62) eqn:?; [repeat zbool; f_equal; lia|].
  destruct (n =? 62) eqn:?; destruct a; repeat zbool; f_equal; lia.
Qed.

Lemma b64_char_not_pad a n : 0 <= n < 64 -> (b64_char a n =? 61) = false.
Proof.
  intros H. unfold b64_char.
  destruct (n <? 26) eqn:?; [lia|]. destruct (n <? 52) eqn:?; [lia|].
  destruct (n <? 62) eqn:?; [lia|]. destruct (n =? 62) eqn:?, a; lia.
Qed.

Lemma b64_char_not_space a n : 0 <= n < 64 -> is_space (b64_char a n) = false.
Proof.
  intros H. unfold b64_char, is_space.
  destruct (n <? 26) eqn:?; [lia|]. destruct (n <? 52) eqn:?; [lia|].
  destruct (n <? 62) eqn:?; [lia|]. destruct (n =? 62) eqn:?, a; lia.
Qed.

(** Induction three bytes at a time, as the encoder recurses. *)
Lemma list_ind3 {A} (P : list A -> Prop) :
  P [] -> (forall x, P [x]) -> (forall x y, P [x; y]) ->
  (forall x y z r, P r -> P (x :: y :: z :: r)) -> forall l, P l.
Proof.
  intros H0 H1 H2 H3. fix IH 1. intros [|x [|y [|z r]]]; [done|apply H1|apply H2|].
  apply H3, IH.
Qed.

Ltac forall_inv :=
  repeat match goal with
  | H : all_bytes (_ :: _) |- _ => unfold all_bytes in H
  | H : Forall _ (_ :: _) |- _ => apply Forall_cons in H as [? ?]
  end.

Lemma b64_roundtrip a l : all_bytes l -> b64_decode a (b64_encode a l) = Some l.
Proof.
  induction l as [|x|x y|x y z r IH] using list_ind3; intros H; forall_inv;
    cbn [b64_encode b64_decode]; [done|..];
    rewrite ?b64_val_char, ?b64_char_not_pad by lia;
    try (rewrite IH by done); cbn; repeat f_equal; lia.
Qed.

(** The encoding without padding, as a function of its own. *)
Fixpoint b64_nopad (a : alphabet) (l : bytes) : pystr :=
  match l with
  | [] => []
  | [x] => [b64_char a (x / 4); b64_char a (x mod 4 * 16)]
  | [x; y] => [b64_char a (x / 4); b64_char a (x mod 4 * 16 + y / 16); b64_char a (y mod 16 * 4)]
  | x :: y :: z :: r =>
      b64_char a (x / 4) :: b64_char a (x mod 4 * 16 + y / 16)
      :: b64_char a (y mod 16 * 4 + z / 64) :: b64_char a (z mod 64) :: b64_nopad a r
  end.

Definition b64_padding (n : nat) : pystr :=
  match (n mod 3)%nat with 0%nat => [] | 1%nat => [61; 61] | _ => [61] end.

Lemma b64_encode_nopad a l : b64_encode a l = b64_nopad a l ++ b64_padding (length l).
Proof.
  induction l as [|x|x y|x y z r IH] using list_ind3; [done..|].
  cbn [b64_encode b64_nopad app length]. rewrite IH. do 5 f_equal.
  unfold b64_padding. replace (S (S (S (length r)))) with (length r + 1 * 3)%nat by lia.
  by rewrite Nat.Div0.mod_add.
Qed.

Lemma b64_nopad_char a l :
  all_bytes l -> Forall (fun c => (c =? 61) = false) (b64_nopad a l).
Proof.
  induction l as [|x|x y|x y z r IH] using list_ind3; intros H; forall_inv; cbn [b64_nopad];
    repeat (constructor; [apply b64_char_not_pad; lia|]); try constructor. by apply IH.
Qed.

Lemma urlsafe_nopad_eq l : all_bytes l -> urlsafe_nopad l = b64_nopad url l.
Proof.
  intros H. unfold urlsafe_nopad, rstrip_eq.
  rewrite b64_encode_nopad, rstrip_by_app; [by apply rstrip_by_none, b64_nopad_char|].
  unfold b64_padding. destruct (_ mod 3)%nat as [|[|]]; repeat constructor.
Qed.

Lemma b64_nopad_length a l :
  Z.of_nat (length (b64_nopad a l)) = (4 * Z.of_nat (length l) + 2) / 3.
Proof.
  induction l as [|x|x y|x y z r IH] using list_ind3; [done..|].
  cbn [b64_nopad length]. lia.
Qed.

Lemma b64_encode_inj a l m :
  all_bytes l -> all_bytes m -> b64_encode a l = b64_encode a m -> l = m.
Proof.
  intros Hl Hm E. apply (f_equal (b64_decode a)) in E.
  rewrite !b64_roundtrip in E by done. congruence.
Qed.

Lemma urlsafe_nopad_inj l m :
  all_bytes l -> all_bytes m -> length l = length m ->
  urlsafe_nopad l = urlsafe_nopad m -> l = m.
Proof.
  intros Hl Hm Hlen E. rewrite !urlsafe_nopad_eq in E by done.
  apply (b64_encode_inj url); [done..|]. by rewrite !b64_encode_nopad, E, Hlen.
Qed.

Lemma b64_char_ascii a n : 0 <= n < 64 -> 0 <= b64_char a n < 128.
Proof.
  intros H. unfold b64_char.
  destruct (n <? 26) eqn:?; [lia|]. destruct (n <? 52) eqn:?; [lia|].
  destruct (n <? 62) eqn:?; [lia|]. destruct (n =? 62) eqn:?, a; lia.
Qed.

Lemma is_ascii_forall s : is_ascii s = true <-> Forall (fun c => 0 <= c < 128) s.
Proof.
  unfold is_ascii. induction s as [|c s IH]; cbn; [split; [constructor|done]|].
  rewrite !andb_true_iff, IH, Forall_cons, Z.leb_le, Z.ltb_lt. tauto.
Qed.

Lemma b64_nopad_ascii a l : all_bytes l -> is_ascii (b64_nopad a l) = true.
Proof.
  intros H. apply is_ascii_forall. revert H.
  induction l as [|x|x y|x y z r IH] using list_ind3; intros H; forall_inv; cbn [b64_nopad];
    repeat (constructor; [apply b64_char_ascii; lia|]); try constructor. by apply IH.
Qed.

(** Padding and surrounding white space do not change what was encoded. *)
Lemma b64_nopad_strip a l :
  all_bytes l -> rstrip_eq (strip (b64_nopad a l)) = b64_nopad a l.
Proof.
  intros H. unfold rstrip_eq, strip.
  assert (Hs : Forall (fun c => is_space c = false) (b64_nopad a l)).
  { revert H. induction l as [|x|x y|x y z r IH] using list_ind3; intros H; forall_inv;
      cbn [b64_nopad];
      repeat (constructor; [apply b64_char_not_space; lia|]);
      try constructor. by apply IH. }
  rewrite lstrip_by_none, (rstrip_by_none is_space) by done.
  by apply rstrip_by_none, b64_nopad_char.
Qed.

(** [base64.b64decode(s)]: characters outside the alphabet are skipped, the
    first complete padding ends the data.  [q] characters of the current group
    have been read, [left] holds the bits not output yet. *)
Fixpoint a2b_base64 (q left pads : Z) (s : pystr) : option bytes :=
  match s with
  | [] => if q =? 0 then Some [] else None
  | c :: r =>
      if c =? 61 then
        if 2 <=? q then
          if 4 <=? q + (pads + 1) then Some [] else a2b_base64 q left (pads + 1) r
        else a2b_base64 q left pads r
      else
        match b64_val std c with
        | None => a2b_base64 q left pads r
        | Some v =>
            if q =? 0 then a2b_base64 1 v 0 r
            else if q =? 1 then cons (left * 4 + v / 16) <$> a2b_base64 2 (v mod 16) 0 r
            else if q =? 2 then cons (left * 16 + v / 4) <$> a2b_base64 3 (v mod 4) 0 r
            else cons (left * 64 + v) <$> a2b_base64 0 0 0 r
        end
  end.

Definition b64decode_lax (s : pystr) : option bytes :=
  if is_ascii s then a2b_base64 0 0 0 s else None.

Lemma a2b_char q left pads n r :
  0 <= n < 64 ->
  a2b_base64 q left pads (b64_char std n :: r) =
  if q =? 0 then a2b_base64 1 n 0 r
  else if q =? 1 then cons (left * 4 + n / 16) <$> a2b_base64 2 (n mod 16) 0 r
  else if q =? 2 then cons (left * 16 + n / 4) <$> a2b_base64 3 (n mod 4) 0 r
  else cons (left * 64 + n) <$> a2b_base64 0 0 0 r.
Proof. intros Hn. cbn [a2b_base64]. by rewrite b64_char_not_pad, b64_val_char. Qed.

Lemma b64_encode_ascii a l : all_bytes l -> is_ascii (b64_encode a l) = true.
Proof.
  intros Hl. rewrite b64_encode_nopad. apply is_ascii_forall, Forall_app. split.
  - by apply is_ascii_forall, b64_nopad_ascii.
  - unfold b64_padding. repeat case_match; repeat constructor; done.
Qed.

(** The lenient decoder reads back what the encoder wrote. *)
Lemma b64decode_lax_roundtrip l : all_bytes l -> b64decode_lax (b64encode l) = Some l.
Proof.
  intros Hl. unfold b64decode_lax, b64encode. rewrite b64_encode_ascii by done.
  induction l as [|x|x y|x y z r IH] using list_ind3; [done|..].
  - apply Forall_cons in Hl as [Hx _]. cbn [b64_encode].
    rewrite a2b_char by lia. cbn [Z.eqb]. rewrite a2b_char by lia. cbn [Z.eqb Pos.eqb].
    change (a2b_base64 2 (x mod 4 * 16 mod 16) 0 [61; 61]) with (Some ([] : bytes)).
    cbn [fmap option_fmap option_map]. do 2 f_equal. lia.
  - apply Forall_cons in Hl as [Hx [Hy _]%Forall_cons]. cbn [b64_encode].
    rewrite a2b_char by lia. cbn [Z.eqb]. rewrite a2b_char by lia. cbn [Z.eqb Pos.eqb].
    rewrite a2b_char by lia. cbn [Z.eqb Pos.eqb].
    change (a2b_base64 3 (y mod 16 * 4 mod 4) 0 [61]) with (Some ([] : bytes)).
    cbn [fmap option_fmap option_map]. do 2 f_equal; [lia|]. f_equal. lia.
  - apply Forall_cons in Hl as [Hx [Hy [Hz Hr]%Forall_cons]%Forall_cons]. cbn [b64_encode].
    rewrite a2b_char by lia. cbn [Z.eqb]. rewrite a2b_char by lia. cbn [Z.eqb Pos.eqb].
    rewrite a2b_char by lia. cbn [Z.eqb Pos.eqb]. rewrite a2b_char by lia. cbn [Z.eqb Pos.eqb].
    rewrite IH by done. cbn [fmap option_fmap option_map]. do 2 f_equal; [lia|]. f_equal; [lia|]. f_equal. lia.
Qed.

(** ** UUIDs: 128-bit integers *)

Abbreviation uuid := Z (only parsing).

(** [uuid.UUID(bytes=b, version=4).int] on 16 random bytes. *)
Definition uuid4_of_bytes (b : bytes) : uuid :=
  let i := from_bytes_be b in
  let i := Z.lor (Z.land i (Z.lnot (Z.shiftl 49152 48))) (Z.shiftl 32768 48) in
  Z.lor (Z.land i (Z.lnot (Z.shiftl 61440 64))) (Z.shiftl 4 76).

(** ['%032x' % int], hyphenated 8-4-4-4-12: [str(uuid)]. *)
Definition uuid_str (u : uuid) : pystr :=
  let h := hex (rev (to_bytes_le 16 u)) in
  take 8 h ++ 45 :: take 4 (drop 8 h) ++ 45 :: take 4 (drop 12 h)
  ++ 45 :: take 4 (drop 16 h) ++ 45 :: drop 20 h.

Definition is_uuid (u : uuid) : Prop := 0 <= u < 2 ^ 128.

Lemma hex_length l : length (hex l) = (2 * length l)%nat.
Proof. unfold hex. induction l as [|b l IH]; [done|]. cbn. rewrite IH. lia. Qed.

Lemma uuid_str_length u : length (uuid_str u) = 36%nat.
Proof.
  unfold uuid_str. repeat (rewrite ?length_app, ?length_take, ?length_drop; cbn [length]).
  rewrite hex_length, length_rev, length_to_bytes_le. done.
Qed.

Lemma uuid_str_inj u v : is_uuid u -> is_uuid v -> uuid_str u = uuid_str v -> u = v.
Proof.
  intros Hu Hv E.
  assert (Hh : hex (rev (to_bytes_le 16 u)) = hex (rev (to_bytes_le 16 v))).
  { revert E. unfold uuid_str.
    assert (Hl : forall w, length (hex (rev (to_bytes_le 16 w))) = 32%nat).
    { intros w. by rewrite hex_length, length_rev, length_to_bytes_le. }
    pose proof (Hl u) as Lu. pose proof (Hl v) as Lv. revert Lu Lv.
    generalize (hex (rev (to_bytes_le 16 u))), (hex (rev (to_bytes_le 16 v))).
    intros a b La Lb E.
    do 32 (destruct a as [|? a]; [done|]). do 32 (destruct b as [|? b]; [done|]).
    destruct a, b; [|done..]. cbn in E. by simplify_eq. }
  apply hex_inj in Hh; [|apply Forall_rev, to_bytes_le_bytes..].
  rewrite <- (from_to_bytes_le 16 u), <- (from_to_bytes_le 16 v), Hh; done.
Qed.

#[global] Arguments uuid_str : simpl never.

#[export] Hint Resolve utf8_encode_bytes to_bytes_le_bytes to_bytes_be_bytes : doors.
