(* ===== verification/Sha256.v ===== *)
(** * SHA-256 and HMAC-SHA256

    The two functions of [hashlib] and [hmac] the backend calls, executable,
    after FIPS 180-4 and RFC 2104, with the facts the components use: a digest
    is 32 octets.  The published test vectors are checked at the end. *)

From S2P Require Import Prelude Text.

Module Sha256.

Definition w32 (x : Z) : Z := Z.land x 4294967295.
Definition add32 (x y : Z) : Z := w32 (x + y).
Definition rotr (n x : Z) : Z := Z.lor (Z.shiftr x n) (w32 (Z.shiftl x (32 - n))).

Definition ch (x y z : Z) : Z := Z.lxor (Z.land x y) (Z.land (Z.lxor x 4294967295) z).
Definition maj (x y z : Z) : Z := Z.lxor (Z.lxor (Z.land x y) (Z.land x z)) (Z.land y z).
Definition big_sigma0 (x : Z) : Z := Z.lxor (Z.lxor (rotr 2 x) (rotr 13 x)) (rotr 22 x).
Definition big_sigma1 (x : Z) : Z := Z.lxor (Z.lxor (rotr 6 x) (rotr 11 x)) (rotr 25 x).
Definition small_sigma0 (x : Z) : Z := Z.lxor (Z.lxor (rotr 7 x) (rotr 18 x)) (Z.shiftr x 3).
Definition small_sigma1 (x : Z) : Z := Z.lxor (Z.lxor (rotr 17 x) (rotr 19 x)) (Z.shiftr x 10).

(** The constants are the first 32 bits of the fractional parts of the cube
    (square) roots of the first primes, computed once when the file is
    compiled. *)
Definition is_prime (n : nat) : bool :=
  forallb (fun d => negb (n mod d =? 0)%nat) (seq 2 (n - 2)).
Definition primes : list Z := Z.of_nat <$> List.filter is_prime (seq 2 310).

(** The largest [r] with [r^3 <= n], below [2^bits]. *)
Fixpoint cube_root (bits : nat) (r n : Z) : Z :=
  match bits with
  | O => r
  | S b =>
      let r' := r + 2 ^ Z.of_nat b in
      cube_root b (if r' * r' * r' <=? n then r' else r) n
  end.

Definition round_constants : list Z :=
  Eval vm_compute in (fun p => w32 (cube_root 40 0 (p * 2 ^ 96))) <$> primes.

Definition root_constants : list Z :=
  Eval vm_compute in (fun p => w32 (Z.sqrt (p * 2 ^ 64))) <$> take 8 primes.

(** The eight working variables. *)
Record hstate := HState { ha : Z; hb : Z; hc : Z; hd : Z; he : Z; hf : Z; hg : Z; hh : Z }.

Definition initial : hstate :=
  let r i := nth i root_constants 0 in HState (r 0%nat) (r 1%nat) (r 2%nat) (r 3%nat)
    (r 4%nat) (r 5%nat) (r 6%nat) (r 7%nat).

Definition round (s : hstate) (kw : Z * Z) : hstate :=
  let '(k, w) := kw in
  let t1 := add32 (add32 (add32 (hh s) (big_sigma1 (he s))) (add32 (ch (he s) (hf s) (hg s)) k)) w in
  let t2 := add32 (big_sigma0 (ha s)) (maj (ha s) (hb s) (hc s)) in
  HState (add32 t1 t2) (ha s) (hb s) (hc s) (add32 (hd s) t1) (he s) (hf s) (hg s).

(** The message schedule, latest word first. *)
Fixpoint expand (n : nat) (rev_w : list Z) : list Z :=
  match n with
  | O => rev_w
  | S m =>
      let w i := nth i rev_w 0 in
      expand m (add32 (add32 (small_sigma1 (w 1%nat)) (w 6%nat))
                      (add32 (small_sigma0 (w 14%nat)) (w 15%nat)) :: rev_w)
  end.

Definition add_state (s t : hstate) : hstate :=
  HState (add32 (ha s) (ha t)) (add32 (hb s) (hb t)) (add32 (hc s) (hc t)) (add32 (hd s) (hd t))
         (add32 (he s) (he t)) (add32 (hf s) (hf t)) (add32 (hg s) (hg t)) (add32 (hh s) (hh t)).

Definition block (s : hstate) (words : list Z) : hstate :=
  let w := rev (expand 48 (rev words)) in
  add_state s (fold_left round (combine round_constants w) s).

(** Octets to 32-bit words, and words to blocks of sixteen. *)
Fixpoint words_of (l : bytes) : list Z :=
  match l with
  | a :: b :: c :: d :: r => from_bytes_be [a; b; c; d] :: words_of r
  | _ => []
  end.

Fixpoint blocks (n : nat) (ws : list Z) (s : hstate) : hstate :=
  match n with
  | O => s
  | S m => blocks m (drop 16 ws) (block s (take 16 ws))
  end.

(** 0x80, then zeros up to 56 modulo 64, then the bit length on 8 octets. *)
Definition pad (l : bytes) : bytes :=
  let n := Z.of_nat (length l) in
  l ++ 128 :: replicate (Z.to_nat ((55 - n) mod 64)) 0 ++ rev (to_bytes_le 8 (8 * n)).

Definition word_bytes (w : Z) : bytes := rev (to_bytes_le 4 w).

Definition state_bytes (s : hstate) : bytes :=
  word_bytes (ha s) ++ word_bytes (hb s) ++ word_bytes (hc s) ++ word_bytes (hd s)
  ++ word_bytes (he s) ++ word_bytes (hf s) ++ word_bytes (hg s) ++ word_bytes (hh s).

(** [hashlib.sha256(l).digest()] *)
Definition sha256 (l : bytes) : bytes :=
  let p := pad l in
  state_bytes (blocks (Nat.div (length p) 64) (words_of p) initial).

(** [hmac.new(key, msg, hashlib.sha256).digest()] *)
Definition hmac_sha256 (key msg : bytes) : bytes :=
  let k := if (64 <? length key)%nat then sha256 key else key in
  let k := k ++ replicate (64 - length k) 0 in
  sha256 ((Z.lxor 92 <$> k) ++ sha256 ((Z.lxor 54 <$> k) ++ msg)).

Lemma state_bytes_length s : length (state_bytes s) = 32%nat.
Proof.
  unfold state_bytes, word_bytes.
  by rewrite !length_app, !length_rev, !length_to_bytes_le.
Qed.

Lemma state_bytes_bytes s : all_bytes (state_bytes s).
Proof.
  assert (H : forall w, all_bytes (word_bytes w)).
  { intros w. apply Forall_rev, to_bytes_le_bytes. }
  unfold state_bytes. rewrite !all_bytes_app. by repeat split; apply H.
Qed.

Lemma sha256_length l : length (sha256 l) = 32%nat.
Proof. apply state_bytes_length. Qed.

Lemma sha256_bytes l : all_bytes (sha256 l).
Proof. apply state_bytes_bytes. Qed.

Lemma hmac_sha256_length k m : length (hmac_sha256 k m) = 32%nat.
Proof. apply sha256_length. Qed.

Lemma hmac_sha256_bytes k m : all_bytes (hmac_sha256 k m).
Proof. apply sha256_bytes. Qed.

(** FIPS 180-4 and RFC 4231 vectors. *)
Example sha256_abc :
  hex (sha256 §"abc") = §"ba7816bf8f01cfea414140de5dae2223b00361a396177a9cb410ff61f20015ad".
Proof. vm_compute. reflexivity. Qed.

Example sha256_empty :
  hex (sha256 []) = §"e3b0c44298fc1c149afbf4c8996fb92427ae41e4649b934ca495991b7852b855".
Proof. vm_compute. reflexivity. Qed.

Example sha256_two_blocks :
  hex (sha256 §"abcdbcdecdefdefgefghfghighijhijkijkljklmklmnlmnomnopnopq")
  = §"248d6a61d20638b8e5c026930c3e6039a33ce45964ff2167f6ecedd419db06c1".
Proof. vm_compute. reflexivity. Qed.

Example hmac_rfc4231_2 :
  hex (hmac_sha256 §"Jefe" §"what do ya want for nothing?")
  = §"5bdcc146bf60754e6a042426089575c75a003f089d2739839dec58b964ec3843".
Proof. vm_compute. reflexivity. Qed.

End Sha256.

#[export] Hint Resolve Sha256.sha256_length Sha256.sha256_bytes : doors.
#[export] Hint Resolve Sha256.hmac_sha256_length Sha256.hmac_sha256_bytes : doors.

(** The digests are only ever unfolded by computation. *)
Arguments Sha256.sha256 : simpl never.
Arguments Sha256.hmac_sha256 : simpl never.
