(* ===== verification/Clock.v ===== *)
(** * Calendar text: timestamps and times of day

    The texts that instants become in the audit chain ([to_char] in UTC, with
    microseconds) and in audit details ([datetime.isoformat()] and
    [str(time)]), the ISO weekday, and the fact the chain needs: the UTC text
    determines the instant. *)

From S2P Require Import Prelude Text.

Definition usec_per_day : Z := 86400000000.

(** ** Fixed-width decimals *)

Fixpoint dec (n : nat) (z : Z) : pystr :=
  match n with
  | O => []
  | S n => dec n (z / 10) ++ [48 + z mod 10]
  end.

Lemma dec_length n z : length (dec n z) = n.
Proof. revert z. induction n as [|n IH]; intros z; cbn; [done|]. rewrite length_app, IH. cbn. lia. Qed.

Lemma dec_inj n a b :
  0 <= a < 10 ^ Z.of_nat n -> 0 <= b < 10 ^ Z.of_nat n -> dec n a = dec n b -> a = b.
Proof.
  revert a b. induction n as [|n IH]; intros a b Ha Hb E; cbn in E; [cbn in *; lia|].
  apply app_inj_2 in E as [E1 E2]; [|done]. injection E2 as E2.
  rewrite Nat2Z.inj_succ, Z.pow_succ_r in Ha, Hb by lia.
  apply IH in E1; lia.
Qed.

Lemma dec_digits n z : Forall (fun c => 48 <= c <= 57) (dec n z).
Proof.
  revert z. induction n as [|n IH]; intros z; cbn; [constructor|].
  apply Forall_app. split; [done|]. constructor; [lia|constructor].
Qed.

(** ** Civil dates: days since 1970-01-01 *)

Record date := { year : Z; month : Z; day : Z }.

(** The 400-year cycle starts on 0000-03-01. *)
Definition day_of_era (days : Z) : Z := (days + 719468) mod 146097.
Definition era (days : Z) : Z := (days + 719468) / 146097.

Definition date_in_era (doe : Z) : date :=
  let yoe := (doe - doe / 1460 + doe / 36524 - doe / 146096) / 365 in
  let doy := doe - (365 * yoe + yoe / 4 - yoe / 100) in
  let mp := (5 * doy + 2) / 153 in
  let m := if mp <? 10 then mp + 3 else mp - 9 in
  {| year := yoe + (if m <=? 2 then 1 else 0); month := m; day := doy - (153 * mp + 2) / 5 + 1 |}.

Definition civil (days : Z) : date :=
  let d := date_in_era (day_of_era days) in
  {| year := year d + 400 * era days; month := month d; day := day d |}.

(** The inverse on one cycle. *)
Definition era_of_date (d : date) : Z :=
  let y := year d - (if month d <=? 2 then 1 else 0) in
  let mp := if 2 <? month d then month d - 3 else month d + 9 in
  365 * y + y / 4 - y / 100 + (153 * mp + 2) / 5 + day d - 1.

Lemma day_of_era_range days : 0 <= day_of_era days < 146097.
Proof. unfold day_of_era. apply Z.mod_pos_bound. lia. Qed.

(** The day of the year is one: the leap-day corrections of the year of the
    era add up. *)
Lemma day_of_year doe yoe :
  0 <= doe < 146097 ->
  yoe = (doe - doe / 1460 + doe / 36524 - doe / 146096) / 365 ->
  0 <= yoe < 400 /\ 0 <= doe - (365 * yoe + yoe / 4 - yoe / 100) <= 365.
Proof.
  intros Hd ->.
  assert (doe / 146096 = 0 \/ doe = 146096) as [E| ->] by lia; [|vm_compute; split; split; congruence].
  rewrite E.
  assert (doe / 36524 = 0 \/ doe / 36524 = 1 \/ doe / 36524 = 2 \/ doe / 36524 = 3 \/ doe / 36524 = 4)
    as Hc by lia.
  destruct Hc as [Hc|[Hc|[Hc|[Hc|Hc]]]]; rewrite Hc; lia.
Qed.

Lemma era_day doe : 0 <= doe < 146097 ->
  let d := date_in_era doe in
  era_of_date d = doe
  /\ 0 <= year d - (if month d <=? 2 then 1 else 0) < 400
  /\ 1 <= month d <= 12 /\ 1 <= day d <= 31.
Proof.
  intros Hd. unfold date_in_era, era_of_date.
  destruct (day_of_year doe _ Hd eq_refl) as [Hy Hdoy]. revert Hy Hdoy.
  generalize ((doe - doe / 1460 + doe / 36524 - doe / 146096) / 365). intros yoe.
  remember (doe - (365 * yoe + yoe / 4 - yoe / 100)) as doy eqn:Edoy. intros Hy Hdoy.
  remember ((5 * doy + 2) / 153) as mp eqn:Emp. assert (Hmp : 0 <= mp <= 11) by lia.
  assert (Hday : 1 <= doy - (153 * mp + 2) / 5 + 1 <= 31) by lia. clear Emp.
  cbn [year month day].
  destruct (Z.ltb_spec mp 10).
  - rewrite (false_if (mp + 3 <=? 2)), (true_if (2 <? mp + 3)) by lia.
    replace (mp + 3 - 3) with mp by lia. replace (yoe + 0 - 0) with yoe by lia. lia.
  - rewrite (true_if (mp - 9 <=? 2)), (false_if (2 <? mp - 9)) by lia.
    replace (mp - 9 + 9) with mp by lia. replace (yoe + 1 - 1) with yoe by lia. lia.
Qed.

Lemma civil_range days : 1 <= month (civil days) <= 12 /\ 1 <= day (civil days) <= 31.
Proof.
  destruct (era_day (day_of_era days) (day_of_era_range days)) as (_ & _ & Hm & Hd). by split.
Qed.

Lemma era_split days : days = 146097 * era days + day_of_era days - 719468.
Proof.
  unfold era, day_of_era. pose proof (Z.div_mod (days + 719468) 146097 ltac:(done)). lia.
Qed.

Lemma civil_inj a b : civil a = civil b -> a = b.
Proof.
  intros E.
  destruct (era_day (day_of_era a) (day_of_era_range a)) as (Ea & Hya & _).
  destruct (era_day (day_of_era b) (day_of_era_range b)) as (Eb & Hyb & _).
  assert (Hy := f_equal year E). assert (Hm := f_equal month E). assert (Hd := f_equal day E).
  cbn [civil year month day] in Hy, Hm, Hd.
  destruct (date_in_era (day_of_era a)) as [ya ma da].
  destruct (date_in_era (day_of_era b)) as [yb mb db]. cbn [year month day] in *. subst mb db.
  assert (He : era a = era b) by (clear Ea Eb; lia).
  assert (ya = yb) as -> by (clear Ea Eb; lia).
  rewrite (era_split a), (era_split b). congruence.
Qed.

(** ISO weekday: Monday is 1. *)
Definition isodow (days : Z) : Z := (days + 3) mod 7 + 1.

(** ** Texts *)

Definition year_text (y : Z) : pystr := if y <? 10000 then dec 4 y else digits y.

Definition date_text (d : date) : pystr :=
  year_text (year d) ++ 45 :: dec 2 (month d) ++ 45 :: dec 2 (day d).

(** [HH:MM:SS] of a number of microseconds since midnight. *)
Definition hms (u : Z) : pystr :=
  dec 2 (u / 3600000000) ++ 58 :: dec 2 (u / 60000000 mod 60) ++ 58 :: dec 2 (u / 1000000 mod 60).

(** [str(datetime.time)] *)
Definition time_str (u : Z) : pystr :=
  hms u ++ (if u mod 1000000 =? 0 then [] else 46 :: dec 6 (u mod 1000000)).

(** [to_char(t AT TIME ZONE 'UTC', 'YYYY-MM-DD"T"HH24:MI:SS.US"Z"')] *)
Definition utc_text (t : instant) : pystr :=
  date_text (civil (t / usec_per_day)) ++ 84 :: hms (t mod usec_per_day)
  ++ 46 :: dec 6 (t mod 1000000) ++ [90].

(** [datetime.isoformat()] of an aware UTC [datetime]. *)
Definition isoformat (t : instant) : pystr :=
  date_text (civil (t / usec_per_day)) ++ 84 :: time_str (t mod usec_per_day) ++ §"+00:00".

Example utc_text_ex : utc_text 1709210096789012 = §"2024-02-29T12:34:56.789012Z".
Proof. reflexivity. Qed.
Example isoformat_ex : isoformat 1709210096000000 = §"2024-02-29T12:34:56+00:00".
Proof. reflexivity. Qed.
Example isodow_ex : isodow (1709210096000000 / usec_per_day) = 4.
Proof. reflexivity. Qed.

(** The instants of the years 1970 to 9999. *)
Definition is_instant (t : instant) : Prop := 0 <= t < 253402300800000000.

Lemma civil_year_range days : 0 <= days < 2932897 -> 1970 <= year (civil days) < 10000.
Proof.
  intros Hr. cbn [civil year].
  destruct (era_day (day_of_era days) (day_of_era_range days)) as (Ed & Hy & Hm & Hd).
  pose proof (era_split days) as Hs. pose proof (day_of_era_range days) as Hrange.
  destruct (date_in_era (day_of_era days)) as [y m d]. cbn [year month day] in *.
  unfold era_of_date in Ed. cbn [year month day] in Ed.
  destruct (Z.leb_spec m 2); destruct (Z.ltb_spec 2 m); lia.
Qed.

Lemma hms_inj a b :
  0 <= a < usec_per_day -> 0 <= b < usec_per_day ->
  hms a = hms b -> a / 1000000 = b / 1000000.
Proof.
  unfold hms, usec_per_day. intros Ha Hb E.
  apply app_split_cons_eq in E as [E1 E]; [|by rewrite !dec_length].
  apply app_split_cons_eq in E as [E2 E]; [|by rewrite !dec_length].
  apply dec_inj in E1; [|lia..]. apply dec_inj in E2; [|lia..]. apply dec_inj in E; lia.
Qed.

Lemma utc_text_length t : is_instant t -> length (utc_text t) = 27%nat.
Proof.
  intros Ht. unfold utc_text, date_text, year_text, hms.
  pose proof (civil_year_range (t / usec_per_day)) as Hy.
  rewrite true_if by (unfold is_instant, usec_per_day in *; lia).
  by repeat (rewrite ?length_app, ?dec_length; cbn [length]).
Qed.

(** The UTC text determines the instant. *)
Lemma utc_text_inj a b : is_instant a -> is_instant b -> utc_text a = utc_text b -> a = b.
Proof.
  intros Ha Hb. unfold utc_text, date_text, year_text.
  pose proof (civil_year_range (a / usec_per_day)) as Hya.
  pose proof (civil_year_range (b / usec_per_day)) as Hyb.
  unfold is_instant, usec_per_day in *.
  rewrite !true_if by lia. repeat (rewrite <- app_assoc || rewrite <- app_comm_cons). intros E.
  apply app_split_cons_eq in E as [E1 E]; [|by rewrite !dec_length].
  apply app_split_cons_eq in E as [E2 E]; [|by rewrite !dec_length].
  apply app_split_cons_eq in E as [E3 E]; [|by rewrite !dec_length].
  apply app_split_cons_eq in E as [E4 E];
    [|unfold hms; by repeat (rewrite ?length_app, ?dec_length; cbn [length])].
  apply app_split_eq in E as [E5 _]; [|by rewrite !dec_length].
  pose proof (civil_range (a / 86400000000)). pose proof (civil_range (b / 86400000000)).
  apply dec_inj in E1; [|change (10 ^ Z.of_nat 4) with 10000; lia..].
  apply dec_inj in E2; [|change (10 ^ Z.of_nat 2) with 100; lia..].
  apply dec_inj in E3; [|change (10 ^ Z.of_nat 2) with 100; lia..].
  apply hms_inj in E4; [|unfold usec_per_day; lia..]. apply dec_inj in E5; [|change (10 ^ Z.of_nat 6) with 1000000; lia..].
  assert (Hd : a / 86400000000 = b / 86400000000).
  { apply civil_inj. destruct (civil (a / 86400000000)), (civil (b / 86400000000)). cbn in *. congruence. }
  lia.
Qed.

(** It is made of digits and five punctuation characters. *)
Definition clock_char (c : Z) : bool :=
  ((48 <=? c) && (c <=? 58)) || (c =? 45) || (c =? 84) || (c =? 46) || (c =? 90).

Lemma dec_clock n z : Forall (fun c => clock_char c = true) (dec n z).
Proof. eapply Forall_impl; [apply dec_digits|]. intros c Hc. cbn beta in *. unfold clock_char. lia. Qed.

Lemma utc_text_chars t : is_instant t -> Forall (fun c => clock_char c = true) (utc_text t).
Proof.
  intros Ht. unfold utc_text, date_text, year_text, hms.
  pose proof (civil_year_range (t / usec_per_day)) as Hy.
  rewrite true_if by (unfold is_instant, usec_per_day in *; lia).
  repeat first [apply dec_clock | apply Forall_app; split | apply Forall_cons; split | constructor | reflexivity].
Qed.

#[global] Arguments utc_text : simpl never.
#[global] Arguments isoformat : simpl never.
#[global] Arguments time_str : simpl never.
