(* ===== verification/Json.v ===== *)
(** * JSON values, [json.dumps] and [json.loads]

    The wire format of the signer, of the controller socket and of the audit
    details.  A [dict] is the list of its items in insertion order, keys
    distinct.  A float is kept as its literal text: the backend never computes
    with one that came out of JSON.

    [dumps] has the printer's three options: [ensure_ascii], the separators
    (compact [(",", ":")] or followed by a blank), and the order in which the
    items of a [dict] are printed ([sort_keys], or the order of [jsonb]).
    [loads] is total: the fuel is the length of the text, which [cost_dumps]
    shows to be enough for everything [dumps] prints. *)

From S2P Require Import Prelude Text.

#[warnings="-register-all"]
Inductive json :=
| JNull
| JBool (b : bool)
| JInt (z : Z)
| JFloat (literal : pystr)
| JStr (s : pystr)
| JList (l : list json)
| JObj (m : list (pystr * json)).

(** The induction principle that goes through the two nested lists. *)
Section json_ind.
Variable P : json -> Prop.
Hypothesis Hnull : P JNull.
Hypothesis Hbool : forall b, P (JBool b).
Hypothesis Hint : forall z, P (JInt z).
Hypothesis Hfloat : forall t, P (JFloat t).
Hypothesis Hstr : forall s, P (JStr s).
Hypothesis Hlist : forall l, Forall P l -> P (JList l).
Hypothesis Hobj : forall m, Forall (fun kv => P kv.2) m -> P (JObj m).

Fixpoint json_nested_ind (v : json) : P v :=
  match v with
  | JNull => Hnull
  | JBool b => Hbool b
  | JInt z => Hint z
  | JFloat t => Hfloat t
  | JStr s => Hstr s
  | JList l =>
      Hlist l ((fix go (l : list json) : Forall P l :=
        match l with
        | [] => Forall_nil_2 P
        | x :: r => Forall_cons_2 P x r (json_nested_ind x) (go r)
        end) l)
  | JObj m =>
      Hobj m ((fix go (m : list (pystr * json)) : Forall (fun kv => P kv.2) m :=
        match m with
        | [] => Forall_nil_2 _
        | kv :: r => Forall_cons_2 (fun kv => P kv.2) kv r (json_nested_ind kv.2) (go r)
        end) m)
  end.
End json_ind.

(** ** Dictionaries *)

Definition str_eqb (a b : pystr) : bool := bool_decide (a = b).

Fixpoint dict_get {A} (k : pystr) (m : list (pystr * A)) : option A :=
  match m with
  | [] => None
  | (k', v) :: r => if str_eqb k k' then Some v else dict_get k r
  end.

(** [d[k] = v]: in place when the key is there, at the end otherwise. *)
Fixpoint dict_set {A} (k : pystr) (v : A) (m : list (pystr * A)) : list (pystr * A) :=
  match m with
  | [] => [(k, v)]
  | (k', v') :: r => if str_eqb k k' then (k, v) :: r else (k', v') :: dict_set k v r
  end.

Lemma str_eqb_refl k : str_eqb k k = true.
Proof. by apply bool_decide_eq_true. Qed.

Lemma str_eqb_ne k k' : k <> k' -> str_eqb k k' = false.
Proof. intros. by apply bool_decide_eq_false. Qed.

Lemma dict_set_fresh {A} k (v : A) m : ~ In k (map fst m) -> dict_set k v m = m ++ [(k, v)].
Proof.
  induction m as [|[k' v'] m IH]; cbn; intros H; [done|].
  rewrite str_eqb_ne by (intros ->; tauto). rewrite IH by tauto. done.
Qed.

(** ** Sorted items *)

(** Order of two [str]: by code point. *)
Fixpoint str_leb (a b : pystr) : bool :=
  match a, b with
  | [], _ => true
  | _ :: _, [] => false
  | x :: a', y :: b' => (x <? y) || ((x =? y) && str_leb a' b')
  end.

Section sort.
Variable leb : pystr -> pystr -> bool.

Fixpoint insert_item {A} (kv : pystr * A) (m : list (pystr * A)) : list (pystr * A) :=
  match m with
  | [] => [kv]
  | kv' :: r => if leb kv.1 kv'.1 then kv :: m else kv' :: insert_item kv r
  end.

Definition sort_items {A} (m : list (pystr * A)) : list (pystr * A) := foldr insert_item [] m.
End sort.

(** The order in which a [dict] is printed: [None] is insertion order. *)
Abbreviation key_order := (option (pystr -> pystr -> bool)) (only parsing).

Definition ordered {A} (o : key_order) (m : list (pystr * A)) : list (pystr * A) :=
  match o with Some leb => sort_items leb m | None => m end.

(** ** Printing *)

Section dumps.
Variables (ensure_ascii spaced : bool) (order : key_order).

Definition escape_u (c : Z) : pystr :=
  92 :: 117 :: hex_byte (c / 256) ++ hex_byte (c mod 256).

Definition escape_char (c : Z) : pystr :=
  if c =? 34 then [92; 34]
  else if c =? 92 then [92; 92]
  else if c =? 10 then [92; 110]
  else if c =? 13 then [92; 114]
  else if c =? 9 then [92; 116]
  else if c =? 12 then [92; 102]
  else if c =? 8 then [92; 98]
  else if c <? 32 then escape_u c
  else if ensure_ascii && (126 <? c) then
    if c <? 65536 then escape_u c
    else escape_u (55296 + (c - 65536) / 1024) ++ escape_u (56320 + (c - 65536) mod 1024)
  else [c].

Definition quote (s : pystr) : pystr := 34 :: (s ≫= escape_char) ++ [34].

Definition blank : pystr := if spaced then [32] else [].

Fixpoint join (sep : pystr) (l : list pystr) : pystr :=
  match l with
  | [] => []
  | [x] => x
  | x :: r => x ++ sep ++ join sep r
  end.

Fixpoint dumps (v : json) : pystr :=
  match v with
  | JNull => §"null"
  | JBool true => §"true"
  | JBool false => §"false"
  | JInt z => int_str z
  | JFloat t => t
  | JStr s => quote s
  | JList l => 91 :: join (44 :: blank) (map dumps l) ++ [93]
  | JObj m =>
      let items := ordered order (map (fun kv => (kv.1, dumps kv.2)) m) in
      123 :: join (44 :: blank) (map (fun kv => quote kv.1 ++ 58 :: blank ++ kv.2) items) ++ [125]
  end.

(** What a round trip gives back: the same value, with the items of every
    [dict] sorted when the printer sorts them. *)
Fixpoint normal (v : json) : json :=
  match v with
  | JList l => JList (map normal l)
  | JObj m => JObj (ordered order (map (fun kv => (kv.1, normal kv.2)) m))
  | _ => v
  end.
End dumps.

(** ** Parsing *)

Definition is_ws (c : Z) : bool := (c =? 32) || (c =? 9) || (c =? 10) || (c =? 13).
Definition skip_ws (l : pystr) : pystr := lstrip_by is_ws l.

Definition hex_val (c : Z) : option Z :=
  if (48 <=? c) && (c <=? 57) then Some (c - 48)
  else if (97 <=? c) && (c <=? 102) then Some (c - 87)
  else if (65 <=? c) && (c <=? 70) then Some (c - 55)
  else None.

Definition hex4 (a b c d : Z) : option Z :=
  match hex_val a, hex_val b, hex_val c, hex_val d with
  | Some a, Some b, Some c, Some d => Some (((a * 16 + b) * 16 + c) * 16 + d)
  | _, _, _, _ => None
  end.

Definition is_high (u : Z) : bool := (55296 <=? u) && (u <=? 56319).
Definition is_low (u : Z) : bool := (56320 <=? u) && (u <=? 57343).

Definition simple_escape (e : Z) : option Z :=
  if e =? 34 then Some 34 else if e =? 92 then Some 92 else if e =? 47 then Some 47
  else if e =? 98 then Some 8 else if e =? 102 then Some 12 else if e =? 110 then Some 10
  else if e =? 114 then Some 13 else if e =? 116 then Some 9 else None.

Definition push (c : Z) (r : option (pystr * pystr)) : option (pystr * pystr) :=
  match r with Some (s, t) => Some (c :: s, t) | None => None end.

(** The characters of a string literal after its opening quote; a surrogate
    pair of two [\u] escapes is one character. *)
Fixpoint parse_str (l : pystr) : option (pystr * pystr) :=
  match l with
  | [] => None
  | c :: r =>
      if c =? 34 then Some ([], r)
      else if c =? 92 then
        match r with
        | [] => None
        | e :: r1 =>
            if e =? 117 then
              match r1 with
              | a :: b :: c :: d :: r5 =>
                  match hex4 a b c d with
                  | None => None
                  | Some u =>
                      match r5 with
                      | e1 :: e2 :: a' :: b' :: c' :: d' :: r11 =>
                          if is_high u && (e1 =? 92) && (e2 =? 117) then
                            match hex4 a' b' c' d' with
                            | None => None
                            | Some u' =>
                                if is_low u' then
                                  push (65536 + (u - 55296) * 1024 + (u' - 56320)) (parse_str r11)
                                else push u (parse_str r5)
                            end
                          else push u (parse_str r5)
                      | _ => push u (parse_str r5)
                      end
                  end
              | _ => None
              end
            else
              match simple_escape e with
              | Some c' => push c' (parse_str r1)
              | None => None
              end
        end
      else if c <? 32 then None
      else push c (parse_str r)
  end.

Fixpoint span_digits (l : pystr) : pystr * pystr :=
  match l with
  | c :: r => if is_digit c then let '(d, t) := span_digits r in (c :: d, t) else ([], l)
  | [] => ([], [])
  end.

(** [int(text)] refuses more than 4300 digits. *)
Definition max_str_digits : nat := 4300.

(** The optional fraction and exponent after the integer part. *)
Definition parse_frac (l : pystr) : pystr * pystr :=
  match l with
  | 46 :: r =>
      match span_digits r with
      | ([], _) => ([], l)
      | (d, t) => (46 :: d, t)
      end
  | _ => ([], l)
  end.

Definition parse_exp (l : pystr) : pystr * pystr :=
  match l with
  | e :: r =>
      if (e =? 101) || (e =? 69) then
        let '(sg, r') :=
          match r with
          | s :: r' => if (s =? 43) || (s =? 45) then ([s], r') else ([], r)
          | [] => ([], [])
          end in
        match span_digits r' with
        | ([], _) => ([], l)
        | (d, t) => (e :: sg ++ d, t)
        end
      else ([], l)
  | [] => ([], [])
  end.

(** The digits of an integer part: a single zero, or digits that do not
    start with one. *)
Definition parse_intpart (l : pystr) : option (pystr * pystr) :=
  match l with
  | c :: r =>
      if c =? 48 then Some ([48], r)
      else if is_digit c then Some (span_digits l)
      else None
  | [] => None
  end.

Definition parse_num (l : pystr) : option (json * pystr) :=
  let '(neg, l0) :=
    match l with
    | c :: r => if c =? 45 then (true, r) else (false, l)
    | [] => (false, l)
    end in
  match parse_intpart l0 with
  | None =>
      if starts_with §"Infinity" l0 then
        Some (JFloat ((if neg then [45] else []) ++ §"Infinity"), drop 8 l0)
      else None
  | Some (d, l1) =>
      let '(fr, l2) := parse_frac l1 in
      let '(ex, l3) := parse_exp l2 in
      match fr, ex with
      | [], [] =>
          if (max_str_digits <? length d)%nat then None
          else Some (JInt (if neg then - digits_val d else digits_val d), l3)
      | _, _ => Some (JFloat ((if neg then [45] else []) ++ d ++ fr ++ ex), l3)
      end
  end.

Definition parse_word (w : pystr) (v : json) (l : pystr) : option (json * pystr) :=
  if starts_with w l then Some (v, drop (length w) l) else None.

Fixpoint parse_value (n : nat) (l : pystr) : option (json * pystr) :=
  match n with
  | O => None
  | S n' =>
      match l with
      | [] => None
      | c :: r =>
          if c =? 34 then
            match parse_str r with Some (s, t) => Some (JStr s, t) | None => None end
          else if c =? 123 then
            match skip_ws r with
            | [] => None
            | c1 :: t => if c1 =? 125 then Some (JObj [], t) else parse_members n' [] (c1 :: t)
            end
          else if c =? 91 then
            match skip_ws r with
            | [] => None
            | c1 :: t => if c1 =? 93 then Some (JList [], t) else parse_items n' [] (c1 :: t)
            end
          else if c =? 110 then parse_word §"null" JNull l
          else if c =? 116 then parse_word §"true" (JBool true) l
          else if c =? 102 then parse_word §"false" (JBool false) l
          else if c =? 78 then parse_word §"NaN" (JFloat §"NaN") l
          else parse_num l
      end
  end
with parse_items (n : nat) (acc : list json) (l : pystr) : option (json * pystr) :=
  match n with
  | O => None
  | S n' =>
      match parse_value n' l with
      | None => None
      | Some (v, r) =>
          match skip_ws r with
          | [] => None
          | c :: t =>
              if c =? 44 then parse_items n' (acc ++ [v]) (skip_ws t)
              else if c =? 93 then Some (JList (acc ++ [v]), t)
              else None
          end
      end
  end
with parse_members (n : nat) (acc : list (pystr * json)) (l : pystr) : option (json * pystr) :=
  match n, l with
  | S n', q :: r =>
      if negb (q =? 34) then None
      else
        match parse_str r with
        | None => None
        | Some (k, r1) =>
            match skip_ws r1 with
            | [] => None
            | c :: r2 =>
                if negb (c =? 58) then None
                else
                  match parse_value n' (skip_ws r2) with
                  | None => None
                  | Some (v, r3) =>
                      match skip_ws r3 with
                      | [] => None
                      | c' :: t =>
                          if c' =? 44 then parse_members n' (dict_set k v acc) (skip_ws t)
                          else if c' =? 125 then Some (JObj (dict_set k v acc), t)
                          else None
                      end
                  end
            end
        end
  | _, _ => None
  end.

(** [json.loads(text)]: [None] is the [JSONDecodeError] (a [ValueError]). *)
Definition loads (s : pystr) : option json :=
  match parse_value (S (length s)) (skip_ws s) with
  | Some (v, r) => match skip_ws r with [] => Some v | _ :: _ => None end
  | None => None
  end.

(** ** The round trip *)

(** Unicode scalar values: what [utf-8] can encode. *)
Definition is_scalar (c : Z) : bool :=
  (0 <=? c) && (c <? 1114112) && negb ((55296 <=? c) && (c <=? 57343)).

(** The values [dumps] prints faithfully: no float, no lone surrogate, no
    integer past the interpreter's digit limit, distinct keys. *)
Fixpoint json_ok (v : json) : bool :=
  match v with
  | JNull | JBool _ => true
  | JInt z => (length (digits (Z.abs z)) <=? max_str_digits)%nat
  | JFloat _ => false
  | JStr s => forallb is_scalar s
  | JList l => forallb json_ok l
  | JObj m =>
      bool_decide (NoDup (map fst m))
      && forallb (fun kv => forallb is_scalar kv.1 && json_ok kv.2) m
  end.

Lemma hex_val_digit n : 0 <= n < 16 -> hex_val (hex_digit n) = Some n.
Proof.
  intros H. unfold hex_val, hex_digit.
  destruct (n <? 10) eqn:?; repeat zbool; f_equal; lia.
Qed.

Lemma hex4_bytes u :
  0 <= u < 65536 ->
  hex4 (hex_digit (u / 256 / 16)) (hex_digit ((u / 256) mod 16))
       (hex_digit (u mod 256 / 16)) (hex_digit ((u mod 256) mod 16)) = Some u.
Proof. intros H. unfold hex4. rewrite !hex_val_digit by lia. f_equal. lia. Qed.

Lemma parse_escape_u u t :
  0 <= u < 65536 -> is_high u = false ->
  parse_str (escape_u u ++ t) = push u (parse_str t).
Proof.
  intros Hu Hh. unfold escape_u, hex_byte. cbn [app parse_str].
  change (92 =? 34) with false. change (92 =? 92) with true. change (117 =? 117) with true.
  cbn [app]. rewrite hex4_bytes by done. rewrite Hh.
  by destruct t as [|? [|? [|? [|? [|? [|? ?]]]]]].
Qed.

Lemma parse_escape_pair h l t :
  0 <= h < 65536 -> is_high h = true -> 0 <= l < 65536 -> is_low l = true ->
  parse_str (escape_u h ++ escape_u l ++ t)
  = push (65536 + (h - 55296) * 1024 + (l - 56320)) (parse_str t).
Proof.
  intros Hh Hh' Hl Hl'. unfold escape_u, hex_byte. cbn [app parse_str].
  change (92 =? 34) with false. change (92 =? 92) with true. change (117 =? 117) with true.
  rewrite hex4_bytes by done. rewrite Hh'. cbn [andb]. rewrite hex4_bytes by done.
  by rewrite Hl'.
Qed.

Lemma parse_str_char a c t :
  is_scalar c = true -> parse_str (escape_char a c ++ t) = push c (parse_str t).
Proof.
  unfold is_scalar. intros H. unfold escape_char.
  destruct (c =? 34) eqn:E1; [bool_to_prop; by subst|].
  destruct (c =? 92) eqn:E2; [bool_to_prop; by subst|].
  destruct (c =? 10) eqn:E3; [bool_to_prop; by subst|].
  destruct (c =? 13) eqn:E4; [bool_to_prop; by subst|].
  destruct (c =? 9) eqn:E5; [bool_to_prop; by subst|].
  destruct (c =? 12) eqn:E6; [bool_to_prop; by subst|].
  destruct (c =? 8) eqn:E7; [bool_to_prop; by subst|].
  destruct (c <? 32) eqn:E8; [apply parse_escape_u; [lia|unfold is_high; lia]|].
  destruct (a && (126 <? c)) eqn:E9.
  - destruct (c <? 65536) eqn:E10; [apply parse_escape_u; [lia|unfold is_high; lia]|].
    rewrite <- app_assoc, parse_escape_pair; unfold is_high, is_low; [f_equal|..]; lia.
  - cbn [app parse_str]. by rewrite E1, E2, E8.
Qed.

Lemma parse_str_quote a s t :
  forallb is_scalar s = true -> parse_str ((s ≫= escape_char a) ++ 34 :: t) = Some (s, t).
Proof.
  induction s as [|c s IH]; intros H; [done|]. cbn [forallb] in H. bool_to_prop.
  change ((c :: s) ≫= escape_char a) with (escape_char a c ++ (s ≫= escape_char a)).
  rewrite <- app_assoc, parse_str_char, IH by done. done.
Qed.

(** What may follow a value in printed text: nothing that extends a number. *)
Definition stops (l : pystr) : bool :=
  match l with
  | [] => true
  | c :: _ => negb (is_digit c) && negb (c =? 46) && negb (c =? 101) && negb (c =? 69)
  end.

Lemma span_digits_app d t :
  Forall (fun c => is_digit c = true) d -> stops t = true -> span_digits (d ++ t) = (d, t).
Proof.
  intros Hd Ht. induction Hd as [|c d Hc _ IH]; cbn [app span_digits].
  - destruct t as [|c t]; [done|]. cbn in Ht. bool_to_prop. cbn. by rewrite H.
  - by rewrite Hc, IH.
Qed.

Lemma parse_frac_stops t : stops t = true -> parse_frac t = ([], t).
Proof.
  destruct t as [|c t]; [done|]. cbn. intros H. bool_to_prop.
  destruct c as [|p|p]; try done. do 6 (destruct p as [p|p|]; try done).
Qed.

Lemma parse_exp_stops t : stops t = true -> parse_exp t = ([], t).
Proof.
  destruct t as [|c t]; [done|]. cbn. intros H. bool_to_prop.
  by rewrite false_if by lia.
Qed.

Lemma parse_intpart_digits n t :
  0 <= n -> stops t = true -> parse_intpart (digits n ++ t) = Some (digits n, t).
Proof.
  intros Hn Ht. destruct (Z.eq_dec n 0) as [->|]; [done|].
  destruct (digits_head n) as (c & r & E & Hc); [lia|].
  pose proof (digits_digit n Hn) as Hd. rewrite E in *.
  cbn [app parse_intpart]. rewrite false_if by lia. inversion Hd as [|? ? Hc' _]; subst.
  rewrite Hc'. change (c :: r ++ t) with ((c :: r) ++ t). by rewrite span_digits_app.
Qed.

Lemma parse_num_digits neg n t :
  0 <= n -> stops t = true -> (length (digits n) <= max_str_digits)%nat ->
  parse_num ((if neg : bool then [45] else []) ++ digits n ++ t)
  = Some (JInt (if neg then - n else n), t).
Proof.
  intros Hn Ht Hl. unfold parse_num.
  destruct (digits_cons n) as (c & r & E). pose proof (digits_digit n Hn) as Hd.
  assert (Hc : (c =? 45) = false).
  { rewrite E in Hd. inversion Hd as [|? ? Hc _]. unfold is_digit in Hc. lia. }
  assert (Hp : (match (if neg then [45] else []) ++ digits n ++ t with
                | c :: r => if c =? 45 then (true, r)
                            else (false, (if neg then [45] else []) ++ digits n ++ t)
                | [] => (false, (if neg then [45] else []) ++ digits n ++ t)
                end) = (neg, digits n ++ t)).
  { destruct neg; [done|]. rewrite E. cbn [app]. by rewrite Hc. }
  rewrite Hp, parse_intpart_digits, parse_frac_stops, parse_exp_stops by done.
  rewrite false_if by (apply Nat.ltb_ge; lia). by rewrite digits_val_digits.
Qed.

(** *** Sorting *)

Lemma insert_item_perm {A} leb (kv : pystr * A) m : insert_item leb kv m ≡ₚ kv :: m.
Proof.
  induction m as [|kv' m IH]; cbn; [done|]. destruct (leb _ _); [done|].
  rewrite IH. apply Permutation_swap.
Qed.

Lemma sort_items_perm {A} leb (m : list (pystr * A)) : sort_items leb m ≡ₚ m.
Proof. induction m as [|kv m IH]; cbn; [done|]. by rewrite insert_item_perm, IH. Qed.

Lemma ordered_perm {A} o (m : list (pystr * A)) : ordered o m ≡ₚ m.
Proof. destruct o; [apply sort_items_perm|done]. Qed.

Lemma insert_item_map {A B} leb (f : A -> B) kv m :
  insert_item leb (kv.1, f kv.2) (map (fun kv => (kv.1, f kv.2)) m)
  = map (fun kv => (kv.1, f kv.2)) (insert_item leb kv m).
Proof.
  induction m as [|kv' m IH]; cbn; [done|]. destruct (leb _ _); [done|].
  cbn. by rewrite IH.
Qed.

Lemma ordered_map {A B} o (f : A -> B) m :
  ordered o (map (fun kv => (kv.1, f kv.2)) m) = map (fun kv => (kv.1, f kv.2)) (ordered o m).
Proof.
  destruct o as [leb|]; [|done]. cbn. induction m as [|kv m IH]; [done|].
  change (sort_items leb (map ?g (kv :: m)))
    with (insert_item leb (g kv) (sort_items leb (map g m))).
  rewrite IH. apply (insert_item_map leb f).
Qed.

(** The order on keys is total and antisymmetric, so sorting forgets the
    insertion order and nothing else. *)
Lemma str_leb_total a b : str_leb a b = true \/ str_leb b a = true.
Proof.
  revert b. induction a as [|x a IH]; intros [|y b]; cbn; auto.
  destruct (IH b) as [H|H]; rewrite H; destruct (str_leb _ _), (Z.lt_total x y) as [?|[?|?]]; lia.
Qed.

Lemma str_leb_antisym a b : str_leb a b = true -> str_leb b a = true -> a = b.
Proof.
  revert b. induction a as [|x a IH]; intros [|y b]; cbn; try done. intros H1 H2.
  apply orb_prop in H1 as [H1|[H1 H1']%andb_prop], H2 as [H2|[H2 H2']%andb_prop]; try lia.
  f_equal; [lia|]. by apply IH.
Qed.

Lemma str_leb_trans a b c : str_leb a b = true -> str_leb b c = true -> str_leb a c = true.
Proof.
  revert b c. induction a as [|x a IH]; intros [|y b] [|z c]; cbn; try done. intros H1 H2.
  apply orb_prop in H1 as [H1|[H1 H1']%andb_prop], H2 as [H2|[H2 H2']%andb_prop];
    apply orb_true_iff; try (left; lia).
  right. apply andb_true_iff. split; [lia|]. by apply (IH b c).
Qed.

(** *** The parser reads back what the printer wrote *)

Fixpoint cost (v : json) : nat :=
  match v with
  | JList l => S (foldr (fun x n => S (cost x + n)) O l)
  | JObj m => S (foldr (fun kv n => S (cost kv.2 + n)) O m)
  | _ => 1
  end.

Definition items_cost (l : list json) : nat := foldr (fun x n => S (cost x + n)) O l.
Definition members_cost (m : list (pystr * json)) : nat :=
  foldr (fun kv n => S (cost kv.2 + n)) O m.

Lemma members_cost_perm m m' : m ≡ₚ m' -> members_cost m = members_cost m'.
Proof.
  unfold members_cost. induction 1; cbn; lia.
Qed.

Section roundtrip.
Variables (ascii spaced : bool) (order : key_order).
Abbreviation dumps := (dumps ascii spaced order).
Abbreviation normal := (normal order).
Abbreviation sep := (44 :: blank spaced).

(** The first character of a printed value: no blank, no closing bracket. *)
Definition value_head (c : Z) : bool :=
  negb (is_ws c) && negb (c =? 93) && negb (c =? 125).

Lemma dumps_head v : json_ok v = true -> exists c r, dumps v = c :: r /\ value_head c = true.
Proof.
  destruct v as [|[]|z|t|s|l|m]; cbn -[int_str]; intros Hok; try done; try (by eexists _, _).
  unfold int_str. destruct (z <? 0) eqn:E; [by eexists _, _|].
  destruct (digits_cons z) as (c & r & Ed). exists c, r. split; [done|].
  bool_to_prop. pose proof (digits_digit z E) as Hd. rewrite Ed in Hd.
  inversion Hd as [|? ? Hc _]. unfold is_digit in Hc. unfold value_head, is_ws. lia.
Qed.

Lemma skip_ws_head c t : is_ws c = false -> skip_ws (c :: t) = c :: t.
Proof. unfold skip_ws. cbn. by intros ->. Qed.

Lemma skip_ws_blank t : skip_ws (blank spaced ++ t) = skip_ws t.
Proof. unfold blank. by destruct spaced. Qed.

Lemma skip_ws_dumps v t : json_ok v = true -> skip_ws (dumps v ++ t) = dumps v ++ t.
Proof.
  intros Hok. destruct (dumps_head v Hok) as (c & r & -> & Hc).
  apply skip_ws_head. unfold value_head in Hc. by bool_to_prop.
Qed.

(** [parse_value] reads back [dumps v] with enough fuel. *)
Definition reads (v : json) : Prop :=
  json_ok v = true -> forall n t, (cost v <= n)%nat -> stops t = true ->
  parse_value n (dumps v ++ t) = Some (normal v, t).

Lemma reads_int z : reads (JInt z).
Proof.
  intros Hok [|n] t Hn Ht; [cbn in Hn; lia|]. cbn in Hok. apply Nat.leb_le in Hok.
  cbn [normal]. change (dumps (JInt z)) with (int_str z).
  assert (Hp : parse_num (int_str z ++ t) = Some (JInt z, t)).
  { unfold int_str. destruct (z <? 0) eqn:E; bool_to_prop.
    - rewrite Z.abs_neq in Hok by lia.
      pose proof (parse_num_digits true (- z) t ltac:(lia) Ht Hok) as P.
      rewrite Z.opp_involutive in P. exact P.
    - rewrite Z.abs_eq in Hok by lia.
      exact (parse_num_digits false z t E Ht Hok). }
  assert (Hh : exists c r, int_str z ++ t = c :: r /\ (c = 45 \/ is_digit c = true)).
  { unfold int_str. destruct (z <? 0) eqn:E; [eexists _, _; split; [done|by left]|].
    bool_to_prop. destruct (digits_cons z) as (c & r & Ed).
    pose proof (digits_digit z E) as Hd. rewrite Ed in *. eexists _, _. split; [done|].
    right. by inversion Hd. }
  destruct Hh as (c & r & Ec & Hc). rewrite Ec in *. cbn [parse_value].
  assert (c = 45 \/ 48 <= c <= 57) by (unfold is_digit in Hc; lia).
  repeat rewrite false_if by lia. done.
Qed.

Lemma parse_items_join l :
  Forall reads l -> forallb json_ok l = true -> l <> [] ->
  forall acc n t, (items_cost l <= n)%nat ->
  parse_items n acc (join sep (map dumps l) ++ 93 :: t) = Some (JList (acc ++ map normal l), t).
Proof.
  induction 1 as [|v l Hv _ IH]; intros Hok Hne acc n t Hn; [done|]. clear Hne.
  cbn [forallb] in Hok. bool_to_prop. cbn [items_cost foldr] in Hn. fold (items_cost l) in Hn.
  destruct n as [|n]; [lia|]. cbn [parse_items].
  destruct l as [|w l].
  - cbn [map join]. rewrite Hv by (done || lia). done.
  - change (join sep (map dumps (v :: w :: l)))
      with (dumps v ++ sep ++ join sep (map dumps (w :: l))).
    rewrite <- app_assoc, Hv by (done || lia). cbn [app]. rewrite skip_ws_head by done.
    change (44 =? 44) with true. cbv iota. rewrite <- app_assoc, skip_ws_blank.
    replace (skip_ws (join sep (map dumps (w :: l)) ++ 93 :: t))
      with (join sep (map dumps (w :: l)) ++ 93 :: t).
    + rewrite IH by (done || lia). by rewrite <- app_assoc.
    + cbn [forallb] in *. bool_to_prop. destruct l; cbn [map join].
      * by rewrite skip_ws_dumps.
      * by rewrite <- app_assoc, skip_ws_dumps.
Qed.

Definition member_text (kv : pystr * json) : pystr :=
  quote ascii kv.1 ++ 58 :: blank spaced ++ dumps kv.2.

Definition member_ok (kv : pystr * json) : bool := forallb is_scalar kv.1 && json_ok kv.2.

Lemma parse_members_join m :
  Forall (fun kv => reads kv.2) m -> forallb member_ok m = true -> m <> [] ->
  forall acc n t, (members_cost m <= n)%nat -> NoDup (map fst acc ++ map fst m) ->
  parse_members n acc (join sep (map member_text m) ++ 125 :: t)
  = Some (JObj (acc ++ map (fun kv => (kv.1, normal kv.2)) m), t).
Proof.
  induction 1 as [|[k v] m Hv _ IH]; intros Hok Hne acc n t Hn Hnd; [done|]. clear Hne.
  cbn [forallb] in Hok. apply andb_prop in Hok as [[Hk Hvok]%andb_prop Hok].
  cbn [members_cost foldr fst snd] in *. fold (members_cost m) in Hn.
  destruct n as [|n]; [lia|].
  assert (Hset : dict_set k (normal v) acc = acc ++ [(k, normal v)]).
  { apply dict_set_fresh. rewrite <- list_elem_of_In. intros Hin.
    apply NoDup_app in Hnd as (_ & Hd & _). apply (Hd k Hin). left. }
  assert (Hstep : forall u, stops u = true ->
    parse_members (S n) acc (member_text (k, v) ++ u)
    = match skip_ws u with
      | [] => None
      | c' :: t =>
          if c' =? 44 then parse_members n (acc ++ [(k, normal v)]) (skip_ws t)
          else if c' =? 125 then Some (JObj (acc ++ [(k, normal v)]), t) else None
      end).
  { intros u Hu. unfold member_text, quote. cbn [fst snd app].
    rewrite <- app_assoc. cbn [app]. cbn [parse_members].
    change (negb (34 =? 34)) with false. cbv iota.
    rewrite <- app_assoc. cbn [app]. rewrite parse_str_quote by done.
    rewrite skip_ws_head by done. change (negb (58 =? 58)) with false. cbv iota.
    cbn [app]. rewrite <- app_assoc, skip_ws_blank, skip_ws_dumps, Hv by (done || lia).
    by rewrite Hset. }
  destruct m as [|kv m].
  - cbn [map join]. by rewrite Hstep.
  - change (join sep (map member_text ((k, v) :: kv :: m)))
      with (member_text (k, v) ++ sep ++ join sep (map member_text (kv :: m))).
    rewrite <- app_assoc, Hstep by done. cbn [app]. rewrite skip_ws_head by done.
    change (44 =? 44) with true. cbv iota. rewrite <- app_assoc, skip_ws_blank.
    replace (skip_ws (join sep (map member_text (kv :: m)) ++ 125 :: t))
      with (join sep (map member_text (kv :: m)) ++ 125 :: t)
      by (destruct m; symmetry; by apply skip_ws_head).
    rewrite IH; [by rewrite <- app_assoc|done|done|lia|].
    rewrite map_app, <- app_assoc. done.
Qed.

Lemma parse_dumps v : reads v.
Proof.
  induction v as [|b|z|l|s|l IH|m IH] using json_nested_ind.
  - intros _ [|n] t Hn _; [cbn in Hn; lia|]. done.
  - intros _ [|n] t Hn _; [cbn in Hn; lia|]. by destruct b.
  - apply reads_int.
  - done.
  - intros Hok [|n] t Hn _; [cbn in Hn; lia|]. cbn in Hok.
    change (dumps (JStr s) ++ t) with (34 :: ((s ≫= escape_char ascii) ++ [34]) ++ t).
    rewrite <- app_assoc. cbn [parse_value app]. change (34 =? 34) with true. cbv iota.
    by rewrite parse_str_quote.
  - intros Hok [|n] t Hn _; [cbn in Hn; lia|]. cbn [json_ok] in Hok.
    cbn [cost] in Hn. fold (items_cost l) in Hn.
    change (dumps (JList l)) with (91 :: join sep (map dumps l) ++ [93]).
    cbn [app parse_value]. repeat rewrite false_if by done. rewrite true_if by done.
    rewrite <- app_assoc. cbn [app].
    destruct l as [|v l]; [done|].
    assert (Hh : exists c r, join sep (map dumps (v :: l)) = c :: r /\ value_head c = true).
    { cbn [forallb] in Hok. bool_to_prop. destruct (dumps_head v) as (c & r & E & Hc); [done|].
      cbn [map join]. destruct (map dumps l); rewrite E; cbn; eauto. }
    destruct Hh as (c & r & E & Hc). unfold value_head in Hc. bool_to_prop.
    rewrite E. cbn [app]. rewrite skip_ws_head by done. rewrite false_if by lia.
    change (c :: r ++ 93 :: t) with ((c :: r) ++ 93 :: t). rewrite <- E.
    rewrite parse_items_join by (done || lia). done.
  - intros Hok [|n] t Hn _; [cbn in Hn; lia|]. cbn [json_ok] in Hok. bool_to_prop.
    cbn [cost] in Hn. fold (members_cost m) in Hn.
    set (m' := ordered order m).
    assert (Hperm : m' ≡ₚ m) by apply ordered_perm.
    assert (Htext : dumps (JObj m) = 123 :: join sep (map member_text m') ++ [125]).
    { cbn [dumps]. subst m'. unfold member_text. by rewrite ordered_map, map_map. }
    assert (Hnorm : normal (JObj m) = JObj (map (fun kv => (kv.1, normal kv.2)) m')).
    { cbn [normal]. subst m'. by rewrite ordered_map. }
    rewrite Htext, Hnorm. cbn [app parse_value]. rewrite <- app_assoc. cbn [app].
    repeat rewrite false_if by done. rewrite true_if by done.
    destruct (decide (m' = [])) as [->|Hne]; [done|].
    assert (Hh : exists r, join sep (map member_text m') = 34 :: r).
    { destruct m' as [|kv [|kv' r]]; [done|..]; cbn; eauto. }
    destruct Hh as (r & E). rewrite E. cbn [app]. rewrite skip_ws_head by done.
    change (34 =? 125) with false. cbv iota.
    change (34 :: r ++ 125 :: t) with ((34 :: r) ++ 125 :: t). rewrite <- E.
    rewrite parse_members_join; [done|..].
    + by rewrite Hperm.
    + unfold member_ok. rewrite forallb_forall in *. intros kv Hin. apply H0.
      rewrite <- list_elem_of_In in *. by rewrite <- Hperm.
    + done.
    + rewrite (members_cost_perm _ _ Hperm). lia.
    + cbn. by rewrite Hperm.
Qed.

(** *** The fuel of [loads] is enough *)

Lemma items_cost_join l :
  Forall (fun v => json_ok v = true -> (cost v <= length (dumps v))%nat) l ->
  forallb json_ok l = true ->
  (items_cost l <= S (length (join sep (map dumps l))))%nat.
Proof.
  induction 1 as [|v l Hv _ IH]; intros Hok; [cbn; lia|]. cbn [forallb] in Hok. bool_to_prop.
  cbn [items_cost foldr]. fold (items_cost l).
  destruct l as [|w l]; [specialize (Hv H); cbn; lia|].
  change (join sep (map dumps (v :: w :: l)))
    with (dumps v ++ sep ++ join sep (map dumps (w :: l))).
  rewrite !length_app. cbn [length]. specialize (Hv H). specialize (IH H0). lia.
Qed.

Lemma members_cost_join m :
  Forall (fun kv => json_ok kv.2 = true -> (cost kv.2 <= length (dumps kv.2))%nat) m ->
  forallb member_ok m = true ->
  (members_cost m <= S (length (join sep (map member_text m))))%nat.
Proof.
  induction 1 as [|[k v] m Hv _ IH]; intros Hok; [cbn; lia|]. cbn [forallb] in Hok.
  apply andb_prop in Hok as [[_ Hvok]%andb_prop Hok].
  cbn [members_cost foldr fst snd] in *. fold (members_cost m).
  specialize (Hv Hvok). specialize (IH Hok).
  assert (Hm : (length (dumps v) <= length (member_text (k, v)))%nat).
  { unfold member_text. rewrite !length_app. cbn [length fst snd]. rewrite length_app. lia. }
  destruct m as [|kv m]; [cbn [map join]; cbn in *; lia|].
  change (join sep (map member_text ((k, v) :: kv :: m)))
    with (member_text (k, v) ++ sep ++ join sep (map member_text (kv :: m))).
  rewrite !length_app. cbn [length]. lia.
Qed.

Lemma dumps_obj m :
  dumps (JObj m)
  = 123 :: join sep (map member_text (ordered order m)) ++ [125].
Proof.
  cbn [Json.dumps]. unfold member_text. by rewrite ordered_map, map_map.
Qed.

Lemma cost_dumps v : json_ok v = true -> (cost v <= length (dumps v))%nat.
Proof.
  induction v as [|b|z|l|s|l IH|m IH] using json_nested_ind; intros Hok; try done.
  - change (1 <= 4)%nat. lia.
  - destruct b; [change (1 <= 4)%nat|change (1 <= 5)%nat]; lia.
  - cbn. unfold int_str. destruct (z <? 0); [cbn; lia|].
    destruct (digits_cons z) as (c & r & ->). cbn. lia.
  - cbn. lia.
  - cbn [json_ok] in Hok. cbn [cost Json.dumps length]. fold (items_cost l).
    rewrite length_app. cbn [length]. pose proof (items_cost_join l IH Hok). lia.
  - cbn [json_ok] in Hok. apply andb_prop in Hok as [_ Hok].
    rewrite dumps_obj. cbn [cost length]. fold (members_cost m).
    rewrite length_app. cbn [length].
    set (m' := ordered order m).
    assert (Hperm : m' ≡ₚ m) by apply ordered_perm.
    rewrite <- (members_cost_perm _ _ Hperm).
    pose proof (members_cost_join m') as H. rewrite Hperm in H at 1. specialize (H IH).
    unfold member_ok in H. rewrite forallb_forall in H, Hok.
    assert ((members_cost m' <= S (length (join sep (map member_text m'))))%nat); [|lia].
    apply H. intros kv Hin. apply Hok.
    rewrite <- list_elem_of_In in *. by rewrite <- Hperm.
Qed.

(** [json.loads(json.dumps(v)) == v], keys sorted when the printer sorts. *)
Lemma loads_dumps v : json_ok v = true -> loads (dumps v) = Some (normal v).
Proof.
  intros Hok. unfold loads. pose proof (skip_ws_dumps v [] Hok) as Hs.
  rewrite app_nil_r in Hs. rewrite Hs.
  pose proof (cost_dumps v Hok) as Hc.
  pose proof (parse_dumps v Hok (S (length (dumps v))) [] ltac:(lia) eq_refl) as Hp.
  rewrite app_nil_r in Hp. by rewrite Hp.
Qed.

(** So printing is injective, up to the order of keys it sorts away. *)
Lemma dumps_inj v w :
  json_ok v = true -> json_ok w = true -> dumps v = dumps w -> normal v = normal w.
Proof.
  intros Hv Hw E. apply (f_equal loads) in E.
  rewrite !loads_dumps in E by done. congruence.
Qed.
End roundtrip.

(** In insertion order the value comes back unchanged. *)
Lemma normal_none v : normal None v = v.
Proof.
  induction v as [|b|z|l|s|l IH|m IH] using json_nested_ind; cbn [normal]; try done; f_equal.
  - induction IH as [|v l Hv _ IH']; cbn; [done|]. by rewrite Hv, IH'.
  - induction IH as [|[k v] m Hv _ IH']; cbn in *; [done|]. by rewrite Hv, IH'.
Qed.

(** A printed value followed by a newline. *)
Lemma loads_dumps_line ascii spaced order v :
  json_ok v = true -> loads (dumps ascii spaced order v ++ [10]) = Some (normal order v).
Proof.
  intros Hok. unfold loads. rewrite skip_ws_dumps by done.
  pose proof (cost_dumps ascii spaced order v Hok) as Hc.
  rewrite parse_dumps; [done|done| |done]. rewrite length_app. cbn. lia.
Qed.

(** ** Dictionaries as finite maps *)

Lemma dict_get_set {A} k (v : A) m : dict_get k (dict_set k v m) = Some v.
Proof.
  induction m as [|[k' v'] m IH]; cbn; [by rewrite str_eqb_refl|].
  destruct (str_eqb k k') eqn:E; cbn; [by rewrite str_eqb_refl|by rewrite E].
Qed.

Lemma dict_get_set_ne {A} k k' (v : A) m : k <> k' -> dict_get k (dict_set k' v m) = dict_get k m.
Proof.
  intros Hne. induction m as [|[k2 v2] m IH]; cbn; [by rewrite str_eqb_ne|].
  destruct (str_eqb k' k2) eqn:E; cbn; [|by rewrite IH].
  apply bool_decide_eq_true_1 in E as <-. by rewrite !str_eqb_ne.
Qed.

Lemma dict_get_elem {A} k (v : A) (m : list (pystr * A)) :
  NoDup (map fst m) -> dict_get k m = Some v <-> (k, v) ∈ m.
Proof.
  induction m as [|[k' v'] m IH]; cbn; intros Hn; [by split; [|intros ?%not_elem_of_nil]|].
  apply NoDup_cons in Hn as [Hk Hn]. rewrite elem_of_cons. destruct (str_eqb k k') eqn:E.
  - apply bool_decide_eq_true_1 in E as <-. split; [intros [= ->]; by left|].
    intros [[= ->]|Hin]; [done|]. destruct Hk. apply list_elem_of_In, in_map_iff.
    exists (k, v). split; [done|by apply list_elem_of_In].
  - apply bool_decide_eq_false_1 in E. rewrite IH by done. split; [by right|].
    intros [[= -> ->]|Hin]; done.
Qed.

Lemma dict_get_perm {A} (m m' : list (pystr * A)) k :
  NoDup (map fst m) -> m ≡ₚ m' -> dict_get k m = dict_get k m'.
Proof.
  intros Hn Hp. assert (Hn' : NoDup (map fst m')) by by rewrite <- Hp.
  destruct (dict_get k m) as [v|] eqn:E, (dict_get k m') as [v'|] eqn:E'; try done.
  - apply dict_get_elem in E, E'; [|done..]. rewrite <- Hp in E'.
    apply dict_get_elem in E, E'; [|done..]. congruence.
  - apply dict_get_elem in E; [|done]. rewrite Hp in E. apply dict_get_elem in E; [congruence|done].
  - apply dict_get_elem in E'; [|done]. rewrite <- Hp in E'. apply dict_get_elem in E'; [congruence|done].
Qed.

(** Sorting by key does not depend on the order it starts from. *)
Lemma insert_item_sorted {A} (kv : pystr * A) m :
  StronglySorted (fun a b => str_leb a.1 b.1 = true) m ->
  StronglySorted (fun a b => str_leb a.1 b.1 = true) (insert_item str_leb kv m).
Proof.
  induction 1 as [|kv' m Hm IH Hall]; cbn; [repeat constructor|].
  destruct (str_leb kv.1 kv'.1) eqn:E.
  - constructor; [by constructor|]. constructor; [done|].
    eapply Forall_impl; [exact Hall|]. intros x Hx. by eapply str_leb_trans.
  - constructor; [done|]. rewrite insert_item_perm. constructor; [|done].
    destruct (str_leb_total kv.1 kv'.1); congruence.
Qed.

Lemma sort_items_sorted {A} (m : list (pystr * A)) :
  StronglySorted (fun a b => str_leb a.1 b.1 = true) (sort_items str_leb m).
Proof. induction m as [|kv m IH]; [constructor|]. by apply insert_item_sorted. Qed.

Lemma sort_items_canonical {A} (m m' : list (pystr * A)) :
  NoDup (map fst m) -> m ≡ₚ m' -> sort_items str_leb m = sort_items str_leb m'.
Proof.
  intros Hn Hp. apply StronglySorted_unique_strong with (R := fun a b => str_leb a.1 b.1 = true).
  - intros [k v] [k' v'] H1 H2 L1 L2. cbn in *.
    pose proof (str_leb_antisym _ _ L1 L2) as <-.
    rewrite sort_items_perm in H1, H2. rewrite <- Hp in H2.
    apply dict_get_elem in H1, H2; [|done..]. congruence.
  - apply sort_items_sorted.
  - apply sort_items_sorted.
  - by rewrite !sort_items_perm.
Qed.

Lemma sort_items_id {A} (m : list (pystr * A)) :
  StronglySorted (fun a b => str_leb a.1 b.1 = true) m -> sort_items str_leb m = m.
Proof.
  induction 1 as [|kv m Hm IH Hall]; [done|]. cbn. fold (sort_items str_leb m). rewrite IH.
  destruct m as [|kv' m]; [done|]. cbn. by rewrite (Forall_inv Hall).
Qed.

(** A value with its keys already sorted prints alike. *)
Lemma dumps_normal ascii spaced v :
  dumps ascii spaced (Some str_leb) (normal (Some str_leb) v) = dumps ascii spaced (Some str_leb) v.
Proof.
  induction v as [|b|z|t|s|l IH|m IH] using json_nested_ind; cbn [normal dumps]; try done.
  - do 3 f_equal. rewrite map_map. apply map_ext_in. rewrite Forall_forall in IH.
    intros v Hv. apply IH. by apply list_elem_of_In.
  - do 4 f_equal. rewrite <- ordered_map, map_map. cbn [fst snd ordered].
    rewrite sort_items_id by apply sort_items_sorted.
    f_equal. apply map_ext_in. rewrite Forall_forall in IH.
    intros [k v] Hv. cbn. f_equal. apply (IH (k, v)). by apply list_elem_of_In.
Qed.

(** Two dictionaries with the same value under every key sort alike. *)
Lemma dict_ext_perm {A} (m m' : list (pystr * A)) :
  NoDup (map fst m) -> NoDup (map fst m') -> (forall k, dict_get k m = dict_get k m') -> m ≡ₚ m'.
Proof.
  intros Hn Hn' Hk. apply NoDup_Permutation; [by apply (NoDup_fmap_1 fst)..|].
  intros [k v]. by rewrite <- !dict_get_elem, Hk.
Qed.

(** ** Texts without lone surrogates can be encoded *)

Lemma utf8_char_scalar c : is_scalar c = true -> exists b, utf8_char c = Some b.
Proof.
  unfold utf8_char, is_scalar. intros Hc. bool_to_prop.
  repeat match goal with |- context [if ?b then _ else _] => destruct b eqn:? end; bool_to_prop;
    solve [eexists; reflexivity | lia].
Qed.

Lemma utf8_encode_scalar s : forallb is_scalar s = true -> exists b, utf8_encode s = Some b.
Proof.
  induction s as [|c s IH]; cbn; [by eexists|]. intros Hs. apply andb_prop in Hs as [Hc Hs].
  destruct (IH Hs) as [b ->]. destruct (utf8_char_scalar _ Hc) as [a ->]. by eexists.
Qed.

(** ** The characters of a printed value *)

(** Printable ASCII. *)
Definition plain (c : Z) : Prop := 32 <= c < 127.

Lemma digits_plain n : 0 <= n -> Forall plain (digits n).
Proof.
  intros Hn. eapply Forall_impl; [by apply digits_digit|].
  intros c Hc. unfold is_digit, plain in *. lia.
Qed.

Lemma int_str_plain z : Forall plain (int_str z).
Proof.
  unfold int_str. destruct (z <? 0) eqn:E; bool_to_prop; [constructor; [done|]|]; apply digits_plain; lia.
Qed.

Lemma hex_byte_plain b : 0 <= b < 256 -> Forall plain (hex_byte b).
Proof.
  intros Hb. unfold hex_byte, hex_digit, plain.
  repeat match goal with |- context [if ?b then _ else _] => destruct b eqn:? end; bool_to_prop;
    repeat constructor; lia.
Qed.

Lemma hex_plain l : all_bytes l -> Forall plain (hex l).
Proof.
  induction 1 as [|b l Hb _ IH]; [constructor|]. apply (Forall_app plain (hex_byte b)).
  split; [by apply hex_byte_plain|done].
Qed.

Lemma escape_u_plain c : 0 <= c < 65536 -> Forall plain (escape_u c).
Proof.
  intros Hc. unfold escape_u. repeat (apply Forall_cons; split; [done|]).
  apply Forall_app. split; apply hex_byte_plain; lia.
Qed.

(** Everything is printable ASCII, but for the characters of the strings that
    the printer leaves as they are. *)
Section chars.
Context (ascii spaced : bool) (order : key_order) (P : Z -> Prop).
Hypothesis P_plain : forall c, plain c -> P c.
Hypothesis P_raw : forall c, is_scalar c = true -> 32 <= c -> (ascii = true -> plain c) -> P c.

Lemma plain_chars s : Forall plain s -> Forall P s.
Proof. intros Hs. eapply Forall_impl; [exact Hs|]. apply P_plain. Qed.

Lemma escape_char_chars c : is_scalar c = true -> Forall P (escape_char ascii c).
Proof.
  intros Hc. assert (Hr : 0 <= c < 1114112) by (unfold is_scalar in Hc; bool_to_prop; lia).
  unfold escape_char.
  repeat match goal with |- context [if ?b then _ else _] => destruct b eqn:? end; bool_to_prop;
    try (apply plain_chars; by repeat constructor);
    try (apply plain_chars, escape_u_plain; lia).
  - apply plain_chars. apply Forall_app. split; apply escape_u_plain; lia.
  - constructor; [|constructor]. apply P_raw; [done..|]. intros ->. cbn [andb] in *.
    bool_to_prop. unfold plain. lia.
Qed.

Lemma quote_chars s : forallb is_scalar s = true -> Forall P (quote ascii s).
Proof.
  intros Hs. unfold quote. constructor; [by apply P_plain|].
  apply Forall_app. split; [|constructor; [by apply P_plain|constructor]].
  induction s as [|c s IH]; [constructor|]. cbn in *. apply andb_prop in Hs as [Hc Hs].
  apply Forall_app. split; [by apply escape_char_chars|by apply IH].
Qed.

Lemma join_chars sep l : Forall P sep -> Forall (fun s => Forall P s) l -> Forall P (join sep l).
Proof.
  intros Hsep. induction 1 as [|s l Hs Hl IH]; cbn; [constructor|].
  destruct l as [|s' l]; [done|]. by repeat (apply Forall_app; split).
Qed.

Lemma dumps_chars v : json_ok v = true -> Forall P (dumps ascii spaced order v).
Proof.
  assert (Hblank : Forall P (blank spaced)).
  { unfold blank. destruct spaced; repeat constructor. by apply P_plain. }
  assert (Hlit : forall c, plain c -> P c) by done.
  induction v as [|[]|z|t|s|l IH|m IH] using json_nested_ind; cbn [json_ok dumps]; intros Hok;
    try (apply plain_chars; by repeat constructor).
  - apply plain_chars, int_str_plain.
  - by apply quote_chars.
  - constructor; [by apply Hlit|]. apply Forall_app. split; [|constructor; [by apply Hlit|constructor]].
    apply join_chars; [constructor; [by apply Hlit|done]|].
    apply Forall_map. rewrite forallb_forall in Hok. rewrite Forall_forall in IH |- *.
    intros v Hv. apply IH; [done|]. apply Hok. by apply list_elem_of_In.
  - apply andb_prop in Hok as [_ Hok]. constructor; [by apply Hlit|].
    apply Forall_app. split; [|constructor; [by apply Hlit|constructor]].
    apply join_chars; [constructor; [by apply Hlit|done]|].
    rewrite ordered_map, map_map. apply Forall_map. rewrite ordered_perm.
    rewrite forallb_forall in Hok. rewrite Forall_forall in IH |- *.
    intros [k v] Hkv. cbn [fst snd]. apply list_elem_of_In in Hkv as Hin.
    specialize (Hok _ Hin). cbn in Hok. apply andb_prop in Hok as [Hk Hv].
    apply Forall_app. split; [by apply quote_chars|].
    constructor; [by apply Hlit|]. apply Forall_app. split; [done|by apply (IH _ Hkv)].
Qed.
End chars.

(** With [ensure_ascii] the text is its own encoding. *)
Lemma dumps_ascii spaced order v : json_ok v = true -> is_ascii (dumps true spaced order v) = true.
Proof.
  intros Hok. apply is_ascii_forall. apply dumps_chars; [..|done].
  - unfold plain. intros c Hc. lia.
  - intros c _ _ Hc. specialize (Hc eq_refl). unfold plain in Hc. lia.
Qed.

#[export] Hint Resolve loads_dumps : doors.
