(* ===== verification/Config.v ===== *)
(** * Configuration: [app/core/config.py]

    [Settings] with its fields and their defaults, the pepper's validator and
    accessor, and the comma-separated lists. *)

From S2P Require Import Prelude Text Json.

Inductive attestation_mode_t := strict | log_only.

#[global] Instance attestation_mode_eq_dec : EqDecision attestation_mode_t.
Proof. solve_decision. Defined.

Inductive env_t := production | development | test.

#[global] Instance env_eq_dec : EqDecision env_t.
Proof. solve_decision. Defined.

(* @src backend/app/core/config.py 18-84 Settings *)
Record Settings := {
  env : env_t;
  api_host : pystr;
  api_port : Z;
  trusted_proxies : pystr;
  db_dsn : pystr;
  audit_db_dsn : pystr;
  db_pool_min : Z;
  db_pool_max : Z;
  db_statement_timeout : Z;
  access_token_ttl : Z;
  refresh_token_ttl : Z;
  token_pepper : pystr;
  argon2_time_cost : Z;
  argon2_memory_kib : Z;
  argon2_parallelism : Z;
  auth_fixed_response_ms : Z;
  rate_window_seconds : Z;
  rate_max_login_failures : Z;
  rate_max_unlocks_per_minute : Z;
  rate_base_delay_ms : Z;
  rate_max_delay_ms : Z;
  beacon_rotation_seconds : Z;
  proximity_max_age_seconds : Z;
  signer_socket : pystr;
  signer_timeout_ms : Z;
  signer_private_key : pystr;
  signer_public_key : pystr;
  signer_key_id : pystr;
  ws_heartbeat_seconds : Z;
  ws_heartbeat_timeout_seconds : Z;
  ws_handshake_timeout_seconds : Z;
  command_ttl_seconds : Z;
  attestation_mode : attestation_mode_t;
  play_integrity_credentials : pystr;
  play_integrity_package_name : pystr;
  android_cert_digest : pystr;
  attestation_roots_pem : pystr;
  admin_host : pystr;
  admin_port : Z;
  admin_allowed_cidrs : pystr
}.

(** The values a deployment that sets nothing runs with. *)
(* @src backend/app/core/config.py 27-84 Settings *)
Definition default_settings : Settings := {|
  env := production;
  api_host := §"0.0.0.0";
  api_port := 8080;
  trusted_proxies := [];
  db_dsn := §"postgresql://acs_app@127.0.0.1/acs";
  audit_db_dsn := [];
  db_pool_min := 2;
  db_pool_max := 10;
  db_statement_timeout := 10;
  access_token_ttl := 900;
  refresh_token_ttl := 2592000;
  token_pepper := [];
  argon2_time_cost := 3;
  argon2_memory_kib := 65536;
  argon2_parallelism := 2;
  auth_fixed_response_ms := 350;
  rate_window_seconds := 900;
  rate_max_login_failures := 5;
  rate_max_unlocks_per_minute := 6;
  rate_base_delay_ms := 250;
  rate_max_delay_ms := 8000;
  beacon_rotation_seconds := 30;
  proximity_max_age_seconds := 60;
  signer_socket := §"/run/acs-signer/signer.sock";
  signer_timeout_ms := 1500;
  signer_private_key := [];
  signer_public_key := [];
  signer_key_id := §"signer-1";
  ws_heartbeat_seconds := 25;
  ws_heartbeat_timeout_seconds := 60;
  ws_handshake_timeout_seconds := 10;
  command_ttl_seconds := 10;
  attestation_mode := strict;
  play_integrity_credentials := [];
  play_integrity_package_name := [];
  android_cert_digest := [];
  attestation_roots_pem := [];
  admin_host := §"127.0.0.1";
  admin_port := 8081;
  admin_allowed_cidrs := §"127.0.0.1/32"
|}.

(** [None]: the [ValueError] that stops the start-up. *)
(* @src backend/app/core/config.py 86-96 Settings._pepper_present *)
Definition _pepper_present (value : pystr) : option pystr :=
  match value with
  | [] => Some value
  | _ :: _ =>
      match b64decode value with
      | None => None
      | Some raw => if (length raw <? 32)%nat then None else Some value
      end
  end.

(** [None]: the [RuntimeError] of a missing pepper, or the [ValueError] of one
    that is not base64. *)
(* @src backend/app/core/config.py 98-104 Settings.pepper_bytes *)
Definition pepper_bytes (s : Settings) : option bytes :=
  match token_pepper s with
  | [] => None
  | _ :: _ => b64decode (token_pepper s)
  end.

(** [text.split(",")] *)
Fixpoint split_on (sep : Z) (s : pystr) : list pystr :=
  match s with
  | [] => [[]]
  | c :: r =>
      if c =? sep then [] :: split_on sep r
      else match split_on sep r with
           | [] => [[c]]
           | w :: ws => (c :: w) :: ws
           end
  end.

(** [[p.strip() for p in text.split(",") if p.strip()]] *)
Definition csv_list (s : pystr) : list pystr :=
  filter (fun p => p <> []) (strip <$> split_on 44 s).

(* @src backend/app/core/config.py 106-108 Settings.audit_dsn *)
Definition audit_dsn (s : Settings) : pystr :=
  match audit_db_dsn s with [] => db_dsn s | _ => audit_db_dsn s end.

(* @src backend/app/core/config.py 110-112 Settings.trusted_proxy_list *)
Definition trusted_proxy_list (s : Settings) : list pystr := csv_list (trusted_proxies s).

(* @src backend/app/core/config.py 114-116 Settings.admin_cidr_list *)
Definition admin_cidr_list (s : Settings) : list pystr := csv_list (admin_allowed_cidrs s).

(** A validated, non-empty pepper is at least 32 bytes long. *)
Lemma pepper_valid s v :
  _pepper_present (token_pepper s) = Some v -> token_pepper s <> [] ->
  exists raw, pepper_bytes s = Some raw /\ (32 <= length raw)%nat.
Proof.
  unfold _pepper_present, pepper_bytes. destruct (token_pepper s) as [|c r]; [done|].
  destruct (b64decode (c :: r)) as [raw|]; [|done].
  destruct (length raw <? 32)%nat eqn:E; [done|]. apply Nat.ltb_ge in E. eauto.
Qed.
