(* ===== verification/Ip.v ===== *)
(** * Addresses and networks: the standard library's [ipaddress]

    What [app/api/deps.py] and [admin/main.py] use of it: [ip_address(text)],
    [ip_network(text, strict=False)] and [address in network], as CPython 3.12
    computes them; a [ValueError] is [None]. *)

From S2P Require Import Prelude Text Json Config.

(** ** Addresses *)

(** An address is an integer; one of version 6 may carry a scope. *)
Inductive IpAddr := V4 (ip : Z) | V6 (ip : Z) (scope : option pystr).

#[global] Instance IpAddr_eq_dec : EqDecision IpAddr.
Proof. solve_decision. Defined.

(** [_parse_octet]: one to three digits, no leading zero, at most 255. *)
Definition parse_octet (s : pystr) : option Z :=
  if bool_decide (s = []) then None
  else if negb (forallb is_digit s) then None
  else if (3 <? length s)%nat then None
  else if negb (str_eqb s §"0") && bool_decide (head s = Some 48) then None
  else if 255 <? digits_val s then None
  else Some (digits_val s).

(** [IPv4Address._ip_int_from_string] *)
Definition ipv4_int (s : pystr) : option Z :=
  match split_on 46 s with
  | [a; b; c; d] =>
      a ← parse_octet a; b ← parse_octet b; c ← parse_octet c; d ← parse_octet d;
      Some (from_bytes_be [a; b; c; d])
  | _ => None
  end.

(** [IPv6Address._parse_hextet]: [int("", 16)] raises as well. *)
Definition parse_hextet (s : pystr) : option Z :=
  if bool_decide (s = []) || (4 <? length s)%nat then None
  else foldl (fun acc c => a ← acc; v ← hex_val c; Some (16 * a + v)) (Some 0) s.

Definition hextets (acc : Z) (parts : list pystr) : option Z :=
  foldl (fun acc p => a ← acc; v ← parse_hextet p; Some (65536 * a + v)) (Some acc) parts.

(** ['%x' % n] for a number of 16 bits. *)
Fixpoint hex_text_fuel (fuel : nat) (n : Z) (acc : pystr) : pystr :=
  match fuel with
  | O => acc
  | S f => if n <? 16 then hex_digit n :: acc else hex_text_fuel f (n / 16) (hex_digit (n mod 16) :: acc)
  end.

(** A last part in dotted notation stands for two hextets. *)
Definition dotted_tail (parts : list pystr) : option (list pystr) :=
  match last parts with
  | Some p =>
      if bool_decide (46 ∈ p) then
        n ← ipv4_int p;
        Some (take (length parts - 1) parts ++ [hex_text_fuel 4 (n / 65536) []; hex_text_fuel 4 (n mod 65536) []])
      else Some parts
  | None => Some parts
  end.

(** The positions of empty parts strictly between the ends. *)
Definition gaps (parts : list pystr) : list nat :=
  filter (fun i => parts !! i = Some []) (seq 1 (length parts - 2)).

(** [IPv6Address._ip_int_from_string] *)
Definition ipv6_int (s : pystr) : option Z :=
  if bool_decide (s = []) then None
  else
    let parts := split_on 58 s in
    if (length parts <? 3)%nat then None
    else
      parts ← dotted_tail parts;
      if (9 <? length parts)%nat then None
      else
        let open_first := bool_decide (head parts = Some []) in
        let open_last := bool_decide (last parts = Some []) in
        match gaps parts with
        | [] =>
            if negb (length parts =? 8)%nat || open_first || open_last then None else hextets 0 parts
        | [i] =>
            let hi := if open_first then i - 1 else i in
            let lo := if open_last then length parts - i - 2 else length parts - i - 1 in
            if open_first && negb (hi =? 0)%nat then None
            else if open_last && negb (lo =? 0)%nat then None
            else if (8 <=? hi + lo)%nat then None
            else
              high ← hextets 0 (take hi parts);
              hextets (high * 65536 ^ Z.of_nat (8 - (hi + lo))) (drop (length parts - lo) parts)
        | _ => None
        end%nat.

(** [s.partition("%")]: the text before, and what follows the first sign. *)
Fixpoint partition_scope (s : pystr) : pystr * option pystr :=
  match s with
  | [] => ([], None)
  | c :: r => if c =? 37 then ([], Some r) else let '(a, rest) := partition_scope r in (c :: a, rest)
  end.

(** [IPv6Address(s)] *)
Definition ipv6_address (s : pystr) : option IpAddr :=
  let '(text, scope) := partition_scope s in
  match scope with
  | Some sc => if bool_decide (sc = []) || bool_decide (37 ∈ sc) then None else n ← ipv6_int text; Some (V6 n scope)
  | None => n ← ipv6_int text; Some (V6 n None)
  end.

(** [ip_address(s)] *)
Definition ip_address (s : pystr) : option IpAddr :=
  if bool_decide (47 ∈ s) then None
  else match ipv4_int s with Some n => Some (V4 n) | None => ipv6_address s end.

(** ** Networks *)

Inductive IpVersion := IPv4 | IPv6.

#[global] Instance IpVersion_eq_dec : EqDecision IpVersion.
Proof. solve_decision. Defined.

Definition width (v : IpVersion) : Z := match v with IPv4 => 32 | IPv6 => 128 end.

Record IpNetwork := { nw_version : IpVersion; nw_address : Z; nw_prefix : Z }.

(** [_ip_int_from_prefix]: [ALL_ONES ^ (ALL_ONES >> prefixlen)] *)
Definition netmask (v : IpVersion) (prefix : Z) : Z :=
  let all_ones := Z.ones (width v) in Z.lxor all_ones (Z.shiftr all_ones prefix).

(** [_prefix_from_prefix_string] *)
Definition prefix_of_text (v : IpVersion) (s : pystr) : option Z :=
  if bool_decide (s = []) || negb (forallb is_digit s) then None
  else if width v <? digits_val s then None
  else Some (digits_val s).

(** [_count_righthand_zero_bits(n, bits)] *)
Fixpoint righthand_zero_bits (bits : nat) (n : Z) : Z :=
  match bits with
  | O => 0
  | S k => if Z.odd n then 0 else 1 + righthand_zero_bits k (n / 2)
  end.

(** [_prefix_from_ip_int]: ones, then zeros. *)
Definition prefix_of_mask (n : Z) : option Z :=
  let zeros := righthand_zero_bits 32 n in
  if Z.shiftr n zeros =? Z.ones (32 - zeros) then Some (32 - zeros) else None.

(** [IPv4Network._make_netmask]: a length, a netmask or a hostmask. *)
Definition ipv4_prefix (s : pystr) : option Z :=
  match prefix_of_text IPv4 s with
  | Some p => Some p
  | None =>
      n ← ipv4_int s;
      match prefix_of_mask n with Some p => Some p | None => prefix_of_mask (Z.lxor n (Z.ones 32)) end
  end.

(** The network of an address: host bits are cleared. *)
Definition network_of (v : IpVersion) (ip prefix : Z) : IpNetwork :=
  {| nw_version := v; nw_address := Z.land ip (netmask v prefix); nw_prefix := prefix |}.

Definition ipv4_network (address : pystr) (mask : option pystr) : option IpNetwork :=
  ip ← ipv4_int address;
  prefix ← match mask with None => Some 32 | Some m => ipv4_prefix m end;
  Some (network_of IPv4 ip prefix).

Definition ipv6_network (address : pystr) (mask : option pystr) : option IpNetwork :=
  a ← ipv6_address address;
  prefix ← match mask with None => Some 128 | Some m => prefix_of_text IPv6 m end;
  match a with V6 ip _ => Some (network_of IPv6 ip prefix) | V4 _ => None end.

(** [ip_network(s, strict=False)] *)
Definition ip_network (s : pystr) : option IpNetwork :=
  let either address mask :=
    match ipv4_network address mask with Some n => Some n | None => ipv6_network address mask end in
  match split_on 47 s with
  | [address] => either address None
  | [address; mask] => either address (Some mask)
  | _ => None
  end.

(** [address in network]: the scope of an address does not count. *)
Definition ip_in (a : IpAddr) (n : IpNetwork) : bool :=
  match a, nw_version n with
  | V4 ip, IPv4 | V6 ip _, IPv6 => Z.land ip (netmask (nw_version n) (nw_prefix n)) =? nw_address n
  | _, _ => false
  end.

Example parse_examples :
  ip_address §"127.0.0.1" = Some (V4 2130706433)
  /\ ip_address §"127.0.0.01" = None /\ ip_address §"256.0.0.1" = None /\ ip_address §"1.2.3" = None
  /\ ip_address §"::1" = Some (V6 1 None) /\ ip_address §"0:0:0:0:0:0:0:1" = Some (V6 1 None)
  /\ ip_address §"::ffff:10.0.0.1" = Some (V6 281470849515521 None)
  /\ ip_address §"fe80::1%eth0" = Some (V6 338288524927261089654018896841347694593 (Some §"eth0"))
  /\ ip_address §"1:2:3:4:5:6:7:8" = Some (V6 5192455318486707404433266433261576 None)
  /\ ip_address §":::" = None /\ ip_address §"1::2::3" = None /\ ip_address §":1:2:3:4:5:6:7" = None
  /\ ip_address §"1:2:3:4:5:6:7::" = Some (V6 5192455318486707404433266433261568 None)
  /\ ip_network §"10.0.0.7/8" = Some {| nw_version := IPv4; nw_address := 167772160; nw_prefix := 8 |}
  /\ ip_network §"10.0.0.7/255.255.0.0" = ip_network §"10.0.0.7/16"
  /\ ip_network §"10.0.0.7/0.0.255.255" = ip_network §"10.0.0.7/16"
  /\ ip_network §"10.0.0.7/33" = None /\ ip_network §"10.0.0.7/" = None
  /\ ip_network §"::/0" = Some {| nw_version := IPv6; nw_address := 0; nw_prefix := 0 |}.
Proof. vm_compute. repeat split. Qed.

(** ** The text of an address of version 4 *)

Definition octets4 (n : Z) : list Z := rev (to_bytes_le 4 n).

(** [str(IPv4Address(n))] *)
Definition ipv4_text (n : Z) : pystr :=
  match int_str <$> octets4 n with
  | [a; b; c; d] => a ++ 46 :: b ++ 46 :: c ++ 46 :: d
  | _ => []
  end.

(** Decimal text with no leading zero is what [digits] prints. *)
Lemma digits_fuel_S f n :
  digits_fuel (S f) n [] = if n <? 10 then [48 + n] else digits_fuel f (n / 10) [] ++ [48 + n mod 10].
Proof. cbn [digits_fuel]. destruct (n <? 10); [done|]. apply digits_fuel_app. Qed.

Lemma digits_fuel_enough f g n :
  0 <= n -> n < 2 ^ Z.of_nat (S f) -> n < 2 ^ Z.of_nat (S g) -> digits_fuel (S f) n [] = digits_fuel (S g) n [].
Proof.
  revert g n. induction f as [|f IH]; intros g n Hn Hf Hg; rewrite (digits_fuel_S g), digits_fuel_S;
    (destruct (Z.ltb_spec n 10) as [|Hlarge]; [done|]).
  - change (2 ^ Z.of_nat 1) with 2 in Hf. lia.
  - destruct g as [|g]; [change (2 ^ Z.of_nat 1) with 2 in Hg; lia|].
    rewrite (Nat2Z.inj_succ (S f)), (Nat2Z.inj_succ (S g)), !Z.pow_succ_r in * by lia. f_equal. apply IH; lia.
Qed.

Lemma digits_snoc n d : 0 < n -> 0 <= d < 10 -> digits (10 * n + d) = digits n ++ [48 + d].
Proof.
  intros Hn Hd. unfold digits at 1. rewrite digits_fuel_S, (proj2 (Z.ltb_ge _ _)) by lia. replace ((10 * n + d) / 10) with n by lia. replace ((10 * n + d) mod 10) with d by lia.
  pose proof (Z.log2_spec (10 * n + d) ltac:(lia)) as [_ Hl]. assert (H1 : 1 <= Z.log2 (10 * n + d)) by (apply Z.log2_le_pow2; [|change (2 ^ 1) with 2]; lia).
  rewrite <- Z.add_1_r in Hl. destruct (Z.to_nat (Z.log2 (10 * n + d))) as [|k] eqn:E; [lia|].
  f_equal. unfold digits. apply digits_fuel_enough; [lia| |apply log2_fuel; lia].
  rewrite <- E, Z2Nat.id by apply Z.log2_nonneg. rewrite Z.pow_add_r in Hl by (apply Z.log2_nonneg || lia). lia.
Qed.

Lemma digits_val_nonneg s a : Forall (fun c => is_digit c = true) s -> 0 <= a -> 0 <= digits_val_from a s.
Proof.
  revert a. induction s as [|c s IH]; intros a Hs Ha; [done|]. apply Forall_cons in Hs as [Hc Hs].
  apply IH; [done|]. unfold is_digit in Hc. bool_to_prop. lia.
Qed.

Lemma digits_canonical s :
  s <> [] -> Forall (fun c => is_digit c = true) s -> (s = [48] \/ head s <> Some 48) -> digits (digits_val s) = s.
Proof.
  induction s as [|c s IH] using rev_ind; [done|]. intros _ Hd Hz. apply Forall_app in Hd as [Hd Hc].
  apply Forall_inv in Hc. unfold is_digit in Hc. bool_to_prop. unfold digits_val. rewrite digits_val_app. fold (digits_val s).
  change (digits_val_from (digits_val s) [c]) with (10 * digits_val s + (c - 48)).
  destruct s as [|x s].
  - change (digits_val []) with 0. cbn [app]. unfold digits. rewrite (digits_fuel_enough _ 3) by
      (try apply log2_fuel; change (2 ^ Z.of_nat 4) with 16; lia). cbn [digits_fuel].
    rewrite (proj2 (Z.ltb_lt _ _)) by lia. f_equal. lia.
  - assert (Hx : head (x :: s) <> Some 48).
    { destruct Hz as [Hz|Hz]; [|done]. apply (f_equal length) in Hz. rewrite length_app in Hz. cbn in Hz. lia. }
    specialize (IH ltac:(done) Hd (or_intror Hx)).
    assert (0 < digits_val (x :: s)).
    { destruct (Z.eq_dec (digits_val (x :: s)) 0) as [E|].
      - rewrite E in IH. change (digits 0) with [48] in IH. by rewrite <- IH in Hx.
      - assert (0 <= digits_val (x :: s)); [|lia]. by apply digits_val_nonneg. }
    rewrite digits_snoc by lia. rewrite IH. f_equal. f_equal. lia.
Qed.

(** An octet has one text. *)
Lemma parse_octet_iff s v : parse_octet s = Some v <-> 0 <= v < 256 /\ s = digits v.
Proof.
  split.
  - unfold parse_octet. intros H. repeat (case_hyp H; [done|]). injection H as <-.
    bool_to_prop. rewrite forallb_forall in *.
    match goal with H : s <> [] |- _ => rename H into Hne end.
    assert (Hd : Forall (fun c => is_digit c = true) s)
      by (apply Forall_forall; intros c Hc; apply list_elem_of_In in Hc; auto).
    assert (Hz : s = [48] \/ head s <> Some 48).
    { match goal with H : negb _ && _ = false |- _ => apply andb_false_iff in H as [H|H] end; bool_to_prop; [|by right].
      left. unfold str_eqb in *. by bool_to_prop. }
    split; [|symmetry; by apply digits_canonical]. split; [by apply digits_val_nonneg|lia].
  - intros [Hv ->]. assert (Hall : forallb (fun v => bool_decide (parse_octet (digits v) = Some v)) (Z.of_nat <$> seq 0 256) = true)
      by (vm_compute; reflexivity).
    rewrite forallb_forall in Hall. apply (bool_decide_eq_true_1 (parse_octet (digits v) = Some v)). apply Hall.
    apply list_elem_of_In, list_elem_of_fmap. exists (Z.to_nat v). split; [lia|]. apply elem_of_seq. lia.
Qed.

(** *** Splitting *)

Lemma split_on_cons sep a s : sep ∉ a -> split_on sep (a ++ sep :: s) = a :: split_on sep s.
Proof.
  induction a as [|c a IH]; intros Ha; cbn [app split_on]; [by rewrite Z.eqb_refl|].
  apply not_elem_of_cons in Ha as [Hc Ha]. rewrite (proj2 (Z.eqb_neq c sep)) by done. by rewrite IH.
Qed.

Lemma split_on_last sep a : sep ∉ a -> split_on sep a = [a].
Proof.
  induction a as [|c a IH]; intros Ha; cbn [split_on]; [done|].
  apply not_elem_of_cons in Ha as [Hc Ha]. rewrite (proj2 (Z.eqb_neq c sep)) by done. by rewrite IH.
Qed.

(** The pieces put together again. *)
Lemma split_on_join sep s : join [sep] (split_on sep s) = s.
Proof.
  induction s as [|c s IH]; [done|]. cbn [split_on]. destruct (Z.eqb_spec c sep) as [->|].
  - destruct (split_on sep s) as [|w ws] eqn:E; [by destruct s; cbn in E; repeat case_match|]. by rewrite <- IH.
  - destruct (split_on sep s) as [|w ws] eqn:E; [by destruct s; cbn in E; repeat case_match|].
    rewrite <- IH. by destruct ws.
Qed.

(** *** One address, one text *)

Lemma octets_of a b c d :
  0 <= a < 256 -> 0 <= b < 256 -> 0 <= c < 256 -> 0 <= d < 256 -> octets4 (from_bytes_be [a; b; c; d]) = [a; b; c; d].
Proof.
  intros. unfold octets4, from_bytes_be. cbn [fold_left to_bytes_le rev app].
  repeat (apply (f_equal2 cons); [lia|]). done.
Qed.

Lemma octets_join n : 0 <= n < 2 ^ 32 ->
  exists a b c d, octets4 n = [a; b; c; d] /\ n = from_bytes_be [a; b; c; d]
    /\ 0 <= a < 256 /\ 0 <= b < 256 /\ 0 <= c < 256 /\ 0 <= d < 256.
Proof.
  intros Hn. do 4 eexists. split; [reflexivity|]. unfold from_bytes_be. cbn [fold_left]. lia.
Qed.

Lemma digits_no_dot n : 0 <= n -> 46 ∉ digits n.
Proof.
  intros Hn Hin. pose proof (digits_digit n Hn) as Hd. rewrite Forall_forall in Hd. apply Hd in Hin. done.
Qed.

Lemma ipv4_text_chars n : 0 <= n < 2 ^ 32 -> Forall (fun c => is_digit c || (c =? 46) = true) (ipv4_text n).
Proof.
  intros Hn. unfold ipv4_text. destruct (octets_join n Hn) as (a & b & c & d & E & -> & Ha & Hb & Hc & Hd). rewrite E.
  cbn [fmap list_fmap]. unfold int_str. rewrite !(proj2 (Z.ltb_ge _ 0)) by lia.
  assert (Hg : forall v, 0 <= v -> Forall (fun c => is_digit c || (c =? 46) = true) (digits v)).
  { intros v Hv. eapply Forall_impl; [by apply digits_digit|]. intros x Hx. by rewrite Hx. }
  repeat first [apply Forall_app; split | apply Forall_cons; split | done | apply Hg; lia].
Qed.

(** An address of version 4 has exactly one text that is accepted: no leading
    zero, no blank, no other digits. *)
Theorem ipv4_int_iff s n : ipv4_int s = Some n <-> 0 <= n < 2 ^ 32 /\ s = ipv4_text n.
Proof.
  split.
  - unfold ipv4_int. pose proof (split_on_join 46 s) as Hj.
    destruct (split_on 46 s) as [|a [|b [|c [|d [|]]]]]; try done. intros H.
    apply bind_Some in H as (va & [Ha ->]%parse_octet_iff & H). apply bind_Some in H as (vb & [Hb ->]%parse_octet_iff & H).
    apply bind_Some in H as (vc & [Hc ->]%parse_octet_iff & H). apply bind_Some in H as (vd & [Hd ->]%parse_octet_iff & H).
    injection H as <-. split; [unfold from_bytes_be; cbn [fold_left]; lia|]. unfold ipv4_text. rewrite octets_of by done.
    cbn [fmap list_fmap]. unfold int_str. rewrite !(proj2 (Z.ltb_ge _ 0)) by lia. by rewrite <- Hj.
  - intros [Hn ->]. destruct (octets_join n Hn) as (a & b & c & d & E & -> & Ha & Hb & Hc & Hd).
    unfold ipv4_text. rewrite E. cbn [fmap list_fmap]. unfold int_str. rewrite !(proj2 (Z.ltb_ge _ 0)) by lia.
    unfold ipv4_int. rewrite !split_on_cons by (apply digits_no_dot; lia). rewrite split_on_last by (apply digits_no_dot; lia).
    rewrite !(proj2 (parse_octet_iff _ _) (conj Ha eq_refl)), !(proj2 (parse_octet_iff _ _) (conj Hb eq_refl)),
      !(proj2 (parse_octet_iff _ _) (conj Hc eq_refl)), !(proj2 (parse_octet_iff _ _) (conj Hd eq_refl)). done.
Qed.

Lemma ip_address_v4 s n : ip_address s = Some (V4 n) <-> 0 <= n < 2 ^ 32 /\ s = ipv4_text n.
Proof.
  split.
  - unfold ip_address. case_match; [done|]. destruct (ipv4_int s) as [m|] eqn:E.
    + intros [= ->]. by apply ipv4_int_iff.
    + unfold ipv6_address. destruct (partition_scope s) as [text [sc|]]; [case_match; [done|]|];
        (destruct (ipv6_int text); [by intros [= ]|done]).
  - intros [Hn ->]. unfold ip_address. rewrite (proj2 (ipv4_int_iff _ n)) by done. rewrite bool_decide_false; [done|].
    intros Hin. pose proof (ipv4_text_chars n Hn) as Hc. rewrite Forall_forall in Hc. by apply Hc in Hin.
Qed.

(** ** Membership *)

(** Clearing the host bits. *)
Lemma land_netmask v ip prefix :
  0 <= ip < 2 ^ width v -> 0 <= prefix <= width v ->
  Z.land ip (netmask v prefix) = ip / 2 ^ (width v - prefix) * 2 ^ (width v - prefix).
Proof.
  intros Hip Hp. rewrite <- Z.shiftl_mul_pow2, <- Z.shiftr_div_pow2 by lia. apply Z.bits_inj'. intros i Hi.
  unfold netmask. rewrite Z.land_spec, Z.lxor_spec, Z.shiftr_spec by done.
  destruct (Z.lt_ge_cases i (width v - prefix)) as [Hlt|Hge].
  - rewrite Z.shiftl_spec_low by done. rewrite !Z.ones_spec_low by lia. apply andb_false_r.
  - rewrite Z.shiftl_spec, Z.shiftr_spec by lia. replace (i - (width v - prefix) + (width v - prefix)) with i by lia.
    destruct (Z.lt_ge_cases i (width v)) as [H|H].
    + rewrite Z.ones_spec_low, Z.ones_spec_high by lia. apply andb_true_r.
    + rewrite (proj1 (Z.bounded_iff_bits_nonneg' (width v) ip ltac:(lia) ltac:(lia)) Hip i H). done.
Qed.

Definition version_of (a : IpAddr) : IpVersion := match a with V4 _ => IPv4 | V6 _ _ => IPv6 end.
Definition ip_int (a : IpAddr) : Z := match a with V4 n => n | V6 n _ => n end.

Lemma width_pos v : 0 < width v.
Proof. by destruct v. Qed.

(** An address is in a network when they agree on the version and on the
    leading bits that the prefix counts; the rest of the network's own text does
    not matter. *)
Theorem ip_in_network_of a v ip prefix :
  0 <= ip_int a < 2 ^ width (version_of a) -> 0 <= ip < 2 ^ width v -> 0 <= prefix <= width v ->
  ip_in a (network_of v ip prefix) = true
  <-> version_of a = v /\ ip_int a / 2 ^ (width v - prefix) = ip / 2 ^ (width v - prefix).
Proof.
  intros Ha Hip Hp. pose proof (Z.pow_pos_nonneg 2 (width v - prefix) ltac:(lia) ltac:(lia)) as Hpos.
  destruct a as [n|n sc], v; cbn [ip_in network_of nw_version nw_prefix nw_address version_of ip_int] in *;
    try (split; [done|by intros [? _]]);
    rewrite !land_netmask, Z.eqb_eq by (cbn [width] in *; lia);
    (split; [intros E; split; [done|]; by eapply Z.mul_reg_r; [|exact E]; lia|by intros [_ ->]]).
Qed.

(** Every part of the text of a network is in range. *)
Lemma fold_octets_bound a b c d :
  0 <= a < 256 -> 0 <= b < 256 -> 0 <= c < 256 -> 0 <= d < 256 -> 0 <= from_bytes_be [a; b; c; d] < 2 ^ 32.
Proof. intros. unfold from_bytes_be. cbn [fold_left]. lia. Qed.

Lemma prefix_of_text_bound v s p : prefix_of_text v s = Some p -> 0 <= p <= width v.
Proof.
  unfold prefix_of_text. intros H. case_hyp H; [done|]. case_hyp H; [done|]. injection H as <-. bool_to_prop.
  split; [|done]. apply digits_val_nonneg; [|done]. rewrite forallb_forall in *. apply Forall_forall. intros c Hc.
  apply list_elem_of_In in Hc. auto.
Qed.

(** The network a plain [address/length] text denotes. *)
Lemma ip_network_v4 s p ip :
  47 ∉ s -> 47 ∉ p -> ipv4_int s = Some ip -> forall n, prefix_of_text IPv4 p = Some n ->
  ip_network (s ++ 47 :: p) = Some (network_of IPv4 ip n).
Proof.
  intros Hs Hp Hi n Hn. unfold ip_network. rewrite split_on_cons, split_on_last by done.
  unfold ipv4_network, ipv4_prefix. by rewrite Hi, Hn.
Qed.
