(* ===== verification/Errors.v ===== *)
(** * Errors: [app/core/errors.py], and the exceptions of the backend

    The deny reasons and audit events, the [ApiError] hierarchy, the HTTP
    response it becomes, and one type for every exception the modelled code
    raises or lets through. *)

From S2P Require Import Prelude Text Json.

(* @src backend/app/core/errors.py 21-28 DenyReason *)
Inductive DenyReason := DENIED | NOT_PRESENT | CONTROLLER_OFFLINE | RATE_LIMITED | FAILED.

#[global] Instance DenyReason_eq_dec : EqDecision DenyReason.
Proof. solve_decision. Defined.

(* @src backend/app/core/errors.py 24-28 DenyReason.value *)
Definition deny_value (r : DenyReason) : pystr :=
  match r with
  | DENIED => §"denied"
  | NOT_PRESENT => §"not_present"
  | CONTROLLER_OFFLINE => §"controller_offline"
  | RATE_LIMITED => §"rate_limited"
  | FAILED => §"failed"
  end.

(* @src backend/app/core/errors.py 31-49 AuditEvent *)
Inductive AuditEvent :=
| DEVICE_ENROLL | DEVICE_ENROLL_DENIED | AUTH_LOGIN | AUTH_LOGIN_FAILED | AUTH_REFRESH
| AUTH_REFRESH_REUSE | AUTH_LOGOUT | AUTH_TOKEN_REJECTED | DOOR_UNLOCK_REQUESTED
| DOOR_UNLOCK_GRANTED | DOOR_UNLOCK_DENIED | DOOR_UNLOCK_CONFIRMED | DOOR_UNLOCK_FAILED
| RATE_LIMIT_TRIPPED | CONTROLLER_CONNECTED | CONTROLLER_AUTH_FAILED
| CONTROLLER_DISCONNECTED | ADMIN_ACTION.

(* @src backend/app/core/errors.py 32-49 AuditEvent.value *)
Definition event_value (e : AuditEvent) : pystr :=
  match e with
  | DEVICE_ENROLL => §"device.enroll"
  | DEVICE_ENROLL_DENIED => §"device.enroll_denied"
  | AUTH_LOGIN => §"auth.login"
  | AUTH_LOGIN_FAILED => §"auth.login_failed"
  | AUTH_REFRESH => §"auth.refresh"
  | AUTH_REFRESH_REUSE => §"auth.refresh_reuse_detected"
  | AUTH_LOGOUT => §"auth.logout"
  | AUTH_TOKEN_REJECTED => §"auth.token_rejected"
  | DOOR_UNLOCK_REQUESTED => §"door.unlock_requested"
  | DOOR_UNLOCK_GRANTED => §"door.unlock_granted"
  | DOOR_UNLOCK_DENIED => §"door.unlock_denied"
  | DOOR_UNLOCK_CONFIRMED => §"door.unlock_confirmed"
  | DOOR_UNLOCK_FAILED => §"door.unlock_failed"
  | RATE_LIMIT_TRIPPED => §"rate.limit_tripped"
  | CONTROLLER_CONNECTED => §"controller.connected"
  | CONTROLLER_AUTH_FAILED => §"controller.auth_failed"
  | CONTROLLER_DISCONNECTED => §"controller.disconnected"
  | ADMIN_ACTION => §"admin.action"
  end.

(** The classes under [ApiError], with the attributes their constructors set.
    [UnlockDenied] with an empty internal reason takes the public one. *)
(* @src backend/app/core/errors.py 52-101 ApiError *)
Inductive ApiError :=
| AuthenticationError (internal_reason : pystr)
| UnlockDenied (reason : DenyReason) (internal_reason : pystr)
| RateLimited (retry_after_seconds : Z)
| NotFound (detail : pystr)
| Conflict (detail : pystr).

(* @src backend/app/core/errors.py 78-82 UnlockDenied.__init__ *)
Definition unlock_denied (reason : DenyReason) (internal_reason : pystr) : ApiError :=
  UnlockDenied reason (match internal_reason with [] => deny_value reason | _ => internal_reason end).

(* @src backend/app/core/errors.py 63-101 status_code *)
Definition status_code (e : ApiError) : Z :=
  match e with
  | AuthenticationError _ => 401
  | UnlockDenied _ _ => 403
  | RateLimited _ => 429
  | NotFound _ => 404
  | Conflict _ => 409
  end.

(* @src backend/app/core/errors.py 63-101 code *)
Definition error_code (e : ApiError) : pystr :=
  match e with
  | AuthenticationError _ => §"invalid_credentials"
  | UnlockDenied r _ => deny_value r
  | RateLimited _ => §"rate_limited"
  | NotFound _ => §"not_found"
  | Conflict _ => §"conflict"
  end.

Record HTTPException := {
  http_status : Z;
  http_detail : json;
  http_headers : list (pystr * pystr)
}.

(* @src backend/app/core/errors.py 104-114 http_error *)
Definition http_error (err : ApiError) : HTTPException := {|
  http_status := status_code err;
  http_detail := JObj [(§"error", JStr (error_code err))];
  http_headers :=
    match err with
    | RateLimited n => [(§"Retry-After", int_str n)]
    | AuthenticationError _ => [(§"WWW-Authenticate", §"Bearer")]
    | _ => []
    end
|}.

(** What the exception handler of the API makes of one: the same status and
    code, and of the headers only [Retry-After]. *)
(* @src backend/app/main.py * create_app._api_error *)
Definition _api_error (exc : ApiError) : HTTPException := {|
  http_status := status_code exc;
  http_detail := JObj [(§"error", JStr (error_code exc))];
  http_headers := match exc with RateLimited n => [(§"Retry-After", int_str n)] | _ => [] end
|}.

(** Every exception that crosses a function boundary of the modelled code:
    the ones it raises, and the ones of the standard library and the database
    driver it lets through. *)
Inductive Exn :=
| EApi (e : ApiError)
| EHttp (h : HTTPException)
| ESignerUnavailable (msg : pystr)
| ESignerRefused (msg : pystr)
| EControllerOffline (msg : pystr)
| ECommandTimeout (command_id : pystr)
| EValue (msg : pystr)
| EJSONDecode
| EInvalidSignature
| EType (msg : pystr)
| EKey (key : pystr)
| EIndex
| EAttribute (msg : pystr)
| EOverflow
| EZeroDivision
| ERuntime (msg : pystr)
| EDb (constraint : pystr).

(** The message a client is shown does not tell one credential problem from
    another. *)
Lemma http_error_authentication r1 r2 :
  http_error (AuthenticationError r1) = http_error (AuthenticationError r2).
Proof. done. Qed.

Lemma http_error_denied reason r1 r2 :
  http_error (UnlockDenied reason r1) = http_error (UnlockDenied reason r2).
Proof. done. Qed.

(** The handler and [http_error] show the same, but for the challenge header. *)
Lemma api_error_http_error e :
  http_status (_api_error e) = http_status (http_error e) /\ http_detail (_api_error e) = http_detail (http_error e)
  /\ (http_headers (_api_error e) = http_headers (http_error e) <-> status_code e <> 401).
Proof. destruct e; split_and!; try done; cbn; split; intros H; congruence || done. Qed.
