(* ===== verification/Proc.v ===== *)
(** * Coroutines: [async] functions as trees of atomic steps

    An [async def] runs without interruption between two awaits that reach the
    event loop.  [proc] is that structure: [Step f] runs [f] on the state in one
    go and gives what is left of the coroutine; [Ret] and [Raise] are its two
    ways to end.  The monad's [x ← p; q] is Python's sequencing, [catch] is
    [try/except], [finally] is [try/finally].

    Two semantics are given over the same programs:
    - [run], the coroutine alone, a function of the state;
    - [sys_step], a pool of coroutines whose steps interleave in any order, with
      steps of the environment in between.
    [guar R p] says that every atomic step of [p], taken in any state, satisfies
    [R]; [guar_reach] carries it to every reachable state of every
    interleaving. *)

From S2P Require Import Prelude.
From stdpp Require Import relations.

Section Proc.
Context {W E : Type}.

#[warnings="-register-all"]
Inductive proc (A : Type) : Type :=
| Ret (a : A)
| Raise (e : E)
| Step (f : W -> W * proc A).
Arguments Ret {A}.
Arguments Raise {A}.
Arguments Step {A}.

(** Induction: what holds of every continuation holds of the step. *)
Fixpoint proc_nested_ind {A} (P : proc A -> Prop)
    (Hret : forall a, P (Ret a)) (Hraise : forall e, P (Raise e))
    (Hstep : forall f, (forall w, P (f w).2) -> P (Step f)) (p : proc A) : P p :=
  match p with
  | Ret a => Hret a
  | Raise e => Hraise e
  | Step f =>
      Hstep f (fun w =>
        match f w as r return P r.2 with
        | (_, p') => proc_nested_ind P Hret Hraise Hstep p'
        end)
  end.

(** How a coroutine ended. *)
Inductive outcome (A : Type) : Type :=
| OK (a : A)
| ERR (e : E).
Arguments OK {A}.
Arguments ERR {A}.

Fixpoint proc_bind_ {A B} (k : A -> proc B) (p : proc A) : proc B :=
  match p with
  | Ret a => k a
  | Raise e => Raise e
  | Step f => Step (fun w => let '(w', p') := f w in (w', proc_bind_ k p'))
  end.

#[global] Instance proc_ret : MRet proc := @Ret.
#[global] Instance proc_bind : MBind proc := fun A B k p => proc_bind_ k p.

(** [try: p except ...: h], where [h] tells which exceptions it handles. *)
Fixpoint catch {A} (p : proc A) (h : E -> option (proc A)) : proc A :=
  match p with
  | Ret a => Ret a
  | Raise e => match h e with Some q => q | None => Raise e end
  | Step f => Step (fun w => let '(w', p') := f w in (w', catch p' h))
  end.

(** [try: p finally: q] *)
Fixpoint finally {A} (p : proc A) (q : proc unit) : proc A :=
  match p with
  | Ret a => _ ← q; Ret a
  | Raise e => _ ← q; Raise e
  | Step f => Step (fun w => let '(w', p') := f w in (w', finally p' q))
  end.

(** One atomic step that computes a result or raises. *)
Definition atomic {A} (f : W -> W * outcome A) : proc A :=
  Step (fun w => let '(w', o) := f w in
                 (w', match o with OK a => Ret a | ERR e => Raise e end)).

(** One atomic step that only reads. *)
Definition reads {A} (f : W -> A) : proc A := Step (fun w => (w, Ret (f w))).

(** A value or an exception, without touching the state. *)
Definition of_option {A} (e : E) (o : option A) : proc A :=
  match o with Some a => Ret a | None => Raise e end.

(** ** The coroutine alone *)

Fixpoint run {A} (p : proc A) (w : W) : W * outcome A :=
  match p with
  | Ret a => (w, OK a)
  | Raise e => (w, ERR e)
  | Step f => let '(w', p') := f w in run p' w'
  end.

Lemma run_bind {A B} (k : A -> proc B) (p : proc A) w :
  run (p ≫= k) w =
  match run p w with
  | (w', OK a) => run (k a) w'
  | (w', ERR e) => (w', ERR e)
  end.
Proof.
  revert w. change (p ≫= k) with (proc_bind_ k p).
  induction p as [a|e|f IH] using proc_nested_ind; intros w; cbn; [done..|].
  specialize (IH w). destruct (f w) as [w' p']. cbn in IH. apply IH.
Qed.

Lemma run_bind_assoc {A B C} (p : proc A) (k : A -> proc B) (l : B -> proc C) w :
  run ((p ≫= k) ≫= l) w = run (p ≫= fun a => k a ≫= l) w.
Proof. rewrite !run_bind. destruct (run p w) as [w' [a|e]]; [by rewrite run_bind|done]. Qed.

Lemma run_catch {A} (p : proc A) h w :
  run (catch p h) w =
  match run p w with
  | (w', ERR e) => match h e with Some q => run q w' | None => (w', ERR e) end
  | r => r
  end.
Proof.
  revert w. induction p as [a|e|f IH] using proc_nested_ind; intros w; cbn; [done|by destruct (h e)|].
  specialize (IH w). destruct (f w) as [w' p']. cbn in IH. apply IH.
Qed.

Lemma run_finally {A} (p : proc A) q w :
  run (finally p q) w =
  let '(w', o) := run p w in
  match run q w' with
  | (w'', OK _) => (w'', o)
  | (w'', ERR e) => (w'', ERR e)
  end.
Proof.
  revert w. induction p as [a|e|f IH] using proc_nested_ind; intros w; cbn; [by rewrite run_bind..|].
  specialize (IH w). destruct (f w) as [w' p']. cbn in IH. apply IH.
Qed.

Lemma run_atomic {A} (f : W -> W * outcome A) w : run (atomic f) w = f w.
Proof. cbn. by destruct (f w) as [w' [a|e]]. Qed.

Lemma run_reads {A} (f : W -> A) w : run (reads f) w = (w, OK (f w)).
Proof. done. Qed.

Lemma run_of_option {A} e (o : option A) w :
  run (of_option e o) w = (w, match o with Some a => OK a | None => ERR e end).
Proof. by destruct o. Qed.

(** A sequence that ended well went through a first part that did. *)
Lemma run_bind_ok {A B} (k : A -> proc B) p w w' b :
  run (p ≫= k) w = (w', OK b) ->
  exists w1 a, run p w = (w1, OK a) /\ run (k a) w1 = (w', OK b).
Proof. rewrite run_bind. destruct (run p w) as [w1 [a|e]]; [eauto|done]. Qed.

(** ** Exceptions *)

(** Whatever [p] raises, [Q] holds of it and of the state it is raised in. *)
Definition raises {A} (Q : W -> E -> Prop) (p : proc A) : Prop :=
  forall w w' e, run p w = (w', ERR e) -> Q w' e.

Section raises.
Context (Q : W -> E -> Prop).

Lemma raises_ret {A} (a : A) : raises Q (Ret a).
Proof. by intros w w' e. Qed.

Lemma raises_raise {A} e : (forall w, Q w e) -> raises Q (Raise e : proc A).
Proof. intros H w w' e' [= <- <-]. apply H. Qed.

Lemma raises_bind {A B} (k : A -> proc B) p :
  raises Q p -> (forall a, raises Q (k a)) -> raises Q (p ≫= k).
Proof.
  intros Hp Hk w w' e. rewrite run_bind. destruct (run p w) as [w1 [a|e1]] eqn:E1.
  - apply Hk.
  - intros [= <- <-]. by eapply Hp.
Qed.

(** After a part that ended well, only what follows raises. *)
Lemma raises_bind_ok {A B} (k : A -> proc B) p :
  raises Q p -> (forall w w1 a, run p w = (w1, OK a) -> forall w' e, run (k a) w1 = (w', ERR e) -> Q w' e) ->
  raises Q (p ≫= k).
Proof.
  intros Hp Hk w w' e. rewrite run_bind. destruct (run p w) as [w1 [a|e1]] eqn:E1; [by eapply Hk|].
  intros [= <- <-]. by eapply Hp.
Qed.

Lemma raises_catch {A} (p : proc A) h :
  raises (fun w e => match h e with Some q => forall w' e', run q w = (w', ERR e') -> Q w' e' | None => Q w e end) p ->
  raises Q (catch p h).
Proof.
  intros Hp w w' e. rewrite run_catch. destruct (run p w) as [w1 [a|e1]] eqn:E1; [done|].
  specialize (Hp _ _ _ E1). cbn beta in Hp. destruct (h e1) as [q|]; [apply Hp|by intros [= <- <-]].
Qed.

Lemma raises_finally {A} (P : E -> Prop) (p : proc A) q :
  raises (fun _ e => P e) p -> raises (fun _ e => P e) q -> (forall w e, P e -> Q w e) -> raises Q (finally p q).
Proof.
  intros Hp Hq HPQ w w' e. rewrite run_finally. destruct (run p w) as [w1 o] eqn:E1.
  destruct (run q w1) as [w2 [u|e2]] eqn:E2; intros [= <- ->].
  - apply HPQ. by eapply Hp.
  - apply HPQ. by eapply Hq.
Qed.

Lemma raises_reads {A} (f : W -> A) : raises Q (reads f).
Proof. by intros w w' e. Qed.

Lemma raises_of_option {A} e (o : option A) : (forall w, Q w e) -> raises Q (of_option e o).
Proof. intros H. destruct o; [apply raises_ret|by apply raises_raise]. Qed.

Lemma raises_atomic {A} (f : W -> W * outcome A) :
  (forall w, match f w with (w', ERR e) => Q w' e | _ => True end) -> raises Q (atomic f).
Proof. intros H w w' e. rewrite run_atomic. intros Hr. specialize (H w). by rewrite Hr in H. Qed.
End raises.

Lemma raises_impl {A} (P Q : W -> E -> Prop) (p : proc A) :
  (forall w e, P w e -> Q w e) -> raises P p -> raises Q p.
Proof. intros H Hp w w' e Hr. apply H. by eapply Hp. Qed.

(** ** Guarantees *)

Fixpoint guar {A} (R : W -> W -> Prop) (p : proc A) : Prop :=
  match p with
  | Ret _ | Raise _ => True
  | Step f => forall w, match f w with (w', p') => R w w' /\ guar R p' end
  end.

Lemma guar_ret {A} R (a : A) : guar R (Ret a).
Proof. done. Qed.

Lemma guar_raise {A} R e : guar R (Raise e : proc A).
Proof. done. Qed.

Lemma guar_bind {A B} R (k : A -> proc B) (p : proc A) :
  guar R p -> (forall a, guar R (k a)) -> guar R (p ≫= k).
Proof.
  intros Hp Hk. change (p ≫= k) with (proc_bind_ k p).
  induction p as [a|e|f IH] using proc_nested_ind; cbn; [apply Hk|done|].
  intros w. specialize (IH w). specialize (Hp w). destruct (f w) as [w' p'].
  destruct Hp. auto.
Qed.

Lemma guar_catch {A} R (p : proc A) h :
  guar R p -> (forall e q, h e = Some q -> guar R q) -> guar R (catch p h).
Proof.
  intros Hp Hh. induction p as [a|e|f IH] using proc_nested_ind; cbn; [done| |].
  - destruct (h e) eqn:E'; [eauto|done].
  - intros w. specialize (IH w). specialize (Hp w). destruct (f w) as [w' p'].
    destruct Hp. auto.
Qed.

Lemma guar_finally {A} R (p : proc A) q : guar R p -> guar R q -> guar R (finally p q).
Proof.
  intros Hp Hq. induction p as [a|e|f IH] using proc_nested_ind; cbn; [by apply guar_bind..|].
  intros w. specialize (IH w). specialize (Hp w). destruct (f w) as [w' p'].
  destruct Hp. auto.
Qed.

Lemma guar_atomic {A} R (f : W -> W * outcome A) :
  (forall w, R w (f w).1) -> guar R (atomic f).
Proof.
  intros H w. specialize (H w). destruct (f w) as [w' [a|e]]; done.
Qed.

Lemma guar_atomic_inv {A} R (f : W -> W * outcome A) : guar R (atomic f) -> forall w, R w (f w).1.
Proof. intros H w. specialize (H w). cbn in H. destruct (f w) as [w' [a|e]]; apply H. Qed.

Lemma guar_reads {A} R (f : W -> A) : (forall w, R w w) -> guar R (reads f).
Proof. intros H w. by split. Qed.

Lemma guar_of_option {A} R e (o : option A) : guar R (of_option e o).
Proof. by destruct o. Qed.

(** Alone, a coroutine that guarantees a preorder moves along it. *)
Lemma guar_run {A} (R : W -> W -> Prop) `{!PreOrder R} (p : proc A) w w' o :
  guar R p -> run p w = (w', o) -> R w w'.
Proof.
  revert w. induction p as [a|e|f IH] using proc_nested_ind; intros w Hp Hr; cbn in *.
  - by injection Hr as <- _.
  - by injection Hr as <- _.
  - specialize (IH w). specialize (Hp w). destruct (f w) as [w1 p1]. destruct Hp as [HR Hp].
    transitivity w1; [done|]. by apply IH.
Qed.

Lemma guar_impl {A} (R S : W -> W -> Prop) (p : proc A) :
  (forall w w', R w w' -> S w w') -> guar R p -> guar S p.
Proof.
  intros HRS Hp. induction p as [a|e|f IH] using proc_nested_ind; cbn in *; [done..|].
  intros w. specialize (IH w). specialize (Hp w). destruct (f w) as [w' p'].
  destruct Hp. auto.
Qed.

Lemma guar_and {A} (R S : W -> W -> Prop) (p : proc A) :
  guar R p -> guar S p -> guar (fun w w' => R w w' /\ S w w') p.
Proof.
  intros HR HS. induction p as [a|e|f IH] using proc_nested_ind; cbn in *; [done..|].
  intros w. specialize (IH w). specialize (HR w). specialize (HS w). destruct (f w) as [w' p'].
  destruct HR, HS. auto.
Qed.

(** ** Interleavings *)

Section pool.
Context {A : Type} (env : W -> W -> Prop).

Inductive sys_step : W * list (proc A) -> W * list (proc A) -> Prop :=
| sys_proc i f w w' p' ps :
    ps !! i = Some (Step f) -> f w = (w', p') ->
    sys_step (w, ps) (w', <[i:=p']> ps)
| sys_env w w' ps : env w w' -> sys_step (w, ps) (w', ps).

Definition sys_reach := rtc sys_step.

(** What every coroutine and the environment guarantee step by step holds
    between any two states of any interleaving. *)
Lemma guar_reach (R : W -> W -> Prop) `{!PreOrder R} w ps w' ps' :
  (forall w w', env w w' -> R w w') ->
  Forall (guar R) ps ->
  sys_reach (w, ps) (w', ps') -> R w w' /\ Forall (guar R) ps'.
Proof.
  intros Henv Hps Hr.
  change w with ((w, ps).1) at 1. change w' with ((w', ps').1).
  change ps' with ((w', ps').2) at 2. change ps with ((w, ps).2) in Hps.
  induction Hr as [c|c1 c2 c3 Hs _ IH]; [done|].
  assert (R c1.1 c2.1 /\ Forall (guar R) c2.2) as [H1 H2].
  { destruct Hs as [i f v v' p' qs Hi Hf|v v' qs He]; cbn in *; [|eauto].
    pose proof (Forall_lookup_1 _ _ _ _ Hps Hi v) as H. rewrite Hf in H.
    destruct H. split; [done|]. by apply Forall_insert. }
  destruct (IH H2) as [H3 H4]. split; [by transitivity c2.1|done].
Qed.

(** Running alone is one of the interleavings. *)
Lemma run_sys_reach i p ps w w' o :
  ps !! i = Some p -> run p w = (w', o) ->
  sys_reach (w, ps) (w', <[i:=match o with OK a => Ret a | ERR e => Raise e end]> ps).
Proof.
  revert w ps. induction p as [a|e|f IH] using proc_nested_ind; intros w ps Hi Hr; cbn in Hr.
  - injection Hr as <- <-. rewrite list_insert_id by done. constructor.
  - injection Hr as <- <-. rewrite list_insert_id by done. constructor.
  - specialize (IH w). destruct (f w) as [w1 p1] eqn:Ef.
    eapply rtc_l; [by eapply sys_proc|].
    specialize (IH w1 (<[i:=p1]> ps)). rewrite list_insert_insert_eq in IH.
    apply IH; [|done]. apply list_lookup_insert_eq. by eapply lookup_lt_Some.
Qed.
End pool.
End Proc.

Arguments proc : clear implicits.
Arguments outcome : clear implicits.
Arguments Ret {W E A}.
Arguments Raise {W E A}.
Arguments Step {W E A}.
Arguments OK {E A}.
Arguments ERR {E A}.

Create HintDb guar.
#[export] Hint Resolve guar_ret guar_raise guar_of_option : guar.
Create Rewrite HintDb run.
#[export] Hint Rewrite @run_bind @run_catch @run_finally @run_atomic @run_reads @run_of_option : run.

(** Symbolic execution: unfold one sequencing step after the other. *)
Ltac run_simpl := repeat (autorewrite with run in *; cbn [run fst snd] in * ).
