(* ===== verification/History.v ===== *)
(** * Programs that look back

    [guar] relates the two ends of one step.  Here a step may also be justified
    by what the coroutine has seen before: [told Rel R Q h p] says that [p], having
    seen the states [h], takes only steps [R] allows after them, and that [Q] holds
    of what it has seen and of its result when it returns.  The states in between
    may be changed by others, along [Rel].  [told_reach] carries it to every
    interleaving, whose states are collected by [hist_step]. *)

From stdpp Require Import relations.
From S2P Require Import Prelude Proc.

Section told.
Context {W E : Type} (Rel : W -> W -> Prop) (R : list W -> W -> W -> Prop).

Fixpoint told {A} (Q : list W -> A -> Prop) (h : list W) (p : proc W E A) : Prop :=
  match p with
  | Ret a => Q h a
  | Raise _ => True
  | Step f => forall w, Forall (fun v => Rel v w) h ->
      match f w with (w', p') => R (h ++ [w]) w w' /\ told Q (h ++ [w; w']) p' end
  end.

Lemma told_impl {A} (Q Q' : list W -> A -> Prop) (p : proc W E A) : forall h,
  (forall h' a, h `prefix_of` h' -> Q h' a -> Q' h' a) -> told Q h p -> told Q' h p.
Proof.
  induction p as [a|e|f IH] using proc_nested_ind; intros h HQ Hp; cbn in *; [by apply HQ|done|].
  intros w Hw. specialize (IH w). specialize (Hp w Hw). destruct (f w) as [w' p']. destruct Hp as [HR Hp].
  split; [done|]. apply IH; [|done]. intros h' a Hh. apply HQ. etransitivity; [|exact Hh]. by apply prefix_app_r.
Qed.

Lemma told_bind {A B} Q (p : proc W E A) (k : A -> proc W E B) h :
  told (fun h' a => told Q h' (k a)) h p -> told Q h (p ≫= k).
Proof.
  change (p ≫= k) with (proc_bind_ k p). revert h.
  induction p as [a|e|f IH] using proc_nested_ind; intros h Hp; cbn in *; [done..|].
  intros w Hw. specialize (IH w). specialize (Hp w Hw). destruct (f w) as [w' p']. destruct Hp. auto.
Qed.

Lemma told_catch {A} Q (p : proc W E A) handler : forall h,
  told Q h p -> (forall h' e q, h `prefix_of` h' -> handler e = Some q -> told Q h' q) -> told Q h (catch p handler).
Proof.
  induction p as [a|e|f IH] using proc_nested_ind; intros h Hp Hh; cbn in *; [done| |].
  - destruct (handler e) eqn:He; [by eapply Hh|done].
  - intros w Hw. specialize (IH w). specialize (Hp w Hw). destruct (f w) as [w' p']. destruct Hp as [HR Hp].
    split; [done|]. apply IH; [done|]. intros h' e q Hpre. apply Hh. etransitivity; [|exact Hpre]. by apply prefix_app_r.
Qed.

Lemma told_atomic {A} (Q : list W -> A -> Prop) h (f : W -> W * outcome E A) :
  (forall w, Forall (fun v => Rel v w) h ->
     R (h ++ [w]) w (f w).1 /\ match (f w).2 with OK a => Q (h ++ [w; (f w).1]) a | ERR _ => True end) ->
  told Q h (atomic f).
Proof. intros H w Hw. specialize (H w Hw). by destruct (f w) as [w' [a|e]]. Qed.

Lemma told_of_option {A} (Q : list W -> A -> Prop) h e (o : option A) :
  (forall a, o = Some a -> Q h a) -> told Q h (of_option e o).
Proof. intros H. destruct o; cbn; auto. Qed.

(** Steps that need no justification. *)
Section silent.
Context (S : W -> W -> Prop).
Hypothesis silent_ok : forall h w w', S w w' -> R h w w'.

Lemma guar_told {A} (p : proc W E A) : forall h, guar S p -> told (fun h' _ => h `prefix_of` h') h p.
Proof.
  induction p as [a|e|f IH] using proc_nested_ind; intros h Hp; cbn in *; [done..|].
  intros w Hw. specialize (IH w). specialize (Hp w). destruct (f w) as [w' p']. destruct Hp as [HS Hp].
  split; [by apply silent_ok|]. eapply told_impl; [|by apply IH]. intros h' a _ Hh. etransitivity; [|exact Hh].
  by apply prefix_app_r.
Qed.

(** A silent program in front. *)
Lemma told_after {A B} Q (p : proc W E A) (k : A -> proc W E B) h :
  guar S p -> (forall h' a, h `prefix_of` h' -> told Q h' (k a)) -> told Q h (p ≫= k).
Proof. intros Hp Hk. apply told_bind. eapply told_impl; [|by apply guar_told]. intros h' a _. apply Hk. Qed.

Lemma told_reads_after {A B} Q (f : W -> A) (k : A -> proc W E B) h :
  (forall w, S w w) ->
  (forall w, Forall (fun v => Rel v w) h -> told Q (h ++ [w; w]) (k (f w))) -> told Q h (reads f ≫= k).
Proof. intros HS Hk. apply told_bind. intros w Hw. split; [by apply silent_ok|]. by apply Hk. Qed.
End silent.
End told.

(** ** Interleavings with their history *)

Section reach.
Context {W E A : Type} (env Rel : W -> W -> Prop) (R : list W -> W -> W -> Prop).

(** All the states so far, the present one last. *)
Inductive hist_step : list W * (W * list (proc W E A)) -> list W * (W * list (proc W E A)) -> Prop :=
| hist_next h c c' : sys_step env c c' -> hist_step (h, c) (h ++ [c'.1], c').

Lemma sys_reach_history c c' h : sys_reach env c c' -> exists h', rtc hist_step (h, c) (h', c').
Proof.
  intros Hr. revert h. induction Hr as [c|c1 c2 c3 Hs _ IH]; intros h; [by exists h|].
  destruct (IH (h ++ [c2.1])) as (h' & Hh). exists h'. eapply rtc_l; [by constructor|done].
Qed.

(** The states a coroutine that runs alone goes through. *)
Fixpoint trace {B} (p : proc W E B) (w : W) : list W :=
  match p with
  | Step f => match f w with (w', p') => w' :: trace p' w' end
  | _ => []
  end.

Lemma run_history i (p : proc W E A) ps w w' o h :
  ps !! i = Some p -> run p w = (w', o) ->
  rtc hist_step (h, (w, ps)) (h ++ trace p w, (w', <[i:=match o with OK a => Ret a | ERR e => Raise e end]> ps)).
Proof.
  revert w ps h. induction p as [a|e|f IH] using proc_nested_ind; intros w ps h Hi Hr; cbn in Hr.
  - injection Hr as <- <-. rewrite list_insert_id by done. cbn. rewrite app_nil_r. constructor.
  - injection Hr as <- <-. rewrite list_insert_id by done. cbn. rewrite app_nil_r. constructor.
  - specialize (IH w). cbn. destruct (f w) as [w1 p1] eqn:Ef.
    eapply rtc_l; [constructor; by eapply sys_proc|]. cbn [fst].
    specialize (IH w1 (<[i:=p1]> ps) (h ++ [w1])). rewrite list_insert_insert_eq, <- app_assoc in IH.
    apply IH; [|done]. apply list_lookup_insert_eq. by eapply lookup_lt_Some.
Qed.

Context `{!PreOrder Rel}.
Hypothesis env_rel : forall w w', env w w' -> Rel w w'.
Hypothesis R_mono : forall h h' w w', h ⊆ h' -> R h w w' -> R h' w w'.

Record looking_back (h : list W) (w : W) (ps : list (proc W E A)) : Prop := {
  lb_present : w ∈ h;
  lb_past : Forall (fun v => Rel v w) h;
  lb_steps : Forall (guar Rel) ps;
  lb_told : Forall (fun p => exists seen, seen ⊆ h /\ told Rel R (fun _ _ => True) seen p) ps
}.

Lemma looking_back_start w ps :
  Forall (guar Rel) ps -> Forall (told Rel R (fun _ _ => True) []) ps -> looking_back [w] w ps.
Proof.
  intros Hg Ht. split; [by apply list_elem_of_singleton|by repeat constructor|done|].
  eapply Forall_impl; [exact Ht|]. intros p Hp. exists []. split; [by apply list_subseteq_nil|done].
Qed.

Lemma looking_back_env h w w' ps : looking_back h w ps -> env w w' -> looking_back (h ++ [w']) w' ps.
Proof.
  intros [Hw Hp Hs Ht] He%env_rel. split; [by apply elem_of_app; right; apply list_elem_of_singleton| |done|].
  - apply Forall_app. split; [|by repeat constructor]. eapply Forall_impl; [exact Hp|]. intros v Hv. by transitivity w.
  - eapply Forall_impl; [exact Ht|]. intros p (seen & Hsub & Hp'). exists seen. split; [|done].
    intros v Hv. apply elem_of_app. left. by apply Hsub.
Qed.

Lemma looking_back_proc h w w' ps i f p' : looking_back h w ps -> ps !! i = Some (Step f) -> f w = (w', p') ->
  R h w w' /\ looking_back (h ++ [w']) w' (<[i := p']> ps).
Proof.
  intros [Hw Hp Hs Ht] Hi Hf.
  pose proof (Forall_lookup_1 _ _ _ _ Hs Hi w) as Hg. rewrite Hf in Hg. destruct Hg as [HRel Hg].
  destruct (Forall_lookup_1 _ _ _ _ Ht Hi) as (seen & Hsub & Htold).
  assert (Hseen : Forall (fun v => Rel v w) seen).
  { apply Forall_forall. intros v Hv. rewrite Forall_forall in Hp. by apply Hp, Hsub. }
  specialize (Htold w Hseen). rewrite Hf in Htold. destruct Htold as [HR Htold].
  assert (Hnext : forall v, v ∈ h -> v ∈ h ++ [w']) by (intros v Hv; apply elem_of_app; by left).
  split.
  - eapply R_mono, HR. intros v [Hv| ->%list_elem_of_singleton]%elem_of_app; [by apply Hsub|done].
  - split.
    + apply elem_of_app. right. by apply list_elem_of_singleton.
    + apply Forall_app. split; [|by repeat constructor]. eapply Forall_impl; [exact Hp|]. intros v Hv. by transitivity w.
    + by apply Forall_insert.
    + apply Forall_insert.
      * eapply Forall_impl; [exact Ht|]. intros p (s & Hss & Hpp). exists s. split; [|done]. intros v Hv. by apply Hnext, Hss.
      * exists (seen ++ [w; w']). split; [|done]. intros v Hv. rewrite elem_of_app, !elem_of_cons, elem_of_nil in Hv.
        destruct Hv as [Hv|[->|[->|[]]]]; [by apply Hnext, Hsub|by apply Hnext|].
        apply elem_of_app. right. by apply list_elem_of_singleton.
Qed.

(** What every justified step and every step of the environment keeps, holds in
    every state. *)
Theorem told_reach (P : list W -> W -> Prop) h w ps h' w' ps' :
  (forall h w w', P h w -> R h w w' -> P (h ++ [w']) w') ->
  (forall h w w', P h w -> env w w' -> P (h ++ [w']) w') ->
  looking_back h w ps -> P h w -> rtc hist_step (h, (w, ps)) (h', (w', ps')) ->
  looking_back h' w' ps' /\ P h' w'.
Proof.
  intros HR Henv Hl HP Hr.
  assert (Hc : forall c c', rtc hist_step c c' -> looking_back c.1 c.2.1 c.2.2 -> P c.1 c.2.1 ->
    looking_back c'.1 c'.2.1 c'.2.2 /\ P c'.1 c'.2.1); [|by apply (Hc (h, (w, ps)) (h', (w', ps')))].
  clear Hl HP Hr. induction 1 as [c|c1 c2 c3 Hs _ IH]; intros Hl HP; [done|]. destruct Hs as [g c c' Hs]. cbn [fst snd] in *.
  destruct Hs as [i f v v' p' qs Hi Hf|v v' qs He]; cbn [fst snd] in *.
  - destruct (looking_back_proc _ _ _ _ _ _ _ Hl Hi Hf) as [Hstep Hnext]. apply IH; [done|]. by eapply HR.
  - apply IH; [by eapply looking_back_env|by eapply Henv].
Qed.
End reach.
