(* ===== verification/World.v ===== *)
(** * The state the backend runs on

    The tables of migration 003 and 004 as finite maps from the primary key to
    a row, the in-process state (hub, challenge store, rate cache, dummy hash
    cache), the clock, and the number of draws made from the random source.

    Code outside the repository is reached through type classes: the random
    source ([Entropy]), the parts of PostgreSQL that are not SQL text of the
    repository ([Postgres]: time zones and the [inet] type), Argon2 and
    Ed25519. *)

From S2P Require Import Prelude Text Json Errors Proc.

(** ** External code *)

(** [os.urandom] behind [secrets], [uuid4] and [gen_random_uuid]: the [i]-th
    draw of [n] octets. *)
Class Entropy := {
  csprng : nat -> nat -> bytes;
  csprng_length : forall i n, length (csprng i n) = n;
  csprng_bytes : forall i n, all_bytes (csprng i n)
}.

(** [host(ip)]: the address of an [inet] without its netmask. *)
Fixpoint host (ip : pystr) : pystr :=
  match ip with [] => [] | c :: rest => if c =? 47 then [] else c :: host rest end.

(** [pg_inet s] is [s::inet] as its text, an address and, unless it is that of
    a single host, a slash and the length of the netmask; [None] when the cast
    fails (no control character is in it, and the address is not empty);
    [pg_local tz t] is [t AT TIME ZONE tz] as microseconds since the epoch on
    the local calendar, [None] for an unknown zone;
    [pg_numeric t] is the text of the [numeric] a JSON number literal becomes,
    [None] when there is none ([NaN], [Infinity]);
    [pg_time s] is [s::time] as microseconds since midnight;
    [pg_collate] is the order of [ORDER BY] on [text]. *)
Class Postgres := {
  pg_inet : pystr -> option pystr;
  pg_local : pystr -> instant -> option Z;
  pg_numeric : pystr -> option pystr;
  pg_time : pystr -> option Z;
  pg_collate : pystr -> pystr -> bool;
  pg_inet_text : forall s ip, pg_inet s = Some ip -> host ip <> [] /\ Forall (fun c => 32 <= c < 128) ip
}.

(** [argon2.PasswordHasher]: the parameters are (time, memory, parallelism). *)
Inductive argon2_result := argon2_match | argon2_mismatch | argon2_invalid_hash | argon2_failure.

Class Argon2 := {
  argon2_hash : Z * Z * Z -> bytes -> pystr -> pystr;
  argon2_verify : pystr -> pystr -> argon2_result;
  argon2_complete : forall p salt pw, argon2_verify (argon2_hash p salt pw) pw = argon2_match
}.

(** [cryptography]'s Ed25519 on raw keys. *)
Class Ed25519 := {
  ed25519_public : bytes -> bytes;
  ed25519_sign : bytes -> bytes -> bytes;
  ed25519_verify : bytes -> bytes -> bytes -> bool;
  ed25519_complete : forall k m, ed25519_verify (ed25519_public k) (ed25519_sign k m) m = true;
  ed25519_sign_bytes : forall k m, all_bytes (ed25519_sign k m);
  ed25519_public_bytes : forall k, all_bytes (ed25519_public k)
}.

(** The builtin [repr] of a [list], a [dict] or a [float], for the texts that
    are built from a JSON value with [str()] or an f-string, whether the
    [float] a literal denotes is not zero, [type(exc).__name__], and
    [str.lower()], whose tables are those of the Unicode version of the
    interpreter and which on ASCII text is [Text.lower]. *)
Class PyRepr := {
  py_repr : json -> pystr;
  py_float_true : pystr -> bool;
  py_type_name : Exn -> pystr;
  py_lower : pystr -> pystr;
  py_lower_ascii : forall s, Forall (fun c => 0 <= c < 128) s -> py_lower s = lower s
}.

Definition py_str `{PR : PyRepr} (v : json) : pystr :=
  match v with
  | JStr s => s
  | JNull => §"None"
  | JBool true => §"True"
  | JBool false => §"False"
  | JInt z => int_str z
  | v => py_repr v
  end.

(** [bool(v)] *)
Definition py_true `{PR : PyRepr} (v : json) : bool :=
  match v with
  | JNull => false
  | JBool b => b
  | JInt z => negb (z =? 0)
  | JFloat t => py_float_true t
  | JStr s => match s with [] => false | _ => true end
  | JList l => match l with [] => false | _ => true end
  | JObj m => match m with [] => false | _ => true end
  end.

(** ** Rows *)

(* @src backend/db/migrations/002_schema.sql 30-32 acs.attestation_status *)
Inductive attestation_status := att_pending | att_verified | att_failed | att_exempt.
(* @src backend/db/migrations/002_schema.sql 25-27 acs.token_kind *)
Inductive token_kind := access_kind | refresh_kind.
(* @src backend/db/migrations/002_schema.sql 35-37 acs.rate_subject *)
Inductive rate_subject := subj_user | subj_device | subj_ip.
(* @src backend/db/migrations/002_schema.sql 20-22 acs.audit_outcome *)
Inductive audit_outcome := out_success | out_failure | out_denied.
(* @src backend/db/migrations/002_schema.sql 14-17 acs.actor_type *)
Inductive actor_kind :=
| act_user | act_device | act_controller | act_admin | act_system | act_anonymous.

#[global] Instance attestation_status_eq_dec : EqDecision attestation_status.
Proof. solve_decision. Defined.
#[global] Instance token_kind_eq_dec : EqDecision token_kind.
Proof. solve_decision. Defined.
#[global] Instance rate_subject_eq_dec : EqDecision rate_subject.
Proof. solve_decision. Defined.
#[global] Instance audit_outcome_eq_dec : EqDecision audit_outcome.
Proof. solve_decision. Defined.
#[global] Instance actor_kind_eq_dec : EqDecision actor_kind.
Proof. solve_decision. Defined.

Definition rate_subject_index (s : rate_subject) : nat :=
  match s with subj_user => 0 | subj_device => 1 | subj_ip => 2 end.
Definition rate_subject_of (n : nat) : option rate_subject :=
  match n with 0 => Some subj_user | 1 => Some subj_device | _ => Some subj_ip end%nat.

#[global] Instance rate_subject_countable : Countable rate_subject.
Proof. apply (inj_countable rate_subject_index rate_subject_of). by intros []. Defined.

(* @src backend/db/migrations/003_core_tables.sql 13-26 acs.users *)
Record user_row := {
  u_username : pystr; u_display_name : pystr; u_password_hash : pystr;
  u_is_admin : bool; u_is_active : bool;
  u_created_at : instant; u_updated_at : instant; u_last_login_at : option instant
}.

(* @src backend/db/migrations/003_core_tables.sql 34-54 acs.devices *)
Record device_row := {
  d_user_id : uuid; d_label : pystr; d_public_key : bytes; d_platform : pystr;
  d_app_version : option pystr; d_attestation_status : attestation_status;
  d_attestation_verified_at : option instant; d_attestation_detail : json;
  d_is_blocked : bool; d_blocked_reason : option pystr;
  d_created_at : instant; d_last_seen_at : option instant
}.

(* @src backend/db/migrations/003_core_tables.sql 63-74 acs.enrollment_codes *)
Record enrollment_row := {
  e_user_id : uuid; e_code_hash : bytes; e_created_by : option uuid;
  e_created_at : instant; e_expires_at : instant; e_used_at : option instant;
  e_used_by_device : option uuid
}.

(* @src backend/db/migrations/003_core_tables.sql 82-100 acs.controllers *)
Record controller_row := {
  c_code : pystr; c_name : pystr; c_public_key : bytes; c_beacon_key : bytes;
  c_firmware_version : option pystr; c_is_blocked : bool; c_blocked_reason : option pystr;
  c_last_seen_at : option instant; c_last_ip : option pystr; c_created_at : instant
}.

(* @src backend/db/migrations/003_core_tables.sql 105-120 acs.doors *)
Record door_row := {
  dr_code : pystr; dr_name : pystr; dr_location : option pystr;
  dr_controller_id : option uuid; dr_relay_channel : Z; dr_unlock_seconds : Z;
  dr_is_active : bool; dr_created_at : instant
}.

(* @src backend/db/migrations/003_core_tables.sql 127-147 acs.permissions *)
Record permission_row := {
  p_user_id : uuid; p_door_id : uuid; p_valid_from : instant; p_valid_until : option instant;
  p_weekday_mask : Z; p_start_time : Z; p_end_time : Z; p_time_zone : pystr;
  p_is_active : bool; p_created_by : option uuid; p_created_at : instant
}.

(* @src backend/db/migrations/003_core_tables.sql 159-177 acs.tokens *)
Record token_row := {
  t_family_id : uuid; t_user_id : uuid; t_device_id : uuid; t_kind : token_kind;
  t_token_hash : bytes; t_parent_id : option uuid; t_issued_at : instant;
  t_expires_at : instant; t_used_at : option instant; t_revoked_at : option instant;
  t_revoked_reason : option pystr
}.

(* @src backend/db/migrations/003_core_tables.sql 187-194 acs.failed_attempts *)
Record failed_row := {
  f_subject_type : rate_subject; f_subject : pystr; f_endpoint : pystr;
  f_client_ip : option pystr; f_occurred_at : instant
}.

(* @src backend/db/migrations/004_audit_log.sql 28-45 acs.audit_log *)
Record audit_row := {
  a_seq : Z; a_occurred_at : instant; a_event_type : pystr; a_outcome : audit_outcome;
  a_actor_type : actor_kind; a_actor_id : option uuid; a_device_id : option uuid;
  a_door_id : option uuid; a_controller_id : option uuid; a_client_ip : option pystr;
  a_detail : json; a_prev_hash : bytes; a_row_hash : bytes
}.

Record Db := {
  users : gmap Z user_row;
  devices : gmap Z device_row;
  enrollment_codes : gmap Z enrollment_row;
  controllers : gmap Z controller_row;
  doors : gmap Z door_row;
  permissions : gmap Z permission_row;
  tokens : gmap Z token_row;
  failed_attempts : list failed_row;
  audit_log : list audit_row;
  audit_seq : Z
}.

(** ** In-process state *)

(** An [asyncio.Future]: pending, done with a message, or done with the
    exception [ControllerOffline(msg)], the only one the code ever sets. *)
Inductive future := Pending | Result (message : list (pystr * json)) | Failed (msg : pystr).

(* @src backend/app/ws/hub.py 32-41 ControllerSession *)
Record ControllerSession := {
  cs_controller_id : uuid; cs_controller_code : pystr;
  cs_connected_at : instant; cs_last_pong_at : instant;
  cs_remote_ip : option pystr; cs_firmware_version : option pystr;
  cs_pending : gmap (list Z) nat
}.

(** The hub's dictionary holds references: sessions and futures live in heaps,
    so that a session replaced in the dictionary is still the same object for
    the coroutine that holds it. *)
(* @src backend/app/ws/hub.py 44-47 ControllerHub.__init__ *)
Record ControllerHub := {
  h_sessions : gmap (list Z) nat;
  h_session_heap : gmap nat ControllerSession;
  h_future_heap : gmap nat future;
  h_next : nat
}.

(* @src backend/app/services/enrollment_service.py 38-42 _Challenge *)
Record Challenge := { ch_value : bytes; ch_user_hint : pystr; ch_expires_at : instant }.

(** [w_asked] is not a variable of the program: it is what the process has
    written to the signer's socket so far, line by line. *)
Record World := {
  w_now : instant;
  w_monotonic : instant;
  w_draws : nat;
  w_db : Db;
  w_hub : ControllerHub;
  w_challenges : gmap (list Z) Challenge;
  w_recent : gmap (rate_subject * list Z) (list instant);
  w_dummy_hash_cache : gmap (Z * Z * Z) (list Z);
  w_asked : list (list Z)
}.

(** Coroutines of the backend. *)
Abbreviation io := (proc World Exn) (only parsing).

Definition set_db (d : Db) (w : World) : World := {|
  w_now := w_now w; w_monotonic := w_monotonic w; w_draws := w_draws w; w_db := d;
  w_hub := w_hub w; w_challenges := w_challenges w; w_recent := w_recent w;
  w_dummy_hash_cache := w_dummy_hash_cache w; w_asked := w_asked w |}.

Definition set_hub (h : ControllerHub) (w : World) : World := {|
  w_now := w_now w; w_monotonic := w_monotonic w; w_draws := w_draws w; w_db := w_db w;
  w_hub := h; w_challenges := w_challenges w; w_recent := w_recent w;
  w_dummy_hash_cache := w_dummy_hash_cache w; w_asked := w_asked w |}.

Definition set_draws (n : nat) (w : World) : World := {|
  w_now := w_now w; w_monotonic := w_monotonic w; w_draws := n; w_db := w_db w;
  w_hub := w_hub w; w_challenges := w_challenges w; w_recent := w_recent w;
  w_dummy_hash_cache := w_dummy_hash_cache w; w_asked := w_asked w |}.

Definition set_challenges (c : gmap (list Z) Challenge) (w : World) : World := {|
  w_now := w_now w; w_monotonic := w_monotonic w; w_draws := w_draws w; w_db := w_db w;
  w_hub := w_hub w; w_challenges := c; w_recent := w_recent w;
  w_dummy_hash_cache := w_dummy_hash_cache w; w_asked := w_asked w |}.

Definition set_recent (r : gmap (rate_subject * list Z) (list instant)) (w : World) : World := {|
  w_now := w_now w; w_monotonic := w_monotonic w; w_draws := w_draws w; w_db := w_db w;
  w_hub := w_hub w; w_challenges := w_challenges w; w_recent := r;
  w_dummy_hash_cache := w_dummy_hash_cache w; w_asked := w_asked w |}.

Definition set_dummy_hash_cache (c : gmap (Z * Z * Z) (list Z)) (w : World) : World := {|
  w_now := w_now w; w_monotonic := w_monotonic w; w_draws := w_draws w; w_db := w_db w;
  w_hub := w_hub w; w_challenges := w_challenges w; w_recent := w_recent w;
  w_dummy_hash_cache := c; w_asked := w_asked w |}.

(** Time passes on both clocks alike. *)
Definition advance (d : Z) (w : World) : World := {|
  w_now := w_now w + d; w_monotonic := w_monotonic w + d; w_draws := w_draws w;
  w_db := w_db w; w_hub := w_hub w; w_challenges := w_challenges w; w_recent := w_recent w;
  w_dummy_hash_cache := w_dummy_hash_cache w; w_asked := w_asked w |}.

Definition set_asked (l : list (list Z)) (w : World) : World := {|
  w_now := w_now w; w_monotonic := w_monotonic w; w_draws := w_draws w; w_db := w_db w;
  w_hub := w_hub w; w_challenges := w_challenges w; w_recent := w_recent w;
  w_dummy_hash_cache := w_dummy_hash_cache w; w_asked := l |}.

(** ** Random draws *)

Section draws.
Context {EN : Entropy}.

(** [secrets.token_bytes(n)] *)
Definition token_bytes (n : nat) (w : World) : World * bytes :=
  (set_draws (S (w_draws w)) w, csprng (w_draws w) n).

(** [uuid.uuid4()] and [gen_random_uuid()] *)
Definition uuid4 (w : World) : World * uuid :=
  let '(w', b) := token_bytes 16 w in (w', uuid4_of_bytes b).
End draws.

(** ** SQL statements

    Each statement of the repositories is one implicit transaction: one atomic
    step, in which [now()] is the time of the step. *)

(** [SELECT ... WHERE P]: the matching rows, in no particular order. *)
Definition select {A} (P : A -> bool) (m : gmap Z A) : list (Z * A) :=
  filter (fun kv => P kv.2 = true) (map_to_list m).

(** [fetchrow]: the first row, if any. *)
Definition fetchrow {A} (P : A -> bool) (m : gmap Z A) : option (Z * A) := head (select P m).

(** [UPDATE ... WHERE P]. *)
Definition update_where {A} (P : A -> bool) (f : A -> A) (m : gmap Z A) : gmap Z A :=
  (fun r => if P r then f r else r) <$> m.

(** A [UNIQUE] column: some row already has the value. *)
Definition exists_row {A} (P : A -> bool) (m : gmap Z A) : bool := is_some (fetchrow P m).

Lemma elem_of_select {A} (P : A -> bool) m k v :
  (k, v) ∈ select P m <-> m !! k = Some v /\ P v = true.
Proof.
  unfold select. rewrite list_elem_of_filter, elem_of_map_to_list. cbn. tauto.
Qed.

Lemma fetchrow_some {A} (P : A -> bool) m k v :
  fetchrow P m = Some (k, v) -> m !! k = Some v /\ P v = true.
Proof.
  unfold fetchrow. intros Hh. apply elem_of_select.
  destruct (select P m) as [|kv l]; [done|]. cbn in Hh. injection Hh as ->. left.
Qed.

Lemma fetchrow_none {A} (P : A -> bool) m :
  fetchrow P m = None <-> forall k v, m !! k = Some v -> P v = false.
Proof.
  unfold fetchrow. split.
  - intros Hh k v Hk. destruct (P v) eqn:E; [|done]. exfalso.
    assert (Hin : (k, v) ∈ select P m) by by apply elem_of_select.
    destruct (select P m); [by apply not_elem_of_nil in Hin|done].
  - intros Hall. destruct (select P m) as [|[k v] l] eqn:E; [done|]. exfalso.
    assert (Hin : (k, v) ∈ select P m) by (rewrite E; left).
    apply elem_of_select in Hin as [Hk HP]. by rewrite (Hall _ _ Hk) in HP.
Qed.

(** When at most one row matches, [fetchrow] finds it. *)
Lemma fetchrow_unique {A} (P : A -> bool) m k v :
  m !! k = Some v -> P v = true ->
  (forall k' v', m !! k' = Some v' -> P v' = true -> k' = k) ->
  fetchrow P m = Some (k, v).
Proof.
  intros Hk HP Hu. destruct (fetchrow P m) as [[k' v']|] eqn:E.
  - apply fetchrow_some in E as [Hk' HP']. pose proof (Hu _ _ Hk' HP') as ->. congruence.
  - rewrite fetchrow_none in E. by rewrite (E _ _ Hk) in HP.
Qed.

Lemma exists_row_false {A} (P : A -> bool) m :
  exists_row P m = false <-> forall k v, m !! k = Some v -> P v = false.
Proof.
  unfold exists_row. rewrite <- fetchrow_none. destruct (fetchrow P m); done.
Qed.

Lemma lookup_update_where {A} (P : A -> bool) f (m : gmap Z A) k :
  update_where P f m !! k = (fun r => if P r then f r else r) <$> m !! k.
Proof. unfold update_where. by rewrite lookup_fmap. Qed.

(** A statement: it may read the clock and the tables, draw a key, change the
    tables, and fail on a constraint. *)
Definition statement {A} (f : World -> World * outcome Exn A) : io A := atomic f.

(** A read-only statement. *)
Definition query {A} (f : instant -> Db -> A) : io A := reads (fun w => f (w_now w) (w_db w)).

(** A statement that changes the tables and cannot fail. *)
Definition execute (f : instant -> Db -> Db) : io unit :=
  atomic (fun w => (set_db (f (w_now w) (w_db w)) w, OK tt)).

Lemma run_query {A} (f : instant -> Db -> A) w : run (query f) w = (w, OK (f (w_now w) (w_db w))).
Proof. done. Qed.

Lemma run_execute f w : run (execute f) w = (set_db (f (w_now w) (w_db w)) w, OK tt).
Proof. done. Qed.

Lemma run_statement {A} (f : World -> World * outcome Exn A) w : run (statement f) w = f w.
Proof. apply run_atomic. Qed.

#[export] Hint Rewrite @run_query run_execute @run_statement : run.

(** Setters of one table. *)
Definition with_users (t : gmap Z user_row) (d : Db) : Db := {|
  users := t; devices := devices d; enrollment_codes := enrollment_codes d;
  controllers := controllers d; doors := doors d; permissions := permissions d;
  tokens := tokens d; failed_attempts := failed_attempts d; audit_log := audit_log d;
  audit_seq := audit_seq d |}.
Definition with_devices (t : gmap Z device_row) (d : Db) : Db := {|
  users := users d; devices := t; enrollment_codes := enrollment_codes d;
  controllers := controllers d; doors := doors d; permissions := permissions d;
  tokens := tokens d; failed_attempts := failed_attempts d; audit_log := audit_log d;
  audit_seq := audit_seq d |}.
Definition with_enrollment_codes (t : gmap Z enrollment_row) (d : Db) : Db := {|
  users := users d; devices := devices d; enrollment_codes := t;
  controllers := controllers d; doors := doors d; permissions := permissions d;
  tokens := tokens d; failed_attempts := failed_attempts d; audit_log := audit_log d;
  audit_seq := audit_seq d |}.
Definition with_controllers (t : gmap Z controller_row) (d : Db) : Db := {|
  users := users d; devices := devices d; enrollment_codes := enrollment_codes d;
  controllers := t; doors := doors d; permissions := permissions d;
  tokens := tokens d; failed_attempts := failed_attempts d; audit_log := audit_log d;
  audit_seq := audit_seq d |}.
Definition with_doors (t : gmap Z door_row) (d : Db) : Db := {|
  users := users d; devices := devices d; enrollment_codes := enrollment_codes d;
  controllers := controllers d; doors := t; permissions := permissions d;
  tokens := tokens d; failed_attempts := failed_attempts d; audit_log := audit_log d;
  audit_seq := audit_seq d |}.
Definition with_permissions (t : gmap Z permission_row) (d : Db) : Db := {|
  users := users d; devices := devices d; enrollment_codes := enrollment_codes d;
  controllers := controllers d; doors := doors d; permissions := t;
  tokens := tokens d; failed_attempts := failed_attempts d; audit_log := audit_log d;
  audit_seq := audit_seq d |}.
Definition with_tokens (t : gmap Z token_row) (d : Db) : Db := {|
  users := users d; devices := devices d; enrollment_codes := enrollment_codes d;
  controllers := controllers d; doors := doors d; permissions := permissions d;
  tokens := t; failed_attempts := failed_attempts d; audit_log := audit_log d;
  audit_seq := audit_seq d |}.
Definition with_failed_attempts (t : list failed_row) (d : Db) : Db := {|
  users := users d; devices := devices d; enrollment_codes := enrollment_codes d;
  controllers := controllers d; doors := doors d; permissions := permissions d;
  tokens := tokens d; failed_attempts := t; audit_log := audit_log d;
  audit_seq := audit_seq d |}.
Definition with_audit (t : list audit_row) (d : Db) : Db := {|
  users := users d; devices := devices d; enrollment_codes := enrollment_codes d;
  controllers := controllers d; doors := doors d; permissions := permissions d;
  tokens := tokens d; failed_attempts := failed_attempts d; audit_log := t;
  audit_seq := audit_seq d |}.
Definition with_audit_seq (n : Z) (d : Db) : Db := {|
  users := users d; devices := devices d; enrollment_codes := enrollment_codes d;
  controllers := controllers d; doors := doors d; permissions := permissions d;
  tokens := tokens d; failed_attempts := failed_attempts d; audit_log := audit_log d;
  audit_seq := n |}.

(** The first constraint of a row that does not hold. *)
Fixpoint violation (checks : list (bool * pystr)) : option pystr :=
  match checks with
  | [] => None
  | (true, _) :: rest => violation rest
  | (false, name) :: _ => Some name
  end.

Lemma violation_some checks name : violation checks = Some name -> (false, name) ∈ checks.
Proof. induction checks as [|[[] n] l IH]; cbn; [done|right; auto|intros [= ->]; left]. Qed.

Lemma violation_none checks : violation checks = None <-> Forall (fun c => c.1 = true) checks.
Proof.
  induction checks as [|[[] n] l IH]; cbn; [done|..].
  - rewrite Forall_cons. cbn. tauto.
  - split; [done|]. by intros [? _]%Forall_cons.
Qed.

(** [INSERT ... RETURNING id] with a generated primary key. *)
Definition insert_row `{EN : Entropy} {A} (table : Db -> gmap Z A) (put : gmap Z A -> Db -> Db)
    (checks : instant -> Db -> list (bool * pystr)) (row : instant -> Db -> A) : io uuid :=
  statement (fun w =>
    let d := w_db w in
    let '(w, id) := uuid4 w in
    match violation (checks (w_now w) d ++ [(negb (is_some (table d !! id)), §"pkey")]) with
    | Some name => (w, ERR (EDb name))
    | None => (set_db (put (<[id := row (w_now w) d]> (table d)) d) w, OK id)
    end).

(** What an insert that succeeds has checked. *)
Lemma run_insert_row `{EN : Entropy} {A} table put checks (row : instant -> Db -> A) w :
  let id := uuid4_of_bytes (csprng (w_draws w) 16) in
  let w1 := set_draws (S (w_draws w)) w in
  run (insert_row table put checks row) w =
  match violation (checks (w_now w) (w_db w) ++ [(negb (is_some (table (w_db w) !! id)), §"pkey")]) with
  | Some name => (w1, ERR (EDb name))
  | None => (set_db (put (<[id := row (w_now w) (w_db w)]> (table (w_db w))) (w_db w)) w1, OK id)
  end.
Proof. cbn zeta. unfold insert_row. rewrite run_statement. cbn. by destruct (violation _). Qed.

#[global] Arguments violation : simpl never.
