(* ===== verification/Demo.v ===== *)
(** * Concrete external code

    One instance of every class of [World]: small total functions that satisfy
    the laws, with which the examples and the witnesses of the theorems are
    evaluated. *)

From S2P Require Import Prelude Text Sha256 Json Errors Proc World.

(** The [i]-th draw spells [i + 1] in base 256. *)
Definition demo_draw (i n : nat) : bytes := to_bytes_le n (Z.of_nat i + 1).

Program Definition demo_entropy : Entropy := {| csprng := demo_draw |}.
Next Obligation. intros i n. apply length_to_bytes_le. Qed.
Next Obligation. intros i n. apply to_bytes_le_bytes. Qed.

(** Addresses are taken as they are, with or without a netmask; every zone is UTC+2; a time is the start or
    the end of the day. *)
Definition demo_inet (s : pystr) : option pystr :=
  match s with
  | [] => None
  | 47 :: _ => None
  | _ => if forallb (fun c => (32 <=? c) && (c <? 128)) s then Some s else None
  end.

Lemma demo_inet_text s h :
  demo_inet s = Some h -> host h <> [] /\ Forall (fun c => 32 <= c < 128) h.
Proof.
  intros Hh. assert (Hs : exists c r, s = c :: r /\ c <> 47 /\ forallb (fun c => (32 <=? c) && (c <? 128)) s = true /\ h = s).
  { unfold demo_inet in Hh. destruct s as [|c r]; [done|]. exists c, r. split; [done|].
    destruct (decide (c = 47)) as [->|Hne]; [done|]. split; [done|].
    assert (E : (if forallb (fun c => (32 <=? c) && (c <? 128)) (c :: r) then Some (c :: r) else None) = Some h)
      by (rewrite <- Hh; repeat (case_match; try done)).
    destruct (forallb _ _); [by injection E as <-|done]. }
  destruct Hs as (c & r & -> & Hc & Heqb & ->). split; [cbn [host]; by rewrite (proj2 (Z.eqb_neq c 47))|].
  rewrite forallb_forall in Heqb. apply Forall_forall. intros x Hx.
  apply list_elem_of_In in Hx. specialize (Heqb _ Hx). lia.
Qed.

Definition demo_postgres : Postgres := {|
  pg_inet := demo_inet;
  pg_local := fun _ t => Some (t + 7200000000);
  pg_numeric := Some;
  pg_time := fun s => Some (if starts_with §"00" s then 0 else 86399000000);
  pg_collate := str_leb;
  pg_inet_text := demo_inet_text
|}.

Definition demo_repr : PyRepr := {|
  py_repr := dumps false true None; py_float_true := fun _ => true;
  py_type_name := fun _ => §"Exception"; py_lower := lower; py_lower_ascii := fun _ _ => eq_refl |}.

Program Definition demo_argon2 : Argon2 := {|
  argon2_hash := fun _ _ pw => 36 :: pw;
  argon2_verify := fun stored pw =>
    if bool_decide (stored = 36 :: pw) then argon2_match else argon2_mismatch
|}.
Next Obligation. intros p salt pw. cbn. by rewrite bool_decide_true. Qed.

Definition demo_public (k : bytes) : bytes := (fun b => b mod 256) <$> k.
Definition demo_sign (k m : bytes) : bytes := Sha256.sha256 (demo_public k ++ m).

Program Definition demo_ed25519 : Ed25519 := {|
  ed25519_public := demo_public;
  ed25519_sign := demo_sign;
  ed25519_verify := fun pub signature m => bool_decide (signature = Sha256.sha256 (pub ++ m))
|}.
Next Obligation. intros k m. cbn. by rewrite bool_decide_true. Qed.
Next Obligation. intros k m. apply Sha256.sha256_bytes. Qed.
Next Obligation. intros k. cbn. apply Forall_fmap, Forall_true. intros b. cbn. lia. Qed.

(** An empty database, nothing connected, noon of 29 February 2024 in UTC. *)
Definition empty_db : Db := {|
  users := ∅; devices := ∅; enrollment_codes := ∅; controllers := ∅; doors := ∅;
  permissions := ∅; tokens := ∅; failed_attempts := []; audit_log := []; audit_seq := 0 |}.

Definition empty_hub : ControllerHub := {|
  h_sessions := ∅; h_session_heap := ∅; h_future_heap := ∅; h_next := 0 |}.

Definition demo_world : World := {|
  w_now := 1709208000000000; w_monotonic := 0; w_draws := 0; w_db := empty_db;
  w_hub := empty_hub; w_challenges := ∅; w_recent := ∅; w_dummy_hash_cache := ∅; w_asked := [] |}.
