(* ===== verification/AuditLog.v ===== *)
(** * The audit log: migrations 004 and 005, [repositories/audit.py],
    [services/audit_service.py]

    A row is hashed together with the hash of the row before it.  [linked] is
    what the chain promises; [verify_audit_chain] is the walk that checks it;
    [append] is the insert, in its two steps: the defaults (the sequence number
    and the time) are taken when the statement starts, the trigger reads the
    head and hashes under the advisory lock. *)

From S2P Require Import Prelude Text Sha256 Clock Json Errors Proc World Demo.

(** ** Values PostgreSQL accepts *)

(** A [text] parameter: encodable, without the zero character. *)
Definition pg_text (s : pystr) : bool := forallb (fun c => is_scalar c && negb (c =? 0)) s.

#[global] Arguments pg_text : simpl never.

(** The order of the keys of a [jsonb] object: by length in bytes, then by
    bytes (which is the order of the code points). *)
Definition utf8_length (s : pystr) : Z := Z.of_nat (length (default [] (utf8_encode s))).

Definition jsonb_leb (a b : pystr) : bool :=
  (utf8_length a <? utf8_length b) || ((utf8_length a =? utf8_length b) && str_leb a b).

(** [text::jsonb] of the text of [v]; [None] when the cast fails. *)
Section jsonb.
Context {PG : Postgres}.

Fixpoint jsonb (v : json) : option json :=
  match v with
  | JFloat t => JFloat <$> pg_numeric t
  | JStr s => if pg_text s then Some (JStr s) else None
  | JList l => JList <$> mapM jsonb l
  | JObj m =>
      (fun items => JObj (sort_items jsonb_leb items)) <$>
      mapM (fun kv => if pg_text kv.1 then pair kv.1 <$> jsonb kv.2 else None) m
  | v => Some v
  end.
End jsonb.

(** [jsonb::text] *)
Definition jsonb_text (v : json) : pystr := dumps false true None v.

(* @src backend/db/migrations/002_schema.sql 20-22 acs.audit_outcome *)
Definition outcome_text (o : audit_outcome) : pystr :=
  match o with out_success => §"success" | out_failure => §"failure" | out_denied => §"denied" end.

(* @src backend/db/migrations/002_schema.sql 14-17 acs.actor_type *)
Definition actor_text (a : actor_kind) : pystr :=
  match a with
  | act_user => §"user" | act_device => §"device" | act_controller => §"controller"
  | act_admin => §"admin" | act_system => §"system" | act_anonymous => §"anonymous"
  end.

(** [$2::acs.audit_outcome], [$3::acs.actor_type] *)
Definition outcome_in (s : pystr) : option audit_outcome :=
  List.find (fun o => str_eqb (outcome_text o) s) [out_success; out_failure; out_denied].
Definition actor_in (s : pystr) : option actor_kind :=
  List.find (fun a => str_eqb (actor_text a) s)
    [act_user; act_device; act_controller; act_admin; act_system; act_anonymous].

(** ** The payload and the chain *)

Definition opt_uuid_text (u : option uuid) : pystr :=
  match u with Some u => uuid_str u | None => [] end.

(** [concat_ws(E'\x1f', ...)] *)
Fixpoint concat_ws (l : list pystr) : pystr :=
  match l with
  | [] => []
  | [x] => x
  | x :: r => x ++ 31 :: concat_ws r
  end.

Definition payload_fields (r : audit_row) : list pystr :=
  [int_str (a_seq r); utc_text (a_occurred_at r); a_event_type r;
   outcome_text (a_outcome r); actor_text (a_actor_type r);
   opt_uuid_text (a_actor_id r); opt_uuid_text (a_device_id r);
   opt_uuid_text (a_door_id r); opt_uuid_text (a_controller_id r);
   default [] (host <$> a_client_ip r); jsonb_text (a_detail r)].

(* @src backend/db/migrations/005_audit_chain.sql 38-69 acs.audit_payload *)
Definition audit_payload (r : audit_row) : bytes :=
  default [] (utf8_encode (concat_ws (payload_fields r))).

(* @src backend/db/migrations/005_audit_chain.sql 31-33 acs.audit_genesis_hash *)
Definition audit_genesis_hash : bytes := replicate 32 0.

Definition seq_leb (a b : audit_row) : bool := a_seq a <=? a_seq b.

(** [ORDER BY seq] and its last row. *)
Definition by_seq (log : list audit_row) : list audit_row := sort_by seq_leb log.
(* @src backend/db/migrations/005_audit_chain.sql 224-230 acs.audit_chain_head *)
Definition audit_chain_head (log : list audit_row) : option audit_row := last (by_seq log).

Definition with_hashes (prev h : bytes) (r : audit_row) : audit_row := {|
  a_seq := a_seq r; a_occurred_at := a_occurred_at r; a_event_type := a_event_type r;
  a_outcome := a_outcome r; a_actor_type := a_actor_type r; a_actor_id := a_actor_id r;
  a_device_id := a_device_id r; a_door_id := a_door_id r;
  a_controller_id := a_controller_id r; a_client_ip := a_client_ip r;
  a_detail := a_detail r; a_prev_hash := prev; a_row_hash := h |}.

Definition link (r : audit_row) (prev : bytes) : bytes := Sha256.sha256 (audit_payload r ++ prev).

(** The trigger: whatever hashes the row came with are overwritten.  The
    partition it asks for ([ensure_audit_partition]) is taken to exist: what it
    is made with is [Roles.ensure_audit_partition]. *)
(* @src backend/db/migrations/005_audit_chain.sql 116-136 acs.audit_hash_chain *)
Definition audit_hash_chain (log : list audit_row) (r : audit_row) : audit_row :=
  let prev := from_option a_row_hash audit_genesis_hash (audit_chain_head log) in
  with_hashes prev (link r prev) r.

(** ** Verification *)

Record chain_status := {
  chain_ok : bool;
  rows_checked : Z;
  first_bad_seq : option Z;
  first_bad_reason : option pystr
}.

Definition bad_prev : pystr :=
  §"prev_hash does not match the preceding row: a row was removed, reordered, or inserted out of band".
Definition bad_hash : pystr :=
  §"row_hash does not match the row contents: this row was modified after it was written".

(* @src backend/db/migrations/005_audit_chain.sql 181-213 acs.verify_audit_chain *)
Fixpoint verify_rows (prev : bytes) (count : Z) (rows : list audit_row) : chain_status :=
  match rows with
  | [] => {| chain_ok := true; rows_checked := count; first_bad_seq := None; first_bad_reason := None |}
  | r :: rest =>
      let count := count + 1 in
      if negb (bool_decide (a_prev_hash r = prev)) then
        {| chain_ok := false; rows_checked := count; first_bad_seq := Some (a_seq r);
           first_bad_reason := Some bad_prev |}
      else if negb (bool_decide (a_row_hash r = link r prev)) then
        {| chain_ok := false; rows_checked := count; first_bad_seq := Some (a_seq r);
           first_bad_reason := Some bad_hash |}
      else verify_rows (a_row_hash r) count rest
  end.

(* @src backend/db/migrations/005_audit_chain.sql 154-213 acs.verify_audit_chain *)
Definition verify_audit_chain (p_from_seq : Z) (log : list audit_row) : chain_status :=
  let prev :=
    if p_from_seq <=? 0 then audit_genesis_hash
    else from_option a_row_hash audit_genesis_hash
           (audit_chain_head (filter (fun r => a_seq r < p_from_seq) log)) in
  verify_rows prev 0 (by_seq (filter (fun r => p_from_seq <= a_seq r) log)).

(** ** The repository *)

Record AuditArgs := {
  actor_type : pystr; actor_id : option uuid; device_id : option uuid;
  door_id : option uuid; controller_id : option uuid; client_ip : option pystr;
  detail : list (pystr * json)
}.

Module AuditRepository.
Section repo.
Context {PG : Postgres}.

(** The casts of the parameters, and the defaults [nextval] and [now()]. *)
Definition new_row (event_type outcome : pystr) (a : AuditArgs) (seq : Z) (now : instant)
    : option audit_row :=
  out ← outcome_in outcome;
  act ← actor_in (actor_type a);
  ip ← match client_ip a with None => Some None | Some s => Some <$> pg_inet s end;
  det ← jsonb (JObj (detail a));
  if pg_text event_type then
    Some {| a_seq := seq; a_occurred_at := now; a_event_type := event_type;
            a_outcome := out; a_actor_type := act; a_actor_id := actor_id a;
            a_device_id := device_id a; a_door_id := door_id a;
            a_controller_id := controller_id a; a_client_ip := ip; a_detail := det;
            a_prev_hash := []; a_row_hash := [] |}
  else None.

(* @src backend/app/db/repositories/audit.py * AuditRepository.append *)
Definition append (event_type outcome : pystr) (a : AuditArgs) : io Z :=
  row ← statement (fun w =>
    let d := w_db w in
    match new_row event_type outcome a (audit_seq d + 1) (w_now w) with
    | Some r => (set_db (with_audit_seq (audit_seq d + 1) d) w, OK r)
    | None => (w, ERR (EDb §"invalid input value"))
    end);
  statement (fun w =>
    let d := w_db w in
    let row := audit_hash_chain (audit_log d) row in
    (set_db (with_audit (audit_log d ++ [row]) d) w, OK (a_seq row))).

(** [ORDER BY seq DESC LIMIT n] of the rows that match. *)
Definition latest (P : audit_row -> bool) (limit : Z) : io (list audit_row) :=
  r ← query (fun _ d =>
    if limit <? 0 then None
    else Some (take (Z.to_nat limit)
                 (rev (by_seq (filter (fun r => P r = true) (audit_log d))))));
  of_option (EDb §"LIMIT must not be negative") r.

Definition matches {A} (o : option A) (P : A -> bool) : bool :=
  match o with None => true | Some x => P x end.

(* @src backend/app/db/repositories/audit.py * AuditRepository.recent *)
Definition recent (limit : Z) (before_seq : option Z) (event_type : option pystr)
    (actor_id : option uuid) : io (list audit_row) :=
  latest (fun r =>
    matches before_seq (fun s => a_seq r <? s)
    && matches event_type (fun e => str_eqb (a_event_type r) e)
    && matches actor_id (fun u => bool_decide (a_actor_id r = Some u))) limit.

(** The outcomes of an unlock, the events of the user's own history. *)
Definition history_event (e : pystr) : bool :=
  existsb (str_eqb e)
    [§"door.unlock_granted"; §"door.unlock_denied"; §"door.unlock_confirmed"; §"door.unlock_failed"].

(* @src backend/app/db/repositories/audit.py * AuditRepository.for_user *)
Definition for_user (user_id : uuid) (limit : Z) : io (list audit_row) :=
  latest (fun r => bool_decide (a_actor_id r = Some user_id) && history_event (a_event_type r)) limit.

(* @src backend/app/db/repositories/audit.py * AuditRepository.verify_chain *)
Definition verify_chain (from_seq : Z) : io chain_status :=
  query (fun _ d => verify_audit_chain from_seq (audit_log d)).

(* @src backend/app/db/repositories/audit.py * AuditRepository.head *)
Definition head : io (option audit_row) := query (fun _ d => audit_chain_head (audit_log d)).
End repo.
End AuditRepository.

Module AuditService.
Section service.
Context {PG : Postgres}.

(* @src backend/app/services/audit_service.py * AuditService.record *)
Definition record (event outcome : pystr) (a : AuditArgs) : io Z :=
  AuditRepository.append event outcome a.

(* @src backend/app/services/audit_service.py * AuditService.success *)
Definition success (event : AuditEvent) (a : AuditArgs) : io Z :=
  record (event_value event) §"success" a.
(* @src backend/app/services/audit_service.py * AuditService.failure *)
Definition failure (event : AuditEvent) (a : AuditArgs) : io Z :=
  record (event_value event) §"failure" a.
(* @src backend/app/services/audit_service.py * AuditService.denied *)
Definition denied (event : AuditEvent) (a : AuditArgs) : io Z :=
  record (event_value event) §"denied" a.

(* @src backend/app/services/audit_service.py * AuditService.chain_status *)
Definition chain_status (from_seq : Z) := AuditRepository.verify_chain from_seq.
(* @src backend/app/services/audit_service.py * AuditService.head *)
Definition head := AuditRepository.head.
End service.
End AuditService.

#[global] Arguments AuditRepository.new_row : simpl never.

(** ** The payload determines the row

    Every field but the event type is made of [clean] characters, so the
    separator tells the fields apart from both ends. *)

Definition clean (c : Z) : bool := is_scalar c && (32 <=? c).
Abbreviation all_clean s := (Forall (fun c => clean c = true) s).

Lemma clean_ascii s : Forall (fun c => 32 <= c < 128) s -> all_clean s.
Proof. intros Hs. eapply Forall_impl; [exact Hs|]. intros c Hc. cbn beta in *. unfold clean, is_scalar. lia. Qed.

Lemma clean_scalar s : all_clean s -> forallb is_scalar s = true.
Proof.
  intros Hs. apply forallb_forall. intros c Hc. apply list_elem_of_In in Hc.
  rewrite Forall_forall in Hs. specialize (Hs c Hc). unfold clean in Hs. by bool_to_prop.
Qed.

Lemma plain_clean s : Forall plain s -> all_clean s.
Proof. intros Hs. apply clean_ascii. eapply Forall_impl; [exact Hs|]. unfold plain. intros c Hc. cbn beta in *. lia. Qed.

Lemma int_str_clean z : all_clean (int_str z).
Proof. apply plain_clean, int_str_plain. Qed.

Lemma hex_clean l : all_bytes l -> all_clean (hex l).
Proof. intros Hl. by apply plain_clean, hex_plain. Qed.

Lemma jsonb_text_clean v : json_ok v = true -> all_clean (jsonb_text v).
Proof.
  apply dumps_chars.
  - intros c Hc. unfold plain, clean, is_scalar in *. lia.
  - intros c Hc H32 _. unfold clean. rewrite Hc. cbn. by apply Z.leb_le.
Qed.

Lemma uuid_str_clean u : all_clean (uuid_str u).
Proof.
  unfold uuid_str.
  assert (Hh : all_clean (hex (rev (to_bytes_le 16 u)))).
  { apply hex_clean, Forall_rev, to_bytes_le_bytes. }
  revert Hh. generalize (hex (rev (to_bytes_le 16 u))). intros h Hh.
  repeat first [apply Forall_app; split | apply Forall_cons; split | apply Forall_take
               | apply Forall_drop | done].
Qed.

Record row_ok (r : audit_row) : Prop := {
  ok_occurred_at : is_instant (a_occurred_at r);
  ok_event_type : forallb is_scalar (a_event_type r) = true;
  ok_ids : Forall (fun u => from_option is_uuid True u)
             [a_actor_id r; a_device_id r; a_door_id r; a_controller_id r];
  ok_client_ip : from_option (fun ip => host ip <> [] /\ all_clean ip) True (a_client_ip r);
  ok_detail : json_ok (a_detail r) = true
}.

Lemma opt_uuid_clean u : all_clean (opt_uuid_text u).
Proof. destruct u; cbn; [apply uuid_str_clean|constructor]. Qed.

Lemma opt_uuid_inj u v :
  from_option is_uuid True u -> from_option is_uuid True v ->
  opt_uuid_text u = opt_uuid_text v -> u = v.
Proof.
  destruct u as [u|], v as [v|]; cbn; intros Hu Hv E; [|exfalso..|done].
  - f_equal. by apply uuid_str_inj.
  - apply (f_equal length) in E. by rewrite uuid_str_length in E.
  - apply (f_equal length) in E. by rewrite uuid_str_length in E.
Qed.

Lemma outcome_text_inj a b : outcome_text a = outcome_text b -> a = b.
Proof. by destruct a, b. Qed.
Lemma actor_text_inj a b : actor_text a = actor_text b -> a = b.
Proof. by destruct a, b. Qed.

(** The fields after the event type. *)
Definition tail_fields (r : audit_row) : list pystr :=
  [outcome_text (a_outcome r); actor_text (a_actor_type r);
   opt_uuid_text (a_actor_id r); opt_uuid_text (a_device_id r);
   opt_uuid_text (a_door_id r); opt_uuid_text (a_controller_id r);
   default [] (host <$> a_client_ip r); jsonb_text (a_detail r)].

Lemma host_clean ip : all_clean ip -> all_clean (host ip).
Proof. induction 1 as [|c ip Hc _ IH]; cbn; [constructor|]. destruct (c =? 47); [constructor|by constructor]. Qed.

Lemma tail_fields_clean r : row_ok r -> Forall (fun s => all_clean s) (tail_fields r).
Proof.
  intros [_ _ _ Hip Hdet]. unfold tail_fields. repeat apply Forall_cons_2; try apply opt_uuid_clean.
  - by destruct (a_outcome r); repeat constructor.
  - by destruct (a_actor_type r); repeat constructor.
  - destruct (a_client_ip r) as [ip|]; cbn in *; [apply host_clean, Hip|constructor].
  - by apply jsonb_text_clean.
  - constructor.
Qed.

Lemma concat_ws_snoc l y : l <> [] -> concat_ws (l ++ [y]) = concat_ws l ++ 31 :: y.
Proof.
  induction l as [|x l IH]; [done|]. intros _. destruct l as [|x' l]; [done|].
  cbn [app concat_ws] in *. rewrite IH by done. by rewrite <- app_assoc.
Qed.

(** Two texts split at their first (last) separator. *)
Lemma sep_front x x' t t' :
  all_clean x -> all_clean x' -> x ++ 31 :: t = x' ++ 31 :: t' -> x = x' /\ t = t'.
Proof.
  intros Hx. revert x'. induction Hx as [|c x Hc Hx IH]; intros x' Hx' E.
  - destruct x' as [|c' x']; cbn in E; [by simplify_eq|].
    injection E as <- _. by inversion Hx'.
  - destruct x' as [|c' x']; cbn in E; [by injection E as -> _|].
    injection E as <- E. inversion Hx'. destruct (IH x') as [-> ->]; done.
Qed.

Lemma sep_back y y' t t' :
  all_clean y -> all_clean y' -> t ++ 31 :: y = t' ++ 31 :: y' -> t = t' /\ y = y'.
Proof.
  intros Hy Hy' E. apply (f_equal (@reverse Z)) in E. rewrite !reverse_app, !reverse_cons in E.
  rewrite <- !app_assoc in E. cbn [app] in E.
  apply sep_front in E as [E1 E2]; [|by apply Forall_reverse..].
  by apply (inj reverse) in E1 as ->, E2 as ->.
Qed.

Lemma concat_ws_back_inj k k' l l' :
  length k = length k' -> l <> [] -> l' <> [] ->
  Forall (fun s => all_clean s) k -> Forall (fun s => all_clean s) k' ->
  concat_ws (l ++ k) = concat_ws (l' ++ k') -> concat_ws l = concat_ws l' /\ k = k'.
Proof.
  revert k'. induction k as [|y k IH] using rev_ind; intros k' Hlen Hl Hl' Hk Hk' E.
  - destruct k'; [|done]. by rewrite !app_nil_r in E.
  - destruct (exists_last (l:=k')) as (k2 & y' & ->).
    { intros ->. rewrite length_app in Hlen. cbn in Hlen. lia. }
    rewrite !length_app in Hlen. cbn in Hlen.
    apply Forall_app in Hk as [Hk Hy%Forall_inv], Hk' as [Hk' Hy'%Forall_inv].
    rewrite !app_assoc, !concat_ws_snoc in E by (by destruct l, l').
    apply sep_back in E as [E ->]; [|done..].
    destruct (IH k2) as [? ->]; [lia|done..].
Qed.

Lemma payload_scalar r : row_ok r -> forallb is_scalar (concat_ws (payload_fields r)) = true.
Proof.
  intros Hr. assert (Hs : Forall (fun s => forallb is_scalar s = true) (payload_fields r)).
  { change (payload_fields r) with
      ([int_str (a_seq r); utc_text (a_occurred_at r); a_event_type r] ++ tail_fields r).
    apply Forall_app. split.
    - repeat apply Forall_cons_2; [| |by destruct Hr|constructor].
      + apply clean_scalar, int_str_clean.
      + apply clean_scalar, clean_ascii. eapply Forall_impl; [by apply utc_text_chars, ok_occurred_at|].
        intros c Hc. unfold clock_char in Hc. cbn beta. lia.
    - eapply Forall_impl; [by apply tail_fields_clean|]. intros s. apply clean_scalar. }
  induction Hs as [|s l Hs Hl IH]; [done|]. destruct l as [|s' l]; [done|].
  cbn [concat_ws] in *. rewrite forallb_app, Hs. cbn. exact IH.
Qed.

(** A row with the netmask of its address left out. *)
Definition without_netmask (r : audit_row) : audit_row := {|
  a_seq := a_seq r; a_occurred_at := a_occurred_at r; a_event_type := a_event_type r;
  a_outcome := a_outcome r; a_actor_type := a_actor_type r; a_actor_id := a_actor_id r;
  a_device_id := a_device_id r; a_door_id := a_door_id r;
  a_controller_id := a_controller_id r; a_client_ip := host <$> a_client_ip r;
  a_detail := a_detail r; a_prev_hash := a_prev_hash r; a_row_hash := a_row_hash r |}.

(** All a row says but the netmask is in its payload: two rows with the same
    payload differ in their hashes and the netmask at most. *)
Lemma payload_inj r1 r2 :
  row_ok r1 -> row_ok r2 -> audit_payload r1 = audit_payload r2 ->
  with_hashes [] [] (without_netmask r1) = with_hashes [] [] (without_netmask r2).
Proof.
  intros H1 H2 E. unfold audit_payload in E.
  destruct (utf8_encode_scalar _ (payload_scalar _ H1)) as [b1 E1].
  destruct (utf8_encode_scalar _ (payload_scalar _ H2)) as [b2 E2].
  rewrite E1, E2 in E. cbn in E. subst b2.
  pose proof (utf8_encode_inj _ _ _ E1 E2) as Ec.
  apply (concat_ws_back_inj (tail_fields r1) (tail_fields r2)
           [int_str (a_seq r1); utc_text (a_occurred_at r1); a_event_type r1]
           [int_str (a_seq r2); utc_text (a_occurred_at r2); a_event_type r2]) in Ec
    as [Ehead Etail]; [|done|done|done|by apply tail_fields_clean..].
  cbn [concat_ws] in Ehead. apply sep_front in Ehead as [Eseq Ehead]; [|apply int_str_clean..].
  apply app_split_cons_eq in Ehead as [Etime Eevent];
    [|rewrite !utc_text_length; [done|by destruct H2|by destruct H1]].
  destruct H1 as [Ht1 _ Hids1 Hip1 Hd1], H2 as [Ht2 _ Hids2 Hip2 Hd2].
  apply int_str_inj in Eseq. apply utc_text_inj in Etime; [|done..].
  unfold tail_fields in Etail. injection Etail as Eout Eact Eu Ed Edr Ect Eip Edet.
  apply outcome_text_inj in Eout. apply actor_text_inj in Eact.
  rewrite !Forall_cons in Hids1, Hids2.
  apply opt_uuid_inj in Eu; [|tauto..]. apply opt_uuid_inj in Ed; [|tauto..].
  apply opt_uuid_inj in Edr; [|tauto..]. apply opt_uuid_inj in Ect; [|tauto..].
  unfold jsonb_text in Edet. apply dumps_inj in Edet; [|done..]. rewrite !normal_none in Edet.
  assert (host <$> a_client_ip r1 = host <$> a_client_ip r2).
  { destruct (a_client_ip r1), (a_client_ip r2); cbn in Hip1, Hip2, Eip |- *;
      [by rewrite Eip|by destruct Hip1|by destruct Hip2|done]. }
  unfold with_hashes, without_netmask. cbn. by f_equal.
Qed.

Lemma with_hashes_eq r1 r2 :
  with_hashes [] [] r1 = with_hashes [] [] r2 -> a_prev_hash r1 = a_prev_hash r2 ->
  a_row_hash r1 = a_row_hash r2 -> r1 = r2.
Proof.
  destruct r1, r2. unfold with_hashes. cbn. intros E Hp Hh. injection E. intros. by subst.
Qed.

(** ** The chain *)

(** [rows] continue a chain whose last hash is [prev]. *)
Fixpoint linked (prev : bytes) (rows : list audit_row) : Prop :=
  match rows with
  | [] => True
  | r :: rest => a_prev_hash r = prev /\ a_row_hash r = link r prev /\ linked (a_row_hash r) rest
  end.

Definition last_hash (prev : bytes) (rows : list audit_row) : bytes :=
  from_option a_row_hash prev (last rows).

Lemma last_hash_cons prev r rows : last_hash prev (r :: rows) = last_hash (a_row_hash r) rows.
Proof. unfold last_hash. rewrite last_cons. by destruct (last rows). Qed.

Lemma last_hash_snoc prev rows r : last_hash prev (rows ++ [r]) = a_row_hash r.
Proof. unfold last_hash. by rewrite last_snoc. Qed.

Lemma linked_app prev l1 l2 : linked prev (l1 ++ l2) <-> linked prev l1 /\ linked (last_hash prev l1) l2.
Proof.
  revert prev. induction l1 as [|r l1 IH]; intros prev; cbn [app linked]; [tauto|].
  rewrite IH, last_hash_cons. tauto.
Qed.

Lemma linked_snoc prev l r :
  linked prev (l ++ [r]) <->
  linked prev l /\ a_prev_hash r = last_hash prev l /\ a_row_hash r = link r (last_hash prev l).
Proof. rewrite linked_app. cbn. tauto. Qed.

Lemma last_hash_length prev l : length prev = 32%nat -> linked prev l -> length (last_hash prev l) = 32%nat.
Proof.
  intros Hp. induction l as [|r l _] using rev_ind; [done|]. rewrite linked_snoc, last_hash_snoc.
  intros (_ & _ & ->). apply Sha256.sha256_length.
Qed.

(** The walk accepts exactly the linked logs, and otherwise stops at the first
    row that does not continue the chain. *)
Lemma verify_rows_spec rows prev n :
  let s := verify_rows prev n rows in
  (linked prev rows /\ chain_ok s = true /\ rows_checked s = n + Z.of_nat (length rows)
   /\ first_bad_seq s = None)
  \/ (exists l r l', rows = l ++ r :: l' /\ linked prev l
      /\ ~ (a_prev_hash r = last_hash prev l /\ a_row_hash r = link r (last_hash prev l))
      /\ chain_ok s = false /\ rows_checked s = n + Z.of_nat (length l) + 1
      /\ first_bad_seq s = Some (a_seq r)).
Proof.
  revert prev n. induction rows as [|r rows IH]; intros prev n; cbn [verify_rows linked].
  - left. cbn. repeat split. lia.
  - case_bool_decide as Hp; cbn [negb]; [case_bool_decide as Hh; cbn [negb]|].
    + destruct (IH (a_row_hash r) (n + 1)) as [(H1 & H2 & H3 & H4)|(l & r' & l' & -> & H1 & H2 & H3 & H4 & H5)].
      * left. cbn [length]. repeat split; try done. lia.
      * right. exists (r :: l), r', l'. cbn [linked app length]. rewrite last_hash_cons.
        repeat split; try done. lia.
    + right. exists [], r, rows. cbn. repeat split; [tauto|lia].
    + right. exists [], r, rows. cbn. repeat split; [tauto|lia].
Qed.

Lemma verify_rows_ok rows prev n : chain_ok (verify_rows prev n rows) = true <-> linked prev rows.
Proof.
  destruct (verify_rows_spec rows prev n) as [(H1 & H2 & _)|(l & r & l' & -> & H1 & H2 & H3 & _)].
  - by rewrite H2.
  - rewrite H3. split; [done|]. rewrite linked_app. cbn. tauto.
Qed.

Definition collision : Prop := exists x y, x <> y /\ Sha256.sha256 x = Sha256.sha256 y.

(** Same head, same log: by induction from the head down. *)
Lemma linked_inj l1 l2 :
  Forall row_ok l1 -> Forall row_ok l2 ->
  linked audit_genesis_hash l1 -> linked audit_genesis_hash l2 ->
  last_hash audit_genesis_hash l1 = last_hash audit_genesis_hash l2 ->
  without_netmask <$> l1 = without_netmask <$> l2 \/ collision \/ exists x, Sha256.sha256 x = audit_genesis_hash.
Proof.
  revert l2. induction l1 as [|r1 l1 IH] using rev_ind; intros l2 Hok1 Hok2 H1 H2 E.
  - destruct l2 as [|r2 l2 _] using rev_ind; [by left|]. right; right.
    apply linked_snoc in H2 as (_ & _ & H2). rewrite last_hash_snoc, H2 in E. by eexists.
  - apply linked_snoc in H1 as (H1 & Hp1 & Hh1). rewrite last_hash_snoc in E.
    destruct l2 as [|r2 l2 _] using rev_ind; [right; right; rewrite Hh1 in E; by eexists|].
    apply linked_snoc in H2 as (H2 & Hp2 & Hh2). rewrite last_hash_snoc in E.
    apply Forall_app in Hok1 as [Hok1 Hr1%Forall_inv], Hok2 as [Hok2 Hr2%Forall_inv].
    rewrite Hh1, Hh2 in E. unfold link in E.
    destruct (decide (audit_payload r1 ++ last_hash audit_genesis_hash l1
                      = audit_payload r2 ++ last_hash audit_genesis_hash l2)) as [Ei|Hne];
      [|right; left; by eexists _, _].
    apply app_inj_2 in Ei as [Epay Elast]; [|by rewrite !last_hash_length].
    destruct (IH l2) as [Hl|Hbad]; [done..| |by right]. left.
    assert (Er : without_netmask r1 = without_netmask r2); [|rewrite !fmap_app; cbn; by rewrite Hl, Er].
    apply payload_inj in Epay as Erow; [|done..]. apply with_hashes_eq; [done|cbn; congruence|].
    cbn. rewrite Hh1, Hh2. unfold link. congruence.
Qed.

(** ** What an insert does *)

Record audit_inv (d : Db) : Prop := {
  inv_order : StronglySorted (fun a b => seq_leb a b = true) (audit_log d);
  inv_seq : Forall (fun r => a_seq r <= audit_seq d) (audit_log d);
  inv_linked : linked audit_genesis_hash (audit_log d);
  inv_positive : Forall (fun r => 0 < a_seq r) (audit_log d) /\ 0 <= audit_seq d
}.

(** In such a log [verify_audit_chain] walks the rows as they were appended. *)
Lemma verify_inv d :
  audit_inv d ->
  verify_audit_chain 0 (audit_log d)
  = {| chain_ok := true; rows_checked := Z.of_nat (length (audit_log d));
       first_bad_seq := None; first_bad_reason := None |}.
Proof.
  intros [Ho _ Hl [Hp _]]. unfold verify_audit_chain. change (0 <=? 0) with true. cbv iota.
  rewrite filter_all; [|eapply Forall_impl; [exact Hp|]; intros r ?; cbn beta in *; lia].
  unfold by_seq. rewrite sort_by_id by done. clear Ho Hp.
  change (Z.of_nat (length (audit_log d))) with (0 + Z.of_nat (length (audit_log d))).
  revert Hl. generalize audit_genesis_hash 0. induction (audit_log d) as [|r l IH]; intros prev n.
  - intros _. cbn. f_equal. lia.
  - cbn [linked verify_rows]. intros (Hp & Hh & Hl).
    rewrite !bool_decide_true by done. cbn [negb]. rewrite IH by done. f_equal. cbn [length]. lia.
Qed.

Section append.
Context {PG : Postgres}.

(** The state after an insert whose parameters were accepted. *)
Definition appended (r : audit_row) (w : World) : World :=
  let d := w_db w in
  set_db (with_audit (audit_log d ++ [audit_hash_chain (audit_log d) r])
            (with_audit_seq (audit_seq d + 1) d)) w.

Lemma new_row_some event outcome a seq now r :
  AuditRepository.new_row event outcome a seq now = Some r ->
  a_seq r = seq /\ a_occurred_at r = now /\ a_event_type r = event
  /\ outcome_in outcome = Some (a_outcome r) /\ actor_in (actor_type a) = Some (a_actor_type r)
  /\ a_actor_id r = actor_id a /\ a_device_id r = device_id a /\ a_door_id r = door_id a
  /\ a_controller_id r = controller_id a
  /\ match client_ip a with None => a_client_ip r = None | Some s => exists ip, pg_inet s = Some ip /\ a_client_ip r = Some ip end
  /\ jsonb (JObj (detail a)) = Some (a_detail r) /\ pg_text event = true.
Proof.
  unfold AuditRepository.new_row. intros Hr.
  apply bind_Some in Hr as (out & Eout & Hr). apply bind_Some in Hr as (act & Eact & Hr).
  apply bind_Some in Hr as (ip & Eip & Hr). apply bind_Some in Hr as (det & Edet & Hr).
  destruct (pg_text event) eqn:Etext; [|done]. injection Hr as <-. cbn.
  repeat split; try done. destruct (client_ip a); [|by injection Eip as <-].
  apply fmap_Some in Eip as (h & -> & ->). by exists h.
Qed.

Lemma run_append event outcome a w :
  run (AuditRepository.append event outcome a) w =
  match AuditRepository.new_row event outcome a (audit_seq (w_db w) + 1) (w_now w) with
  | Some r => (appended r w, OK (audit_seq (w_db w) + 1))
  | None => (w, ERR (EDb §"invalid input value"))
  end.
Proof.
  unfold AuditRepository.append. rewrite run_bind, run_statement.
  destruct (AuditRepository.new_row _ _ _ _ _) as [r|] eqn:E; [|done].
  rewrite run_statement. unfold appended. cbn. apply new_row_some in E as [-> _]. done.
Qed.

(** The inserted row continues the chain. *)
Lemma appended_inv r w :
  a_seq r = audit_seq (w_db w) + 1 -> audit_inv (w_db w) -> audit_inv (w_db (appended r w)).
Proof.
  intros Hseq [Ho Hs Hl [Hp Hn]]. unfold appended. set (d := w_db w) in *. cbn.
  assert (Hhead : from_option a_row_hash audit_genesis_hash (audit_chain_head (audit_log d))
                  = last_hash audit_genesis_hash (audit_log d)).
  { unfold audit_chain_head, by_seq. by rewrite sort_by_id. }
  split; cbn.
  - apply StronglySorted_app_2; [|done|repeat constructor].
    intros x y Hx ->%list_elem_of_singleton. unfold seq_leb. cbn.
    rewrite Forall_forall in Hs. specialize (Hs x Hx). lia.
  - apply Forall_app. split; [|repeat constructor; cbn; lia].
    eapply Forall_impl; [exact Hs|]. cbn. intros x Hx. lia.
  - apply linked_snoc. split; [done|]. unfold audit_hash_chain. rewrite Hhead. by cbn.
  - split; [|lia]. apply Forall_app. split; [done|]. repeat constructor. cbn. lia.
Qed.

Lemma append_inv event outcome a w w' o :
  run (AuditRepository.append event outcome a) w = (w', o) -> audit_inv (w_db w) -> audit_inv (w_db w').
Proof.
  rewrite run_append. destruct (AuditRepository.new_row _ _ _ _ _) as [r|] eqn:E.
  - intros [= <- _] Hi. apply appended_inv; [|done]. by apply new_row_some in E as [].
  - by intros [= <- _].
Qed.

(** The rows already there stay, in place and unchanged, whatever else runs
    in between. *)
Definition log_grows (w w' : World) : Prop :=
  audit_log (w_db w) `prefix_of` audit_log (w_db w').

#[global] Instance log_grows_preorder : PreOrder log_grows.
Proof. split; [intros w; by unfold log_grows|intros w1 w2 w3; unfold log_grows; apply transitivity]. Qed.

Lemma append_grows event outcome a : guar log_grows (AuditRepository.append event outcome a).
Proof.
  unfold AuditRepository.append. apply guar_bind.
  - apply guar_atomic. intros w. destruct (AuditRepository.new_row _ _ _ _ _); unfold log_grows; cbn; done.
  - intros r. apply guar_atomic. intros w. unfold log_grows. cbn. by apply prefix_app_r.
Qed.
End append.

#[export] Hint Resolve append_grows : guar.

(** ** What the chain shows *)

(** The detail [{}] of an anonymous event. *)
Definition anonymous_args : AuditArgs := {|
  actor_type := §"anonymous"; actor_id := None; device_id := None; door_id := None;
  controller_id := None; client_ip := None; detail := [] |}.

(** C15 An audit insert on a verified log appends exactly one row: the next
    sequence number, the time of the insert, and every column as the caller
    gave it (event, outcome, type and id of the actor, device, door,
    controller, the cast of the address and of the detail); the row is the new
    head, and the whole log verifies again with one row more. *)
Theorem append_extends_chain {PG : Postgres} event outcome a w w' seq :
  audit_inv (w_db w) ->
  run (AuditRepository.append event outcome a) w = (w', OK seq) ->
  exists r,
    audit_log (w_db w') = audit_log (w_db w) ++ [r]
    /\ a_seq r = seq /\ seq = audit_seq (w_db w) + 1 /\ a_occurred_at r = w_now w
    /\ a_event_type r = event /\ outcome_text (a_outcome r) = outcome
    /\ actor_text (a_actor_type r) = actor_type a /\ a_actor_id r = actor_id a
    /\ a_device_id r = device_id a /\ a_door_id r = door_id a /\ a_controller_id r = controller_id a
    /\ match client_ip a with
       | None => a_client_ip r = None
       | Some s => exists ip, pg_inet s = Some ip /\ a_client_ip r = Some ip
       end
    /\ jsonb (JObj (detail a)) = Some (a_detail r)
    /\ audit_chain_head (audit_log (w_db w')) = Some r
    /\ verify_audit_chain 0 (audit_log (w_db w'))
       = {| chain_ok := true; rows_checked := Z.of_nat (length (audit_log (w_db w))) + 1;
            first_bad_seq := None; first_bad_reason := None |}.
Proof.
  intros Hi Hr. pose proof (append_inv _ _ _ _ _ _ Hr Hi) as Hi'. rewrite run_append in Hr.
  destruct (AuditRepository.new_row _ _ _ _ _) as [r|] eqn:E; [|done]. injection Hr as <- <-.
  apply new_row_some in E as (Es & Et & Ee & Eo & Ea & Eu & Edv & Edr & Ect & Eip & Ed & _).
  apply List.find_some in Eo as [_ Eo], Ea as [_ Ea].
  apply bool_decide_eq_true_1 in Eo, Ea.
  exists (audit_hash_chain (audit_log (w_db w)) r). repeat split; try done.
  - unfold audit_chain_head, by_seq. rewrite sort_by_id by apply Hi'. apply last_snoc.
  - rewrite verify_inv by done. f_equal. cbn. rewrite length_app. cbn. lia.
Qed.

(** C16 Tamper evidence: two logs that both verify and have the same head hash
    (the anchored value) hold the same rows in every column, but for the
    netmask of the client address, which [audit_payload] leaves out; unless the
    attacker has produced a SHA-256 collision, or a preimage of the all-zero
    genesis hash. *)
Theorem anchored_head_fixes_log l1 l2 :
  Forall row_ok l1 -> Forall row_ok l2 ->
  Forall (fun r => 0 < a_seq r) l1 -> Forall (fun r => 0 < a_seq r) l2 ->
  chain_ok (verify_audit_chain 0 l1) = true -> chain_ok (verify_audit_chain 0 l2) = true ->
  from_option a_row_hash audit_genesis_hash (audit_chain_head l1)
  = from_option a_row_hash audit_genesis_hash (audit_chain_head l2) ->
  without_netmask <$> by_seq l1 = without_netmask <$> by_seq l2
  \/ collision \/ exists x, Sha256.sha256 x = audit_genesis_hash.
Proof.
  intros Hok1 Hok2 Hp1 Hp2. unfold verify_audit_chain. change (0 <=? 0) with true. cbv iota.
  rewrite !filter_all by (eapply Forall_impl; [eassumption|]; intros r ?; cbn beta in *; lia).
  rewrite !verify_rows_ok. intros H1 H2 E.
  apply linked_inj; try done; unfold by_seq; by rewrite sort_by_perm.
Qed.

(** Editing the content of one stored row (more than the netmask of its
    address), hashes left alone, makes the
    verifier stop at exactly that row, after the rows before it, unless the two
    contents collide. *)
Theorem edited_row_is_reported d l1 r l2 r' :
  audit_inv d -> audit_log d = l1 ++ r :: l2 ->
  row_ok r -> row_ok r' -> a_seq r' = a_seq r -> a_prev_hash r' = a_prev_hash r ->
  a_row_hash r' = a_row_hash r ->
  without_netmask r' <> without_netmask r ->
  (let s := verify_audit_chain 0 (l1 ++ r' :: l2) in
   chain_ok s = false /\ first_bad_seq s = Some (a_seq r)
   /\ rows_checked s = Z.of_nat (length l1) + 1 /\ first_bad_reason s = Some bad_hash)
  \/ collision.
Proof.
  intros [Ho _ Hl [Hp _]] E Hr Hr' Es Ep Eh Hne. rewrite E in *.
  apply linked_app in Hl as [Hl1 (Hprev & Hhash & Hl2)].
  destruct (decide (link r' (last_hash audit_genesis_hash l1) = a_row_hash r)) as [Ecol|Hlink].
  { right. exists (audit_payload r' ++ last_hash audit_genesis_hash l1),
      (audit_payload r ++ last_hash audit_genesis_hash l1).
    split; [|by rewrite Hhash in Ecol]. intros Epay. apply app_inj_2 in Epay as [Epay _]; [|done].
    apply payload_inj in Epay; [|done..]. apply Hne. by apply with_hashes_eq. }
  left. unfold verify_audit_chain. change (0 <=? 0) with true. cbv iota.
  assert (Hp' : Forall (fun x => 0 <= a_seq x) (l1 ++ r' :: l2)).
  { rewrite Forall_app, Forall_cons in *. rewrite Es. destruct Hp as (Hp1 & Hp2 & Hp3).
    repeat split; [|lia|]; (eapply Forall_impl; [eassumption|]; intros x ?; cbn beta in *; lia). }
  rewrite filter_all by exact Hp'. unfold by_seq. rewrite sort_by_id.
  - clear -Hl1 Hprev Hhash Hlink Es Ep Eh. change (Z.of_nat (length l1)) with (0 + Z.of_nat (length l1)).
    revert Hl1 Hprev Hhash Hlink. generalize audit_genesis_hash 0.
    induction l1 as [|x l1 IH]; intros prev n Hl1 Hprev Hhash Hlink.
    + cbn in *. rewrite Ep, Eh. rewrite bool_decide_true by done.
      rewrite bool_decide_false by congruence. cbn. repeat split; [by rewrite Es|lia].
    + rewrite last_hash_cons in *. destruct Hl1 as (H1 & H2 & H3). cbn [app verify_rows].
      rewrite !bool_decide_true by done. cbn [negb].
      specialize (IH (a_row_hash x) (n + 1) H3 Hprev Hhash Hlink). cbn zeta in IH.
      destruct IH as (I1 & I2 & I3 & I4). repeat split; try done. cbn [length]. lia.
  - apply StronglySorted_app in Ho as (Hx & Ho1 & Ho2). apply StronglySorted_app_2; [|done|].
    + intros x y Hin Hy. apply elem_of_cons in Hy as [->|Hy].
      * specialize (Hx x r Hin ltac:(left)). unfold seq_leb in *. by rewrite Es.
      * apply Hx; [done|by right].
    + apply StronglySorted_inv in Ho2 as [Ho2 Hrest]. constructor; [done|].
      eapply Forall_impl; [exact Hrest|]. intros y. cbn beta. unfold seq_leb. by rewrite Es.
Qed.

(** The netmask of an address is not hashed: of two rows that differ in it
    alone, the one verifies with the hashes of the other. *)
Theorem netmask_is_not_covered r prev ip mask1 mask2 :
  let with_ip m := {|
    a_seq := a_seq r; a_occurred_at := a_occurred_at r; a_event_type := a_event_type r;
    a_outcome := a_outcome r; a_actor_type := a_actor_type r; a_actor_id := a_actor_id r;
    a_device_id := a_device_id r; a_door_id := a_door_id r; a_controller_id := a_controller_id r;
    a_client_ip := Some (ip ++ 47 :: m); a_detail := a_detail r; a_prev_hash := []; a_row_hash := [] |} in
  link (with_ip mask1) prev = link (with_ip mask2) prev.
Proof.
  intros with_ip. unfold link. do 2 f_equal. unfold audit_payload. do 3 f_equal. unfold payload_fields. cbn.
  assert (H : forall m m', host (ip ++ 47 :: m) = host (ip ++ 47 :: m')); [|by rewrite (H mask1 mask2)].
  intros m m'. induction ip as [|c l IH]; cbn; [done|]. by rewrite IH.
Qed.

(** Two concurrent audit inserts can interleave so that the log no longer
    verifies although every row was written by the trigger: the sequence
    number is drawn before the advisory lock is taken. *)
Theorem concurrent_appends_break_chain :
  let a := AuditRepository.append (PG:=demo_postgres) §"auth.login" §"success" anonymous_args in
  exists w' ps',
    sys_reach (fun _ _ => False) (demo_world, [a; a]) (w', ps')
    /\ ps' = [Ret 1; Ret 2]
    /\ verify_audit_chain 0 (audit_log (w_db w'))
       = {| chain_ok := false; rows_checked := 1; first_bad_seq := Some 1;
            first_bad_reason := Some bad_prev |}.
Proof.
  intros a. do 2 eexists. split.
  - eapply rtc_l; [eapply (sys_proc _ 0); reflexivity|].
    eapply rtc_l; [eapply (sys_proc _ 1); reflexivity|].
    eapply rtc_l; [eapply (sys_proc _ 1); reflexivity|].
    eapply rtc_l; [eapply (sys_proc _ 0); reflexivity|]. apply rtc_refl.
  - split; [reflexivity|]. vm_compute. reflexivity.
Qed.

(** ** Witnesses *)

Definition demo_row (seq : Z) (event : pystr) : audit_row := {|
  a_seq := seq; a_occurred_at := 1709208000000000; a_event_type := event;
  a_outcome := out_success; a_actor_type := act_anonymous; a_actor_id := None;
  a_device_id := None; a_door_id := None; a_controller_id := None; a_client_ip := None;
  a_detail := JObj []; a_prev_hash := []; a_row_hash := [] |}.

Lemma demo_row_ok seq event prev h :
  forallb is_scalar event = true -> row_ok (with_hashes prev h (demo_row seq event)).
Proof.
  intros He. split; [|done|by repeat constructor|done|done].
  unfold is_instant. cbn [a_occurred_at with_hashes demo_row]. lia.
Qed.

Lemma empty_audit_inv : audit_inv empty_db.
Proof. split; cbn; [constructor|constructor|done|split; [constructor|lia]]. Qed.

(** A log of two rows. *)
Definition demo_log1 : list audit_row := [audit_hash_chain [] (demo_row 1 §"auth.login")].
Definition demo_log : list audit_row :=
  demo_log1 ++ [audit_hash_chain demo_log1 (demo_row 2 §"auth.logout")].

Lemma append_extends_chain_witness :
  exists w' r,
    audit_log (w_db w') = [] ++ [r] /\ a_seq r = 1
    /\ verify_audit_chain 0 (audit_log (w_db w'))
       = {| chain_ok := true; rows_checked := 0 + 1; first_bad_seq := None; first_bad_reason := None |}.
Proof.
  destruct (append_extends_chain (PG:=demo_postgres) §"auth.login" §"success" anonymous_args demo_world
    (run (AuditRepository.append (PG:=demo_postgres) §"auth.login" §"success" anonymous_args) demo_world).1 1)
    as (r & Hl & Hs & _ & _ & _ & _ & _ & _ & _ & _ & _ & _ & _ & _ & Hv).
  - apply empty_audit_inv.
  - vm_compute. reflexivity.
  - eexists _, r. split; [exact Hl|]. split; [exact Hs|]. exact Hv.
Defined.

Lemma anchored_head_fixes_log_witness :
  without_netmask <$> by_seq demo_log = without_netmask <$> by_seq demo_log \/ collision \/ exists x, Sha256.sha256 x = audit_genesis_hash.
Proof.
  apply (anchored_head_fixes_log demo_log demo_log); try reflexivity;
    try (vm_compute; reflexivity); unfold demo_log, demo_log1;
    repeat constructor; try (apply demo_row_ok; reflexivity).
Defined.

Lemma edited_row_is_reported_witness :
  let r' := with_hashes (a_prev_hash (audit_hash_chain [] (demo_row 1 §"auth.login")))
              (a_row_hash (audit_hash_chain [] (demo_row 1 §"auth.login"))) (demo_row 1 §"auth.logout") in
  (let s := verify_audit_chain 0 ([] ++ r' :: [audit_hash_chain demo_log1 (demo_row 2 §"auth.logout")]) in
   chain_ok s = false /\ first_bad_seq s = Some 1 /\ rows_checked s = 0 + 1
   /\ first_bad_reason s = Some bad_hash)
  \/ collision.
Proof.
  intros r'.
  apply (edited_row_is_reported (with_audit demo_log (with_audit_seq 2 empty_db)) []
    (audit_hash_chain [] (demo_row 1 §"auth.login"))
    [audit_hash_chain demo_log1 (demo_row 2 §"auth.logout")] r').
  - split; cbn.
    + repeat constructor.
    + repeat constructor; cbn; lia.
    + repeat split; vm_compute; reflexivity.
    + split; [repeat constructor|lia].
  - reflexivity.
  - apply demo_row_ok. reflexivity.
  - apply demo_row_ok. reflexivity.
  - reflexivity.
  - reflexivity.
  - reflexivity.
  - intros E. apply (f_equal a_event_type) in E. vm_compute in E. discriminate E.
Defined.
