(* ===== verification/Repos.v ===== *)
(** * The repositories: [app/db/repositories/*.py] over the tables of
    migration 003

    One module per repository class, one definition per method.  A method is
    one SQL statement, hence one atomic step; the constraints of the table it
    inserts into are checked in the statement, by name. [Schema] states what
    they promise about the stored rows. *)

From S2P Require Import Prelude Text Clock Json Errors Proc World AuditLog.

(** [lower(username) = lower($1)]; user names are ASCII, by their constraint. *)
Definition username_shape (s : pystr) : bool :=
  forallb (fun c => ((97 <=? c) && (c <=? 122)) || ((48 <=? c) && (c <=? 57))
                    || (c =? 46) || (c =? 95) || (c =? 45)) s
  && (3 <=? length s)%nat && (length s <=? 64)%nat.

Definition length_is (n : nat) (b : bytes) : bool := (length b =? n)%nat.
Definition exists_in {A} (m : gmap Z A) (id : uuid) : bool := is_some (m !! id).
Definition exists_opt {A} (m : gmap Z A) (id : option uuid) : bool :=
  match id with Some id => exists_in m id | None => true end.
Definition opt_text (s : option pystr) : bool := match s with Some s => pg_text s | None => true end.

(** The rows of a table in the order of a query. *)
Definition fetch {A} (leb : Z * A -> Z * A -> bool) (P : A -> bool) (m : gmap Z A) : list (Z * A) :=
  sort_by leb (select P m).

Module UserRepository.
Section repo.
Context {EN : Entropy}.

(* @src backend/app/db/repositories/users.py * UserRepository.by_username *)
Definition by_username (username : pystr) : io (option (uuid * user_row)) :=
  if pg_text username then
    query (fun _ d => fetchrow (fun u => str_eqb (lower (u_username u)) (lower username)) (users d))
  else Raise (EDb §"encoding").

(* @src backend/app/db/repositories/users.py * UserRepository.by_id *)
Definition by_id (user_id : uuid) : io (option user_row) := query (fun _ d => users d !! user_id).

(* @src backend/app/db/repositories/users.py * UserRepository.create *)
Definition create (username display_name password_hash : pystr) (is_admin : bool) : io uuid :=
  insert_row users with_users
    (fun _ d =>
      [(pg_text username && pg_text display_name && pg_text password_hash, §"encoding");
       (username_shape (lower username), §"users_username_shape");
       (negb (exists_row (fun u => str_eqb (lower (u_username u)) (lower username)) (users d)),
        §"users_username_lower_key")])
    (fun now _ =>
      {| u_username := lower username; u_display_name := display_name;
         u_password_hash := password_hash; u_is_admin := is_admin; u_is_active := true;
         u_created_at := now; u_updated_at := now; u_last_login_at := None |}).

(* @src backend/app/db/repositories/users.py 46-46 UserRepository.touch_login *)
Definition login_touched (now : instant) (u : user_row) : user_row :=
  {| u_username := u_username u; u_display_name := u_display_name u;
     u_password_hash := u_password_hash u; u_is_admin := u_is_admin u;
     u_is_active := u_is_active u; u_created_at := u_created_at u; u_updated_at := now;
     u_last_login_at := Some now |}.

(* @src backend/app/db/repositories/users.py * UserRepository.touch_login *)
Definition touch_login (user_id : uuid) : io unit :=
  execute (fun now d => with_users (alter (login_touched now) user_id (users d)) d).

(* @src backend/app/db/repositories/users.py 52-52 UserRepository.set_active *)
Definition active_set (active : bool) (now : instant) (u : user_row) : user_row :=
  {| u_username := u_username u; u_display_name := u_display_name u;
     u_password_hash := u_password_hash u; u_is_admin := u_is_admin u;
     u_is_active := active; u_created_at := u_created_at u; u_updated_at := now;
     u_last_login_at := u_last_login_at u |}.

(* @src backend/app/db/repositories/users.py * UserRepository.set_active *)
Definition set_active (user_id : uuid) (active : bool) : io unit :=
  execute (fun now d => with_users (alter (active_set active now) user_id (users d)) d).
End repo.
End UserRepository.

(** [$6::acs.attestation_status] *)
Definition attestation_text (s : attestation_status) : pystr :=
  match s with
  | att_pending => §"pending" | att_verified => §"verified"
  | att_failed => §"failed" | att_exempt => §"exempt"
  end.
Definition attestation_in (s : pystr) : option attestation_status :=
  List.find (fun a => str_eqb (attestation_text a) s) [att_pending; att_verified; att_failed; att_exempt].

Module DeviceRepository.
Section repo.
Context {EN : Entropy} {PG : Postgres}.

(* @src backend/app/db/repositories/devices.py * DeviceRepository.by_id *)
Definition by_id (device_id : uuid) : io (option device_row) := query (fun _ d => devices d !! device_id).

(* @src backend/app/db/repositories/devices.py * DeviceRepository.for_user *)
Definition for_user (user_id : uuid) : io (list (uuid * device_row)) :=
  query (fun _ d =>
    fetch (fun a b => d_created_at a.2 <=? d_created_at b.2)
      (fun r => d_user_id r =? user_id) (devices d)).

(* @src backend/app/db/repositories/devices.py * DeviceRepository.create *)
Definition create (user_id : uuid) (label : pystr) (public_key : bytes) (platform : pystr)
    (app_version : option pystr) (attestation_status : pystr) (attestation_detail : json)
    : io uuid :=
  match attestation_in attestation_status, jsonb attestation_detail with
  | Some st, Some det =>
      insert_row devices with_devices
        (fun _ d =>
          [(pg_text label && pg_text platform && opt_text app_version, §"encoding");
           (length_is 32 public_key, §"devices_public_key_len");
           (negb (exists_row (fun r => bool_decide (d_public_key r = public_key)) (devices d)),
            §"devices_public_key_key");
           (exists_in (users d) user_id, §"devices_user_id_fkey")])
        (fun now _ =>
          {| d_user_id := user_id; d_label := label; d_public_key := public_key;
             d_platform := platform; d_app_version := app_version; d_attestation_status := st;
             d_attestation_verified_at :=
               if str_eqb attestation_status §"verified" then Some now else None;
             d_attestation_detail := det; d_is_blocked := false; d_blocked_reason := None;
             d_created_at := now; d_last_seen_at := None |})
  | _, _ => Raise (EDb §"invalid input value")
  end.

(* @src backend/app/db/repositories/devices.py 61-61 DeviceRepository.touch_seen *)
Definition seen (now : instant) (r : device_row) : device_row :=
  {| d_user_id := d_user_id r; d_label := d_label r; d_public_key := d_public_key r;
     d_platform := d_platform r; d_app_version := d_app_version r;
     d_attestation_status := d_attestation_status r;
     d_attestation_verified_at := d_attestation_verified_at r;
     d_attestation_detail := d_attestation_detail r; d_is_blocked := d_is_blocked r;
     d_blocked_reason := d_blocked_reason r; d_created_at := d_created_at r;
     d_last_seen_at := Some now |}.

(* @src backend/app/db/repositories/devices.py * DeviceRepository.touch_seen *)
Definition touch_seen (device_id : uuid) : io unit :=
  execute (fun now d => with_devices (alter (seen now) device_id (devices d)) d).

(* @src backend/app/db/repositories/devices.py 67-68 DeviceRepository.block *)
Definition blocked (reason : pystr) (r : device_row) : device_row :=
  {| d_user_id := d_user_id r; d_label := d_label r; d_public_key := d_public_key r;
     d_platform := d_platform r; d_app_version := d_app_version r;
     d_attestation_status := d_attestation_status r;
     d_attestation_verified_at := d_attestation_verified_at r;
     d_attestation_detail := d_attestation_detail r; d_is_blocked := true;
     d_blocked_reason := Some reason; d_created_at := d_created_at r;
     d_last_seen_at := d_last_seen_at r |}.

(* @src backend/app/db/repositories/devices.py * DeviceRepository.block *)
Definition block (device_id : uuid) (reason : pystr) : io unit :=
  if pg_text reason then
    execute (fun _ d => with_devices (alter (blocked reason) device_id (devices d)) d)
  else Raise (EDb §"encoding").
End repo.
End DeviceRepository.

Module EnrollmentRepository.
Section repo.
Context {EN : Entropy}.

(* @src backend/app/db/repositories/devices.py * EnrollmentRepository.create *)
Definition create (user_id : uuid) (code_hash : bytes) (created_by : option uuid)
    (ttl_seconds : Z) : io uuid :=
  insert_row enrollment_codes with_enrollment_codes
    (fun _ d =>
      [(length_is 32 code_hash, §"enrollment_code_hash_len");
       (negb (exists_row (fun r => bool_decide (e_code_hash r = code_hash)) (enrollment_codes d)),
        §"enrollment_codes_code_hash_key");
       (exists_in (users d) user_id, §"enrollment_codes_user_id_fkey");
       (exists_opt (users d) created_by, §"enrollment_codes_created_by_fkey")])
    (fun now _ =>
      {| e_user_id := user_id; e_code_hash := code_hash; e_created_by := created_by;
         e_created_at := now; e_expires_at := now + seconds ttl_seconds; e_used_at := None;
         e_used_by_device := None |}).

(* @src backend/app/db/repositories/devices.py 97-99 EnrollmentRepository.claim *)
Definition claimable (code_hash : bytes) (now : instant) (r : enrollment_row) : bool :=
  bool_decide (e_code_hash r = code_hash) && negb (is_some (e_used_at r)) && (now <? e_expires_at r).

(* @src backend/app/db/repositories/devices.py 96-96 EnrollmentRepository.claim *)
Definition used (now : instant) (r : enrollment_row) : enrollment_row :=
  {| e_user_id := e_user_id r; e_code_hash := e_code_hash r; e_created_by := e_created_by r;
     e_created_at := e_created_at r; e_expires_at := e_expires_at r; e_used_at := Some now;
     e_used_by_device := e_used_by_device r |}.

(** [UPDATE ... RETURNING]: the check and the mark are one step. *)
(* @src backend/app/db/repositories/devices.py * EnrollmentRepository.claim *)
Definition claim (code_hash : bytes) : io (option (uuid * enrollment_row)) :=
  statement (fun w =>
    let d := w_db w in
    let P := claimable code_hash (w_now w) in
    (set_db (with_enrollment_codes (update_where P (used (w_now w)) (enrollment_codes d)) d) w,
     OK (fetchrow P (enrollment_codes d)))).

(* @src backend/app/db/repositories/devices.py 107-107 EnrollmentRepository.attach_device *)
Definition attached (device_id : uuid) (r : enrollment_row) : enrollment_row :=
  {| e_user_id := e_user_id r; e_code_hash := e_code_hash r; e_created_by := e_created_by r;
     e_created_at := e_created_at r; e_expires_at := e_expires_at r; e_used_at := e_used_at r;
     e_used_by_device := Some device_id |}.

(* @src backend/app/db/repositories/devices.py * EnrollmentRepository.attach_device *)
Definition attach_device (enrollment_id device_id : uuid) : io unit :=
  statement (fun w =>
    let d := w_db w in
    if exists_in (enrollment_codes d) enrollment_id && negb (exists_in (devices d) device_id) then
      (w, ERR (EDb §"enrollment_codes_used_by_device_fkey"))
    else
      (set_db (with_enrollment_codes
                 (alter (attached device_id) enrollment_id (enrollment_codes d)) d) w, OK tt)).
End repo.
End EnrollmentRepository.

Module ControllerRepository.
Section repo.
Context {EN : Entropy} {PG : Postgres}.

(* @src backend/app/db/repositories/controllers.py * ControllerRepository.by_code *)
Definition by_code (code : pystr) : io (option (uuid * controller_row)) :=
  if pg_text code then query (fun _ d => fetchrow (fun c => str_eqb (c_code c) code) (controllers d))
  else Raise (EDb §"encoding").

(* @src backend/app/db/repositories/controllers.py * ControllerRepository.by_id *)
Definition by_id (controller_id : uuid) : io (option controller_row) :=
  query (fun _ d => controllers d !! controller_id).

(* @src backend/app/db/repositories/controllers.py * ControllerRepository.register *)
Definition register (code name : pystr) (public_key beacon_key : bytes) : io uuid :=
  insert_row controllers with_controllers
    (fun _ d =>
      [(pg_text code && pg_text name, §"encoding");
       (length_is 32 public_key, §"controllers_public_key_len");
       (length_is 32 beacon_key, §"controllers_beacon_key_len");
       (negb (exists_row (fun c => str_eqb (c_code c) code) (controllers d)), §"controllers_code_key");
       (negb (exists_row (fun c => bool_decide (c_public_key c = public_key)) (controllers d)),
        §"controllers_public_key_key")])
    (fun now _ =>
      {| c_code := code; c_name := name; c_public_key := public_key; c_beacon_key := beacon_key;
         c_firmware_version := None; c_is_blocked := false; c_blocked_reason := None;
         c_last_seen_at := None; c_last_ip := None; c_created_at := now |}).

(* @src backend/app/db/repositories/controllers.py 50-53 ControllerRepository.touch_seen *)
Definition seen (now : instant) (ip firmware_version : option pystr) (c : controller_row)
    : controller_row :=
  {| c_code := c_code c; c_name := c_name c; c_public_key := c_public_key c;
     c_beacon_key := c_beacon_key c;
     c_firmware_version := match firmware_version with Some f => Some f | None => c_firmware_version c end;
     c_is_blocked := c_is_blocked c; c_blocked_reason := c_blocked_reason c;
     c_last_seen_at := Some now;
     c_last_ip := match ip with Some i => Some i | None => c_last_ip c end;
     c_created_at := c_created_at c |}.

(* @src backend/app/db/repositories/controllers.py * ControllerRepository.touch_seen *)
Definition touch_seen (controller_id : uuid) (ip firmware_version : option pystr) : io unit :=
  match (match ip with None => Some None | Some s => Some <$> pg_inet s end), opt_text firmware_version with
  | Some ip, true =>
      execute (fun now d =>
        with_controllers (alter (seen now ip firmware_version) controller_id (controllers d)) d)
  | _, _ => Raise (EDb §"invalid input value")
  end.

(* @src backend/app/db/repositories/controllers.py 62-62 ControllerRepository.block *)
Definition blocked (reason : pystr) (c : controller_row) : controller_row :=
  {| c_code := c_code c; c_name := c_name c; c_public_key := c_public_key c;
     c_beacon_key := c_beacon_key c; c_firmware_version := c_firmware_version c;
     c_is_blocked := true; c_blocked_reason := Some reason;
     c_last_seen_at := c_last_seen_at c; c_last_ip := c_last_ip c; c_created_at := c_created_at c |}.

(* @src backend/app/db/repositories/controllers.py * ControllerRepository.block *)
Definition block (controller_id : uuid) (reason : pystr) : io unit :=
  if pg_text reason then
    execute (fun _ d => with_controllers (alter (blocked reason) controller_id (controllers d)) d)
  else Raise (EDb §"encoding").

(* @src backend/app/db/repositories/controllers.py * ControllerRepository.list_all *)
Definition list_all : io (list (uuid * controller_row)) :=
  query (fun _ d => fetch (fun a b => pg_collate (c_code a.2) (c_code b.2)) (fun _ => true) (controllers d)).
End repo.
End ControllerRepository.

(** A door row with its controller's row, [None] when the left join finds none. *)
Record door_record := { dj_door : door_row; dj_controller : option controller_row }.

(** A line of the door list. *)
Record door_line := {
  dl_id : uuid; dl_door : door_row; dl_permission : permission_row; dl_online : option bool
}.

Definition join_controller (d : Db) (r : door_row) : option controller_row :=
  c ← dr_controller_id r; controllers d !! c.

Module DoorRepository.
Section repo.
Context {EN : Entropy} {PG : Postgres}.

(* @src backend/app/db/repositories/doors.py * DoorRepository.by_id *)
Definition by_id (door_id : uuid) : io (option door_record) :=
  query (fun _ d =>
    (fun r => {| dj_door := r; dj_controller := join_controller d r |}) <$> doors d !! door_id).

(** [valid_from <= now() AND (valid_until IS NULL OR valid_until > now())] *)
(* @src backend/app/db/repositories/doors.py 47-48 DoorRepository.list_for_user *)
Definition valid_now (now : instant) (p : permission_row) : bool :=
  (p_valid_from p <=? now)
  && match p_valid_until p with None => true | Some u => now <? u end.

(** [c.id IS NOT NULL AND NOT c.is_blocked AND c.last_seen_at > now() - 2 min],
    in three-valued logic. *)
(* @src backend/app/db/repositories/doors.py 39-41 DoorRepository.list_for_user *)
Definition controller_online (now : instant) (c : option controller_row) : option bool :=
  match c with
  | None => Some false
  | Some c =>
      if c_is_blocked c then Some false
      else (fun t => now - seconds 120 <? t) <$> c_last_seen_at c
  end.

(* @src backend/app/db/repositories/doors.py * DoorRepository.list_for_user *)
Definition list_for_user (user_id : uuid) : io (list door_line) :=
  query (fun now d =>
    sort_by (fun a b => pg_collate (dr_name (dl_door a)) (dr_name (dl_door b)))
      (omap (fun kp =>
         let p := kp.2 in
         r ← doors d !! p_door_id p;
         if dr_is_active r then
           Some {| dl_id := p_door_id p; dl_door := r; dl_permission := p;
                   dl_online := controller_online now (join_controller d r) |}
         else None)
       (select (fun p => (p_user_id p =? user_id) && p_is_active p && valid_now now p)
          (permissions d)))).

(* @src backend/app/db/repositories/doors.py * DoorRepository.create *)
Definition create (code name : pystr) (location : option pystr) (controller_id : option uuid)
    (relay_channel unlock_seconds : Z) : io uuid :=
  insert_row doors with_doors
    (fun _ d =>
      [(pg_text code && pg_text name && opt_text location, §"encoding");
       ((1 <=? unlock_seconds) && (unlock_seconds <=? 10), §"doors_unlock_seconds_sane");
       ((1 <=? relay_channel) && (relay_channel <=? 4), §"doors_relay_channel_sane");
       (negb (exists_row (fun r => str_eqb (dr_code r) code) (doors d)), §"doors_code_key");
       (exists_opt (controllers d) controller_id, §"doors_controller_id_fkey")])
    (fun now _ =>
      {| dr_code := code; dr_name := name; dr_location := location;
         dr_controller_id := controller_id; dr_relay_channel := relay_channel;
         dr_unlock_seconds := unlock_seconds; dr_is_active := true; dr_created_at := now |}).
End repo.
End DoorRepository.

(** The live grant of a user for a door, its window evaluated. *)
Record effective_permission := {
  ep_id : uuid; ep_permission : permission_row;
  ep_local_time : Z; ep_local_dow : Z; ep_within_window : bool
}.

Module PermissionRepository.
Section repo.
Context {EN : Entropy} {PG : Postgres}.

(** [((mask >> (dow - 1)) & 1) = 1 AND local_time BETWEEN start AND end] *)
(* @src backend/app/db/repositories/doors.py 97-103 PermissionRepository.effective *)
Definition within_window (p : permission_row) (dow time : Z) : bool :=
  (Z.land (Z.shiftr (p_weekday_mask p) (dow - 1)) 1 =? 1)
  && (p_start_time p <=? time) && (time <=? p_end_time p).

(* @src backend/app/db/repositories/doors.py 94-103 PermissionRepository.effective *)
Definition evaluate (id : uuid) (p : permission_row) (local : Z) : effective_permission :=
  let time := local mod usec_per_day in
  let dow := isodow (local / usec_per_day) in
  {| ep_id := id; ep_permission := p; ep_local_time := time; ep_local_dow := dow;
     ep_within_window := within_window p dow time |}.

(* @src backend/app/db/repositories/doors.py * PermissionRepository.effective *)
Definition effective (user_id door_id : uuid) : io (option effective_permission) :=
  r ← query (fun now d =>
    match fetchrow (fun p => (p_user_id p =? user_id) && (p_door_id p =? door_id)
                             && p_is_active p && DoorRepository.valid_now now p) (permissions d) with
    | None => Some None
    | Some (id, p) => (fun local => Some (evaluate id p local)) <$> pg_local (p_time_zone p) now
    end);
  of_option (EDb §"time zone not recognized") r.

(** The conflict target: the live grant of the pair. *)
(* @src backend/app/db/repositories/doors.py 132-132 PermissionRepository.grant *)
Definition live_grant (user_id door_id : uuid) (p : permission_row) : bool :=
  (p_user_id p =? user_id) && (p_door_id p =? door_id) && p_is_active p.

(* @src backend/app/db/repositories/doors.py 133-137 PermissionRepository.grant *)
Definition regranted (n p : permission_row) : permission_row :=
  {| p_user_id := p_user_id p; p_door_id := p_door_id p; p_valid_from := p_valid_from p;
     p_valid_until := p_valid_until n; p_weekday_mask := p_weekday_mask n;
     p_start_time := p_start_time n; p_end_time := p_end_time n; p_time_zone := p_time_zone n;
     p_is_active := p_is_active p; p_created_by := p_created_by p; p_created_at := p_created_at p |}.

(** The CHECK constraints of a row. *)
Definition row_checks (p : permission_row) : list (bool * pystr) :=
  [((0 <=? p_weekday_mask p) && (p_weekday_mask p <=? 127), §"permissions_weekday_mask_range");
   (p_start_time p <? p_end_time p, §"permissions_window_order");
   (match p_valid_until p with None => true | Some u => p_valid_from p <? u end,
    §"permissions_validity_order")].

(** [INSERT ... ON CONFLICT ... DO UPDATE]: the proposed row is checked, then
    the live grant it meets is updated in place, else it is inserted. *)
(* @src backend/app/db/repositories/doors.py * PermissionRepository.grant *)
Definition grant (user_id door_id : uuid) (created_by : option uuid) (weekday_mask : Z)
    (start_time end_time time_zone : pystr) (valid_until : option instant) : io uuid :=
  match pg_time start_time, pg_time end_time, pg_text time_zone with
  | Some st, Some en, true =>
      statement (fun w =>
        let d := w_db w in
        let '(w1, id) := uuid4 w in
        let now := w_now w in
        let n := {| p_user_id := user_id; p_door_id := door_id; p_valid_from := now;
                    p_valid_until := valid_until; p_weekday_mask := weekday_mask;
                    p_start_time := st; p_end_time := en; p_time_zone := time_zone;
                    p_is_active := true; p_created_by := created_by; p_created_at := now |} in
        match violation (row_checks n) with
        | Some name => (w1, ERR (EDb name))
        | None =>
            match fetchrow (live_grant user_id door_id) (permissions d) with
            | Some (old, p) =>
                match violation (row_checks (regranted n p)) with
                | Some name => (w1, ERR (EDb name))
                | None => (set_db (with_permissions (<[old := regranted n p]> (permissions d)) d) w1, OK old)
                end
            | None =>
                match violation [(negb (exists_in (permissions d) id), §"pkey");
                                 (exists_in (users d) user_id, §"permissions_user_id_fkey");
                                 (exists_in (doors d) door_id, §"permissions_door_id_fkey");
                                 (exists_opt (users d) created_by, §"permissions_created_by_fkey")] with
                | Some name => (w1, ERR (EDb name))
                | None => (set_db (with_permissions (<[id := n]> (permissions d)) d) w1, OK id)
                end
            end
        end)
  | _, _, _ => Raise (EDb §"invalid input value")
  end.

#[global] Arguments row_checks : simpl never.

(* @src backend/app/db/repositories/doors.py 146-146 PermissionRepository.revoke *)
Definition revoked (p : permission_row) : permission_row :=
  {| p_user_id := p_user_id p; p_door_id := p_door_id p; p_valid_from := p_valid_from p;
     p_valid_until := p_valid_until p; p_weekday_mask := p_weekday_mask p;
     p_start_time := p_start_time p; p_end_time := p_end_time p; p_time_zone := p_time_zone p;
     p_is_active := false; p_created_by := p_created_by p; p_created_at := p_created_at p |}.

(* @src backend/app/db/repositories/doors.py * PermissionRepository.revoke *)
Definition revoke (permission_id : uuid) : io unit :=
  execute (fun _ d => with_permissions (alter revoked permission_id (permissions d)) d).
End repo.
End PermissionRepository.

(** A token joined with its user and its device. *)
Record token_record := {
  tr_id : uuid; tr_token : token_row; tr_user_active : bool; tr_user_is_admin : bool;
  tr_display_name : pystr; tr_username : pystr; tr_device_blocked : bool;
  tr_attestation_status : attestation_status
}.

Module TokenRepository.
Section repo.
Context {EN : Entropy}.

(* @src backend/app/db/repositories/tokens.py * TokenRepository.insert *)
Definition insert (family_id user_id device_id : uuid) (kind : token_kind) (token_hash : bytes)
    (ttl_seconds : Z) (parent_id : option uuid) : io uuid :=
  insert_row tokens with_tokens
    (fun _ d =>
      [(length_is 32 token_hash, §"tokens_hash_len");
       (0 <? ttl_seconds, §"tokens_expiry_order");
       (negb (exists_row (fun t => bool_decide (t_token_hash t = token_hash)) (tokens d)),
        §"tokens_token_hash_key");
       (exists_in (users d) user_id, §"tokens_user_id_fkey");
       (exists_in (devices d) device_id, §"tokens_device_id_fkey");
       (exists_opt (tokens d) parent_id, §"tokens_parent_id_fkey")])
    (fun now _ =>
      {| t_family_id := family_id; t_user_id := user_id; t_device_id := device_id; t_kind := kind;
         t_token_hash := token_hash; t_parent_id := parent_id; t_issued_at := now;
         t_expires_at := now + seconds ttl_seconds; t_used_at := None; t_revoked_at := None;
         t_revoked_reason := None |}).

(* @src backend/app/db/repositories/tokens.py 55-57 TokenRepository.lookup *)
Definition join (d : Db) (id : uuid) (t : token_row) : option token_record :=
  u ← users d !! t_user_id t;
  dv ← devices d !! t_device_id t;
  Some {| tr_id := id; tr_token := t; tr_user_active := u_is_active u;
          tr_user_is_admin := u_is_admin u; tr_display_name := u_display_name u;
          tr_username := u_username u; tr_device_blocked := d_is_blocked dv;
          tr_attestation_status := d_attestation_status dv |}.

(* @src backend/app/db/repositories/tokens.py 44-61 TokenRepository.lookup *)
Definition lookup_in (d : Db) (token_hash : bytes) (kind : token_kind) : option token_record :=
  head (omap (fun kt => join d kt.1 kt.2)
          (select (fun t => bool_decide (t_token_hash t = token_hash) && bool_decide (t_kind t = kind))
             (tokens d))).

(* @src backend/app/db/repositories/tokens.py * TokenRepository.lookup *)
Definition lookup (token_hash : bytes) (kind : token_kind) : io (option token_record) :=
  query (fun _ d => lookup_in d token_hash kind).

(* @src backend/app/db/repositories/tokens.py 65-65 TokenRepository.mark_used *)
Definition used (now : instant) (t : token_row) : token_row :=
  {| t_family_id := t_family_id t; t_user_id := t_user_id t; t_device_id := t_device_id t;
     t_kind := t_kind t; t_token_hash := t_token_hash t; t_parent_id := t_parent_id t;
     t_issued_at := t_issued_at t; t_expires_at := t_expires_at t;
     t_used_at := match t_used_at t with None => Some now | u => u end;
     t_revoked_at := t_revoked_at t; t_revoked_reason := t_revoked_reason t |}.

(* @src backend/app/db/repositories/tokens.py 89-90 TokenRepository.revoke_family *)
Definition revoked (reason : pystr) (now : instant) (t : token_row) : token_row :=
  match t_revoked_at t with
  | Some _ => t
  | None =>
      {| t_family_id := t_family_id t; t_user_id := t_user_id t; t_device_id := t_device_id t;
         t_kind := t_kind t; t_token_hash := t_token_hash t; t_parent_id := t_parent_id t;
         t_issued_at := t_issued_at t; t_expires_at := t_expires_at t; t_used_at := t_used_at t;
         t_revoked_at := Some now; t_revoked_reason := Some reason |}
  end.

(* @src backend/app/db/repositories/tokens.py * TokenRepository.mark_used *)
Definition mark_used (token_id : uuid) : io unit :=
  execute (fun now d => with_tokens (alter (used now) token_id (tokens d)) d).

(* @src backend/app/db/repositories/tokens.py * TokenRepository.revoke *)
Definition revoke (token_id : uuid) (reason : pystr) : io unit :=
  execute (fun now d => with_tokens (alter (revoked reason now) token_id (tokens d)) d).

(** Revoke what matches and is not revoked yet, and count it. *)
(* @src backend/app/db/repositories/tokens.py 88-93 TokenRepository.revoke_family *)
Definition revoke_where (P : token_row -> bool) (reason : pystr) : io Z :=
  statement (fun w =>
    let d := w_db w in
    (set_db (with_tokens (update_where P (revoked reason (w_now w)) (tokens d)) d) w,
     OK (Z.of_nat (length (select (fun t => P t && negb (is_some (t_revoked_at t))) (tokens d)))))).

(* @src backend/app/db/repositories/tokens.py * TokenRepository.revoke_family *)
Definition revoke_family (family_id : uuid) (reason : pystr) : io Z :=
  revoke_where (fun t => t_family_id t =? family_id) reason.

(* @src backend/app/db/repositories/tokens.py * TokenRepository.revoke_device_sessions *)
Definition revoke_device_sessions (device_id : uuid) (reason : pystr) : io Z :=
  revoke_where (fun t => t_device_id t =? device_id) reason.

(* @src backend/app/db/repositories/tokens.py * TokenRepository.is_live *)
Definition is_live (record : token_record) (now : instant) : bool :=
  negb (is_some (t_revoked_at (tr_token record)))
  && (now <? t_expires_at (tr_token record))
  && tr_user_active record
  && negb (tr_device_blocked record).
End repo.
End TokenRepository.

(** [$1::acs.rate_subject] *)
Definition subject_text (s : rate_subject) : pystr :=
  match s with subj_user => §"user" | subj_device => §"device" | subj_ip => §"ip" end.

Module RateLimitRepository.
Section repo.
Context {PG : Postgres}.

(* @src backend/app/db/repositories/rate_limit.py * RateLimitRepository.record_failure *)
Definition record_failure (subject_type : rate_subject) (subject endpoint : pystr)
    (client_ip : option pystr) : io unit :=
  match (match client_ip with None => Some None | Some s => Some <$> pg_inet s end),
        pg_text subject && pg_text endpoint with
  | Some ip, true =>
      execute (fun now d =>
        with_failed_attempts
          (failed_attempts d ++
             [{| f_subject_type := subject_type; f_subject := subject; f_endpoint := endpoint;
                 f_client_ip := ip; f_occurred_at := now |}]) d)
  | _, _ => Raise (EDb §"invalid input value")
  end.

(* @src backend/app/db/repositories/rate_limit.py 38-41 RateLimitRepository.failure_count *)
Definition counts (subject_type : rate_subject) (subject : pystr) (since : instant)
    (endpoint : option pystr) (f : failed_row) : bool :=
  bool_decide (f_subject_type f = subject_type) && str_eqb (f_subject f) subject
  && (since <? f_occurred_at f)
  && match endpoint with None => true | Some e => str_eqb (f_endpoint f) e end.

(* @src backend/app/db/repositories/rate_limit.py * RateLimitRepository.failure_count *)
Definition failure_count (subject_type : rate_subject) (subject : pystr) (window_seconds : Z)
    (endpoint : option pystr) : io Z :=
  if pg_text subject && opt_text endpoint then
    query (fun now d =>
      count (counts subject_type subject (now - seconds window_seconds) endpoint) (failed_attempts d))
  else Raise (EDb §"encoding").

(** [event_type LIKE 'door.unlock%'] *)
(* @src backend/app/db/repositories/rate_limit.py 57-59 RateLimitRepository.unlock_count *)
Definition unlock_event (user_id : uuid) (since : instant) (r : audit_row) : bool :=
  bool_decide (a_actor_id r = Some user_id)
  && starts_with §"door.unlock" (a_event_type r)
  && (since <? a_occurred_at r).

(* @src backend/app/db/repositories/rate_limit.py * RateLimitRepository.unlock_count *)
Definition unlock_count (user_id : uuid) (secs : Z) : io Z :=
  query (fun now d => count (unlock_event user_id (now - seconds secs)) (audit_log d)).
End repo.
End RateLimitRepository.
