(* ===== verification/Schema.v ===== *)
(** * The constraints of the tables as an invariant

    [db_ok] gathers the unique indexes, the foreign keys and the CHECK
    constraints of migration 003: users, devices, enrolment codes, controllers,
    doors, permissions and tokens.  The audit log is not among them: migration
    004 gives it a primary key, (seq, occurred_at), and no other constraint, and
    its order is [AuditLog.audit_inv].  An insert tests the constraints of its
    table as the database does and raises when one fails, so that every statement
    of the repositories keeps them, step by step, hence in every interleaving;
    what the other theorems need of [db_ok] is mostly that keys are unique. *)

From S2P Require Import Prelude Text Clock Json Errors Proc World Demo AuditLog Repos.

(** ** Unique keys, foreign keys, row checks *)

Definition unique_on {A B} (P : A -> Prop) (key : A -> B) (m : gmap Z A) : Prop :=
  forall i j x y, m !! i = Some x -> m !! j = Some y -> P x -> P y -> key x = key y -> i = j.

Definition refs {A B} (f : A -> option uuid) (m : gmap Z A) (target : gmap Z B) : Prop :=
  forall i x u, m !! i = Some x -> f x = Some u -> is_Some (target !! u).

Definition checked {A} (P : A -> Prop) (m : gmap Z A) : Prop := forall i x, m !! i = Some x -> P x.

(** A statement that changes rows in place: the same keys, related rows. *)
Definition in_place {A} (R : A -> A -> Prop) (m m' : gmap Z A) : Prop :=
  forall k, option_Forall2 R (m !! k) (m' !! k).

Definition extends {A} (m m' : gmap Z A) : Prop := forall k, is_Some (m !! k) -> is_Some (m' !! k).

Section constraints.
Context {A B C : Type}.
Implicit Types (m : gmap Z A) (t : gmap Z B).

Lemma unique_insert P (key : A -> C) m i x :
  unique_on P key m -> (forall k v, m !! k = Some v -> P v -> key v <> key x) ->
  unique_on P key (<[i := x]> m).
Proof.
  intros Hu Hx j k y z Hj Hk Py Pz E. apply lookup_insert_Some in Hj, Hk.
  destruct Hj as [[<- <-]|[? Hj]], Hk as [[<- <-]|[? Hk]]; [done| | |by eapply Hu].
  - by destruct (Hx _ _ Hk Pz).
  - by destruct (Hx _ _ Hj Py).
Qed.

Lemma unique_in_place P (key : A -> C) R m m' :
  (forall x y, R x y -> key x = key y /\ (P y -> P x)) ->
  in_place R m m' -> unique_on P key m -> unique_on P key m'.
Proof.
  intros HR Hm Hu i j x y Hi Hj Px Py E.
  pose proof (Hm i) as Ri. pose proof (Hm j) as Rj. rewrite Hi in Ri. rewrite Hj in Rj.
  inversion Ri as [x1 ? Rx Hi'|]; inversion Rj as [y1 ? Ry Hj'|]; subst.
  apply HR in Rx as [Kx Rx], Ry as [Ky Ry]. apply (Hu i j x1 y1); auto. congruence.
Qed.

Lemma refs_insert f m t i x :
  refs f m t -> (forall u, f x = Some u -> is_Some (t !! u)) -> refs f (<[i := x]> m) t.
Proof.
  intros Hr Hx j y u Hj Hu. apply lookup_insert_Some in Hj as [[_ <-]|[_ Hj]]; [by apply Hx|by eapply Hr].
Qed.

Lemma refs_in_place f R m m' t :
  (forall x y, R x y -> f x = f y) -> in_place R m m' -> refs f m t -> refs f m' t.
Proof.
  intros HR Hm Hr i x u Hi Hu. pose proof (Hm i) as Ri. rewrite Hi in Ri.
  inversion Ri as [x0 ? Rx Hi'|]; subst. apply HR in Rx. eapply (Hr i); [done|congruence].
Qed.

Lemma refs_extends f m t t' : extends t t' -> refs f m t -> refs f m t'.
Proof. intros Ht Hr i x u Hi Hu. apply Ht. by eapply Hr. Qed.

Lemma checked_insert P m i x : checked P m -> P x -> checked P (<[i := x]> m).
Proof. intros Hc Hx j y Hj. apply lookup_insert_Some in Hj as [[_ <-]|[_ Hj]]; [done|by eapply Hc]. Qed.

Lemma checked_in_place P R m m' :
  (forall x y, R x y -> P x -> P y) -> in_place R m m' -> checked P m -> checked P m'.
Proof.
  intros HR Hm Hc i x Hi. pose proof (Hm i) as Ri. rewrite Hi in Ri.
  inversion Ri as [x0 ? Rx Hi'|]; subst. eauto.
Qed.

Lemma extends_insert m i x : extends m (<[i := x]> m).
Proof. intros k Hk. destruct (decide (k = i)) as [->|]; [by rewrite lookup_insert_eq|by rewrite lookup_insert_ne]. Qed.

Lemma extends_in_place R m m' : in_place R m m' -> extends m m'.
Proof. intros Hm k [x Hk]. pose proof (Hm k) as Rk. rewrite Hk in Rk. inversion Rk; eauto. Qed.

Lemma in_place_alter (R : A -> A -> Prop) f m i :
  (forall x, R x x) -> (forall x, R x (f x)) -> in_place R m (alter f i m).
Proof.
  intros Hr Hf k. destruct (decide (k = i)) as [->|].
  - rewrite lookup_alter_eq. destruct (m !! i); constructor; auto.
  - rewrite lookup_alter_ne by done. destruct (m !! k); constructor; auto.
Qed.

Lemma in_place_update (R : A -> A -> Prop) P f m :
  (forall x, R x x) -> (forall x, R x (f x)) -> in_place R m (update_where P f m).
Proof.
  intros Hr Hf k. rewrite lookup_update_where. destruct (m !! k) as [x|]; constructor.
  destruct (P x); auto.
Qed.

Lemma in_place_insert (R : A -> A -> Prop) m i x y :
  (forall x, R x x) -> m !! i = Some x -> R x y -> in_place R m (<[i := y]> m).
Proof.
  intros Hr Hi Hxy k. destruct (decide (k = i)) as [->|].
  - rewrite Hi, lookup_insert_eq. by constructor.
  - rewrite lookup_insert_ne by done. destruct (m !! k); constructor; auto.
Qed.
End constraints.

(** ** The invariant *)

Abbreviation every := (fun _ => True).

Definition users_ok (d : Db) : Prop :=
  unique_on every (fun u => lower (u_username u)) (users d)
  /\ checked (fun u => username_shape (u_username u) = true) (users d).

Definition devices_ok (d : Db) : Prop :=
  unique_on every d_public_key (devices d)
  /\ checked (fun r => length (d_public_key r) = 32%nat) (devices d)
  /\ refs (fun r => Some (d_user_id r)) (devices d) (users d).

Definition codes_ok (d : Db) : Prop :=
  unique_on every e_code_hash (enrollment_codes d)
  /\ checked (fun r => length (e_code_hash r) = 32%nat) (enrollment_codes d)
  /\ refs (fun r => Some (e_user_id r)) (enrollment_codes d) (users d)
  /\ refs e_created_by (enrollment_codes d) (users d)
  /\ refs e_used_by_device (enrollment_codes d) (devices d).

Definition controllers_ok (d : Db) : Prop :=
  unique_on every c_code (controllers d) /\ unique_on every c_public_key (controllers d)
  /\ checked (fun c => length (c_public_key c) = 32%nat /\ length (c_beacon_key c) = 32%nat) (controllers d).

Definition doors_ok (d : Db) : Prop :=
  unique_on every dr_code (doors d)
  /\ checked (fun r => 1 <= dr_unlock_seconds r <= 10 /\ 1 <= dr_relay_channel r <= 4) (doors d)
  /\ refs dr_controller_id (doors d) (controllers d).

Definition permission_ok (p : permission_row) : Prop :=
  0 <= p_weekday_mask p <= 127 /\ p_start_time p < p_end_time p
  /\ from_option (fun u => p_valid_from p < u) True (p_valid_until p).

Definition permissions_ok (d : Db) : Prop :=
  unique_on (fun p => p_is_active p = true) (fun p => (p_user_id p, p_door_id p)) (permissions d)
  /\ checked permission_ok (permissions d)
  /\ refs (fun p => Some (p_user_id p)) (permissions d) (users d)
  /\ refs (fun p => Some (p_door_id p)) (permissions d) (doors d)
  /\ refs p_created_by (permissions d) (users d).

Definition tokens_ok (d : Db) : Prop :=
  unique_on every t_token_hash (tokens d)
  /\ checked (fun t => length (t_token_hash t) = 32%nat /\ t_issued_at t < t_expires_at t) (tokens d)
  /\ refs (fun t => Some (t_user_id t)) (tokens d) (users d)
  /\ refs (fun t => Some (t_device_id t)) (tokens d) (devices d)
  /\ refs t_parent_id (tokens d) (tokens d).

(** The constraints of the seven tables of migration 003. *)
Record db_ok (d : Db) : Prop := {
  ok_users : users_ok d; ok_devices : devices_ok d; ok_codes : codes_ok d;
  ok_controllers : controllers_ok d; ok_doors : doors_ok d; ok_permissions : permissions_ok d;
  ok_tokens : tokens_ok d
}.

Ltac unfold_ok :=
  unfold users_ok, devices_ok, codes_ok, controllers_ok, doors_ok, permissions_ok, tokens_ok.
Ltac conjuncts := repeat match goal with |- _ /\ _ => split end.

Lemma empty_db_ok : db_ok empty_db.
Proof.
  split; unfold_ok; unfold unique_on, checked, refs; conjuncts; intros; exfalso;
    match goal with H : _ !! _ = Some _ |- _ => cbn in H; by rewrite lookup_empty in H end.
Qed.

(** One step keeps the constraints. *)
Definition keeps (w w' : World) : Prop := db_ok (w_db w) -> db_ok (w_db w').

#[global] Instance keeps_preorder : PreOrder keeps.
Proof. split; [by intros w ?|intros w1 w2 w3 H1 H2 H; auto]. Qed.

(** ** Steps on one table

    For each table: an insert whose checks passed, and a change in place that
    leaves the constrained columns alone. *)

Ltac fk_mono := eapply refs_extends; [eassumption|assumption].

(** A change of the users that keeps the keys alive. *)
Lemma with_users_keeps d us :
  db_ok d -> users_ok (with_users us d) -> extends (users d) us -> db_ok (with_users us d).
Proof.
  intros [? (?&?&?) (?&?&?&?&?) ? ? (?&?&?&?&?) (?&?&?&?&?)] Hu He.
  split; [done| | |done|done| |]; unfold_ok; conjuncts; cbn; try done; fk_mono.
Qed.

Lemma with_devices_keeps d dv :
  db_ok d -> devices_ok (with_devices dv d) -> extends (devices d) dv -> db_ok (with_devices dv d).
Proof.
  intros [? ? (?&?&?&?&?) ? ? ? (?&?&?&?&?)] Hu He.
  split; [done|done| |done|done|done|]; unfold_ok; conjuncts; cbn; try done; fk_mono.
Qed.

Lemma with_codes_keeps d ec :
  db_ok d -> codes_ok (with_enrollment_codes ec d) -> db_ok (with_enrollment_codes ec d).
Proof. intros [] Hc. by split. Qed.

Lemma with_controllers_keeps d cs :
  db_ok d -> controllers_ok (with_controllers cs d) -> extends (controllers d) cs ->
  db_ok (with_controllers cs d).
Proof.
  intros [? ? ? ? (?&?&?) ? ?] Hu He.
  split; [done|done|done|done| |done|done]; unfold_ok; conjuncts; cbn; try done; fk_mono.
Qed.

Lemma with_doors_keeps d ds :
  db_ok d -> doors_ok (with_doors ds d) -> extends (doors d) ds -> db_ok (with_doors ds d).
Proof.
  intros [? ? ? ? ? (?&?&?&?&?) ?] Hu He.
  split; [done|done|done|done|done| |done]; unfold_ok; conjuncts; cbn; try done; fk_mono.
Qed.

Lemma with_permissions_keeps d ps :
  db_ok d -> permissions_ok (with_permissions ps d) -> db_ok (with_permissions ps d).
Proof. intros [] Hc. by split. Qed.

Lemma with_tokens_keeps d ts :
  db_ok d -> tokens_ok (with_tokens ts d) -> db_ok (with_tokens ts d).
Proof. intros [] Hc. by split. Qed.

(** *** Changes in place *)

Definition same_user (x y : user_row) : Prop := u_username x = u_username y.
Definition same_device (x y : device_row) : Prop :=
  d_public_key x = d_public_key y /\ d_user_id x = d_user_id y.
Definition same_code (x y : enrollment_row) : Prop :=
  e_code_hash x = e_code_hash y /\ e_user_id x = e_user_id y /\ e_created_by x = e_created_by y.
(** A grant may be changed or withdrawn, never revived or moved. *)
Definition same_permission (x y : permission_row) : Prop :=
  p_user_id x = p_user_id y /\ p_door_id x = p_door_id y /\ p_created_by x = p_created_by y
  /\ (p_is_active y = true -> p_is_active x = true) /\ (permission_ok x -> permission_ok y).
Definition same_controller (x y : controller_row) : Prop :=
  c_code x = c_code y /\ c_public_key x = c_public_key y /\ c_beacon_key x = c_beacon_key y.
Definition same_token (x y : token_row) : Prop :=
  t_token_hash x = t_token_hash y /\ t_user_id x = t_user_id y /\ t_device_id x = t_device_id y
  /\ t_parent_id x = t_parent_id y /\ t_issued_at x = t_issued_at y /\ t_expires_at x = t_expires_at y.

Ltac place HR :=
  unfold_ok; cbn; conjuncts;
  match goal with
  | |- unique_on _ _ _ => eapply unique_in_place; [|exact HR|eassumption]
  | |- checked _ _ => eapply checked_in_place; [|exact HR|eassumption]
  | |- refs _ ?m ?m => eapply refs_extends; [by eapply extends_in_place|];
                       eapply refs_in_place; [|exact HR|eassumption]
  | |- refs _ _ _ => eapply refs_in_place; [|exact HR|eassumption]
  end; intros x y; cbn; unfold same_user, same_device, same_code, same_controller, same_token, same_permission;
  intuition congruence.

Lemma users_in_place d us : in_place same_user (users d) us -> db_ok d -> db_ok (with_users us d).
Proof.
  intros HR Hd. apply with_users_keeps; [done| |by eapply extends_in_place].
  destruct (ok_users d Hd). place HR.
Qed.

Lemma devices_in_place d dv : in_place same_device (devices d) dv -> db_ok d -> db_ok (with_devices dv d).
Proof.
  intros HR Hd. apply with_devices_keeps; [done| |by eapply extends_in_place].
  destruct (ok_devices d Hd) as (?&?&?). place HR.
Qed.

Lemma codes_in_place d ec :
  in_place same_code (enrollment_codes d) ec -> refs e_used_by_device ec (devices d) ->
  db_ok d -> db_ok (with_enrollment_codes ec d).
Proof.
  intros HR Hdev Hd. apply with_codes_keeps; [done|]. destruct (ok_codes d Hd) as (?&?&?&?&?).
  unfold_ok. cbn. conjuncts; [| | | |exact Hdev]; place HR.
Qed.

Lemma permissions_in_place d ps :
  in_place same_permission (permissions d) ps -> db_ok d -> db_ok (with_permissions ps d).
Proof.
  intros HR Hd. apply with_permissions_keeps; [done|]. destruct (ok_permissions d Hd) as (?&?&?&?&?).
  place HR.
Qed.

Lemma controllers_in_place d cs :
  in_place same_controller (controllers d) cs -> db_ok d -> db_ok (with_controllers cs d).
Proof.
  intros HR Hd. apply with_controllers_keeps; [done| |by eapply extends_in_place].
  destruct (ok_controllers d Hd) as (?&?&?). place HR.
Qed.

Lemma tokens_in_place d ts : in_place same_token (tokens d) ts -> db_ok d -> db_ok (with_tokens ts d).
Proof.
  intros HR Hd. apply with_tokens_keeps; [done|]. destruct (ok_tokens d Hd) as (?&?&?&?&?). place HR.
Qed.

(** ** Every repository statement keeps the constraints *)

Section keeps.
Context {EN : Entropy} {PG : Postgres}.

Lemma keeps_insert_row {A} table put checks (row : instant -> Db -> A) :
  (forall now d id, db_ok d -> Forall (fun c => c.1 = true) (checks now d) -> table d !! id = None ->
   db_ok (put (<[id := row now d]> (table d)) d)) ->
  guar keeps (insert_row table put checks row).
Proof.
  intros Hi. apply guar_atomic. intros w Hw. cbn.
  destruct (violation _) as [n|] eqn:E; [done|]. apply violation_none in E.
  apply Forall_app in E as [E Hpk%Forall_inv]. apply Hi; [done..|].
  cbn in Hpk. by destruct (table (w_db w) !! _).
Qed.

Lemma keeps_execute f : (forall now d, db_ok d -> db_ok (f now d)) -> guar keeps (execute f).
Proof. intros Hf. apply guar_atomic. intros w Hw. by apply Hf. Qed.

Lemma keeps_query {A} (f : instant -> Db -> A) : guar keeps (query f).
Proof. by apply guar_reads. Qed.

Lemma exists_in_some {A} (m : gmap Z A) id : exists_in m id = true -> is_Some (m !! id).
Proof. unfold exists_in. by destruct (m !! id). Qed.

(** The unique index rules out an equal key. *)
Lemma no_row {A} (P : A -> bool) m k v :
  negb (exists_row P m) = true -> m !! k = Some v -> P v = false.
Proof. intros Hn. apply negb_true_iff in Hn. rewrite exists_row_false in Hn. eauto. Qed.

(** Tactics: the checks of an insert as hypotheses, a unique index against the
    absence of a row with the key, changes in place that keep all keys. *)
Ltac insert_checks :=
  apply keeps_insert_row; intros now d id Hd Hc Hfresh; cbn [fst] in Hc;
  rewrite ?Forall_cons in Hc; cbn [fst] in Hc; destruct_and! Hc; bool_to_prop.
Ltac by_index :=
  match goal with H : exists_row _ _ = false |- _ =>
    let k := fresh in let v := fresh in let Hk := fresh in let E := fresh in
    apply unique_insert; [assumption|]; intros k v Hk _ E;
    rewrite exists_row_false in H; specialize (H k v Hk); cbn in H, E;
    rewrite ?lower_idemp in E; unfold str_eqb in H; apply bool_decide_eq_false_1 in H; congruence
  end.
Ltac by_length := unfold length_is in *; repeat match goal with
  | H : (_ =? _)%nat = true |- _ => apply Nat.eqb_eq in H end.
Ltac by_fk :=
  let u := fresh in let Hf := fresh in
  apply refs_insert; [assumption|]; intros u Hf; cbn in Hf; try discriminate Hf; simplify_eq;
  unfold exists_opt in *; simplify_eq/=; by apply exists_in_some.

Lemma users_create_keeps username display_name password_hash is_admin :
  guar keeps (UserRepository.create username display_name password_hash is_admin).
Proof.
  insert_checks. apply with_users_keeps; [done| |apply extends_insert].
  destruct (ok_users d Hd) as [Hu Hs]. unfold_ok. cbn. split.
  - by_index.
  - by apply checked_insert.
Qed.

Lemma devices_create_keeps user_id label public_key platform app_version status det :
  guar keeps (DeviceRepository.create user_id label public_key platform app_version status det).
Proof.
  unfold DeviceRepository.create. destruct (attestation_in status), (jsonb det); try done.
  insert_checks. apply with_devices_keeps; [done| |apply extends_insert].
  destruct (ok_devices d Hd) as (Hu & Hs & Hr). unfold_ok. cbn. by_length. conjuncts.
  - by_index.
  - by apply checked_insert.
  - by_fk.
Qed.

Lemma codes_create_keeps user_id code_hash created_by ttl :
  guar keeps (EnrollmentRepository.create user_id code_hash created_by ttl).
Proof.
  insert_checks. apply with_codes_keeps; [done|].
  destruct (ok_codes d Hd) as (Hu & Hs & Hr1 & Hr2 & Hr3). unfold_ok. cbn. by_length. conjuncts.
  - by_index.
  - by apply checked_insert.
  - by_fk.
  - by_fk.
  - by_fk.
Qed.

Lemma controllers_register_keeps code name public_key beacon_key :
  guar keeps (ControllerRepository.register code name public_key beacon_key).
Proof.
  insert_checks. apply with_controllers_keeps; [done| |apply extends_insert].
  destruct (ok_controllers d Hd) as (Hu1 & Hu2 & Hs). unfold_ok. cbn. by_length. conjuncts.
  - by_index.
  - by_index.
  - by apply checked_insert.
Qed.

Lemma doors_create_keeps code name location controller_id relay secs :
  guar keeps (DoorRepository.create code name location controller_id relay secs).
Proof.
  insert_checks. apply with_doors_keeps; [done| |apply extends_insert].
  destruct (ok_doors d Hd) as (Hu & Hs & Hr). unfold_ok. cbn. conjuncts.
  - by_index.
  - by apply checked_insert.
  - by_fk.
Qed.

Lemma tokens_insert_keeps family user device kind h ttl parent :
  guar keeps (TokenRepository.insert family user device kind h ttl parent).
Proof.
  insert_checks. apply with_tokens_keeps; [done|].
  destruct (ok_tokens d Hd) as (Hu & Hs & Hr1 & Hr2 & Hr3). unfold_ok. cbn. by_length. conjuncts.
  - by_index.
  - apply checked_insert; [done|]. cbn. unfold seconds, usec_per_sec. split; [done|lia].
  - by_fk.
  - by_fk.
  - eapply refs_extends; [apply extends_insert|]. by_fk.
Qed.

Ltac by_place tbl :=
  apply keeps_execute; intros now d Hd; apply tbl; [|done];
  apply in_place_alter; intros x; [done|];
  unfold same_user, same_device, same_code, same_controller, same_token; cbn; tauto.

Lemma touch_login_keeps id : guar keeps (UserRepository.touch_login id).
Proof. by_place users_in_place. Qed.
Lemma set_active_keeps id b : guar keeps (UserRepository.set_active id b).
Proof. by_place users_in_place. Qed.
Lemma device_touch_keeps id : guar keeps (DeviceRepository.touch_seen id).
Proof. by_place devices_in_place. Qed.
Lemma device_block_keeps id r : guar keeps (DeviceRepository.block id r).
Proof. unfold DeviceRepository.block. destruct (pg_text r); [by_place devices_in_place|done]. Qed.
Lemma controller_touch_keeps id ip fw : guar keeps (ControllerRepository.touch_seen id ip fw).
Proof.
  unfold ControllerRepository.touch_seen. repeat case_match; try done; by_place controllers_in_place.
Qed.
Lemma controller_block_keeps id r : guar keeps (ControllerRepository.block id r).
Proof. unfold ControllerRepository.block. destruct (pg_text r); [by_place controllers_in_place|done]. Qed.

Lemma used_same now t : same_token t (TokenRepository.used now t).
Proof. done. Qed.
Lemma revoked_same reason now t : same_token t (TokenRepository.revoked reason now t).
Proof. unfold TokenRepository.revoked. by destruct (t_revoked_at t). Qed.

Lemma mark_used_keeps id : guar keeps (TokenRepository.mark_used id).
Proof. by_place tokens_in_place. Qed.
Lemma token_revoke_keeps id r : guar keeps (TokenRepository.revoke id r).
Proof.
  apply keeps_execute. intros now d Hd. apply tokens_in_place; [|done].
  apply in_place_alter; [done|apply revoked_same].
Qed.
Lemma revoke_where_keeps P r : guar keeps (TokenRepository.revoke_where P r).
Proof.
  apply guar_atomic. intros w Hd. apply tokens_in_place; [|done].
  apply in_place_update; [done|apply revoked_same].
Qed.

Lemma claim_keeps h : guar keeps (EnrollmentRepository.claim h).
Proof.
  apply guar_atomic. intros w Hd. cbn. apply codes_in_place; [by apply in_place_update| |done].
  destruct (ok_codes _ Hd) as (_&_&_&_&Hr).
  eapply (refs_in_place _ (fun x y => e_used_by_device x = e_used_by_device y)); [done| |exact Hr].
  by apply in_place_update.
Qed.

Lemma attach_device_keeps id dev : guar keeps (EnrollmentRepository.attach_device id dev).
Proof.
  apply guar_atomic. intros w Hd. cbn. destruct (_ && _) eqn:Efk; cbn; [done|].
  apply codes_in_place; [by apply in_place_alter| |done]. intros i x u Hi Hu.
  destruct (ok_codes _ Hd) as (_&_&_&_&Hr).
  destruct (decide (i = id)) as [->|]; [|rewrite lookup_alter_ne in Hi by done; by eapply Hr].
  rewrite lookup_alter_eq in Hi. unfold exists_in in Efk.
  destruct (enrollment_codes (w_db w) !! id) as [c|]; [|done]. injection Hi as <-.
  injection Hu as <-. cbn in Efk. by destruct (devices (w_db w) !! dev).
Qed.

Lemma row_checks_ok p :
  violation (PermissionRepository.row_checks p) = None -> permission_ok p.
Proof.
  intros Hv. apply violation_none in Hv. unfold PermissionRepository.row_checks in Hv.
  rewrite !Forall_cons in Hv. cbn [fst] in Hv. destruct_and! Hv. bool_to_prop.
  unfold permission_ok. destruct (p_valid_until p); cbn; bool_to_prop; lia.
Qed.

Lemma grant_keeps user door by_ mask st en tz until :
  guar keeps (PermissionRepository.grant user door by_ mask st en tz until).
Proof.
  unfold PermissionRepository.grant. destruct (pg_time st) as [s|], (pg_time en) as [e|], (pg_text tz);
    try done.
  apply guar_atomic. intros w Hd. cbn. set (n := {| p_user_id := user |}).
  destruct (violation (PermissionRepository.row_checks n)) eqn:Ec; [exact Hd|]. apply row_checks_ok in Ec.
  destruct (fetchrow _ _) as [[old p]|] eqn:Ef.
  - destruct (violation _) eqn:Ev; [exact Hd|]. apply row_checks_ok in Ev.
    apply fetchrow_some in Ef as [Hp _]. apply permissions_in_place; [|done].
    apply in_place_insert with (x:=p); [by intros x; unfold same_permission; conjuncts|done|by unfold same_permission; conjuncts].
  - destruct (violation _) eqn:Ev; [exact Hd|]. apply violation_none in Ev.
    rewrite !Forall_cons in Ev. cbn [fst] in Ev. destruct_and! Ev.
    rewrite fetchrow_none in Ef. apply with_permissions_keeps; [done|].
    destruct (ok_permissions _ Hd) as (?&?&?&?&?). unfold_ok. cbn. conjuncts.
    + apply unique_insert; [done|]. intros k v Hk Hact E. cbn in E. injection E as Eu Ed.
      specialize (Ef k v Hk). unfold PermissionRepository.live_grant in Ef.
      by rewrite Eu, Ed, !Z.eqb_refl, Hact in Ef.
    + by apply checked_insert.
    + by_fk.
    + by_fk.
    + by_fk.
Qed.

Lemma permission_revoke_keeps id : guar keeps (PermissionRepository.revoke id).
Proof.
  apply keeps_execute. intros now d Hd. apply permissions_in_place; [|done].
  by apply in_place_alter; intros p; unfold same_permission; conjuncts.
Qed.

Lemma record_failure_keeps s subj ep ip : guar keeps (RateLimitRepository.record_failure s subj ep ip).
Proof.
  unfold RateLimitRepository.record_failure. repeat case_match; try done;
    apply keeps_execute; by intros now d [].
Qed.

Lemma append_keeps event outcome a : guar keeps (AuditRepository.append event outcome a).
Proof.
  apply guar_bind; [|intros r]; apply guar_atomic; intros w Hw; cbn.
  - destruct (AuditRepository.new_row _ _ _ _ _); [|done]. cbn. by destruct Hw.
  - by destruct Hw.
Qed.
End keeps.

#[export] Hint Resolve keeps_query : guar.

#[export] Hint Resolve users_create_keeps devices_create_keeps codes_create_keeps
  controllers_register_keeps doors_create_keeps tokens_insert_keeps touch_login_keeps
  set_active_keeps device_touch_keeps device_block_keeps controller_touch_keeps
  controller_block_keeps mark_used_keeps token_revoke_keeps revoke_where_keeps claim_keeps
  attach_device_keeps grant_keeps permission_revoke_keeps record_failure_keeps append_keeps : guar.
