(* ===== verification/Signer.v ===== *)
(** * The signer: [signer/protocol.py], [signer/server.py],
    [app/core/signer_client.py]

    [protocol] is the wire format and the validation of a command,
    [SignerService] the request handler of the process that holds the key,
    [serve_client] its loop over the lines of one connection, [SignerClient] the
    API's side of the socket. *)

From S2P Require Import Prelude Text Json Errors Proc World Demo.

(** [isinstance(v, int)]: a [bool] is an [int]. *)
Definition as_int (v : json) : option Z :=
  match v with JInt z => Some z | JBool b => Some (Z.b2z b) | _ => None end.

(* @src backend/signer/protocol.py * ALG *)
Definition ALG : pystr := §"ed25519".
(* @src backend/signer/protocol.py * COMMAND_DOMAIN *)
Definition COMMAND_DOMAIN : bytes := §"acs-command:v1" ++ [0].

(* @src backend/signer/protocol.py * REQUIRED_COMMAND_FIELDS *)
Definition REQUIRED_COMMAND_FIELDS : list pystr :=
  [§"command_id"; §"cmd"; §"controller_code"; §"door_code"; §"relay_channel"; §"duration_ms";
   §"issued_at"; §"expires_at"; §"nonce"].

(* @src backend/signer/protocol.py * ALLOWED_COMMANDS *)
Definition ALLOWED_COMMANDS : list pystr := [§"unlock"].
(* @src backend/signer/protocol.py * MAX_COMMAND_TTL_SECONDS *)
Definition MAX_COMMAND_TTL_SECONDS : Z := 30.
(* @src backend/signer/protocol.py * MAX_DURATION_MS *)
Definition MAX_DURATION_MS : Z := 10000.

Abbreviation dict := (list (pystr * json)) (only parsing).

(** [None]: the [UnicodeEncodeError] of a lone surrogate. *)
(* @src backend/signer/protocol.py * canonical_bytes *)
Definition canonical_bytes (payload : dict) : option bytes :=
  app COMMAND_DOMAIN <$> utf8_encode (dumps false false (Some str_leb) (JObj payload)).

(** [None]: the command is accepted; [Some msg]: [InvalidCommand(msg)]. *)
(* @src backend/signer/protocol.py * validate_command *)
Definition validate_command (payload : dict) : option pystr :=
  let missing := List.filter (fun f => negb (is_some (dict_get f payload))) REQUIRED_COMMAND_FIELDS in
  match missing with
  | _ :: _ => Some (§"missing fields: " ++ join [44] missing)
  | [] =>
      let field f := default JNull (dict_get f payload) in
      if negb (match field §"cmd" with JStr s => existsb (str_eqb s) ALLOWED_COMMANDS | _ => false end) then
        Some §"unknown command"
      else if negb (match as_int (field §"duration_ms") with
                    | Some d => (0 <? d) && (d <=? MAX_DURATION_MS) | None => false end) then
        Some §"duration_ms out of range"
      else
        match as_int (field §"issued_at"), as_int (field §"expires_at") with
        | Some issued_at, Some expires_at =>
            let ttl := expires_at - issued_at in
            if negb ((0 <? ttl) && (ttl <=? MAX_COMMAND_TTL_SECONDS)) then Some §"command ttl out of range"
            else
              match field §"nonce" with
              | JStr n => if (length n <? 16)%nat then Some §"nonce too short" else None
              | _ => Some §"nonce too short"
              end
        | _, _ => Some §"timestamps must be integers"
        end
  end.

(** The text is ASCII ([ensure_ascii] is left on): its UTF-8 encoding is itself. *)
(* @src backend/signer/protocol.py * encode_request *)
Definition encode_request (obj : dict) : bytes := dumps true false None (JObj obj) ++ [10].

(** [None]: a [ValueError] (of the decoder, of the parser, or its own). *)
(* @src backend/signer/protocol.py * decode_line *)
Definition decode_line (line : bytes) : option dict :=
  match utf8_decode line with
  | None => None
  | Some text => match loads text with Some (JObj m) => Some m | _ => None end
  end.

(** ** The server *)

Record SignerService := { s_key : bytes; s_key_id : pystr }.

(* @src backend/signer/server.py * MAX_LINE_BYTES *)
Definition MAX_LINE_BYTES : nat := 8 * 1024.
(** The default limit of [asyncio.StreamReader]. *)
Definition STREAM_LIMIT : nat := 64 * 1024.

Definition error_response (msg : pystr) : dict := [(§"ok", JBool false); (§"error", JStr msg)].

Definition get_str (k : pystr) (m : dict) : option pystr :=
  match dict_get k m with Some (JStr s) => Some s | _ => None end.

(** [readline()] until the end of the input: every line but the last one ends
    with its newline. *)
Fixpoint split_lines (s : bytes) : list bytes :=
  match s with
  | [] => []
  | c :: r =>
      if c =? 10 then [c] :: split_lines r
      else match split_lines r with
           | [] => [[c]]
           | l :: ls => (c :: l) :: ls
           end
  end.

Section server.
Context {ED : Ed25519}.

(* @src backend/signer/server.py * SignerService.public_key_b64 *)
Definition public_key_b64 (svc : SignerService) : pystr := b64encode (ed25519_public (s_key svc)).

(** [None]: the [ValueError] of [canonical_bytes], which nothing catches. *)
(* @src backend/signer/server.py * SignerService.handle *)
Definition handle (svc : SignerService) (request : dict) : option dict :=
  match get_str §"op" request with
  | Some op =>
      if str_eqb op §"public_key" then
        Some [(§"ok", JBool true); (§"public_key", JStr (public_key_b64 svc));
              (§"key_id", JStr (s_key_id svc)); (§"alg", JStr ALG)]
      else if str_eqb op §"sign" then
        match dict_get §"payload" request with
        | Some (JObj payload) =>
            match validate_command payload with
            | Some msg => Some (error_response (§"refused: " ++ msg))
            | None =>
                match canonical_bytes payload with
                | None => None
                | Some body =>
                    Some [(§"ok", JBool true);
                          (§"signature", JStr (b64encode (ed25519_sign (s_key svc) body)));
                          (§"key_id", JStr (s_key_id svc)); (§"alg", JStr ALG)]
                end
            end
        | _ => Some (error_response §"payload must be an object")
        end
      else Some (error_response §"unknown op")
  | None => Some (error_response §"unknown op")
  end.

(** What the server writes on one connection, given everything the client
    sends before it closes its side; the connection ends with the output. *)
Fixpoint serve_lines (svc : SignerService) (lines : list bytes) : bytes :=
  match lines with
  | [] => []
  | line :: rest =>
      if (STREAM_LIMIT <? length line)%nat then []
      else if (MAX_LINE_BYTES <? length line)%nat then
        encode_request (error_response §"request too large")
      else
        match decode_line line with
        | None => encode_request (error_response §"malformed request")
        | Some request =>
            match handle svc request with
            | None => []
            | Some response => encode_request response ++ serve_lines svc rest
            end
        end
  end.

(* @src backend/signer/server.py * _serve_client *)
Definition _serve_client (svc : SignerService) (input : bytes) : bytes :=
  serve_lines svc (split_lines input).
End server.

(** [run()] up to the listening socket: the key must be 32 bytes of base64. *)
(* @src backend/signer/server.py 112-116 run *)
Definition service_of_env (private_key_b64 key_id : pystr) : option SignerService :=
  match b64decode private_key_b64 with
  | Some raw => if (length raw =? 32)%nat then Some {| s_key := raw; s_key_id := key_id |} else None
  | None => None
  end.

(** ** The client *)

(** The socket: the line that comes back for what is written at an instant, or
    the message of the timeout or [OSError]. *)
Class SignerSocket := { signer_exchange : instant -> bytes -> pystr + bytes }.

Module SignerClient.
Section client.
Context {PR : PyRepr} {SK : SignerSocket}.

(** Once [line] has been written. *)
Definition asked (line : bytes) (w : World) : World := set_asked (w_asked w ++ [line]) w.

(* @src backend/app/core/signer_client.py * SignerClient._request *)
Definition _request (payload : dict) : io dict :=
  answer ← atomic (fun w => (asked (encode_request payload) w, OK (signer_exchange (w_now w) (encode_request payload))));
  match answer with
  | inl msg => Raise (ESignerUnavailable msg)
  | inr [] => Raise (ESignerUnavailable §"signer closed the connection")
  | inr line => of_option (EValue §"malformed response") (decode_line line)
  end.

(** [base64.b64decode(response[field]), response["key_id"]] *)
(* @src backend/app/core/signer_client.py 68-68 SignerClient.public_key *)
Definition unpack (field : pystr) (response : dict) : io (bytes * json) :=
  v ← of_option (EKey field) (dict_get field response);
  b ← match v with
      | JStr s => of_option (EValue §"base64") (b64decode_lax s)
      | _ => Raise (EType §"argument should be a bytes-like object or ASCII string")
      end;
  k ← of_option (EKey §"key_id") (dict_get §"key_id" response);
  Ret (b, k).

(** [if not response.get("ok"): raise SignerRefused(str(response.get("error")))] *)
(* @src backend/app/core/signer_client.py 71-73 SignerClient.sign_command *)
Definition checked_response (response : dict) : io unit :=
  if py_true (default JNull (dict_get §"ok" response)) then Ret tt
  else Raise (ESignerRefused (py_str (default JNull (dict_get §"error" response)))).

(* @src backend/app/core/signer_client.py * SignerClient.public_key *)
Definition public_key : io (bytes * json) :=
  response ← _request [(§"op", JStr §"public_key")];
  _ ← checked_response response;
  unpack §"public_key" response.

Definition sign_request (command : dict) : dict := [(§"op", JStr §"sign"); (§"payload", JObj command)].

(* @src backend/app/core/signer_client.py * SignerClient.sign_command *)
Definition sign_command (command : dict) : io (bytes * json) :=
  response ← _request (sign_request command);
  _ ← checked_response response;
  unpack §"signature" response.
End client.
End SignerClient.

(** ** Which commands are signed *)

Record command_ok (m : dict) (issued_at expires_at duration_ms : Z) : Prop := {
  cmd_fields : Forall (fun f => exists v, dict_get f m = Some v) REQUIRED_COMMAND_FIELDS;
  cmd_unlock : dict_get §"cmd" m = Some (JStr §"unlock");
  cmd_duration : (dict_get §"duration_ms" m ≫= as_int) = Some duration_ms /\ 0 < duration_ms <= 10000;
  cmd_issued : (dict_get §"issued_at" m ≫= as_int) = Some issued_at;
  cmd_expires : (dict_get §"expires_at" m ≫= as_int) = Some expires_at;
  cmd_ttl : 0 < expires_at - issued_at <= 30;
  cmd_nonce : exists n, dict_get §"nonce" m = Some (JStr n) /\ (16 <= length n)%nat
}.

Lemma missing_nil (m : dict) :
  List.filter (fun f => negb (is_some (dict_get f m))) REQUIRED_COMMAND_FIELDS = [] <->
  Forall (fun f => exists v, dict_get f m = Some v) REQUIRED_COMMAND_FIELDS.
Proof.
  induction REQUIRED_COMMAND_FIELDS as [|f l IH]; [done|]. cbn [List.filter]. rewrite Forall_cons.
  destruct (dict_get f m) as [v|]; cbn.
  - rewrite IH. split; [intros Hl; split; [by eexists|done]|by intros [_ Hl]].
  - split; [done|]. by intros [[v Hv] _].
Qed.

Lemma dict_get_default f (m : dict) v : dict_get f m = Some v -> default JNull (dict_get f m) = v.
Proof. by intros ->. Qed.

Lemma default_bind_int f (m : dict) z :
  as_int (default JNull (dict_get f m)) = Some z <-> (dict_get f m ≫= as_int) = Some z.
Proof. by destruct (dict_get f m). Qed.

Lemma validate_command_iff m :
  validate_command m = None <-> exists i e d, command_ok m i e d.
Proof.
  unfold validate_command. pose proof (missing_nil m) as Hm.
  destruct (List.filter _ _) as [|f l]; cbv zeta.
  - split.
    + intros Hv.
      destruct (default JNull (dict_get §"cmd" m)) as [| | | |s| |] eqn:Ec; try discriminate Hv.
      destruct (existsb (str_eqb s) ALLOWED_COMMANDS) eqn:Es; [|discriminate Hv]. cbn [negb] in Hv.
      destruct (as_int (default JNull (dict_get §"duration_ms" m))) as [d|] eqn:Ed; [|discriminate Hv].
      destruct ((0 <? d) && (d <=? MAX_DURATION_MS)) eqn:Hd; [|discriminate Hv]. cbn [negb] in Hv.
      destruct (as_int (default JNull (dict_get §"issued_at" m))) as [i|] eqn:Ei; [|discriminate Hv].
      destruct (as_int (default JNull (dict_get §"expires_at" m))) as [e|] eqn:Ee; [|discriminate Hv].
      destruct ((0 <? e - i) && (e - i <=? MAX_COMMAND_TTL_SECONDS)) eqn:Ht; [|discriminate Hv]. cbn [negb] in Hv.
      destruct (default JNull (dict_get §"nonce" m)) as [| | | |n| |] eqn:En; try discriminate Hv.
      destruct (length n <? 16)%nat eqn:Hn; [discriminate Hv|].
      apply Nat.ltb_ge in Hn. unfold MAX_DURATION_MS, MAX_COMMAND_TTL_SECONDS in *. bool_to_prop.
      exists i, e, d. split; try by (apply default_bind_int).
      * by apply Hm.
      * cbn in Es. rewrite orb_false_r in Es. apply bool_decide_eq_true_1 in Es as ->.
        destruct (dict_get §"cmd" m); cbn in Ec; congruence.
      * split; [by apply default_bind_int|lia].
      * lia.
      * exists n. split; [|done]. destruct (dict_get §"nonce" m); cbn in En; congruence.
    + intros (i & e & d & [_ Hc [Hd Hdr] Hi He Ht (n & Hn & Hl)]).
      apply dict_get_default in Hc, Hn. apply default_bind_int in Hd, Hi, He.
      rewrite Hc, Hd, Hi, He, Hn. unfold MAX_DURATION_MS, MAX_COMMAND_TTL_SECONDS.
      change (existsb (str_eqb §"unlock") ALLOWED_COMMANDS) with true.
      rewrite !range_true by done. apply Nat.ltb_ge in Hl. by rewrite Hl.
  - split; [done|]. intros (i & e & d & [Hf _]). apply Hm in Hf. done.
Qed.

(** ** The signed bytes *)

Lemma domain_inj a b : COMMAND_DOMAIN ++ a = COMMAND_DOMAIN ++ b -> a = b.
Proof. apply app_inv_head. Qed.

Lemma canonical_some payload :
  json_ok (JObj payload) = true -> exists b, canonical_bytes payload = Some b.
Proof.
  intros Hok. unfold canonical_bytes.
  assert (Hs : exists b, utf8_encode (dumps false false (Some str_leb) (JObj payload)) = Some b).
  { apply utf8_encode_scalar. apply forallb_forall. intros c Hc. apply list_elem_of_In in Hc.
    revert c Hc. apply Forall_forall. apply dumps_chars; [..|done].
    - intros c Hc. unfold plain, is_scalar in *. lia.
    - done. }
  destruct Hs as [b ->]. by eexists.
Qed.

Lemma normal_obj o m :
  normal o (JObj m) = JObj (ordered o (map (fun kv => (kv.1, normal o kv.2)) m)).
Proof. done. Qed.

Lemma dict_get_map {A B} (f : A -> B) (m : list (pystr * A)) k :
  dict_get k (map (fun kv => (kv.1, f kv.2)) m) = f <$> dict_get k m.
Proof. induction m as [|[k' v] m IH]; [done|]. cbn. by destruct (str_eqb k k'). Qed.

Lemma dict_get_normal o (m : dict) k :
  NoDup (map fst m) ->
  dict_get k (ordered o (map (fun kv => (kv.1, normal o kv.2)) m)) = normal o <$> dict_get k m.
Proof.
  intros Hn. rewrite (dict_get_perm _ (map (fun kv => (kv.1, normal o kv.2)) m)).
  - apply dict_get_map.
  - by rewrite ordered_perm, map_map.
  - apply ordered_perm.
Qed.

Section signing.
Context {ED : Ed25519}.

(** What [sign] answers with. *)
Definition signed_response (svc : SignerService) (body : bytes) : dict :=
  [(§"ok", JBool true); (§"signature", JStr (b64encode (ed25519_sign (s_key svc) body)));
   (§"key_id", JStr (s_key_id svc)); (§"alg", JStr ALG)].

Lemma handle_sign svc payload body :
  validate_command payload = None -> canonical_bytes payload = Some body ->
  handle svc [(§"op", JStr §"sign"); (§"payload", JObj payload)] = Some (signed_response svc body).
Proof.
  intros Hv Hc. change (handle svc [(§"op", JStr §"sign"); (§"payload", JObj payload)]) with
    (match validate_command payload with
     | Some msg => Some (error_response (§"refused: " ++ msg))
     | None => match canonical_bytes payload with
               | None => None | Some body => Some (signed_response svc body) end
     end). by rewrite Hv, Hc.
Qed.
End signing.

(** ** One request on the wire *)

Lemma decode_encode_request obj :
  json_ok (JObj obj) = true -> decode_line (encode_request obj) = Some obj.
Proof.
  intros Hok. unfold decode_line, encode_request.
  assert (Ha : is_ascii (dumps true false None (JObj obj) ++ [10]) = true).
  { by rewrite is_ascii_app, (dumps_ascii false None _ Hok). }
  rewrite (utf8_roundtrip _ _ (utf8_encode_ascii _ Ha)).
  rewrite loads_dumps_line by done. by rewrite normal_none.
Qed.

Lemma split_line_one l : Forall (fun c => c <> 10) l -> split_lines (l ++ [10]) = [l ++ [10]].
Proof.
  induction 1 as [|c l Hc Hl IH]; [done|]. cbn [app split_lines].
  rewrite (proj2 (Z.eqb_neq _ _) Hc), IH. done.
Qed.

Lemma split_lines_request obj : json_ok (JObj obj) = true -> split_lines (encode_request obj) = [encode_request obj].
Proof.
  intros Hok. apply split_line_one. apply dumps_chars; [..|done].
  - unfold plain. intros c Hc. lia.
  - intros c _ Hc _. lia.
Qed.

(** ** The theorems *)

Definition commands_agree (p q : dict) : Prop :=
  forall k, normal (Some str_leb) <$> dict_get k p = normal (Some str_leb) <$> dict_get k q.

(** C30 The signed bytes are canonical and lose nothing: two commands have the
    same signed bytes exactly when they agree on every field (up to the order
    of keys inside nested objects, which sorting removes). *)
Theorem canonical_bytes_determine_command p q bp bq :
  json_ok (JObj p) = true -> json_ok (JObj q) = true ->
  canonical_bytes p = Some bp -> canonical_bytes q = Some bq ->
  bp = bq <-> commands_agree p q.
Proof.
  intros Hp Hq Ep Eq. unfold canonical_bytes in Ep, Eq.
  apply fmap_Some in Ep as (tp & Ep & ->), Eq as (tq & Eq & ->).
  assert (Np : NoDup (map fst p)) by (cbn [json_ok] in Hp; by bool_to_prop).
  assert (Nq : NoDup (map fst q)) by (cbn [json_ok] in Hq; by bool_to_prop).
  split.
  - intros E%domain_inj k. subst tq.
    pose proof (utf8_encode_inj _ _ _ Ep Eq) as Ed. apply dumps_inj in Ed; [|done..].
    rewrite !normal_obj in Ed. injection Ed as Ed.
    rewrite <- !dict_get_normal by done. unfold ordered. by rewrite Ed.
  - intros Ha. do 2 f_equal.
    assert (Ed : normal (Some str_leb) (JObj p) = normal (Some str_leb) (JObj q)).
    { rewrite !normal_obj. f_equal. apply sort_items_canonical; [by rewrite map_map|].
      apply dict_ext_perm; [by rewrite map_map..|]. intros k.
      rewrite !dict_get_map. apply Ha. }
    rewrite <- (dumps_normal _ _ (JObj p)), Ed, dumps_normal in Ep. congruence.
Qed.

(** The signer accepts a command exactly when it has every field, is an
    unlock, has an integer duration of 1 to 10000 ms, integer timestamps 1 to 30
    seconds apart, and a nonce of at least 16 characters. *)
Theorem validate_command_spec m :
  validate_command m = None <-> exists issued expires duration, command_ok m issued expires duration.
Proof. apply validate_command_iff. Qed.

(** C13 Whatever a client sends, a response that carries a signature carries the
    signature, by the service's key, of the canonical bytes of a command in
    the request that passes validation, and it verifies under the public key the
    service announces. *)
Theorem signs_only_valid_commands {ED : Ed25519} svc request response sig :
  handle svc request = Some response -> dict_get §"signature" response = Some sig ->
  exists payload body issued expires duration,
    dict_get §"payload" request = Some (JObj payload)
    /\ command_ok payload issued expires duration
    /\ canonical_bytes payload = Some body
    /\ sig = JStr (b64encode (ed25519_sign (s_key svc) body))
    /\ ed25519_verify (ed25519_public (s_key svc)) (ed25519_sign (s_key svc) body) body = true.
Proof.
  unfold handle. intros Hr Hs.
  destruct (get_str §"op" request) as [op|]; [|injection Hr as <-; discriminate Hs].
  destruct (str_eqb op §"public_key"); [injection Hr as <-; discriminate Hs|].
  destruct (str_eqb op §"sign"); [|injection Hr as <-; discriminate Hs].
  destruct (dict_get §"payload" request) as [[| | | | | |payload]|] eqn:Ep;
    try (injection Hr as <-; discriminate Hs).
  destruct (validate_command payload) as [msg|] eqn:Ev; [injection Hr as <-; discriminate Hs|].
  destruct (canonical_bytes payload) as [body|] eqn:Eb; [|discriminate Hr].
  injection Hr as <-. injection Hs as <-. apply validate_command_iff in Ev as (i & e & d & Hok).
  exists payload, body, i, e, d. repeat split; try done; try apply Hok. apply ed25519_complete.
Qed.

(** The signer has no clock: moving both timestamps of an accepted command
    by any amount, into the past or the far future, gives an accepted command. *)
Theorem signer_ignores_the_clock m issued expires delta :
  validate_command m = None ->
  dict_get §"issued_at" m = Some (JInt issued) -> dict_get §"expires_at" m = Some (JInt expires) ->
  validate_command (dict_set §"issued_at" (JInt (issued + delta))
                      (dict_set §"expires_at" (JInt (expires + delta)) m)) = None.
Proof.
  intros Hv Hi He. apply validate_command_iff in Hv as (i & e & d & [Hf Hc Hd Hi' He' Ht Hn]).
  rewrite Hi in Hi'. rewrite He in He'. injection Hi' as <-. injection He' as <-.
  assert (Hget : forall k v, k <> §"issued_at" -> k <> §"expires_at" ->
    dict_get k (dict_set §"issued_at" v (dict_set §"expires_at" (JInt (expires + delta)) m)) = dict_get k m).
  { intros k v H1 H2. by rewrite !dict_get_set_ne. }
  apply validate_command_iff. exists (issued + delta), (expires + delta), d. split.
  - unfold REQUIRED_COMMAND_FIELDS in *. rewrite !Forall_cons in Hf |- *. cbn beta.
    rewrite (dict_get_set §"issued_at"), (dict_get_set_ne §"expires_at" §"issued_at"),
      (dict_get_set §"expires_at") by done.
    rewrite !Hget by done. intuition eauto.
  - by rewrite Hget.
  - by rewrite Hget.
  - by rewrite dict_get_set.
  - by rewrite dict_get_set_ne, dict_get_set.
  - lia.
  - by rewrite Hget.
Qed.

(** ** Client and server together *)

(** A socket with the signer at its other end, always up: the client reads the
    first line the server writes. *)
Definition served_by {ED : Ed25519} (svc : SignerService) : SignerSocket := {|
  signer_exchange := fun _ request => inr (default [] (head (split_lines (_serve_client svc request))))
|}.

Lemma validate_message m msg : validate_command m = Some msg -> forallb is_scalar msg = true.
Proof.
  unfold validate_command. intros Hv.
  destruct (List.filter _ _) as [|f l] eqn:E.
  - cbv zeta in Hv. repeat case_hyp Hv; simplify_eq; vm_compute; reflexivity.
  - apply (inj Some) in Hv as <-. rewrite forallb_app. apply andb_true_intro. split; [done|].
    assert (Hs : Forall (fun s => Forall (fun c => is_scalar c = true) s) (f :: l)).
    { rewrite <- E. apply Forall_forall. intros s Hs. apply list_elem_of_In in Hs.
      apply filter_In in Hs as [Hs _]. apply list_elem_of_In in Hs. revert s Hs. apply Forall_forall.
      unfold REQUIRED_COMMAND_FIELDS. rewrite !Forall_cons. repeat split; repeat constructor. }
    apply forallb_forall. intros c Hc. apply list_elem_of_In in Hc. revert c Hc. apply Forall_forall.
    apply (join_chars (fun c => is_scalar c = true)); [by repeat constructor|done].
Qed.

(** What the client gets for a request the server understands. *)
Lemma request_answer {ED : Ed25519} svc request response w :
  json_ok (JObj request) = true -> (length (encode_request request) <= MAX_LINE_BYTES)%nat ->
  handle svc request = Some response -> json_ok (JObj response) = true ->
  run (SignerClient._request (SK:=served_by svc) request) w = (SignerClient.asked (encode_request request) w, OK response).
Proof.
  intros Hok Hlen Hh Hresp. unfold SignerClient._request. rewrite run_bind, run_atomic.
  cbn [signer_exchange served_by]. unfold _serve_client. rewrite split_lines_request by done.
  assert (Es : serve_lines svc [encode_request request] = encode_request response).
  { cbn [serve_lines]. unfold STREAM_LIMIT, MAX_LINE_BYTES in *.
    rewrite !(proj2 (Nat.ltb_ge _ _)) by lia. rewrite decode_encode_request, Hh by done.
    apply app_nil_r. }
  rewrite Es, split_lines_request by done. cbn [head default from_option].
  pose proof (decode_encode_request _ Hresp) as Hd.
  destruct (encode_request response) eqn:Ee; [done|]. unfold id. by rewrite run_of_option, Hd.
Qed.

Lemma unpack_ok {PR : PyRepr} field response b k w :
  all_bytes b -> dict_get field response = Some (JStr (b64encode b)) ->
  dict_get §"key_id" response = Some k ->
  run (SignerClient.unpack field response) w = (w, OK (b, k)).
Proof.
  intros Hb Hf Hk. unfold SignerClient.unpack.
  rewrite run_bind, run_of_option, Hf, run_bind, run_of_option, b64decode_lax_roundtrip by done.
  by rewrite run_bind, run_of_option, Hk.
Qed.

Lemma sign_command_served {ED : Ed25519} {PR : PyRepr} svc payload w :
  json_ok (JObj payload) = true -> forallb is_scalar (s_key_id svc) = true ->
  (length (encode_request [(§"op", JStr §"sign"); (§"payload", JObj payload)]) <= MAX_LINE_BYTES)%nat ->
  run (SignerClient.sign_command (SK:=served_by svc) payload) w =
  (SignerClient.asked (encode_request (SignerClient.sign_request payload)) w,
   match validate_command payload with
      | Some msg => ERR (ESignerRefused (§"refused: " ++ msg))
      | None => OK (ed25519_sign (s_key svc) (default [] (canonical_bytes payload)), JStr (s_key_id svc))
      end).
Proof.
  intros Hok Hkid Hlen. unfold SignerClient.sign_command, SignerClient.sign_request. rewrite run_bind.
  assert (Hreq : json_ok (JObj [(§"op", JStr §"sign"); (§"payload", JObj payload)]) = true).
  { cbn [json_ok forallb map fst snd] in *. rewrite Hok. reflexivity. }
  destruct (canonical_some payload Hok) as [body Eb].
  destruct (validate_command payload) as [msg|] eqn:Ev.
  - rewrite (request_answer svc _ (error_response (§"refused: " ++ msg))); [done|done|done| |].
    + change (handle svc [(§"op", JStr §"sign"); (§"payload", JObj payload)]) with
        (match validate_command payload with
         | Some msg => Some (error_response (§"refused: " ++ msg))
         | None => match canonical_bytes payload with
                   | None => None | Some body => Some (signed_response svc body) end
         end). by rewrite Ev.
    + pose proof (validate_message _ _ Ev) as Hm. unfold error_response. cbn [json_ok forallb map fst snd].
      rewrite forallb_app, Hm. reflexivity.
  - rewrite (request_answer svc _ (signed_response svc body)); [|done|done| |].
    + rewrite run_bind.
      unfold SignerClient.checked_response. change (py_true _) with true. cbn [run].
      rewrite Eb. by apply unpack_ok; [apply ed25519_sign_bytes|..].
    + by apply handle_sign.
    + unfold signed_response. cbn [json_ok forallb map fst snd]. rewrite Hkid.
      assert (Hs : forallb is_scalar (b64encode (ed25519_sign (s_key svc) body)) = true).
      { apply forallb_forall. intros c Hc. apply list_elem_of_In in Hc.
        pose proof (b64_encode_ascii std _ (ed25519_sign_bytes (s_key svc) body)) as Ha.
        apply is_ascii_forall in Ha. rewrite Forall_forall in Ha. specialize (Ha c Hc).
        unfold is_scalar. lia. }
      rewrite Hs. reflexivity.
Qed.

(** C29 The API's [sign_command] over the signer's socket is the validation
    followed by the signature: an accepted command that fits a line comes back
    signed (the decoded signature, byte for byte, and the key id), a refused one
    raises [SignerRefused] with the signer's reason. *)
Theorem sign_command_refines_signer {ED : Ed25519} {PR : PyRepr} svc payload w :
  json_ok (JObj payload) = true -> forallb is_scalar (s_key_id svc) = true ->
  (length (encode_request [(§"op", JStr §"sign"); (§"payload", JObj payload)]) <= MAX_LINE_BYTES)%nat ->
  run (SignerClient.sign_command (SK:=served_by svc) payload) w =
  (SignerClient.asked (encode_request (SignerClient.sign_request payload)) w,
   match validate_command payload with
      | Some msg => ERR (ESignerRefused (§"refused: " ++ msg))
      | None => OK (ed25519_sign (s_key svc) (default [] (canonical_bytes payload)), JStr (s_key_id svc))
      end).
Proof. apply sign_command_served. Qed.

(** ** Witnesses *)

Definition demo_command : dict :=
  [(§"command_id", JStr §"0b6f2f52-3a4e-4f0e-9d0c-2a54b6d5a111"); (§"cmd", JStr §"unlock");
   (§"controller_code", JStr §"ctrl-1"); (§"door_code", JStr §"door-1"); (§"relay_channel", JInt 1);
   (§"duration_ms", JInt 3000); (§"issued_at", JInt 1709208000); (§"expires_at", JInt 1709208010);
   (§"nonce", JStr §"AAAAAAAAAAAAAAAAAAAAAA")].

Definition demo_service : SignerService := {| s_key := replicate 32 7; s_key_id := §"signer-1" |}.

Lemma canonical_bytes_determine_command_witness :
  default [] (canonical_bytes demo_command) = default [] (canonical_bytes (reverse demo_command))
  <-> commands_agree demo_command (reverse demo_command).
Proof.
  apply (canonical_bytes_determine_command demo_command (reverse demo_command));
    vm_compute; reflexivity.
Defined.

Lemma signs_only_valid_commands_witness :
  exists response sig payload body issued expires duration,
    handle (ED:=demo_ed25519) demo_service [(§"op", JStr §"sign"); (§"payload", JObj demo_command)]
      = Some response
    /\ dict_get §"signature" response = Some sig
    /\ command_ok payload issued expires duration
    /\ sig = JStr (b64encode (ed25519_sign (Ed25519:=demo_ed25519) (s_key demo_service) body)).
Proof.
  destruct (signs_only_valid_commands (ED:=demo_ed25519) demo_service
    [(§"op", JStr §"sign"); (§"payload", JObj demo_command)]
    (signed_response (ED:=demo_ed25519) demo_service (default [] (canonical_bytes demo_command)))
    (JStr (b64encode (ed25519_sign (Ed25519:=demo_ed25519) (s_key demo_service)
                        (default [] (canonical_bytes demo_command))))))
    as (p & b & i & e & d & _ & Hok & _ & Hs & _); [vm_compute; reflexivity|reflexivity|].
  do 2 eexists. exists p, b, i, e, d.
  split; [vm_compute; reflexivity|]. split; [vm_compute; reflexivity|]. split; [exact Hok|].
  rewrite <- Hs. vm_compute. reflexivity.
Defined.

Lemma signer_ignores_the_clock_witness :
  validate_command (dict_set §"issued_at" (JInt (1709208000 + 315360000))
                      (dict_set §"expires_at" (JInt (1709208010 + 315360000)) demo_command)) = None.
Proof. apply signer_ignores_the_clock; reflexivity. Defined.

Lemma sign_command_refines_signer_witness :
  run (SignerClient.sign_command (PR:=demo_repr) (SK:=served_by (ED:=demo_ed25519) demo_service) demo_command)
    demo_world
  = (SignerClient.asked (encode_request (SignerClient.sign_request demo_command)) demo_world,
     match validate_command demo_command with
     | Some msg => ERR (ESignerRefused (§"refused: " ++ msg))
     | None => OK (ed25519_sign (Ed25519:=demo_ed25519) (s_key demo_service)
                     (default [] (canonical_bytes demo_command)), JStr §"signer-1")
     end).
Proof.
  apply (sign_command_refines_signer (ED:=demo_ed25519) (PR:=demo_repr) demo_service demo_command demo_world);
    [vm_compute; reflexivity..|vm_compute; lia].
Defined.
