(* ===== verification/Security.v ===== *)
(** * Tokens, passwords and response padding: [app/core/security.py] *)

From S2P Require Import Prelude Text Sha256 Json Config Errors Proc World Demo.

(** [asyncio.sleep]: both clocks move on; a delay that is not positive is none. *)
Definition sleep_usec (d : Z) : io unit := atomic (fun w => (advance (Z.max 0 d) w, OK tt)).

(* @src backend/app/core/security.py * TOKEN_BYTES *)
Definition TOKEN_BYTES : nat := 32.

(** [str.encode("utf-8")] where it may raise. *)
Definition encode_utf8 (s : pystr) : outcome Exn bytes :=
  match utf8_encode s with Some b => OK b | None => ERR (EValue §"surrogates not allowed") end.

Definition of_outcome {A} (o : outcome Exn A) : io A :=
  match o with OK a => Ret a | ERR e => Raise e end.

Section security.
Context {EN : Entropy} {AR : Argon2}.
Context (settings : Settings).

(** [secrets.token_urlsafe(n)] *)
Definition token_urlsafe (n : nat) : io pystr :=
  atomic (fun w => let '(w, b) := token_bytes n w in (w, OK (urlsafe_nopad b))).

(* @src backend/app/core/security.py * new_token *)
Definition new_token : io pystr := token_urlsafe TOKEN_BYTES.

(* @src backend/app/core/security.py * hash_token *)
Definition hash_token (token : pystr) : outcome Exn bytes :=
  match token_pepper settings with
  | [] => ERR (ERuntime §"ACS_TOKEN_PEPPER is not set. Refusing to hash tokens without a pepper.")
  | _ :: _ =>
      match pepper_bytes settings with
      | None => ERR (EValue §"base64")
      | Some pepper =>
          match encode_utf8 token with
          | OK t => OK (Sha256.sha256 (pepper ++ t))
          | ERR e => ERR e
          end
      end
  end.

(* @src backend/app/core/security.py * tokens_equal *)
Definition tokens_equal (a b : bytes) : bool := bool_decide (a = b).

(** ** Passwords *)

(* @src backend/app/core/security.py * _hasher *)
Definition _hasher : Z * Z * Z :=
  (argon2_time_cost settings, argon2_memory_kib settings, argon2_parallelism settings).

(* @src backend/app/core/security.py * hash_password *)
Definition hash_password (password : pystr) : io pystr :=
  match encode_utf8 password with
  | ERR e => Raise e
  | OK _ => atomic (fun w => let '(w, salt) := token_bytes 16 w in
                             (w, OK (argon2_hash _hasher salt password)))
  end.

(** A mismatch, a hash that is not one, and a password that cannot be encoded
    are all [False]; any other failure of the library escapes. *)
(* @src backend/app/core/security.py * verify_password *)
Definition verify_password (stored_hash password : pystr) : outcome Exn bool :=
  match encode_utf8 password with
  | ERR _ => OK false
  | OK _ =>
      match argon2_verify stored_hash password with
      | argon2_match => OK true
      | argon2_mismatch | argon2_invalid_hash => OK false
      | argon2_failure => ERR (ERuntime §"VerificationError")
      end
  end.

(** Drawn when the module is imported: the first draw of the process. *)
(* @src backend/app/core/security.py * _DUMMY_PASSWORD *)
Definition _DUMMY_PASSWORD : pystr := urlsafe_nopad (csprng 0 32).

(* @src backend/app/core/security.py * burn_password_time *)
Definition burn_password_time : io unit :=
  stored ← atomic (fun w =>
    match w_dummy_hash_cache w !! _hasher with
    | Some stored => (w, OK stored)
    | None =>
        let '(w, salt) := token_bytes 16 w in
        let stored := argon2_hash _hasher salt _DUMMY_PASSWORD in
        (set_dummy_hash_cache (<[_hasher := stored]> (w_dummy_hash_cache w)) w, OK stored)
    end);
  _ ← of_outcome (verify_password stored §"definitely not the password");
  Ret tt.

(** ** Response padding *)

(** The body runs to its end, normal or not; then the rest of the budget is
    slept. *)
(* @src backend/app/core/security.py * fixed_duration *)
Definition fixed_duration {A} (milliseconds : Z) (body : io A) : io A :=
  started ← reads w_monotonic;
  finally body
    (elapsed ← reads (fun w => w_monotonic w - started);
     let remaining := milliseconds * 1000 - elapsed in
     if 0 <? remaining then sleep_usec remaining else Ret tt).

(* @src backend/app/core/security.py * constant_time_compare *)
Definition constant_time_compare (a b : pystr) : outcome Exn bool :=
  match encode_utf8 a, encode_utf8 b with
  | OK x, OK y => OK (bool_decide (x = y))
  | ERR e, _ | _, ERR e => ERR e
  end.
End security.

(** ** Lemmas *)

Lemma run_sleep d w : run (sleep_usec d) w = (advance (Z.max 0 d) w, OK tt).
Proof. done. Qed.

Lemma run_of_outcome {A} (o : outcome Exn A) w : run (of_outcome o) w = (w, o).
Proof. by destruct o. Qed.

#[export] Hint Rewrite run_sleep @run_of_outcome : run.

(** What the padded block does: the body, then the sleep. *)
Lemma run_fixed_duration {A} ms (body : io A) w :
  run (fixed_duration ms body) w =
  let '(w1, o) := run body w in
  let remaining := ms * 1000 - (w_monotonic w1 - w_monotonic w) in
  (if 0 <? remaining then advance remaining w1 else w1, o).
Proof.
  unfold fixed_duration. rewrite run_bind, run_reads, run_finally.
  destruct (run body w) as [w1 o]. rewrite run_bind, run_reads. cbv zeta.
  destruct (Z.ltb_spec 0 (ms * 1000 - (w_monotonic w1 - w_monotonic w))) as [Hr|]; [|done].
  by rewrite run_sleep, Z.max_r by lia.
Qed.

(** Padding: the block ends as its body does, with nothing but the clocks
    changed after it, and lasts the budget or, if longer, what the body
    lasted. *)
Theorem fixed_duration_pads {A} ms (body : io A) w w1 w' o o' :
  run body w = (w1, o) -> run (fixed_duration ms body) w = (w', o') ->
  o' = o /\ w_db w' = w_db w1 /\ w_hub w' = w_hub w1
  /\ w_monotonic w' - w_monotonic w = Z.max (w_monotonic w1 - w_monotonic w) (ms * 1000).
Proof.
  intros Hb. rewrite run_fixed_duration, Hb. cbv zeta.
  destruct (Z.ltb_spec 0 (ms * 1000 - (w_monotonic w1 - w_monotonic w))); intros [= <- <-];
    repeat split; cbn [advance w_monotonic]; lia.
Qed.

Lemma fixed_duration_pads_witness :
  let w' := (run (fixed_duration 350 (sleep_usec 1000)) demo_world).1 in
  OK tt = (OK tt : outcome Exn unit) /\ w_db w' = w_db demo_world /\ w_hub w' = w_hub demo_world
  /\ w_monotonic w' - w_monotonic demo_world = Z.max 1000 (350 * 1000).
Proof.
  apply (fixed_duration_pads 350 (sleep_usec 1000) demo_world (advance 1000 demo_world)
           (run (fixed_duration 350 (sleep_usec 1000)) demo_world).1); reflexivity.
Defined.

(** Hashing a token: the stored hash determines the token up to a collision. *)
Lemma hash_token_length settings token h : hash_token settings token = OK h -> length h = 32%nat.
Proof.
  unfold hash_token. intros Hh. repeat case_hyp Hh; simplify_eq. apply Sha256.sha256_length.
Qed.

Lemma hash_token_inj settings t1 t2 h :
  hash_token settings t1 = OK h -> hash_token settings t2 = OK h ->
  t1 = t2 \/ exists x y, x <> y /\ Sha256.sha256 x = Sha256.sha256 y.
Proof.
  unfold hash_token, encode_utf8. intros H1 H2.
  destruct (token_pepper settings); [done|]. destruct (pepper_bytes settings) as [p|]; [|done].
  destruct (utf8_encode t1) as [b1|] eqn:E1; [|done]. destruct (utf8_encode t2) as [b2|] eqn:E2; [|done].
  destruct (decide (b1 = b2)) as [->|Hne]; [left; by eapply utf8_encode_inj|].
  right. exists (p ++ b1), (p ++ b2). split; [by intros ?%app_inv_head|]. congruence.
Qed.

Lemma hash_token_defined settings token :
  pepper_bytes settings <> None -> forallb is_scalar token = true ->
  exists h, hash_token settings token = OK h.
Proof.
  intros Hp Ht. unfold hash_token, encode_utf8. destruct (utf8_encode_scalar _ Ht) as [b ->].
  unfold pepper_bytes in *. destruct (token_pepper settings) as [|c r]; [done|].
  destruct (b64decode (c :: r)); [by eexists|done].
Qed.
