(* ===== verification/Proximity.v ===== *)
(** * The rotating beacon identifier: [app/core/proximity.py] *)

From S2P Require Import Prelude Text Sha256 Json Errors Proc World Demo.

(* @src backend/app/core/proximity.py * BEACON_ID_BYTES *)
Definition BEACON_ID_BYTES : nat := 16.
(* @src backend/app/core/proximity.py * _DOMAIN *)
Definition _DOMAIN : bytes := §"acs-beacon:v1".

(** Times are in microseconds; a rotation of zero is the [ZeroDivisionError]. *)
(* @src backend/app/core/proximity.py * slot_for *)
Definition slot_for (timestamp : instant) (rotation_seconds : Z) : outcome Exn Z :=
  if rotation_seconds =? 0 then ERR EZeroDivision else OK (timestamp / seconds rotation_seconds).

Definition beacon_text (beacon_key : bytes) (slot8 : bytes) : pystr :=
  urlsafe_nopad (take BEACON_ID_BYTES (Sha256.hmac_sha256 beacon_key (_DOMAIN ++ slot8))).

(* @src backend/app/core/proximity.py * derive_beacon_id *)
Definition derive_beacon_id (beacon_key : bytes) (slot : Z) : outcome Exn pystr :=
  if negb (length beacon_key =? 32)%nat then ERR (EValue §"beacon_key must be 32 bytes")
  else match to_bytes_be 8 slot with
       | None => ERR EOverflow
       | Some b => OK (beacon_text beacon_key b)
       end.

(** [max(1, -(-max_age // rotation))] *)
Definition slot_span (rotation_seconds max_age_seconds : Z) : Z :=
  Z.max 1 (- (- max_age_seconds / rotation_seconds)).

Definition slots_from (current span : Z) : list Z :=
  (fun offset => current - Z.of_nat offset) <$> seq 0 (Z.to_nat (span + 1)).

(* @src backend/app/core/proximity.py * acceptable_slots *)
Definition acceptable_slots (now : instant) (rotation_seconds max_age_seconds : Z) : outcome Exn (list Z) :=
  match slot_for now rotation_seconds with
  | OK current => OK (slots_from current (slot_span rotation_seconds max_age_seconds))
  | ERR e => ERR e
  end.

(** The loop: every slot is compared, the first match is kept.
    [compare_digest] refuses a text that is not ASCII. *)
(* @src backend/app/core/proximity.py 82-88 verify_proximity *)
Fixpoint match_slots (beacon_key : bytes) (presented : pystr) (matched : option Z) (slots : list Z)
    : outcome Exn (option Z) :=
  match slots with
  | [] => OK matched
  | slot :: rest =>
      match derive_beacon_id beacon_key slot with
      | ERR e => ERR e
      | OK candidate =>
          if negb (is_ascii presented) then
            ERR (EType §"comparing strings with non-ASCII characters is not supported")
          else
            match_slots beacon_key presented
              (if str_eqb candidate presented && negb (is_some matched) then Some slot else matched) rest
      end
  end.

(* @src backend/app/core/proximity.py * verify_proximity *)
Definition verify_proximity (beacon_key : bytes) (presented_beacon_id : pystr)
    (rotation_seconds max_age_seconds : Z) (now : instant) : outcome Exn (bool * option Z) :=
  match presented_beacon_id with
  | [] => OK (false, None)
  | _ :: _ =>
      let presented := rstrip_eq (strip presented_beacon_id) in
      match slot_for now rotation_seconds, acceptable_slots now rotation_seconds max_age_seconds with
      | OK current, OK slots =>
          match match_slots beacon_key presented None slots with
          | ERR e => ERR e
          | OK None => OK (false, None)
          | OK (Some slot) => OK (true, Some ((current - slot) * rotation_seconds))
          end
      | ERR e, _ | _, ERR e => ERR e
      end
  end.

(** ** Slots *)

Lemma elem_of_slots_from current span slot :
  0 <= span -> slot ∈ slots_from current span <-> current - span <= slot <= current.
Proof.
  intros Hs. unfold slots_from. rewrite list_elem_of_fmap. split.
  - intros (n & -> & Hn%elem_of_seq). lia.
  - intros Hr. exists (Z.to_nat (current - slot)). rewrite elem_of_seq. lia.
Qed.

Lemma slot_span_pos rotation age : 1 <= slot_span rotation age.
Proof. unfold slot_span. lia. Qed.

(** The ceiling of [max_age / rotation], at least one. *)
Lemma slot_span_bounds rotation age :
  0 < rotation -> 0 < age ->
  age <= slot_span rotation age * rotation < age + rotation.
Proof.
  intros Hr Ha. unfold slot_span.
  pose proof (Z.div_mod (- age) rotation ltac:(lia)) as Hd.
  pose proof (Z.mod_pos_bound (- age) rotation Hr) as Hm.
  assert (Hq : 1 <= - (- age / rotation)).
  { assert (- age / rotation < 0) by (apply Z.div_lt_upper_bound; lia). lia. }
  rewrite Z.max_r by done. nia.
Qed.

(** The slot of an instant at most [age] seconds back is at most [span] slots back. *)
Lemma slot_age rotation age t now :
  0 < rotation -> 0 < age -> t <= now <= t + seconds age ->
  now / seconds rotation - slot_span rotation age <= t / seconds rotation <= now / seconds rotation.
Proof.
  intros Hr Ha Ht. pose proof (slot_span_bounds rotation age Hr Ha) as Hs.
  unfold seconds, usec_per_sec in *. set (r := rotation * 1000000) in *.
  assert (Hr' : 0 < r) by (subst r; lia). split; [|by apply Z.div_le_mono; lia].
  assert (Hle : now / r <= (t + slot_span rotation age * r) / r).
  { apply Z.div_le_mono; [done|]. subst r. nia. }
  rewrite Z.div_add in Hle by lia. lia.
Qed.

(** The first slot of the list that passes a test is the newest one. *)
Lemma find_first (f : Z -> bool) current span :
  0 <= span ->
  match List.find f (slots_from current span) with
  | Some s => current - span <= s <= current /\ f s = true
              /\ forall s', s < s' <= current -> f s' = false
  | None => forall s, current - span <= s <= current -> f s = false
  end.
Proof.
  intros Hspan.
  assert (Hgen : forall n i,
    match List.find f ((fun offset => current - Z.of_nat offset) <$> seq i n) with
    | Some s => current - Z.of_nat (i + n) < s <= current - Z.of_nat i /\ f s = true
                /\ forall s', s < s' <= current - Z.of_nat i -> f s' = false
    | None => forall s, current - Z.of_nat (i + n) < s <= current - Z.of_nat i -> f s = false
    end).
  { induction n as [|n IH]; intros i; cbn [seq fmap list_fmap List.find]; [intros s Hs; lia|].
    destruct (f (current - Z.of_nat i)) eqn:Ef; [repeat split; [lia|lia|done|intros; lia]|].
    specialize (IH (S i)). destruct (List.find _ _) as [s|].
    - destruct IH as (I1 & I2 & I3). repeat split; [lia|lia|done|]. intros s' Hs'.
      destruct (Z.eq_dec s' (current - Z.of_nat i)) as [->|]; [done|]. apply I3. lia.
    - intros s Hs. destruct (Z.eq_dec s (current - Z.of_nat i)) as [->|]; [done|]. apply IH. lia. }
  specialize (Hgen (Z.to_nat (span + 1)) O). fold (slots_from current span) in Hgen.
  destruct (List.find _ _) as [s|].
  - destruct Hgen as (I1 & I2 & I3). repeat split; [lia|lia|done|]. intros s' Hs'. apply I3. lia.
  - intros s Hs. apply Hgen. lia.
Qed.

(** ** Matching *)

Section matching.
Context (beacon_key : bytes).
Hypothesis Hkey : length beacon_key = 32%nat.

Definition slot_ok (slot : Z) : Prop := 0 <= slot < 2 ^ 64.

(** The identifier of a slot. *)
Definition beacon_of (slot : Z) : pystr :=
  beacon_text beacon_key (default [] (to_bytes_be 8 slot)).

Lemma derive_beacon_of slot : slot_ok slot -> derive_beacon_id beacon_key slot = OK (beacon_of slot).
Proof.
  intros Hs. unfold derive_beacon_id, beacon_of. rewrite Hkey. cbn [negb Nat.eqb].
  destruct Hs as [Hs1 Hs2]. unfold to_bytes_be.
  assert ((0 <=? slot) && (slot <? 256 ^ Z.of_nat 8) = true) as ->; [|done].
  apply andb_true_intro. split; [by apply Z.leb_le|by apply Z.ltb_lt].
Qed.

Lemma match_slots_kept presented slots m :
  is_ascii presented = true -> Forall slot_ok slots ->
  match_slots beacon_key presented (Some m) slots = OK (Some m).
Proof.
  intros Ha. induction 1 as [|s l Hs Hl IH]; [done|]. cbn [match_slots].
  rewrite derive_beacon_of, Ha by done. cbn [negb is_some]. by rewrite andb_false_r.
Qed.

(** The first slot of the list whose identifier is the presented one. *)
Lemma match_slots_find presented slots :
  is_ascii presented = true -> Forall slot_ok slots ->
  match_slots beacon_key presented None slots
  = OK (List.find (fun s => str_eqb (beacon_of s) presented) slots).
Proof.
  intros Ha. induction 1 as [|s l Hs Hl IH]; [done|]. cbn [match_slots List.find].
  rewrite derive_beacon_of, Ha by done. cbn [negb is_some]. rewrite andb_true_r.
  destruct (str_eqb _ _); [by apply match_slots_kept|done].
Qed.

Lemma beacon_of_bytes slot : all_bytes (take BEACON_ID_BYTES (Sha256.hmac_sha256 beacon_key
  (_DOMAIN ++ default [] (to_bytes_be 8 slot)))).
Proof. apply Forall_take, Sha256.hmac_sha256_bytes. Qed.

(** An identifier is 22 ASCII characters and survives the normalisation. *)
Lemma beacon_of_normal slot :
  is_ascii (beacon_of slot) = true /\ length (beacon_of slot) = 22%nat
  /\ rstrip_eq (strip (beacon_of slot)) = beacon_of slot.
Proof.
  unfold beacon_of, beacon_text. pose proof (beacon_of_bytes slot) as Hb.
  rewrite urlsafe_nopad_eq by done. split; [|split].
  - by apply b64_nopad_ascii.
  - apply Nat2Z.inj. rewrite b64_nopad_length, length_take, Sha256.hmac_sha256_length. reflexivity.
  - by apply b64_nopad_strip.
Qed.

(** The verdict as a search for the newest acceptable slot. *)
Lemma verify_find presented rotation age now :
  0 < rotation -> presented <> [] -> is_ascii (rstrip_eq (strip presented)) = true ->
  let current := now / seconds rotation in
  Forall slot_ok (slots_from current (slot_span rotation age)) ->
  verify_proximity beacon_key presented rotation age now =
  OK (match List.find (fun s => str_eqb (beacon_of s) (rstrip_eq (strip presented)))
              (slots_from current (slot_span rotation age)) with
      | Some slot => (true, Some ((current - slot) * rotation))
      | None => (false, None)
      end).
Proof.
  intros Hr Hne Ha current Hs. unfold verify_proximity, acceptable_slots, slot_for.
  destruct presented as [|c p]; [done|]. rewrite (proj2 (Z.eqb_neq _ _)) by lia.
  fold current. rewrite match_slots_find by done. by destruct (List.find _ _).
Qed.
End matching.

(** The current slot and the oldest acceptable one fit eight bytes. *)
Definition slots_in_range (now : instant) (rotation age : Z) : Prop :=
  slot_span rotation age <= now / seconds rotation < 2 ^ 64.

Lemma slots_in_range_ok now rotation age :
  slots_in_range now rotation age ->
  Forall slot_ok (slots_from (now / seconds rotation) (slot_span rotation age)).
Proof.
  intros Hr. apply Forall_forall. intros s Hs.
  apply elem_of_slots_from in Hs; [|pose proof (slot_span_pos rotation age); lia].
  unfold slots_in_range in Hr. unfold slot_ok. lia.
Qed.

(** A beacon identifier heard at most [max_age] seconds ago is accepted,
    with an age no greater than that of its slot. *)
Theorem fresh_beacon_accepted beacon_key rotation age heard now :
  length beacon_key = 32%nat -> 0 < rotation -> 0 < age -> slots_in_range now rotation age ->
  heard <= now <= heard + seconds age ->
  exists a,
    verify_proximity beacon_key (beacon_of beacon_key (heard / seconds rotation)) rotation age now
    = OK (true, Some a)
    /\ 0 <= a <= (now / seconds rotation - heard / seconds rotation) * rotation.
Proof.
  intros Hkey Hr Hage Hrange Hh. pose proof (slot_age rotation age heard now Hr Hage Hh) as Hslot.
  destruct (beacon_of_normal beacon_key (heard / seconds rotation)) as (Ha & Hl & Hn).
  rewrite (verify_find beacon_key Hkey); [|done| |by rewrite Hn|by apply slots_in_range_ok].
  - rewrite Hn.
    pose proof (find_first (fun s => str_eqb (beacon_of beacon_key s) (beacon_of beacon_key (heard / seconds rotation)))
      (now / seconds rotation) (slot_span rotation age)) as Hf.
    specialize (Hf ltac:(pose proof (slot_span_pos rotation age); lia)).
    destruct (List.find _ _) as [s|].
    + destruct Hf as (H1 & H2 & H3). eexists. split; [done|].
      assert (heard / seconds rotation <= s).
      { destruct (Z.le_gt_cases (heard / seconds rotation) s); [done|].
        specialize (H3 (heard / seconds rotation) ltac:(lia)). by rewrite str_eqb_refl in H3. }
      nia.
    + specialize (Hf (heard / seconds rotation) ltac:(lia)). by rewrite str_eqb_refl in Hf.
  - intros E. by rewrite E in Hl.
Qed.

Lemma accepted_slot beacon_key presented rotation age now a :
  length beacon_key = 32%nat -> 0 < rotation -> 0 < age -> slots_in_range now rotation age ->
  is_ascii (rstrip_eq (strip presented)) = true ->
  verify_proximity beacon_key presented rotation age now = OK (true, a) ->
  exists slot,
    rstrip_eq (strip presented) = beacon_of beacon_key slot
    /\ now / seconds rotation - slot_span rotation age <= slot <= now / seconds rotation
    /\ a = Some ((now / seconds rotation - slot) * rotation)
    /\ 0 <= (now / seconds rotation - slot) * rotation < age + rotation.
Proof.
  intros Hkey Hr Hage Hrange Hasc Hv. destruct presented as [|c p]; [done|].
  rewrite (verify_find beacon_key Hkey) in Hv; [|done|done|done|by apply slots_in_range_ok].
  pose proof (find_first (fun s => str_eqb (beacon_of beacon_key s) (rstrip_eq (strip (c :: p))))
    (now / seconds rotation) (slot_span rotation age)) as Hf.
  specialize (Hf ltac:(pose proof (slot_span_pos rotation age); lia)).
  destruct (List.find _ _) as [s|]; [|done]. destruct Hf as (H1 & H2 & H3). injection Hv as <-.
  apply bool_decide_eq_true_1 in H2. exists s. split; [done|]. split; [done|]. split; [done|].
  pose proof (slot_span_bounds rotation age Hr Hage). nia.
Qed.

(** C32 What is accepted is recent: the presented text, normalised, is the
    identifier of a slot between the current one and [max_age] rounded up to
    whole rotations before it (never a future one), and the reported age is that
    slot's, below [max_age] plus one rotation. *)
Theorem accepted_beacon_is_recent beacon_key presented rotation age now a :
  length beacon_key = 32%nat -> 0 < rotation -> 0 < age -> slots_in_range now rotation age ->
  is_ascii (rstrip_eq (strip presented)) = true ->
  verify_proximity beacon_key presented rotation age now = OK (true, a) ->
  exists slot,
    rstrip_eq (strip presented) = beacon_of beacon_key slot
    /\ now / seconds rotation - slot_span rotation age <= slot <= now / seconds rotation
    /\ a = Some ((now / seconds rotation - slot) * rotation)
    /\ 0 <= (now / seconds rotation - slot) * rotation < age + rotation.
Proof. apply accepted_slot. Qed.

(** A presented identifier with a character outside ASCII is neither accepted
    nor refused: [hmac.compare_digest] raises [TypeError]. *)
Theorem non_ascii_beacon_raises beacon_key presented rotation age now :
  length beacon_key = 32%nat -> 0 < rotation -> slots_in_range now rotation age ->
  is_ascii (rstrip_eq (strip presented)) = false -> presented <> [] ->
  exists msg, verify_proximity beacon_key presented rotation age now = ERR (EType msg).
Proof.
  intros Hkey Hr Hrange Ha Hne. unfold verify_proximity, acceptable_slots, slot_for.
  destruct presented as [|c p]; [done|]. rewrite (proj2 (Z.eqb_neq _ _)) by lia.
  pose proof (slots_in_range_ok _ _ _ Hrange) as Hs.
  unfold slots_from in *. pose proof (slot_span_pos rotation age) as Hp.
  destruct (Z.to_nat (slot_span rotation age + 1)) as [|n] eqn:En; [lia|].
  cbn [seq fmap list_fmap match_slots] in *. apply Forall_cons in Hs as [Hs _].
  rewrite (derive_beacon_of beacon_key Hkey _ Hs), Ha. by eexists.
Qed.

(** ** Witnesses *)

Definition demo_beacon_key : bytes := replicate 32 9.

Lemma fresh_beacon_accepted_witness :
  exists a,
    verify_proximity demo_beacon_key (beacon_of demo_beacon_key (1709207955000000 / seconds 30)) 30 60
      1709208000000000 = OK (true, Some a)
    /\ 0 <= a <= (1709208000000000 / seconds 30 - 1709207955000000 / seconds 30) * 30.
Proof.
  apply (fresh_beacon_accepted demo_beacon_key 30 60 1709207955000000 1709208000000000);
    [reflexivity|lia|lia|vm_compute; split; congruence|vm_compute; split; congruence].
Defined.

Lemma accepted_beacon_is_recent_witness :
  exists slot,
    rstrip_eq (strip (beacon_of demo_beacon_key 56973600)) = beacon_of demo_beacon_key slot
    /\ 56973600 - 2 <= slot <= 56973600.
Proof.
  destruct (accepted_beacon_is_recent demo_beacon_key (beacon_of demo_beacon_key 56973600) 30 60
    1709208000000000 (Some 0)) as (slot & H1 & H2 & _);
    [reflexivity|lia|lia|vm_compute; split; congruence|vm_compute; reflexivity|vm_compute; reflexivity|].
  exists slot. split; [exact H1|exact H2].
Defined.

Lemma non_ascii_beacon_raises_witness :
  exists msg, verify_proximity demo_beacon_key [1103; 65; 65; 65; 65; 65; 65; 65] 30 60 1709208000000000
              = ERR (EType msg).
Proof.
  apply non_ascii_beacon_raises; [reflexivity|lia|vm_compute; split; congruence|reflexivity|discriminate].
Defined.
