(* ===== verification/RateLimit.v ===== *)
(** * Rate limiting: [app/core/ratelimit.py] *)

From S2P Require Import Prelude Text Json Config Errors Proc World Demo AuditLog Repos Security.

(* @src backend/app/core/ratelimit.py * RateDecision *)
Record RateDecision := {
  allowed : bool; delay_ms : Z; retry_after_seconds : Z; failures : Z; rd_subject_type : rate_subject
}.

Module RateLimiter.
Section limiter.
Context {PG : Postgres} {PR : PyRepr} (settings : Settings).

(** The bucket of the in-process cache after one more failure. *)
(* @src backend/app/core/ratelimit.py * RateLimiter._remember *)
Definition _remember (subject_type : rate_subject) (subject : pystr) : io Z :=
  atomic (fun w =>
    let key := (subject_type, subject) in
    let now := w_monotonic w in
    let bucket :=
      filter (fun t => now - t < seconds (rate_window_seconds settings))
        (default [] (w_recent w !! key)) ++ [now] in
    (set_recent (<[key := bucket]> (w_recent w)) w, OK (Z.of_nat (length bucket)))).

(* @src backend/app/core/ratelimit.py * RateLimiter._progressive_delay_ms *)
Definition _progressive_delay_ms (failures : Z) : Z :=
  if failures <=? 0 then 0
  else Z.min (rate_base_delay_ms settings * 2 ^ (failures - 1)) (rate_max_delay_ms settings).

(** [if client_ip]: an empty text counts as none. *)
(* @src backend/app/core/ratelimit.py 76-76 RateLimiter.check_login *)
Definition present (client_ip : option pystr) : option pystr :=
  match client_ip with Some (c :: r) => Some (c :: r) | _ => None end.

(* @src backend/app/core/ratelimit.py 80-96 RateLimiter.check_login *)
Definition decide_login (by_user by_ip : Z) : RateDecision :=
  let failures := Z.max by_user by_ip in
  let subject_type := if by_ip <=? by_user then subj_user else subj_ip in
  if rate_max_login_failures settings <=? failures then
    {| allowed := false; delay_ms := rate_max_delay_ms settings;
       retry_after_seconds := rate_window_seconds settings; failures := failures;
       rd_subject_type := subject_type |}
  else
    {| allowed := true; delay_ms := _progressive_delay_ms failures; retry_after_seconds := 0;
       failures := failures; rd_subject_type := subject_type |}.

(* @src backend/app/core/ratelimit.py * RateLimiter.check_login *)
Definition check_login (username : pystr) (client_ip : option pystr) : io RateDecision :=
  by_user ← RateLimitRepository.failure_count subj_user (py_lower username)
              (rate_window_seconds settings) None;
  by_ip ← match present client_ip with
          | Some ip => RateLimitRepository.failure_count subj_ip ip (rate_window_seconds settings) None
          | None => Ret 0
          end;
  Ret (decide_login by_user by_ip).

(* @src backend/app/core/ratelimit.py * RateLimiter.check_unlock *)
Definition check_unlock (user_id device_id : uuid) : io RateDecision :=
  attempts ← RateLimitRepository.unlock_count user_id 60;
  if rate_max_unlocks_per_minute settings <=? attempts then
    Ret {| allowed := false; delay_ms := 0; retry_after_seconds := 60; failures := attempts;
           rd_subject_type := subj_user |}
  else
    Ret {| allowed := true; delay_ms := 0; retry_after_seconds := 0; failures := attempts;
           rd_subject_type := subj_user |}.

(* @src backend/app/core/ratelimit.py * RateLimiter.record_login_failure *)
Definition record_login_failure (username : pystr) (client_ip : option pystr) (endpoint : pystr)
    : io unit :=
  _ ← RateLimitRepository.record_failure subj_user (py_lower username) endpoint client_ip;
  _ ← _remember subj_user (py_lower username);
  match present client_ip with
  | Some ip =>
      _ ← RateLimitRepository.record_failure subj_ip ip endpoint client_ip;
      _ ← _remember subj_ip ip;
      Ret tt
  | None => Ret tt
  end.

(* @src backend/app/core/ratelimit.py * RateLimiter.record_device_failure *)
Definition record_device_failure (device_id : pystr) (client_ip : option pystr) (endpoint : pystr)
    : io unit :=
  _ ← RateLimitRepository.record_failure subj_device device_id endpoint client_ip;
  _ ← _remember subj_device device_id;
  Ret tt.

(* @src backend/app/core/ratelimit.py * RateLimiter.apply_delay *)
Definition apply_delay (decision : RateDecision) : io unit :=
  if 0 <? delay_ms decision then sleep_usec (delay_ms decision * 1000) else Ret tt.
End limiter.
End RateLimiter.

(** ** The delay *)

Section delay.
Context (settings : Settings).
Hypothesis base_nonneg : 0 <= rate_base_delay_ms settings.
Hypothesis max_nonneg : 0 <= rate_max_delay_ms settings.

Abbreviation delay := (RateLimiter._progressive_delay_ms settings).

Lemma delay_bounds n : 0 <= delay n <= rate_max_delay_ms settings.
Proof.
  unfold RateLimiter._progressive_delay_ms. destruct (Z.leb_spec n 0); [lia|].
  pose proof (Z.pow_nonneg 2 (n - 1)). nia.
Qed.

Lemma delay_mono a b : a <= b -> delay a <= delay b.
Proof.
  intros Hab. unfold RateLimiter._progressive_delay_ms.
  destruct (Z.leb_spec a 0), (Z.leb_spec b 0); [lia| |lia|].
  - pose proof (Z.pow_nonneg 2 (b - 1) ltac:(lia)). apply Z.min_glb; nia.
  - assert (2 ^ (a - 1) <= 2 ^ (b - 1)) by (apply Z.pow_le_mono_r; lia).
    apply Z.min_le_compat_r. nia.
Qed.

(** Until the cap, every failure doubles the delay. *)
Lemma delay_doubles n : 0 < n -> 2 * delay n <= rate_max_delay_ms settings -> delay (n + 1) = 2 * delay n.
Proof.
  intros Hn. unfold RateLimiter._progressive_delay_ms.
  rewrite !(proj2 (Z.leb_gt _ _)) by lia.
  replace (n + 1 - 1) with (Z.succ (n - 1)) by lia. rewrite Z.pow_succ_r, Z.mul_shuffle3 by lia. lia.
Qed.
End delay.

(** The progressive delay is zero without failures, never decreases with one
    more, doubles until it reaches the configured maximum and never passes it. *)
Theorem progressive_delay_shape settings n :
  0 <= rate_base_delay_ms settings -> 0 <= rate_max_delay_ms settings ->
  let delay := RateLimiter._progressive_delay_ms settings in
  delay 0 = 0 /\ 0 <= delay n <= rate_max_delay_ms settings /\ delay n <= delay (n + 1)
  /\ (0 < n -> delay (n + 1) = Z.min (2 * delay n) (rate_max_delay_ms settings)).
Proof.
  intros Hb Hm delay. split; [done|]. split; [by apply delay_bounds|].
  split; [by apply delay_mono; [..|lia]|]. intros Hn.
  destruct (Z.le_gt_cases (2 * delay n) (rate_max_delay_ms settings)).
  - rewrite Z.min_l by done. by apply delay_doubles.
  - rewrite Z.min_r by lia. subst delay. unfold RateLimiter._progressive_delay_ms in *.
    rewrite !(proj2 (Z.leb_gt _ _)) in * by lia.
    replace (n + 1 - 1) with (Z.succ (n - 1)) by lia. rewrite Z.pow_succ_r, Z.mul_shuffle3 by lia. lia.
Qed.

(** ** The decision *)

Section login.
Context {PG : Postgres} {PR : PyRepr} (settings : Settings).

Abbreviation recent_failures st subj w :=
  (count (RateLimitRepository.counts st subj (w_now w - seconds (rate_window_seconds settings)) None)
     (failed_attempts (w_db w))).

Definition ip_failures (client_ip : option pystr) (w : World) : Z :=
  match RateLimiter.present client_ip with
  | Some ip => recent_failures subj_ip ip w
  | None => 0
  end.

Lemma run_failure_count st subj win w :
  pg_text subj = true ->
  run (RateLimitRepository.failure_count st subj win None) w =
  (w, OK (count (RateLimitRepository.counts st subj (w_now w - seconds win) None) (failed_attempts (w_db w)))).
Proof. intros Hs. unfold RateLimitRepository.failure_count. by rewrite Hs. Qed.

Lemma run_check_login username client_ip w :
  pg_text (py_lower username) = true ->
  (forall ip, RateLimiter.present client_ip = Some ip -> pg_text ip = true) ->
  run (RateLimiter.check_login settings username client_ip) w =
  (w, OK (RateLimiter.decide_login settings (recent_failures subj_user (py_lower username) w)
            (ip_failures client_ip w))).
Proof.
  intros Hu Hip. unfold RateLimiter.check_login, ip_failures.
  rewrite run_bind, run_failure_count by done. cbv beta iota. rewrite run_bind.
  destruct (RateLimiter.present client_ip) as [ip|]; [rewrite run_failure_count by auto|]; done.
Qed.
End login.

(** C35 A login attempt is refused exactly when the user name, folded by
    [str.lower()], or the address has reached the configured number of failures
    inside the window; the refusal asks to wait the whole window. *)
Theorem login_lockout_iff {PG : Postgres} {PR : PyRepr} settings username client_ip w d w' :
  pg_text (py_lower username) = true ->
  (forall ip, RateLimiter.present client_ip = Some ip -> pg_text ip = true) ->
  run (RateLimiter.check_login settings username client_ip) w = (w', OK d) ->
  w' = w
  /\ (allowed d = false <->
      rate_max_login_failures settings
        <= count (RateLimitRepository.counts subj_user (py_lower username)
                    (w_now w - seconds (rate_window_seconds settings)) None) (failed_attempts (w_db w))
      \/ rate_max_login_failures settings <= ip_failures settings client_ip w)
  /\ (allowed d = false -> retry_after_seconds d = rate_window_seconds settings
                           /\ delay_ms d = rate_max_delay_ms settings)
  /\ (allowed d = true -> delay_ms d = RateLimiter._progressive_delay_ms settings (failures d)).
Proof.
  intros Hu Hip. rewrite run_check_login by done. intros [= <- <-]. split; [done|].
  unfold RateLimiter.decide_login.
  destruct (Z.leb_spec (rate_max_login_failures settings)
    (Z.max (count (RateLimitRepository.counts subj_user (py_lower username)
                    (w_now w - seconds (rate_window_seconds settings)) None) (failed_attempts (w_db w)))
           (ip_failures settings client_ip w))); cbn [allowed delay_ms retry_after_seconds failures].
  - split; [|done]. split; [lia|done].
  - split; [|done]. split; [done|lia].
Qed.

(** A failure recorded now is inside every window. *)
Lemma counts_new win st subj st' subj' now endpoint ip :
  0 < win ->
  RateLimitRepository.counts st subj (now - win) None
    {| f_subject_type := st'; f_subject := subj'; f_endpoint := endpoint; f_client_ip := ip;
       f_occurred_at := now |}
  = bool_decide (st' = st) && bool_decide (subj' = subj).
Proof.
  intros Hw. unfold RateLimitRepository.counts, str_eqb. cbn [f_subject_type f_subject f_occurred_at].
  rewrite (proj2 (Z.ltb_lt (now - win) now)) by lia. by rewrite !andb_true_r.
Qed.

(** A recorded failure counts at once: after [record_login_failure] every
    budget of every spelling that folds to the same name, and of that address,
    has one failure more. *)
Theorem recorded_failure_counts {PG : Postgres} {PR : PyRepr} settings username other ip host endpoint w w' :
  pg_text (py_lower username) = true -> pg_text endpoint = true -> pg_text ip = true ->
  ip <> [] -> pg_inet ip = Some host -> py_lower other = py_lower username ->
  0 < rate_window_seconds settings ->
  run (RateLimiter.record_login_failure settings username (Some ip) endpoint) w = (w', OK tt) ->
  let since := w_now w - seconds (rate_window_seconds settings) in
  count (RateLimitRepository.counts subj_user (py_lower other) since None) (failed_attempts (w_db w'))
  = count (RateLimitRepository.counts subj_user (py_lower other) since None) (failed_attempts (w_db w)) + 1
  /\ count (RateLimitRepository.counts subj_ip ip since None) (failed_attempts (w_db w'))
     = count (RateLimitRepository.counts subj_ip ip since None) (failed_attempts (w_db w)) + 1.
Proof.
  intros Hu He Hpi Hne Hip Hlow Hwin. unfold RateLimiter.record_login_failure.
  unfold RateLimitRepository.record_failure. destruct ip as [|c r]; [done|].
  cbn [RateLimiter.present]. rewrite Hip, Hu, He, Hpi. cbn. intros [= <-]. cbn.
  rewrite Hlow, !count_app, !count_cons, !count_nil, !(counts_new (seconds _)) by
    (unfold seconds, usec_per_sec; lia).
  rewrite (bool_decide_false (subj_ip = subj_user)), (bool_decide_false (subj_user = subj_ip)) by done.
  cbn [andb]. rewrite !bool_decide_true by done. cbn [andb]. lia.
Qed.

(** The in-process buckets are written and never read by a decision: two worlds
    that differ in them decide alike. *)
Lemma check_login_ignores_cache {PG : Postgres} {PR : PyRepr} settings username client_ip w r :
  (run (RateLimiter.check_login settings username client_ip) (set_recent r w)).2
  = (run (RateLimiter.check_login settings username client_ip) w).2.
Proof.
  unfold RateLimiter.check_login, RateLimitRepository.failure_count.
  destruct (pg_text (py_lower username) && opt_text None); [|done].
  destruct (RateLimiter.present client_ip) as [ip|]; [|done].
  cbn. by destruct (pg_text ip && true).
Qed.

(** ** Witnesses *)

Lemma progressive_delay_shape_witness :
  let delay := RateLimiter._progressive_delay_ms default_settings in
  delay 0 = 0 /\ 0 <= delay 3 <= 8000 /\ delay 3 <= delay (3 + 1)
  /\ (0 < 3 -> delay (3 + 1) = Z.min (2 * delay 3) 8000).
Proof. apply (progressive_delay_shape default_settings 3); cbn; lia. Defined.

Lemma login_lockout_iff_witness :
  exists d, allowed d = true /\ delay_ms d = RateLimiter._progressive_delay_ms default_settings (failures d).
Proof.
  destruct (login_lockout_iff (PG:=demo_postgres) (PR:=demo_repr) default_settings §"boris" (Some §"10.0.0.1") demo_world
    (RateLimiter.decide_login default_settings 0 0) demo_world) as (_ & _ & _ & Ha).
  - reflexivity.
  - intros ip [= <-]. reflexivity.
  - reflexivity.
  - exists (RateLimiter.decide_login default_settings 0 0). split; [reflexivity|]. apply Ha. reflexivity.
Defined.

Lemma recorded_failure_counts_witness :
  let w' := (run (RateLimiter.record_login_failure (PG:=demo_postgres) (PR:=demo_repr) default_settings §"Boris"
                    (Some §"10.0.0.1") §"auth.login") demo_world).1 in
  let since := w_now demo_world - seconds 900 in
  count (RateLimitRepository.counts subj_user (lower §"BORIS") since None) (failed_attempts (w_db w')) = 0 + 1
  /\ count (RateLimitRepository.counts subj_ip §"10.0.0.1" since None) (failed_attempts (w_db w')) = 0 + 1.
Proof.
  apply (recorded_failure_counts (PG:=demo_postgres) (PR:=demo_repr) default_settings §"Boris" §"BORIS" §"10.0.0.1"
    §"10.0.0.1" §"auth.login" demo_world); try reflexivity; try discriminate.
Defined.
