(* ===== verification/Hub.v ===== *)
(** * Live controller connections: [app/ws/hub.py]

    The hub's dictionary maps a controller code to a session object.  Objects
    are shared: a superseded session stays the one its socket's coroutine
    holds, and a future is held both by the session that waits for an
    acknowledgement and by the coroutine that waits on it.  Sessions and futures
    therefore live in heaps, and the dictionary and [pending] hold references.

    The bodies of [register] and [unregister] contain no await between taking
    the lock and releasing it: each is one atomic step. *)

From S2P Require Import Prelude Text Json Errors Proc World Demo Signer.

(** What happens while [session.send(text)] is awaited: everything other tasks
    do in the meantime, and the message of the exception of a send on a socket
    that is gone. *)
Class Transport := { ws_send : nat -> pystr -> World -> World * option pystr }.

Definition send `{TR : Transport} (s : nat) (text : pystr) : io unit :=
  atomic (fun w =>
    let '(w, r) := ws_send s text w in
    (w, match r with None => OK tt | Some msg => ERR (ERuntime msg) end)).

Definition with_sessions (s : gmap (list Z) nat) (h : ControllerHub) : ControllerHub := {|
  h_sessions := s; h_session_heap := h_session_heap h; h_future_heap := h_future_heap h;
  h_next := h_next h |}.
Definition with_session_heap (s : gmap nat ControllerSession) (h : ControllerHub) : ControllerHub := {|
  h_sessions := h_sessions h; h_session_heap := s; h_future_heap := h_future_heap h;
  h_next := h_next h |}.
Definition with_future_heap (f : gmap nat future) (h : ControllerHub) : ControllerHub := {|
  h_sessions := h_sessions h; h_session_heap := h_session_heap h; h_future_heap := f;
  h_next := h_next h |}.
Definition with_next (n : nat) (h : ControllerHub) : ControllerHub := {|
  h_sessions := h_sessions h; h_session_heap := h_session_heap h; h_future_heap := h_future_heap h;
  h_next := n |}.

Definition with_pending (p : gmap (list Z) nat) (s : ControllerSession) : ControllerSession := {|
  cs_controller_id := cs_controller_id s; cs_controller_code := cs_controller_code s;
  cs_connected_at := cs_connected_at s; cs_last_pong_at := cs_last_pong_at s;
  cs_remote_ip := cs_remote_ip s; cs_firmware_version := cs_firmware_version s; cs_pending := p |}.

Definition with_last_pong (t : instant) (s : ControllerSession) : ControllerSession := {|
  cs_controller_id := cs_controller_id s; cs_controller_code := cs_controller_code s;
  cs_connected_at := cs_connected_at s; cs_last_pong_at := t;
  cs_remote_ip := cs_remote_ip s; cs_firmware_version := cs_firmware_version s;
  cs_pending := cs_pending s |}.

Definition pending_of (h : ControllerHub) (s : nat) : gmap (list Z) nat :=
  from_option cs_pending ∅ (h_session_heap h !! s).

(** [future.set_result], [future.set_exception] behind [if not future.done()]. *)
(* @src backend/app/ws/hub.py 108-109 ControllerHub.resolve *)
Definition settle (v : future) (f : nat) (h : ControllerHub) : ControllerHub :=
  match h_future_heap h !! f with
  | Some Pending => with_future_heap (<[f := v]> (h_future_heap h)) h
  | _ => h
  end.

(** Every unfinished future of a session gets the exception. *)
(* @src backend/app/ws/hub.py 66-68 ControllerHub.unregister *)
Definition fail_pending (msg : pystr) (s : nat) (h : ControllerHub) : ControllerHub :=
  with_future_heap
    (map_imap (fun f v =>
       Some (match v with
             | Pending => if bool_decide (f ∈ (map_to_list (pending_of h s)).*2)
                          then Failed msg else Pending
             | v => v
             end)) (h_future_heap h)) h.

(** [ControllerSession(...)]: a fresh object. *)
(* @src backend/app/ws/hub.py 33-41 ControllerSession *)
Definition new_session (controller_id : uuid) (code : pystr) (ip firmware : option pystr) : io nat :=
  atomic (fun w =>
    let h := w_hub w in
    let s := {| cs_controller_id := controller_id; cs_controller_code := code;
                cs_connected_at := w_now w; cs_last_pong_at := w_now w; cs_remote_ip := ip;
                cs_firmware_version := firmware; cs_pending := ∅ |} in
    (set_hub (with_next (S (h_next h))
                (with_session_heap (<[h_next h := s]> (h_session_heap h)) h)) w, OK (h_next h))).

Module ControllerHub.

Definition code_of (h : ControllerHub) (s : nat) : pystr :=
  from_option cs_controller_code [] (h_session_heap h !! s).

(* @src backend/app/ws/hub.py 51-60 ControllerHub.register *)
Definition registered (s : nat) (h : ControllerHub) : ControllerHub :=
  let code := code_of h s in
  let h := match h_sessions h !! code with
           | Some existing => fail_pending §"superseded" existing h
           | None => h
           end in
  with_sessions (<[code := s]> (h_sessions h)) h.

(* @src backend/app/ws/hub.py * ControllerHub.register *)
Definition register (s : nat) : io unit :=
  atomic (fun w => (set_hub (registered s (w_hub w)) w, OK tt)).

(* @src backend/app/ws/hub.py 64-68 ControllerHub.unregister *)
Definition unregistered (code : pystr) (s : nat) (h : ControllerHub) : ControllerHub :=
  let h := if bool_decide (h_sessions h !! code = Some s)
           then with_sessions (delete code (h_sessions h)) h else h in
  fail_pending §"disconnected" s h.

(* @src backend/app/ws/hub.py * ControllerHub.unregister *)
Definition unregister (code : pystr) (s : nat) : io unit :=
  atomic (fun w => (set_hub (unregistered code s (w_hub w)) w, OK tt)).

(* @src backend/app/ws/hub.py * ControllerHub.get *)
Definition get (code : pystr) : io (option nat) := reads (fun w => h_sessions (w_hub w) !! code).

(* @src backend/app/ws/hub.py * ControllerHub.is_online *)
Definition is_online (code : pystr) : io bool := reads (fun w => is_some (h_sessions (w_hub w) !! code)).

(* @src backend/app/ws/hub.py * ControllerHub.online_count *)
Definition online_count : io Z := reads (fun w => Z.of_nat (size (h_sessions (w_hub w)))).

(* @src backend/app/ws/hub.py * ControllerHub.online_codes *)
Definition online_codes : io (list pystr) :=
  reads (fun w => sort_by str_leb (map_to_list (h_sessions (w_hub w))).*1).

Definition set_pending (s : nat) (f : gmap (list Z) nat -> gmap (list Z) nat) (h : ControllerHub) : ControllerHub :=
  with_session_heap (alter (fun c => with_pending (f (cs_pending c)) c) s (h_session_heap h)) h.

(** A new future under [pending[command_id]]. *)
(* @src backend/app/ws/hub.py 93-96 ControllerHub.send_command *)
Definition expect (s : nat) (command_id : pystr) (h : ControllerHub) : ControllerHub * nat :=
  let f := h_next h in
  let h := with_next (S f) (with_future_heap (<[f := Pending]> (h_future_heap h)) h) in
  (set_pending s (insert command_id f) h, f).

(** [envelope["payload"]["command_id"]] *)
(* @src backend/app/ws/hub.py 93-93 ControllerHub.send_command *)
Definition envelope_command_id (envelope : list (pystr * json)) : outcome Exn pystr :=
  match dict_get §"payload" envelope with
  | Some (JObj p) =>
      match dict_get §"command_id" p with
      | Some (JStr c) => OK c
      | Some _ => ERR (EType §"command_id")
      | None => ERR (EKey §"command_id")
      end
  | Some _ => ERR (EType §"payload")
  | None => ERR (EKey §"payload")
  end.

(** [asyncio.wait_for(future, timeout)], taken when the future is done or the
    time is up, whichever comes first: a future still pending means the time
    is up. *)
(* @src backend/app/ws/hub.py 99-101 ControllerHub.send_command *)
Definition wait_for (f : nat) (timeout : Z) : io (list (pystr * json)) :=
  atomic (fun w =>
    match h_future_heap (w_hub w) !! f with
    | Some (Result m) => (w, OK m)
    | Some (Failed msg) => (w, ERR (EControllerOffline msg))
    | _ => (advance (Z.max 0 (seconds timeout)) w, ERR (ECommandTimeout []))
    end).

Section send.
Context {TR : Transport}.

(* @src backend/app/ws/hub.py * ControllerHub.send_command *)
Definition send_command (code : pystr) (envelope : list (pystr * json)) (timeout : Z) : io (list (pystr * json)) :=
  sf ← atomic (fun w =>
    match h_sessions (w_hub w) !! code with
    | None => (w, ERR (EControllerOffline code))
    | Some s =>
        match envelope_command_id envelope with
        | ERR e => (w, ERR e)
        | OK command_id =>
            let '(h, f) := expect s command_id (w_hub w) in
            (set_hub h w, OK (s, f, command_id))
        end
    end);
  let '(s, f, command_id) := sf in
  finally
    (catch
       (_ ← send s (dumps true false None (JObj envelope));
        wait_for f timeout)
       (fun e => match e with ECommandTimeout _ => Some (Raise (ECommandTimeout command_id)) | _ => None end))
    (atomic (fun w => (set_hub (set_pending s (delete command_id) (w_hub w)) w, OK tt))).

End send.

Section resolve.
Context {PR : PyRepr}.

(** [str(message.get("command_id", ""))] *)
(* @src backend/app/ws/hub.py 106-106 ControllerHub.resolve *)
Definition message_command_id (message : list (pystr * json)) : pystr :=
  match dict_get §"command_id" message with Some v => py_str v | None => [] end.

(* @src backend/app/ws/hub.py 106-109 ControllerHub.resolve *)
Definition resolved (s : nat) (message : list (pystr * json)) (h : ControllerHub) : ControllerHub :=
  match pending_of h s !! message_command_id message with
  | Some f => settle (Result message) f h
  | None => h
  end.

(* @src backend/app/ws/hub.py * ControllerHub.resolve *)
Definition resolve (s : nat) (message : list (pystr * json)) : io unit :=
  atomic (fun w => (set_hub (resolved s message (w_hub w)) w, OK tt)).

End resolve.

End ControllerHub.

Import ControllerHub.

(** ** Futures are settled once *)

Definition future_le (v v' : future) : Prop := v = Pending \/ v' = v.

(** What any operation may do to the futures: settle the pending ones. *)
Definition futures_grow (h h' : ControllerHub) : Prop :=
  forall f v, h_future_heap h !! f = Some v ->
    exists v', h_future_heap h' !! f = Some v' /\ future_le v v'.

#[global] Instance futures_grow_preorder : PreOrder futures_grow.
Proof.
  split.
  - intros h f v Hf. exists v. split; [done|by right].
  - intros h1 h2 h3 H12 H23 f v Hf. destruct (H12 f v Hf) as (v2 & H2 & [->|<-]).
    + destruct (H23 f v2 H2) as (v3 & H3 & _). exists v3. split; [done|by left].
    + destruct (H23 f v2 H2) as (v3 & H3 & Hle). by exists v3.
Qed.

Lemma settle_grows v f h : futures_grow h (settle v f h).
Proof.
  unfold settle. destruct (h_future_heap h !! f) as [[]|] eqn:E; try reflexivity.
  intros g u Hg. cbn. destruct (decide (g = f)) as [->|].
  - rewrite lookup_insert_eq. eexists. split; [done|]. left. congruence.
  - rewrite lookup_insert_ne by done. exists u. split; [done|by right].
Qed.

Lemma fail_pending_lookup msg s h f v :
  h_future_heap h !! f = Some v ->
  h_future_heap (fail_pending msg s h) !! f =
  Some (match v with
        | Pending => if bool_decide (f ∈ (map_to_list (pending_of h s)).*2)
                     then Failed msg else Pending
        | v => v
        end).
Proof. intros Hf. cbn. by rewrite map_lookup_imap, Hf. Qed.

Lemma fail_pending_grows msg s h : futures_grow h (fail_pending msg s h).
Proof.
  intros f v Hf. eexists. split; [by apply fail_pending_lookup|].
  destruct v; [by left|by right|by right].
Qed.

Lemma registered_grows s h : futures_grow h (registered s h).
Proof.
  unfold registered. destruct (h_sessions h !! code_of h s); [apply fail_pending_grows|].
  intros f v Hf. exists v. split; [done|by right].
Qed.

Lemma unregistered_grows code s h : futures_grow h (unregistered code s h).
Proof.
  unfold unregistered. case_bool_decide; [|apply fail_pending_grows].
  etransitivity; [|apply fail_pending_grows]. intros f v Hf. exists v. split; [done|by right].
Qed.

Lemma resolved_grows {PR : PyRepr} s message h : futures_grow h (resolved s message h).
Proof. unfold resolved. destruct (pending_of h s !! _); [apply settle_grows|reflexivity]. Qed.

(** ** Who waits on what *)

Lemma elem_of_pending h s c f :
  pending_of h s !! c = Some f -> f ∈ (map_to_list (pending_of h s)).*2.
Proof. intros Hc. apply list_elem_of_fmap. exists (c, f). split; [done|by apply elem_of_map_to_list]. Qed.

Definition is_done (h : ControllerHub) (f : nat) : Prop :=
  exists v, h_future_heap h !! f = Some v /\ v <> Pending.

Lemma fail_pending_done msg s h c f v :
  pending_of h s !! c = Some f -> h_future_heap h !! f = Some v -> is_done (fail_pending msg s h) f.
Proof.
  intros Hc Hf. eexists. split; [by apply fail_pending_lookup|].
  destruct v; [|done|done]. rewrite bool_decide_true by (by eapply elem_of_pending). done.
Qed.

(** One live session per controller: registering makes the new session the
    one the code names, and every command the previous session was waiting
    for is over; no other controller's session changes. *)
Theorem register_supersedes w w' s h :
  w_hub w = h -> run (register s) w = (w', OK tt) ->
  let code := code_of h s in
  h_sessions (w_hub w') !! code = Some s
  /\ (forall code', code' <> code -> h_sessions (w_hub w') !! code' = h_sessions h !! code')
  /\ (forall old c f v, h_sessions h !! code = Some old -> pending_of h old !! c = Some f ->
        h_future_heap h !! f = Some v -> is_done (w_hub w') f)
  /\ futures_grow h (w_hub w').
Proof.
  intros <- [= <-] code. cbn. repeat split.
  - unfold registered. cbn. by rewrite lookup_insert_eq.
  - intros code' Hne. unfold registered. cbn. rewrite lookup_insert_ne by done.
    by destruct (h_sessions (w_hub w) !! code_of _ s).
  - intros old c f v Hold Hc Hf. unfold registered. fold code. rewrite Hold.
    destruct (fail_pending_done §"superseded" old _ c f v Hc Hf) as (v' & Hv & Hne).
    by exists v'.
  - apply registered_grows.
Qed.

(** A superseded connection that ends does not take its successor down: the
    code still names the new session. A connection that is still the registered
    one leaves the controller offline. Either way nothing it was waiting for is
    left pending. *)
Theorem unregister_only_own_session w w' code s cur :
  h_sessions (w_hub w) !! code = Some cur ->
  run (unregister code s) w = (w', OK tt) ->
  h_sessions (w_hub w') !! code = (if decide (cur = s) then None else Some cur)
  /\ (forall c f v, pending_of (w_hub w) s !! c = Some f -> h_future_heap (w_hub w) !! f = Some v ->
        is_done (w_hub w') f).
Proof.
  intros Hcur [= <-]. cbn. unfold unregistered. rewrite Hcur. split.
  - destruct (decide (cur = s)) as [->|Hne].
    + rewrite bool_decide_true by done. cbn. by rewrite lookup_delete_eq.
    + rewrite bool_decide_false by congruence. done.
  - intros c f v Hc Hf. apply fail_pending_done with c v; case_bool_decide; done.
Qed.

(** A message resolves at most the future of the command it names, on the
    session it arrived on, and never a future that is already done. *)
Theorem resolve_settles_named_command {PR : PyRepr} w w' s message :
  run (resolve s message) w = (w', OK tt) ->
  forall f, h_future_heap (w_hub w') !! f <> h_future_heap (w_hub w) !! f ->
    pending_of (w_hub w) s !! message_command_id message = Some f
    /\ h_future_heap (w_hub w) !! f = Some Pending
    /\ h_future_heap (w_hub w') !! f = Some (Result message).
Proof.
  intros [= <-] f Hf. cbn in *. unfold resolved, settle in *.
  destruct (pending_of (w_hub w) s !! message_command_id message) as [g|] eqn:Eg; [|done].
  destruct (h_future_heap (w_hub w) !! g) as [[]|] eqn:Ef; try done. cbn in *.
  destruct (decide (f = g)) as [->|Hne]; [by rewrite lookup_insert_eq|].
  by rewrite lookup_insert_ne in Hf.
Qed.

Lemma pending_set_pending h s g c :
  pending_of (set_pending s g h) s !! c =
  match h_session_heap h !! s with Some x => g (cs_pending x) !! c | None => None end.
Proof.
  unfold pending_of, set_pending. cbn. rewrite lookup_alter_eq. by destruct (h_session_heap h !! s).
Qed.

(** [send_command] always cleans up: however the transport behaves and
    whatever else runs while it waits, when it ends, with an answer, a timeout
    or any exception after the command was registered, the session no longer
    waits for that command. *)
Theorem send_command_leaves_no_waiter {TR : Transport} w w' o code envelope timeout s command_id :
  h_sessions (w_hub w) !! code = Some s -> envelope_command_id envelope = OK command_id ->
  run (send_command code envelope timeout) w = (w', o) ->
  pending_of (w_hub w') s !! command_id = None.
Proof.
  intros Hs Hc. unfold send_command. rewrite run_bind, run_atomic, Hs, Hc.
  destruct (expect s command_id (w_hub w)) as [h f]. cbv beta iota.
  rewrite run_finally. destruct (run (catch _ _) _) as [w1 o1].
  rewrite run_atomic. intros [= <- _]. cbn. rewrite pending_set_pending.
  destruct (h_session_heap (w_hub w1) !! s); [by rewrite lookup_delete_eq|done].
Qed.

(** ** Witnesses *)

Definition demo_session (code : pystr) (pending : gmap (list Z) nat) : ControllerSession := {|
  cs_controller_id := 7; cs_controller_code := code; cs_connected_at := 0; cs_last_pong_at := 0;
  cs_remote_ip := None; cs_firmware_version := None; cs_pending := pending |}.

(** Session 0 is registered and waits for command "a"; session 1 is a new
    connection of the same controller. *)
Definition demo_hub : ControllerHub := {|
  h_sessions := {[ §"ctrl-1" := 0%nat ]};
  h_session_heap := <[0%nat := demo_session §"ctrl-1" {[ §"a" := 2%nat ]}]>
                      {[ 1%nat := demo_session §"ctrl-1" ∅ ]};
  h_future_heap := {[ 2%nat := Pending ]};
  h_next := 3 |}.

Definition demo_transport : Transport := {| ws_send := fun _ _ w => (w, None) |}.

Lemma register_supersedes_witness :
  h_sessions (registered 1 demo_hub) !! §"ctrl-1" = Some 1%nat /\ is_done (registered 1 demo_hub) 2.
Proof.
  destruct (register_supersedes (set_hub demo_hub demo_world)
    (set_hub (registered 1 demo_hub) demo_world) 1 demo_hub) as (H1 & _ & H3 & _);
    [reflexivity|reflexivity|].
  split; [exact H1|]. apply (H3 0%nat §"a" 2%nat Pending); reflexivity.
Defined.

Lemma unregister_only_own_session_witness :
  h_sessions (unregistered §"ctrl-1" 0 (registered 1 demo_hub)) !! §"ctrl-1"
  = (if decide (1%nat = 0%nat) then None else Some 1%nat).
Proof.
  apply (unregister_only_own_session (set_hub (registered 1 demo_hub) demo_world)
    (set_hub (unregistered §"ctrl-1" 0 (registered 1 demo_hub)) demo_world) §"ctrl-1" 0 1); reflexivity.
Defined.

Lemma resolve_settles_named_command_witness :
  pending_of demo_hub 0 !! message_command_id (PR:=demo_repr) [(§"command_id", JStr §"a")] = Some 2%nat.
Proof.
  apply (resolve_settles_named_command (PR:=demo_repr) (set_hub demo_hub demo_world)
    (set_hub (resolved (PR:=demo_repr) 0 [(§"command_id", JStr §"a")] demo_hub) demo_world)
    0 [(§"command_id", JStr §"a")]); [reflexivity|].
  vm_compute. discriminate.
Defined.

Lemma send_command_leaves_no_waiter_witness :
  let r := run (send_command (TR:=demo_transport) §"ctrl-1"
                  [(§"payload", JObj [(§"command_id", JStr §"b")])] 10) (set_hub demo_hub demo_world) in
  pending_of (w_hub r.1) 0 !! §"b" = None.
Proof.
  apply (send_command_leaves_no_waiter (TR:=demo_transport) (set_hub demo_hub demo_world) _
    (ERR (ECommandTimeout §"b")) §"ctrl-1" [(§"payload", JObj [(§"command_id", JStr §"b")])] 10);
    vm_compute; reflexivity.
Defined.
