(* ===== verification/Evolve.v ===== *)
(** * What never goes back

    [evolves] relates the worlds before and after a step of the backend: the
    schema's constraints are kept, the audit log only grows, the clock does not go back, no row is deleted,
    a token once used or revoked stays so and keeps its owner, an enrolment
    code once used stays so, a settled future keeps its value.  Every statement
    of the repositories and every operation of the hub is such a step, so every
    interleaving of every handler is. *)

From S2P Require Import Prelude Text Json Config Errors Proc World AuditLog Repos Schema Hub Security RateLimit Signer.

(** ** The relation *)

Definition settled {A} (a b : option A) : Prop := a = None \/ b = a.

Definition token_le (t t' : token_row) : Prop :=
  same_token t t' /\ t_family_id t = t_family_id t' /\ t_kind t = t_kind t'
  /\ settled (t_used_at t) (t_used_at t') /\ settled (t_revoked_at t) (t_revoked_at t').

Definition code_le (c c' : enrollment_row) : Prop :=
  e_code_hash c = e_code_hash c' /\ e_user_id c = e_user_id c' /\ e_expires_at c = e_expires_at c'
  /\ settled (e_used_at c) (e_used_at c').

(** Every row is still there, related to what it was. *)
Definition rows_le {A} (R : A -> A -> Prop) (m m' : gmap Z A) : Prop :=
  forall k x, m !! k = Some x -> exists y, m' !! k = Some y /\ R x y.

Definition hub_fresh (h : ControllerHub) : Prop :=
  forall f, is_Some (h_future_heap h !! f) -> (f < h_next h)%nat.

Definition hub_le (h h' : ControllerHub) : Prop :=
  (h_next h <= h_next h')%nat /\ (hub_fresh h -> futures_grow h h' /\ hub_fresh h').

Record db_le (d d' : Db) : Prop := {
  le_ok : db_ok d -> db_ok d';
  le_log : audit_log d `prefix_of` audit_log d';
  le_tokens : rows_le token_le (tokens d) (tokens d');
  le_codes : rows_le code_le (enrollment_codes d) (enrollment_codes d');
  le_users : extends (users d) (users d');
  le_devices : extends (devices d) (devices d');
  le_controllers : extends (controllers d) (controllers d');
  le_doors : extends (doors d) (doors d');
  le_permissions : extends (permissions d) (permissions d');
  le_failures : failed_attempts d `prefix_of` failed_attempts d'
}.

Record evolves (w w' : World) : Prop := {
  ev_now : w_now w <= w_now w';
  ev_db : db_le (w_db w) (w_db w');
  ev_hub : hub_le (w_hub w) (w_hub w')
}.

(** ** Preorders *)

#[global] Instance settled_preorder {A} : PreOrder (@settled A).
Proof.
  split; [by right|]. intros a b c Hab Hbc. destruct Hab as [Ha|Hb]; [by left|]. by rewrite <- Hb.
Qed.

#[global] Instance token_le_preorder : PreOrder token_le.
Proof.
  split.
  - intros t. unfold token_le, same_token. by repeat split; right.
  - intros t1 t2 t3 (S1 & F1 & K1 & U1 & R1) (S2 & F2 & K2 & U2 & R2).
    split; [|split; [congruence|split; [congruence|split; etransitivity; eassumption]]].
    unfold same_token in *. intuition congruence.
Qed.

#[global] Instance code_le_preorder : PreOrder code_le.
Proof.
  split.
  - intros c. by repeat split; right.
  - intros c1 c2 c3 (A1 & B1 & C1 & U1) (A2 & B2 & C2 & U2).
    repeat split; [congruence..|by etransitivity].
Qed.

#[global] Instance rows_le_preorder {A} (R : A -> A -> Prop) `{!PreOrder R} : PreOrder (rows_le R).
Proof.
  split.
  - intros m k x Hk. by exists x.
  - intros m1 m2 m3 H12 H23 k x Hk. destruct (H12 k x Hk) as (y & Hy & Rxy).
    destruct (H23 k y Hy) as (z & Hz & Ryz). exists z. split; [done|by etransitivity].
Qed.

#[global] Instance extends_preorder {A} : PreOrder (@extends A).
Proof. split; [by intros m k|]. intros m1 m2 m3 H12 H23 k Hk. auto. Qed.

#[global] Instance hub_le_preorder : PreOrder hub_le.
Proof.
  split.
  - intros h. split; [done|]. by intros Hf.
  - intros h1 h2 h3 [N1 H1] [N2 H2]. split; [lia|]. intros Hf.
    destruct (H1 Hf) as [G1 F1]. destruct (H2 F1) as [G2 F2]. split; [by etransitivity|done].
Qed.

#[global] Instance db_le_preorder : PreOrder db_le.
Proof.
  split.
  - intros d. split; try done; reflexivity.
  - intros d1 d2 d3 H12 H23. destruct H12, H23. split; [auto|..]; etransitivity; eassumption.
Qed.

#[global] Instance evolves_preorder : PreOrder evolves.
Proof.
  split; [intros w; split; [lia|reflexivity..]|]. intros w1 w2 w3 H12 H23. destruct H12, H23.
  split; etransitivity; eassumption.
Qed.

(** ** Changes of one table *)

Lemma rows_le_in_place {A} (R : A -> A -> Prop) m m' : in_place R m m' -> rows_le R m m'.
Proof.
  intros Hm k x Hk. pose proof (Hm k) as Rk. rewrite Hk in Rk. inversion Rk as [? y Rxy|]; subst. by exists y.
Qed.

Lemma rows_le_insert {A} (R : A -> A -> Prop) `{!PreOrder R} (m : gmap Z A) i x :
  m !! i = None -> rows_le R m (<[i := x]> m).
Proof.
  intros Hi k y Hk. exists y. split; [|reflexivity]. rewrite lookup_insert_ne; [done|]. congruence.
Qed.

Lemma rows_le_refl {A} (R : A -> A -> Prop) `{!PreOrder R} (m : gmap Z A) : rows_le R m m.
Proof. reflexivity. Qed.

Lemma extends_refl {A} (m : gmap Z A) : extends m m.
Proof. reflexivity. Qed.

Lemma extends_alter {A} (f : A -> A) (m : gmap Z A) i : extends m (alter f i m).
Proof.
  intros k Hk. destruct (decide (k = i)) as [->|]; [|by rewrite lookup_alter_ne].
  rewrite lookup_alter_eq. destruct Hk as [x ->]. by eexists.
Qed.

Create HintDb evolve.
#[export] Hint Resolve rows_le_refl extends_refl extends_insert extends_alter rows_le_insert : evolve.

(** A statement with the tables it leaves alone settled by reflexivity. *)
Ltac db_le_tac := split; cbn; try reflexivity; eauto with evolve.

Section statements.
Context {EN : Entropy} {PG : Postgres}.

(** From [keeps] and a case analysis of what else changed. *)
Lemma evolves_statement {A} (f : World -> World * outcome Exn A) :
  guar keeps (statement f) ->
  (forall w, w_hub (f w).1 = w_hub w /\ w_now (f w).1 = w_now w /\ ((db_ok (w_db w) -> db_ok (w_db (f w).1)) -> db_le (w_db w) (w_db (f w).1))) ->
  guar evolves (statement f).
Proof.
  intros Hk Hf. apply guar_atomic. intros w. destruct (Hf w) as (Hh & Hn & Hd).
  split; [lia| |by rewrite Hh]. apply Hd. exact (guar_atomic_inv _ _ Hk w).
Qed.

Lemma evolves_query {A} (f : instant -> Db -> A) : guar evolves (query f).
Proof. apply guar_reads. reflexivity. Qed.

Lemma evolves_reads {A} (f : World -> A) : guar evolves (reads f : io A).
Proof. apply guar_reads. reflexivity. Qed.

Lemma evolves_of_outcome {A} (o : outcome Exn A) : guar evolves (of_outcome o : io A).
Proof. by destruct o. Qed.

(** A step that leaves the tables and the hub alone. *)
Lemma evolves_frame {A} (f : World -> World * outcome Exn A) :
  (forall w, w_db (f w).1 = w_db w /\ w_hub (f w).1 = w_hub w /\ w_now w <= w_now (f w).1) -> guar evolves (atomic f : io A).
Proof.
  intros Hf. apply guar_atomic. intros w. destruct (Hf w) as (E1 & E2 & E3).
  split; [done|by rewrite E1|by rewrite E2].
Qed.

Lemma evolves_execute (f : instant -> Db -> Db) :
  guar keeps (execute f) ->
  (forall now d, (db_ok d -> db_ok (f now d)) -> db_le d (f now d)) -> guar evolves (execute f).
Proof.
  intros Hk Hf. apply evolves_statement; [exact Hk|]. intros w. split; [done|]. split; [done|]. cbn. apply Hf.
Qed.

Lemma evolves_insert_row {A} table put checks (row : instant -> Db -> A) :
  guar keeps (insert_row table put checks row) ->
  (forall d id x, table d !! id = None -> (db_ok d -> db_ok (put (<[id := x]> (table d)) d)) ->
     db_le d (put (<[id := x]> (table d)) d)) ->
  guar evolves (insert_row table put checks row).
Proof.
  intros Hk Hf. apply evolves_statement; [exact Hk|]. intros w. cbn.
  destruct (violation _) as [n|] eqn:E; [done|]. split; [done|]. split; [done|].
  apply Hf. apply violation_none, Forall_app in E as [_ Hpk%Forall_inv]. cbn in Hpk.
  by destruct (table (w_db w) !! _).
Qed.

(** ** The repositories *)

Ltac by_insert keeps :=
  apply evolves_insert_row; [first [exact keeps|apply keeps]|]; intros d id x Hx Hok; db_le_tac;
  try (apply rows_le_insert; [apply _|done]).
Ltac by_execute keeps := apply evolves_execute; [first [exact keeps|apply keeps]|]; intros now d Hok; db_le_tac.

Lemma users_create_evolves username display_name h is_admin :
  guar evolves (UserRepository.create username display_name h is_admin).
Proof. by_insert users_create_keeps. Qed.
Lemma touch_login_evolves id : guar evolves (UserRepository.touch_login id).
Proof. by_execute touch_login_keeps. Qed.
Lemma set_active_evolves id b : guar evolves (UserRepository.set_active id b).
Proof. by_execute set_active_keeps. Qed.
Lemma by_username_evolves u : guar evolves (UserRepository.by_username u).
Proof. unfold UserRepository.by_username. destruct (pg_text u); [apply evolves_query|done]. Qed.

Lemma devices_create_evolves user label key platform version status det :
  guar evolves (DeviceRepository.create user label key platform version status det).
Proof.
  pose proof (devices_create_keeps user label key platform version status det) as Hk. revert Hk.
  unfold DeviceRepository.create. destruct (attestation_in status), (jsonb det); try done. intros Hk.
  by_insert Hk.
Qed.
Lemma device_touch_evolves id : guar evolves (DeviceRepository.touch_seen id).
Proof. by_execute device_touch_keeps. Qed.
Lemma device_block_evolves id r : guar evolves (DeviceRepository.block id r).
Proof.
  pose proof (device_block_keeps id r) as Hk. revert Hk. unfold DeviceRepository.block.
  destruct (pg_text r); [intros Hk; by_execute Hk|done].
Qed.

Lemma codes_create_evolves user h by_ ttl : guar evolves (EnrollmentRepository.create user h by_ ttl).
Proof. by_insert codes_create_keeps. Qed.

Lemma code_used_le now r : e_used_at r = None -> code_le r (EnrollmentRepository.used now r).
Proof. intros Hr. repeat split. by left. Qed.

Lemma claim_evolves h : guar evolves (EnrollmentRepository.claim h).
Proof.
  apply evolves_statement; [apply claim_keeps|]. intros w. split; [done|]. split; [done|]. intros Hok. db_le_tac.
  intros k r Hk. rewrite lookup_update_where, Hk. cbn. eexists. split; [done|].
  destruct (EnrollmentRepository.claimable h (w_now w) r) eqn:Ec; [|reflexivity].
  apply code_used_le. unfold EnrollmentRepository.claimable in Ec. bool_to_prop. by destruct (e_used_at r).
Qed.

Lemma attach_device_evolves id dev : guar evolves (EnrollmentRepository.attach_device id dev).
Proof.
  apply evolves_statement; [apply attach_device_keeps|]. intros w. cbn. destruct (_ && _); [done|].
  split; [done|]. split; [done|]. intros Hok. db_le_tac.
  apply rows_le_in_place, in_place_alter; [reflexivity|]. intros r. by repeat split; right.
Qed.

Lemma controllers_register_evolves code name key beacon :
  guar evolves (ControllerRepository.register code name key beacon).
Proof. by_insert controllers_register_keeps. Qed.
Lemma controller_touch_evolves id ip fw : guar evolves (ControllerRepository.touch_seen id ip fw).
Proof.
  pose proof (controller_touch_keeps id ip fw) as Hk. revert Hk.
  unfold ControllerRepository.touch_seen. repeat case_match; try done; intros Hk; by_execute Hk.
Qed.
Lemma controller_block_evolves id r : guar evolves (ControllerRepository.block id r).
Proof.
  pose proof (controller_block_keeps id r) as Hk. revert Hk. unfold ControllerRepository.block.
  destruct (pg_text r); [intros Hk; by_execute Hk|done].
Qed.
Lemma by_code_evolves c : guar evolves (ControllerRepository.by_code c).
Proof. unfold ControllerRepository.by_code. destruct (pg_text c); [apply evolves_query|done]. Qed.

Lemma doors_create_evolves code name location c relay secs :
  guar evolves (DoorRepository.create code name location c relay secs).
Proof. by_insert doors_create_keeps. Qed.

Lemma grant_evolves user door by_ mask st en tz until :
  guar evolves (PermissionRepository.grant user door by_ mask st en tz until).
Proof.
  pose proof (grant_keeps user door by_ mask st en tz until) as Hk. revert Hk.
  unfold PermissionRepository.grant. destruct (pg_time st) as [s|], (pg_time en) as [e|], (pg_text tz);
    try done. intros Hk. apply evolves_statement; [exact Hk|]. intros w. cbn.
  repeat (case_match; cbn); (split; [done|split; [done|]]); try done; intros Hok; db_le_tac.
Qed.
Lemma permission_revoke_evolves id : guar evolves (PermissionRepository.revoke id).
Proof. by_execute permission_revoke_keeps. Qed.
Lemma effective_evolves u d : guar evolves (PermissionRepository.effective u d).
Proof. apply guar_bind; [apply evolves_query|intros r; apply guar_of_option]. Qed.

(** *** Tokens *)

Lemma token_used_le now t : token_le t (TokenRepository.used now t).
Proof.
  split; [apply used_same|]. do 2 (split; [done|]). split; [|by right]. cbn. destruct (t_used_at t); [by right|by left].
Qed.
Lemma token_revoked_le reason now t : token_le t (TokenRepository.revoked reason now t).
Proof.
  split; [apply revoked_same|]. unfold TokenRepository.revoked.
  destruct (t_revoked_at t) eqn:E; do 2 (split; [done|]); split; cbn; try (by right).
  by left.
Qed.

Lemma tokens_insert_evolves family user device kind h ttl parent :
  guar evolves (TokenRepository.insert family user device kind h ttl parent).
Proof. by_insert tokens_insert_keeps. Qed.
Lemma mark_used_evolves id : guar evolves (TokenRepository.mark_used id).
Proof. by_execute mark_used_keeps. apply rows_le_in_place, in_place_alter; [reflexivity|apply token_used_le]. Qed.
Lemma token_revoke_evolves id r : guar evolves (TokenRepository.revoke id r).
Proof. by_execute token_revoke_keeps. apply rows_le_in_place, in_place_alter; [reflexivity|apply token_revoked_le]. Qed.
Lemma revoke_where_evolves P r : guar evolves (TokenRepository.revoke_where P r).
Proof.
  apply evolves_statement; [apply revoke_where_keeps|]. intros w. split; [done|]. split; [done|]. intros Hok. db_le_tac.
  apply rows_le_in_place, in_place_update; [reflexivity|apply token_revoked_le].
Qed.

(** *** Failures and the audit log *)

Lemma record_failure_evolves s subj ep ip : guar evolves (RateLimitRepository.record_failure s subj ep ip).
Proof.
  pose proof (record_failure_keeps s subj ep ip) as Hk. revert Hk.
  unfold RateLimitRepository.record_failure. repeat case_match; try done; intros Hk; by_execute Hk;
    by eexists.
Qed.
Lemma failure_count_evolves s subj win ep : guar evolves (RateLimitRepository.failure_count s subj win ep).
Proof. unfold RateLimitRepository.failure_count. destruct (_ && _); [apply evolves_query|done]. Qed.

Lemma append_evolves event outcome a : guar evolves (AuditRepository.append event outcome a).
Proof.
  apply guar_bind; [|intros r]; apply guar_atomic; intros w; cbn.
  - destruct (AuditRepository.new_row _ _ _ _ _); [|reflexivity]. split; [cbn; lia| |reflexivity].
    db_le_tac. by intros [].
  - split; [cbn; lia| |reflexivity]. db_le_tac; [by intros []|by eexists].
Qed.
Lemma appended_evolves r w : evolves w (appended r w).
Proof. split; [cbn; lia| |reflexivity]. db_le_tac; [by intros []|by eexists]. Qed.
Lemma latest_evolves P n : guar evolves (AuditRepository.latest P n).
Proof. apply guar_bind; [apply evolves_query|intros r; apply guar_of_option]. Qed.

End statements.

(** ** The hub *)

Lemma evolves_hub (f : World -> ControllerHub) :
  (forall w, hub_le (w_hub w) (f w)) -> guar evolves (atomic (fun w => (set_hub (f w) w, OK tt)) : io unit).
Proof. intros Hf. apply guar_atomic. intros w. split; [cbn; lia|reflexivity|apply Hf]. Qed.

(** The futures change as [futures_grow] says and none is created. *)
Lemma hub_le_grows h h' :
  (h_next h <= h_next h')%nat -> futures_grow h h' ->
  (forall f, is_Some (h_future_heap h' !! f) -> is_Some (h_future_heap h !! f)) -> hub_le h h'.
Proof.
  intros Hn Hg Hd. split; [done|]. intros Hf. split; [done|]. intros f Hs%Hd%Hf. lia.
Qed.

Lemma settle_dom v f h g : is_Some (h_future_heap (settle v f h) !! g) -> is_Some (h_future_heap h !! g).
Proof.
  unfold settle. destruct (h_future_heap h !! f) as [[]|] eqn:E; try done. cbn.
  destruct (decide (g = f)) as [->|]; [by rewrite E|by rewrite lookup_insert_ne].
Qed.

Lemma fail_pending_dom msg s h g :
  is_Some (h_future_heap (fail_pending msg s h) !! g) -> is_Some (h_future_heap h !! g).
Proof. cbn. rewrite map_lookup_imap. by destruct (h_future_heap h !! g). Qed.

Lemma registered_le s h : hub_le h (ControllerHub.registered s h).
Proof.
  apply hub_le_grows; [|apply registered_grows|]; unfold ControllerHub.registered;
    destruct (h_sessions h !! ControllerHub.code_of h s); try done; intros f; apply fail_pending_dom.
Qed.

Lemma unregistered_le code s h : hub_le h (ControllerHub.unregistered code s h).
Proof.
  apply hub_le_grows; [|apply unregistered_grows|]; unfold ControllerHub.unregistered;
    case_bool_decide; try done; intros f; by intros ?%fail_pending_dom.
Qed.

Lemma resolved_le {PR : PyRepr} s m h : hub_le h (ControllerHub.resolved s m h).
Proof.
  apply hub_le_grows; [|apply resolved_grows|]; unfold ControllerHub.resolved, settle;
    destruct (pending_of h s !! _) as [g|]; try done; destruct (h_future_heap h !! g) as [[]|] eqn:E; try done.
  intros f Hs. cbn in Hs. destruct (decide (f = g)) as [->|]; [by eexists|by rewrite lookup_insert_ne in Hs].
Qed.

(** The sessions alone change. *)
Lemma hub_le_sessions h h' :
  h_future_heap h' = h_future_heap h -> (h_next h <= h_next h')%nat -> hub_le h h'.
Proof.
  intros E Hn. apply hub_le_grows; [done| |by rewrite E]. intros f v Hf. rewrite E. exists v. split; [done|by right].
Qed.

Lemma set_pending_le s g h : hub_le h (ControllerHub.set_pending s g h).
Proof. by apply hub_le_sessions. Qed.

Lemma expect_le s c h : hub_le h (ControllerHub.expect s c h).1.
Proof.
  split; [cbn; lia|]. intros Hf. cbn. split.
  - intros f v Hv. cbn. destruct (decide (f = h_next h)) as [->|].
    + exfalso. assert (h_next h < h_next h)%nat; [|lia]. apply Hf. by eexists.
    + rewrite lookup_insert_ne by done. exists v. split; [done|by right].
  - intros f Hs. cbn in *. destruct (decide (f = h_next h)) as [->|]; [lia|].
    rewrite lookup_insert_ne in Hs by done. apply Hf in Hs. lia.
Qed.

Lemma register_evolves s : guar evolves (ControllerHub.register s).
Proof. apply evolves_hub. intros w. apply registered_le. Qed.
Lemma unregister_evolves code s : guar evolves (ControllerHub.unregister code s).
Proof. apply evolves_hub. intros w. apply unregistered_le. Qed.
Lemma resolve_evolves {PR : PyRepr} s m : guar evolves (ControllerHub.resolve s m).
Proof. apply evolves_hub. intros w. apply resolved_le. Qed.
Lemma new_session_evolves id code ip fw : guar evolves (new_session id code ip fw).
Proof. apply guar_atomic. intros w. split; [cbn; lia|reflexivity|]. apply hub_le_sessions; [done|cbn; lia]. Qed.
Lemma wait_for_evolves f t : guar evolves (ControllerHub.wait_for f t).
Proof.
  apply guar_atomic. intros w. destruct (h_future_heap (w_hub w) !! f) as [[]|]; try reflexivity;
    split; (reflexivity || (cbn; lia)).
Qed.

(** What runs while a send is awaited are steps of the same kind. *)
Class TransportEvolves {TR : Transport} := ws_send_evolves : forall s t w, evolves w (ws_send s t w).1.

Section send.
Context {TR : Transport} {TE : TransportEvolves}.

Lemma send_evolves s t : guar evolves (send s t).
Proof.
  apply guar_atomic. intros w. pose proof (ws_send_evolves s t w) as H. by destruct (ws_send s t w).
Qed.

Lemma send_command_evolves code envelope timeout : guar evolves (ControllerHub.send_command code envelope timeout).
Proof.
  apply guar_bind; [|intros [[s f] c]; apply guar_finally; [apply guar_catch|]].
  - apply guar_atomic. intros w. destruct (h_sessions (w_hub w) !! code); [|reflexivity].
    destruct (ControllerHub.envelope_command_id envelope); [|reflexivity].
    split; [cbn; lia|reflexivity|]. apply expect_le.
  - apply guar_bind; [apply send_evolves|intros _; apply wait_for_evolves].
  - intros e q He. destruct e; simplify_eq. done.
  - apply evolves_hub. intros w. apply set_pending_le.
Qed.
End send.

(** ** Security, rate limits, the signer *)

Section services.
Context {EN : Entropy} {PG : Postgres} {AR : Argon2} {PR : PyRepr} {SK : SignerSocket} (settings : Settings).

Lemma sleep_evolves d : guar evolves (sleep_usec d).
Proof. apply evolves_frame. intros w. split_and!; try done; cbn; lia. Qed.
Lemma new_token_evolves : guar evolves new_token.
Proof. apply evolves_frame. intros w. split_and!; try done; cbn; lia. Qed.
Lemma hash_password_evolves p : guar evolves (hash_password settings p).
Proof. unfold hash_password. destruct (encode_utf8 p); [|done]. apply evolves_frame. intros w. split_and!; done. Qed.
Lemma burn_evolves : guar evolves (burn_password_time settings).
Proof.
  apply guar_bind; [|intros st; apply guar_bind; [apply evolves_of_outcome|done]].
  apply evolves_frame. intros w. by destruct (w_dummy_hash_cache w !! _).
Qed.
Lemma fixed_duration_evolves {A} ms (body : io A) : guar evolves body -> guar evolves (fixed_duration ms body).
Proof.
  intros Hb. apply guar_bind; [apply evolves_reads|intros t]. apply guar_finally; [done|].
  apply guar_bind; [apply evolves_reads|]. intros e. cbv zeta. destruct (0 <? _); [apply sleep_evolves|done].
Qed.

Lemma remember_evolves st subj : guar evolves (RateLimiter._remember settings st subj).
Proof. apply evolves_frame. intros w. split_and!; try done; cbn; lia. Qed.
Lemma check_login_evolves u ip : guar evolves (RateLimiter.check_login settings u ip).
Proof.
  apply guar_bind; [apply failure_count_evolves|intros n]. apply guar_bind; [|done].
  destruct (RateLimiter.present ip); [apply failure_count_evolves|done].
Qed.
Lemma check_unlock_evolves u d : guar evolves (RateLimiter.check_unlock settings u d).
Proof. apply guar_bind; [apply evolves_query|]. intros n. by destruct (_ <=? n). Qed.
Lemma record_login_failure_evolves u ip ep : guar evolves (RateLimiter.record_login_failure settings u ip ep).
Proof.
  apply guar_bind; [apply record_failure_evolves|intros _].
  apply guar_bind; [apply remember_evolves|intros _]. destruct (RateLimiter.present ip) as [p|]; [|done].
  apply guar_bind; [apply record_failure_evolves|intros _].
  by apply guar_bind; [apply remember_evolves|].
Qed.
Lemma apply_delay_evolves d : guar evolves (RateLimiter.apply_delay d).
Proof. unfold RateLimiter.apply_delay. destruct (0 <? _); [apply sleep_evolves|done]. Qed.

Ltac by_client :=
  unfold SignerClient.sign_command, SignerClient.public_key, SignerClient.unpack,
    SignerClient.checked_response, SignerClient._request;
  repeat first [apply guar_bind; [|intros ?] | apply evolves_reads | apply guar_of_option | done | case_match].

Lemma sign_command_evolves c : guar evolves (SignerClient.sign_command c).
Proof. by_client. Qed.
Lemma public_key_evolves : guar evolves SignerClient.public_key.
Proof. by_client. Qed.
End services.

Create HintDb evolves.
#[export] Hint Resolve evolves_query evolves_reads evolves_of_outcome users_create_evolves
  touch_login_evolves set_active_evolves by_username_evolves devices_create_evolves
  device_touch_evolves device_block_evolves codes_create_evolves claim_evolves
  attach_device_evolves controllers_register_evolves controller_touch_evolves
  controller_block_evolves by_code_evolves doors_create_evolves grant_evolves
  permission_revoke_evolves effective_evolves tokens_insert_evolves mark_used_evolves
  token_revoke_evolves revoke_where_evolves record_failure_evolves failure_count_evolves
  append_evolves latest_evolves register_evolves unregister_evolves resolve_evolves
  new_session_evolves wait_for_evolves send_evolves send_command_evolves sleep_evolves
  new_token_evolves hash_password_evolves burn_evolves check_login_evolves check_unlock_evolves
  record_login_failure_evolves apply_delay_evolves sign_command_evolves public_key_evolves : evolves.

(** A composite of known parts: walk its sequencing and its case analyses. *)
Ltac evolves_step :=
  first [ done
        | solve [auto 1 with evolves]
        | apply guar_bind; [|intros ?]
        | apply guar_finally
        | apply guar_catch; [|intros ? ? ?; simplify_eq]
        | apply fixed_duration_evolves
        | apply guar_of_option
        | progress cbv zeta
        | case_match ].
Ltac evolves_tac := repeat evolves_step.

(** Along a run the constraints are kept. *)
Lemma run_db_ok {A} (p : io A) w w' o :
  guar evolves p -> run p w = (w', o) -> db_ok (w_db w) -> db_ok (w_db w').
Proof. intros Hp Hr. apply le_ok, ev_db. by eapply guar_run; [apply _| |]. Qed.
