(* ===== verification/Auth.v ===== *)
(** * Login, refresh rotation, sessions: [app/services/auth_service.py] *)

From S2P Require Import Prelude Text Sha256 Clock Json Config Errors Proc World Demo AuditLog Repos Schema Signer Security RateLimit Hub Evolve.

(* @src backend/app/services/auth_service.py * Session *)
Record Session := {
  se_user_id : uuid; se_device_id : uuid; se_username : pystr; se_display_name : pystr;
  se_is_admin : bool; se_token_id : uuid; se_family_id : uuid
}.

(* @src backend/app/services/auth_service.py * IssuedTokens *)
Record IssuedTokens := {
  it_access_token : pystr; it_refresh_token : pystr; it_expires_in : Z; it_family_id : uuid
}.

Definition auth_error {A} (reason : pystr) : io A := Raise (EApi (AuthenticationError reason)).

Module AuthService.
Section service.
Context {EN : Entropy} {PG : Postgres} {AR : Argon2} (settings : Settings).

(* @src backend/app/services/auth_service.py * AuthService.issue_pair *)
Definition issue_pair (user_id device_id : uuid) (family_id parent_id : option uuid) : io IssuedTokens :=
  family ← match family_id with
           | Some f => Ret f
           | None => atomic (fun w => let '(w, u) := uuid4 w in (w, OK u))
           end;
  access ← new_token;
  refresh ← new_token;
  access_hash ← of_outcome (hash_token settings access);
  _ ← TokenRepository.insert family user_id device_id access_kind access_hash
        (access_token_ttl settings) parent_id;
  refresh_hash ← of_outcome (hash_token settings refresh);
  _ ← TokenRepository.insert family user_id device_id refresh_kind refresh_hash
        (refresh_token_ttl settings) parent_id;
  Ret {| it_access_token := access; it_refresh_token := refresh;
         it_expires_in := access_token_ttl settings; it_family_id := family |}.

(** [settings.attestation_mode == "strict" and status != "verified"] *)
(* @src backend/app/services/auth_service.py 135-138 AuthService.login *)
Definition unattested (status : attestation_status) : bool :=
  bool_decide (attestation_mode settings = strict) && negb (bool_decide (status = att_verified)).

(* @src backend/app/services/auth_service.py * AuthService.login *)
Definition login (username password : pystr) (device_id : uuid) (client_ip : option pystr)
    : io IssuedTokens :=
  user ← UserRepository.by_username username;
  match user with
  | None =>
      _ ← burn_password_time settings;
      auth_error §"unknown_user"
  | Some (user_id, user) =>
      matches ← of_outcome (verify_password (u_password_hash user) password);
      if negb matches then auth_error §"bad_password"
      else if negb (u_is_active user) then
        _ ← burn_password_time settings;
        auth_error §"user_disabled"
      else
        device ← DeviceRepository.by_id device_id;
        match device with
        | None => auth_error §"device_not_bound"
        | Some device =>
            if negb (d_user_id device =? user_id) then auth_error §"device_not_bound"
            else if d_is_blocked device then auth_error §"device_blocked"
            else if unattested (d_attestation_status device) then auth_error §"device_not_attested"
            else
              pair ← issue_pair user_id device_id None None;
              _ ← UserRepository.touch_login user_id;
              _ ← DeviceRepository.touch_seen device_id;
              _ ← AuditService.success AUTH_LOGIN
                    {| actor_type := §"user"; actor_id := Some user_id; device_id := Some device_id;
                       door_id := None; controller_id := None; client_ip := client_ip;
                       detail := [(§"family_id", JStr (uuid_str (it_family_id pair)))] |};
              Ret pair
        end
  end.

(** The part of [refresh] for a token that was already rotated. *)
(* @src backend/app/services/auth_service.py 165-180 AuthService.refresh *)
Definition refresh_replay (record : token_record) (used_at : instant) (client_ip : option pystr)
    : io IssuedTokens :=
  let t := tr_token record in
  revoked ← TokenRepository.revoke_family (t_family_id t) §"refresh token reuse detected";
  _ ← AuditService.failure AUTH_REFRESH_REUSE
        {| actor_type := §"device"; actor_id := Some (t_user_id t); device_id := Some (t_device_id t);
           door_id := None; controller_id := None; client_ip := client_ip;
           detail := [(§"family_id", JStr (uuid_str (t_family_id t))); (§"tokens_revoked", JInt revoked);
                      (§"first_used_at", JStr (isoformat used_at))] |};
  auth_error §"refresh_reuse".

(** The rotation of a live token. *)
(* @src backend/app/services/auth_service.py 185-202 AuthService.refresh *)
Definition refresh_rotate (record : token_record) (client_ip : option pystr) : io IssuedTokens :=
  let t := tr_token record in
  _ ← TokenRepository.mark_used (tr_id record);
  _ ← TokenRepository.revoke (tr_id record) §"rotated";
  pair ← issue_pair (t_user_id t) (t_device_id t) (Some (t_family_id t)) (Some (tr_id record));
  _ ← AuditService.success AUTH_REFRESH
        {| actor_type := §"user"; actor_id := Some (t_user_id t); device_id := Some (t_device_id t);
           door_id := None; controller_id := None; client_ip := client_ip;
           detail := [(§"family_id", JStr (uuid_str (t_family_id t)))] |};
  Ret pair.

(** What [refresh] does with the row it looked up. *)
(* @src backend/app/services/auth_service.py 159-202 AuthService.refresh *)
Definition refresh_found (record : option token_record) (client_ip : option pystr) : io IssuedTokens :=
  match record with
  | None => auth_error §"unknown_refresh_token"
  | Some record =>
      match t_used_at (tr_token record) with
      | Some used_at => refresh_replay record used_at client_ip
      | None =>
          now ← reads w_now;
          if negb (TokenRepository.is_live record now) then auth_error §"refresh_not_live"
          else refresh_rotate record client_ip
      end
  end.

(* @src backend/app/services/auth_service.py * AuthService.refresh *)
Definition refresh (refresh_token : pystr) (client_ip : option pystr) : io IssuedTokens :=
  h ← of_outcome (hash_token settings refresh_token);
  record ← TokenRepository.lookup h refresh_kind;
  refresh_found record client_ip.

(* @src backend/app/services/auth_service.py 214-222 AuthService.resolve_access_token *)
Definition session_of (record : token_record) : Session := {|
  se_user_id := t_user_id (tr_token record); se_device_id := t_device_id (tr_token record);
  se_username := tr_username record; se_display_name := tr_display_name record;
  se_is_admin := tr_user_is_admin record; se_token_id := tr_id record;
  se_family_id := t_family_id (tr_token record) |}.

(* @src backend/app/services/auth_service.py * AuthService.resolve_access_token *)
Definition resolve_access_token (token : pystr) : io Session :=
  h ← of_outcome (hash_token settings token);
  record ← TokenRepository.lookup h access_kind;
  now ← reads w_now;
  match record with
  | None => auth_error §"access_token_not_live"
  | Some record =>
      if negb (TokenRepository.is_live record now) then auth_error §"access_token_not_live"
      else if unattested (tr_attestation_status record) then auth_error §"device_not_attested"
      else Ret (session_of record)
  end.

(* @src backend/app/services/auth_service.py * AuthService.logout *)
Definition logout (session : Session) (all_devices : bool) (client_ip : option pystr) : io Z :=
  revoked ←
    (if all_devices
     then TokenRepository.revoke_device_sessions (se_device_id session) §"logout_all"
     else TokenRepository.revoke_family (se_family_id session) §"logout");
  _ ← AuditService.success AUTH_LOGOUT
        {| actor_type := §"user"; actor_id := Some (se_user_id session);
           device_id := Some (se_device_id session); door_id := None; controller_id := None;
           client_ip := client_ip;
           detail := [(§"tokens_revoked", JInt revoked); (§"all_devices", JBool all_devices)] |};
  Ret revoked.

(* @src backend/app/services/auth_service.py * AuthService.create_user *)
Definition create_user (username display_name password : pystr) (is_admin : bool) : io uuid :=
  h ← hash_password settings password;
  UserRepository.create username display_name h is_admin.

End service.
End AuthService.

Import AuthService.

(** ** What the lookups find *)

(** The row behind a token, with its user and its device. *)
Record token_at (d : Db) (h : bytes) (k : token_kind) (id : uuid) (t : token_row)
    (u : user_row) (dv : device_row) : Prop := {
  at_row : tokens d !! id = Some t;
  at_hash : t_token_hash t = h;
  at_kind : t_kind t = k;
  at_user : users d !! t_user_id t = Some u;
  at_device : devices d !! t_device_id t = Some dv
}.

Definition record_of (id : uuid) (t : token_row) (u : user_row) (dv : device_row) : token_record := {|
  tr_id := id; tr_token := t; tr_user_active := u_is_active u; tr_user_is_admin := u_is_admin u;
  tr_display_name := u_display_name u; tr_username := u_username u;
  tr_device_blocked := d_is_blocked dv; tr_attestation_status := d_attestation_status dv |}.

Lemma lookup_in_some d h k r :
  TokenRepository.lookup_in d h k = Some r ->
  exists id t u dv, token_at d h k id t u dv /\ r = record_of id t u dv.
Proof.
  unfold TokenRepository.lookup_in. intros Hh.
  assert (Hin : r ∈ omap (fun kt => TokenRepository.join d kt.1 kt.2)
    (select (fun t => bool_decide (t_token_hash t = h) && bool_decide (t_kind t = k)) (tokens d))).
  { destruct (omap _ _); [done|]. injection Hh as ->. left. }
  apply list_elem_of_omap in Hin as ([id t] & Hin & Hj). apply elem_of_select in Hin as [Ht HP].
  bool_to_prop. cbn in Hj. apply bind_Some in Hj as (u & Hu & Hj).
  apply bind_Some in Hj as (dv & Hdv & Hj). injection Hj as <-. by exists id, t, u, dv.
Qed.

Lemma token_at_inj d h k k' id t u dv id' t' u' dv' :
  db_ok d -> token_at d h k id t u dv -> token_at d h k' id' t' u' dv' ->
  id' = id /\ t' = t /\ u' = u /\ dv' = dv.
Proof.
  intros Hd [H1 H2 _ H4 H5] [G1 G2 _ G4 G5]. destruct (ok_tokens d Hd) as [Hu _].
  assert (id' = id) as -> by (eapply Hu; try done; congruence). repeat split; congruence.
Qed.

Lemma lookup_in_at d h k id t u dv :
  db_ok d -> token_at d h k id t u dv -> TokenRepository.lookup_in d h k = Some (record_of id t u dv).
Proof.
  intros Hd Hat. pose proof Hat as [Hrow Hh Hk Hu Hdv]. unfold TokenRepository.lookup_in.
  pose (P := fun t => bool_decide (t_token_hash t = h) && bool_decide (t_kind t = k)).
  assert (Hf : fetchrow P (tokens d) = Some (id, t)).
  { apply fetchrow_unique; [done|subst P; cbn; by rewrite !bool_decide_true|].
    intros id' t' Ht' HP. subst P. cbn in HP. bool_to_prop. destruct (ok_tokens d Hd) as [Huq _].
    eapply Huq; try done. congruence. }
  unfold fetchrow in Hf. subst P. destruct (select _ (tokens d)) as [|kt l]; [done|].
  cbn in Hf. injection Hf as ->. cbn. unfold TokenRepository.join. rewrite Hu. cbn. by rewrite Hdv.
Qed.

Lemma lookup_in_none d h k :
  (forall id t, tokens d !! id = Some t -> t_token_hash t = h -> t_kind t <> k) ->
  TokenRepository.lookup_in d h k = None.
Proof.
  intros Hn. destruct (TokenRepository.lookup_in d h k) as [r|] eqn:E; [|done].
  apply lookup_in_some in E as (id & t & u & dv & [] & _). by destruct (Hn id t).
Qed.

(** ** Sessions *)

Section sessions.
Context {EN : Entropy} {PG : Postgres} {AR : Argon2} (settings : Settings).

(** What makes a bearer token good at an instant. *)
Record session_valid (d : Db) (now : instant) (h : bytes) (s : Session) (t : token_row) (u : user_row)
    (dv : device_row) : Prop := {
  sv_at : token_at d h access_kind (se_token_id s) t u dv;
  sv_revoked : t_revoked_at t = None;
  sv_fresh : now < t_expires_at t;
  sv_active : u_is_active u = true;
  sv_blocked : d_is_blocked dv = false;
  sv_attested : attestation_mode settings = strict -> d_attestation_status dv = att_verified;
  sv_session : s = session_of (record_of (se_token_id s) t u dv)
}.

Definition denies {A} (o : outcome Exn A) : Prop := exists r, o = ERR (EApi (AuthenticationError r)).

Lemma unattested_false st :
  unattested settings st = false <-> (attestation_mode settings = strict -> st = att_verified).
Proof.
  unfold unattested. repeat case_bool_decide; cbn; naive_solver.
Qed.

(** The read-only body of [resolve_access_token]. *)
Lemma run_resolve token h w :
  hash_token settings token = OK h ->
  run (resolve_access_token settings token) w =
  (w, match TokenRepository.lookup_in (w_db w) h access_kind with
      | None => ERR (EApi (AuthenticationError §"access_token_not_live"))
      | Some r =>
          if negb (TokenRepository.is_live r (w_now w)) then ERR (EApi (AuthenticationError §"access_token_not_live"))
          else if unattested settings (tr_attestation_status r)
          then ERR (EApi (AuthenticationError §"device_not_attested"))
          else OK (session_of r)
      end).
Proof.
  intros Hh. unfold resolve_access_token. rewrite Hh. run_simpl. cbn [of_outcome].
  unfold TokenRepository.lookup. run_simpl.
  destruct (TokenRepository.lookup_in (w_db w) h access_kind) as [r|]; [|done].
  destruct (negb _); [done|]. by destruct (unattested _ _).
Qed.

Lemma live_iff id t u dv now :
  TokenRepository.is_live (record_of id t u dv) now = true <->
  t_revoked_at t = None /\ now < t_expires_at t /\ u_is_active u = true /\ d_is_blocked dv = false.
Proof.
  unfold TokenRepository.is_live. cbn. destruct (t_revoked_at t); cbn; [by intuition|].
  destruct (u_is_active u), (d_is_blocked dv); cbn; rewrite ?andb_true_r, ?andb_false_r, ?Z.ltb_lt; intuition done.
Qed.

End sessions.

(** A bearer token is accepted exactly when a live access token with its
    hash is stored: not revoked, not expired, of an active user, on a device
    that is not blocked and, in strict mode, attested. The session it gives is
    the one of that row; resolving changes nothing; every other token is
    refused with an authentication error. *)
Theorem resolve_access_token_spec settings token h w :
  db_ok (w_db w) -> hash_token settings token = OK h ->
  exists o, run (resolve_access_token settings token) w = (w, o) /\
    match o with
    | OK s => exists t u dv, session_valid settings (w_db w) (w_now w) h s t u dv
    | ERR e => denies (ERR e : outcome Exn Session)
               /\ forall s t u dv, ~ session_valid settings (w_db w) (w_now w) h s t u dv
    end.
Proof.
  intros Hd Hh. eexists. split; [by apply run_resolve|].
  destruct (TokenRepository.lookup_in (w_db w) h access_kind) as [r|] eqn:El.
  - apply lookup_in_some in El as (id & t & u & dv & Hat & ->).
    destruct (TokenRepository.is_live (record_of id t u dv) (w_now w)) eqn:Elive; cbn [negb].
    + apply live_iff in Elive as (L1 & L2 & L3 & L4).
      destruct (unattested settings _) eqn:Eatt.
      * split; [by eexists|]. intros s t' u' dv' [Hat' _ _ _ _ Ha _].
        destruct (token_at_inj _ _ _ _ _ _ _ _ _ _ _ _ Hd Hat Hat') as (_ & -> & -> & ->).
        apply unattested_false in Ha. cbn in Eatt; congruence.
      * exists t, u, dv. split; try done. by apply unattested_false.
    + split; [by eexists|]. intros s t' u' dv' [Hat' G1 G2 G3 G4 _ _].
      destruct (token_at_inj _ _ _ _ _ _ _ _ _ _ _ _ Hd Hat Hat') as (_ & -> & -> & ->).
      assert (TokenRepository.is_live (record_of id t u dv) (w_now w) = true) by by apply live_iff. congruence.
  - split; [by eexists|]. intros s t u dv [Hat _ _ _ _ _ _].
    by rewrite (lookup_in_at _ _ _ _ _ _ _ Hd Hat) in El.
Qed.

(** ** Issuing a pair *)

Section issue.
Context {EN : Entropy} {PG : Postgres} {AR : Argon2} (settings : Settings).

Definition issued_row (family user device : uuid) (kind : token_kind) (h : bytes) (ttl : Z)
    (parent : option uuid) (now : instant) : token_row := {|
  t_family_id := family; t_user_id := user; t_device_id := device; t_kind := kind;
  t_token_hash := h; t_parent_id := parent; t_issued_at := now;
  t_expires_at := now + seconds ttl; t_used_at := None; t_revoked_at := None;
  t_revoked_reason := None |}.

Lemma run_token_insert family user device kind h ttl parent w w' id :
  run (TokenRepository.insert family user device kind h ttl parent) w = (w', OK id) ->
  w_db w' = with_tokens (<[id := issued_row family user device kind h ttl parent (w_now w)]>
                           (tokens (w_db w))) (w_db w)
  /\ w_now w' = w_now w /\ w_hub w' = w_hub w /\ tokens (w_db w) !! id = None /\ 0 < ttl
  /\ is_Some (users (w_db w) !! user) /\ is_Some (devices (w_db w) !! device).
Proof.
  unfold TokenRepository.insert. rewrite run_insert_row. destruct (violation _) eqn:Ev; [done|].
  intros [= <- <-]. apply violation_none in Ev. rewrite !Forall_app, !Forall_cons in Ev.
  cbn [fst] in Ev. destruct_and! Ev. bool_to_prop. unfold exists_in in *.
  repeat split; try done; try (by apply is_some_true).
  by destruct (tokens (w_db w) !! _).
Qed.

(** What a pair that was issued has stored: two rows of one family. *)
Record pair_issued (user device : uuid) (family parent : option uuid) (w w' : World)
    (pair : IssuedTokens) (ha hr : bytes) (ida idr : uuid) : Prop := {
  pi_access : hash_token settings (it_access_token pair) = OK ha;
  pi_refresh : hash_token settings (it_refresh_token pair) = OK hr;
  pi_family : from_option (fun f => it_family_id pair = f)
                (it_family_id pair = uuid4_of_bytes (csprng (w_draws w) 16)) family;
  pi_db : w_db w' =
    with_tokens
      (<[idr := issued_row (it_family_id pair) user device refresh_kind hr (refresh_token_ttl settings) parent (w_now w)]>
        (<[ida := issued_row (it_family_id pair) user device access_kind ha (access_token_ttl settings) parent (w_now w)]>
          (tokens (w_db w)))) (w_db w);
  pi_fresh : tokens (w_db w) !! ida = None /\ tokens (w_db w) !! idr = None /\ ida <> idr;
  pi_now : w_now w' = w_now w;
  pi_hub : w_hub w' = w_hub w;
  pi_ttl : 0 < access_token_ttl settings;
  pi_expires : it_expires_in pair = access_token_ttl settings
}.

Lemma run_issue_pair user device family parent w w' pair :
  run (issue_pair settings user device family parent) w = (w', OK pair) ->
  exists ha hr ida idr, pair_issued user device family parent w w' pair ha hr ida idr.
Proof.
  unfold issue_pair. intros Hr.
  apply run_bind_ok in Hr as (w1 & f & Hf & Hr).
  assert (w_db w1 = w_db w /\ w_now w1 = w_now w /\ w_hub w1 = w_hub w
          /\ from_option (fun g => f = g) (f = uuid4_of_bytes (csprng (w_draws w) 16)) family) as (Ed1 & En1 & Eh1 & Ef).
  { destruct family as [g|]; cbn in Hf; by simplify_eq/=. }
  apply run_bind_ok in Hr as (w2 & a & [= <- Ea] & Hr).
  apply run_bind_ok in Hr as (w3 & r & [= <- Er] & Hr).
  rewrite run_bind, run_of_outcome in Hr. destruct (hash_token settings a) as [ha|] eqn:Ha; [|done].
  apply run_bind_ok in Hr as (w4 & ida & H4 & Hr).
  apply run_token_insert in H4 as (Ed4 & En4 & Eh4 & Fa & Httl & _ & _). cbn in Ed4, En4, Eh4, Fa.
  rewrite run_bind, run_of_outcome in Hr. destruct (hash_token settings r) as [hr|] eqn:Hr'; [|done].
  apply run_bind_ok in Hr as (w5 & idr & H5 & [= <- <-]).
  apply run_token_insert in H5 as (Ed5 & En5 & Eh5 & Fr & _ & _ & _).
  rewrite Ed4 in Ed5, Fr. cbn in Ed5, Fr.
  exists ha, hr, ida, idr. split; try done; cbn; try congruence.
  - rewrite Ed5, Ed1, En4, En1. done.
  - rewrite Ed1 in Fa, Fr. split; [done|]. apply lookup_insert_None in Fr as [? ?]. by split.
Qed.

(** What follows a pair in the same request leaves the tokens alone. *)
Lemma run_success event a w w' n :
  run (AuditService.success event a) w = (w', OK n) ->
  exists r, AuditRepository.new_row (event_value event) §"success" a (audit_seq (w_db w) + 1) (w_now w) = Some r
            /\ w' = appended r w.
Proof.
  unfold AuditService.success, AuditService.record. rewrite run_append.
  destruct (AuditRepository.new_row _ _ _ _ _) as [r|]; [|done]. intros [= <- _]. by exists r.
Qed.

End issue.

(** ** Login *)

(** Who may log in, with which user and device rows. *)
Record may_login `{AR : Argon2} (settings : Settings) (d : Db) (username password : pystr) (device_id user_id : uuid)
    (u : user_row) (dv : device_row) : Prop := {
  ml_user : users d !! user_id = Some u;
  ml_name : lower (u_username u) = lower username;
  ml_password : verify_password (u_password_hash u) password = OK true;
  ml_active : u_is_active u = true;
  ml_device : devices d !! device_id = Some dv;
  ml_owner : d_user_id dv = user_id;
  ml_blocked : d_is_blocked dv = false;
  ml_attested : attestation_mode settings = strict -> d_attestation_status dv = att_verified
}.

(** The last part of a login that was let through. *)
Definition login_issue {EN : Entropy} {PG : Postgres} (settings : Settings) (user_id device_id : uuid)
    (client_ip : option pystr) : io IssuedTokens :=
  pair ← issue_pair settings user_id device_id None None;
  _ ← UserRepository.touch_login user_id;
  _ ← DeviceRepository.touch_seen device_id;
  _ ← AuditService.success AUTH_LOGIN
        {| actor_type := §"user"; actor_id := Some user_id; device_id := Some device_id;
           door_id := None; controller_id := None; client_ip := client_ip;
           detail := [(§"family_id", JStr (uuid_str (it_family_id pair)))] |};
  Ret pair.

Section login.
Context {EN : Entropy} {PG : Postgres} {AR : Argon2} (settings : Settings).

Definition same_name (username : pystr) (u : user_row) : bool :=
  str_eqb (lower (u_username u)) (lower username).

Lemma run_by_username username w :
  pg_text username = true ->
  run (UserRepository.by_username username) w = (w, OK (fetchrow (same_name username) (users (w_db w)))).
Proof. intros Ht. unfold UserRepository.by_username. by rewrite Ht, run_query. Qed.

Lemma by_username_at username d uid u :
  db_ok d -> users d !! uid = Some u -> lower (u_username u) = lower username ->
  fetchrow (same_name username) (users d) = Some (uid, u).
Proof.
  intros Hd Hu Hn. destruct (ok_users d Hd) as [Huq _]. apply fetchrow_unique; [done| |].
  - unfold same_name, str_eqb. by apply bool_decide_true.
  - intros k v Hk Hv. unfold same_name, str_eqb in Hv. bool_to_prop. eapply Huq; try done. congruence.
Qed.

(** A login that may proceed is its issuing part. *)
Lemma login_proceeds username password device_id client_ip w uid u dv :
  db_ok (w_db w) -> pg_text username = true ->
  may_login settings (w_db w) username password device_id uid u dv ->
  run (login settings username password device_id client_ip) w
  = run (login_issue settings uid device_id client_ip) w.
Proof.
  intros Hd Ht [Hu Hn Hp Ha Hdv Ho Hb Hat]. unfold login.
  rewrite run_bind, run_by_username, (by_username_at _ _ _ _ Hd Hu Hn) by done.
  rewrite run_bind, run_of_outcome, Hp. cbn [negb]. rewrite Ha. cbn [negb].
  unfold DeviceRepository.by_id. rewrite run_bind, run_query, Hdv, Ho, Z.eqb_refl, Hb.
  cbn [negb]. apply unattested_false in Hat. by rewrite Hat.
Qed.

Lemma burn_keeps_db w :
  exists w' o, run (burn_password_time settings) w = (w', o) /\ w_db w' = w_db w
    /\ match o with OK _ => True | ERR e => e = ERuntime §"VerificationError" end.
Proof.
  unfold burn_password_time. rewrite run_bind, run_atomic.
  assert (Hv : forall st, match verify_password st §"definitely not the password" with
                          | OK _ => True | ERR e => e = ERuntime §"VerificationError" end).
  { intros st. unfold verify_password. destruct (encode_utf8 _); [destruct (argon2_verify _ _)|]; done. }
  destruct (w_dummy_hash_cache w !! _) as [st|]; cbn [token_bytes]; rewrite run_bind, run_of_outcome;
    match goal with |- context [verify_password ?st _] => specialize (Hv st) end;
    destruct (verify_password _ _); eexists _, _; split_and!; try reflexivity; done.
Qed.
End login.

(** ** The service evolves the world *)

Section auth_evolves.
Context {EN : Entropy} {PG : Postgres} {AR : Argon2} (settings : Settings).

Lemma issue_pair_evolves u d f p : guar evolves (issue_pair settings u d f p).
Proof. unfold issue_pair. evolves_tac. Qed.
Lemma success_evolves ev a : guar evolves (AuditService.success ev a).
Proof. apply append_evolves. Qed.
Lemma failure_evolves ev a : guar evolves (AuditService.failure ev a).
Proof. apply append_evolves. Qed.
Lemma denied_evolves ev a : guar evolves (AuditService.denied ev a).
Proof. apply append_evolves. Qed.
#[local] Hint Resolve issue_pair_evolves success_evolves failure_evolves denied_evolves : evolves.

Lemma login_evolves u p d ip : guar evolves (login settings u p d ip).
Proof. unfold login, auth_error, DeviceRepository.by_id. evolves_tac. Qed.
Lemma login_issue_evolves u d ip : guar evolves (login_issue settings u d ip).
Proof. unfold login_issue. evolves_tac. Qed.
Lemma refresh_replay_evolves r u ip : guar evolves (refresh_replay r u ip).
Proof. unfold refresh_replay, TokenRepository.revoke_family, auth_error. evolves_tac. Qed.
Lemma refresh_rotate_evolves r ip : guar evolves (refresh_rotate settings r ip).
Proof. unfold refresh_rotate. evolves_tac. Qed.
#[local] Hint Resolve refresh_replay_evolves refresh_rotate_evolves : evolves.
Lemma refresh_evolves t ip : guar evolves (refresh settings t ip).
Proof. unfold refresh, refresh_found, auth_error, TokenRepository.lookup. evolves_tac. Qed.
Lemma resolve_evolves_token t : guar evolves (resolve_access_token settings t).
Proof. unfold resolve_access_token, auth_error, TokenRepository.lookup. evolves_tac. Qed.
Lemma logout_evolves s all ip : guar evolves (logout s all ip).
Proof. unfold logout, TokenRepository.revoke_family, TokenRepository.revoke_device_sessions. evolves_tac. Qed.
Lemma create_user_evolves u n p a : guar evolves (create_user settings u n p a).
Proof. unfold create_user. evolves_tac. Qed.
End auth_evolves.

#[export] Hint Resolve issue_pair_evolves success_evolves failure_evolves denied_evolves login_evolves
  refresh_evolves resolve_evolves_token logout_evolves create_user_evolves : evolves.

(** ** What login shows *)

Lemma run_login_issue {EN : Entropy} {PG : Postgres} settings uid did ip w w' pair :
  run (login_issue settings uid did ip) w = (w', OK pair) ->
  exists w1 ha hr ida idr,
    pair_issued settings uid did None None w w1 pair ha hr ida idr
    /\ tokens (w_db w') = tokens (w_db w1)
    /\ users (w_db w') = alter (UserRepository.login_touched (w_now w)) uid (users (w_db w))
    /\ devices (w_db w') = alter (DeviceRepository.seen (w_now w)) did (devices (w_db w))
    /\ w_now w' = w_now w.
Proof.
  unfold login_issue. intros Hr. apply run_bind_ok in Hr as (w1 & p & Hp & Hr).
  apply run_issue_pair in Hp as (ha & hr & ida & idr & Hp).
  apply run_bind_ok in Hr as (w2 & ? & [= <- _] & Hr). apply run_bind_ok in Hr as (w3 & ? & [= <- _] & Hr).
  apply run_bind_ok in Hr as (w4 & n & H4 & [= <- <-]). apply run_success in H4 as (r & _ & ->).
  exists w1, ha, hr, ida, idr. split; [done|]. pose proof (pi_db _ _ _ _ _ _ _ _ _ _ _ _ Hp) as Ed.
  pose proof (pi_now _ _ _ _ _ _ _ _ _ _ _ _ Hp) as En. cbn. rewrite Ed, En. cbn. done.
Qed.

(** C23 A successful login opens the session it promises: the user's password
    was verified, the user is active, the device is theirs, neither is blocked
    and, in strict mode, the device is attested; and the access token that is
    returned is at once a valid bearer of a session of that user, on that
    device, in the family that is returned. *)
Theorem login_opens_session {EN : Entropy} {PG : Postgres} {AR : Argon2} settings username password
    device_id client_ip w w' pair :
  db_ok (w_db w) ->
  run (login settings username password device_id client_ip) w = (w', OK pair) ->
  exists uid u dv ha s t u' dv',
    may_login settings (w_db w) username password device_id uid u dv
    /\ hash_token settings (it_access_token pair) = OK ha
    /\ session_valid settings (w_db w') (w_now w') ha s t u' dv'
    /\ se_user_id s = uid /\ se_device_id s = device_id /\ se_family_id s = it_family_id pair.
Proof.
  intros Hd Hr. destruct (pg_text username) eqn:Ht.
  2: { unfold login, UserRepository.by_username in Hr. by rewrite Ht in Hr. }
  pose proof Hr as Hrun. unfold login in Hr. rewrite run_bind, run_by_username in Hr by done.
  destruct (fetchrow _ _) as [[uid u]|] eqn:Ef.
  2: { rewrite run_bind in Hr. by destruct (run (burn_password_time settings) w) as [? []]. }
  apply fetchrow_some in Ef as [Hu Hn]. unfold same_name in Hn. apply bool_decide_eq_true_1 in Hn.
  rewrite run_bind, run_of_outcome in Hr.
  destruct (verify_password _ _) as [[]|] eqn:Ev; [|done|done]. cbn [negb] in Hr.
  destruct (u_is_active u) eqn:Ea; cbn [negb] in Hr.
  2: { rewrite run_bind in Hr. by destruct (run (burn_password_time settings) w) as [? []]. }
  unfold DeviceRepository.by_id in Hr. rewrite run_bind, run_query in Hr.
  destruct (devices (w_db w) !! device_id) as [dv|] eqn:Edv; [|done].
  destruct (Z.eqb_spec (d_user_id dv) uid) as [Eo|]; [|done]. cbn [negb] in Hr.
  destruct (d_is_blocked dv) eqn:Eb; [done|].
  destruct (unattested settings (d_attestation_status dv)) eqn:Eatt; [done|].
  assert (Hml : may_login settings (w_db w) username password device_id uid u dv).
  { split; try done. by apply unattested_false. }
  rewrite (login_proceeds _ _ _ _ _ _ _ _ _ Hd Ht Hml) in Hrun. clear Hr.
  apply run_login_issue in Hrun as (w1 & ha & hr & ida & idr & Hp & Etok & Eus & Edvs & En).
  destruct Hp as [Pa _ _ Pdb (_ & _ & Pne) _ _ Pttl _].
  set (row := issued_row (it_family_id pair) uid device_id access_kind ha (access_token_ttl settings) None (w_now w)).
  set (u' := UserRepository.login_touched (w_now w) u). set (dv' := DeviceRepository.seen (w_now w) dv).
  exists uid, u, dv, ha, (session_of (record_of ida row u' dv')), row, u', dv'.
  split; [done|]. split; [done|]. split; [|done].
  split; try done.
  - split; try done.
    + rewrite Etok, Pdb. cbn. by rewrite lookup_insert_ne, lookup_insert_eq by done.
    + rewrite Eus. cbn. by rewrite lookup_alter_eq, Hu.
    + rewrite Edvs. cbn. by rewrite lookup_alter_eq, Edv.
  - rewrite En. cbn. unfold seconds, usec_per_sec. lia.
  - by apply unattested_false.
Qed.

(** A refusal that stored nothing: the one public authentication error, or a
    failure of the password library. *)
Definition refused_unchanged (w : World) (r : World * outcome Exn IssuedTokens) : Prop :=
  exists e, r.2 = ERR e /\ w_db r.1 = w_db w
    /\ ((exists m, e = EApi (AuthenticationError m)
                   /\ http_error (AuthenticationError m) = http_error (AuthenticationError []))
        \/ e = ERuntime §"VerificationError").

(** Everyone else is refused, in one way: when no user and device qualify,
    a login stores nothing at all and ends in the same authentication error
    whatever the reason was (or in a failure of the password library). *)
Theorem login_refused {EN : Entropy} {PG : Postgres} {AR : Argon2} settings username password
    device_id client_ip w :
  db_ok (w_db w) -> pg_text username = true ->
  (forall uid u dv, ~ may_login settings (w_db w) username password device_id uid u dv) ->
  refused_unchanged w (run (login settings username password device_id client_ip) w).
Proof.
  intros Hd Ht Hno. unfold login. rewrite run_bind, run_by_username by done.
  assert (Hburn : forall r, refused_unchanged w (run (_ ← burn_password_time settings; auth_error r) w)).
  { intros r. rewrite run_bind. destruct (burn_keeps_db settings w) as (w1 & [b|e] & -> & E1 & Ho);
      eexists; split; [done| |done|]; split; [done|left; by exists r|done|by right]. }
  assert (Hdeny : forall r, refused_unchanged w (run (auth_error r) w)).
  { intros r. eexists. split; [done|]. split; [done|]. left. by exists r. }
  destruct (fetchrow _ _) as [[uid u]|] eqn:Ef; [|apply Hburn].
  apply fetchrow_some in Ef as [Hu Hn]. unfold same_name in Hn. apply bool_decide_eq_true_1 in Hn.
  rewrite run_bind, run_of_outcome. destruct (verify_password _ _) as [[]|e] eqn:Ev; cbn [negb].
  2: { apply Hdeny. }
  2: { exists e. split; [done|]. split; [done|]. right.
       unfold verify_password in Ev. destruct (encode_utf8 _); [destruct (argon2_verify _ _)|]; by simplify_eq. }
  destruct (u_is_active u) eqn:Ea; cbn [negb]; [|apply Hburn].
  unfold DeviceRepository.by_id. rewrite run_bind, run_query.
  destruct (devices (w_db w) !! device_id) as [dv|] eqn:Edv; [|apply Hdeny].
  destruct (Z.eqb_spec (d_user_id dv) uid) as [Eo|]; cbn [negb]; [|apply Hdeny].
  destruct (d_is_blocked dv) eqn:Eb; [apply Hdeny|].
  destruct (unattested settings (d_attestation_status dv)) eqn:Eatt; [apply Hdeny|].
  destruct (Hno uid u dv). split; try done. by apply unattested_false.
Qed.

(** ** Revocation *)

(** A revoked row never admits its bearer again. *)
Lemma revoked_is_dead {EN : Entropy} settings w w' token id t :
  evolves w w' -> db_ok (w_db w) ->
  tokens (w_db w) !! id = Some t -> t_revoked_at t <> None ->
  hash_token settings token = OK (t_token_hash t) ->
  denies (run (resolve_access_token settings token) w').2.
Proof.
  intros [_ [Hok _ Htok _ _ _ _ _ _ _] _] Hd Ht Hr Hh. specialize (Hok Hd).
  destruct (resolve_access_token_spec settings token _ w' Hok Hh) as (o & -> & Ho). cbn.
  destruct o as [s|e]; [|by destruct Ho].
  destruct Ho as (t2 & u & dv & [[Hrow2 Hh2 _ _ _] Hr2 _ _ _ _ _]). exfalso.
  destruct (Htok id t Ht) as (t3 & Ht3 & (Hs & _) & _ & _ & _ & Hrev).
  destruct (ok_tokens _ Hok) as [Huq _].
  assert (se_token_id s = id) as E by (eapply Huq; try done; unfold same_token in Hs; intuition congruence).
  rewrite E, Ht3 in Hrow2. destruct Hrev; congruence.
Qed.

Lemma revoke_where_run P reason w :
  (run (TokenRepository.revoke_where P reason) w) =
  (set_db (with_tokens (update_where P (TokenRepository.revoked reason (w_now w)) (tokens (w_db w))) (w_db w)) w,
   OK (Z.of_nat (length (select (fun t => P t && negb (is_some (t_revoked_at t))) (tokens (w_db w)))))).
Proof. unfold TokenRepository.revoke_where. by rewrite run_statement. Qed.

(** Every row that matched is revoked, whatever is appended to the log then. *)
Lemma revoked_where_dead {EN : Entropy} {PG : Postgres} settings P reason w w2 token id t :
  db_ok (w_db w) -> evolves (run (TokenRepository.revoke_where P reason) w).1 w2 ->
  tokens (w_db w) !! id = Some t -> P t = true -> hash_token settings token = OK (t_token_hash t) ->
  denies (run (resolve_access_token settings token) w2).2.
Proof.
  intros Hd Hev Ht HP Hh. rewrite revoke_where_run in Hev.
  pose proof (guar_run evolves _ _ _ _ (revoke_where_evolves P reason) (revoke_where_run P reason w)) as H1.
  eapply (revoked_is_dead settings _ w2 token id (TokenRepository.revoked reason (w_now w) t)); [exact Hev|..].
  - by eapply le_ok, Hd; apply ev_db.
  - cbn. by rewrite lookup_update_where, Ht; cbn; rewrite HP.
  - unfold TokenRepository.revoked. destruct (t_revoked_at t) eqn:E; [by rewrite E|done].
  - unfold TokenRepository.revoked. by destruct (t_revoked_at t).
Qed.

(** The row stays where it is, revoked. *)
Lemma revoked_where_stays P reason w w2 id t :
  evolves (run (TokenRepository.revoke_where P reason) w).1 w2 ->
  tokens (w_db w) !! id = Some t -> P t = true ->
  exists t2, tokens (w_db w2) !! id = Some t2 /\ same_token t t2 /\ t_revoked_at t2 <> None.
Proof.
  rewrite revoke_where_run. intros [_ [_ _ Htok _ _ _ _ _ _ _] _] Ht HP. cbn in Htok.
  destruct (Htok id (TokenRepository.revoked reason (w_now w) t)) as (t2 & Ht2 & Hs & _ & _ & _ & Hr).
  { by rewrite lookup_update_where, Ht; cbn; rewrite HP. }
  assert (He : same_token t (TokenRepository.revoked reason (w_now w) t)
               /\ t_revoked_at (TokenRepository.revoked reason (w_now w) t) <> None).
  { unfold TokenRepository.revoked. destruct (t_revoked_at t) eqn:E; [by rewrite E|done]. }
  destruct He as [He Hne]. exists t2. split; [done|]. split; [unfold same_token in *; intuition congruence|].
  destruct Hr; congruence.
Qed.

Lemma replay_fails {EN : Entropy} {PG : Postgres} record used ip w :
  exists e, (run (refresh_replay record used ip) w).2 = ERR e.
Proof.
  unfold refresh_replay. rewrite run_bind. destruct (run _ w) as [w1 [n|e]]; [|by eexists].
  rewrite run_bind. destruct (run _ w1) as [w2 [m|e]]; by eexists.
Qed.

(** A token whose row is revoked is refused by [refresh]. *)
Lemma refresh_of_revoked {EN : Entropy} {PG : Postgres} {AR : Argon2} settings token ip w id t :
  db_ok (w_db w) -> tokens (w_db w) !! id = Some t -> t_revoked_at t <> None ->
  hash_token settings token = OK (t_token_hash t) ->
  exists e, (run (refresh settings token ip) w).2 = ERR e.
Proof.
  intros Hd Ht Hr Hh. unfold refresh. rewrite Hh, run_bind, run_of_outcome. unfold TokenRepository.lookup.
  rewrite run_bind, run_query. unfold refresh_found.
  destruct (TokenRepository.lookup_in _ _ _) as [r|] eqn:El; [|by eexists].
  apply lookup_in_some in El as (id' & t' & u & dv & [Hrow Hh' _ _ _] & ->). cbn [tr_token record_of].
  destruct (t_used_at t') as [used|]; [apply replay_fails|]. rewrite run_bind, run_reads.
  destruct (TokenRepository.is_live _ _) eqn:Elive; [|by eexists].
  apply live_iff in Elive as (Hn & _). destruct (ok_tokens _ Hd) as [Huq _].
  assert (id' = id) as -> by (eapply Huq; done). congruence.
Qed.

(** C19 Reuse of a refresh token that was already rotated ends the whole
    session: the request is refused, and every token of the family, access and
    refresh alike, is revoked and stays so in every later world, where neither
    the session dependency nor [refresh] accepts it. When the audit insert goes
    through, the reuse is on record as such. *)
Theorem refresh_reuse_kills_family {EN : Entropy} {PG : Postgres} {AR : Argon2} settings token client_ip
    h id t u dv used w w' o :
  db_ok (w_db w) -> hash_token settings token = OK h ->
  token_at (w_db w) h refresh_kind id t u dv -> t_used_at t = Some used ->
  run (refresh settings token client_ip) w = (w', o) ->
  (exists e, o = ERR e)
  /\ (forall id' t' w2,
        tokens (w_db w) !! id' = Some t' -> t_family_id t' = t_family_id t -> evolves w' w2 ->
        (exists t2, tokens (w_db w2) !! id' = Some t2 /\ same_token t' t2 /\ t_revoked_at t2 <> None)
        /\ (forall token', hash_token settings token' = OK (t_token_hash t') ->
              denies (run (resolve_access_token settings token') w2).2
              /\ forall ip, exists e, (run (refresh settings token' ip) w2).2 = ERR e))
  /\ (denies o -> exists r, audit_log (w_db w') = audit_log (w_db w) ++ [r]
                           /\ a_event_type r = event_value AUTH_REFRESH_REUSE).
Proof.
  intros Hd Hh Hat Hused. unfold refresh, refresh_found. rewrite Hh, run_bind, run_of_outcome.
  unfold TokenRepository.lookup. rewrite run_bind, run_query.
  rewrite (lookup_in_at _ _ _ _ _ _ _ Hd Hat). cbn [tr_token record_of]. rewrite Hused.
  unfold refresh_replay, TokenRepository.revoke_family. cbn [tr_token record_of].
  set (P := fun t' => t_family_id t' =? t_family_id t). set (reason := §"refresh token reuse detected").
  rewrite run_bind. destruct (run (TokenRepository.revoke_where P reason) w) as [w1 o1] eqn:Erev.
  pose proof (revoke_where_run P reason w) as E1. rewrite Erev in E1. injection E1 as E1 ->.
  rewrite run_bind. unfold AuditService.failure, AuditService.record. rewrite run_append.
  assert (Hdead : forall w2 id' t', evolves w1 w2 -> tokens (w_db w) !! id' = Some t' ->
    t_family_id t' = t_family_id t ->
    (exists t2, tokens (w_db w2) !! id' = Some t2 /\ same_token t' t2 /\ t_revoked_at t2 <> None)
    /\ (forall token', hash_token settings token' = OK (t_token_hash t') ->
          denies (run (resolve_access_token settings token') w2).2
          /\ forall ip, exists e, (run (refresh settings token' ip) w2).2 = ERR e)).
  { intros w2 id' t' H2 Ht' Hfam. assert (HP : P t' = true) by (subst P; by apply Z.eqb_eq).
    assert (H1 : evolves (run (TokenRepository.revoke_where P reason) w).1 w2) by by rewrite Erev.
    pose proof (revoked_where_stays P reason w w2 id' t' H1 Ht' HP) as (t2 & Ht2 & Hs & Hr).
    split; [by exists t2|]. intros token' Hh'. split; [by eapply revoked_where_dead|].
    intros ip. eapply refresh_of_revoked; [|exact Ht2|exact Hr|].
    - assert (Hw : evolves w w2).
      { transitivity w1; [|done]. by eapply (guar_run evolves); [apply revoke_where_evolves|]. }
      by eapply le_ok, Hd; apply ev_db.
    - unfold same_token in Hs. intuition congruence. }
  destruct (AuditRepository.new_row _ _ _ _ _) as [r|] eqn:Er.
  - intros [= <- <-]. split; [by eexists|]. split.
    + intros id' t' w2 Ht' Hfam H2. apply Hdead; [|done|done]. etransitivity; [|exact H2].
      eapply (guar_run evolves); [apply append_evolves|]. rewrite run_append, Er. done.
    + intros _. exists (audit_hash_chain (audit_log (w_db w1)) r). apply new_row_some in Er as (_ & _ & Ee & _).
      by rewrite E1; split.
  - intros [= <- <-]. split; [by eexists|]. split; [|by intros [? ?]].
    intros id' t' w2 Ht' Hfam H2. by apply Hdead.
Qed.

(** Logging out ends the session for good: no access token of its family
    (of its device, when all sessions are ended) is a valid bearer in this
    world or in any later one; the number returned is the number of tokens
    that were still unrevoked; the tokens of other families (other devices) are
    left as they were. *)
Theorem logout_ends_sessions {EN : Entropy} {PG : Postgres} {AR : Argon2} settings s (all_devices : bool)
    client_ip w w' o :
  db_ok (w_db w) -> run (logout s all_devices client_ip) w = (w', o) ->
  let ended t := if all_devices then t_device_id t =? se_device_id s else t_family_id t =? se_family_id s in
  (forall token id t w2,
     tokens (w_db w) !! id = Some t -> ended t = true -> hash_token settings token = OK (t_token_hash t) ->
     evolves w' w2 -> denies (run (resolve_access_token settings token) w2).2)
  /\ (forall n, o = OK n ->
        n = Z.of_nat (length (select (fun t => ended t && negb (is_some (t_revoked_at t))) (tokens (w_db w)))))
  /\ (forall id t, tokens (w_db w) !! id = Some t -> ended t = false -> tokens (w_db w') !! id = Some t).
Proof.
  intros Hd Hr ended. unfold logout in Hr.
  set (reason := if all_devices then §"logout_all" else §"logout").
  assert (E0 : (if all_devices then TokenRepository.revoke_device_sessions (se_device_id s) §"logout_all"
                else TokenRepository.revoke_family (se_family_id s) §"logout")
               = TokenRepository.revoke_where ended reason) by by subst ended reason; destruct all_devices.
  rewrite E0, run_bind in Hr. pose proof (revoke_where_run ended reason w) as E1.
  destruct (run (TokenRepository.revoke_where ended reason) w) as [w1 o1] eqn:Erev.
  injection E1 as E1 ->. rewrite run_bind in Hr.
  unfold AuditService.success, AuditService.record in Hr.
  match type of Hr with context [AuditRepository.append ?e ?x ?a] => set (app := AuditRepository.append e x a) in * end.
  assert (Hev : evolves w1 w' /\ tokens (w_db w') = tokens (w_db w1)
    /\ forall n, o = OK n -> n = Z.of_nat (length (select (fun t => ended t && negb (is_some (t_revoked_at t))) (tokens (w_db w))))).
  { destruct (run app w1) as [w2 o2] eqn:Ea.
    assert (evolves w1 w2) by (eapply (guar_run evolves); [|exact Ea]; apply append_evolves).
    subst app. rewrite run_append in Ea. destruct (AuditRepository.new_row _ _ _ _ _);
      injection Ea as <- <-; injection Hr as <- <-; (split; [done|]); (split; [done|]); by intros n [= <-]. }
  destruct Hev as (Hev & Etok & Hn). split; [|split; [exact Hn|]].
  - intros token id t w2 Ht Hend Hh H2. eapply (revoked_where_dead settings ended reason w); try done.
    rewrite Erev. by transitivity w'.
  - intros id t Ht Hend. rewrite Etok, E1. cbn. by rewrite lookup_update_where, Ht; cbn; rewrite Hend.
Qed.

(** ** Rotation *)

Definition rotated (now : instant) (t : token_row) : token_row :=
  TokenRepository.revoked §"rotated" now (TokenRepository.used now t).

(** C20 A refresh that succeeds consumed a live, unused refresh token: it is
    marked used and revoked as rotated, and exactly two rows are added, an
    access and a refresh token of the same family, user and device whose parent
    is the consumed row; the new access token is a valid bearer, in strict mode
    provided the device is attested. *)
Theorem refresh_rotates {EN : Entropy} {PG : Postgres} {AR : Argon2} settings token client_ip w w' pair :
  db_ok (w_db w) ->
  run (refresh settings token client_ip) w = (w', OK pair) ->
  exists h id t u dv ha hr ida idr,
    hash_token settings token = OK h /\ token_at (w_db w) h refresh_kind id t u dv
    /\ t_used_at t = None /\ t_revoked_at t = None /\ w_now w < t_expires_at t
    /\ u_is_active u = true /\ d_is_blocked dv = false
    /\ hash_token settings (it_access_token pair) = OK ha
    /\ hash_token settings (it_refresh_token pair) = OK hr
    /\ it_family_id pair = t_family_id t
    /\ tokens (w_db w') =
       <[idr := issued_row (t_family_id t) (t_user_id t) (t_device_id t) refresh_kind hr (refresh_token_ttl settings) (Some id) (w_now w)]>
       (<[ida := issued_row (t_family_id t) (t_user_id t) (t_device_id t) access_kind ha (access_token_ttl settings) (Some id) (w_now w)]>
       (<[id := rotated (w_now w) t]> (tokens (w_db w))))
    /\ ((attestation_mode settings = strict -> d_attestation_status dv = att_verified) ->
        exists s, session_valid settings (w_db w') (w_now w') ha s
                    (issued_row (t_family_id t) (t_user_id t) (t_device_id t) access_kind ha (access_token_ttl settings) (Some id) (w_now w)) u dv).
Proof.
  intros Hd Hr. unfold refresh, refresh_found in Hr. rewrite run_bind, run_of_outcome in Hr.
  destruct (hash_token settings token) as [h|] eqn:Hh; [|done].
  unfold TokenRepository.lookup in Hr. rewrite run_bind, run_query in Hr.
  destruct (TokenRepository.lookup_in _ _ _) as [r|] eqn:El; [|done].
  apply lookup_in_some in El as (id & t & u & dv & Hat & ->). cbn [tr_token record_of] in Hr.
  destruct (t_used_at t) as [ua|] eqn:Eu.
  { unfold refresh_replay in Hr. apply run_bind_ok in Hr as (w1 & n & _ & Hr).
    apply run_bind_ok in Hr as (w2 & n2 & _ & Hr). done. }
  rewrite run_bind, run_reads in Hr. cbv beta in Hr.
  destruct (TokenRepository.is_live _ _) eqn:Elive; cbn [negb] in Hr; [|done].
  apply live_iff in Elive as (L1 & L2 & L3 & L4).
  unfold refresh_rotate in Hr. cbn [tr_token tr_id record_of] in Hr.
  apply run_bind_ok in Hr as (w1 & ? & [= <- _] & Hr). apply run_bind_ok in Hr as (w2 & ? & [= <- _] & Hr).
  apply run_bind_ok in Hr as (w3 & p & Hp & Hr). apply run_issue_pair in Hp as (ha & hr & ida & idr & Hp).
  apply run_bind_ok in Hr as (w4 & n & H4 & [= <- <-]). apply run_success in H4 as (row & _ & ->).
  destruct Hp as [Pa Pr Pf Pdb (Fa & Fr & Pne) Pn _ Pttl _]. cbn in Pf, Pdb, Fa, Fr, Pn.
  assert (Ealter : alter (TokenRepository.revoked §"rotated" (w_now w)) id
                     (alter (TokenRepository.used (w_now w)) id (tokens (w_db w)))
                   = <[id := rotated (w_now w) t]> (tokens (w_db w))).
  { apply map_eq. intros k. destruct (decide (k = id)) as [->|].
    - rewrite !lookup_alter_eq, lookup_insert_eq. by rewrite (at_row _ _ _ _ _ _ _ Hat).
    - by rewrite !lookup_alter_ne, lookup_insert_ne by done. }
  rewrite Ealter in Pdb, Fa, Fr. rewrite Pf in Pdb.
  exists h, id, t, u, dv, ha, hr, ida, idr. repeat (split; [done|]). split; [by cbn; rewrite Pdb|].
  intros Hatt. destruct Hat as [H1 H2 H3 H4 H5].
  eexists (session_of (record_of ida (issued_row (t_family_id t) (t_user_id t) (t_device_id t)
    access_kind ha (access_token_ttl settings) (Some id) (w_now w)) u dv)).
  split; try done; cbn.
  - rewrite Pdb. split; cbn; try done. by rewrite lookup_insert_ne, lookup_insert_eq by done.
  - rewrite Pn. unfold seconds, usec_per_sec. lia.
Qed.

(** ** Two refreshes of the same token *)

Section race.
Context {EN : Entropy} {PG : Postgres} {AR : Argon2} (settings : Settings).

Lemma refresh_head token ip h :
  hash_token settings token = OK h ->
  refresh settings token ip =
  Step (fun w => (w, refresh_found settings (TokenRepository.lookup_in (w_db w) h refresh_kind) ip)).
Proof. intros Hh. unfold refresh. by rewrite Hh. Qed.

(** Both requests look the token up before either marks it. *)
Lemma refreshes_interleave token ip h w w1 w2 p1 p2 :
  hash_token settings token = OK h ->
  let found := TokenRepository.lookup_in (w_db w) h refresh_kind in
  run (refresh_found settings found ip) w = (w1, OK p1) ->
  run (refresh_found settings found ip) w1 = (w2, OK p2) ->
  sys_reach (fun _ _ => False)
    (w, [refresh settings token ip; refresh settings token ip]) (w2, [Ret p1; Ret p2]).
Proof.
  intros Hh found H1 H2. rewrite !(refresh_head _ _ _ Hh).
  eapply rtc_l; [eapply (sys_proc _ 0); reflexivity|].
  eapply rtc_l; [eapply (sys_proc _ 1); reflexivity|].
  etransitivity; [eapply (run_sys_reach _ 0); [reflexivity|exact H1]|].
  exact (run_sys_reach _ 1 _ [Ret p1; refresh_found settings found ip] _ _ _ eq_refl H2).
Qed.
End race.

(** ** Concrete accounts *)

Definition demo_settings : Settings := {|
  env := test; api_host := §"0.0.0.0"; api_port := 8080; db_dsn := §"postgresql://acs_app@db/acs";
  audit_db_dsn := []; db_pool_min := 2; db_pool_max := 10; db_statement_timeout := 10;
  signer_socket := §"/run/signer.sock"; signer_private_key := []; signer_public_key := [];
  play_integrity_credentials := []; admin_port := 8081;
  trusted_proxies := §"10.0.0.1"; access_token_ttl := 900; refresh_token_ttl := 2592000;
  token_pepper := b64encode (replicate 32 0);
  argon2_time_cost := 3; argon2_memory_kib := 65536; argon2_parallelism := 2;
  auth_fixed_response_ms := 350;
  rate_window_seconds := 900; rate_max_login_failures := 5; rate_max_unlocks_per_minute := 6;
  rate_base_delay_ms := 250; rate_max_delay_ms := 8000; beacon_rotation_seconds := 30;
  proximity_max_age_seconds := 60; signer_timeout_ms := 1500; signer_key_id := §"signer-1";
  ws_heartbeat_seconds := 25; ws_heartbeat_timeout_seconds := 60; ws_handshake_timeout_seconds := 10;
  command_ttl_seconds := 10; attestation_mode := strict; play_integrity_package_name := [];
  android_cert_digest := []; attestation_roots_pem := []; admin_host := §"127.0.0.1";
  admin_allowed_cidrs := §"127.0.0.1/32" |}.

#[local] Existing Instances demo_entropy demo_postgres demo_argon2.

(** A user with a verified device. *)
Definition demo_setup : io (uuid * uuid) :=
  uid ← create_user demo_settings §"alice" §"Alice" §"secret" false;
  did ← DeviceRepository.create uid §"phone" (replicate 32 1) §"android" None §"verified" (JObj []);
  Ret (uid, did).

Definition demo_user : uuid := 2658455991570133986485889814709141504.
Definition demo_device : uuid := 3987683987355049859389696874989486080.
Definition demo_account : World := (run demo_setup demo_world).1.

Lemma demo_account_ok : db_ok (w_db demo_account).
Proof.
  apply (run_db_ok demo_setup demo_world _ (run demo_setup demo_world).2).
  - unfold demo_setup. evolves_tac.
  - unfold demo_account. by destruct (run demo_setup demo_world).
  - apply empty_db_ok.
Qed.

Definition demo_login := run (login demo_settings §"alice" §"secret" demo_device None) demo_account.
Definition demo_logged_in : World := demo_login.1.
Definition demo_pair : IssuedTokens :=
  match demo_login.2 with
  | OK p => p
  | ERR _ => {| it_access_token := []; it_refresh_token := []; it_expires_in := 0; it_family_id := 0 |}
  end.

Lemma demo_login_run :
  run (login demo_settings §"alice" §"secret" demo_device None) demo_account = (demo_logged_in, OK demo_pair).
Proof.
  unfold demo_logged_in, demo_pair. fold demo_login.
  assert (match demo_login.2 with OK _ => true | ERR _ => false end = true) by (vm_compute; reflexivity).
  by destruct demo_login as [w [p|e]].
Qed.

Lemma demo_logged_in_ok : db_ok (w_db demo_logged_in).
Proof. eapply run_db_ok; [apply login_evolves|exact demo_login_run|apply demo_account_ok]. Qed.

(** A bearer of a session of the demo user. *)
Definition demo_bearer (token : pystr) (w : World) : bool :=
  match (run (resolve_access_token demo_settings token) w).2 with
  | OK s => se_user_id s =? demo_user
  | ERR _ => false
  end.

Lemma demo_bearer_true token w :
  demo_bearer token w = true ->
  exists s, run (resolve_access_token demo_settings token) w = (w, OK s) /\ se_user_id s = demo_user.
Proof.
  unfold demo_bearer. destruct (hash_token demo_settings token) as [h|e] eqn:Hh.
  2: { unfold resolve_access_token. rewrite Hh. done. }
  rewrite (run_resolve _ _ _ _ Hh). cbn [snd].
  match goal with |- context [(w, ?o)] => destruct o as [s|e]; [|done] end.
  intros Hs%Z.eqb_eq. by exists s.
Qed.

(** The two rotations one after the other, on the row both have read. *)
Definition demo_race (h : bytes) : bool :=
  let found := TokenRepository.lookup_in (w_db demo_logged_in) h refresh_kind in
  match run (refresh_found demo_settings found None) demo_logged_in with
  | (w1, OK p1) =>
      match run (refresh_found demo_settings found None) w1 with
      | (w2, OK p2) =>
          negb (str_eqb (it_access_token p1) (it_access_token p2))
          && demo_bearer (it_access_token p1) w2 && demo_bearer (it_access_token p2) w2
      | _ => false
      end
  | _ => false
  end.

(** Rotation is not atomic: two requests with the same refresh token, both
    past the lookup before either marks the token, both succeed, and each
    obtains a pair whose access token is a valid bearer. The reuse is not
    noticed. *)
Theorem concurrent_refreshes_both_succeed :
  exists w w' token p1 p2,
    db_ok (w_db w)
    /\ sys_reach (fun _ _ => False)
         (w, [refresh demo_settings token None; refresh demo_settings token None]) (w', [Ret p1; Ret p2])
    /\ it_access_token p1 <> it_access_token p2
    /\ (forall p, p ∈ [p1; p2] -> exists s,
          run (resolve_access_token demo_settings (it_access_token p)) w' = (w', OK s)
          /\ se_user_id s = demo_user).
Proof.
  set (token := it_refresh_token demo_pair).
  destruct (hash_token demo_settings token) as [h|] eqn:Hh; [|by vm_compute in Hh].
  set (found := TokenRepository.lookup_in (w_db demo_logged_in) h refresh_kind).
  assert (Hgo : demo_race h = true) by (vm_compute in Hh; injection Hh as <-; vm_compute; reflexivity).
  unfold demo_race in Hgo. fold found in Hgo.
  destruct (run (refresh_found demo_settings found None) demo_logged_in) as [w1 [p1|]] eqn:H1; [|done].
  destruct (run (refresh_found demo_settings found None) w1) as [w2 [p2|]] eqn:H2; [|done].
  apply andb_prop in Hgo as [[Hne%negb_true_iff R1]%andb_prop R2].
  apply bool_decide_eq_false_1 in Hne. apply demo_bearer_true in R1, R2.
  exists demo_logged_in, w2, token, p1, p2. split; [apply demo_logged_in_ok|].
  split; [by eapply refreshes_interleave|]. split; [done|].
  intros p Hp. apply elem_of_cons in Hp as [->|Hp]; [done|]. by apply list_elem_of_singleton in Hp as ->.
Qed.

(** ** Witnesses *)

Lemma resolve_access_token_spec_witness :
  exists o, run (resolve_access_token demo_settings (it_access_token demo_pair)) demo_logged_in = (demo_logged_in, o).
Proof.
  destruct (hash_token demo_settings (it_access_token demo_pair)) as [h|] eqn:Hh; [|by vm_compute in Hh].
  destruct (resolve_access_token_spec demo_settings (it_access_token demo_pair) h demo_logged_in
              demo_logged_in_ok Hh) as (o & Ho & _). by exists o.
Defined.

Lemma login_opens_session_witness :
  exists uid u dv, may_login demo_settings (w_db demo_account) §"alice" §"secret" demo_device uid u dv.
Proof.
  destruct (login_opens_session demo_settings §"alice" §"secret" demo_device None demo_account demo_logged_in
              demo_pair demo_account_ok demo_login_run) as (uid & u & dv & ha & s & t & u' & dv' & H & _).
  exists uid, u, dv. exact H.
Defined.

Lemma login_refused_witness :
  refused_unchanged demo_account (run (login demo_settings §"alice" §"wrong" demo_device None) demo_account).
Proof.
  apply (login_refused demo_settings §"alice" §"wrong" demo_device None demo_account demo_account_ok); [reflexivity|].
  intros uid u dv [Hu Hn Hp _ _ _ _ _].
  pose proof (by_username_at _ _ _ _ demo_account_ok Hu Hn) as Hf. vm_compute in Hf. injection Hf as <- <-.
  vm_compute in Hp. discriminate Hp.
Defined.

Definition demo_refresh := run (refresh demo_settings (it_refresh_token demo_pair) None) demo_logged_in.

Lemma refresh_rotates_witness :
  match demo_refresh with
  | (w', OK p) => exists h t, token_at (w_db demo_logged_in) h refresh_kind t.1 t.2.1 t.2.2.1 t.2.2.2
                                 /\ it_family_id p = t_family_id t.2.1
  | _ => False
  end.
Proof.
  assert (Hok : match demo_refresh.2 with OK _ => true | ERR _ => false end = true) by (vm_compute; reflexivity).
  destruct demo_refresh as [w' [p|e]] eqn:E; [|discriminate Hok]. unfold demo_refresh in E.
  destruct (refresh_rotates demo_settings (it_refresh_token demo_pair) None demo_logged_in w' p
    demo_logged_in_ok E) as (h & id & t & u & dv & ha & hr & ida & idr & _ & Hat & _ & _ & _ & _ & _ & _ & _ & Hf & _).
  exists h, (id, (t, (u, dv))). split; [exact Hat|exact Hf].
Defined.

Lemma demo_refresh_ok : db_ok (w_db demo_refresh.1).
Proof.
  apply (run_db_ok (refresh demo_settings (it_refresh_token demo_pair) None) demo_logged_in _ demo_refresh.2).
  - apply refresh_evolves.
  - unfold demo_refresh. by destruct (run (refresh _ _ _) _).
  - apply demo_logged_in_ok.
Qed.

(** The token that is used a second time opens nothing any more. *)
Lemma refresh_reuse_kills_family_witness :
  let w := demo_refresh.1 in
  let w' := (run (refresh demo_settings (it_refresh_token demo_pair) None) w).1 in
  exists token', denies (run (resolve_access_token demo_settings token') w').2
    /\ forall ip, exists e, (run (refresh demo_settings token' ip) w').2 = ERR e.
Proof.
  intros w w'. destruct (hash_token demo_settings (it_refresh_token demo_pair)) as [h|] eqn:Hh; [|by vm_compute in Hh].
  assert (Hu : match TokenRepository.lookup_in (w_db w) h refresh_kind with
               | Some r => is_some (t_used_at (tr_token r)) | None => false end = true).
  { vm_compute in Hh. injection Hh as <-. vm_compute. reflexivity. }
  destruct (TokenRepository.lookup_in (w_db w) h refresh_kind) as [r|] eqn:El; [|discriminate Hu].
  apply lookup_in_some in El as (id & t & u & dv & Hat & ->). cbn in Hu.
  destruct (t_used_at t) as [used|] eqn:Eu; [|discriminate Hu].
  destruct (run (refresh demo_settings (it_refresh_token demo_pair) None) w) as [w1 o] eqn:E.
  destruct (refresh_reuse_kills_family demo_settings (it_refresh_token demo_pair) None h id t u dv used w w1 o
    demo_refresh_ok Hh Hat Eu E) as (_ & Hdead & _).
  destruct Hat as [Hrow Hhash _ _ _].
  exists (it_refresh_token demo_pair). subst w'.
  rewrite <- Hhash in Hh. exact (proj2 (Hdead id t w1 Hrow eq_refl (reflexivity w1)) (it_refresh_token demo_pair) Hh).
Defined.

Definition demo_session : Session := {|
  se_user_id := demo_user; se_device_id := demo_device; se_username := §"alice"; se_display_name := §"Alice";
  se_is_admin := false; se_token_id := 0; se_family_id := it_family_id demo_pair |}.

Lemma logout_ends_sessions_witness :
  (run (logout demo_session false None) demo_logged_in).2
  = OK (Z.of_nat (length (select (fun t => (t_family_id t =? it_family_id demo_pair)
                                           && negb (is_some (t_revoked_at t))) (tokens (w_db demo_logged_in))))).
Proof.
  assert (Hok : match (run (logout demo_session false None) demo_logged_in).2 with OK _ => true | ERR _ => false end = true)
    by (vm_compute; reflexivity).
  destruct (run (logout demo_session false None) demo_logged_in) as [w' [n|e]] eqn:E; [|discriminate Hok].
  destruct (logout_ends_sessions demo_settings demo_session false None demo_logged_in w' (OK n) demo_logged_in_ok E)
    as (_ & H & _).
  cbn [snd]. f_equal. exact (H n eq_refl).
Defined.
