(* ===== verification/Unlock.v ===== *)
(** * The unlock decision: [app/services/unlock_service.py]

    [unlock] follows the source check by check.  [unlock_checklist] is the
    specification of its six checks: a function of the database, the clock and
    the set of connected controllers; the answer is the first failing check in
    the documented order. *)

From S2P Require Import Prelude Text Sha256 Clock Json Config Errors Proc World Demo AuditLog Repos Schema Signer Security Proximity RateLimit Hub Evolve Auth.

(* @src backend/app/services/unlock_service.py * UnlockOutcome *)
Record UnlockOutcome := {
  uo_command_id : uuid; uo_opened_for_ms : Z; uo_proximity_age_seconds : Z
}.

(** The keyword arguments every audit call of one request shares. *)
(* @src backend/app/services/unlock_service.py 80-86 UnlockService.unlock *)
Record Base := { b_user_id : uuid; b_device_id : uuid; b_door_id : uuid; b_client_ip : option pystr }.

Definition with_base (base : Base) (controller : option uuid) (d : dict) : AuditArgs := {|
  actor_type := §"user"; actor_id := Some (b_user_id base); device_id := Some (b_device_id base);
  door_id := Some (b_door_id base); controller_id := controller; client_ip := b_client_ip base;
  detail := d |}.

(** What the checks hand to the command: the door, its controller, the age of
    the beacon. *)
Record Grounds := { g_door : door_row; g_controller : controller_row; g_age : option Z }.

(** [payload] *)
(* @src backend/app/services/unlock_service.py 154-164 UnlockService.unlock *)
Definition command_payload (door : door_row) (controller_code : pystr) (ttl : Z)
    (command_id : uuid) (issued_at : Z) (nonce : bytes) : dict :=
  [(§"command_id", JStr (uuid_str command_id));
   (§"cmd", JStr §"unlock");
   (§"controller_code", JStr controller_code);
   (§"door_code", JStr (dr_code door));
   (§"relay_channel", JInt (dr_relay_channel door));
   (§"duration_ms", JInt (dr_unlock_seconds door * 1000));
   (§"issued_at", JInt issued_at);
   (§"expires_at", JInt (issued_at + ttl));
   (§"nonce", JStr (urlsafe_nopad nonce))].

(* @src backend/app/services/unlock_service.py 188-194 UnlockService.unlock *)
Definition command_envelope (payload : dict) (signature : bytes) (key_id : json) : dict :=
  [(§"type", JStr §"command"); (§"payload", JObj payload);
   (§"signature", JStr (b64encode signature)); (§"key_id", key_id); (§"alg", JStr §"ed25519")].

Module UnlockService.
Section service.
Context {EN : Entropy} {PG : Postgres} {PR : PyRepr} {SK : SignerSocket} {TR : Transport}.
Context (settings : Settings).

(* @src backend/app/services/unlock_service.py * UnlockService._deny *)
Definition _deny {A} (base : Base) (internal_reason : pystr) (reason : DenyReason) (extra : dict)
    (controller_id : option uuid) : io A :=
  _ ← AuditService.denied DOOR_UNLOCK_DENIED
        (with_base base controller_id ((§"reason", JStr internal_reason) :: extra));
  Raise (EApi (unlock_denied reason internal_reason)).

(* @src backend/app/services/unlock_service.py * UnlockService._fail *)
Definition _fail {A} (base : Base) (door : door_row) (command_id : uuid) (internal_reason : pystr) : io A :=
  _ ← AuditService.failure DOOR_UNLOCK_FAILED
        (with_base base (dr_controller_id door)
           [(§"reason", JStr internal_reason); (§"command_id", JStr (uuid_str command_id))]);
  Raise (EApi (unlock_denied FAILED internal_reason)).

(** The detail of a refusal outside the permitted hours. *)
(* @src backend/app/services/unlock_service.py 106-111 UnlockService.unlock *)
Definition window_detail (p : effective_permission) : dict :=
  [(§"local_time", JStr (time_str (ep_local_time p)));
   (§"local_dow", JInt (ep_local_dow p));
   (§"window", JStr (time_str (p_start_time (ep_permission p)) ++ §"-" ++ time_str (p_end_time (ep_permission p))));
   (§"time_zone", JStr (p_time_zone (ep_permission p)))].

(** Steps 1 to 6. *)
(* @src backend/app/services/unlock_service.py 92-149 UnlockService.unlock *)
Definition unlock_checks (base : Base) (proximity_beacon_id : pystr) : io Grounds :=
  (* 1: the door *)
  door ← DoorRepository.by_id (b_door_id base);
  door ← match door with
         | Some d => if negb (dr_is_active (dj_door d)) || negb (is_some (dr_controller_id (dj_door d)))
                     then _deny base §"door_unavailable" DENIED [] None else Ret d
         | None => _deny base §"door_unavailable" DENIED [] None
         end;
  (* 2: the permission *)
  permission ← PermissionRepository.effective (b_user_id base) (b_door_id base);
  _ ← match permission with
      | None => _deny base §"no_permission" DENIED [] None
      | Some p => if negb (ep_within_window p)
                  then _deny base §"outside_time_window" DENIED (window_detail p) None else Ret tt
      end;
  (* 3: the controller; without its row the joined columns are NULL *)
  _ ← if from_option c_is_blocked false (dj_controller door)
      then _deny base §"controller_blocked" DENIED [] None else Ret tt;
  (* 4: proximity *)
  controller ← of_option (EType §"cannot convert NoneType object to bytes") (dj_controller door);
  now ← reads w_now;
  accepted ← of_outcome (verify_proximity (c_beacon_key controller) proximity_beacon_id
               (beacon_rotation_seconds settings) (proximity_max_age_seconds settings) now);
  _ ← if negb accepted.1
      then _deny base §"proximity_not_proven" NOT_PRESENT
             [(§"presented_length", JInt (Z.of_nat (length proximity_beacon_id)))] None
      else Ret tt;
  (* 5: the rate budget *)
  decision ← RateLimiter.check_unlock settings (b_user_id base) (b_device_id base);
  _ ← if negb (allowed decision) then
        _ ← AuditService.denied RATE_LIMIT_TRIPPED
              (with_base base None [(§"attempts_in_window", JInt (failures decision));
                                    (§"scope", JStr §"unlock")]);
        Raise (EApi (RateLimited (retry_after_seconds decision)))
      else Ret tt;
  (* 6: the controller is connected *)
  online ← ControllerHub.is_online (c_code controller);
  _ ← if negb online
      then _deny base §"controller_offline" CONTROLLER_OFFLINE
             [(§"controller_code", JStr (c_code controller))] None
      else Ret tt;
  Ret {| g_door := dj_door door; g_controller := controller; g_age := accepted.2 |}.

(** The command id, the time and the nonce of a new command. *)
(* @src backend/app/services/unlock_service.py 152-153 UnlockService.unlock *)
Definition new_command : io (uuid * Z * bytes) :=
  atomic (fun w =>
    let '(w, command_id) := uuid4 w in
    let issued_at := w_now w / usec_per_sec in
    let '(w, nonce) := token_bytes 16 w in
    (w, OK (command_id, issued_at, nonce))).

(** Step 7: [sign_command], its two exceptions turned into a refusal. *)
(* @src backend/app/services/unlock_service.py 166-173 UnlockService.unlock *)
Definition signed (base : Base) (door : door_row) (payload : dict) : io (bytes * json) :=
  catch (SignerClient.sign_command payload) (fun e =>
    match e with
    | ESignerUnavailable m | ESignerRefused m =>
        Some (_deny base (§"signer_unavailable: " ++ m) FAILED [] (dr_controller_id door))
    | _ => None
    end).

(** Step 8: [send_command], its two exceptions turned into a failure. *)
(* @src backend/app/services/unlock_service.py 195-203 UnlockService.unlock *)
Definition acknowledged (base : Base) (door : door_row) (command_id : uuid) (code : pystr) (envelope : dict)
    : io dict :=
  catch (ControllerHub.send_command code envelope (command_ttl_seconds settings)) (fun e =>
    match e with
    | EControllerOffline _ => Some (_fail base door command_id §"controller_disconnected")
    | ECommandTimeout _ => Some (_fail base door command_id §"no_acknowledgement")
    | _ => None
    end).

(* @src backend/app/services/unlock_service.py 205-205 UnlockService.unlock *)
Definition opened (ack : dict) : bool :=
  match dict_get §"result" ack with Some (JStr s) => str_eqb s §"opened" | _ => false end.

(** [f'controller_refused:{ack.get("detail", "unspecified")}'] *)
(* @src backend/app/services/unlock_service.py 208-208 UnlockService.unlock *)
Definition refused_text (ack : dict) : pystr :=
  §"controller_refused:" ++ match dict_get §"detail" ack with Some v => py_str v | None => §"unspecified" end.

(** Steps 7 and 8. *)
(* @src backend/app/services/unlock_service.py 151-225 UnlockService.unlock *)
Definition unlock_command (base : Base) (g : Grounds) : io UnlockOutcome :=
  let door := g_door g in
  let code := c_code (g_controller g) in
  cmd ← new_command;
  let '(command_id, issued_at, nonce) := cmd in
  let payload := command_payload door code (command_ttl_seconds settings) command_id issued_at nonce in
  sk ← signed base door payload;
  _ ← AuditService.success DOOR_UNLOCK_GRANTED
        (with_base base (dr_controller_id door)
           [(§"command_id", JStr (uuid_str command_id)); (§"signer_key_id", sk.2);
            (§"proximity_age_seconds", match g_age g with Some a => JInt a | None => JNull end);
            (§"duration_ms", JInt (dr_unlock_seconds door * 1000))]);
  ack ← acknowledged base door command_id code (command_envelope payload sk.1 sk.2);
  _ ← if negb (opened ack) then _fail base door command_id (refused_text ack) else Ret tt;
  _ ← AuditService.success DOOR_UNLOCK_CONFIRMED
        (with_base base (dr_controller_id door)
           [(§"command_id", JStr (uuid_str command_id));
            (§"controller_uptime_ms", default JNull (dict_get §"uptime_ms" ack));
            (§"relay_ms", default JNull (dict_get §"relay_ms" ack))]);
  Ret {| uo_command_id := command_id; uo_opened_for_ms := dr_unlock_seconds door * 1000;
         uo_proximity_age_seconds := default 0 (g_age g) |}.

(* @src backend/app/services/unlock_service.py * UnlockService.unlock *)
Definition unlock (user_id device_id door_id : uuid) (proximity_beacon_id : pystr)
    (client_ip : option pystr) : io UnlockOutcome :=
  let base := {| b_user_id := user_id; b_device_id := device_id; b_door_id := door_id;
                 b_client_ip := client_ip |} in
  _ ← AuditService.record (event_value DOOR_UNLOCK_REQUESTED) §"success" (with_base base None []);
  g ← unlock_checks base proximity_beacon_id;
  unlock_command base g.

End service.
End UnlockService.

Import UnlockService.

(** ** The specification of the checks *)

Record Refusal := { rf_event : AuditEvent; rf_error : ApiError; rf_detail : dict }.

Definition denial (internal_reason : pystr) (reason : DenyReason) (extra : dict) : Refusal := {|
  rf_event := DOOR_UNLOCK_DENIED; rf_error := unlock_denied reason internal_reason;
  rf_detail := (§"reason", JStr internal_reason) :: extra |}.

(** A refusal: one audit row, then the error. *)
Definition refuse `{PG : Postgres} {A} (base : Base) (r : Refusal) : io A :=
  _ ← AuditService.denied (rf_event r) (with_base base None (rf_detail r));
  Raise (EApi (rf_error r)).

Fixpoint first_failing (checks : list (bool * Refusal)) : option Refusal :=
  match checks with
  | [] => None
  | (true, _) :: rest => first_failing rest
  | (false, r) :: _ => Some r
  end.

Section spec.
Context {PG : Postgres} (settings : Settings).

Definition the_door (d : Db) (base : Base) : option door_record :=
  (fun r => {| dj_door := r; dj_controller := join_controller d r |}) <$> doors d !! b_door_id base.

(** The live grant of the pair, [None] for none; the window is evaluated in
    the zone of the grant. *)
Definition the_grant (now : instant) (d : Db) (base : Base) : option (uuid * permission_row) :=
  fetchrow (fun p => (p_user_id p =? b_user_id base) && (p_door_id p =? b_door_id base)
                     && p_is_active p && DoorRepository.valid_now now p) (permissions d).

Definition the_permission (now : instant) (d : Db) (base : Base) : option effective_permission :=
  '(id, p) ← the_grant now d base;
  PermissionRepository.evaluate id p <$> pg_local (p_time_zone p) now.

Definition door_usable (d : Db) (base : Base) : bool :=
  match the_door d base with
  | Some r => dr_is_active (dj_door r) && is_some (dr_controller_id (dj_door r))
  | None => false
  end.

Definition the_controller (d : Db) (base : Base) : option controller_row :=
  the_door d base ≫= dj_controller.

Definition proximity (now : instant) (d : Db) (base : Base) (beacon : pystr) : outcome Exn (bool * option Z) :=
  match the_controller d base with
  | Some c => verify_proximity (c_beacon_key c) beacon (beacon_rotation_seconds settings)
                (proximity_max_age_seconds settings) now
  | None => ERR (EType §"cannot convert NoneType object to bytes")
  end.

(** The [door.unlock] rows of the user in the last minute. *)
Definition recent_unlock_events (now : instant) (d : Db) (user : uuid) : Z :=
  count (RateLimitRepository.unlock_event user (now - seconds 60)) (audit_log d).

(** The six checks, in order, with what each refuses with. *)
Definition unlock_checklist (w : World) (base : Base) (beacon : pystr) : list (bool * Refusal) :=
  let d := w_db w in
  let now := w_now w in
  [(door_usable d base, denial §"door_unavailable" DENIED []);
   (is_some (the_permission now d base), denial §"no_permission" DENIED []);
   (from_option ep_within_window true (the_permission now d base),
    denial §"outside_time_window" DENIED (from_option window_detail [] (the_permission now d base)));
   (negb (from_option c_is_blocked false (the_controller d base)), denial §"controller_blocked" DENIED []);
   (match proximity now d base beacon with OK a => a.1 | ERR _ => false end,
    denial §"proximity_not_proven" NOT_PRESENT
      [(§"presented_length", JInt (Z.of_nat (length beacon)))]);
   (recent_unlock_events now d (b_user_id base) <? rate_max_unlocks_per_minute settings,
    {| rf_event := RATE_LIMIT_TRIPPED; rf_error := RateLimited 60;
       rf_detail := [(§"attempts_in_window", JInt (recent_unlock_events now d (b_user_id base)));
                     (§"scope", JStr §"unlock")] |});
   (is_some (h_sessions (w_hub w) !! from_option c_code [] (the_controller d base)),
    denial §"controller_offline" CONTROLLER_OFFLINE
      [(§"controller_code", JStr (from_option c_code [] (the_controller d base)))])].

(** What the checks do not decide: the zone of the grant is known, the
    controller row exists, and the identifier can be compared. *)
Record decidable_request (w : World) (base : Base) (beacon : pystr) : Prop := {
  dq_zone : forall id p, the_grant (w_now w) (w_db w) base = Some (id, p) ->
              is_Some (pg_local (p_time_zone p) (w_now w));
  dq_rotation : 0 < beacon_rotation_seconds settings;
  dq_range : slots_in_range (w_now w) (beacon_rotation_seconds settings) (proximity_max_age_seconds settings);
  dq_ascii : is_ascii (rstrip_eq (strip beacon)) = true
}.

Lemma refuse_bind {A B} base r (k : A -> io B) w : run (refuse base r ≫= k) w = run (refuse base r) w.
Proof. unfold refuse. rewrite !run_bind. by destruct (run _ w) as [w1 [a|e]]. Qed.

Lemma deny_bind {A B} base ir reason extra (k : A -> io B) w :
  run (_deny base ir reason extra None ≫= k) w = run (refuse base (denial ir reason extra)) w.
Proof. apply (refuse_bind base (denial ir reason extra)). Qed.

End spec.

(** ** The checks refine the checklist *)

Section refinement.
Context {EN : Entropy} {PG : Postgres} (settings : Settings).

Lemma verify_total key beacon rotation age now :
  length key = 32%nat -> 0 < rotation -> slots_in_range now rotation age ->
  is_ascii (rstrip_eq (strip beacon)) = true ->
  exists a, verify_proximity key beacon rotation age now = OK a.
Proof.
  intros Hk Hr Hrange Ha. destruct beacon as [|c b]; [by eexists|].
  rewrite (verify_find key Hk); [|done|done|done|by apply slots_in_range_ok].
  destruct (List.find _ _); by eexists.
Qed.

(** Without a controller row the foreign key is broken. *)
Lemma door_controller d base r :
  db_ok d -> the_door d base = Some r -> is_some (dr_controller_id (dj_door r)) = true ->
  exists c, dj_controller r = Some c /\ length (c_beacon_key c) = 32%nat.
Proof.
  intros Hd Hr Hc. unfold the_door in Hr. apply fmap_Some in Hr as (dr & Hdr & ->). cbn in *.
  destruct (dr_controller_id dr) as [cid|] eqn:Ec; [|done].
  destruct (ok_doors d Hd) as (_ & _ & Hrefs). destruct (Hrefs _ _ _ Hdr Ec) as [c Hcid].
  exists c. split; [unfold join_controller; by rewrite Ec|].
  destruct (ok_controllers d Hd) as (_ & _ & Hch). by destruct (Hch _ _ Hcid).
Qed.

Lemma run_effective base w :
  (forall id p, the_grant (w_now w) (w_db w) base = Some (id, p) -> is_Some (pg_local (p_time_zone p) (w_now w))) ->
  run (PermissionRepository.effective (b_user_id base) (b_door_id base)) w
  = (w, OK (the_permission (w_now w) (w_db w) base)).
Proof.
  intros Hz. unfold PermissionRepository.effective. rewrite run_bind, run_query.
  unfold the_permission. fold (the_grant (w_now w) (w_db w) base).
  destruct (the_grant (w_now w) (w_db w) base) as [[id p]|] eqn:E; [|done].
  destruct (Hz id p eq_refl) as [l Hl]. cbn. by rewrite Hl.
Qed.

(** The first failing check, refused with its own audit row and error; or none,
    and then the grounds of the command. *)
Lemma unlock_checks_refine base beacon w :
  db_ok (w_db w) -> decidable_request settings w base beacon ->
  run (unlock_checks settings base beacon) w =
  match first_failing (unlock_checklist settings w base beacon) with
  | Some r => run (refuse base r) w
  | None =>
      match the_door (w_db w) base, the_controller (w_db w) base, proximity settings (w_now w) (w_db w) base beacon with
      | Some dr, Some c, OK a => (w, OK {| g_door := dj_door dr; g_controller := c; g_age := a.2 |})
      | _, _, _ => (w, ERR (EType []))
      end
  end.
Proof.
  intros Hd [Hz Hrot Hrange Hasc]. unfold unlock_checks, unlock_checklist, DoorRepository.by_id.
  rewrite run_bind, run_query. fold (the_door (w_db w) base). unfold door_usable, the_controller, proximity, the_controller.
  destruct (the_door (w_db w) base) as [dr|] eqn:Edr; [|cbn [negb orb]; by rewrite deny_bind].
  destruct (dr_is_active (dj_door dr)) eqn:Eact; [|cbn [negb orb]; by rewrite deny_bind].
  destruct (is_some (dr_controller_id (dj_door dr))) eqn:Ectl; [|cbn [negb orb]; by rewrite deny_bind].
  destruct (door_controller _ _ _ Hd Edr Ectl) as (c & Ec & Hkey).
  cbn [negb orb andb first_failing]. rewrite run_bind. cbn [run mret proc_ret].
  rewrite run_bind, run_effective by done.
  destruct (the_permission (w_now w) (w_db w) base) as [ep|]; [|cbn [negb orb]; by rewrite deny_bind].
  cbn [is_some first_failing from_option]. destruct (ep_within_window ep); [|cbn [negb orb]; by rewrite deny_bind].
  cbn [negb first_failing]. rewrite run_bind. cbn [run]. cbn [mbind option_bind]. rewrite Ec. cbn [from_option].
  destruct (c_is_blocked c); cbn [negb first_failing]; [by rewrite deny_bind|].
  rewrite run_bind. cbn [run]. rewrite run_bind, run_of_option, run_bind, run_reads.
  destruct (verify_total (c_beacon_key c) beacon _ _ _ Hkey Hrot Hrange Hasc) as [[acc age] Ev].
  rewrite run_bind, run_of_outcome, Ev. cbn [fst snd].
  destruct acc; cbn [negb first_failing]; [|cbn [negb orb]; by rewrite deny_bind].
  rewrite run_bind. cbn [run]. rewrite run_bind. unfold RateLimiter.check_unlock, RateLimitRepository.unlock_count.
  rewrite run_bind, run_query. unfold recent_unlock_events. set (n := count _ _).
  destruct (Z.leb_spec (rate_max_unlocks_per_minute settings) n), (Z.ltb_spec n (rate_max_unlocks_per_minute settings));
    try lia; cbn [run allowed negb first_failing].
  - match goal with |- run (?p ≫= ?k) w = _ =>
      change p with (refuse base {| rf_event := RATE_LIMIT_TRIPPED; rf_error := RateLimited 60;
        rf_detail := [(§"attempts_in_window", JInt n); (§"scope", JStr §"unlock")] |} : io unit) end.
    by rewrite refuse_bind.
  - rewrite run_bind. cbn [run]. unfold ControllerHub.is_online. rewrite run_bind, run_reads.
    destruct (h_sessions (w_hub w) !! c_code c); cbn [is_some negb first_failing]; [done|].
    by rewrite deny_bind.
Qed.

End refinement.

(** ** Who gets through *)

(** Everything the checks establish, in terms of the stored rows. *)
Record may_unlock `{PG : Postgres} (settings : Settings) (w : World) (base : Base) (beacon : pystr)
    (g : Grounds) (pid : uuid) (p : permission_row) (local : Z) : Prop := {
  mu_door : doors (w_db w) !! b_door_id base = Some (g_door g) /\ dr_is_active (g_door g) = true;
  mu_controller : exists cid, dr_controller_id (g_door g) = Some cid
                    /\ controllers (w_db w) !! cid = Some (g_controller g)
                    /\ c_is_blocked (g_controller g) = false;
  mu_grant : permissions (w_db w) !! pid = Some p /\ p_user_id p = b_user_id base
             /\ p_door_id p = b_door_id base /\ p_is_active p = true
             /\ DoorRepository.valid_now (w_now w) p = true;
  mu_window : pg_local (p_time_zone p) (w_now w) = Some local
              /\ PermissionRepository.within_window p (isodow (local / usec_per_day)) (local mod usec_per_day) = true;
  mu_near : verify_proximity (c_beacon_key (g_controller g)) beacon (beacon_rotation_seconds settings)
              (proximity_max_age_seconds settings) (w_now w) = OK (true, g_age g);
  mu_budget : recent_unlock_events (w_now w) (w_db w) (b_user_id base) < rate_max_unlocks_per_minute settings;
  mu_online : is_Some (h_sessions (w_hub w) !! c_code (g_controller g))
}.

Section success.
Context {EN : Entropy} {PG : Postgres} {PR : PyRepr} {SK : SignerSocket} {TR : Transport} (settings : Settings).

Lemma deny_not_ok {A} base ir reason extra ctl w w' (a : A) :
  run (_deny base ir reason extra ctl) w <> (w', OK a).
Proof. unfold _deny. rewrite run_bind. by destruct (run _ w) as [w1 [n|e]]. Qed.

Lemma fail_not_ok {A} base door cid ir w w' (a : A) : run (_fail base door cid ir) w <> (w', OK a).
Proof. unfold _fail. rewrite run_bind. by destruct (run _ w) as [w1 [n|e]]. Qed.

(** A guard that went through changed nothing. *)
Lemma guard_ok {A} (b : bool) base ir reason extra ctl (a : A) w w' x :
  run (if b then _deny base ir reason extra ctl else Ret a) w = (w', OK x) -> b = false /\ w' = w /\ x = a.
Proof. destruct b; [by intros ?%deny_not_ok|]. by intros [= <- <-]. Qed.

Lemma unlock_checks_sound base beacon w w' g :
  run (unlock_checks settings base beacon) w = (w', OK g) ->
  w' = w /\ exists pid p local, may_unlock settings w base beacon g pid p local.
Proof.
  unfold unlock_checks, DoorRepository.by_id. intros Hr.
  rewrite run_bind, run_query in Hr. apply run_bind_ok in Hr as (w1 & dr & H1 & Hr).
  destruct (doors (w_db w) !! b_door_id base) as [d|] eqn:Ed; [|by apply deny_not_ok in H1]. cbn in H1.
  apply guard_ok in H1 as (E1 & -> & ->). apply orb_false_elim in E1 as [Ea%negb_false_iff Ec%negb_false_iff].
  apply run_bind_ok in Hr as (w2 & perm & H2 & Hr). unfold PermissionRepository.effective in H2.
  rewrite run_bind, run_query, run_of_option in H2. fold (the_grant (w_now w) (w_db w) base) in H2.
  destruct (the_grant (w_now w) (w_db w) base) as [[pid p]|] eqn:Eg.
  2: { injection H2 as <- <-. apply run_bind_ok in Hr as (? & ? & Hr & _). by apply deny_not_ok in Hr. }
  destruct (pg_local (p_time_zone p) (w_now w)) as [local|] eqn:El; [|done]. injection H2 as <- <-.
  apply run_bind_ok in Hr as (w3 & ? & H3 & Hr). apply guard_ok in H3 as (Ew%negb_false_iff & -> & _).
  apply run_bind_ok in Hr as (w4 & ? & H4 & Hr). apply guard_ok in H4 as (Eb & -> & _). cbn in Eb.
  rewrite run_bind, run_of_option in Hr. cbn [dj_controller] in *.
  destruct (join_controller (w_db w) d) as [c|] eqn:Ej; [|done]. rewrite run_bind, run_reads in Hr.
  rewrite run_bind, run_of_outcome in Hr. destruct (verify_proximity _ _ _ _ _) as [[acc age]|] eqn:Ev; [|done].
  apply run_bind_ok in Hr as (w5 & ? & H5 & Hr). apply guard_ok in H5 as (Ep%negb_false_iff & -> & _).
  cbn in Ep. subst acc. unfold RateLimiter.check_unlock, RateLimitRepository.unlock_count in Hr.
  rewrite run_bind, run_bind, run_query in Hr. fold (recent_unlock_events (w_now w) (w_db w) (b_user_id base)) in Hr.
  destruct (Z.leb_spec (rate_max_unlocks_per_minute settings) (recent_unlock_events (w_now w) (w_db w) (b_user_id base)))
    as [|Hn]; cbn [run allowed negb] in Hr.
  { apply run_bind_ok in Hr as (? & ? & Hr & _). apply run_bind_ok in Hr as (? & ? & _ & Hr). done. }
  rewrite run_bind in Hr. cbn [run] in Hr. unfold ControllerHub.is_online in Hr. rewrite run_bind, run_reads in Hr.
  apply run_bind_ok in Hr as (w6 & ? & H6 & Hr). apply guard_ok in H6 as (Eo%negb_false_iff & -> & _).
  injection Hr as <- <-. split; [done|]. exists pid, p, local.
  apply fetchrow_some in Eg as [Hp HP]. bool_to_prop.
  apply bind_Some in Ej as (cid & Ecid & Ectl). cbn in Eb, Ew.
  split; cbn; try done.
  - by exists cid.
  - by apply is_some_true in Eo.
Qed.

End success.

Section command.
Context {EN : Entropy} {PG : Postgres} {PR : PyRepr} {SK : SignerSocket} {TR : Transport} (settings : Settings).

Lemma signed_ok base door payload w w' sk :
  run (signed base door payload) w = (w', OK sk) -> run (SignerClient.sign_command payload) w = (w', OK sk).
Proof.
  unfold signed. rewrite run_catch. destruct (run (SignerClient.sign_command payload) w) as [w1 [a|e]]; [done|].
  destruct e; try done; by intros ?%deny_not_ok.
Qed.

Lemma acknowledged_ok base door cid code envelope w w' ack :
  run (acknowledged settings base door cid code envelope) w = (w', OK ack) ->
  run (ControllerHub.send_command code envelope (command_ttl_seconds settings)) w = (w', OK ack).
Proof.
  unfold acknowledged. rewrite run_catch. destruct (run (ControllerHub.send_command _ _ _) w) as [w1 [a|e]]; [done|].
  destruct e; try done; by intros ?%fail_not_ok.
Qed.

(** Once the signer has been asked for the signature. *)
Definition asked_to_sign (payload : dict) (w : World) : World :=
  SignerClient.asked (encode_request (SignerClient.sign_request payload)) w.

(** The stages of a command that was carried out. *)
Record carried_out (base : Base) (g : Grounds) (w w' : World) (out : UnlockOutcome)
    (payload ack : dict) (sig : bytes) (kid : json) (w1 w2 w3 w4 : World) : Prop := {
  co_payload : exists nonce, length nonce = 16%nat
    /\ payload = command_payload (g_door g) (c_code (g_controller g)) (command_ttl_seconds settings)
                   (uo_command_id out) (w_now w / usec_per_sec) nonce;
  co_before : w_db w1 = w_db w /\ w_now w1 = w_now w /\ w_hub w1 = w_hub w;
  co_signed : run (SignerClient.sign_command payload) w1 = (asked_to_sign payload w1, OK (sig, kid));
  co_granted : exists r, AuditRepository.new_row (event_value DOOR_UNLOCK_GRANTED) §"success"
      (with_base base (dr_controller_id (g_door g))
         [(§"command_id", JStr (uuid_str (uo_command_id out))); (§"signer_key_id", kid);
          (§"proximity_age_seconds", match g_age g with Some a => JInt a | None => JNull end);
          (§"duration_ms", JInt (dr_unlock_seconds (g_door g) * 1000))])
      (audit_seq (w_db w1) + 1) (w_now w1) = Some r /\ w2 = appended r (asked_to_sign payload w1);
  co_sent : run (ControllerHub.send_command (c_code (g_controller g)) (command_envelope payload sig kid)
                   (command_ttl_seconds settings)) w2 = (w3, OK ack);
  co_opened : dict_get §"result" ack = Some (JStr §"opened");
  co_confirmed : exists r, AuditRepository.new_row (event_value DOOR_UNLOCK_CONFIRMED) §"success"
      (with_base base (dr_controller_id (g_door g))
         [(§"command_id", JStr (uuid_str (uo_command_id out)));
          (§"controller_uptime_ms", default JNull (dict_get §"uptime_ms" ack));
          (§"relay_ms", default JNull (dict_get §"relay_ms" ack))])
      (audit_seq (w_db w3) + 1) (w_now w3) = Some r /\ w4 = appended r w3 /\ w' = w4;
  co_outcome : uo_opened_for_ms out = dr_unlock_seconds (g_door g) * 1000
               /\ uo_proximity_age_seconds out = default 0 (g_age g)
}.

Lemma sign_command_asks payload w w' o :
  run (SignerClient.sign_command payload) w = (w', o) -> w' = asked_to_sign payload w.
Proof.
  unfold SignerClient.sign_command, SignerClient._request. rewrite !run_bind, run_atomic.
  destruct (signer_exchange _ _) as [m|[|x l]]; cbn [run]; [by intros [= <- _]..|].
  rewrite run_of_option. destruct (decode_line _) as [d|]; [|by intros [= <- _]].
  rewrite run_bind. unfold SignerClient.checked_response. destruct (py_true _); cbn [run]; [|by intros [= <- _]].
  unfold SignerClient.unpack. rewrite run_bind, run_of_option. destruct (dict_get §"signature" d) as [v|]; [|by intros [= <- _]].
  rewrite run_bind. destruct v; cbn [run]; try (by intros [= <- _]). rewrite run_of_option.
  destruct (b64decode_lax _); [|by intros [= <- _]]. rewrite run_bind, run_of_option.
  destruct (dict_get §"key_id" d); by intros [= <- _].
Qed.

Lemma unlock_command_ok base g w w' out :
  run (unlock_command settings base g) w = (w', OK out) ->
  exists payload ack sig kid w1 w2 w3 w4, carried_out base g w w' out payload ack sig kid w1 w2 w3 w4.
Proof.
  unfold unlock_command. intros Hr. apply run_bind_ok in Hr as (w1 & [[cid at_] nonce] & [= <- <- <- <-] & Hr).
  set (wc := set_draws _ _) in Hr. set (payload := command_payload _ _ _ _ _ _) in Hr.
  apply run_bind_ok in Hr as (w2 & [sig kid] & H2 & Hr). apply signed_ok in H2.
  pose proof (sign_command_asks _ _ _ _ H2) as ->.
  apply run_bind_ok in Hr as (w3 & n & H3 & Hr). unfold AuditService.success, AuditService.record in H3, Hr.
  rewrite run_append in H3. destruct (AuditRepository.new_row _ _ _ _ _) as [r|] eqn:Er; [|done].
  injection H3 as <- _. apply run_bind_ok in Hr as (w4 & ack & H4 & Hr). apply acknowledged_ok in H4.
  apply run_bind_ok in Hr as (w5 & ? & H5 & Hr).
  destruct (opened ack) eqn:Eo; cbn [negb] in H5; [|by apply fail_not_ok in H5]. injection H5 as <- _.
  apply run_bind_ok in Hr as (w6 & n2 & H6 & [= <- <-]). rewrite run_append in H6.
  destruct (AuditRepository.new_row (event_value DOOR_UNLOCK_CONFIRMED) _ _ _ _) as [r2|] eqn:Er2; [|done].
  injection H6 as <- _.
  exists payload, ack, sig, kid, wc, (appended r (asked_to_sign payload wc)), w4, (appended r2 w4).
  split; try done; try by eexists.
  - eexists. split; [|reflexivity]. apply csprng_length.
  - unfold opened in Eo. destruct (dict_get §"result" ack) as [[]|]; try done.
    apply bool_decide_eq_true_1 in Eo. by subst.
Qed.

Lemma run_record event outcome a w w' n :
  run (AuditService.record event outcome a) w = (w', OK n) ->
  exists r, AuditRepository.new_row event outcome a (audit_seq (w_db w) + 1) (w_now w) = Some r /\ w' = appended r w.
Proof.
  unfold AuditService.record. rewrite run_append. destruct (AuditRepository.new_row _ _ _ _ _) as [r|]; [|done].
  intros [= <- _]. by exists r.
Qed.
End command.

(** What it takes for a door to have been opened in one request. *)
Definition door_opened {EN : Entropy} {PG : Postgres} {PR : PyRepr} {SK : SignerSocket} {TR : Transport}
    (settings : Settings) (user device door : uuid) (beacon : pystr) (ip : option pystr) (w w' : World)
    (out : UnlockOutcome) : Prop :=
  let base := {| b_user_id := user; b_device_id := device; b_door_id := door; b_client_ip := ip |} in
  exists r0 g pid p local payload ack sig kid w1 w2 w3 w4,
    a_event_type r0 = event_value DOOR_UNLOCK_REQUESTED /\ a_actor_id r0 = Some user
    /\ may_unlock settings (appended r0 w) base beacon g pid p local
    /\ carried_out settings base g (appended r0 w) w' out payload ack sig kid w1 w2 w3 w4.

Lemma unlock_ok {EN : Entropy} {PG : Postgres} {PR : PyRepr} {SK : SignerSocket} {TR : Transport}
    settings user device door beacon ip w w' out :
  run (unlock settings user device door beacon ip) w = (w', OK out) ->
  door_opened settings user device door beacon ip w w' out.
Proof.
  intros Hr. unfold door_opened.
  set (base := {| b_user_id := user; b_device_id := device; b_door_id := door; b_client_ip := ip |}). unfold unlock in Hr. fold base in Hr. apply run_bind_ok in Hr as (w1 & n & H1 & Hr).
  apply run_record in H1 as (r0 & Hr0 & ->). apply run_bind_ok in Hr as (w2 & g & H2 & Hr).
  apply unlock_checks_sound in H2 as (-> & pid & p & local & Hmay).
  apply unlock_command_ok in Hr as (payload & ack & sig & kid & v1 & v2 & v3 & v4 & Hc).
  apply new_row_some in Hr0 as (_ & _ & Ee & _ & _ & Ea & _).
  exists r0, g, pid, p, local, payload, ack, sig, kid, v1, v2, v3, v4. by split_and!.
Qed.

(** C4 A door opens only when every check passed: whenever [unlock] returns,
    the stored rows at the time of the request say that the door is active,
    its controller is not blocked, the user holds a live grant inside its
    window, the presented identifier is a current beacon of that controller,
    the user is inside the budget and the controller was connected; then the
    signer signed exactly the command for this door, controller and relay,
    the envelope with that signature was sent, and the controller answered
    [opened]; the grant and the confirmation are on the audit log. *)
Theorem unlock_success {EN : Entropy} {PG : Postgres} {PR : PyRepr} {SK : SignerSocket} {TR : Transport}
    settings user device door beacon ip w w' out :
  run (unlock settings user device door beacon ip) w = (w', OK out) ->
  let base := {| b_user_id := user; b_device_id := device; b_door_id := door; b_client_ip := ip |} in
  exists r0 g pid p local payload ack sig kid w1 w2 w3 w4,
    a_event_type r0 = event_value DOOR_UNLOCK_REQUESTED /\ a_actor_id r0 = Some user
    /\ may_unlock settings (appended r0 w) base beacon g pid p local
    /\ carried_out settings base g (appended r0 w) w' out payload ack sig kid w1 w2 w3 w4.
Proof. apply unlock_ok. Qed.

(** C14 A request that fails a check is refused by the first failing check of
    the list, in the documented order, with that check's audit row and error and
    nothing else: the signer and the controllers are not contacted, whatever
    they are. The door, permission and controller checks give the client one
    and the same response. *)
Theorem unlock_refused {EN : Entropy} {PG : Postgres} {PR : PyRepr} settings user device door beacon ip w w1 n rf :
  let base := {| b_user_id := user; b_device_id := device; b_door_id := door; b_client_ip := ip |} in
  db_ok (w_db w) ->
  run (AuditService.record (event_value DOOR_UNLOCK_REQUESTED) §"success" (with_base base None [])) w = (w1, OK n) ->
  decidable_request settings w1 base beacon ->
  first_failing (unlock_checklist settings w1 base beacon) = Some rf ->
  (forall (SK : SignerSocket) (TR : Transport),
     run (unlock settings user device door beacon ip) w = run (refuse base rf) w1)
  /\ (rf ∈ (take 4 (unlock_checklist settings w1 base beacon)).*2 ->
      http_error (rf_error rf) = http_error (UnlockDenied DENIED [])).
Proof.
  intros base Hd H1 Hq Hf. split.
  - intros SK TR. unfold unlock. fold base. rewrite run_bind, H1, run_bind.
    rewrite unlock_checks_refine; [|by eapply run_db_ok; [apply append_evolves| |]|done].
    rewrite Hf. unfold refuse. rewrite !run_bind. by destruct (run _ w1) as [w2 [x|e]].
  - cbn. rewrite !elem_of_cons, elem_of_nil. by intros [->|[->|[->|[->|[]]]]].
Qed.

(** ** Every refusal is on record *)

(** The last row of the log accounts for the error the client is shown. *)
Definition on_record `{PG : Postgres} (base : Base) (w : World) (e : Exn) : Prop :=
  match e with
  | EApi err =>
      exists r d, last (audit_log (w_db w)) = Some r
        /\ a_actor_id r = Some (b_user_id base) /\ a_device_id r = Some (b_device_id base)
        /\ a_door_id r = Some (b_door_id base) /\ jsonb (JObj d) = Some (a_detail r)
        /\ match err with
           | UnlockDenied reason internal =>
               dict_get §"reason" d = Some (JStr internal)
               /\ ((a_event_type r = event_value DOOR_UNLOCK_DENIED /\ a_outcome r = out_denied)
                   \/ (a_event_type r = event_value DOOR_UNLOCK_FAILED /\ a_outcome r = out_failure /\ reason = FAILED))
           | RateLimited _ => a_event_type r = event_value RATE_LIMIT_TRIPPED /\ a_outcome r = out_denied
           | _ => False
           end
  | EHttp _ => False
  | _ => True
  end.

(** Neither of the exceptions that carry an answer for the client. *)
Definition not_api (e : Exn) : Prop := match e with EApi _ | EHttp _ => False | _ => True end.

Section record.
Context {EN : Entropy} {PG : Postgres} {PR : PyRepr} {SK : SignerSocket} {TR : Transport} (settings : Settings).
Context (base : Base).

Lemma not_api_on_record w e : not_api e -> on_record base w e.
Proof. by destruct e. Qed.

Lemma raises_not_api {A} (p : io A) : raises (fun _ e => not_api e) p -> raises (on_record base) p.
Proof. apply raises_impl. intros w e. apply not_api_on_record. Qed.

Lemma append_not_api event outcome a : raises (fun _ e => not_api e) (AuditRepository.append event outcome a).
Proof.
  intros w w' e. rewrite run_append. by destruct (AuditRepository.new_row _ _ _ _ _); intros [= <- <-].
Qed.

Lemma append_then_on_record event outcome ctl d (err : ApiError) {A} :
  (forall r w, last (audit_log (w_db w)) = Some r -> a_actor_id r = Some (b_user_id base) ->
     a_device_id r = Some (b_device_id base) -> a_door_id r = Some (b_door_id base) ->
     jsonb (JObj d) = Some (a_detail r) -> a_event_type r = event -> outcome_text (a_outcome r) = outcome ->
     on_record base w (EApi err)) ->
  raises (on_record base) (_ ← AuditRepository.append event outcome (with_base base ctl d); Raise (EApi err) : io A).
Proof.
  intros H. apply raises_bind_ok; [apply raises_not_api, append_not_api|].
  intros w w1 n Hr w' e [= <- <-]. rewrite run_append in Hr.
  destruct (AuditRepository.new_row _ _ _ _ _) as [r|] eqn:Er; [|done]. injection Hr as <- _.
  apply new_row_some in Er as (_ & _ & Ee & Eo & _ & Ea & Edv & Edr & _ & _ & Ed & _).
  apply List.find_some in Eo as [_ Eo%bool_decide_eq_true_1].
  apply (H (audit_hash_chain (audit_log (w_db w)) r)); try done. cbn. by rewrite last_snoc.
Qed.

Lemma outcome_text_inv o o' : outcome_text o = outcome_text o' -> o = o'.
Proof. by destruct o, o'. Qed.

Lemma deny_on_record {A} ir reason extra ctl : ir <> [] -> raises (on_record base) (_deny base ir reason extra ctl : io A).
Proof.
  intros Hne. apply append_then_on_record. intros r w Hl Ha Hdv Hdr Hd He Ho.
  exists r, ((§"reason", JStr ir) :: extra). split_and!; try done. unfold unlock_denied.
  destruct ir; [done|]. split; [done|]. left. split; [done|]. by apply (outcome_text_inv _ out_denied).
Qed.

Lemma fail_on_record {A} door cid ir : ir <> [] -> raises (on_record base) (_fail base door cid ir : io A).
Proof.
  intros Hne. apply append_then_on_record. intros r w Hl Ha Hdv Hdr Hd He Ho.
  eexists r, _. split_and!; try done. unfold unlock_denied.
  destruct ir; [done|]. split; [done|]. right. split_and!; try done. by apply (outcome_text_inv _ out_failure).
Qed.

Lemma match_slots_not_api key pr m l e : match_slots key pr m l = ERR e -> not_api e.
Proof.
  revert m. induction l as [|s l IH]; intros m; cbn; [done|].
  destruct (derive_beacon_id key s) as [c|e'] eqn:Ed.
  - destruct (negb _); [by intros [= <-]|apply IH].
  - intros [= <-]. unfold derive_beacon_id in Ed. destruct (negb _); [by injection Ed as <-|].
    destruct (to_bytes_be 8 s); [done|]. by injection Ed as <-.
Qed.

Lemma verify_not_api key beacon rotation age now e : verify_proximity key beacon rotation age now = ERR e -> not_api e.
Proof.
  unfold verify_proximity, acceptable_slots, slot_for. destruct beacon as [|c b]; [done|].
  destruct (rotation =? 0); [by intros [= <-]|].
  destruct (match_slots _ _ _ _) as [[s|]|e'] eqn:Em; [done..|]. intros [= <-]. by apply match_slots_not_api in Em.
Qed.

Lemma checks_on_record beacon : raises (on_record base) (unlock_checks settings base beacon).
Proof.
  unfold unlock_checks, DoorRepository.by_id, PermissionRepository.effective, RateLimiter.check_unlock,
    RateLimitRepository.unlock_count, ControllerHub.is_online.
  repeat lazymatch goal with
  | |- raises _ (mbind _ (AuditService.denied _ _)) =>
      apply append_then_on_record; intros r w Hl Ha Hdv Hdr Hd He Ho; eexists r, _; split_and!;
        [done..|by apply (outcome_text_inv _ out_denied)]
  | |- raises _ (mbind _ _) => apply raises_bind; [|intros ?]
  | |- raises _ (_deny _ _ _ _ _) => by apply deny_on_record
  | |- raises _ (of_option _ _) => by apply raises_of_option
  | |- raises _ (query _) => apply raises_reads
  | |- raises _ (reads _) => apply raises_reads
  | |- raises _ (Ret _) => apply raises_ret
  | |- raises _ (if ?b then _ else _) => destruct b
  | |- raises _ (match ?x with _ => _ end) => destruct x
  end.
  intros w w' e. rewrite run_of_outcome. intros [= <- He]. apply not_api_on_record. by eapply verify_not_api.
Qed.

Lemma sign_not_api payload : raises (fun _ e => not_api e) (SignerClient.sign_command payload).
Proof.
  unfold SignerClient.sign_command, SignerClient._request, SignerClient.checked_response, SignerClient.unpack.
  repeat first
    [ apply raises_bind; [|intros ?] | by apply raises_atomic | apply raises_ret
    | apply raises_of_option; done | apply raises_raise; done | case_match ].
Qed.

Lemma send_not_api code envelope timeout :
  raises (fun _ e => not_api e) (ControllerHub.send_command code envelope timeout).
Proof.
  unfold ControllerHub.send_command. apply raises_bind; [|intros [[s f] c]].
  - apply raises_atomic. intros w. destruct (h_sessions (w_hub w) !! code); [|done].
    unfold ControllerHub.envelope_command_id. by repeat case_match; simplify_eq.
  - apply (raises_finally _ not_api); [| |done].
    + apply raises_catch. apply (raises_impl (fun _ e => not_api e)).
      { intros w e He. destruct e; try done. by intros w' e' [= <- <-]. }
      apply raises_bind; [|intros _]; apply raises_atomic; intros w.
      * destruct (ws_send _ _ _) as [w1 [m|]]; done.
      * by destruct (h_future_heap (w_hub w) !! f) as [[]|].
    + by apply raises_atomic.
Qed.

Lemma command_on_record g : raises (on_record base) (unlock_command settings base g).
Proof.
  unfold unlock_command. apply raises_bind; [by apply raises_atomic|intros [[cid at_] nonce]].
  apply raises_bind; [|intros sk].
  { unfold signed. apply raises_catch. apply (raises_impl (fun _ e => not_api e)); [|apply sign_not_api].
    intros w e He. destruct e; try done; intros w' e'; by apply deny_on_record. }
  apply raises_bind; [apply raises_not_api, append_not_api|intros _].
  apply raises_bind; [|intros ack].
  { unfold acknowledged. apply raises_catch. apply (raises_impl (fun _ e => not_api e)); [|apply send_not_api].
    intros w e He. destruct e; try done; intros w' e'; by apply fail_on_record. }
  apply raises_bind; [destruct (negb _); [by apply fail_on_record|apply raises_ret]|intros _].
  apply raises_bind; [apply raises_not_api, append_not_api|intros _; apply raises_ret].
Qed.
End record.

Lemma unlock_raises {EN : Entropy} {PG : Postgres} {PR : PyRepr} {SK : SignerSocket} {TR : Transport}
    settings user device door beacon ip :
  raises (on_record {| b_user_id := user; b_device_id := device; b_door_id := door; b_client_ip := ip |})
    (unlock settings user device door beacon ip).
Proof.
  unfold unlock. apply raises_bind; [apply raises_not_api, append_not_api|intros _].
  apply raises_bind; [apply checks_on_record|intros g; apply command_on_record].
Qed.

(** C28 No refusal without a record: whenever [unlock] raises an error that is
    shown to the client, the last row of the audit log is a denial (or a
    failure) of this user, device and door, with the internal reason of the
    error; a request over the budget leaves a row of its own kind. *)
Theorem unlock_errors_on_record {EN : Entropy} {PG : Postgres} {PR : PyRepr} {SK : SignerSocket} {TR : Transport}
    settings user device door beacon ip w w' err :
  run (unlock settings user device door beacon ip) w = (w', ERR (EApi err)) ->
  on_record {| b_user_id := user; b_device_id := device; b_door_id := door; b_client_ip := ip |} w' (EApi err).
Proof. apply unlock_raises. Qed.

(** ** The signer accepts what [unlock] sends *)

Lemma payload_ok dr code ttl cid at_ nonce :
  1 <= dr_unlock_seconds dr <= 10 -> 0 < ttl <= 30 -> all_bytes nonce -> length nonce = 16%nat ->
  command_ok (command_payload dr code ttl cid at_ nonce) at_ (at_ + ttl) (dr_unlock_seconds dr * 1000).
Proof.
  intros Hs Httl Hb Hl. split; try done.
  - unfold REQUIRED_COMMAND_FIELDS. rewrite !Forall_cons, Forall_nil. split_and!; try done; by eexists.
  - split; [done|lia].
  - lia.
  - eexists. split; [done|]. rewrite urlsafe_nopad_eq by done.
    pose proof (b64_nopad_length url nonce) as Hn. rewrite Hl in Hn. lia.
Qed.

(** Under the constraints of the schema, and with a lifetime of at most the
    signer's thirty seconds, the command of any door is one the signer signs:
    the bound on [unlock_seconds] keeps the duration in range, the nonce is
    long enough, every required field is there. *)
Theorem unlock_commands_are_signable d id dr code ttl cid at_ nonce :
  db_ok d -> doors d !! id = Some dr -> 0 < ttl <= 30 -> all_bytes nonce -> length nonce = 16%nat ->
  validate_command (command_payload dr code ttl cid at_ nonce) = None.
Proof.
  intros Hd Hdr Httl Hb Hl. apply validate_command_iff. destruct (ok_doors d Hd) as (_ & Hc & _).
  exists at_, (at_ + ttl), (dr_unlock_seconds dr * 1000). apply payload_ok; try done. by destruct (Hc _ _ Hdr).
Qed.

(** ** The budget *)

Section budget.
Context {EN : Entropy} {PG : Postgres} {PR : PyRepr} {SK : SignerSocket} {TR : Transport} {TE : TransportEvolves}.
Context (settings : Settings).

Lemma count_prefix {A} (f : A -> bool) l1 l2 : l1 `prefix_of` l2 -> count f l1 <= count f l2.
Proof. intros [k ->]. rewrite count_app. pose proof (count_nonneg f k). lia. Qed.

Lemma appended_event event outcome base ctl dt w r since :
  AuditRepository.new_row event outcome (with_base base ctl dt) (audit_seq (w_db w) + 1) (w_now w) = Some r ->
  starts_with §"door.unlock" event = true -> since < w_now w ->
  count (RateLimitRepository.unlock_event (b_user_id base) since) (audit_log (w_db (appended r w)))
  = count (RateLimitRepository.unlock_event (b_user_id base) since) (audit_log (w_db w)) + 1.
Proof.
  intros Hr He Hs. apply new_row_some in Hr as (_ & Et & Ee & _ & _ & Ea & _). cbn.
  rewrite count_app, count_cons, count_nil. unfold RateLimitRepository.unlock_event at 2. cbn.
  rewrite Et, Ee, Ea, bool_decide_true, He by done. apply Z.ltb_lt in Hs. rewrite Hs. cbn. lia.
Qed.

Lemma unlock_stages user device door beacon ip w w' out :
  run (unlock settings user device door beacon ip) w = (w', OK out) ->
  let base := {| b_user_id := user; b_device_id := device; b_door_id := door; b_client_ip := ip |} in
  exists r0 g, AuditRepository.new_row (event_value DOOR_UNLOCK_REQUESTED) §"success" (with_base base None [])
                 (audit_seq (w_db w) + 1) (w_now w) = Some r0
    /\ run (unlock_checks settings base beacon) (appended r0 w) = (appended r0 w, OK g)
    /\ run (unlock_command settings base g) (appended r0 w) = (w', OK out).
Proof.
  intros Hr. unfold door_opened.
  set (base := {| b_user_id := user; b_device_id := device; b_door_id := door; b_client_ip := ip |}). unfold unlock in Hr. fold base in Hr. apply run_bind_ok in Hr as (w1 & n & H1 & Hr).
  apply run_record in H1 as (r0 & Hr0 & ->). apply run_bind_ok in Hr as (w2 & g & H2 & Hr).
  pose proof (unlock_checks_sound _ _ _ _ _ _ H2) as [-> _]. by exists r0, g.
Qed.

(** A door that opened left three rows, and was inside the budget with the
    first of them. *)
Lemma unlock_counts user device door beacon ip w w' out since :
  run (unlock settings user device door beacon ip) w = (w', OK out) -> since < w_now w ->
  let n v := count (RateLimitRepository.unlock_event user since) (audit_log (w_db v)) in
  n w + 3 <= n w' /\ w_now w <= w_now w'
  /\ (w_now w - seconds 60 <= since -> n w + 1 < rate_max_unlocks_per_minute settings).
Proof.
  intros Hr Hs n. apply unlock_stages in Hr as (r0 & g & Hr0 & Hc & Hr).
  set (base := {| b_user_id := user; b_device_id := device; b_door_id := door; b_client_ip := ip |}) in *.
  pose proof (appended_event _ _ base _ _ w r0 since Hr0 eq_refl Hs) as N0.
  apply unlock_checks_sound in Hc as (_ & pid & p & local & [_ _ _ _ _ Hbud _]).
  apply unlock_command_ok in Hr as (payload & ack & sig & kid & w1 & w2 & w3 & w4 & Hco).
  destruct Hco as [_ (Ed & En & _) _ (r1 & Hr1 & ->) Hsend _ (r2 & Hr2 & -> & ->) _].
  pose proof (guar_run evolves _ _ _ _ (send_command_evolves _ _ _) Hsend) as [En3 [_ Hlog _ _ _ _ _ _ _ _] _].
  apply (count_prefix (RateLimitRepository.unlock_event user since)) in Hlog.
  cbn in En. assert (En3' : w_now w <= w_now w3) by (cbn in En3; lia).
  pose proof (appended_event _ _ base _ _ (asked_to_sign payload w1) r1 since Hr1 eq_refl ltac:(cbn; lia)) as N1.
  change (w_db (asked_to_sign payload w1)) with (w_db w1) in N1.
  pose proof (appended_event _ _ base _ _ w3 r2 since Hr2 eq_refl ltac:(lia)) as N2.
  rewrite Ed in N1. subst n. cbn beta. cbn [b_user_id base] in *.
  split; [lia|]. split; [exact En3'|]. intros Hge. unfold recent_unlock_events in Hbud. cbn [b_user_id] in Hbud.
  assert (Hle : count (RateLimitRepository.unlock_event user since) (audit_log (w_db (appended r0 w)))
    <= count (RateLimitRepository.unlock_event user (w_now w - seconds 60)) (audit_log (w_db (appended r0 w)))).
  { clear -Hge. induction (audit_log _) as [|r l IH]; [done|]. rewrite !count_cons.
    assert (RateLimitRepository.unlock_event user since r = true ->
            RateLimitRepository.unlock_event user (w_now w - seconds 60) r = true).
    { unfold RateLimitRepository.unlock_event. rewrite !andb_true_iff, !Z.ltb_lt. intuition lia. }
    destruct (RateLimitRepository.unlock_event user since r); [by rewrite H by done; lia|].
    destruct (RateLimitRepository.unlock_event user (w_now w - seconds 60) r); lia. }
  change (w_now (appended r0 w)) with (w_now w) in Hbud. lia.
Qed.
End budget.

(** The budget counts rows, not requests: every opened door leaves three
    rows whose event starts with [door.unlock] and the request itself one, so
    under a limit of up to seven (six by default) a third door in a minute is
    never opened, whichever doors, devices and beacons, and whatever happens in
    between. *)
Theorem third_unlock_in_a_minute_refused {EN : Entropy} {PG : Postgres} {PR : PyRepr} {SK : SignerSocket}
    {TR : Transport} {TE : TransportEvolves} settings user dv1 dv2 dv3 door1 door2 door3 b1 b2 b3 ip1 ip2 ip3
    w w1 v1 w2 v2 o1 o2 :
  rate_max_unlocks_per_minute settings <= 7 ->
  run (unlock settings user dv1 door1 b1 ip1) w = (w1, OK o1) -> evolves w1 v1 ->
  run (unlock settings user dv2 door2 b2 ip2) v1 = (w2, OK o2) -> evolves w2 v2 ->
  w_now v2 - w_now w < seconds 60 ->
  forall w3 o3, run (unlock settings user dv3 door3 b3 ip3) v2 <> (w3, OK o3).
Proof.
  intros Hlim H1 E1 H2 E2 Ht w3 o3 H3. set (since := w_now w - 1).
  apply (unlock_counts _ _ _ _ _ _ _ _ _ since) in H1 as (N1 & T1 & _); [|subst since; lia].
  destruct E1 as [Tv1 [_ L1 _ _ _ _ _ _ _ _] _]. destruct E2 as [Tv2 [_ L2 _ _ _ _ _ _ _ _] _].
  apply (count_prefix (RateLimitRepository.unlock_event user since)) in L1, L2.
  apply (unlock_counts _ _ _ _ _ _ _ _ _ since) in H2 as (N2 & T2 & _); [|subst since; lia].
  apply (unlock_counts _ _ _ _ _ _ _ _ _ since) in H3 as (_ & _ & N3); [|subst since; lia].
  specialize (N3 ltac:(subst since; lia)).
  pose proof (count_nonneg (RateLimitRepository.unlock_event user since) (audit_log (w_db w))). lia.
Qed.

(** ** Every step evolves *)

Section evolution.
Context {EN : Entropy} {PG : Postgres} {PR : PyRepr} {SK : SignerSocket} {TR : Transport} {TE : TransportEvolves}
  (settings : Settings).

Lemma deny_evolves {A} base r d ex cid : guar evolves (_deny base r d ex cid : io A).
Proof. by apply guar_bind; [apply append_evolves|]. Qed.

Lemma fail_evolves {A} base door id r : guar evolves (_fail base door id r : io A).
Proof. by apply guar_bind; [apply append_evolves|]. Qed.

#[local] Hint Resolve deny_evolves fail_evolves : evolves.

Lemma unlock_checks_evolves base beacon : guar evolves (unlock_checks settings base beacon).
Proof. unfold unlock_checks, AuditService.denied, AuditService.record. evolves_tac. Qed.

Lemma new_command_evolves : guar evolves new_command.
Proof. apply evolves_frame. intros w. split_and!; try done; cbn; lia. Qed.

Lemma signed_evolves base door payload : guar evolves (signed base door payload).
Proof. apply guar_catch; [apply sign_command_evolves|]. intros [] q He; simplify_eq; apply deny_evolves. Qed.

Lemma acknowledged_evolves base door id code envelope : guar evolves (acknowledged settings base door id code envelope).
Proof. apply guar_catch; [apply send_command_evolves|]. intros [] q He; simplify_eq; apply fail_evolves. Qed.

Lemma unlock_command_evolves base g : guar evolves (unlock_command settings base g).
Proof.
  apply guar_bind; [apply new_command_evolves|intros [[id issued] nonce]].
  apply guar_bind; [apply signed_evolves|intros sk].
  apply guar_bind; [apply append_evolves|intros _].
  apply guar_bind; [apply acknowledged_evolves|intros ack].
  apply guar_bind; [destruct (negb _); [apply fail_evolves|done]|intros _].
  by apply guar_bind; [apply append_evolves|].
Qed.

Lemma unlock_evolves user device door beacon ip : guar evolves (unlock settings user device door beacon ip).
Proof.
  apply guar_bind; [apply append_evolves|intros _].
  apply guar_bind; [apply unlock_checks_evolves|apply unlock_command_evolves].
Qed.
End evolution.

(** ** A concrete door *)

#[local] Existing Instances demo_entropy demo_postgres demo_argon2 demo_ed25519 demo_repr.
#[local] Instance demo_socket : SignerSocket := served_by demo_service.

(** A controller that answers every command with [opened] while it is sent. *)
Definition demo_ack : dict := [(§"result", JStr §"opened"); (§"uptime_ms", JInt 1000); (§"relay_ms", JInt 3000)].
Definition answered (s : nat) (h : ControllerHub) : ControllerHub :=
  foldr (fun cf h => settle (Result demo_ack) cf.2 h) h (map_to_list (pending_of h s)).
#[local] Instance demo_controller : Transport := {|
  ws_send := fun s _ w => (set_hub (answered s (w_hub w)) w, None) |}.

Lemma settle_le v f h : hub_le h (settle v f h).
Proof.
  apply hub_le_grows; [|apply settle_grows|apply settle_dom]. unfold settle.
  by destruct (h_future_heap h !! f) as [[]|].
Qed.

#[local] Instance demo_controller_evolves : TransportEvolves.
Proof.
  intros s t w. split; [cbn; lia|reflexivity|]. cbn. unfold answered.
  induction (map_to_list (pending_of (w_hub w) s)) as [|cf l IH]; cbn; [reflexivity|].
  etransitivity; [exact IH|apply settle_le].
Qed.

(** The account of the login example, with a controller, a door and a grant
    for all day; the controller is connected. *)
Definition demo_install : io (uuid * nat) :=
  cid ← ControllerRepository.register §"ctrl-1" §"Front" (replicate 32 3) demo_beacon_key;
  did ← DoorRepository.create §"front" §"Front door" None (Some cid) 1 3;
  _ ← PermissionRepository.grant demo_user did None 127 §"00:00:00" §"23:59:59" §"Europe/Sofia" None;
  s ← new_session cid §"ctrl-1" None None;
  _ ← ControllerHub.register s;
  Ret (did, s).

Definition demo_site : World := (run demo_install demo_account).1.
Definition demo_door : uuid := match (run demo_install demo_account).2 with OK p => p.1 | ERR _ => 0 end.

Lemma demo_site_ok : db_ok (w_db demo_site).
Proof.
  apply (run_db_ok demo_install demo_account _ (run demo_install demo_account).2).
  - unfold demo_install. evolves_tac.
  - unfold demo_site. by destruct (run demo_install demo_account).
  - apply demo_account_ok.
Qed.

Definition demo_beacon : pystr := beacon_of demo_beacon_key (w_now demo_world / seconds 30).
Definition demo_unlock (w : World) := run (unlock demo_settings demo_user demo_device demo_door demo_beacon None) w.

Lemma unlock_success_witness :
  match demo_unlock demo_site with
  | (w', OK out) => exists g payload ack sig kid w1 w2 w3 w4 r0,
      carried_out demo_settings {| b_user_id := demo_user; b_device_id := demo_device; b_door_id := demo_door;
                                   b_client_ip := None |} g (appended r0 demo_site) w' out payload ack sig kid w1 w2 w3 w4
  | _ => False
  end.
Proof.
  assert (Hok : match (demo_unlock demo_site).2 with OK _ => true | ERR _ => false end = true) by (vm_compute; reflexivity).
  destruct (demo_unlock demo_site) as [w' [out|e]] eqn:E; [|discriminate Hok]. unfold demo_unlock in E.
  destruct (unlock_success demo_settings demo_user demo_device demo_door demo_beacon None demo_site w' out E)
    as (r0 & g & pid & p & local & payload & ack & sig & kid & w1 & w2 & w3 & w4 & _ & _ & _ & Hc).
  exists g, payload, ack, sig, kid, w1, w2, w3, w4, r0. exact Hc.
Defined.

Definition demo_two_doors : bool :=
  match demo_unlock demo_site with
  | (w1, OK _) => match demo_unlock w1 with
                  | (w2, OK _) => w_now w2 - w_now demo_site <? seconds 60
                  | _ => false
                  end
  | _ => false
  end.

Lemma third_unlock_in_a_minute_refused_witness :
  exists w1 w2 o1 o2, demo_unlock demo_site = (w1, OK o1) /\ demo_unlock w1 = (w2, OK o2)
    /\ forall w3 o3, demo_unlock w2 <> (w3, OK o3).
Proof.
  assert (Hok : demo_two_doors = true) by (vm_compute; reflexivity). unfold demo_two_doors in Hok.
  destruct (demo_unlock demo_site) as [w1 [o1|e]] eqn:E1; [|discriminate Hok].
  destruct (demo_unlock w1) as [w2 [o2|e]] eqn:E2; [|discriminate Hok]. apply Z.ltb_lt in Hok.
  exists w1, w2, o1, o2. split; [exact eq_refl|]. split; [exact E2|].
  unfold demo_unlock in *. assert (Hlim : rate_max_unlocks_per_minute demo_settings <= 7) by discriminate.
  exact (third_unlock_in_a_minute_refused _ _ _ _ _ _ _ _ _ _ _ _ _ _ _ _ _ _ _ _ _
    Hlim E1 (reflexivity w1) E2 (reflexivity w2) Hok).
Defined.

(** Without the grant the request is refused as the user is told nothing. *)
Definition demo_stranger : Base := {|
  b_user_id := 5; b_device_id := demo_device; b_door_id := demo_door; b_client_ip := None |}.

Lemma unlock_refused_witness :
  let r := run (AuditService.record (event_value DOOR_UNLOCK_REQUESTED) §"success" (with_base demo_stranger None [])) demo_site in
  run (unlock demo_settings 5 demo_device demo_door demo_beacon None) demo_site
  = run (refuse demo_stranger (denial §"no_permission" DENIED [])) r.1.
Proof.
  intros r. assert (Hr : match r.2 with OK _ => true | ERR _ => false end = true) by (vm_compute; reflexivity).
  destruct r.2 as [n|e] eqn:En; [|discriminate Hr].
  apply (unlock_refused demo_settings 5 demo_device demo_door demo_beacon None demo_site r.1 n
    (denial §"no_permission" DENIED []) demo_site_ok).
  - change (r = (r.1, OK n)). rewrite <- En. apply surjective_pairing.
  - split; [intros id p _; by eexists|done|split; vm_compute; done|vm_compute; reflexivity].
  - vm_compute. reflexivity.
Defined.

Lemma unlock_errors_on_record_witness :
  let r := run (unlock demo_settings 5 demo_device demo_door demo_beacon None) demo_site in
  on_record demo_stranger r.1 (EApi (UnlockDenied DENIED §"no_permission")).
Proof.
  intros r. apply (unlock_errors_on_record demo_settings 5 demo_device demo_door demo_beacon None demo_site r.1).
  assert (Hr : match r.2 with ERR (EApi (UnlockDenied DENIED m)) => str_eqb m §"no_permission" | _ => false end = true)
    by (vm_compute; reflexivity).
  change (r = (r.1, ERR (EApi (UnlockDenied DENIED §"no_permission")))).
  destruct r as [w' o]. cbn in Hr. destruct o as [|[e| | | | | | | | | | | | | | | |]]; try discriminate Hr.
  destruct e as [|[] m| | |]; try discriminate Hr. apply bool_decide_eq_true_1 in Hr as ->. reflexivity.
Defined.

Lemma unlock_commands_are_signable_witness :
  exists dr, validate_command (command_payload dr §"ctrl-1" 10 7 1709208000 (replicate 16 1)) = None.
Proof.
  destruct (doors (w_db demo_site) !! demo_door) as [dr|] eqn:E; [|vm_compute in E; discriminate E].
  exists dr. apply (unlock_commands_are_signable (w_db demo_site) demo_door dr);
    [apply demo_site_ok|exact E|lia|repeat constructor; lia|reflexivity].
Defined.
