(* ===== verification/Der.v ===== *)
(** * The DER reader of the key description: [app/core/attestation.py], first
    half

    Offsets and lengths are Python integers: [Z], at any size.  The two loops
    have a fuel argument; the fuel they are run with is the length of the
    content, which is always enough. *)

From S2P Require Import Prelude Text Proc.

(** [l[a:b]] for [0 <= a] *)
Definition slice {A} (l : list A) (a b : Z) : list A :=
  let n := Z.of_nat (length l) in
  take (Z.to_nat (Z.min b n - Z.min a n)) (drop (Z.to_nat (Z.min a n)) l).

Definition len {A} (l : list A) : Z := Z.of_nat (length l).

(** The exceptions of the reader: its own [DerError] with the text, and the
    [IndexError] of a subscript outside the buffer. *)
(* @src backend/app/core/attestation.py * DerError *)
Inductive Fault := DerError (msg : pystr) | IndexError.

Abbreviation der A := (outcome Fault A) (only parsing).

Notation "'let!' x := m 'in' k" := (match m with OK x => k | ERR e => ERR e end)
  (at level 10, x pattern, m at level 100, k at level 200, only parsing).

(** [data[i]]: a negative index counts from the end, one outside raises. *)
Definition byte_at (data : bytes) (i : Z) : der Z :=
  let i := if i <? 0 then i + len data else i in
  if i <? 0 then ERR IndexError
  else match data !! Z.to_nat i with Some b => OK b | None => ERR IndexError end.

(* @src backend/app/core/attestation.py * DerValue *)
Record DerValue := { tag : Z; content : bytes }.

(** Lengths: the short form, or up to four bytes. *)
(* @src backend/app/core/attestation.py 73-80 _read_tlv *)
Definition read_length (data : bytes) (offset : Z) : der (Z * Z) :=
  let! length := byte_at data offset in
  let offset := offset + 1 in
  if negb (Z.land length 128 =? 0) then
    let count := Z.land length 127 in
    if (count =? 0) || (4 <? count) || (len data <? offset + count) then ERR (DerError §"bad length encoding")
    else OK (from_bytes_be (slice data offset (offset + count)), offset + count)
  else OK (length, offset).

(* @src backend/app/core/attestation.py * _read_tlv *)
Definition _read_tlv (data : bytes) (offset : Z) : der (DerValue * Z) :=
  if len data <=? offset then ERR (DerError §"truncated")
  else
    let! tag := byte_at data offset in
    let offset := offset + 1 in
    if Z.land tag 31 =? 31 then ERR (DerError §"high tag numbers are not supported")
    else if len data <=? offset then ERR (DerError §"truncated length")
    else
      let! (length, offset) := read_length data offset in
      let stop := offset + length in
      if len data <? stop then ERR (DerError §"length beyond buffer")
      else OK ({| tag := tag; content := slice data offset stop |}, stop).

(** [None]: the fuel ran out. *)
(* @src backend/app/core/attestation.py 90-92 _read_sequence *)
Fixpoint read_sequence_from (fuel : nat) (content : bytes) (offset : Z) : option (der (list DerValue)) :=
  match fuel with
  | O => None
  | S fuel =>
      if offset <? len content then
        match _read_tlv content offset with
        | ERR m => Some (ERR m)
        | OK (v, offset) =>
            match read_sequence_from fuel content offset with
            | Some (OK items) => Some (OK (v :: items))
            | r => r
            end
        end
      else Some (OK [])
  end.

(* @src backend/app/core/attestation.py * _read_sequence *)
Definition _read_sequence (content : bytes) : der (list DerValue) :=
  default (ERR (DerError [])) (read_sequence_from (S (length content)) content 0).

(* @src backend/app/core/attestation.py * _as_int *)
Definition _as_int (value : DerValue) : Z :=
  match content value with [] => 0 | _ => from_bytes_be (content value) end.

(** ** Bounds *)

Lemma len_app {A} (k l : list A) : len (k ++ l) = len k + len l.
Proof. unfold len. rewrite length_app. lia. Qed.

Lemma len_cons {A} (x : A) l : len (x :: l) = 1 + len l.
Proof. unfold len. cbn [length]. lia. Qed.

Lemma len_nonneg {A} (l : list A) : 0 <= len l.
Proof. unfold len. lia. Qed.

Lemma slice_length {A} (l : list A) a b :
  0 <= a -> a <= b -> b <= len l -> Z.of_nat (length (slice l a b)) = b - a.
Proof. unfold slice, len. intros. rewrite length_take, length_drop. lia. Qed.

Lemma slice_app_r {A} (k l m : list A) : slice (k ++ l ++ m) (len k) (len k + len l) = l.
Proof.
  unfold slice, len. rewrite !length_app, !Z.min_l by lia.
  replace (Z.to_nat (Z.of_nat (length k))) with (length k) by lia.
  rewrite drop_app_length. replace (Z.to_nat _) with (length l) by lia. apply take_app_length.
Qed.

Lemma fold_bytes_bound l acc n :
  all_bytes l -> 0 <= acc < 256 ^ n -> 0 <= n ->
  0 <= fold_left (fun a b => a * 256 + b) l acc < 256 ^ (n + len l).
Proof.
  intros Hl. revert acc n. induction Hl as [|x l Hx _ IH]; intros acc n Ha Hn; cbn [fold_left].
  - unfold len. cbn. by rewrite Z.add_0_r.
  - unfold len in *. cbn [length]. replace (n + Z.of_nat (S (length l))) with ((n + 1) + Z.of_nat (length l)) by lia.
    apply IH; [|lia]. rewrite Z.pow_add_r, Z.pow_1_r by lia. nia.
Qed.

Lemma from_bytes_bound l : all_bytes l -> 0 <= from_bytes_be l < 256 ^ len l.
Proof. intros Hl. apply (fold_bytes_bound l 0 0); [done|lia|lia]. Qed.

Lemma slice_bytes l a b : all_bytes l -> all_bytes (slice l a b).
Proof. intros H. unfold slice. apply Forall_take, Forall_drop, H. Qed.

Lemma byte_at_inside data i : 0 <= i < len data -> exists b, data !! Z.to_nat i = Some b /\ byte_at data i = OK b.
Proof.
  intros Hi. unfold byte_at. rewrite (proj2 (Z.ltb_ge i 0)), (proj2 (Z.ltb_ge i 0)) by lia.
  destruct (lookup_lt_is_Some_2 data (Z.to_nat i)) as [b Hb]; [unfold len in Hi; lia|]. exists b. by rewrite Hb.
Qed.

Lemma byte_at_some data i b : 0 <= i -> data !! Z.to_nat i = Some b -> byte_at data i = OK b.
Proof.
  intros Hi Hb. unfold byte_at. by rewrite (proj2 (Z.ltb_ge i 0)), (proj2 (Z.ltb_ge i 0)), Hb by lia.
Qed.

(** *** The two masks *)

Lemma land_127 x : Z.land x 127 = x mod 128.
Proof. change 127 with (Z.ones 7). by rewrite Z.land_ones by lia. Qed.

Lemma land_128 x : Z.land x 128 = if Z.testbit x 7 then 128 else 0.
Proof.
  apply Z.bits_inj'. intros i Hi. rewrite Z.land_spec. change 128 with (2 ^ 7).
  rewrite Z.pow2_bits_eqb by lia. destruct (Z.eqb_spec 7 i) as [<-|Hne].
  - rewrite andb_true_r. by destruct (Z.testbit x 7).
  - rewrite andb_false_r. destruct (Z.testbit x 7); [|by rewrite Z.bits_0].
    by rewrite Z.pow2_bits_false.
Qed.

Lemma testbit_7 x : 0 <= x < 256 -> Z.testbit x 7 = (128 <=? x).
Proof.
  intros Hx. destruct (Z.leb_spec 128 x).
  - apply Z.testbit_true; [lia|]. change (2 ^ 7) with 128. lia.
  - apply Z.testbit_false; [lia|]. change (2 ^ 7) with 128. lia.
Qed.

(** The high bit of a byte is its being 128 or more. *)
Lemma high_bit x : 0 <= x < 256 -> (Z.land x 128 =? 0) = (x <? 128).
Proof.
  intros Hx. rewrite land_128, testbit_7 by done. destruct (Z.leb_spec 128 x), (Z.ltb_spec x 128); done || lia.
Qed.

(** *** What stands at an offset *)

(** The encoded length at [offset] is [n], and the content starts at [start]:
    one byte below 128, or a byte [128 + count] and [count] more, one to four. *)
Inductive length_at (data : bytes) (offset : Z) : Z -> Z -> Prop :=
| short_length n :
    data !! Z.to_nat offset = Some n -> n < 128 -> length_at data offset n (offset + 1)
| long_length count :
    data !! Z.to_nat offset = Some (128 + count) -> 1 <= count <= 4 -> offset + 1 + count <= len data ->
    length_at data offset (from_bytes_be (slice data (offset + 1) (offset + 1 + count))) (offset + 1 + count).

(** A tag byte whose number is in the single-byte form, a length, and that many
    bytes of content, all inside the buffer. *)
Inductive tlv_at (data : bytes) (offset : Z) : DerValue -> Z -> Prop :=
| tlv t n start :
    data !! Z.to_nat offset = Some t -> Z.land t 31 <> 31 ->
    length_at data (offset + 1) n start -> start + n <= len data ->
    tlv_at data offset {| tag := t; content := slice data start (start + n) |} (start + n).

(** Values one behind the other, up to the end of the buffer. *)
Inductive tlvs_at (data : bytes) : Z -> list DerValue -> Prop :=
| tlvs_end : tlvs_at data (len data) []
| tlvs_next offset v stop vs : tlv_at data offset v stop -> tlvs_at data stop vs -> tlvs_at data offset (v :: vs).

Lemma byte_bound data i b : all_bytes data -> data !! i = Some b -> 0 <= b < 256.
Proof. intros Hb Hi. by apply (Forall_lookup_1 _ _ _ _ Hb Hi). Qed.

Lemma read_length_iff data offset n start :
  all_bytes data -> 0 <= offset < len data ->
  read_length data offset = OK (n, start) <-> length_at data offset n start.
Proof.
  intros Hb Hi. unfold read_length. destruct (byte_at_inside data offset Hi) as (b & Eb & ->).
  pose proof (byte_bound data _ b Hb Eb) as Hr. rewrite high_bit, land_127 by done.
  destruct (Z.ltb_spec b 128) as [Hlt|Hge]; cbn [negb].
  - split; [intros [= <- <-]; by apply short_length|]. intros Hl.
    inversion Hl as [n' E|c E]; rewrite Eb in E; injection E as Ebc; [by rewrite Ebc|lia].
  - assert (Em : b mod 128 = b - 128) by lia. rewrite Em. split.
    + destruct (_ || _) eqn:Ec; [done|]. bool_to_prop. intros [= <- <-].
      apply long_length; [rewrite Eb; f_equal; lia|lia|lia].
    + intros Hl. inversion Hl as [n' E|c E Hc Hs]; rewrite Eb in E; injection E as Ebc; [lia|].
      replace (b - 128) with c by lia.
      by rewrite (proj2 (Z.eqb_neq c 0)), (proj2 (Z.ltb_ge 4 c)), (proj2 (Z.ltb_ge (len data) _)) by lia.
Qed.

Lemma length_at_bounds data offset n start :
  all_bytes data -> 0 <= offset -> length_at data offset n start ->
  offset < len data /\ 0 <= n /\ offset + 1 <= start <= offset + 5 /\ start <= len data.
Proof.
  intros Hb Ho Hl. assert (offset < len data).
  { destruct Hl as [n E _|c E _ _]; apply lookup_lt_Some in E; unfold len; lia. }
  destruct Hl as [n E Hn|c E Hc Hs].
  - apply byte_bound in E; [lia|done].
  - pose proof (from_bytes_bound _ (slice_bytes data (offset + 1) (offset + 1 + c) Hb)). lia.
Qed.

Lemma read_length_indexed data offset :
  0 <= offset < len data -> read_length data offset <> ERR IndexError.
Proof.
  intros Hi. unfold read_length. destruct (byte_at_inside data offset Hi) as (b & _ & ->).
  destruct (negb _); [destruct (_ || _)|]; done.
Qed.

Lemma read_tlv_indexed data offset : 0 <= offset -> _read_tlv data offset <> ERR IndexError.
Proof.
  intros Ho. unfold _read_tlv. destruct (Z.leb_spec (len data) offset); [done|].
  destruct (byte_at_inside data offset) as (t & _ & ->); [lia|]. destruct (_ =? 31); [done|].
  destruct (Z.leb_spec (len data) (offset + 1)); [done|].
  pose proof (read_length_indexed data (offset + 1) ltac:(lia)) as Hx.
  destruct (read_length data (offset + 1)) as [[n start]|[m|]]; [destruct (_ <? _)| |]; congruence.
Qed.

Lemma read_tlv_iff data offset v stop :
  all_bytes data -> 0 <= offset -> _read_tlv data offset = OK (v, stop) <-> tlv_at data offset v stop.
Proof.
  intros Hb Ho. unfold _read_tlv. split.
  - destruct (Z.leb_spec (len data) offset); [done|].
    destruct (byte_at_inside data offset) as (t & Et & ->); [lia|].
    destruct (Z.eqb_spec (Z.land t 31) 31) as [|Ht]; [done|].
    destruct (Z.leb_spec (len data) (offset + 1)); [done|].
    destruct (read_length data (offset + 1)) as [[n start]|] eqn:El; [|done].
    apply read_length_iff in El; [|done|lia].
    destruct (Z.ltb_spec (len data) (start + n)); [done|]. intros [= <- <-]. by apply tlv.
  - intros [t n start Et Ht Hl Hs]. apply length_at_bounds in Hl as Hlb; [|done|lia].
    rewrite (proj2 (Z.leb_gt _ _)), (byte_at_some _ _ _ Ho Et) by lia. cbv zeta.
    rewrite (proj2 (Z.eqb_neq _ _)), (proj2 (Z.leb_gt _ _)) by (done || lia).
    apply read_length_iff in Hl as ->; [|done|lia]. by rewrite (proj2 (Z.ltb_ge _ _)) by lia.
Qed.

(** A value that was read lies inside the buffer, and the reader moves on by at
    least its two header bytes. *)
Lemma read_tlv_bounds data offset v stop :
  all_bytes data -> 0 <= offset -> _read_tlv data offset = OK (v, stop) ->
  offset + 2 <= stop <= len data /\ Z.land (tag v) 31 <> 31 /\ all_bytes (content v)
  /\ exists start, offset + 2 <= start /\ content v = slice data start stop /\ len (content v) = stop - start.
Proof.
  intros Hb H0 Hv. apply read_tlv_iff in Hv as [t n start Et Ht Hl Hs]; [|done|done].
  apply length_at_bounds in Hl as Hlb; [|done|lia]. cbn [tag content].
  split; [lia|]. split; [done|]. split; [by apply slice_bytes|].
  exists start. split; [lia|]. split; [done|]. unfold len at 1. rewrite slice_length by lia. lia.
Qed.

(** ** Termination *)


Lemma read_sequence_fuel fuel data offset :
  all_bytes data -> 0 <= offset <= len data -> len data - offset < Z.of_nat fuel ->
  exists r, read_sequence_from fuel data offset = Some r.
Proof.
  intros Hb. revert offset. induction fuel as [|fuel IH]; intros offset H0 Hf; cbn [read_sequence_from].
  - lia.
  - destruct (Z.ltb_spec offset (len data)); [|by eexists].
    destruct (_read_tlv data offset) as [[v stop]|m] eqn:Ev; [|by eexists].
    apply read_tlv_bounds in Ev as ([Hs Hs2] & _); [|done|lia].
    destruct (IH stop) as [r ->]; [lia|lia|]. destruct r; by eexists.
Qed.

(** The reader returns on every buffer: what [_read_sequence] gives is the
    result of the loop, never the fuel. *)
Lemma read_sequence_total data :
  all_bytes data -> read_sequence_from (S (length data)) data 0 = Some (_read_sequence data).
Proof.
  intros Hb. unfold _read_sequence.
  destruct (read_sequence_fuel (S (length data)) data 0) as [r ->]; [done|unfold len; lia|unfold len; lia|done].
Qed.

(** ** What the loop reads *)

Lemma tlv_at_moves data offset v stop :
  all_bytes data -> 0 <= offset -> tlv_at data offset v stop -> offset + 2 <= stop <= len data.
Proof. intros Hb Ho Hv. by apply read_tlv_iff, read_tlv_bounds in Hv as (H & _). Qed.

Lemma read_sequence_from_sound fuel data offset vs :
  all_bytes data -> 0 <= offset <= len data -> read_sequence_from fuel data offset = Some (OK vs) ->
  tlvs_at data offset vs.
Proof.
  intros Hb. revert offset vs. induction fuel as [|fuel IH]; intros offset vs Ho; cbn [read_sequence_from]; [done|].
  destruct (Z.ltb_spec offset (len data)).
  - destruct (_read_tlv data offset) as [[v stop]|] eqn:Ev; [|done].
    apply read_tlv_iff in Ev; [|done|lia]. apply tlv_at_moves in Ev as Hs; [|done|lia].
    destruct (read_sequence_from fuel data stop) as [[items|]|] eqn:Er; try done. intros [= <-].
    eapply tlvs_next; [done|]. apply IH; [lia|done].
  - intros [= <-]. replace offset with (len data) by lia. apply tlvs_end.
Qed.

Lemma read_sequence_from_complete fuel data offset vs :
  all_bytes data -> 0 <= offset -> len data - offset < Z.of_nat fuel -> tlvs_at data offset vs ->
  read_sequence_from fuel data offset = Some (OK vs).
Proof.
  intros Hb Ho Hf Hvs. revert fuel Ho Hf. induction Hvs as [|offset v stop vs Hv _ IH];
    intros [|fuel] Ho Hf; cbn [read_sequence_from].
  - lia.
  - by rewrite Z.ltb_irrefl.
  - apply tlv_at_moves in Hv as Hs; [lia|done|done].
  - apply tlv_at_moves in Hv as Hs; [|done|done]. rewrite (proj2 (Z.ltb_lt _ _)) by lia.
    apply read_tlv_iff in Hv as ->; [|done|done]. by rewrite IH by lia.
Qed.

Lemma read_sequence_from_indexed fuel data offset :
  all_bytes data -> 0 <= offset -> read_sequence_from fuel data offset <> Some (ERR IndexError).
Proof.
  intros Hb. revert offset. induction fuel as [|fuel IH]; intros offset Ho; cbn [read_sequence_from]; [done|].
  destruct (offset <? len data); [|done]. pose proof (read_tlv_indexed data offset Ho) as Hx.
  destruct (_read_tlv data offset) as [[v stop]|e] eqn:Ev; [|congruence].
  apply read_tlv_bounds in Ev as ([Hs _] & _); [|done|done].
  specialize (IH stop ltac:(lia)). destruct (read_sequence_from fuel data stop) as [[]|]; congruence.
Qed.

Lemma read_sequence_iff data vs : all_bytes data -> _read_sequence data = OK vs <-> tlvs_at data 0 vs.
Proof.
  intros Hb. pose proof (read_sequence_total data Hb) as Ht. split; intros H.
  - rewrite H in Ht. apply read_sequence_from_sound in Ht; [done|done|]. pose proof (len_nonneg data). lia.
  - apply (read_sequence_from_complete (S (length data))) in H; [congruence|done|lia|unfold len; lia].
Qed.

Lemma read_sequence_indexed data : all_bytes data -> _read_sequence data <> ERR IndexError.
Proof.
  intros Hb H. pose proof (read_sequence_total data Hb) as Ht. rewrite H in Ht.
  by apply read_sequence_from_indexed in Ht.
Qed.

(** ** Round trip

    The encoder a conforming phone uses, for tags in the single-byte form. *)

Definition encode_length (n : Z) : bytes :=
  if n <? 128 then [n]
  else if n <? 256 then [129; n]
  else if n <? 65536 then [130; n / 256; n mod 256]
  else if n <? 16777216 then [131; n / 65536; (n / 256) mod 256; n mod 256]
  else [132; n / 16777216; (n / 65536) mod 256; (n / 256) mod 256; n mod 256].

Definition encode_tlv (v : DerValue) : bytes := tag v :: encode_length (len (content v)) ++ content v.

Record encodable (v : DerValue) : Prop := {
  enc_tag : 0 <= tag v < 256 /\ Z.land (tag v) 31 <> 31;
  enc_len : len (content v) < 2 ^ 32
}.

Lemma byte_at_app k l i : 0 <= i -> byte_at (k ++ l) (len k + i) = byte_at l i.
Proof.
  intros Hi. unfold byte_at. cbv zeta. pose proof (len_nonneg k).
  rewrite !(proj2 (Z.ltb_ge (len k + i) 0)), !(proj2 (Z.ltb_ge i 0)) by lia.
  rewrite lookup_app_r by (unfold len; lia). replace (_ - _)%nat with (Z.to_nat i) by (unfold len; lia). done.
Qed.

Lemma byte_at_mid k x r : byte_at (k ++ x :: r) (len k) = OK x.
Proof. rewrite <- (Z.add_0_r (len k)). by rewrite byte_at_app. Qed.

Lemma read_length_encode k n rest :
  0 <= n < 2 ^ 32 ->
  read_length (k ++ encode_length n ++ rest) (len k) = OK (n, len k + len (encode_length n)).
Proof.
  intros Hn. unfold read_length.
  assert (H0 : byte_at (k ++ encode_length n ++ rest) (len k) = OK (default 0 (head (encode_length n)))).
  { rewrite <- (Z.add_0_r (len k)), byte_at_app by done. unfold encode_length. repeat case_match; done. }
  rewrite H0.
  assert (Hlong : forall b, encode_length n = (128 + len b) :: b -> 1 <= len b <= 4 -> from_bytes_be b = n ->
    (if negb (Z.land (128 + len b) 128 =? 0)
     then let count := Z.land (128 + len b) 127 in
          if (count =? 0) || (4 <? count) || (len (k ++ encode_length n ++ rest) <? len k + 1 + count)
          then ERR (DerError §"bad length encoding")
          else OK (from_bytes_be (slice (k ++ encode_length n ++ rest) (len k + 1) (len k + 1 + count)), len k + 1 + count)
     else OK (128 + len b, len k + 1)) = OK (n, len k + len (encode_length n)) :> der (Z * Z)).
  { intros b Eb Hb Ev. assert (Hc : len b = 1 \/ len b = 2 \/ len b = 3 \/ len b = 4) by lia.
    assert (Z.land (128 + len b) 128 = 128 /\ Z.land (128 + len b) 127 = len b) as [-> ->]
      by (destruct Hc as [E|[E|[E|E]]]; by rewrite E).
    cbv zeta. change (negb (128 =? 0)) with true. cbv iota.
    rewrite (proj2 (Z.eqb_neq _ _)), (proj2 (Z.ltb_ge _ _)) by lia. cbn [orb].
    rewrite (proj2 (Z.ltb_ge _ _)).
    2: { rewrite Eb. unfold len. rewrite !length_app. cbn [length]. lia. }
    rewrite Eb. replace (k ++ (128 + len b :: b) ++ rest) with ((k ++ [128 + len b]) ++ b ++ rest)
      by by rewrite <- app_assoc.
    replace (len k + 1) with (len (k ++ [128 + len b])) by (unfold len; rewrite length_app; cbn; lia).
    rewrite slice_app_r, Ev. do 2 f_equal. unfold len. rewrite length_app. cbn [length]. lia. }
  unfold encode_length in *. destruct (Z.ltb_spec n 128).
  - cbn [head from_option id]. assert (Z.land n 128 = 0) as ->; [|by unfold len; cbn].
    assert (Hr : 0 <= n < 128) by lia. clear -Hr.
    apply Z.bits_inj'. intros i Hi. rewrite Z.land_spec, Z.bits_0. change 128 with (2 ^ 7).
    rewrite Z.pow2_bits_eqb by lia. destruct (Z.eqb_spec 7 i) as [<-|]; [|by rewrite andb_false_r].
    rewrite andb_true_r. apply Z.testbit_false; [lia|]. rewrite Z.div_small by lia. done.
  - assert (E1 : n / 65536 = n / 256 / 256) by (rewrite Z.div_div; [done|done|lia]).
    assert (E2 : n / 16777216 = n / 65536 / 256) by (rewrite Z.div_div; [done|done|lia]).
    destruct (Z.ltb_spec n 256); [|destruct (Z.ltb_spec n 65536); [|destruct (Z.ltb_spec n 16777216)]];
      cbn [head from_option id].
    + apply (Hlong [n]); [done|unfold len; cbn; lia|cbn; lia].
    + apply (Hlong [n / 256; n mod 256]); [done|unfold len; cbn; lia|cbn; lia].
    + apply (Hlong [n / 65536; (n / 256) mod 256; n mod 256]); [done|unfold len; cbn; lia|cbn; rewrite E1; lia].
    + apply (Hlong [n / 16777216; (n / 65536) mod 256; (n / 256) mod 256; n mod 256]); [done|unfold len; cbn; lia|cbn; rewrite E2, E1; lia].
Qed.

Lemma encode_length_pos n : 1 <= len (encode_length n).
Proof. unfold encode_length. repeat case_match; unfold len; cbn; lia. Qed.

Lemma read_tlv_encode k v rest :
  encodable v -> _read_tlv (k ++ encode_tlv v ++ rest) (len k) = OK (v, len k + len (encode_tlv v)).
Proof.
  intros [[Ht Ht'] Hl]. unfold _read_tlv, encode_tlv. set (enc := encode_length (len (content v))).
  pose proof (encode_length_pos (len (content v))) as Hpos. fold enc in Hpos.
  pose proof (len_nonneg (content v)). pose proof (len_nonneg rest).
  rewrite <- app_comm_cons, byte_at_mid, !len_app, len_cons, !len_app. cbv zeta.
  rewrite (proj2 (Z.leb_gt _ _)), (proj2 (Z.eqb_neq _ _)) by (done || lia).
  rewrite (proj2 (Z.leb_gt _ _)) by lia.
  replace (k ++ tag v :: (enc ++ content v) ++ rest) with ((k ++ [tag v]) ++ enc ++ content v ++ rest)
    by (by rewrite <- !app_assoc).
  replace (len k + 1) with (len (k ++ [tag v])) by (rewrite len_app; unfold len; cbn; lia).
  subst enc. rewrite read_length_encode by lia. set (enc := encode_length (len (content v))) in *.
  assert (E1 : len (k ++ [tag v]) = len k + 1) by (rewrite len_app; unfold len; cbn; lia).
  cbv beta iota zeta. rewrite (proj2 (Z.ltb_ge _ _)) by (rewrite E1; lia).
  replace ((k ++ [tag v]) ++ enc ++ content v ++ rest) with (((k ++ [tag v]) ++ enc) ++ content v ++ rest)
    by by rewrite <- !app_assoc.
  rewrite <- len_app, slice_app_r, len_cons, !len_app. do 2 f_equal; [by destruct v|]. unfold len at 2. cbn. lia.
Qed.

Lemma encode_tlv_length v : 2 <= len (encode_tlv v).
Proof.
  unfold encode_tlv. rewrite len_cons, len_app. pose proof (encode_length_pos (len (content v))).
  pose proof (len_nonneg (content v)). lia.
Qed.

Lemma read_sequence_encode fuel k vs :
  Forall encodable vs -> (length vs < fuel)%nat ->
  read_sequence_from fuel (k ++ concat (map encode_tlv vs)) (len k) = Some (OK vs).
Proof.
  intros Hvs. revert fuel k. induction Hvs as [|v vs Hv _ IH]; intros [|fuel] k Hf; [cbn in Hf; lia| |cbn in Hf; lia|].
  - cbn. by rewrite app_nil_r, Z.ltb_irrefl.
  - cbn [read_sequence_from map concat]. rewrite !len_app.
    pose proof (len_nonneg (concat (map encode_tlv vs))).
    rewrite (proj2 (Z.ltb_lt _ _)).
    2: { pose proof (encode_tlv_length v). lia. }
    rewrite (read_tlv_encode k v _ Hv).
    rewrite app_assoc, <- len_app, IH; [done|cbn in Hf; lia].
Qed.

(** The reader of tag-length-value sequences reads back exactly what a
    conforming encoder wrote, every value with its tag and content in order,
    for any contents below four gigabytes and single-byte tags. *)
Theorem read_sequence_roundtrip vs :
  Forall encodable vs -> _read_sequence (concat (map encode_tlv vs)) = OK vs.
Proof.
  intros Hvs. unfold _read_sequence. change (concat (map encode_tlv vs)) with ([] ++ concat (map encode_tlv vs)) at 2.
  rewrite (read_sequence_encode _ [] vs Hvs); [done|].
  assert (Hn : (length vs <= length (concat (map encode_tlv vs)))%nat); [|lia].
  clear Hvs. induction vs as [|v vs IH]; cbn; [done|]. rewrite length_app. cbn. lia.
Qed.

(** C40 The reader reads exactly what stands in the buffer: a value and the
    offset behind it come back if and only if the bytes at the offset are a tag
    with its number in the single-byte form, a length in the short form or in
    one to four bytes, and that many bytes of content, all inside the buffer;
    the loop gives exactly the values that stand one behind the other up to the
    end of the buffer.  No subscript is ever outside the buffer, on any bytes,
    so the only exception is [DerError]; and the loop ends within one round per
    byte. *)
Theorem reader_in_bounds data offset :
  all_bytes data -> 0 <= offset ->
  (forall v stop, _read_tlv data offset = OK (v, stop) <-> tlv_at data offset v stop)
  /\ (forall vs, _read_sequence data = OK vs <-> tlvs_at data 0 vs)
  /\ _read_tlv data offset <> ERR IndexError /\ _read_sequence data <> ERR IndexError
  /\ (forall v stop, tlv_at data offset v stop -> offset + 2 <= stop <= len data)
  /\ read_sequence_from (S (length data)) data 0 = Some (_read_sequence data).
Proof.
  intros Hb H0. split_and!.
  - intros v stop. by apply read_tlv_iff.
  - intros vs. by apply read_sequence_iff.
  - by apply read_tlv_indexed.
  - by apply read_sequence_indexed.
  - intros v stop. by apply tlv_at_moves.
  - by apply read_sequence_total.
Qed.

(** ** Witnesses *)

Definition demo_values : list DerValue :=
  [{| tag := 2; content := [3] |}; {| tag := 4; content := replicate 200 7 |}; {| tag := 48; content := [] |}].

Lemma read_sequence_roundtrip_witness : _read_sequence (concat (map encode_tlv demo_values)) = OK demo_values.
Proof. apply (read_sequence_roundtrip demo_values). repeat constructor; vm_compute; done. Defined.

(** The last byte announces a length of two bytes: a [DerError]. *)
Lemma reader_in_bounds_witness :
  _read_sequence [2; 130; 0] <> ERR IndexError /\ _read_sequence [2; 130; 0] = ERR (DerError §"bad length encoding").
Proof.
  split; [|reflexivity]. apply (reader_in_bounds [2; 130; 0] 0); [repeat constructor; lia|lia].
Defined.
