(* ===== verification/Attestation.v ===== *)
(** * Device attestation: [app/core/attestation.py]

    The key description of the leaf certificate is read with [Der]; the
    certificates themselves are the [cryptography] library's, reached through
    the class [X509]. *)

From S2P Require Import Prelude Text Json Proc Errors World Demo Der.

(** ** Certificates *)

Inductive key_kind := rsa_key | ec_key | other_key.

(** What [public_key.verify] does: nothing, one of the exceptions that are
    caught ([InvalidSignature], [ValueError]) with its text, or another one. *)
Inductive signature_check := sig_ok | sig_invalid (msg : pystr) | sig_raises (msg : pystr).

(** [load_pem] is [x509.load_pem_x509_certificate(pem.encode())] with the text
    of its [ValueError]; [signed_by child parent] is [verify] with the parent's
    key; [fingerprint a c] is [c.fingerprint(a.signature_hash_algorithm)];
    [attestation_extension] is [extensions.get_extension_for_oid(...)] and
    [public_bytes()] of what it finds, [inr None] for [ExtensionNotFound] and
    [inl] for any other exception. *)
Class X509 := {
  certificate : Type;
  load_pem : pystr -> pystr + certificate;
  key_kind_of : certificate -> key_kind;
  signed_by : certificate -> certificate -> signature_check;
  subject_text : certificate -> pystr;
  fingerprint : certificate -> certificate -> bytes;
  attestation_extension : certificate -> pystr + option bytes
}.

(* @src backend/app/core/attestation.py * ATTESTATION_OID *)
Definition ATTESTATION_OID : list Z := [1; 3; 6; 1; 4; 1; 11129; 2; 1; 17].

(* @src backend/app/core/attestation.py * SECURITY_LEVELS *)
Definition SECURITY_LEVELS (n : Z) : option pystr :=
  if n =? 0 then Some §"software" else if n =? 1 then Some §"trusted_environment"
  else if n =? 2 then Some §"strongbox" else None.
(* @src backend/app/core/attestation.py * BOOT_STATES *)
Definition BOOT_STATES (n : Z) : option pystr :=
  if n =? 0 then Some §"verified" else if n =? 1 then Some §"self_signed"
  else if n =? 2 then Some §"unverified" else if n =? 3 then Some §"failed" else None.

(* @src backend/app/core/attestation.py * TAG_ROOT_OF_TRUST *)
Definition TAG_ROOT_OF_TRUST : Z := 704.
(* @src backend/app/core/attestation.py * TAG_NO_AUTH_REQUIRED *)
Definition TAG_NO_AUTH_REQUIRED : Z := 503.
(* @src backend/app/core/attestation.py * TAG_USER_AUTH_TYPE *)
Definition TAG_USER_AUTH_TYPE : Z := 504.
(* @src backend/app/core/attestation.py * TAG_ORIGIN *)
Definition TAG_ORIGIN : Z := 702.

(** ** The key description *)

(** The contents by tag number, a later item over an earlier one. *)
(* @src backend/app/core/attestation.py * _parse_authorization_list *)
Definition _parse_authorization_list (value : DerValue) : der (gmap Z bytes) :=
  let! items := _read_sequence (content value) in
  OK (fold_left (fun result item =>
        let tag_number := Z.land (tag item) 31 in
        if tag_number =? 31 then result else <[tag_number := content item]> result) items ∅).

(** The dictionary [out] of the scan. *)
(* @src backend/app/core/attestation.py 173-174 _scan_authorization_list *)
Record AuthorizationList := {
  al_boot_state : option pystr; al_device_locked : option bool;
  al_no_auth_required : bool; al_user_auth_type : option Z
}.

(* @src backend/app/core/attestation.py 173-174 _scan_authorization_list *)
Definition empty_list : AuthorizationList := {|
  al_boot_state := None; al_device_locked := None; al_no_auth_required := false; al_user_auth_type := None |}.

(** The continuation bytes of a multi-byte tag. *)
(* @src backend/app/core/attestation.py 183-188 _scan_authorization_list *)
Fixpoint high_tag (fuel : nat) (data : bytes) (cursor tag_number : Z) : option (der (Z * Z)) :=
  match fuel with
  | O => None
  | S fuel =>
      if cursor <? len data then
        match byte_at data cursor with
        | ERR e => Some (ERR e)
        | OK byte =>
            let cursor := cursor + 1 in
            let tag_number := Z.lor (Z.shiftl tag_number 7) (Z.land byte 127) in
            if Z.land byte 128 =? 0 then Some (OK (tag_number, cursor))
            else high_tag fuel data cursor tag_number
        end
      else Some (OK (tag_number, cursor))
  end.

(* @src backend/app/core/attestation.py 179-190 _scan_authorization_list *)
Definition scan_tag (data : bytes) (offset : Z) : der (Z * Z) :=
  let! first := byte_at data offset in
  if Z.land first 31 =? 31 then default (ERR (DerError [])) (high_tag (S (length data)) data (offset + 1) 0)
  else OK (Z.land first 31, offset + 1).

(** The length at [cursor] and where the body starts; nothing is checked
    against the buffer. *)
(* @src backend/app/core/attestation.py 194-199 _scan_authorization_list *)
Definition scan_length (data : bytes) (cursor : Z) : der (Z * Z) :=
  let! length := byte_at data cursor in
  let cursor := cursor + 1 in
  if negb (Z.land length 128 =? 0) then
    let count := Z.land length 127 in
    OK (from_bytes_be (slice data cursor (cursor + count)), cursor + count)
  else OK (length, cursor).

(** What one tagged value adds. *)
(* @src backend/app/core/attestation.py 203-213 _scan_authorization_list *)
Definition scan_item (tag_number : Z) (body : bytes) (out : AuthorizationList) : der AuthorizationList :=
  if tag_number =? TAG_ROOT_OF_TRUST then
    let! (inner, _) := _read_tlv body 0 in
    let! fields := _read_sequence (content inner) in
    match fields with
    | _ :: locked :: state :: _ =>
        OK {| al_boot_state := Some (default §"unknown" (BOOT_STATES (_as_int state)));
              al_device_locked := Some (bool_decide (content locked = [255]));
              al_no_auth_required := al_no_auth_required out;
              al_user_auth_type := al_user_auth_type out |}
    | _ => OK out
    end
  else if tag_number =? TAG_NO_AUTH_REQUIRED then
    OK {| al_boot_state := al_boot_state out; al_device_locked := al_device_locked out;
          al_no_auth_required := true; al_user_auth_type := al_user_auth_type out |}
  else if tag_number =? TAG_USER_AUTH_TYPE then
    let! (inner, _) := _read_tlv body 0 in
    OK {| al_boot_state := al_boot_state out; al_device_locked := al_device_locked out;
          al_no_auth_required := al_no_auth_required out; al_user_auth_type := Some (_as_int inner) |}
  else OK out.

(** One round of the loop: the new offset and dictionary, or [None] where it
    breaks off. *)
(* @src backend/app/core/attestation.py 177-213 _scan_authorization_list *)
Definition scan_step (data : bytes) (offset : Z) (out : AuthorizationList) : der (option (Z * AuthorizationList)) :=
  let! (tag_number, cursor) := scan_tag data offset in
  if len data <=? cursor then OK None
  else
    let! (length, cursor) := scan_length data cursor in
    let! out := scan_item tag_number (slice data cursor (cursor + length)) out in
    OK (Some (cursor + length, out)).

(** [None]: the fuel ran out. *)
(* @src backend/app/core/attestation.py 175-214 _scan_authorization_list *)
Fixpoint scan_from (fuel : nat) (data : bytes) (offset : Z) (out : AuthorizationList)
    : option (der AuthorizationList) :=
  match fuel with
  | O => None
  | S fuel =>
      if offset <? len data then
        match scan_step data offset out with
        | ERR e => Some (ERR e)
        | OK None => Some (OK out)
        | OK (Some (offset, out)) => scan_from fuel data offset out
        end
      else Some (OK out)
  end.

(* @src backend/app/core/attestation.py * _scan_authorization_list *)
Definition _scan_authorization_list (data : bytes) : der AuthorizationList :=
  default (ERR (DerError [])) (scan_from (S (length data)) data 0 empty_list).

(** The dictionary [parsed]. *)
(* @src backend/app/core/attestation.py 150-157 _parse_key_description *)
Record KeyDescription := {
  kd_attestation_version : Z; kd_attestation_security_level : pystr;
  kd_keymaster_version : Z; kd_keymaster_security_level : pystr;
  kd_attestation_challenge : bytes; kd_unique_id : bytes;
  kd_authorizations : AuthorizationList
}.

(** The hardware list; when it has no root of trust, the software list in its
    place, all four entries of it. *)
(* @src backend/app/core/attestation.py 159-162 _parse_key_description *)
Definition authorizations (software tee : bytes) : der AuthorizationList :=
  let! hw := _scan_authorization_list tee in
  match al_boot_state hw with None => _scan_authorization_list software | Some _ => OK hw end.

(* @src backend/app/core/attestation.py 152-154 _parse_key_description *)
Definition security_level (v : DerValue) : pystr := default §"unknown" (SECURITY_LEVELS (_as_int v)).

(* @src backend/app/core/attestation.py * _parse_key_description *)
Definition _parse_key_description (extension_bytes : bytes) : der KeyDescription :=
  let! (root, _) := _read_tlv extension_bytes 0 in
  let! items := _read_sequence (content root) in
  match items with
  | i0 :: i1 :: i2 :: i3 :: i4 :: i5 :: i6 :: i7 :: _ =>
      let! al := authorizations (content i6) (content i7) in
      OK {| kd_attestation_version := _as_int i0; kd_attestation_security_level := security_level i1;
            kd_keymaster_version := _as_int i2; kd_keymaster_security_level := security_level i3;
            kd_attestation_challenge := content i4; kd_unique_id := content i5;
            kd_authorizations := al |}
  | _ => ERR (DerError §"KeyDescription has too few fields")
  end.

(** ** The verdict *)

(* @src backend/app/core/attestation.py 105-115 AttestationVerdict *)
Record AttestationVerdict := {
  v_ok : bool; v_reason : pystr; v_security_level : pystr; v_boot_state : pystr;
  v_device_locked : bool; v_user_auth_required : bool; v_challenge_matches : bool;
  v_play_integrity : list (pystr * json); v_chain_subjects : list pystr
}.

(* @src backend/app/core/attestation.py * AttestationVerdict.as_detail *)
Definition as_detail (v : AttestationVerdict) (evaluated_at : pystr) : list (pystr * json) :=
  [(§"security_level", JStr (v_security_level v)); (§"boot_state", JStr (v_boot_state v));
   (§"device_locked", JBool (v_device_locked v)); (§"user_auth_required", JBool (v_user_auth_required v));
   (§"challenge_matches", JBool (v_challenge_matches v)); (§"play_integrity", JObj (v_play_integrity v));
   (§"chain_subjects", JList (JStr <$> v_chain_subjects v)); (§"reason", JStr (v_reason v));
   (§"evaluated_at", JStr evaluated_at)].

(** [AttestationVerdict(ok=False, reason=..., chain_subjects=...)] *)
Definition failed_verdict (reason : pystr) (subjects : list pystr) : AttestationVerdict := {|
  v_ok := false; v_reason := reason; v_security_level := §"unknown"; v_boot_state := §"unknown";
  v_device_locked := false; v_user_auth_required := false; v_challenge_matches := false;
  v_play_integrity := []; v_chain_subjects := subjects |}.

Definition with_reason (ok : bool) (reason : pystr) (v : AttestationVerdict) : AttestationVerdict := {|
  v_ok := ok; v_reason := reason; v_security_level := v_security_level v; v_boot_state := v_boot_state v;
  v_device_locked := v_device_locked v; v_user_auth_required := v_user_auth_required v;
  v_challenge_matches := v_challenge_matches v; v_play_integrity := v_play_integrity v;
  v_chain_subjects := v_chain_subjects v |}.

(** The fields of the verdict, before the policy. *)
(* @src backend/app/core/attestation.py 287-295 verify_key_attestation *)
Definition described (parsed : KeyDescription) (expected_challenge : bytes) (subjects : list pystr)
    : AttestationVerdict :=
  let al := kd_authorizations parsed in {|
  v_ok := false; v_reason := []; v_security_level := kd_attestation_security_level parsed;
  v_boot_state := match al_boot_state al with Some ((_ :: _) as s) => s | _ => §"unknown" end;
  v_device_locked := default false (al_device_locked al);
  v_user_auth_required := negb (al_no_auth_required al);
  v_challenge_matches := bool_decide (kd_attestation_challenge parsed = expected_challenge);
  v_play_integrity := []; v_chain_subjects := subjects |}.

(** The policy: the first rule that is broken gives the reason. *)
(* @src backend/app/core/attestation.py 299-320 verify_key_attestation *)
Definition judge (require_strongbox : bool) (v : AttestationVerdict) : AttestationVerdict :=
  if negb (v_challenge_matches v) then
    with_reason false §"attestation challenge does not match the one issued" v
  else if str_eqb (v_security_level v) §"software" then with_reason false §"key is not in secure hardware" v
  else if require_strongbox && negb (str_eqb (v_security_level v) §"strongbox") then
    with_reason false §"StrongBox required but key is only TEE backed" v
  else if negb (str_eqb (v_boot_state v) §"verified") then
    with_reason false (§"verified boot state is " ++ v_boot_state v) v
  else if negb (v_device_locked v) then with_reason false §"bootloader is unlocked" v
  else if negb (v_user_auth_required v) then
    with_reason false §"key can be used without user authentication" v
  else with_reason true §"ok" v.

Section verify.
Context {X5 : X509}.

(** The list comprehension that loads the chain: the first failure ends it. *)
(* @src backend/app/core/attestation.py 248-251 verify_key_attestation *)
Fixpoint load_chain (pems : list pystr) : pystr + list certificate :=
  match pems with
  | [] => inr []
  | pem :: rest =>
      match load_pem pem with
      | inl m => inl m
      | inr c => match load_chain rest with inl m => inl m | inr cs => inr (c :: cs) end
      end
  end.

(** [OK (Some m)] is an exception that is caught, [ERR] one that is not. *)
(* @src backend/app/core/attestation.py * _verify_chain *)
Fixpoint _verify_chain (chain : list certificate) : outcome Exn (option pystr) :=
  match chain with
  | child :: ((parent :: _) as rest) =>
      match key_kind_of parent with
      | rsa_key | ec_key =>
          match signed_by child parent with
          | sig_ok => _verify_chain rest
          | sig_invalid m => OK (Some m)
          | sig_raises m => ERR (ERuntime m)
          end
      | other_key => OK (Some §"unsupported key type in attestation chain")
      end
  | _ => OK None
  end.

(** [top.fingerprint(...) not in root_fingerprints], when roots are given. *)
(* @src backend/app/core/attestation.py 260-264 verify_key_attestation *)
Definition root_trusted (trusted_roots : list certificate) (top : certificate) : bool :=
  match trusted_roots with
  | [] => true
  | _ => existsb (fun c => bool_decide (fingerprint top c = fingerprint top top)) trusted_roots
  end.

(* @src backend/app/core/attestation.py * verify_key_attestation *)
Definition verify_key_attestation (chain_pem : list pystr) (expected_challenge : bytes)
    (trusted_roots : list certificate) (require_strongbox : bool) : outcome Exn AttestationVerdict :=
  match chain_pem with
  | [] => OK (failed_verdict §"no certificate chain supplied" [])
  | _ =>
      match load_chain chain_pem with
      | inl exc => OK (failed_verdict (§"unparseable chain: " ++ exc) [])
      | inr [] => OK (failed_verdict [] [])
      | inr ((leaf :: _) as chain) =>
          match _verify_chain chain with
          | ERR e => ERR e
          | OK (Some exc) => OK (failed_verdict (§"chain signature invalid: " ++ exc) [])
          | OK None =>
              let subjects := subject_text <$> chain in
              let top := List.last chain leaf in
              if negb (root_trusted trusted_roots top) then
                OK (failed_verdict §"chain does not terminate in a trusted root" subjects)
              else
                match attestation_extension leaf with
                | inl m => ERR (EValue m)
                | inr None => OK (failed_verdict §"leaf has no key attestation extension" subjects)
                | inr (Some extension) =>
                    match _parse_key_description extension with
                    | ERR (DerError exc) => OK (failed_verdict (§"malformed KeyDescription: " ++ exc) subjects)
                    | ERR IndexError => ERR EIndex
                    | OK parsed => OK (judge require_strongbox (described parsed expected_challenge subjects))
                    end
                end
          end
      end
  end.

End verify.

(** ** Play Integrity *)

(** [value.get(key)] and [value.get(key, {})] on a JSON value. *)
Definition get_attr (value : json) (key : pystr) (dflt : json) : outcome Exn json :=
  match value with
  | JObj m => OK (default dflt (dict_get key m))
  | _ => ERR (EAttribute §"get")
  end.

(** The items a [for] loop draws from a JSON value. *)
Definition iterate (value : json) : outcome Exn (list json) :=
  match value with
  | JList l => OK l
  | JStr s => OK ((fun c => JStr [c]) <$> s)
  | JObj m => OK (JStr <$> m.*1)
  | _ => ERR (EType §"object is not iterable")
  end.

Fixpoint infix_of (p s : pystr) : bool :=
  starts_with p s || match s with [] => false | _ :: r => infix_of p r end.

(** [word in value] *)
(* @src backend/app/core/attestation.py 353-353 evaluate_play_integrity *)
Definition contains (word : pystr) (value : json) : outcome Exn bool :=
  match value with
  | JList l => OK (existsb (fun v => match v with JStr s => str_eqb s word | _ => false end) l)
  | JStr s => OK (infix_of word s)
  | JObj m => OK (is_some (dict_get word m))
  | _ => ERR (EType §"argument is not iterable")
  end.

(** [value != text] on JSON values *)
(* @src backend/app/core/attestation.py 344-346 evaluate_play_integrity *)
Definition differs (value : json) (text : pystr) : bool :=
  match value with JStr s => negb (str_eqb s text) | _ => true end.

Section integrity.
Context {PR : PyRepr}.

(** [d.lower().replace(":", "")] *)
Definition digest_text (d : json) : outcome Exn pystr :=
  match d with
  | JStr s => OK (filter (fun c => c <> 58) (py_lower s))
  | _ => ERR (EAttribute §"lower")
  end.

(* @src backend/app/core/attestation.py 349-349 evaluate_play_integrity *)
Fixpoint digest_texts (l : list json) : outcome Exn (list pystr) :=
  match l with
  | [] => OK []
  | d :: r =>
      match digest_text d with
      | ERR e => ERR e
      | OK s => match digest_texts r with ERR e => ERR e | OK t => OK (s :: t) end
      end
  end.

(** The certificate digests, when one is expected. *)
(* @src backend/app/core/attestation.py 348-351 evaluate_play_integrity *)
Definition digest_problem (app : json) (expected_cert_digest : pystr) : outcome Exn bool :=
  match expected_cert_digest with
  | [] => OK false
  | _ =>
      match get_attr app §"certificateSha256Digest" (JList []) with
      | ERR e => ERR e
      | OK value =>
          match iterate value with
          | ERR e => ERR e
          | OK l =>
              match digest_texts l with
              | ERR e => ERR e
              | OK digests => OK (negb (existsb (str_eqb (py_lower expected_cert_digest)) digests))
              end
          end
      end
  end.

(* @src backend/app/core/attestation.py 343-354 evaluate_play_integrity *)
Definition problem_list (recognition package digest integrity : bool) : list pystr :=
  (if recognition then [§"app is not the build published on Play"] else [])
  ++ (if package then [§"package name mismatch"] else [])
  ++ (if digest then [§"signing certificate mismatch"] else [])
  ++ (if integrity then [§"device does not meet basic integrity"] else []).

(* @src backend/app/core/attestation.py * evaluate_play_integrity *)
Definition evaluate_play_integrity (verdict_payload : json) (expected_package expected_cert_digest : pystr)
    : outcome Exn (bool * list (pystr * json)) :=
  if negb (py_true verdict_payload) then OK (false, [(§"reason", JStr §"no integrity verdict")])
  else
    match get_attr verdict_payload §"appIntegrity" (JObj []), get_attr verdict_payload §"deviceIntegrity" (JObj []),
          get_attr verdict_payload §"accountDetails" (JObj []) with
    | OK app, OK device, OK account =>
        match get_attr app §"appRecognitionVerdict" JNull, get_attr app §"packageName" JNull with
        | OK recognition, OK package =>
            match digest_problem app expected_cert_digest with
            | ERR e => ERR e
            | OK digest =>
                match get_attr device §"deviceRecognitionVerdict" (JList []) with
                | ERR e => ERR e
                | OK recognised =>
                    match contains §"MEETS_DEVICE_INTEGRITY" recognised with
                    | ERR e => ERR e
                    | OK meets =>
                        let problems := problem_list (differs recognition §"PLAY_RECOGNIZED")
                          (match expected_package with [] => false | _ => differs package expected_package end)
                          digest (negb meets) in
                        match get_attr account §"appLicensingVerdict" JNull with
                        | ERR e => ERR e
                        | OK licensing =>
                            OK (match problems with [] => true | _ => false end,
                                [(§"app_recognition", recognition); (§"device_recognition", recognised);
                                 (§"licensing", licensing); (§"problems", JList (JStr <$> problems))])
                        end
                    end
                end
            end
        | ERR e, _ | _, ERR e => ERR e
        end
    | ERR e, _, _ | _, ERR e, _ | _, _, ERR e => ERR e
    end.
End integrity.

(** *** [json.loads] of [bytes]: the encoding is guessed, lone surrogates pass *)

Inductive byte_order := big | little.

Definition unit_of (o : byte_order) (l : bytes) : Z :=
  from_bytes_be (match o with big => l | little => rev l end).

(** UTF-16 code units; a low surrogate after a high one joins it. *)
Fixpoint utf16_units (o : byte_order) (l : bytes) : option (list Z) :=
  match l with
  | [] => Some []
  | a :: b :: r => cons (unit_of o [a; b]) <$> utf16_units o r
  | _ => None
  end.

Fixpoint join_surrogates (l : list Z) : pystr :=
  match l with
  | h :: ((u :: r) as t) =>
      if is_high h && is_low u then (65536 + (h - 55296) * 1024 + (u - 56320)) :: join_surrogates r
      else h :: join_surrogates t
  | _ => l
  end.

Definition utf16_decode (o : byte_order) (l : bytes) : option pystr := join_surrogates <$> utf16_units o l.

Fixpoint utf32_decode (o : byte_order) (l : bytes) : option pystr :=
  match l with
  | [] => Some []
  | a :: b :: c :: d :: r =>
      let u := unit_of o [a; b; c; d] in
      if u <? 1114112 then cons u <$> utf32_decode o r else None
  | _ => None
  end.

(** A surrogate in three bytes passes, everything else is [utf8_decode]'s. *)
Fixpoint utf8_pass (fuel : nat) (l : bytes) : option pystr :=
  match fuel, l with
  | O, _ | _, [] => Some []
  | S fuel, b0 :: r0 =>
      let width := if b0 <? 192 then 1%nat else if b0 <? 224 then 2%nat else if b0 <? 240 then 3%nat else 4%nat in
      match r0 with
      | b1 :: b2 :: r =>
          if (b0 =? 237) && (160 <=? b1) && (b1 <? 192) && is_cont b2 then
            cons (55296 + (b1 - 160) * 64 + (b2 - 128)) <$> utf8_pass fuel r
          else
            match utf8_decode (take width l) with
            | Some s => app s <$> utf8_pass fuel (drop width l)
            | None => None
            end
      | _ =>
          match utf8_decode (take width l) with
          | Some s => app s <$> utf8_pass fuel (drop width l)
          | None => None
          end
      end
  end.

Definition utf8_surrogatepass (l : bytes) : option pystr := utf8_pass (length l) l.

(** [json.detect_encoding] and the decoding it selects. *)
Definition decode_json_bytes (b : bytes) : option pystr :=
  if starts_with [0; 0; 254; 255] b then utf32_decode big (drop 4 b)
  else if starts_with [255; 254; 0; 0] b then utf32_decode little (drop 4 b)
  else if starts_with [254; 255] b then utf16_decode big (drop 2 b)
  else if starts_with [255; 254] b then utf16_decode little (drop 2 b)
  else if starts_with [239; 187; 191] b then utf8_surrogatepass (drop 3 b)
  else
    match b with
    | b0 :: b1 :: b2 :: b3 :: _ =>
        if b0 =? 0 then if b1 =? 0 then utf32_decode big b else utf16_decode big b
        else if b1 =? 0 then
          if negb (b2 =? 0) || negb (b3 =? 0) then utf16_decode little b else utf32_decode little b
        else utf8_surrogatepass b
    | [b0; b1] =>
        if b0 =? 0 then utf16_decode big b else if b1 =? 0 then utf16_decode little b
        else utf8_surrogatepass b
    | _ => utf8_surrogatepass b
    end.

(** The JSON text itself, else base64 of it with the padding completed; [JNull]
    is [None].  (A number literal of more than 4,300 digits, whose [ValueError]
    the first attempt lets through, is counted as a syntax error here.) *)
(* @src backend/app/core/attestation.py * decode_integrity_payload *)
Definition decode_integrity_payload (raw : pystr) : json :=
  match raw with
  | [] => JNull
  | _ =>
      match loads raw with
      | Some v => v
      | None =>
          let padding := replicate (Z.to_nat ((- len raw) mod 4)) 61 in
          default JNull (b ← b64decode_lax (raw ++ padding); s ← decode_json_bytes b; loads s)
      end
  end.

(** ** The scan returns, and no subscript is outside the buffer *)

Lemma high_tag_moves fuel data cursor t :
  0 <= cursor <= len data -> len data - cursor < Z.of_nat fuel ->
  exists t' c', high_tag fuel data cursor t = Some (OK (t', c')) /\ cursor <= c' <= len data.
Proof.
  revert cursor t. induction fuel as [|fuel IH]; intros cursor t Hc Hf; [lia|]. cbn [high_tag].
  destruct (Z.ltb_spec cursor (len data)); [|eexists _, _; split; [done|lia]].
  destruct (byte_at_inside data cursor) as (b & _ & ->); [lia|]. cbv zeta. destruct (Z.land b 128 =? 0).
  - eexists _, _. split; [done|lia].
  - destruct (IH (cursor + 1) (Z.lor (Z.shiftl t 7) (Z.land b 127))) as (t' & c' & -> & Hb);
      [lia|lia|]. eexists _, _. split; [done|lia].
Qed.

Lemma scan_tag_moves data offset :
  0 <= offset < len data -> exists t c, scan_tag data offset = OK (t, c) /\ offset + 1 <= c <= len data.
Proof.
  intros H. unfold scan_tag. destruct (byte_at_inside data offset H) as (b & _ & ->).
  destruct (Z.land b 31 =? 31); [|eexists _, _; split; [done|lia]].
  destruct (high_tag_moves (S (length data)) data (offset + 1) 0) as (t & c & -> & Hc); [lia|unfold len in *; lia|].
  eexists _, _. split; [done|lia].
Qed.

Lemma scan_length_moves data cursor :
  all_bytes data -> 0 <= cursor < len data ->
  exists n c, scan_length data cursor = OK (n, c) /\ 0 <= n /\ cursor + 1 <= c.
Proof.
  intros Hb Hc. unfold scan_length. destruct (byte_at_inside data cursor Hc) as (b & Eb & ->).
  pose proof (byte_bound _ _ _ Hb Eb). cbv zeta. destruct (negb _); eexists _, _; (split; [done|]); [|lia]. split.
  - apply from_bytes_bound, slice_bytes, Hb.
  - assert (0 <= Z.land b 127) by (apply Z.land_nonneg; lia). lia.
Qed.

Lemma scan_item_indexed t body out : all_bytes body -> scan_item t body out <> ERR IndexError.
Proof.
  intros Hb. unfold scan_item. pose proof (read_tlv_indexed body 0 ltac:(lia)) as Hx. destruct (t =? _).
  - destruct (_read_tlv body 0) as [[inner stop]|e] eqn:Ev; [|congruence].
    apply read_tlv_bounds in Ev as (_ & _ & Hi & _); [|done|lia]. pose proof (read_sequence_indexed _ Hi) as Hy.
    destruct (_read_sequence (content inner)) as [[|? [|? [|]]]|]; congruence.
  - destruct (t =? _); [done|]. destruct (t =? _); [|done]. destruct (_read_tlv body 0) as [[]|]; congruence.
Qed.

Lemma scan_step_moves data offset out :
  all_bytes data -> 0 <= offset < len data ->
  match scan_step data offset out with
  | OK (Some (offset', _)) => offset + 2 <= offset'
  | OK None => True
  | ERR e => e <> IndexError
  end.
Proof.
  intros Hb Ho. unfold scan_step. destruct (scan_tag_moves data offset Ho) as (t & c & -> & Hc).
  destruct (Z.leb_spec (len data) c); [done|].
  destruct (scan_length_moves data c Hb) as (n & c2 & -> & Hn & Hc2); [lia|].
  pose proof (scan_item_indexed t (slice data c2 (c2 + n)) out (slice_bytes _ _ _ Hb)) as Hx.
  destruct (scan_item _ _ _); [lia|congruence].
Qed.

Lemma scan_fuel fuel data offset out :
  all_bytes data -> 0 <= offset -> len data - offset < Z.of_nat fuel -> (0 < fuel)%nat ->
  exists r, scan_from fuel data offset out = Some r /\ r <> ERR IndexError.
Proof.
  intros Hb. revert offset out. induction fuel as [|fuel IH]; intros offset out H0 Hf Hpos; [lia|].
  cbn [scan_from]. destruct (Z.ltb_spec offset (len data)) as [Hlt|]; [|by eexists].
  pose proof (scan_step_moves data offset out Hb ltac:(lia)) as Hs.
  destruct (scan_step data offset out) as [[[o' out']|]|e]; [apply IH; lia|by eexists|].
  eexists. split; [done|congruence].
Qed.

Lemma scan_total data :
  all_bytes data ->
  scan_from (S (length data)) data 0 empty_list = Some (_scan_authorization_list data)
  /\ _scan_authorization_list data <> ERR IndexError.
Proof.
  intros Hb. unfold _scan_authorization_list.
  destruct (scan_fuel (S (length data)) data 0 empty_list) as (r & -> & Hr); [done|lia|unfold len; lia|lia|done].
Qed.

(** ** The scan reads what a conforming phone wrote

    The entries of an [AuthorizationList], in the encoding of X.690: a
    context-specific constructed tag (one byte for a number below 31, else the
    byte 191 and the number in base 128, most significant digit first), a
    length, and a complete value. *)

(** [n] digits of [t] in base 128, each with the continuation bit. *)
Fixpoint base128 (n : nat) (t : Z) : bytes :=
  match n with O => [] | S n => base128 n (t / 128) ++ [128 + t mod 128] end.

(** How many digits [t] has before the last one. *)
Definition leading_base128 (t : Z) : nat := Z.to_nat (Z.log2 t / 7).

Definition encode_tag (t : Z) : bytes :=
  if t <? 31 then [160 + t] else 191 :: base128 (leading_base128 t) (t / 128) ++ [t mod 128].

(** What a list can hold: the root of trust (boot key, locked bootloader, boot
    state, boot hash), [noAuthRequired], [userAuthType] with the octets of its
    integer, and anything else. *)
Inductive Entry :=
| RootOfTrust (boot_key : bytes) (locked : bool) (boot_state : Z) (boot_hash : bytes)
| NoAuthRequired
| UserAuthType (octets : bytes)
| OtherEntry (number : Z) (body : bytes).

#[global] Instance Entry_eq_dec : EqDecision Entry.
Proof. solve_decision. Defined.

Definition entry_tag (e : Entry) : Z :=
  match e with
  | RootOfTrust _ _ _ _ => 704 | NoAuthRequired => 503 | UserAuthType _ => 504 | OtherEntry t _ => t
  end.

Definition entry_body (e : Entry) : bytes :=
  match e with
  | RootOfTrust key locked state hash =>
      encode_tlv {| tag := 48; content := concat (map encode_tlv
        [{| tag := 4; content := key |}; {| tag := 1; content := [if locked then 255 else 0] |};
         {| tag := 10; content := [state] |}; {| tag := 4; content := hash |}]) |}
  | NoAuthRequired => encode_tlv {| tag := 5; content := [] |}
  | UserAuthType octets => encode_tlv {| tag := 2; content := octets |}
  | OtherEntry _ body => body
  end.

Definition encode_entry (e : Entry) : bytes :=
  encode_tag (entry_tag e) ++ encode_length (len (entry_body e)) ++ entry_body e.

(** Every tag number is allowed, but for the three the other constructors have. *)
Record entry_ok (e : Entry) : Prop := {
  eok_tag : match e with OtherEntry t _ => 0 <= t /\ t <> 704 /\ t <> 503 /\ t <> 504 | _ => True end;
  eok_len : len (entry_body e) < 2 ^ 32
}.

Definition root_of (e : Entry) : option (bool * Z) :=
  match e with RootOfTrust _ locked state _ => Some (locked, state) | _ => None end.
Definition auth_type_of (e : Entry) : option Z :=
  match e with UserAuthType octets => Some (from_bytes_be octets) | _ => None end.

(** What the list says: the last root of trust, the last type of
    authentication, and whether none is required. *)
Definition said_by (es : list Entry) : AuthorizationList := {|
  al_boot_state := (fun r => default §"unknown" (BOOT_STATES r.2)) <$> last (omap root_of es);
  al_device_locked := fst <$> last (omap root_of es);
  al_no_auth_required := bool_decide (NoAuthRequired ∈ es);
  al_user_auth_type := last (omap auth_type_of es) |}.

(** *** Tags *)

(** Seven more bits of a tag number. *)
Lemma lor_shift q r : 0 <= r < 128 -> Z.lor (Z.shiftl q 7) r = q * 128 + r.
Proof.
  intros Hr. assert (Hl : Z.land (Z.shiftl q 7) r = 0).
  { apply Z.bits_inj'. intros i Hi. rewrite Z.land_spec, Z.bits_0. destruct (Z.lt_ge_cases i 7).
    - by rewrite Z.shiftl_spec_low.
    - assert (Z.testbit r i = false) as ->; [|by rewrite andb_false_r].
      rewrite <- (Z.mod_small r (2 ^ 7)) by (change (2 ^ 7) with 128; lia). apply Z.mod_pow2_bits_high. lia. }
  rewrite <- Z.lxor_lor, <- Z.add_nocarry_lxor by done. by rewrite Z.shiftl_mul_pow2 by lia.
Qed.

Lemma base128_length n t : len (base128 n t) = Z.of_nat n.
Proof. revert t. induction n as [|n IH]; intros t; cbn [base128]; [done|]. rewrite len_app, IH. unfold len. cbn. lia. Qed.

(** The loop over the digits. *)
Lemma high_tag_base128 n fuel k t acc rest :
  0 <= t < 128 ^ Z.of_nat n ->
  high_tag (n + fuel) (k ++ base128 n t ++ rest) (len k) acc
  = high_tag fuel (k ++ base128 n t ++ rest) (len k + Z.of_nat n) (acc * 128 ^ Z.of_nat n + t).
Proof.
  revert t rest fuel. induction n as [|n IH]; intros t rest fuel Ht.
  - cbn [Nat.add]. f_equal; change (128 ^ Z.of_nat 0) with 1 in *; lia.
  - rewrite Nat2Z.inj_succ, Z.pow_succ_r in * by lia. cbn [base128]. rewrite <- app_assoc. cbn [app].
    replace (S n + fuel)%nat with (n + S fuel)%nat by lia. rewrite IH by lia. cbn [high_tag].
    set (d := base128 n (t / 128)). assert (Ld : len d = Z.of_nat n) by apply base128_length.
    rewrite (proj2 (Z.ltb_lt _ _)).
    2: { rewrite !len_app, len_cons, Ld. pose proof (len_nonneg rest). lia. }
    rewrite app_assoc, <- Ld, <- len_app, byte_at_mid, high_bit, land_127 by lia.
    rewrite (proj2 (Z.ltb_ge _ _)) by lia. cbv zeta.
    replace ((128 + t mod 128) mod 128) with (t mod 128) by lia.
    rewrite lor_shift, len_app by lia. f_equal; lia.
Qed.

Lemma leading_base128_bound t : 31 <= t -> 0 <= t / 128 < 128 ^ Z.of_nat (leading_base128 t).
Proof.
  intros Ht. unfold leading_base128. pose proof (Z.log2_nonneg t) as Hl.
  rewrite Z2Nat.id by (apply Z.div_pos; lia). change (128 ^ _) with ((2 ^ 7) ^ (Z.log2 t / 7)). rewrite <- Z.pow_mul_r by lia.
  pose proof (Z.log2_spec t ltac:(lia)) as [_ Hb].
  assert (2 ^ Z.succ (Z.log2 t) <= 2 ^ (7 * (Z.log2 t / 7) + 7)) by (apply Z.pow_le_mono_r; lia).
  rewrite Z.pow_add_r in * by lia. change (2 ^ 7) with 128 in *. split; [lia|]. apply Z.div_lt_upper_bound; lia.
Qed.

Lemma scan_tag_entry k t rest :
  0 <= t -> scan_tag (k ++ encode_tag t ++ rest) (len k) = OK (t, len k + len (encode_tag t)).
Proof.
  intros Ht. unfold scan_tag, encode_tag. destruct (Z.ltb_spec t 31).
  - cbn [app]. rewrite byte_at_mid.
    assert (E : Z.land (160 + t) 31 = t).
    { change 31 with (Z.ones 5). rewrite Z.land_ones by lia. change (2 ^ 5) with 32. lia. }
    rewrite E. by rewrite (proj2 (Z.eqb_neq _ _)) by lia.
  - rewrite <- app_comm_cons, byte_at_mid. change (Z.land 191 31 =? 31) with true. cbv iota.
    set (n := leading_base128 t). set (d := base128 n (t / 128)).
    assert (Ld : len d = Z.of_nat n) by apply base128_length.
    replace (k ++ 191 :: (d ++ [t mod 128]) ++ rest) with ((k ++ [191]) ++ d ++ (t mod 128 :: rest))
      by (by rewrite <- !app_assoc).
    replace (len k + 1) with (len (k ++ [191])) by (rewrite len_app; unfold len; cbn; lia).
    assert (Hfuel : exists fuel, S (length ((k ++ [191]) ++ d ++ t mod 128 :: rest)) = (n + S fuel)%nat).
    { exists (length k + S (S (length rest)))%nat. rewrite !length_app. cbn [length].
      unfold len in Ld. lia. }
    destruct Hfuel as [fuel ->]. unfold d. rewrite high_tag_base128 by (by apply leading_base128_bound). fold d.
    cbn [high_tag]. rewrite (proj2 (Z.ltb_lt _ _)).
    2: { rewrite !len_app, !len_cons, Ld. pose proof (len_nonneg rest). lia. }
    rewrite app_assoc, <- Ld, <- len_app, byte_at_mid, high_bit, land_127 by lia.
    rewrite (proj2 (Z.ltb_lt _ _)) by lia. cbv zeta. cbn [default from_option id].
    rewrite lor_shift by lia. f_equal. f_equal; [lia|].
    rewrite !len_app, !len_cons, len_app. unfold len. cbn. lia.
Qed.

Lemma encode_tag_pos t : 1 <= len (encode_tag t).
Proof. unfold encode_tag. destruct (t <? 31); [done|]. rewrite len_cons. pose proof (len_nonneg (base128 (leading_base128 t) (t / 128) ++ [t mod 128])). lia. Qed.

(** *** Lengths and values *)

Lemma scan_length_entry k n rest :
  0 <= n < 2 ^ 32 -> scan_length (k ++ encode_length n ++ rest) (len k) = OK (n, len k + len (encode_length n)).
Proof.
  intros Hn. pose proof (read_length_encode k n rest Hn) as H. unfold read_length in H. unfold scan_length.
  destruct (byte_at _ _) as [b|]; [|done]. cbv zeta in *. destruct (negb _); [|done]. by destruct (_ || _).
Qed.

Lemma encode_tlv_content v : len (content v) <= len (encode_tlv v).
Proof. unfold encode_tlv. rewrite len_cons, len_app. pose proof (len_nonneg (encode_length (len (content v)))). lia. Qed.

Lemma read_tlv_alone v : encodable v -> _read_tlv (encode_tlv v) 0 = OK (v, len (encode_tlv v)).
Proof. intros Hv. pose proof (read_tlv_encode [] v [] Hv) as H. by rewrite app_nil_r in H. Qed.

(** What one entry adds. *)
Definition add_entry (out : AuthorizationList) (e : Entry) : AuthorizationList :=
  match e with
  | RootOfTrust _ locked state _ => {|
      al_boot_state := Some (default §"unknown" (BOOT_STATES state)); al_device_locked := Some locked;
      al_no_auth_required := al_no_auth_required out; al_user_auth_type := al_user_auth_type out |}
  | NoAuthRequired => {|
      al_boot_state := al_boot_state out; al_device_locked := al_device_locked out;
      al_no_auth_required := true; al_user_auth_type := al_user_auth_type out |}
  | UserAuthType octets => {|
      al_boot_state := al_boot_state out; al_device_locked := al_device_locked out;
      al_no_auth_required := al_no_auth_required out; al_user_auth_type := Some (from_bytes_be octets) |}
  | OtherEntry _ _ => out
  end.

Lemma scan_item_entry e out : entry_ok e -> scan_item (entry_tag e) (entry_body e) out = OK (add_entry out e).
Proof.
  intros [Ht Hl]. unfold scan_item. destruct e as [key locked state hash| |octets|t body]; cbn [entry_tag entry_body] in *.
  - change (704 =? TAG_ROOT_OF_TRUST) with true. cbv iota. set (fields := [_; _; _; _]) in *.
    pose proof (encode_tlv_content {| tag := 48; content := concat (map encode_tlv fields) |}) as Hc0. cbn [content] in Hc0.
    assert (Hc : len (concat (map encode_tlv fields)) < 2 ^ 32) by lia.
    rewrite read_tlv_alone by done. cbn [content].
    rewrite read_sequence_roundtrip.
    2: { assert (Hf : forall v, v ∈ fields -> len (content v) < 2 ^ 32).
         { intros v Hv. apply list_elem_of_split in Hv as (l1 & l2 & Hv). rewrite Hv, map_app, concat_app in Hc.
           cbn [map concat] in Hc. rewrite !len_app in Hc. pose proof (encode_tlv_content v).
           pose proof (len_nonneg (concat (map encode_tlv l1))). pose proof (len_nonneg (concat (map encode_tlv l2))). lia. }
         apply Forall_forall. intros v Hv. split; [|by apply Hf].
         repeat (apply elem_of_cons in Hv as [->|Hv]; [done|]). by apply elem_of_nil in Hv. }
    cbn. f_equal. by destruct locked.
  - done.
  - change (504 =? TAG_ROOT_OF_TRUST) with false. change (504 =? TAG_NO_AUTH_REQUIRED) with false.
    change (504 =? TAG_USER_AUTH_TYPE) with true. cbv iota.
    pose proof (encode_tlv_content {| tag := 2; content := octets |}) as Hc. cbn [content] in Hc.
    rewrite read_tlv_alone by (split; [done|cbn [content]; lia]). cbn [add_entry]. unfold _as_int. cbn [content].
    by destruct octets.
  - destruct Ht as (_ & H1 & H2 & H3). unfold TAG_ROOT_OF_TRUST, TAG_NO_AUTH_REQUIRED, TAG_USER_AUTH_TYPE.
    by rewrite !(proj2 (Z.eqb_neq _ _)) by done.
Qed.

(** *** The loop *)

Lemma entry_tag_nonneg e : entry_ok e -> 0 <= entry_tag e.
Proof. intros [Ht _]. destruct e; cbn [entry_tag]; lia. Qed.

Lemma scan_step_entry k e rest out :
  entry_ok e ->
  scan_step (k ++ encode_entry e ++ rest) (len k) out = OK (Some (len (k ++ encode_entry e), add_entry out e)).
Proof.
  intros He. unfold scan_step, encode_entry. set (tg := encode_tag (entry_tag e)). set (body := entry_body e).
  set (enc := encode_length (len body)). pose proof (encode_length_pos (len body)) as Hpos. fold enc in Hpos.
  pose proof (len_nonneg body). pose proof (len_nonneg rest).
  pose proof (entry_tag_nonneg e He) as Ht.
  rewrite <- !app_assoc. unfold tg at 1. rewrite scan_tag_entry by done. fold tg.
  rewrite (proj2 (Z.leb_gt _ _)) by (rewrite !len_app; lia).
  rewrite (app_assoc k), <- len_app. unfold enc at 1. rewrite scan_length_entry by (split; [done|apply He]). fold enc.
  rewrite (app_assoc _ enc), <- len_app, slice_app_r. rewrite (scan_item_entry e out He : scan_item _ body _ = _).
  do 3 f_equal. rewrite !len_app. lia.
Qed.

Lemma scan_from_entries fuel k es out :
  Forall entry_ok es -> (length es < fuel)%nat ->
  scan_from fuel (k ++ concat (map encode_entry es)) (len k) out = Some (OK (fold_left add_entry es out)).
Proof.
  intros Hes. revert fuel k out.
  induction Hes as [|e es He _ IH]; intros [|fuel] k out Hf; cbn [length] in Hf; [lia| |lia|]; cbn [scan_from map concat].
  - by rewrite app_nil_r, Z.ltb_irrefl.
  - rewrite (proj2 (Z.ltb_lt _ _)).
    2: { unfold encode_entry at 1. rewrite !len_app. pose proof (encode_tag_pos (entry_tag e)).
         pose proof (len_nonneg (encode_length (len (entry_body e)))). pose proof (len_nonneg (entry_body e)).
         pose proof (len_nonneg (concat (map encode_entry es))). lia. }
    rewrite scan_step_entry by done. rewrite app_assoc. apply IH. lia.
Qed.

Lemma fold_entries es : fold_left add_entry es empty_list = said_by es.
Proof.
  induction es as [|e es IH] using rev_ind; [done|]. rewrite fold_left_app, IH. unfold said_by. cbn [fold_left].
  rewrite !omap_app.
  assert (Hn : bool_decide (NoAuthRequired ∈ es ++ [e])
               = bool_decide (NoAuthRequired ∈ es) || bool_decide (NoAuthRequired = e)).
  { rewrite <- bool_decide_or. apply bool_decide_ext. by rewrite elem_of_app, list_elem_of_singleton. }
  rewrite Hn. destruct e; cbn [omap list_omap root_of auth_type_of add_entry];
    rewrite ?app_nil_r, ?last_snoc, ?bool_decide_false, ?orb_false_r, ?bool_decide_true, ?orb_true_r by done; done.
Qed.

(** C36 The scan of an authorization list a conforming phone wrote gives what the
    list says: the locked state and the boot state of its last root of trust,
    whether [noAuthRequired] is in it, and its last [userAuthType], past
    entries of any other tag number, in the single-byte or in the long form.
    On any bytes at all the loop ends within one round per byte, without a
    subscript outside the buffer. *)
Theorem scan_reads_entries es :
  Forall entry_ok es ->
  _scan_authorization_list (concat (map encode_entry es)) = OK {|
    al_boot_state := (fun r => default §"unknown" (BOOT_STATES r.2)) <$> last (omap root_of es);
    al_device_locked := fst <$> last (omap root_of es);
    al_no_auth_required := bool_decide (NoAuthRequired ∈ es);
    al_user_auth_type := last (omap auth_type_of es) |}
  /\ forall data, all_bytes data ->
       scan_from (S (length data)) data 0 empty_list = Some (_scan_authorization_list data)
       /\ _scan_authorization_list data <> ERR IndexError.
Proof.
  intros Hes. split; [|by apply scan_total]. unfold _scan_authorization_list.
  change (concat (map encode_entry es)) with ([] ++ concat (map encode_entry es)) at 2.
  rewrite (scan_from_entries _ [] es empty_list Hes); [by rewrite fold_entries|].
  assert (Hn : (length es <= length (concat (map encode_entry es)))%nat); [|lia].
  clear Hes. induction es as [|e es IH]; cbn [map concat length]; [done|]. rewrite length_app.
  unfold encode_entry at 1. pose proof (encode_tag_pos (entry_tag e)) as Hp. unfold len in Hp.
  rewrite length_app. lia.
Qed.

(** ** What an accepted chain shows *)

Lemma list_last_default {A} (d : A) l : List.last l d = default d (last l).
Proof. induction l as [|x [|y l] IH]; [done|done|]. by rewrite last_cons_cons, <- IH. Qed.

Lemma last_of_list_last {A} (x : A) l : last (x :: l) = Some (List.last (x :: l) x).
Proof. rewrite list_last_default, last_cons. by destruct (last l). Qed.

Section accepted.
Context {X5 : X509}.

(** Every certificate is signed by the next one up, with a key of a kind the
    code verifies. *)
Fixpoint chain_signed (chain : list certificate) : Prop :=
  match chain with
  | child :: ((parent :: _) as rest) =>
      key_kind_of parent <> other_key /\ signed_by child parent = sig_ok /\ chain_signed rest
  | _ => True
  end.

Lemma verify_chain_ok chain : _verify_chain chain = OK None <-> chain_signed chain.
Proof.
  induction chain as [|child [|parent rest] IH]; [done|done|].
  change (_verify_chain (child :: parent :: rest)) with
    (match key_kind_of parent with
     | rsa_key | ec_key => match signed_by child parent with
                           | sig_ok => _verify_chain (parent :: rest) | sig_invalid m => OK (Some m)
                           | sig_raises m => ERR (ERuntime m) end
     | other_key => OK (Some §"unsupported key type in attestation chain") end).
  change (chain_signed (child :: parent :: rest)) with
    (key_kind_of parent <> other_key /\ signed_by child parent = sig_ok /\ chain_signed (parent :: rest)).
  destruct (key_kind_of parent), (signed_by child parent); rewrite ?IH; intuition done.
Qed.

(** The policy on a parsed description. *)
Record policy (require_strongbox : bool) (kd : KeyDescription) (challenge : bytes) : Prop := {
  pol_challenge : kd_attestation_challenge kd = challenge;
  pol_hardware : kd_attestation_security_level kd <> §"software";
  pol_strongbox : require_strongbox = true -> kd_attestation_security_level kd = §"strongbox";
  pol_boot : al_boot_state (kd_authorizations kd) = Some §"verified";
  pol_locked : al_device_locked (kd_authorizations kd) = Some true;
  pol_auth : al_no_auth_required (kd_authorizations kd) = false
}.

Lemma judge_described sb kd challenge subjects :
  v_ok (judge sb (described kd challenge subjects)) = true <-> policy sb kd challenge.
Proof.
  unfold judge, described. cbn.
  destruct (bool_decide_reflect (kd_attestation_challenge kd = challenge)) as [E1|E1]; cbn.
  2: { split; [done|by intros []]. }
  unfold str_eqb. destruct (bool_decide_reflect (kd_attestation_security_level kd = §"software")) as [E2|E2]; cbn.
  { split; [done|by intros []]. }
  destruct (sb && negb (bool_decide (kd_attestation_security_level kd = §"strongbox"))) eqn:E3; cbn.
  { bool_to_prop. split; [done|]. intros []. subst sb. by destruct H0; auto. }
  destruct (al_boot_state (kd_authorizations kd)) as [[|c s]|] eqn:E4; cbn.
  1,3: split; [done|intros [_ _ _ Hb _ _]; rewrite E4 in Hb; by vm_compute in Hb].
  destruct (bool_decide_reflect (c :: s = §"verified")) as [E5|E5]; cbn.
  2: { split; [done|]. intros []. congruence. }
  destruct (al_device_locked (kd_authorizations kd)) as [[]|] eqn:E6; cbn.
  2,3: split; [done|intros []; congruence].
  destruct (al_no_auth_required (kd_authorizations kd)) eqn:E7; cbn.
  { split; [done|intros []; congruence]. }
  split; [|done]. intros _. split; try done; [|congruence]. intros ->. cbn in E3.
  by apply negb_false_iff, bool_decide_eq_true_1 in E3.
Qed.

End accepted.

Lemma root_trusted_iff {X5 : X509} roots top :
  root_trusted roots top = true <->
  roots = [] \/ exists root, root ∈ roots /\ fingerprint top root = fingerprint top top.
Proof.
  unfold root_trusted. destruct roots as [|r roots]; [split; [by left|done]|]. rewrite existsb_exists. split.
  - intros (c & Hc & E). right. exists c. by rewrite bool_decide_eq_true, <- list_elem_of_In in *.
  - intros [|(c & Hc & E)]; [done|]. exists c. by rewrite bool_decide_eq_true, <- list_elem_of_In.
Qed.

Lemma key_attestation_accepts {X5 : X509} chain_pem challenge roots sb :
  (exists v, verify_key_attestation chain_pem challenge roots sb = OK v /\ v_ok v = true)
  <->
  (exists leaf rest extension kd,
     load_chain chain_pem = inr (leaf :: rest) /\ chain_signed (leaf :: rest)
     /\ root_trusted roots (List.last (leaf :: rest) leaf) = true
     /\ attestation_extension leaf = inr (Some extension)
     /\ _parse_key_description extension = OK kd /\ policy sb kd challenge).
Proof.
  unfold verify_key_attestation. destruct chain_pem as [|pem pems].
  { split; [by intros (v & [= <-] & Hv)|]. by intros (leaf & rest & ext & kd & H & _). }
  destruct (load_chain (pem :: pems)) as [m|[|leaf rest]] eqn:El.
  1,2: split; [by intros (v & [= <-] & Hv)|]; by intros (leaf & rest & ext & kd & H & _).
  split.
  - intros (v & Hv & Hok). destruct (_verify_chain (leaf :: rest)) as [[m|]|e] eqn:Ev; [by injection Hv as <-| |done].
    destruct (root_trusted roots _) eqn:Er; cbn [negb] in Hv; [|by injection Hv as <-].
    destruct (attestation_extension leaf) as [m|[ext|]] eqn:Ee; [done| |by injection Hv as <-].
    destruct (_parse_key_description ext) as [kd|[m|]] eqn:Ek; [|by injection Hv as <-|done].
    injection Hv as <-. apply judge_described in Hok.
    exists leaf, rest, ext, kd. split_and!; try done. by apply verify_chain_ok.
  - intros (leaf' & rest' & ext & kd & [= <- <-] & Hc & Hr & He & Hk & Hp).
    apply verify_chain_ok in Hc. rewrite Hc, Hr, He, Hk. cbn [negb]. eexists. split; [done|]. by apply judge_described.
Qed.

(** C25 A key is accepted exactly when the chain loads and every certificate is
    signed by the next, the last one has the fingerprint of one of the given
    roots or no root is given (and [enroll] gives none), and the description in
    the leaf meets the policy: the challenge is the one issued, the key is not
    in software (in StrongBox when required), the boot state is verified, the
    bootloader is locked, the key needs user authentication. *)
Theorem key_attestation_accepts_iff {X5 : X509} chain_pem challenge roots sb :
  (exists v, verify_key_attestation chain_pem challenge roots sb = OK v /\ v_ok v = true)
  <->
  (exists leaf rest extension kd top,
     load_chain chain_pem = inr (leaf :: rest) /\ chain_signed (leaf :: rest)
     /\ last (leaf :: rest) = Some top
     /\ (roots = [] \/ exists root, root ∈ roots /\ fingerprint top root = fingerprint top top)
     /\ attestation_extension leaf = inr (Some extension)
     /\ _parse_key_description extension = OK kd /\ policy sb kd challenge).
Proof.
  rewrite key_attestation_accepts. split.
  - intros (leaf & rest & ext & kd & H1 & H2 & H3 & H4). exists leaf, rest, ext, kd, (List.last (leaf :: rest) leaf).
    apply root_trusted_iff in H3. split_and!; try done; try apply H4. apply last_of_list_last.
  - intros (leaf & rest & ext & kd & top & H1 & H2 & Ht & H3 & H4). exists leaf, rest, ext, kd.
    rewrite (last_of_list_last leaf rest) in Ht. injection Ht as <-. by rewrite root_trusted_iff.
Qed.

(** With no roots, as [enroll] calls it, a chain of one certificate is accepted
    for its description alone: no signature of any kind is looked at. *)
Theorem self_made_chain_accepted {X5 : X509} pem leaf extension kd challenge sb :
  load_pem pem = inr leaf -> attestation_extension leaf = inr (Some extension) ->
  _parse_key_description extension = OK kd -> policy sb kd challenge ->
  exists v, verify_key_attestation [pem] challenge [] sb = OK v /\ v_ok v = true.
Proof.
  intros Hl He Hk Hp. apply key_attestation_accepts. exists leaf, [], extension, kd. cbn. by rewrite Hl.
Qed.

(** A verdict of Play Integrity is accepted only for an object that says the
    app is the build published on Play, with the expected package and
    certificate where the settings name them, on a device that meets device
    integrity; and the detail lists no problem. *)
Theorem play_integrity_accepts {PR : PyRepr} payload package digest d :
  evaluate_play_integrity payload package digest = OK (true, d) ->
  exists m, payload = JObj m
    /\ (exists app, dict_get §"appIntegrity" m = Some (JObj app)
          /\ dict_get §"appRecognitionVerdict" app = Some (JStr §"PLAY_RECOGNIZED")
          /\ (package <> [] -> dict_get §"packageName" app = Some (JStr package))
          /\ (digest <> [] -> exists value l texts, dict_get §"certificateSha256Digest" app = Some value
                /\ iterate value = OK l /\ digest_texts l = OK texts /\ py_lower digest ∈ texts))
    /\ (exists dev value, dict_get §"deviceIntegrity" m = Some (JObj dev)
          /\ dict_get §"deviceRecognitionVerdict" dev = Some value
          /\ contains §"MEETS_DEVICE_INTEGRITY" value = OK true)
    /\ dict_get §"problems" d = Some (JList []).
Proof.
  unfold evaluate_play_integrity. destruct (negb (py_true payload)); [done|].
  destruct payload as [| | | | | |m]; try done. cbn [get_attr].
  destruct (default (JObj []) (dict_get §"appIntegrity" m)) as [| | | | | |app] eqn:Eapp; try done. cbn [get_attr].
  destruct (digest_problem (JObj app) digest) as [dg|] eqn:Edg; [|done].
  destruct (get_attr (default (JObj []) (dict_get §"deviceIntegrity" m)) §"deviceRecognitionVerdict" (JList []))
    as [recog|] eqn:Edev; [|done].
  destruct (contains §"MEETS_DEVICE_INTEGRITY" recog) as [meets|] eqn:Emeets; [|done].
  destruct (get_attr (default (JObj []) (dict_get §"accountDetails" m)) §"appLicensingVerdict" JNull); [|done].
  intros Hv. injection Hv as Hp <-.
  set (rec := differs _ _) in Hp. set (pkg := match package with [] => false | _ => _ end) in Hp.
  assert (rec = false /\ pkg = false /\ dg = false /\ meets = true) as (Hrec & Hpkg & -> & ->)
    by (destruct rec, pkg, dg, meets; try discriminate Hp; by split_and!).
  exists m. split; [done|]. split; [|split; [|subst rec pkg; cbn; unfold problem_list; by rewrite Hrec, Hpkg]].
  - destruct (dict_get §"appIntegrity" m) as [x|]; cbn in Eapp; [subst x|injection Eapp as <-; done].
    exists app. split; [done|]. subst rec pkg. split_and!.
    + destruct (dict_get §"appRecognitionVerdict" app) as [[]|]; try done. cbn in Hrec.
      apply negb_false_iff, bool_decide_eq_true_1 in Hrec. by subst.
    + intros Hne. destruct package as [|c p]; [done|]. destruct (dict_get §"packageName" app) as [[]|]; try done.
      cbn in Hpkg. apply negb_false_iff, bool_decide_eq_true_1 in Hpkg. by subst.
    + intros Hne. unfold digest_problem in Edg. destruct digest as [|c dgs]; [done|]. cbn [get_attr] in Edg.
      destruct (dict_get §"certificateSha256Digest" app) as [value|]; cbn [default from_option id] in Edg; [|done].
      destruct (iterate value) as [l|] eqn:El; [|done]. destruct (digest_texts l) as [texts|] eqn:Et; [|done].
      injection Edg as Hex%negb_false_iff. exists value, l, texts. split_and!; try done.
      apply existsb_exists in Hex as (x & Hx & Heq). apply bool_decide_eq_true_1 in Heq as <-. by apply list_elem_of_In.
  - destruct (dict_get §"deviceIntegrity" m) as [dev|]; cbn [default from_option id] in Edev; [|by injection Edev as <-].
    destruct dev as [| | | | | |dv]; try done. cbn in Edev.
    destruct (dict_get §"deviceRecognitionVerdict" dv) as [value|] eqn:Eval; injection Edev as <-; [|done].
    exists dv, value. by split_and!.
Qed.

(** ** Concrete chains *)

(** Certificates that are nothing but their extension, each signed by the next. *)
#[local] Instance demo_x509 : X509 := {|
  certificate := list Z; load_pem := inr; key_kind_of := fun _ => ec_key; signed_by := fun _ _ => sig_ok;
  subject_text := fun _ => []; fingerprint := fun _ c => c; attestation_extension := fun c => inr (Some c) |}.

Definition demo_sequence (vs : list DerValue) : bytes := encode_tlv {| tag := 48; content := concat (map encode_tlv vs) |}.

Definition demo_description (level : Z) (challenge : bytes) (software tee : list Entry) : bytes :=
  demo_sequence
    [{| tag := 2; content := [4] |}; {| tag := 10; content := [level] |}; {| tag := 2; content := [4] |};
     {| tag := 10; content := [level] |}; {| tag := 4; content := challenge |}; {| tag := 4; content := [] |};
     {| tag := 48; content := concat (map encode_entry software) |};
     {| tag := 48; content := concat (map encode_entry tee) |}].

(** Locked bootloader, verified boot. *)
Definition demo_root_of_trust : Entry := RootOfTrust (replicate 32 1) true 0 (replicate 32 2).

(** What precedes and follows it in the lists of real phones: purpose,
    algorithm, key size, origin. *)
Definition demo_entries : list Entry :=
  [OtherEntry 1 [49; 3; 2; 1; 2]; OtherEntry 2 [2; 1; 3]; OtherEntry 3 [2; 2; 1; 0]; UserAuthType [2];
   OtherEntry TAG_ORIGIN [2; 1; 0]; demo_root_of_trust; OtherEntry 70000 []].

Definition demo_challenge : bytes := replicate 32 5.
Definition demo_chain : list pystr := [demo_description 1 demo_challenge [] [demo_root_of_trust]].

Lemma scan_reads_entries_witness :
  _scan_authorization_list (concat (map encode_entry demo_entries))
  = OK {| al_boot_state := Some §"verified"; al_device_locked := Some true;
          al_no_auth_required := false; al_user_auth_type := Some 2 |}.
Proof.
  apply (scan_reads_entries demo_entries).
  repeat (apply Forall_cons_2; [split; [done || (cbn; lia)|vm_compute; reflexivity]|]). apply Forall_nil_2.
Defined.

Lemma self_made_chain_accepted_witness :
  exists v, verify_key_attestation demo_chain demo_challenge [] false = OK v /\ v_ok v = true.
Proof.
  eapply (self_made_chain_accepted (X5:=demo_x509) (demo_description 1 demo_challenge [] [demo_root_of_trust])
    (demo_description 1 demo_challenge [] [demo_root_of_trust])); [reflexivity|reflexivity|vm_compute; reflexivity|].
  split; cbn; done.
Defined.

Definition demo_integrity : json := JObj
  [(§"appIntegrity", JObj [(§"appRecognitionVerdict", JStr §"PLAY_RECOGNIZED")]);
   (§"deviceIntegrity", JObj [(§"deviceRecognitionVerdict", JList [JStr §"MEETS_DEVICE_INTEGRITY"])])].

Lemma play_integrity_accepts_witness : exists m, demo_integrity = JObj m.
Proof.
  destruct (play_integrity_accepts (PR:=demo_repr) demo_integrity [] []
    [(§"app_recognition", JStr §"PLAY_RECOGNIZED"); (§"device_recognition", JList [JStr §"MEETS_DEVICE_INTEGRITY"]);
     (§"licensing", JNull); (§"problems", JList [])]) as (m & Hm & _).
  - vm_compute. reflexivity.
  - exists m. exact Hm.
Defined.

(** A level outside the three known ones is [unknown], which is not
    [software]: such a key is accepted. *)
Theorem unknown_security_level_accepted :
  exists chain challenge v, verify_key_attestation chain challenge [] false = OK v
    /\ v_ok v = true /\ v_security_level v = §"unknown".
Proof.
  exists [demo_description 7 demo_challenge [] [demo_root_of_trust]], demo_challenge.
  eexists. split; [vm_compute; reflexivity|]. split; reflexivity.
Qed.

(** The software list stands in for a hardware list without a root of trust,
    for all its entries: a key that the hardware says needs no user
    authentication is accepted. *)
Theorem software_list_overrides_hardware :
  exists (software tee : list Entry) hw v,
    _scan_authorization_list (concat (map encode_entry tee)) = OK hw /\ al_no_auth_required hw = true
    /\ verify_key_attestation [demo_description 1 demo_challenge software tee] demo_challenge [] false = OK v
    /\ v_ok v = true.
Proof.
  exists [demo_root_of_trust], [NoAuthRequired]. do 2 eexists.
  split; [vm_compute; reflexivity|]. split; [reflexivity|]. split; [vm_compute; reflexivity|reflexivity].
Qed.
