(* ===== verification/Enrollment.v ===== *)
(** * Binding a phone to a user: [app/services/enrollment_service.py] *)

From S2P Require Import Prelude Text Sha256 Clock Json Config Errors Proc World Demo AuditLog Repos Schema Signer Security RateLimit Hub Evolve Auth Der Attestation.

(* @src backend/app/services/enrollment_service.py * CHALLENGE_TTL_SECONDS *)
Definition CHALLENGE_TTL_SECONDS : Z := 300.

(** ** The challenges, in the process *)

Module ChallengeStore.

Abbreviation items := (gmap (list Z) Challenge).

(** The entries that are past their time are dropped. *)
(* @src backend/app/services/enrollment_service.py * ChallengeStore._sweep *)
Definition _sweep (now : instant) (m : items) : items := filter (fun kv => now <= ch_expires_at kv.2) m.

Section store.
Context {EN : Entropy}.

(* @src backend/app/services/enrollment_service.py * ChallengeStore.issue *)
Definition issue (code_hash : bytes) : io bytes :=
  atomic (fun w =>
    let m := _sweep (w_now w) (w_challenges w) in
    let '(w, value) := token_bytes 32 w in
    let c := {| ch_value := value; ch_user_hint := []; ch_expires_at := w_now w + seconds CHALLENGE_TTL_SECONDS |} in
    (set_challenges (<[hex code_hash := c]> m) w, OK value)).

(* @src backend/app/services/enrollment_service.py * ChallengeStore.take *)
Definition take (code_hash : bytes) : io (option bytes) :=
  atomic (fun w =>
    let m := _sweep (w_now w) (w_challenges w) in
    (set_challenges (delete (hex code_hash) m) w, OK (ch_value <$> m !! hex code_hash))).
End store.
End ChallengeStore.

Module EnrollmentService.
Section service.
Context {EN : Entropy} {PG : Postgres} {AR : Argon2} {PR : PyRepr} {X5 : X509} (settings : Settings).

(* @src backend/app/services/enrollment_service.py * EnrollmentService.hash_code *)
Definition hash_code (code : pystr) : outcome Exn bytes :=
  match encode_utf8 (strip code) with OK b => OK (Sha256.sha256 b) | ERR e => ERR e end.

(* @src backend/app/services/enrollment_service.py * EnrollmentService.issue_challenge *)
Definition issue_challenge (enrollment_code : pystr) : io (pystr * Z) :=
  h ← of_outcome (hash_code enrollment_code);
  challenge ← ChallengeStore.issue h;
  Ret (b64encode challenge, CHALLENGE_TTL_SECONDS).

(** [base64.b64decode(s, validate=True)] *)
Definition b64_strict (s : pystr) : outcome Exn bytes :=
  match b64decode s with Some b => OK b | None => ERR (EValue §"base64") end.

Definition anonymous (actor : option uuid) (client_ip : option pystr) (d : dict) : AuditArgs := {|
  actor_type := §"anonymous"; actor_id := actor; device_id := None; door_id := None;
  controller_id := None; client_ip := client_ip; detail := d |}.

Definition denied_with {A} (actor : option uuid) (client_ip : option pystr) (d : dict) (e : ApiError) : io A :=
  _ ← AuditService.failure DEVICE_ENROLL_DENIED (anonymous actor client_ip d);
  Raise (EApi e).

(** Step 1: the challenge issued for the code is the one presented. *)
(* @src backend/app/services/enrollment_service.py 115-125 EnrollmentService.enroll *)
Definition check_challenge (code_hash : bytes) (presented_b64 : pystr) (client_ip : option pystr) : io bytes :=
  expected ← ChallengeStore.take code_hash;
  presented ← of_outcome (b64_strict presented_b64);
  if bool_decide (expected = Some presented) then Ret presented
  else denied_with None client_ip [(§"reason", JStr §"challenge_missing_or_stale")]
         (AuthenticationError §"challenge_mismatch").

(** Step 3: the two verdicts. *)
(* @src backend/app/services/enrollment_service.py 137-142 EnrollmentService.enroll *)
Definition evaluate (attestation_chain : list pystr) (play_integrity_token : pystr) (presented : bytes)
    : outcome Exn (AttestationVerdict * (bool * dict)) :=
  match verify_key_attestation attestation_chain presented [] false with
  | ERR e => ERR e
  | OK v =>
      match evaluate_play_integrity (decode_integrity_payload play_integrity_token)
              (play_integrity_package_name settings) (android_cert_digest settings) with
      | ERR e => ERR e
      | OK i => OK (v, i)
      end
  end.

(** The attestation detail, with the time it is taken. *)
(* @src backend/app/services/enrollment_service.py 174-177 EnrollmentService.enroll *)
Definition attestation_detail (v : AttestationVerdict) (integrity : dict) : io dict :=
  now ← reads w_now;
  Ret [(§"key_attestation", JObj (as_detail v (isoformat now))); (§"play_integrity", JObj integrity)].

(** Step 5: the device row; any exception is a conflict. *)
(* @src backend/app/services/enrollment_service.py 166-187 EnrollmentService.enroll *)
Definition create_device (user : uuid) (label device_public_key_b64 : pystr) (app_version : option pystr)
    (status : pystr) (v : AttestationVerdict) (integrity : dict) (client_ip : option pystr) : io uuid :=
  catch
    (key ← of_outcome (b64_strict device_public_key_b64);
     det ← attestation_detail v integrity;
     DeviceRepository.create user label key §"android" app_version status (JObj det))
    (fun exc => Some (denied_with (Some user) client_ip
                        [(§"reason", JStr §"device_create_failed"); (§"error", JStr (py_type_name exc))]
                        (Conflict §"device_already_enrolled"))).

(* @src backend/app/services/enrollment_service.py * EnrollmentService.enroll *)
Definition enroll (enrollment_code label device_public_key_b64 : pystr) (attestation_chain : list pystr)
    (play_integrity_token presented_challenge_b64 : pystr) (app_version client_ip : option pystr)
    : io (uuid * pystr * IssuedTokens) :=
  code_hash ← of_outcome (hash_code enrollment_code);
  presented ← check_challenge code_hash presented_challenge_b64 client_ip;
  claimed ← EnrollmentRepository.claim code_hash;
  match claimed with
  | None => denied_with None client_ip [(§"reason", JStr §"enrollment_code_invalid_or_used")]
              (AuthenticationError §"enrollment_code_invalid")
  | Some (enrollment_id, row) =>
      let user := e_user_id row in
      verdicts ← of_outcome (evaluate attestation_chain play_integrity_token presented);
      let '(v, (integrity_ok, integrity)) := verdicts in
      let accepted := v_ok v && integrity_ok in
      if negb accepted && bool_decide (attestation_mode settings = strict) then
        det ← attestation_detail v integrity;
        denied_with (Some user) client_ip ((§"reason", JStr §"attestation_rejected") :: det)
          (AuthenticationError §"attestation_rejected")
      else
        let status := if accepted then §"verified" else §"exempt" in
        device_id ← create_device user label device_public_key_b64 app_version status v integrity client_ip;
        _ ← EnrollmentRepository.attach_device enrollment_id device_id;
        pair ← AuthService.issue_pair settings user device_id None None;
        _ ← AuditService.success DEVICE_ENROLL
              {| actor_type := §"user"; actor_id := Some user; device_id := Some device_id; door_id := None;
                 controller_id := None; client_ip := client_ip;
                 detail := [(§"label", JStr label); (§"attestation_status", JStr status);
                            (§"security_level", JStr (v_security_level v)); (§"boot_state", JStr (v_boot_state v))] |};
        Ret (device_id, status, pair)
  end.

End service.
End EnrollmentService.

Import EnrollmentService.

(** ** Steps *)

Section evolution.
Context {EN : Entropy} {PG : Postgres} {AR : Argon2} {PR : PyRepr} {X5 : X509} (settings : Settings).

Lemma issue_evolves h : guar evolves (ChallengeStore.issue h).
Proof. by apply evolves_frame. Qed.
Lemma take_evolves h : guar evolves (ChallengeStore.take h).
Proof. by apply evolves_frame. Qed.
Lemma denied_with_evolves {A} actor ip d e : guar evolves (denied_with actor ip d e : io A).
Proof. unfold denied_with. evolves_tac. Qed.
#[local] Hint Resolve issue_evolves take_evolves denied_with_evolves : evolves.

Lemma check_challenge_evolves h p ip : guar evolves (check_challenge h p ip).
Proof. unfold check_challenge. evolves_tac. Qed.
Lemma attestation_detail_evolves v i : guar evolves (attestation_detail v i).
Proof. unfold attestation_detail. evolves_tac. Qed.
#[local] Hint Resolve check_challenge_evolves attestation_detail_evolves : evolves.
Lemma create_device_evolves u l k a s v i ip : guar evolves (create_device u l k a s v i ip).
Proof. unfold create_device. evolves_tac. Qed.
#[local] Hint Resolve create_device_evolves : evolves.

Lemma enroll_evolves c l k ch t p a ip : guar evolves (enroll settings c l k ch t p a ip).
Proof. unfold enroll. evolves_tac. Qed.
Lemma issue_challenge_evolves c : guar evolves (issue_challenge c).
Proof. unfold issue_challenge. evolves_tac. Qed.
End evolution.

#[export] Hint Resolve enroll_evolves issue_challenge_evolves : evolves.

(** ** The challenge *)

Lemma run_issue {EN : Entropy} h w :
  run (ChallengeStore.issue h) w =
  (set_challenges (<[hex h := {| ch_value := csprng (w_draws w) 32; ch_user_hint := [];
                                 ch_expires_at := w_now w + seconds CHALLENGE_TTL_SECONDS |}]>
                     (ChallengeStore._sweep (w_now w) (w_challenges w))) (set_draws (S (w_draws w)) w),
   OK (csprng (w_draws w) 32)).
Proof. done. Qed.

Lemma run_take h w :
  run (ChallengeStore.take h) w =
  (set_challenges (delete (hex h) (ChallengeStore._sweep (w_now w) (w_challenges w))) w,
   OK (ch_value <$> ChallengeStore._sweep (w_now w) (w_challenges w) !! hex h)).
Proof. done. Qed.

Lemma sweep_lookup now m k :
  ChallengeStore._sweep now m !! k =
  match m !! k with Some c => if bool_decide (now <= ch_expires_at c) then Some c else None | None => None end.
Proof.
  unfold ChallengeStore._sweep. destruct (m !! k) as [c|] eqn:E.
  - case_bool_decide as Hc.
    + by apply map_lookup_filter_Some.
    + apply map_lookup_filter_None. right. intros c' Hc'. rewrite E in Hc'. by injection Hc' as <-.
  - apply map_lookup_filter_None. by left.
Qed.

(** A challenge is fresh, short-lived and single use: what [issue] returns
    are 32 octets of the random source; the first [take] for the same code
    gives exactly them if it comes within five minutes, and nothing later;
    whatever it gave, and whenever, a second [take] gives nothing, until a new
    challenge is issued for that code. *)
Theorem challenge_single_use {EN : Entropy} h w w1 v w2 w3 o w4 :
  run (ChallengeStore.issue h) w = (w1, OK v) ->
  w_challenges w2 !! hex h = w_challenges w1 !! hex h ->
  run (ChallengeStore.take h) w2 = (w3, OK o) ->
  w_challenges w4 !! hex h = w_challenges w3 !! hex h ->
  length v = 32%nat
  /\ o = (if bool_decide (w_now w2 <= w_now w + seconds CHALLENGE_TTL_SECONDS) then Some v else None)
  /\ (run (ChallengeStore.take h) w4).2 = OK None.
Proof.
  rewrite run_issue. intros [= <- <-] E2. rewrite run_take. intros [= <- <-] E4.
  split; [apply csprng_length|]. cbn in E2. rewrite lookup_insert_eq in E2. cbn in E4. rewrite lookup_delete_eq in E4.
  split.
  - rewrite sweep_lookup, E2. cbn. by case_bool_decide.
  - rewrite run_take, sweep_lookup, E4. done.
Qed.

(** ** The code *)

Lemma claimed_gone {EN : Entropy} h w w1 w2 id r :
  db_ok (w_db w) -> run (EnrollmentRepository.claim h) w = (w1, OK (Some (id, r))) -> evolves w1 w2 ->
  run (EnrollmentRepository.claim h) w2 = (set_db (with_enrollment_codes (enrollment_codes (w_db w2)) (w_db w2)) w2, OK None).
Proof.
  intros Hd Hr Hev. pose proof (run_db_ok _ _ _ _ (claim_evolves h) Hr Hd) as Hd1.
  unfold EnrollmentRepository.claim in Hr. rewrite run_statement in Hr. injection Hr as <- Hf.
  apply fetchrow_some in Hf as [Hrow Hcl].
  destruct Hev as [_ [Hok _ _ Hcodes _ _ _ _ _ _] _]. specialize (Hok Hd1).
  destruct (Hcodes id (EnrollmentRepository.used (w_now w) r)) as (r2 & Hr2 & (Eh & _ & _ & Hused)).
  { cbn. by rewrite lookup_update_where, Hrow; cbn; rewrite Hcl. }
  assert (Hused2 : e_used_at r2 = Some (w_now w)) by (by destruct Hused).
  unfold EnrollmentRepository.claimable in Hcl. bool_to_prop.
  assert (Hno : forall k x, enrollment_codes (w_db w2) !! k = Some x -> EnrollmentRepository.claimable h (w_now w2) x = false).
  { intros k x Hk. unfold EnrollmentRepository.claimable. destruct (bool_decide_reflect (e_code_hash x = h)) as [Ex|]; [|done].
    destruct (ok_codes _ Hok) as [Huq _]. cbn in Eh.
    assert (Ek : k = id) by (apply (Huq k id x r2); [done|done|done|done|congruence]).
    rewrite Ek, Hr2 in Hk. injection Hk as <-. by rewrite Hused2. }
  unfold EnrollmentRepository.claim. rewrite run_statement. f_equal.
  - f_equal. f_equal. apply map_eq. intros k. rewrite lookup_update_where.
    destruct (enrollment_codes (w_db w2) !! k) as [x|] eqn:Ek; [|done]. cbn. by rewrite (Hno _ _ Ek).
  - f_equal. by apply fetchrow_none.
Qed.

(** The stages of an enrolment that went through. *)
Record enrolled {EN : Entropy} {PG : Postgres} {AR : Argon2} {PR : PyRepr} {X5 : X509} (settings : Settings)
    (code_hash presented key : bytes) (chain : list pystr) (token : pystr) (id : uuid) (r : enrollment_row)
    (v : AttestationVerdict) (integrity_ok : bool) (integrity : dict) (w w1 w2 : World) (status : pystr) : Prop := {
  en_challenge : exists c, w_challenges w !! hex code_hash = Some c /\ ch_value c = presented
                   /\ w_now w <= ch_expires_at c /\ w_challenges w1 !! hex code_hash = None
                   /\ w_db w1 = w_db w /\ w_now w1 = w_now w /\ w_draws w1 = w_draws w;
  en_claimed : run (EnrollmentRepository.claim code_hash) w1 = (w2, OK (Some (id, r)));
  en_code : enrollment_codes (w_db w) !! id = Some r /\ e_code_hash r = code_hash /\ e_used_at r = None
            /\ w_now w < e_expires_at r;
  en_verdict : verify_key_attestation chain presented [] false = OK v;
  en_integrity : evaluate_play_integrity (decode_integrity_payload token) (play_integrity_package_name settings)
                   (android_cert_digest settings) = OK (integrity_ok, integrity);
  en_status : status = if v_ok v && integrity_ok then §"verified" else §"exempt";
  en_strict : attestation_mode settings = strict -> v_ok v = true /\ integrity_ok = true
}.

Lemma denied_with_not_ok {PG : Postgres} {A} actor ip d e w w' (a : A) :
  run (denied_with actor ip d e) w <> (w', OK a).
Proof. unfold denied_with. rewrite run_bind. by destruct (run _ w) as [w1 [n|x]]. Qed.

Section stages.
Context {EN : Entropy} {PG : Postgres} {AR : Argon2} {PR : PyRepr} {X5 : X509} (settings : Settings).

Lemma check_challenge_ok h p ip w w1 b :
  run (check_challenge h p ip) w = (w1, OK b) ->
  b64decode p = Some b
  /\ exists c, w_challenges w !! hex h = Some c /\ ch_value c = b /\ w_now w <= ch_expires_at c
       /\ w_challenges w1 !! hex h = None /\ w_db w1 = w_db w /\ w_now w1 = w_now w /\ w_draws w1 = w_draws w.
Proof.
  unfold check_challenge. rewrite run_bind, run_take, run_bind, run_of_outcome. unfold b64_strict.
  destruct (b64decode p) as [b'|]; [|done]. case_bool_decide as Eb; [|by intros ?%denied_with_not_ok].
  intros [= <- <-]. split; [done|]. rewrite sweep_lookup in Eb.
  destruct (w_challenges w !! hex h) as [c|]; [|done]. case_bool_decide; [|done]. cbn in Eb. injection Eb as <-.
  exists c. cbn. rewrite lookup_delete_eq. done.
Qed.

Lemma create_device_ok user label key_b64 av status v integrity ip w w' id :
  run (create_device user label key_b64 av status v integrity ip) w = (w', OK id) ->
  exists key det, b64decode key_b64 = Some key
    /\ run (DeviceRepository.create user label key §"android" av status (JObj det)) w = (w', OK id).
Proof.
  unfold create_device. rewrite run_catch. destruct (run (_ ≫= _) w) as [w1 [a|e]] eqn:E; [|by intros ?%denied_with_not_ok].
  intros [= -> ->]. rewrite run_bind, run_of_outcome in E. unfold b64_strict in E.
  destruct (b64decode key_b64) as [key|]; [|done]. unfold attestation_detail in E.
  rewrite run_bind, run_bind, run_reads in E. cbn [run] in E. eexists key, _. by split.
Qed.

Lemma enroll_stages code label key_b64 chain token p_b64 av ip w w' did status pair :
  run (enroll settings code label key_b64 chain token p_b64 av ip) w = (w', OK (did, status, pair)) ->
  exists h presented key id r v iok integrity w1 w2 w3 w4 w5,
    hash_code code = OK h /\ b64decode p_b64 = Some presented /\ b64decode key_b64 = Some key
    /\ enrolled settings h presented key chain token id r v iok integrity w w1 w2 status
    /\ (exists det, run (DeviceRepository.create (e_user_id r) label key §"android" av status (JObj det)) w2 = (w3, OK did))
    /\ run (EnrollmentRepository.attach_device id did) w3 = (w4, OK tt)
    /\ run (AuthService.issue_pair settings (e_user_id r) did None None) w4 = (w5, OK pair)
    /\ exists row, w' = appended row w5 /\ a_event_type row = event_value DEVICE_ENROLL
         /\ a_actor_id row = Some (e_user_id r) /\ a_device_id row = Some did.
Proof.
  intros Hr. unfold enroll in Hr. rewrite run_bind, run_of_outcome in Hr.
  destruct (hash_code code) as [h|] eqn:Eh; [|done].
  apply run_bind_ok in Hr as (w1 & presented & H1 & Hr). apply check_challenge_ok in H1 as [Ep Hch].
  apply run_bind_ok in Hr as (w2 & claimed & H2 & Hr).
  destruct claimed as [[id r]|]; [|by apply denied_with_not_ok in Hr].
  rewrite run_bind, run_of_outcome in Hr. unfold evaluate in Hr.
  destruct (verify_key_attestation chain presented [] false) as [v|] eqn:Ev; [|done].
  destruct (evaluate_play_integrity _ _ _) as [[iok integrity]|] eqn:Ei; [|done].
  destruct (negb (v_ok v && iok) && bool_decide (attestation_mode settings = strict)) eqn:Es.
  { apply run_bind_ok in Hr as (? & ? & _ & Hr). by apply denied_with_not_ok in Hr. }
  apply run_bind_ok in Hr as (w3 & did' & H3 & Hr). apply create_device_ok in H3 as (key & det & Ek & H3).
  apply run_bind_ok in Hr as (w4 & [] & H4 & Hr). apply run_bind_ok in Hr as (w5 & pair' & H5 & Hr).
  apply run_bind_ok in Hr as (w6 & n & H6 & [= <- <- <- <-]). apply run_success in H6 as (row & Hrow & ->).
  exists h, presented, key, id, r, v, iok, integrity, w1, w2, w3, w4, w5.
  split; [done|]. split; [done|]. split; [done|]. split; [|split; [by exists det|split; [done|split; [done|]]]].
  - destruct Hch as (c & Hc & Hcv & Hexp & Hgone & Edb & En & Edr). split; try done.
    + by exists c.
    + unfold EnrollmentRepository.claim in H2. rewrite run_statement in H2. injection H2 as _ Hf.
      apply fetchrow_some in Hf as [Hrw Hcl]. unfold EnrollmentRepository.claimable in Hcl. bool_to_prop.
      rewrite Edb in Hrw. split_and!; try done; [by destruct (e_used_at r)|lia].
    + intros Hs. rewrite Hs in Es. cbn in Es. rewrite andb_true_r in Es. apply negb_false_iff in Es.
      by apply andb_prop in Es.
  - exists row. apply new_row_some in Hrow as (_ & _ & Ee & _ & _ & Ea & Edv & _). by split_and!.
Qed.
End stages.

(** C26 What an enrolment that went through shows. The presented challenge was
    the one on record for that code and is gone; the code was stored, unused
    and unexpired, and is used now, by this device; in strict mode the key
    attestation over that challenge and the integrity verdict were both
    accepted and the device is [verified], otherwise it is flagged [exempt];
    the device stored is the owner of the code's, with the key presented; and
    exactly two tokens were added, the access and the refresh token that are
    returned, live, without a parent, of that user and device, in a family that
    was drawn in this call, the draw after the one of the device's id. *)
Theorem enroll_success {EN : Entropy} {PG : Postgres} {AR : Argon2} {PR : PyRepr} {X5 : X509} settings
    code label key_b64 chain token p_b64 av ip w w' did status pair :
  run (enroll settings code label key_b64 chain token p_b64 av ip) w = (w', OK (did, status, pair)) ->
  exists h presented key id r v iok integrity w1 w2 dv,
    hash_code code = OK h /\ b64decode p_b64 = Some presented /\ b64decode key_b64 = Some key
    /\ enrolled settings h presented key chain token id r v iok integrity w w1 w2 status
    /\ devices (w_db w') !! did = Some dv /\ d_user_id dv = e_user_id r /\ d_public_key dv = key
    /\ attestation_text (d_attestation_status dv) = status
    /\ (exists r', enrollment_codes (w_db w') !! id = Some r' /\ e_used_at r' = Some (w_now w)
          /\ e_used_by_device r' = Some did)
    /\ did = uuid4_of_bytes (csprng (w_draws w) 16)
    /\ it_family_id pair = uuid4_of_bytes (csprng (S (w_draws w)) 16)
    /\ (exists ha hr ida idr,
          hash_token settings (it_access_token pair) = OK ha /\ hash_token settings (it_refresh_token pair) = OK hr
          /\ tokens (w_db w) !! ida = None /\ tokens (w_db w) !! idr = None /\ ida <> idr
          /\ tokens (w_db w') =
             <[idr := issued_row (it_family_id pair) (e_user_id r) did refresh_kind hr (refresh_token_ttl settings) None (w_now w)]>
             (<[ida := issued_row (it_family_id pair) (e_user_id r) did access_kind ha (access_token_ttl settings) None (w_now w)]>
             (tokens (w_db w)))).
Proof.
  intros Hr. apply enroll_stages in Hr as (h & presented & key & id & r & v & iok & integrity & w1 & w2 & w3 & w4 & w5
    & Eh & Ep & Ek & Hen & (det & Hdev) & Hatt & Hpair & row & -> & _).
  pose proof Hen as [(c & _ & _ & _ & _ & Edb & En & Edr) Hclaim (Hrow & _) _ _ Hst _].
  unfold EnrollmentRepository.claim in Hclaim. rewrite run_statement in Hclaim. injection Hclaim as Ew2 Hf.
  apply fetchrow_some in Hf as [_ Hcl].
  unfold DeviceRepository.create in Hdev. destruct (attestation_in status) as [st|] eqn:Est; [|done].
  destruct (jsonb (JObj det)) as [jd|]; [|done]. rewrite run_insert_row in Hdev.
  destruct (violation _); [done|]. injection Hdev as Ew3 Edid.
  unfold EnrollmentRepository.attach_device in Hatt. rewrite run_statement in Hatt.
  destruct (_ && _); [done|]. injection Hatt as Ew4.
  apply run_issue_pair in Hpair as (ha & hr & ida & idr & [Pa Pr Pf Pdb (Pfa & Pfr & Pne) _ _ _ _]).
  exists h, presented, key, id, r, v, iok, integrity, w1, w2.
  assert (Hdv : devices (w_db w5) = <[did := {| d_user_id := e_user_id r; d_label := label; d_public_key := key;
      d_platform := §"android"; d_app_version := av; d_attestation_status := st;
      d_attestation_verified_at := if str_eqb status §"verified" then Some (w_now w2) else None;
      d_attestation_detail := jd; d_is_blocked := false; d_blocked_reason := None; d_created_at := w_now w2;
      d_last_seen_at := None |}]> (devices (w_db w2))).
  { rewrite Pdb, <- Ew4, <- Ew3, <- Edid. done. }
  eexists. split; [done|]. split; [done|]. split; [done|]. split; [exact Hen|].
  split; [cbn; rewrite Hdv; apply lookup_insert_eq|]. cbn. split; [done|]. split; [done|].
  split; [by apply List.find_some in Est as [_ Est%bool_decide_eq_true_1]|]. split.
  - exists (EnrollmentRepository.attached did (EnrollmentRepository.used (w_now w1) r)).
    rewrite Pdb, <- Ew4, <- Ew3, <- Ew2. cbn. split; [|by rewrite En].
    rewrite lookup_alter_eq, lookup_update_where, Edb, Hrow. cbn. by rewrite Hcl.
  - assert (Ed4 : w_draws w4 = S (w_draws w)) by (rewrite <- Ew4, <- Ew3, <- Ew2; cbn; by rewrite Edr).
    assert (Et4 : tokens (w_db w4) = tokens (w_db w)) by (rewrite <- Ew4, <- Ew3, <- Ew2; cbn; by rewrite Edb).
    assert (En4 : w_now w4 = w_now w) by (rewrite <- Ew4, <- Ew3, <- Ew2; cbn; by rewrite En).
    cbn in Pf. rewrite Ed4 in Pf. rewrite Et4 in Pdb, Pfa, Pfr. rewrite En4 in Pdb.
    split; [rewrite <- Edid, <- Ew2; cbn; by rewrite Edr|]. split; [done|].
    exists ha, hr, ida, idr. by rewrite Pdb.
Qed.

(** One code, one device: after an enrolment with a code went through, no
    later one with the same code does, in this world or any it evolves into,
    with whatever label, key, chain and challenge. *)
Theorem enroll_code_single_use {EN : Entropy} {PG : Postgres} {AR : Argon2} {PR : PyRepr} {X5 : X509} settings
    code l1 l2 k1 k2 c1 c2 t1 t2 p1 p2 a1 a2 ip1 ip2 w w1 w2 x :
  db_ok (w_db w) ->
  run (enroll settings code l1 k1 c1 t1 p1 a1 ip1) w = (w1, OK x) -> evolves w1 w2 ->
  forall w3 y, run (enroll settings code l2 k2 c2 t2 p2 a2 ip2) w2 <> (w3, OK y).
Proof.
  intros Hd H1 Hev w3 [[did2 st2] pair2] H2. destruct x as [[did st] pair].
  pose proof (guar_run evolves _ _ _ _ (enroll_evolves settings code l1 k1 c1 t1 p1 a1 ip1) H1) as Hev1.
  apply enroll_stages in H1 as (h & p & k & id & r & v & iok & it & v1 & v2 & v3 & v4 & v5 & Eh & _ & _ & Hen & (det & Hc) & Ha & Hp & row & -> & _).
  apply enroll_stages in H2 as (h' & p' & k' & id' & r' & v' & iok' & it' & u1 & u2 & u3 & u4 & u5 & Eh' & _ & _ & Hen' & _).
  rewrite Eh in Eh'. injection Eh' as <-.
  destruct Hen as [(c & _ & _ & _ & _ & Edb & En & _) Hcl _ _ _ _ _].
  destruct Hen' as [(c' & _ & _ & _ & _ & Edb' & En' & _) Hcl' _ _ _ _ _].
  assert (Hv1 : db_ok (w_db v1)) by by rewrite Edb.
  assert (Hmid : evolves v2 (appended row v5)).
  { transitivity v3; [by eapply (guar_run evolves); [apply devices_create_evolves|]|].
    transitivity v4; [by eapply (guar_run evolves); [apply attach_device_evolves|]|].
    transitivity v5; [by eapply (guar_run evolves); [apply issue_pair_evolves|]|].
    apply appended_evolves. }
  assert (Hgone : (run (EnrollmentRepository.claim h) w2).2 = OK None).
  { rewrite (claimed_gone h v1 v2 w2 id r Hv1 Hcl); [done|]. by transitivity (appended row v5). }
  assert (Hsame : (run (EnrollmentRepository.claim h) u1).2 = (run (EnrollmentRepository.claim h) w2).2).
  { unfold EnrollmentRepository.claim. rewrite !run_statement. cbn. by rewrite Edb', En'. }
  rewrite Hcl', Hgone in Hsame. done.
Qed.

(** Input that is not base64 as the presented challenge ends in an exception
    that is not an [ApiError], with no audit row; and the challenge is spent all
    the same. *)
Theorem malformed_challenge_spends_it {EN : Entropy} {PG : Postgres} {AR : Argon2} {PR : PyRepr} {X5 : X509} settings
    code label key_b64 chain token p_b64 av ip w h :
  hash_code code = OK h -> b64decode p_b64 = None ->
  exists w' m, run (enroll settings code label key_b64 chain token p_b64 av ip) w = (w', ERR (EValue m))
    /\ w_db w' = w_db w /\ w_challenges w' !! hex h = None.
Proof.
  intros Hh Hp. unfold enroll, check_challenge. rewrite Hh, run_bind, run_of_outcome, run_bind, run_bind, run_take.
  rewrite run_bind, run_of_outcome. unfold b64_strict. rewrite Hp. eexists _, _. split; [done|]. cbn.
  by rewrite lookup_delete_eq.
Qed.

(** ** A concrete enrolment *)

#[local] Existing Instances demo_entropy demo_postgres demo_argon2 demo_repr demo_x509.

Definition demo_code : pystr := §"ABCD-1234".
Definition demo_code_hash : bytes := match hash_code demo_code with OK h => h | ERR _ => [] end.

(** The code is issued, then a challenge for it. *)
Definition demo_invite : io (pystr * Z) :=
  _ ← EnrollmentRepository.create demo_user demo_code_hash None 3600;
  issue_challenge demo_code.

Definition demo_invited : World := (run demo_invite demo_account).1.
Definition demo_challenge_b64 : pystr := match (run demo_invite demo_account).2 with OK p => p.1 | ERR _ => [] end.

Lemma demo_invited_ok : db_ok (w_db demo_invited).
Proof.
  apply (run_db_ok demo_invite demo_account _ (run demo_invite demo_account).2).
  - unfold demo_invite. evolves_tac.
  - unfold demo_invited. by destruct (run demo_invite demo_account).
  - apply demo_account_ok.
Qed.

Definition demo_enroll (w : World) :=
  run (enroll demo_settings demo_code §"pixel" (b64encode (replicate 32 8))
         [demo_description 2 (default [] (b64decode demo_challenge_b64)) [] [demo_root_of_trust]]
         (dumps false true None demo_integrity) demo_challenge_b64 None None) w.

Definition demo_enroll_ok : bool :=
  match demo_enroll demo_invited with (_, OK (_, status, _)) => str_eqb status §"verified" | _ => false end.

Lemma enroll_success_witness :
  exists w' did status pair dv, demo_enroll demo_invited = (w', OK (did, status, pair))
    /\ devices (w_db w') !! did = Some dv /\ d_public_key dv = replicate 32 8.
Proof.
  assert (Hok : demo_enroll_ok = true) by (vm_compute; reflexivity). unfold demo_enroll_ok in Hok.
  destruct (demo_enroll demo_invited) as [w' [[[did status] p]|e]] eqn:E; [|discriminate Hok]. unfold demo_enroll in E.
  destruct (enroll_success demo_settings _ _ _ _ _ _ _ _ _ _ _ _ _ E)
    as (h & presented & key & id & r & v & iok & integrity & w1 & w2 & dv & _ & _ & Ek & _ & Hdv & _ & Hkey & _).
  exists w', did, status, p, dv. split; [exact eq_refl|]. split; [exact Hdv|].
  rewrite Hkey. vm_compute in Ek. injection Ek as <-. reflexivity.
Defined.

Lemma enroll_code_single_use_witness :
  exists w1 x, demo_enroll demo_invited = (w1, OK x) /\ forall w3 y, demo_enroll w1 <> (w3, OK y).
Proof.
  assert (Hok : demo_enroll_ok = true) by (vm_compute; reflexivity). unfold demo_enroll_ok in Hok.
  destruct (demo_enroll demo_invited) as [w1 [x|e]] eqn:E; [|discriminate Hok]. exists w1, x. split; [exact eq_refl|].
  unfold demo_enroll in E.
  exact (enroll_code_single_use demo_settings _ _ _ _ _ _ _ _ _ _ _ _ _ _ _ _ _ _ _ demo_invited_ok E (reflexivity w1)).
Defined.

Lemma malformed_challenge_spends_it_witness :
  exists w' m, run (enroll demo_settings demo_code §"pixel" [] [] [] §"not base64" None None) demo_invited
    = (w', ERR (EValue m)) /\ w_db w' = w_db demo_invited /\ w_challenges w' !! hex demo_code_hash = None.
Proof.
  apply (malformed_challenge_spends_it demo_settings demo_code); vm_compute; reflexivity.
Defined.

Lemma challenge_single_use_witness :
  let h := demo_code_hash in
  let w1 := (run (ChallengeStore.issue h) demo_account).1 in
  let w2 := advance (seconds 299) w1 in
  let w3 := (run (ChallengeStore.take h) w2).1 in
  (run (ChallengeStore.take h) w3).2 = OK None.
Proof.
  intros h w1 w2 w3.
  destruct (challenge_single_use h demo_account w1 (csprng (w_draws demo_account) 32) w2 w3
    (ch_value <$> ChallengeStore._sweep (w_now w2) (w_challenges w2) !! hex h) w3) as (_ & _ & H);
    [reflexivity|reflexivity|reflexivity|reflexivity|exact H].
Defined.
