(* ===== verification/Scripts.v ===== *)
(** * The operator's scripts: [scripts/create_admin.py] and
    [scripts/issue_enrollment_code.py]

    Both run against the same database as the services.  The arguments are what
    [argparse] and [getpass] hand over; a call of [sys.exit] is the left side of
    the result, what is printed on success the right one. *)

From S2P Require Import Prelude Text Sha256 Clock Json Config Errors Proc World Demo AuditLog Repos Schema Signer Security RateLimit Hub Evolve Auth Der Attestation Enrollment.

Section scripts.
Context {EN : Entropy} {PG : Postgres} {AR : Argon2} {PR : PyRepr} (settings : Settings).

(* @src backend/scripts/create_admin.py * MIN_PASSWORD_LENGTH *)
Definition MIN_PASSWORD_LENGTH : Z := 12.

(* @src backend/scripts/create_admin.py * create *)
Definition create (username display_name password : pystr) (is_admin : bool) : io (pystr + uuid) :=
  existing ← UserRepository.by_username username;
  match existing with
  | Some _ => Ret (inl (§"user " ++ py_repr (JStr username) ++ §" already exists"))
  | None =>
      password_hash ← hash_password settings password;
      user_id ← UserRepository.create username display_name password_hash is_admin;
      Ret (inr user_id)
  end.

(** [main]: the two prompts. *)
(* @src backend/scripts/create_admin.py * main *)
Definition create_admin (username display_name password repeated : pystr) (is_admin : bool) : io (pystr + uuid) :=
  if len password <? MIN_PASSWORD_LENGTH then
    Ret (inl (§"password must be at least " ++ int_str MIN_PASSWORD_LENGTH ++ §" characters"))
  else if negb (str_eqb password repeated) then Ret (inl §"passwords do not match")
  else create username display_name password is_admin.

(* @src backend/scripts/issue_enrollment_code.py * issue *)
Definition issue (username : pystr) (ttl : Z) : io (pystr + pystr) :=
  user ← UserRepository.by_username username;
  match user with
  | None => Ret (inl (§"no such user: " ++ username))
  | Some (user_id, _) =>
      code ← token_urlsafe 24;
      encoded ← of_outcome (encode_utf8 code);
      _ ← EnrollmentRepository.create user_id (Sha256.sha256 encoded) (Some user_id) ttl;
      Ret (inr code)
  end.

(** ** Every step evolves *)

Lemma create_script_evolves u n p a : guar evolves (create u n p a).
Proof. unfold create. evolves_tac. Qed.

Lemma create_admin_evolves u n p r a : guar evolves (create_admin u n p r a).
Proof. unfold create_admin. repeat case_match; try done. apply create_script_evolves. Qed.

Lemma issue_code_evolves u ttl : guar evolves (issue u ttl).
Proof.
  apply guar_bind; [apply by_username_evolves|intros [[id row]|]; [|done]].
  apply guar_bind; [apply evolves_frame; intros w; split_and!; try done; cbn; lia|intros code].
  apply guar_bind; [apply evolves_of_outcome|intros encoded].
  by apply guar_bind; [apply codes_create_evolves|].
Qed.

(** ** An issued code *)

Lemma nopad_strip a l : all_bytes l -> strip (b64_nopad a l) = b64_nopad a l.
Proof.
  intros H. assert (Hs : Forall (fun c => is_space c = false) (b64_nopad a l)).
  { revert H. induction l as [|x|x y|x y z r IH] using list_ind3; intros H; forall_inv; cbn [b64_nopad];
      repeat (constructor; [apply b64_char_not_space; lia|]); try constructor. by apply IH. }
  unfold strip. by rewrite lstrip_by_none, rstrip_by_none.
Qed.

(** What [issue] prints and stores. *)
Lemma issue_stores username ttl w w' code :
  run (issue username ttl) w = (w', OK (inr code)) ->
  exists uid u h id, users (w_db w) !! uid = Some u /\ lower (u_username u) = lower username
    /\ EnrollmentService.hash_code code = OK h /\ w_now w' = w_now w
    /\ enrollment_codes (w_db w') = <[id := {| e_user_id := uid; e_code_hash := h; e_created_by := Some uid;
         e_created_at := w_now w; e_expires_at := w_now w + seconds ttl; e_used_at := None;
         e_used_by_device := None |}]> (enrollment_codes (w_db w)).
Proof.
  unfold issue. intros Hr. apply run_bind_ok in Hr as (w1 & user & Hu & Hr).
  assert (w1 = w /\ user = fetchrow (same_name username) (users (w_db w))) as [-> ->].
  { unfold UserRepository.by_username in Hu. destruct (pg_text username); [|done].
    rewrite run_query in Hu. by injection Hu as <- <-. }
  destruct (fetchrow _ _) as [[uid u]|] eqn:Ef; [|done]. apply fetchrow_some in Ef as [Hrow Hname].
  apply bool_decide_eq_true_1 in Hname. unfold token_urlsafe, token_bytes in Hr. rewrite run_bind, run_atomic in Hr.
  set (b := csprng (w_draws w) 24) in *. assert (Hb : all_bytes b) by apply csprng_bytes.
  rewrite (urlsafe_nopad_eq _ Hb) in Hr. unfold encode_utf8 in Hr.
  rewrite (utf8_encode_ascii _ (b64_nopad_ascii url b Hb)), run_bind, run_of_outcome, run_bind in Hr.
  unfold EnrollmentRepository.create in Hr. rewrite run_insert_row in Hr.
  destruct (violation _); [done|]. cbn [run] in Hr. injection Hr as <- <-.
  eexists uid, u, _, _. split; [done|]. split; [done|]. split; [|split; [done|reflexivity]].
  unfold EnrollmentService.hash_code, encode_utf8. rewrite nopad_strip by done.
  by rewrite (utf8_encode_ascii _ (b64_nopad_ascii url b Hb)).
Qed.

(** A code the operator issues works as printed, for the time it was issued
    for: a claim of its hash succeeds, for the user it was issued for, exactly
    while less than the lifetime has passed. *)
Theorem issued_code_is_redeemable username ttl w w' code d :
  db_ok (w_db w) -> run (issue username ttl) w = (w', OK (inr code)) -> 0 <= d ->
  exists uid u h, users (w_db w) !! uid = Some u /\ lower (u_username u) = lower username
    /\ EnrollmentService.hash_code code = OK h
    /\ (match (run (EnrollmentRepository.claim h) (advance d w')).2 with
        | OK (Some (_, r)) => e_user_id r = uid /\ d < seconds ttl
        | OK None => seconds ttl <= d
        | ERR _ => False
        end).
Proof.
  intros Hd Hr Hpos. pose proof (run_db_ok _ _ _ _ (issue_code_evolves username ttl) Hr Hd) as Hd'.
  apply issue_stores in Hr as (uid & u & h & id & Hu & Hn & Hh & Hnow & Hcodes).
  exists uid, u, h. split; [done|]. split; [done|]. split; [done|].
  unfold EnrollmentRepository.claim. rewrite run_statement. cbn [w_db w_now advance snd]. rewrite Hnow.
  set (row := {| e_user_id := uid; e_code_hash := h; e_created_by := _; e_created_at := _; e_expires_at := _;
                 e_used_at := _; e_used_by_device := _ |}) in *.
  assert (Hrow : enrollment_codes (w_db w') !! id = Some row) by by rewrite Hcodes, lookup_insert_eq.
  assert (Huniq : forall k r, enrollment_codes (w_db w') !! k = Some r -> e_code_hash r = h -> k = id).
  { intros k r Hk Ek. destruct (ok_codes _ Hd') as [Huq _]. by eapply Huq. }
  assert (Hcl : EnrollmentRepository.claimable h (w_now w + d) row = (d <? seconds ttl)).
  { unfold EnrollmentRepository.claimable. cbn. rewrite bool_decide_true by done. cbn.
    destruct (Z.ltb_spec (w_now w + d) (w_now w + seconds ttl)), (Z.ltb_spec d (seconds ttl)); lia || done. }
  destruct (Z.ltb_spec d (seconds ttl)) as [Hlt|Hge].
  - erewrite fetchrow_unique; [|exact Hrow|done|].
    + done.
    + intros k r Hk HP. unfold EnrollmentRepository.claimable in HP. bool_to_prop. by eapply Huniq.
  - destruct (fetchrow _ _) as [[k r]|] eqn:Ef; [|done]. apply fetchrow_some in Ef as [Hk HP].
    assert (k = id) as ->; [|rewrite Hrow in Hk; injection Hk as <-; congruence].
    unfold EnrollmentRepository.claimable in HP. bool_to_prop. by eapply Huniq.
Qed.
End scripts.

(** ** A witness *)

#[local] Existing Instances demo_entropy demo_postgres demo_argon2.

Lemma issued_code_is_redeemable_witness :
  exists code, (run (issue §"Alice" 900) demo_account).2 = OK (inr code)
    /\ exists uid u, users (w_db demo_account) !! uid = Some u /\ lower (u_username u) = §"alice".
Proof.
  assert (Hok : match (run (issue §"Alice" 900) demo_account).2 with OK (inr _) => true | _ => false end = true)
    by (vm_compute; reflexivity).
  destruct (run (issue §"Alice" 900) demo_account) as [w' o] eqn:E. cbn [snd] in *.
  destruct o as [[m|code]|e]; try discriminate Hok. exists code. split; [exact eq_refl|].
  destruct (issued_code_is_redeemable §"Alice" 900 demo_account w' code 0 demo_account_ok E)
    as (uid & u & h & Hu & Hn & _); [reflexivity|].
  exists uid, u. exact (conj Hu Hn).
Defined.
