(* ===== verification/Api.v ===== *)
(** * The HTTP endpoints: [app/api/*.py] and [admin/main.py]

    One definition per endpoint or dependency.  The request body has passed its
    model ([app/models/schemas.py]): the arguments are the validated fields. *)

From S2P Require Import Prelude Text Sha256 Clock Json Config Ip Errors Proc World Demo AuditLog Repos Schema Signer Security Proximity RateLimit Hub Evolve Auth Unlock Der Attestation Enrollment.

(** [any(address in ip_network(net, strict=False) for net in nets)]: the first
    match ends it, so that a malformed network behind it goes unseen. *)
(* @src backend/app/api/deps.py 119-119 client_ip *)
Fixpoint in_any (address : IpAddr) (nets : list pystr) : outcome Exn bool :=
  match nets with
  | [] => OK false
  | net :: rest =>
      match ip_network net with
      | None => ERR (EValue net)
      | Some n => if ip_in address n then OK true else in_any address rest
      end
  end.

(** *** [uuid.UUID(text)] *)

(** [s.replace(w, "")] *)
Fixpoint remove_sub (w : pystr) (skip : nat) (s : pystr) : pystr :=
  match s with
  | [] => []
  | c :: r =>
      match skip with
      | S k => remove_sub w k r
      | O => if starts_with w s then remove_sub w (length w - 1) r else c :: remove_sub w 0 r
      end
  end.

(** The digits of [int(text, 16)]: single underscores between digits. *)
Fixpoint hex_number (acc : Z) (after_mark : bool) (s : pystr) : option Z :=
  match s with
  | [] => if after_mark then None else Some acc
  | c :: r =>
      if c =? 95 then if after_mark then None else hex_number acc true r
      else v ← hex_val c; hex_number (16 * acc + v) false r
  end.

(** [int(text, 16)] on ASCII text: blanks around, a sign, the prefix [0x]. *)
Definition int16 (s : pystr) : option Z :=
  let s := strip s in
  let '(negative, s) := match s with 45 :: r => (true, r) | 43 :: r => (false, r) | _ => (false, s) end in
  let s := if starts_with §"0x" (lower s) then match drop 2 s with 95 :: r => r | r => r end else s in
  (if negative then Z.opp else id) <$> hex_number 0 true s.

Definition uuid_of_text (s : pystr) : outcome Exn uuid :=
  let h := remove_sub §"uuid:" 0 (remove_sub §"urn:" 0 s) in
  let brace c := (c =? 123) || (c =? 125) in
  let h := filter (fun c => c <> 45) (rstrip_by brace (lstrip_by brace h)) in
  if (length h =? 32)%nat then
    match int16 h with
    | Some n => if 0 <=? n then OK n else ERR (EValue §"int is out of range")
    | None => ERR (EValue §"invalid literal for int() with base 16")
    end
  else ERR (EValue §"badly formed hexadecimal UUID string").

Section api.
Context {EN : Entropy} {PG : Postgres} {AR : Argon2} {PR : PyRepr} {X5 : X509} {SK : SignerSocket}
  {TR : Transport} (settings : Settings).

(** *** Dependencies: [app/api/deps.py] *)

(** What of a request the handlers read: the peer and the forwarding header. *)
Record Request := { peer_host : option pystr; x_forwarded_for : option pystr }.

(** An empty header or peer counts as none. *)
Definition non_empty (s : option pystr) : option pystr := RateLimiter.present s.

(* @src backend/app/api/deps.py * client_ip *)
Definition client_ip (request : Request) : outcome Exn (option pystr) :=
  let peer := peer_host request in
  match non_empty (x_forwarded_for request), non_empty peer with
  | Some forwarded, Some p =>
      match ip_address p with
      | None => OK peer
      | Some address =>
          match in_any address (trusted_proxy_list settings) with
          | ERR e => ERR e
          | OK false => OK peer
          | OK true =>
              let candidate := strip (default [] (head (split_on 44 forwarded))) in
              if is_some (ip_address candidate) then OK (Some candidate) else OK peer
          end
      end
  | _, _ => OK peer
  end.

(** [except AuthenticationError as exc: raise http_error(exc)] *)
Definition auth_to_http {A} (e : Exn) : option (io A) :=
  match e with EApi ((AuthenticationError _) as err) => Some (Raise (EHttp (http_error err))) | _ => None end.

(** [except ApiError as exc: raise http_error(exc)] *)
Definition api_to_http {A} (e : Exn) : option (io A) :=
  match e with EApi err => Some (Raise (EHttp (http_error err))) | _ => None end.

(** The text after the first space. *)
Fixpoint after_space (s : pystr) : pystr :=
  match s with [] => [] | c :: r => if c =? 32 then r else after_space r end.

(** The token of an [Authorization] header.  No character outside ASCII has a
    lower case made of the letters of "bearer". *)
(* @src backend/app/api/deps.py 134-136 current_session *)
Definition bearer (authorization : option pystr) : option pystr :=
  match non_empty authorization with
  | Some a => if starts_with §"bearer " (lower a) then Some (strip (after_space a)) else None
  | None => None
  end.

(* @src backend/app/api/deps.py * current_session *)
Definition current_session (authorization : option pystr) : io Session :=
  match bearer authorization with
  | None => Raise (EHttp (http_error (AuthenticationError §"missing_bearer")))
  | Some token => catch (AuthService.resolve_access_token settings token) auth_to_http
  end.

(* @src backend/app/api/deps.py * admin_session *)
Definition admin_session (session : Session) : io Session :=
  if negb (se_is_admin session) then Raise (EHttp (http_error (AuthenticationError §"not_admin"))) else Ret session.

(** The two dependencies of an endpoint, before its body. *)
Definition with_session {A} (authorization : option pystr) (body : Session -> io A) : io A :=
  session ← current_session authorization; body session.
Definition with_admin {A} (authorization : option pystr) (body : Session -> io A) : io A :=
  with_session authorization (fun session => session ← admin_session session; body session).

(** *** [app/api/auth.py] *)

(* @src backend/app/api/auth.py * enroll_challenge *)
Definition enroll_challenge (enrollment_code : pystr) : io (pystr * Z) :=
  EnrollmentService.issue_challenge enrollment_code.

(* @src backend/app/api/auth.py * enroll *)
Definition enroll (request : Request) (enrollment_code label device_public_key : pystr)
    (attestation_chain : list pystr) (play_integrity_token challenge : pystr) (app_version : option pystr)
    : io (uuid * pystr * IssuedTokens) :=
  ip ← of_outcome (client_ip request);
  fixed_duration (auth_fixed_response_ms settings)
    (catch (EnrollmentService.enroll settings enrollment_code label device_public_key attestation_chain
              play_integrity_token challenge app_version ip) api_to_http).

(** The arguments of an audit call without an actor. *)
Definition anonymous_audit (device : option uuid) (ip : option pystr) (d : dict) : AuditArgs := {|
  actor_type := §"anonymous"; actor_id := None; device_id := device; door_id := None;
  controller_id := None; AuditLog.client_ip := ip; detail := d |}.

(** What follows a refused login: the failure is counted, audited, and the
    delay earned by the earlier ones is slept. *)
(* @src backend/app/api/auth.py 103-114 login *)
Definition login_failed (username : pystr) (device : uuid) (ip : option pystr) (decision : RateDecision)
    (internal_reason : pystr) : io IssuedTokens :=
  _ ← RateLimiter.record_login_failure settings username ip §"auth.login";
  _ ← AuditService.failure AUTH_LOGIN_FAILED
        (anonymous_audit (Some device) ip
           [(§"reason", JStr internal_reason); (§"username", JStr username)]);
  _ ← RateLimiter.apply_delay decision;
  Raise (EHttp (http_error (AuthenticationError internal_reason))).

(* @src backend/app/api/auth.py * login *)
Definition login (request : Request) (username password : pystr) (device : uuid) : io IssuedTokens :=
  ip ← of_outcome (client_ip request);
  decision ← RateLimiter.check_login settings username ip;
  if negb (allowed decision) then
    _ ← AuditService.denied RATE_LIMIT_TRIPPED
          (anonymous_audit None ip
             [(§"scope", JStr §"login"); (§"subject_type", JStr (Repos.subject_text (rd_subject_type decision)));
              (§"failures", JInt (failures decision))]);
    Raise (EHttp (http_error (RateLimited (retry_after_seconds decision))))
  else
    fixed_duration (auth_fixed_response_ms settings)
      (catch (AuthService.login settings username password device ip)
         (fun e => match e with
                   | EApi (AuthenticationError reason) => Some (login_failed username device ip decision reason)
                   | _ => None
                   end)).

(* @src backend/app/api/auth.py * refresh *)
Definition refresh (request : Request) (refresh_token : pystr) : io IssuedTokens :=
  ip ← of_outcome (client_ip request);
  fixed_duration (auth_fixed_response_ms settings)
    (catch (AuthService.refresh settings refresh_token ip) auth_to_http).

(* @src backend/app/api/auth.py * logout *)
Definition logout (authorization : option pystr) (request : Request) (all_devices : bool) : io unit :=
  with_session authorization (fun session =>
    ip ← of_outcome (client_ip request);
    _ ← AuthService.logout session all_devices ip;
    Ret tt).

(** *** [app/api/doors.py] *)

(* @src backend/app/models/schemas.py * DoorSummary *)
Record DoorSummary := {
  ds_id : uuid; ds_code : pystr; ds_name : pystr; ds_location : option pystr; ds_unlock_seconds : Z;
  ds_controller_online : bool; ds_window_start : Z; ds_window_end : Z; ds_weekday_mask : Z; ds_time_zone : pystr
}.

(* @src backend/app/api/doors.py 29-43 list_doors *)
Definition door_summary (l : door_line) : DoorSummary := {|
  ds_id := dl_id l; ds_code := dr_code (dl_door l); ds_name := dr_name (dl_door l);
  ds_location := dr_location (dl_door l); ds_unlock_seconds := dr_unlock_seconds (dl_door l);
  ds_controller_online := default false (dl_online l);
  ds_window_start := p_start_time (dl_permission l); ds_window_end := p_end_time (dl_permission l);
  ds_weekday_mask := p_weekday_mask (dl_permission l); ds_time_zone := p_time_zone (dl_permission l) |}.

(* @src backend/app/api/doors.py * list_doors *)
Definition list_doors (authorization : option pystr) : io (list DoorSummary * instant) :=
  with_session authorization (fun session =>
    rows ← DoorRepository.list_for_user (se_user_id session);
    now ← reads w_now;
    Ret (map door_summary rows, now)).

(* @src backend/app/api/doors.py * unlock_door *)
Definition unlock_door (authorization : option pystr) (request : Request) (door_id : uuid)
    (proximity_beacon_id : pystr) : io UnlockOutcome :=
  with_session authorization (fun session =>
    ip ← of_outcome (client_ip request);
    catch (UnlockService.unlock settings (se_user_id session) (se_device_id session) door_id proximity_beacon_id ip)
      api_to_http).

(* @src backend/app/api/doors.py * access_history *)
Definition access_history (authorization : option pystr) (limit : Z) : io (list audit_row) :=
  with_session authorization (fun session => AuditRepository.for_user (se_user_id session) (Z.min limit 200)).

(** *** [app/api/health.py] *)

(* @src backend/app/api/health.py * VERSION *)
Definition VERSION : pystr := §"1.0.0".

(* @src backend/app/models/schemas.py * HealthResponse *)
Record HealthResponse := {
  hr_status : pystr; hr_version : pystr; hr_database : bool; hr_signer : bool;
  hr_controllers_online : Z; hr_audit_chain_ok : option bool
}.

(* @src backend/app/api/health.py * health *)
Definition health : pystr := §"ok".

(** The database of the model always answers: [SELECT 1] and the chain query
    do not raise. *)
(* @src backend/app/api/health.py * ready *)
Definition ready : io HealthResponse :=
  signer_ok ← catch (_ ← SignerClient.public_key; Ret true)
                (fun e => match e with ESignerUnavailable _ | ESignerRefused _ => Some (Ret false) | _ => None end);
  status ← AuditService.chain_status 0;
  online ← ControllerHub.online_count;
  let healthy := signer_ok && chain_ok status in
  Ret {| hr_status := if healthy then §"ok" else §"degraded"; hr_version := VERSION;
         hr_database := true; hr_signer := signer_ok;
         hr_controllers_online := online; hr_audit_chain_ok := Some (chain_ok status) |}.

(** *** [admin/main.py] *)

Definition admin_audit (session : Session) (door controller : option uuid) (d : dict) : io Z :=
  AuditService.success ADMIN_ACTION
    {| actor_type := §"admin"; actor_id := Some (se_user_id session); device_id := None; door_id := door;
       controller_id := controller; AuditLog.client_ip := None; detail := d |}.

(* @src backend/admin/main.py * read_audit *)
Definition read_audit (authorization : option pystr) (limit : Z) (before_seq : option Z)
    (event_type : option pystr) : io (list audit_row) :=
  with_admin authorization (fun _ => AuditRepository.recent (Z.min limit 500) before_seq event_type None).

(* @src backend/admin/main.py * verify_chain *)
Definition verify_chain (authorization : option pystr) (from_seq : Z) : io (chain_status * option audit_row) :=
  with_admin authorization (fun _ =>
    status ← AuditService.chain_status from_seq;
    head ← AuditService.head;
    Ret (status, head)).

(** The rows with the connected flag of this process's hub, read in one go. *)
(* @src backend/admin/main.py 101-112 list_controllers *)
Definition with_online (rows : list (uuid * controller_row)) : io (list (uuid * controller_row * bool)) :=
  reads (fun w => map (fun r => (r, is_some (h_sessions (w_hub w) !! c_code r.2))) rows).

(* @src backend/admin/main.py * list_controllers *)
Definition list_controllers (authorization : option pystr) : io (list (uuid * controller_row * bool)) :=
  with_admin authorization (fun _ => rows ← ControllerRepository.list_all; with_online rows).

(* @src backend/admin/main.py * register_controller *)
Definition register_controller (authorization : option pystr) (code name public_key beacon_key : pystr) : io uuid :=
  with_admin authorization (fun session =>
    pk ← of_outcome (EnrollmentService.b64_strict public_key);
    bk ← of_outcome (EnrollmentService.b64_strict beacon_key);
    controller_id ← ControllerRepository.register code name pk bk;
    _ ← admin_audit session None (Some controller_id)
          [(§"action", JStr §"controller.register"); (§"code", JStr code)];
    Ret controller_id).

(* @src backend/admin/main.py * block_controller *)
Definition block_controller (authorization : option pystr) (controller_id reason : pystr) : io unit :=
  with_admin authorization (fun session =>
    controller_id ← of_outcome (uuid_of_text controller_id);
    _ ← ControllerRepository.block controller_id reason;
    _ ← admin_audit session None (Some controller_id)
          [(§"action", JStr §"controller.block"); (§"reason", JStr reason)];
    Ret tt).

(* @src backend/admin/main.py * create_door *)
Definition create_door (authorization : option pystr) (code name : pystr) (location : option pystr)
    (controller_id : option uuid) (relay_channel unlock_seconds : Z) : io uuid :=
  with_admin authorization (fun session =>
    door_id ← DoorRepository.create code name location controller_id relay_channel unlock_seconds;
    _ ← admin_audit session (Some door_id) None
          [(§"action", JStr §"door.create"); (§"code", JStr code)];
    Ret door_id).

(** The times are the texts of [time.isoformat()]. *)
(* @src backend/admin/main.py * grant_permission *)
Definition grant_permission (authorization : option pystr) (user_id door_id : uuid) (weekday_mask : Z)
    (start_time end_time time_zone : pystr) (valid_until : option instant) : io uuid :=
  with_admin authorization (fun session =>
    permission_id ← PermissionRepository.grant user_id door_id (Some (se_user_id session)) weekday_mask
                      start_time end_time time_zone valid_until;
    _ ← admin_audit session (Some door_id) None
          [(§"action", JStr §"permission.grant"); (§"target_user", JStr (uuid_str user_id));
           (§"weekday_mask", JInt weekday_mask); (§"window", JStr (start_time ++ §"-" ++ end_time));
           (§"time_zone", JStr time_zone)];
    Ret permission_id).

(** [networks]: every configured network must parse, or the application does
    not start. *)
(* @src backend/admin/main.py 235-237 create_admin_app *)
Definition admin_networks : outcome Exn (list IpNetwork) :=
  match mapM ip_network (admin_cidr_list settings) with
  | Some nets => OK nets
  | None => ERR (EValue §"does not appear to be an IPv4 or IPv6 network")
  end.

(** The middleware: [true] lets the request through, [false] is its 403. *)
(* @src backend/admin/main.py 239-248 restrict_source *)
Definition restrict_source (networks : list IpNetwork) (peer : option pystr) : bool :=
  match ip_address (default [] peer) with
  | None => false
  | Some address => match networks with [] => true | _ => existsb (ip_in address) networks end
  end.

End api.

(** ** Every step evolves *)

Section evolution.
Context {EN : Entropy} {PG : Postgres} {AR : Argon2} {PR : PyRepr} {X5 : X509} {SK : SignerSocket}
  {TR : Transport} {TE : TransportEvolves} (settings : Settings).

Lemma current_session_evolves authorization : guar evolves (current_session settings authorization).
Proof.
  unfold current_session. destruct (bearer authorization) as [token|]; [|done].
  apply guar_catch; [apply resolve_evolves_token|]. intros e q He; unfold auth_to_http in He; repeat case_match; by simplify_eq.
Qed.

Lemma with_session_evolves {A} authorization (body : Session -> io A) :
  (forall s, guar evolves (body s)) -> guar evolves (with_session settings authorization body).
Proof. intros Hb. apply guar_bind; [apply current_session_evolves|done]. Qed.

Lemma with_admin_evolves {A} authorization (body : Session -> io A) :
  (forall s, guar evolves (body s)) -> guar evolves (with_admin settings authorization body).
Proof.
  intros Hb. apply with_session_evolves. intros s. apply guar_bind; [|done].
  unfold admin_session. by destruct (negb _).
Qed.

Lemma api_to_http_evolves {A} (p : io A) : guar evolves p -> guar evolves (catch p api_to_http).
Proof. intros Hp. apply guar_catch; [done|]. intros e q He; unfold api_to_http in He; repeat case_match; by simplify_eq. Qed.

Lemma auth_to_http_evolves {A} (p : io A) : guar evolves p -> guar evolves (catch p auth_to_http).
Proof. intros Hp. apply guar_catch; [done|]. intros e q He; unfold auth_to_http in He; repeat case_match; by simplify_eq. Qed.

Lemma api_enroll_challenge_evolves code : guar evolves (enroll_challenge code).
Proof. apply issue_challenge_evolves. Qed.

Lemma api_enroll_evolves request code label key chain token challenge version :
  guar evolves (enroll settings request code label key chain token challenge version).
Proof.
  apply guar_bind; [apply evolves_of_outcome|intros ip].
  apply fixed_duration_evolves, api_to_http_evolves, enroll_evolves.
Qed.

Lemma login_failed_evolves username device ip decision reason :
  guar evolves (login_failed settings username device ip decision reason).
Proof. unfold login_failed, AuditService.failure, AuditService.record. evolves_tac. Qed.

Lemma api_login_evolves request username password device :
  guar evolves (login settings request username password device).
Proof.
  apply guar_bind; [apply evolves_of_outcome|intros ip].
  apply guar_bind; [apply check_login_evolves|intros decision]. destruct (negb _).
  - by apply guar_bind; [apply append_evolves|].
  - apply fixed_duration_evolves, guar_catch; [apply login_evolves|].
    intros [[]| | | | | | | | | | | | | | | |] q He; simplify_eq. apply login_failed_evolves.
Qed.

Lemma api_refresh_evolves request token : guar evolves (refresh settings request token).
Proof.
  apply guar_bind; [apply evolves_of_outcome|intros ip].
  apply fixed_duration_evolves, auth_to_http_evolves, refresh_evolves.
Qed.

Lemma api_logout_evolves authorization request all_devices : guar evolves (logout settings authorization request all_devices).
Proof.
  apply with_session_evolves. intros s. apply guar_bind; [apply evolves_of_outcome|intros ip].
  by apply guar_bind; [apply logout_evolves|].
Qed.

Lemma list_doors_evolves authorization : guar evolves (list_doors settings authorization).
Proof.
  apply with_session_evolves. intros s. apply guar_bind; [apply evolves_query|intros rows].
  by apply guar_bind; [apply evolves_reads|].
Qed.

Lemma unlock_door_evolves authorization request door beacon :
  guar evolves (unlock_door settings authorization request door beacon).
Proof.
  apply with_session_evolves. intros s. apply guar_bind; [apply evolves_of_outcome|intros ip].
  apply api_to_http_evolves, unlock_evolves.
Qed.

Lemma access_history_evolves authorization limit : guar evolves (access_history settings authorization limit).
Proof. apply with_session_evolves. intros s. apply latest_evolves. Qed.

Lemma ready_evolves : guar evolves ready.
Proof.
  unfold ready. apply guar_bind; [apply guar_catch; [by apply guar_bind; [apply public_key_evolves|]|]|].
  - intros [] q He; by simplify_eq.
  - intros b. apply guar_bind; [apply evolves_query|intros st]. by apply guar_bind; [apply evolves_reads|].
Qed.

Lemma read_audit_evolves authorization limit before event : guar evolves (read_audit settings authorization limit before event).
Proof. apply with_admin_evolves. intros s. apply latest_evolves. Qed.

Lemma verify_chain_evolves authorization from_seq : guar evolves (verify_chain settings authorization from_seq).
Proof.
  apply with_admin_evolves. intros s. apply guar_bind; [apply evolves_query|intros st].
  by apply guar_bind; [apply evolves_query|].
Qed.

Lemma with_online_evolves rows : guar evolves (with_online rows).
Proof. apply evolves_reads. Qed.

Lemma list_controllers_evolves authorization : guar evolves (list_controllers settings authorization).
Proof. apply with_admin_evolves. intros s. apply guar_bind; [apply evolves_query|apply with_online_evolves]. Qed.

Lemma admin_audit_evolves s door c d : guar evolves (admin_audit s door c d).
Proof. apply append_evolves. Qed.

(** An administrative change, then its audit row. *)
Lemma audited_evolves {A B} (p : io A) (k : A -> io Z) (f : A -> B) :
  guar evolves p -> (forall a, guar evolves (k a)) -> guar evolves (a ← p; _ ← k a; Ret (f a)).
Proof. intros Hp Hk. apply guar_bind; [done|intros a]. by apply guar_bind; [apply Hk|]. Qed.

Lemma register_controller_evolves authorization code name pk bk :
  guar evolves (register_controller settings authorization code name pk bk).
Proof.
  apply with_admin_evolves. intros s. apply guar_bind; [apply evolves_of_outcome|intros k1].
  apply guar_bind; [apply evolves_of_outcome|intros k2].
  apply (audited_evolves _ _ id); [apply controllers_register_evolves|intros id; apply admin_audit_evolves].
Qed.
Lemma block_controller_evolves authorization id reason : guar evolves (block_controller settings authorization id reason).
Proof.
  apply with_admin_evolves. intros s. apply guar_bind; [apply evolves_of_outcome|intros cid].
  apply (audited_evolves _ _ (fun _ => tt)); [apply controller_block_evolves|intros _; apply admin_audit_evolves].
Qed.
Lemma create_door_evolves authorization code name loc c relay secs :
  guar evolves (create_door settings authorization code name loc c relay secs).
Proof.
  apply with_admin_evolves. intros s.
  apply (audited_evolves _ _ id); [apply doors_create_evolves|intros id; apply admin_audit_evolves].
Qed.
Lemma grant_permission_evolves authorization u d mask st en tz until :
  guar evolves (grant_permission settings authorization u d mask st en tz until).
Proof.
  apply with_admin_evolves. intros s.
  apply (audited_evolves _ _ id); [apply grant_evolves|intros id; apply admin_audit_evolves].
Qed.
End evolution.

(** ** Who gets through *)

Section guards.
Context {EN : Entropy} {PG : Postgres} {AR : Argon2} {PR : PyRepr} (settings : Settings).

(** The one response to every credential problem. *)
Definition unauthorized : HTTPException := http_error (AuthenticationError []).

Lemma run_with_session {A} authorization (body : Session -> io A) w :
  (forall token, bearer authorization = Some token -> exists h, hash_token settings token = OK h) ->
  db_ok (w_db w) ->
  (exists token h s t u dv, bearer authorization = Some token /\ hash_token settings token = OK h
     /\ session_valid settings (w_db w) (w_now w) h s t u dv
     /\ run (with_session settings authorization body) w = run (body s) w)
  \/ run (with_session settings authorization body) w = (w, ERR (EHttp unauthorized)).
Proof.
  intros Hh Hd. unfold with_session, current_session. rewrite run_bind.
  destruct (bearer authorization) as [token|]; [|by right]. destruct (Hh token eq_refl) as [h Eh].
  rewrite run_catch, (run_resolve settings token h w Eh).
  destruct (TokenRepository.lookup_in (w_db w) h access_kind) as [r|] eqn:El; [|by right].
  apply lookup_in_some in El as (id & t & u & dv & Hat & ->).
  destruct (TokenRepository.is_live _ _) eqn:Elive; cbn [negb]; [|by right].
  destruct (AuthService.unattested settings _) eqn:Eatt; [by right|]. left.
  apply live_iff in Elive as (L1 & L2 & L3 & L4). rewrite unattested_false in Eatt.
  by exists token, h, (AuthService.session_of (record_of id t u dv)), t, u, dv.
Qed.

(** Nothing behind the session dependency runs for a stranger: either the
    request carries the token of a valid session and the endpoint's body runs
    with that session, or the answer is the one 401 response and nothing at all
    has changed. *)
Theorem session_endpoints_guarded {A} authorization (body : Session -> io A) w w' o :
  (forall token, bearer authorization = Some token -> exists h, hash_token settings token = OK h) ->
  db_ok (w_db w) -> run (with_session settings authorization body) w = (w', o) ->
  (w' = w /\ o = ERR (EHttp unauthorized))
  \/ exists token h s t u dv, bearer authorization = Some token /\ hash_token settings token = OK h
       /\ session_valid settings (w_db w) (w_now w) h s t u dv /\ run (body s) w = (w', o).
Proof.
  intros Hh Hd Hr. destruct (run_with_session authorization body w Hh Hd)
    as [(token & h & s & t & u & dv & H1 & H2 & H3 & H4)|H].
  - right. rewrite Hr in H4. by exists token, h, s, t, u, dv.
  - left. rewrite Hr in H. by injection H as -> ->.
Qed.

Lemma run_with_admin {A} authorization (body : Session -> io A) w :
  (forall token, bearer authorization = Some token -> exists h, hash_token settings token = OK h) ->
  db_ok (w_db w) ->
  run (with_admin settings authorization body) w = (w, ERR (EHttp unauthorized))
  \/ exists h s t u dv, session_valid settings (w_db w) (w_now w) h s t u dv
       /\ u_is_admin u = true /\ u_is_active u = true /\ d_is_blocked dv = false
       /\ run (with_admin settings authorization body) w = run (body s) w.
Proof.
  intros Hh Hd. unfold with_admin.
  destruct (run_with_session authorization (fun session => session ← admin_session session; body session) w Hh Hd)
    as [(token & h & s & t & u & dv & _ & _ & Hv & H4)|H]; [|by left].
  rewrite H4, run_bind. unfold admin_session.
  destruct (se_is_admin s) eqn:Ea; cbn [negb run]; [|by left]. right. exists h, s, t, u, dv.
  pose proof Hv as [_ _ _ Hact Hblk _ Es]. rewrite Es in Ea. by split_and!.
Qed.

(** Nothing behind the administrator's dependency runs for anybody but an
    active administrator on a device that is not blocked; everybody else,
    users with a valid session included, gets the same 401 response and changes
    nothing. *)
Theorem admin_endpoints_guarded {A} authorization (body : Session -> io A) w w' o :
  (forall token, bearer authorization = Some token -> exists h, hash_token settings token = OK h) ->
  db_ok (w_db w) -> run (with_admin settings authorization body) w = (w', o) ->
  (w' = w /\ o = ERR (EHttp unauthorized))
  \/ exists h s t u dv, session_valid settings (w_db w) (w_now w) h s t u dv
       /\ u_is_admin u = true /\ u_is_active u = true /\ d_is_blocked dv = false
       /\ run (body s) w = (w', o).
Proof.
  intros Hh Hd Hr. destruct (run_with_admin authorization body w Hh Hd) as [H|(h & s & t & u & dv & H1 & H2 & H3 & H4 & H)];
    rewrite Hr in H; [left; by injection H as -> ->|right]. exists h, s, t, u, dv. by split_and!.
Qed.

(** A user's history is the user's own: at most two hundred rows, each a row
    of the audit log about an unlock of that very user. *)
Theorem access_history_is_own authorization limit w w' rows :
  (forall token, bearer authorization = Some token -> exists h, hash_token settings token = OK h) ->
  db_ok (w_db w) -> run (access_history settings authorization limit) w = (w', OK rows) ->
  w' = w /\ exists h s t u dv, session_valid settings (w_db w) (w_now w) h s t u dv
    /\ Z.of_nat (length rows) <= Z.min limit 200
    /\ Forall (fun r => r ∈ audit_log (w_db w) /\ a_actor_id r = Some (se_user_id s)
                        /\ AuditRepository.history_event (a_event_type r) = true) rows.
Proof.
  intros Hh Hd Hr. unfold access_history in Hr.
  destruct (run_with_session authorization
    (fun session => AuditRepository.for_user (se_user_id session) (Z.min limit 200)) w Hh Hd)
    as [(token & h & s & t & u & dv & _ & _ & Hv & H4)|H]; [|by rewrite Hr in H].
  rewrite Hr in H4. unfold AuditRepository.for_user, AuditRepository.latest in H4.
  rewrite run_bind, run_query in H4. destruct (Z.ltb_spec (Z.min limit 200) 0) as [|Hl]; [done|].
  cbn [of_option run] in H4. injection H4 as -> ->. split; [done|]. exists h, s, t, u, dv. split; [done|]. split.
  - rewrite length_take. lia.
  - apply Forall_take, Forall_forall. intros r Hr'.
    apply list_elem_of_In, in_rev, list_elem_of_In in Hr'. unfold by_seq in Hr'.
    apply elem_of_sort_by, list_elem_of_filter in Hr' as [HP Hin]. bool_to_prop. done.
Qed.

(** *** The client's address *)

Lemma in_any_true address nets : in_any address nets = OK true ->
  exists net n, net ∈ nets /\ ip_network net = Some n /\ ip_in address n = true.
Proof.
  induction nets as [|net nets IH]; cbn; [done|]. destruct (ip_network net) as [n|] eqn:En; [|done].
  destruct (ip_in address n) eqn:Ei.
  - intros _. exists net, n. split; [left|done].
  - intros (net' & n' & Hin & H)%IH. exists net', n'. split; [by right|done].
Qed.

(** C37 The forwarding header is believed only from a trusted proxy: when the
    address used is not the peer's own, the peer is inside one of the configured
    networks and the address is a well-formed one, the leftmost of the
    header. *)
Theorem forwarded_only_from_trusted_proxy request ip :
  client_ip settings request = OK ip -> ip <> peer_host request ->
  exists peer address net n forwarded candidate,
    peer_host request = Some peer /\ ip_address peer = Some address
    /\ net ∈ trusted_proxy_list settings /\ ip_network net = Some n /\ ip_in address n = true
    /\ x_forwarded_for request = Some forwarded /\ candidate = strip (default [] (head (split_on 44 forwarded)))
    /\ ip = Some candidate /\ is_Some (ip_address candidate).
Proof.
  unfold client_ip. intros Hr Hne.
  destruct (non_empty (x_forwarded_for request)) as [forwarded|] eqn:Ef; [|by injection Hr as <-].
  destruct (non_empty (peer_host request)) as [peer|] eqn:Ep; [|by injection Hr as <-].
  assert (Hx : forall o s, non_empty o = Some s -> o = Some s)
    by (intros [[]|] s Hs; cbn in Hs; by simplify_eq).
  apply Hx in Ef, Ep. clear Hx. destruct (ip_address peer) as [address|] eqn:Ea; [|by injection Hr as <-].
  destruct (in_any address _) as [[]|e] eqn:En; [|by injection Hr as <-|done].
  apply in_any_true in En as (net & n & Hin & Hn & Hi).
  destruct (ip_address (strip _)) as [c|] eqn:Ec; cbn [is_some] in Hr; [|by injection Hr as <-].
  injection Hr as <-. exists peer, address, net, n, forwarded, (strip (default [] (head (split_on 44 forwarded)))).
  by split_and!.
Qed.

(** A proxy that appends to the header does not protect the address: behind
    it the client chooses the leftmost entry, and any well-formed address it
    writes there is the one that is used. *)
Theorem forwarded_leftmost_is_believed request peer address claimed seen :
  peer_host request = Some peer -> peer <> [] -> ip_address peer = Some address ->
  in_any address (trusted_proxy_list settings) = OK true ->
  x_forwarded_for request = Some (claimed ++ 44 :: seen) ->
  44 ∉ claimed -> is_Some (ip_address (strip claimed)) ->
  client_ip settings request = OK (Some (strip claimed)).
Proof.
  intros Hp Hne Ha Hin Hf Hc Hv. unfold client_ip. rewrite Hf, Hp.
  assert (E : non_empty (Some (claimed ++ 44 :: seen)) = Some (claimed ++ 44 :: seen)) by by destruct claimed.
  assert (E2 : non_empty (Some peer) = Some peer) by by destruct peer. rewrite E, E2, Ha, Hin.
  assert (Hs : head (split_on 44 (claimed ++ 44 :: seen)) = Some claimed).
  { clear -Hc. induction claimed as [|c l IH]; [done|]. apply not_elem_of_cons in Hc as [Hne Hl].
    cbn [app split_on]. destruct (Z.eqb_spec c 44) as [->|]; [done|]. specialize (IH Hl).
    destruct (split_on 44 (l ++ 44 :: seen)) as [|x xs]; [done|]. cbn in *. by injection IH as ->. }
  rewrite Hs. change (default [] (Some claimed)) with claimed. destruct Hv as [a Hv]. by rewrite Hv.
Qed.

(** *** The network restriction of the admin application *)

(** With its default configuration the admin application answers exactly one
    peer: the middleware is built, and it lets a request through exactly when the
    peer's address is the text [127.0.0.1]. *)
Theorem default_admin_is_loopback_only nets peer :
  admin_networks default_settings = OK nets ->
  restrict_source nets peer = true <-> peer = Some §"127.0.0.1".
Proof.
  intros Hn. assert (nets = [network_of IPv4 2130706433 32]) as ->.
  { vm_compute in Hn. injection Hn as <-. vm_compute. reflexivity. }
  unfold restrict_source. split.
  - destruct (ip_address (default [] peer)) as [a|] eqn:Ea; [|done]. cbn [existsb]. rewrite orb_false_r. intros Hin.
    destruct a as [n|n sc]; [|done]. apply ip_address_v4 in Ea as [Hb Et].
    apply ip_in_network_of in Hin as [_ E]; [|done|cbn; lia..]. cbn [width ip_int] in E.
    change (2 ^ (32 - 32)) with 1 in E. rewrite !Z.div_1_r in E. subst n.
    destruct peer as [p|]; cbn in Et; [|discriminate Et]. rewrite Et. f_equal.
  - intros ->. vm_compute. reflexivity.
Qed.

(** *** The login endpoint *)

Lemma recorded_first username ip endpoint w w' o :
  run (RateLimiter.record_login_failure settings username ip endpoint) w = (w', o) ->
  match o with
  | ERR e => exists name, e = EDb name
  | OK _ =>
      tokens (w_db w') = tokens (w_db w) /\ w_monotonic w' = w_monotonic w
      /\ exists r rest, failed_attempts (w_db w') = failed_attempts (w_db w) ++ r :: rest
           /\ f_subject_type r = subj_user /\ f_subject r = py_lower username
  end.
Proof.
  unfold RateLimiter.record_login_failure, RateLimitRepository.record_failure, RateLimiter._remember.
  destruct (match ip with None => Some None | Some s => Some <$> pg_inet s end) as [addr|];
    [|intros [= <- <-]; by eexists].
  destruct (pg_text (py_lower username) && pg_text endpoint); [|intros [= <- <-]; by eexists].
  rewrite run_bind, run_execute, run_bind, run_atomic.
  destruct (RateLimiter.present ip) as [i|].
  - destruct (pg_text i && pg_text endpoint); [|intros [= <- <-]; by eexists].
    rewrite run_bind, run_execute, run_bind, run_atomic. cbn. intros [= <- <-]. split; [done|]. split; [done|].
    cbn. rewrite <- app_assoc. by eexists _, _.
  - cbn. intros [= <- <-]. split; [done|]. split; [done|]. by eexists _, [].
Qed.

(** The bookkeeping of a refused login. *)
Lemma run_login_failed username device ip decision reason w w' h :
  run (login_failed settings username device ip decision reason) w = (w', ERR (EHttp h)) ->
  h = unauthorized /\ tokens (w_db w') = tokens (w_db w)
  /\ (exists r rest, failed_attempts (w_db w') = failed_attempts (w_db w) ++ r :: rest
        /\ f_subject_type r = subj_user /\ f_subject r = py_lower username)
  /\ exists r, last (audit_log (w_db w')) = Some r /\ a_event_type r = §"auth.login_failed"
        /\ a_outcome r = out_failure /\ a_device_id r = Some device.
Proof.
  unfold login_failed. rewrite run_bind.
  destruct (run (RateLimiter.record_login_failure _ _ _ _) w) as [w1 o1] eqn:E1. apply recorded_first in E1.
  destruct o1 as [u|e]; [|destruct E1 as [n ->]; done]. destruct E1 as (E1 & _ & Hf).
  unfold AuditService.failure, AuditService.record. rewrite run_bind, run_append.
  destruct (AuditRepository.new_row _ _ _ _ _) as [r|] eqn:Er; [|done].
  apply new_row_some in Er as (_ & _ & Ev & Eo & _ & _ & Edev & _).
  assert (Hdelay : exists w2, run (RateLimiter.apply_delay decision) (appended r w1) = (w2, OK tt)
    /\ w_db w2 = w_db (appended r w1)).
  { unfold RateLimiter.apply_delay. destruct (0 <? _); [rewrite run_sleep|]; by eexists. }
  destruct Hdelay as (w2 & Hw2 & Edb). rewrite run_bind, Hw2. cbn [run]. intros [= <- <-].
  split; [done|]. rewrite Edb. split; [exact E1|]. split; [exact Hf|].
  exists (audit_hash_chain (audit_log (w_db w1)) r). cbn. rewrite last_snoc. split; [done|]. split; [done|].
  split; [|done]. apply (inj Some). by rewrite <- Eo.
Qed.

(** C24 Every credential problem looks the same from outside. A login attempt
    that is within its budget and in which no active user, password and device
    qualify, once answered with an HTTP error, is answered with the one 401
    response, not before the fixed time is over; no session was opened, the
    failure counts against the user name, and it is the last audit row. *)
Theorem refused_login_is_uniform request username password device ip w w' h d :
  db_ok (w_db w) -> pg_text username = true ->
  (forall uid u dv, ~ may_login settings (w_db w) username password device uid u dv) ->
  client_ip settings request = OK ip ->
  run (RateLimiter.check_login settings username ip) w = (w, OK d) -> allowed d = true ->
  run (login settings request username password device) w = (w', ERR (EHttp h)) ->
  h = unauthorized
  /\ auth_fixed_response_ms settings * 1000 <= w_monotonic w' - w_monotonic w
  /\ tokens (w_db w') = tokens (w_db w)
  /\ (exists r rest, failed_attempts (w_db w') = failed_attempts (w_db w) ++ r :: rest
        /\ f_subject_type r = subj_user /\ f_subject r = py_lower username)
  /\ exists r, last (audit_log (w_db w')) = Some r /\ a_event_type r = §"auth.login_failed"
        /\ a_outcome r = out_failure /\ a_device_id r = Some device.
Proof.
  intros Hd Ht Hno Hip Hcheck Hal. unfold login.
  rewrite run_bind, run_of_outcome, Hip, run_bind, Hcheck, Hal. cbn [negb].
  rewrite run_fixed_duration, run_catch.
  destruct (login_refused settings username password device ip w Hd Ht Hno) as (e & He & Hdb & Hcase).
  destruct (run (AuthService.login settings username password device ip) w) as [w1 o1]. cbn [fst snd] in *. subst o1.
  destruct Hcase as [(m & -> & _)| ->]; cbv beta iota zeta; [|by intros [=]].
  destruct (run (login_failed settings username device ip d m) w1) as [w2 o2] eqn:E2.
  intros Hr. assert (o2 = ERR (EHttp h)) as -> by by injection Hr.
  apply run_login_failed in E2 as (-> & E3 & E4 & E5). rewrite Hdb in E3, E4. split; [done|].
  destruct (Z.ltb_spec 0 (auth_fixed_response_ms settings * 1000 - (w_monotonic w2 - w_monotonic w))) as [Hp|Hp];
    injection Hr as <-; (split; [cbn [advance w_monotonic]; lia|split; [exact E3|split; [exact E4|exact E5]]]).
Qed.
End guards.

(** ** Witnesses *)

#[local] Existing Instances demo_entropy demo_postgres demo_argon2 demo_repr.

(** An administrator, logged in on a verified device. *)
Definition demo_admin_setup : io IssuedTokens :=
  uid ← AuthService.create_user demo_settings §"root" §"Root" §"secret" true;
  did ← DeviceRepository.create uid §"desk" (replicate 32 2) §"android" None §"verified" (JObj []);
  AuthService.login demo_settings §"root" §"secret" did None.

Definition demo_admin_world : World := (run demo_admin_setup demo_world).1.
Definition demo_admin_header : option pystr :=
  match (run demo_admin_setup demo_world).2 with OK p => Some (§"Bearer " ++ it_access_token p) | ERR _ => None end.

Lemma demo_admin_ok : db_ok (w_db demo_admin_world).
Proof.
  apply (run_db_ok demo_admin_setup demo_world _ (run demo_admin_setup demo_world).2).
  - unfold demo_admin_setup. evolves_tac.
  - unfold demo_admin_world. by destruct (run demo_admin_setup demo_world).
  - apply empty_db_ok.
Qed.

Lemma demo_hashed token : forallb is_scalar token = true -> exists h, hash_token demo_settings token = OK h.
Proof. apply hash_token_defined. vm_compute. discriminate. Qed.

Lemma demo_admin_hashed token : bearer demo_admin_header = Some token -> exists h, hash_token demo_settings token = OK h.
Proof.
  intros Hb. apply demo_hashed. assert (H : from_option (forallb is_scalar) true (bearer demo_admin_header) = true)
    by (vm_compute; reflexivity). by rewrite Hb in H.
Qed.

Definition demo_admin_passes : bool :=
  match (run (with_admin demo_settings demo_admin_header (fun _ => Ret tt)) demo_admin_world).2 with
  | OK _ => true | ERR _ => false
  end.

Lemma session_endpoints_guarded_witness :
  exists token h s t u dv, bearer demo_admin_header = Some token
    /\ session_valid demo_settings (w_db demo_admin_world) (w_now demo_admin_world) h s t u dv.
Proof.
  assert (Hok : match (run (with_session demo_settings demo_admin_header (fun _ => Ret tt)) demo_admin_world).2 with
                OK _ => true | ERR _ => false end = true) by (vm_compute; reflexivity).
  destruct (run (with_session demo_settings demo_admin_header (fun _ => Ret tt)) demo_admin_world) as [w' o] eqn:E.
  destruct (session_endpoints_guarded demo_settings demo_admin_header (fun _ => Ret tt) demo_admin_world w' o
    demo_admin_hashed demo_admin_ok E) as [[_ ->]|(token & h & s & t & u & dv & H1 & _ & H3 & _)].
  - discriminate Hok.
  - exists token, h, s, t, u, dv. exact (conj H1 H3).
Defined.

Lemma admin_endpoints_guarded_witness :
  exists h s t u dv, session_valid demo_settings (w_db demo_admin_world) (w_now demo_admin_world) h s t u dv
    /\ u_is_admin u = true.
Proof.
  assert (Hok : demo_admin_passes = true) by (vm_compute; reflexivity). unfold demo_admin_passes in Hok.
  destruct (run (with_admin demo_settings demo_admin_header (fun _ => Ret tt)) demo_admin_world) as [w' o] eqn:E.
  destruct (admin_endpoints_guarded demo_settings demo_admin_header (fun _ => Ret tt) demo_admin_world w' o
    demo_admin_hashed demo_admin_ok E) as [[_ ->]|(h & s & t & u & dv & H1 & H2 & _)].
  - discriminate Hok.
  - exists h, s, t, u, dv. exact (conj H1 H2).
Defined.

Lemma access_history_is_own_witness :
  exists h s t u dv, session_valid demo_settings (w_db demo_admin_world) (w_now demo_admin_world) h s t u dv.
Proof.
  assert (Hok : match (run (access_history demo_settings demo_admin_header 50) demo_admin_world).2 with
                OK _ => true | ERR _ => false end = true) by (vm_compute; reflexivity).
  destruct (run (access_history demo_settings demo_admin_header 50) demo_admin_world) as [w' [rows|e]] eqn:E;
    [|discriminate Hok].
  destruct (access_history_is_own demo_settings demo_admin_header 50 demo_admin_world w' rows
    demo_admin_hashed demo_admin_ok E) as (_ & h & s & t & u & dv & H & _).
  exists h, s, t, u, dv. exact H.
Defined.

(** Behind the trusted proxy, with a header the proxy appended to. *)
Definition demo_request : Request := {|
  peer_host := Some §"10.0.0.1"; x_forwarded_for := Some (§"1.2.3.4" ++ 44 :: §"5.6.7.8") |}.

Lemma forwarded_only_from_trusted_proxy_witness :
  exists peer net, peer_host demo_request = Some peer /\ net ∈ trusted_proxy_list demo_settings.
Proof.
  destruct (forwarded_only_from_trusted_proxy demo_settings demo_request (Some §"1.2.3.4"))
    as (peer & a & net & n & f & c & H1 & _ & H3 & _);
    [vm_compute; reflexivity|discriminate|].
  exists peer, net. exact (conj H1 H3).
Defined.

Lemma forwarded_leftmost_is_believed_witness :
  client_ip demo_settings demo_request = OK (Some (strip §"1.2.3.4")).
Proof.
  apply (forwarded_leftmost_is_believed demo_settings demo_request §"10.0.0.1" (V4 167772161) §"1.2.3.4" §"5.6.7.8");
    try reflexivity; [discriminate|by apply (bool_decide_unpack _)|by eexists].
Defined.

Lemma default_admin_is_loopback_only_witness :
  restrict_source [network_of IPv4 2130706433 32] (Some §"10.0.0.7") = false.
Proof.
  destruct (restrict_source [network_of IPv4 2130706433 32] (Some §"10.0.0.7")) eqn:E; [|reflexivity].
  exfalso. apply (default_admin_is_loopback_only [network_of IPv4 2130706433 32]) in E; [discriminate E|vm_compute; reflexivity].
Defined.

Definition demo_direct : Request := {| peer_host := None; x_forwarded_for := None |}.
Definition demo_decision : RateDecision := RateLimiter.decide_login demo_settings 0 0.

Lemma refused_login_is_uniform_witness :
  exists w', run (login demo_settings demo_direct §"mallory" §"guess" 7) demo_world = (w', ERR (EHttp unauthorized))
    /\ tokens (w_db w') = tokens (w_db demo_world).
Proof.
  assert (Hok : match (run (login demo_settings demo_direct §"mallory" §"guess" 7) demo_world).2 with
                ERR (EHttp _) => true | _ => false end = true) by (vm_compute; reflexivity).
  destruct (run (login demo_settings demo_direct §"mallory" §"guess" 7) demo_world) as [w' o] eqn:E. cbn [snd] in Hok.
  destruct o as [|[]]; try discriminate Hok.
  destruct (refused_login_is_uniform demo_settings demo_direct §"mallory" §"guess" 7 None demo_world w' h demo_decision)
    as (-> & _ & Ht & _); try exact E; try reflexivity.
  - apply empty_db_ok.
  - intros uid u dv [Hu _ _ _ _ _ _ _]. discriminate Hu.
  - exists w'. exact (conj eq_refl Ht).
Defined.
