(* ===== verification/Schemas.v ===== *)
(** * Request and response models: [app/models/schemas.py], and the routes that
    use them

    What every model declares (fields, defaults, bounds, patterns, the strict
    configuration) over pydantic's own conversions, which are a parameter. A
    route is the validated body handed to the endpoint of [Api], and its result
    put into the response model; a body that is not accepted is the framework's
    422. *)

From S2P Require Import Prelude Text Sha256 Clock Json Config Ip Errors Proc World Demo AuditLog Repos Schema Signer Security Proximity RateLimit Hub Evolve Auth Unlock Der Attestation Enrollment Api.

(** Pydantic's conversions of a JSON value to a field of each type, [None] for a
    validation error ([to_time] gives [time.isoformat()]), what
    [str_strip_whitespace] makes of a text, and the body of the framework's
    422. *)
Class Pydantic := {
  to_str : json -> option pystr;
  to_int : json -> option Z;
  to_bool : json -> option bool;
  to_uuid : json -> option uuid;
  to_datetime : json -> option instant;
  to_time : json -> option pystr;
  trim : pystr -> pystr;
  validation_errors : dict -> json
}.

Section models.
Context {PY : Pydantic}.

(** [extra="forbid"] *)
(* @src backend/app/models/schemas.py * StrictModel *)
Definition only (names : list pystr) (body : dict) : bool :=
  forallb (fun kv => existsb (str_eqb kv.1) names) body.

(** A [str] field of a strict model, with its length bounds. *)
Definition text (lo hi : Z) (v : json) : option pystr :=
  s ← to_str v;
  let s := trim s in
  if (lo <=? len s) && (len s <=? hi) then Some s else None.

(** An [int] field with its bounds. *)
Definition whole (lo hi : Z) (v : json) : option Z :=
  z ← to_int v; if (lo <=? z) && (z <=? hi) then Some z else None.

(** [T | None] *)
Definition nullable {A} (conv : json -> option A) (v : json) : option (option A) :=
  match v with JNull => Some None | v => Some <$> conv v end.

Definition required {A} (conv : json -> option A) (name : pystr) (body : dict) : option A :=
  v ← dict_get name body; conv v.

Definition with_default {A} (conv : json -> option A) (dflt : A) (name : pystr) (body : dict) : option A :=
  match dict_get name body with Some v => conv v | None => Some dflt end.

Definition strictly {A} (names : list pystr) (body : dict) (fields : option A) : option A :=
  if only names body then fields else None.

(* @src backend/app/models/schemas.py * Base64Str *)
Definition Base64Str : json -> option pystr := text 4 8192.

(** [pattern=r"^[a-z0-9-]+$"] *)
Definition slug (s : pystr) : bool :=
  negb (bool_decide (s = [])) && forallb (fun c => is_digit c || ((97 <=? c) && (c <=? 122)) || (c =? 45)) s.

Definition code_field (v : json) : option pystr :=
  s ← text 3 64 v; if slug s then Some s else None.

(* @src backend/app/models/schemas.py * EnrollChallengeRequest *)
Definition EnrollChallengeRequest (body : dict) : option pystr :=
  strictly [§"enrollment_code"] body (required (text 8 128) §"enrollment_code" body).

(** The validator on the device key. *)
(* @src backend/app/models/schemas.py * EnrollRequest._key_shape *)
Definition _key_shape (value : pystr) : option pystr :=
  raw ← b64decode value; if (length raw =? 32)%nat then Some value else None.

Definition texts (v : json) : option (list pystr) :=
  match v with
  | JList l => if (length l <=? 8)%nat then mapM (fun x => trim <$> to_str x) l else None
  | _ => None
  end.

(* @src backend/app/models/schemas.py 41-54 EnrollRequest *)
Record EnrollBody := {
  eb_enrollment_code : pystr; eb_label : pystr; eb_device_public_key : pystr; eb_attestation_chain : list pystr;
  eb_play_integrity_token : pystr; eb_challenge : pystr; eb_app_version : option pystr
}.

(* @src backend/app/models/schemas.py * EnrollRequest *)
Definition EnrollRequest (body : dict) : option EnrollBody :=
  strictly [§"enrollment_code"; §"label"; §"device_public_key"; §"attestation_chain"; §"play_integrity_token";
            §"challenge"; §"platform"; §"app_version"] body
    (code ← required (text 8 128) §"enrollment_code" body;
     label ← required (text 1 64) §"label" body;
     key ← required (fun v => s ← Base64Str v; _key_shape s) §"device_public_key" body;
     chain ← with_default texts [] §"attestation_chain" body;
     token ← with_default (text 0 8192) [] §"play_integrity_token" body;
     challenge ← required Base64Str §"challenge" body;
     platform ← with_default (fun v => match v with JStr s => if str_eqb s §"android" then Some s else None | _ => None end)
                  §"android" §"platform" body;
     version ← with_default (nullable (text 0 32)) None §"app_version" body;
     Some {| eb_enrollment_code := code; eb_label := label; eb_device_public_key := key;
             eb_attestation_chain := chain; eb_play_integrity_token := token; eb_challenge := challenge;
             eb_app_version := version |}).

(* @src backend/app/models/schemas.py * LoginRequest *)
Definition LoginRequest (body : dict) : option (pystr * pystr * uuid) :=
  strictly [§"username"; §"password"; §"device_id"] body
    (username ← required (text 3 64) §"username" body;
     password ← required (text 1 512) §"password" body;
     device ← required to_uuid §"device_id" body;
     Some (username, password, device)).

(* @src backend/app/models/schemas.py * RefreshRequest *)
Definition RefreshRequest (body : dict) : option pystr :=
  strictly [§"refresh_token"] body (required (text 16 256) §"refresh_token" body).

(** Its first field is not used. *)
(* @src backend/app/models/schemas.py * LogoutRequest *)
Definition LogoutRequest (body : dict) : option bool :=
  strictly [§"refresh_token"; §"all_devices"] body
    (_ ← with_default (nullable (text 0 256)) None §"refresh_token" body;
     with_default to_bool false §"all_devices" body).

(** Its second field is not used. *)
(* @src backend/app/models/schemas.py * UnlockRequest *)
Definition UnlockRequest (body : dict) : option pystr :=
  strictly [§"proximity_beacon_id"; §"client_request_id"] body
    (beacon ← required (text 8 64) §"proximity_beacon_id" body;
     _ ← with_default (nullable to_uuid) None §"client_request_id" body;
     Some beacon).

(* @src backend/app/models/schemas.py * ControllerCreate *)
Definition ControllerCreate (body : dict) : option (pystr * pystr * pystr * pystr) :=
  strictly [§"code"; §"name"; §"public_key"; §"beacon_key"] body
    (code ← required code_field §"code" body;
     name ← required (text 1 128) §"name" body;
     public_key ← required Base64Str §"public_key" body;
     beacon_key ← required Base64Str §"beacon_key" body;
     Some (code, name, public_key, beacon_key)).

(* @src backend/app/models/schemas.py 190-196 DoorCreate *)
Record DoorBody := {
  db_code : pystr; db_name : pystr; db_location : option pystr; db_controller_id : option uuid;
  db_relay_channel : Z; db_unlock_seconds : Z
}.

(* @src backend/app/models/schemas.py * DoorCreate *)
Definition DoorCreate (body : dict) : option DoorBody :=
  strictly [§"code"; §"name"; §"location"; §"controller_id"; §"relay_channel"; §"unlock_seconds"] body
    (code ← required code_field §"code" body;
     name ← required (text 1 128) §"name" body;
     location ← with_default (nullable (text 0 128)) None §"location" body;
     controller ← with_default (nullable to_uuid) None §"controller_id" body;
     relay ← with_default (whole 1 4) 1 §"relay_channel" body;
     secs ← with_default (whole 1 10) 3 §"unlock_seconds" body;
     Some {| db_code := code; db_name := name; db_location := location; db_controller_id := controller;
             db_relay_channel := relay; db_unlock_seconds := secs |}).

(* @src backend/app/models/schemas.py 199-206 PermissionCreate *)
Record PermissionBody := {
  pb_user_id : uuid; pb_door_id : uuid; pb_weekday_mask : Z; pb_start_time : pystr; pb_end_time : pystr;
  pb_time_zone : pystr; pb_valid_until : option instant
}.

(* @src backend/app/models/schemas.py * PermissionCreate *)
Definition PermissionCreate (body : dict) : option PermissionBody :=
  strictly [§"user_id"; §"door_id"; §"weekday_mask"; §"start_time"; §"end_time"; §"time_zone"; §"valid_until"] body
    (user ← required to_uuid §"user_id" body;
     door ← required to_uuid §"door_id" body;
     mask ← with_default (whole 0 127) 127 §"weekday_mask" body;
     start ← with_default to_time §"00:00:00" §"start_time" body;
     stop ← with_default to_time §"23:59:59" §"end_time" body;
     zone ← with_default (text 0 64) §"Europe/Sofia" §"time_zone" body;
     until ← with_default (nullable to_datetime) None §"valid_until" body;
     Some {| pb_user_id := user; pb_door_id := door; pb_weekday_mask := mask; pb_start_time := start;
             pb_end_time := stop; pb_time_zone := zone; pb_valid_until := until |}).

(** ** Responses *)

(* @src backend/app/models/schemas.py * EnrollChallengeResponse *)
Record EnrollChallengeResponse := { ec_challenge : pystr; ec_expires_in : Z }.

(* @src backend/app/models/schemas.py * TokenPair *)
Record TokenPair := {
  tp_access_token : pystr; tp_refresh_token : pystr; tp_token_type : pystr; tp_expires_in : Z
}.

(* @src backend/app/api/auth.py 116-120 login *)
Definition token_pair (issued : IssuedTokens) : TokenPair := {|
  tp_access_token := it_access_token issued; tp_refresh_token := it_refresh_token issued;
  tp_token_type := §"Bearer"; tp_expires_in := it_expires_in issued |}.

(* @src backend/app/models/schemas.py * EnrollResponse *)
Record EnrollResponse := {
  er_device_id : uuid; er_attestation_status : pystr; er_access_token : pystr; er_refresh_token : pystr;
  er_expires_in : Z
}.

(* @src backend/app/models/schemas.py * UnlockResponse *)
Record UnlockResponse := {
  ur_result : pystr; ur_door_id : uuid; ur_command_id : uuid; ur_opened_for_ms : Z; ur_proximity_age_seconds : Z
}.

(* @src backend/app/models/schemas.py * AccessRecord *)
Record AccessRecord := {
  ar_seq : Z; ar_occurred_at : instant; ar_event_type : pystr; ar_outcome : pystr; ar_door_id : option uuid;
  ar_detail : json
}.

(* @src backend/app/api/doors.py 92-103 access_history *)
Definition access_record (r : audit_row) : AccessRecord := {|
  ar_seq := a_seq r; ar_occurred_at := a_occurred_at r; ar_event_type := a_event_type r;
  ar_outcome := outcome_text (a_outcome r); ar_door_id := a_door_id r; ar_detail := a_detail r |}.

(* @src backend/app/models/schemas.py * AccessHistoryResponse *)
Record AccessHistoryResponse := { records : list AccessRecord }.

(* @src backend/app/models/schemas.py * DoorListResponse *)
Record DoorListResponse := { dl_doors : list DoorSummary; dl_server_time : instant }.

(** Two models that no route uses: the query of the audit log with its bounds,
    and the shape of a refusal. *)
(* @src backend/app/models/schemas.py 207-211 AuditQuery *)
Record AuditQueryBody := {
  aq_limit : Z; aq_before_seq : option Z; aq_event_type : option pystr; aq_actor_id : option uuid
}.

(* @src backend/app/models/schemas.py * AuditQuery *)
Definition AuditQuery (body : dict) : option AuditQueryBody :=
  strictly [§"limit"; §"before_seq"; §"event_type"; §"actor_id"] body
    (limit ← with_default (whole 1 500) 100 §"limit" body;
     before ← with_default (nullable to_int) None §"before_seq" body;
     event ← with_default (nullable (text 0 64)) None §"event_type" body;
     actor ← with_default (nullable to_uuid) None §"actor_id" body;
     Some {| aq_limit := limit; aq_before_seq := before; aq_event_type := event; aq_actor_id := actor |}).

(* @src backend/app/models/schemas.py * UnlockDeniedResponse *)
Record UnlockDeniedResponse := { ud_error : pystr; ud_retry_after_seconds : option Z }.

(* @src backend/app/models/schemas.py * AuditEntry *)
Record AuditEntry := {
  ae_record : AccessRecord; ae_actor_type : pystr; ae_actor_id : option uuid; ae_device_id : option uuid;
  ae_controller_id : option uuid; ae_client_ip : option pystr; ae_row_hash : pystr
}.

(* @src backend/admin/main.py 60-77 read_audit *)
Definition audit_entry (r : audit_row) : AuditEntry := {|
  ae_record := access_record r; ae_actor_type := actor_text (a_actor_type r); ae_actor_id := a_actor_id r;
  ae_device_id := a_device_id r; ae_controller_id := a_controller_id r; ae_client_ip := a_client_ip r;
  ae_row_hash := hex (a_row_hash r) |}.

(* @src backend/app/models/schemas.py * AuditChainStatus *)
Record AuditChainStatus := {
  acs_chain_ok : bool; acs_rows_checked : Z; acs_first_bad_seq : option Z; acs_first_bad_reason : option pystr;
  acs_head_seq : option Z; acs_head_hash : option pystr
}.

(* @src backend/admin/main.py 86-93 verify_chain *)
Definition chain_report (r : chain_status * option audit_row) : AuditChainStatus :=
  let '(st, head) := r in
  {| acs_chain_ok := chain_ok st; acs_rows_checked := rows_checked st; acs_first_bad_seq := first_bad_seq st;
     acs_first_bad_reason := first_bad_reason st; acs_head_seq := a_seq <$> head;
     acs_head_hash := (fun r => hex (a_row_hash r)) <$> head |}.

(* @src backend/app/models/schemas.py * ControllerSummary *)
Record ControllerSummary := {
  cs_id : uuid; cs_code : pystr; cs_name : pystr; cs_firmware : option pystr; cs_is_blocked : bool;
  cs_last_seen : option instant; cs_online : bool
}.

(* @src backend/admin/main.py 102-111 list_controllers *)
Definition controller_summary (r : uuid * controller_row * bool) : ControllerSummary :=
  let '(id, c, online) := r in
  {| cs_id := id; cs_code := c_code c; cs_name := c_name c; cs_firmware := c_firmware_version c;
     cs_is_blocked := c_is_blocked c; cs_last_seen := c_last_seen_at c; cs_online := online |}.
End models.

(** ** Routes *)

Section routes.
Context {EN : Entropy} {PG : Postgres} {AR : Argon2} {PR : PyRepr} {X5 : X509} {SK : SignerSocket}
  {TR : Transport} {PY : Pydantic} (settings : Settings).

Definition unprocessable (body : dict) : Exn :=
  EHttp {| http_status := 422; http_detail := validation_errors body; http_headers := [] |}.

(** The dependencies of a route come before its body. *)
Definition validated {A B} (parse : dict -> option A) (body : dict) (guard : io B -> io B) (run_it : A -> io B) : io B :=
  match parse body with
  | Some a => run_it a
  | None => guard (Raise (unprocessable body))
  end.

(* @src backend/app/api/auth.py * enroll_challenge *)
Definition post_enroll_challenge (body : dict) : io EnrollChallengeResponse :=
  validated EnrollChallengeRequest body id (fun code =>
    r ← enroll_challenge code; Ret {| ec_challenge := r.1; ec_expires_in := r.2 |}).

(* @src backend/app/api/auth.py * enroll *)
Definition post_enroll (request : Request) (body : dict) : io EnrollResponse :=
  validated EnrollRequest body id (fun b =>
    r ← enroll settings request (eb_enrollment_code b) (eb_label b) (eb_device_public_key b)
          (eb_attestation_chain b) (eb_play_integrity_token b) (eb_challenge b) (eb_app_version b);
    let '(device_id, status_text, issued) := r in
    Ret {| er_device_id := device_id; er_attestation_status := status_text;
           er_access_token := it_access_token issued; er_refresh_token := it_refresh_token issued;
           er_expires_in := it_expires_in issued |}).

(* @src backend/app/api/auth.py * login *)
Definition post_login (request : Request) (body : dict) : io TokenPair :=
  validated LoginRequest body id (fun b =>
    let '(username, password, device_id) := b in
    issued ← login settings request username password device_id;
    Ret (token_pair issued)).

(* @src backend/app/api/auth.py * refresh *)
Definition post_refresh (request : Request) (body : dict) : io TokenPair :=
  validated RefreshRequest body id (fun token => issued ← refresh settings request token; Ret (token_pair issued)).

(* @src backend/app/api/auth.py * logout *)
Definition post_logout (authorization : option pystr) (request : Request) (body : dict) : io unit :=
  validated LogoutRequest body (fun p => with_session settings authorization (fun _ => p))
    (logout settings authorization request).

(* @src backend/app/api/doors.py * unlock_door *)
Definition post_unlock (authorization : option pystr) (request : Request) (door_id : uuid) (body : dict)
    : io UnlockResponse :=
  validated UnlockRequest body (fun p => with_session settings authorization (fun _ => p)) (fun beacon =>
    outcome ← unlock_door settings authorization request door_id beacon;
    Ret {| ur_result := §"opened"; ur_door_id := door_id; ur_command_id := uo_command_id outcome;
           ur_opened_for_ms := uo_opened_for_ms outcome;
           ur_proximity_age_seconds := uo_proximity_age_seconds outcome |}).

(* @src backend/app/api/doors.py * access_history *)
Definition get_access_history (authorization : option pystr) (limit : Z) : io AccessHistoryResponse :=
  rows ← access_history settings authorization limit; Ret {| records := map access_record rows |}.

(* @src backend/app/api/doors.py * list_doors *)
Definition get_doors (authorization : option pystr) : io DoorListResponse :=
  r ← list_doors settings authorization; Ret {| dl_doors := r.1; dl_server_time := r.2 |}.

(* @src backend/admin/main.py * read_audit *)
Definition get_audit (authorization : option pystr) (limit : Z) (before_seq : option Z) (event_type : option pystr)
    : io (list AuditEntry) :=
  rows ← read_audit settings authorization limit before_seq event_type; Ret (map audit_entry rows).

(* @src backend/admin/main.py * verify_chain *)
Definition get_chain (authorization : option pystr) (from_seq : Z) : io AuditChainStatus :=
  r ← verify_chain settings authorization from_seq; Ret (chain_report r).

(* @src backend/admin/main.py * list_controllers *)
Definition get_controllers (authorization : option pystr) : io (list ControllerSummary) :=
  rows ← list_controllers settings authorization; Ret (map controller_summary rows).

Definition admin_guard {B} (authorization : option pystr) (p : io B) : io B :=
  with_admin settings authorization (fun _ => p).

(* @src backend/admin/main.py * register_controller *)
Definition post_controller (authorization : option pystr) (body : dict) : io uuid :=
  validated ControllerCreate body (admin_guard authorization) (fun b =>
    let '(code, name, public_key, beacon_key) := b in
    register_controller settings authorization code name public_key beacon_key).

(* @src backend/admin/main.py * create_door *)
Definition post_door (authorization : option pystr) (body : dict) : io uuid :=
  validated DoorCreate body (admin_guard authorization) (fun b =>
    create_door settings authorization (db_code b) (db_name b) (db_location b) (db_controller_id b)
      (db_relay_channel b) (db_unlock_seconds b)).

(* @src backend/admin/main.py * grant_permission *)
Definition post_permission (authorization : option pystr) (body : dict) : io uuid :=
  validated PermissionCreate body (admin_guard authorization) (fun b =>
    grant_permission settings authorization (pb_user_id b) (pb_door_id b) (pb_weekday_mask b)
      (pb_start_time b) (pb_end_time b) (pb_time_zone b) (pb_valid_until b)).
End routes.

(** ** What the models accept *)

Section accepted.
Context {PY : Pydantic}.

Lemma required_some {A} (conv : json -> option A) name body a :
  required conv name body = Some a -> exists v, dict_get name body = Some v /\ conv v = Some a.
Proof. apply bind_Some. Qed.

Lemma text_bounds lo hi v s : text lo hi v = Some s -> lo <= len s <= hi.
Proof.
  unfold text. intros (t & _ & H)%bind_Some. cbv zeta in H.
  destruct (_ && _) eqn:E; [|done]. injection H as <-. bool_to_prop. done.
Qed.

Lemma whole_default_bounds lo hi d name body z :
  lo <= d <= hi -> with_default (whole lo hi) d name body = Some z -> lo <= z <= hi.
Proof.
  intros Hd. unfold with_default. destruct (dict_get name body); [|by intros [= <-]].
  unfold whole. intros (t & _ & H)%bind_Some. destruct (_ && _) eqn:E; [|done]. injection H as <-. bool_to_prop. done.
Qed.

Lemma strictly_some {A} names body (fields : option A) a : strictly names body fields = Some a -> fields = Some a.
Proof. unfold strictly. by destruct (only names body). Qed.

Lemma key_shape_some s t : _key_shape s = Some t -> t = s /\ exists raw, b64decode s = Some raw /\ length raw = 32%nat.
Proof.
  unfold _key_shape. intros (raw & Hr & H)%bind_Some.
  destruct (Nat.eqb_spec (length raw) 32) as [E|]; [|done]. injection H as <-. eauto.
Qed.

Lemma accepted_door body b : DoorCreate body = Some b ->
  slug (db_code b) = true /\ 1 <= db_relay_channel b <= 4 /\ 1 <= db_unlock_seconds b <= 10.
Proof.
  intros Hd%strictly_some. apply bind_Some in Hd as (code & Hc & Hd). do 3 apply bind_Some in Hd as (? & _ & Hd).
  apply bind_Some in Hd as (relay & Hrelay & Hd). apply bind_Some in Hd as (secs & Hsecs & [= <-]).
  apply required_some in Hc as (v & _ & Hc). unfold code_field in Hc.
  apply bind_Some in Hc as (s & _ & Hc). destruct (slug s) eqn:Es; [|done]. injection Hc as <-.
  apply whole_default_bounds in Hrelay; [|lia]. apply whole_default_bounds in Hsecs; [|lia]. done.
Qed.

Lemma accepted_grant body b : PermissionCreate body = Some b -> 0 <= pb_weekday_mask b <= 127.
Proof.
  intros Hp%strictly_some. do 2 apply bind_Some in Hp as (? & _ & Hp). apply bind_Some in Hp as (mask & Hmask & Hp).
  repeat (apply bind_Some in Hp as (? & _ & Hp)). injection Hp as <-. by apply whole_default_bounds in Hmask; [|lia].
Qed.

Lemma accepted_enrolment body b : EnrollRequest body = Some b ->
  exists key, b64decode (eb_device_public_key b) = Some key /\ length key = 32%nat.
Proof.
  intros He%strictly_some. do 2 apply bind_Some in He as (? & _ & He). apply bind_Some in He as (key & Hkey & He).
  repeat (apply bind_Some in He as (? & _ & He)). injection He as <-.
  apply required_some in Hkey as (v & _ & Hkey). by apply bind_Some in Hkey as (s & _ & [-> Hraw]%key_shape_some).
Qed.

(** The constraint of a refusal is one of those listed. *)
Ltac named := cbn; repeat first [left | right].
Ltac refusals H :=
  repeat (apply elem_of_cons in H as [H|H];
          [injection H as ? ->; first [exfalso; lia | discriminate | by (apply (bool_decide_unpack _); vm_compute; exact I)
                                      | apply list_elem_of_In; cbn; tauto]|]);
  by apply elem_of_nil in H.

(** C38 What the models leave to the tables. The insert of a door whose body was
    accepted is refused for its encoding, a code that is taken, a controller
    that is not there, or a draw that repeats a key: never for its relay channel
    or its opening time. The grant of an accepted body is refused for a time the
    database does not read or the encoding of its zone, the order of its window,
    the end of its validity, or a reference: never for its weekdays. The key of
    an accepted enrolment is base64, and the insert of a device with it is never
    refused for the length of the key. *)
Theorem accepted_bodies_leave_to_the_tables {EN : Entropy} {PG : Postgres} :
  (forall body b w w' e, DoorCreate body = Some b ->
     run (DoorRepository.create (db_code b) (db_name b) (db_location b) (db_controller_id b) (db_relay_channel b)
            (db_unlock_seconds b)) w = (w', ERR e) ->
     e ∈ EDb <$> [§"encoding"; §"doors_code_key"; §"doors_controller_id_fkey"; §"pkey"])
  /\ (forall body b admin w w' e, PermissionCreate body = Some b ->
        run (PermissionRepository.grant (pb_user_id b) (pb_door_id b) admin (pb_weekday_mask b) (pb_start_time b)
               (pb_end_time b) (pb_time_zone b) (pb_valid_until b)) w = (w', ERR e) ->
        e ∈ EDb <$> [§"invalid input value"; §"permissions_window_order"; §"permissions_validity_order";
                     §"permissions_user_id_fkey"; §"permissions_door_id_fkey"; §"permissions_created_by_fkey"; §"pkey"])
  /\ (forall body b, EnrollRequest body = Some b ->
        exists key, b64decode (eb_device_public_key b) = Some key
          /\ forall user label platform version status det w w' e,
               run (DeviceRepository.create user label key platform version status det) w = (w', ERR e) ->
               e ∈ EDb <$> [§"invalid input value"; §"encoding"; §"devices_public_key_key"; §"devices_user_id_fkey"; §"pkey"]).
Proof.
  split; [|split].
  - intros body b w w' e (_ & Hr & Hs)%accepted_door. unfold DoorRepository.create. rewrite run_insert_row.
    destruct (violation _) as [name|] eqn:Ev; [|done]. intros [= _ <-]. apply violation_some in Ev. refusals Ev.
  - intros body b admin w w' e Hm%accepted_grant. unfold PermissionRepository.grant.
    destruct (pg_time (pb_start_time b)) as [st|], (pg_time (pb_end_time b)) as [en|], (pg_text (pb_time_zone b));
      try (intros [= _ <-]; by named). rewrite run_statement. destruct (uuid4 w) as [w1 id].
    set (n := {| p_user_id := _ |}). assert (Hn : 0 <= p_weekday_mask n <= 127) by done. clearbody n.
    assert (Hc : forall name (m : permission_row), 0 <= p_weekday_mask m <= 127 ->
      violation (PermissionRepository.row_checks m) = Some name ->
      EDb name ∈ EDb <$> [§"permissions_window_order"; §"permissions_validity_order"]).
    { intros name m Hmask Ev%violation_some. unfold PermissionRepository.row_checks in Ev. refusals Ev. }
    destruct (violation (PermissionRepository.row_checks n)) as [name|] eqn:Ev.
    { intros [= _ <-]. apply Hc in Ev; [|done]. set_solver. }
    destruct (fetchrow _ _) as [[old p]|].
    + destruct (violation (PermissionRepository.row_checks _)) as [name|] eqn:Ev2 in |- *; [|by intros [=]].
      intros [= _ <-]. apply Hc in Ev2; [|done]. set_solver.
    + destruct (violation _) as [name|] eqn:Ev2 in |- *; [|by intros [=]]. intros [= _ <-]. apply violation_some in Ev2. refusals Ev2.
  - intros body b (key & Hk & Hl)%accepted_enrolment. exists key. split; [done|].
    intros user label platform version status det w w' e. unfold DeviceRepository.create.
    destruct (attestation_in status), (jsonb det); try (intros [= _ <-]; by named).
    rewrite run_insert_row. destruct (violation _) as [name|] eqn:Ev; [|done]. intros [= _ <-].
    apply violation_some in Ev. unfold length_is in Ev. rewrite Hl in Ev. refusals Ev.
Qed.

(** Nothing in [PermissionCreate] relates the two ends of the window: a window
    that is empty, or goes over midnight, passes the model, and the insert is
    the first to refuse it, as a violated constraint. *)
Theorem window_order_is_left_to_the_table {EN : Entropy} {PG : Postgres} body pb admin st en w :
  PermissionCreate body = Some pb ->
  pg_time (pb_start_time pb) = Some st -> pg_time (pb_end_time pb) = Some en ->
  pg_text (pb_time_zone pb) = true -> en <= st ->
  exists w', run (PermissionRepository.grant (pb_user_id pb) (pb_door_id pb) admin (pb_weekday_mask pb)
                    (pb_start_time pb) (pb_end_time pb) (pb_time_zone pb) (pb_valid_until pb)) w
             = (w', ERR (EDb §"permissions_window_order")).
Proof.
  intros Hp%strictly_some Hst Hen Hz Hle.
  do 2 apply bind_Some in Hp as (? & _ & Hp). apply bind_Some in Hp as (mask & Hmask & Hp).
  repeat (apply bind_Some in Hp as (? & _ & Hp)). injection Hp as <-. cbn in Hst, Hen, Hz |- *.
  apply whole_default_bounds in Hmask; [|lia].
  unfold PermissionRepository.grant. rewrite Hst, Hen, Hz. unfold statement. rewrite run_atomic.
  destruct (uuid4 w) as [w1 id]. unfold violation, PermissionRepository.row_checks. cbn.
  assert (((0 <=? mask) && (mask <=? 127)) = true) as -> by lia.
  assert ((st <? en) = false) as -> by lia. by eexists.
Qed.
End accepted.

(** ** Witnesses *)

(** Texts, numbers and Booleans as they are, nothing read as a time of day. *)
#[local] Instance demo_pydantic : Pydantic := {|
  to_str := fun v => match v with JStr s => Some s | _ => None end;
  to_int := fun v => match v with JInt z => Some z | _ => None end;
  to_bool := fun v => match v with JBool b => Some b | _ => None end;
  to_uuid := fun v => match v with JInt z => Some z | _ => None end;
  to_datetime := fun v => match v with JInt z => Some z | _ => None end;
  to_time := fun v => match v with JStr s => Some s | _ => None end;
  trim := strip;
  validation_errors := JObj |}.

Definition demo_key_text : pystr := b64encode (replicate 32 7).
Definition demo_enroll_body : dict :=
  [(§"enrollment_code", JStr §"ABCD-EFGH-2345"); (§"label", JStr §" phone ");
   (§"device_public_key", JStr demo_key_text); (§"challenge", JStr §"AAAA")].
Definition demo_door_body : dict :=
  [(§"code", JStr §"front-door"); (§"name", JStr §"Front door"); (§"unlock_seconds", JInt 10)].
Definition demo_permission_body : dict := [(§"user_id", JInt 1); (§"door_id", JInt 2)].
Definition demo_night_body : dict :=
  [(§"user_id", JInt 1); (§"door_id", JInt 2); (§"start_time", JStr §"22:00:00"); (§"end_time", JStr §"00:00:00")].
Definition demo_unlock_body : dict := [(§"proximity_beacon_id", JStr §"0123456789abcdef")].

(** The code of the demonstration's door is taken, by the same body before. *)
Definition demo_create_door (b : DoorBody) :=
  DoorRepository.create (EN:=demo_entropy) (db_code b) (db_name b) (db_location b) (db_controller_id b)
    (db_relay_channel b) (db_unlock_seconds b).

Lemma accepted_bodies_leave_to_the_tables_witness :
  exists b e, DoorCreate demo_door_body = Some b
    /\ (run (demo_create_door b) (run (demo_create_door b) demo_world).1).2 = ERR e
    /\ e ∈ EDb <$> [§"encoding"; §"doors_code_key"; §"doors_controller_id_fkey"; §"pkey"].
Proof.
  destruct (DoorCreate demo_door_body) as [b|] eqn:E; [|exfalso; vm_compute in E; discriminate E].
  assert (Hb : match (run (demo_create_door b) (run (demo_create_door b) demo_world).1).2 with ERR _ => true | _ => false end = true)
    by (vm_compute in E; injection E as <-; vm_compute; reflexivity).
  destruct (run (demo_create_door b) (run (demo_create_door b) demo_world).1) as [w' [id|e]] eqn:Er; [discriminate Hb|].
  exists b, e. split; [reflexivity|]. split; [rewrite Er; reflexivity|].
  exact (proj1 (accepted_bodies_leave_to_the_tables (EN:=demo_entropy) (PG:=demo_postgres))
    demo_door_body b _ w' e E Er).
Defined.

(** A relay channel the board does not have, an unknown field, an upper case
    code: not accepted. *)
Example rejected_bodies :
  (DoorCreate ((§"relay_channel", JInt 5) :: demo_door_body), DoorCreate ((§"is_active", JBool false) :: demo_door_body),
   code_field (JStr §"Front"), EnrollRequest (map (fun kv => if str_eqb kv.1 §"device_public_key" then (kv.1, JStr §"AAAA") else kv) demo_enroll_body))
  = (None, None, None, None).
Proof. vm_compute. reflexivity. Qed.

Lemma window_order_is_left_to_the_table_witness :
  exists pb, PermissionCreate demo_night_body = Some pb
    /\ exists w', run (PermissionRepository.grant (EN:=demo_entropy) (PG:=demo_postgres) (pb_user_id pb) (pb_door_id pb)
        None (pb_weekday_mask pb) (pb_start_time pb) (pb_end_time pb) (pb_time_zone pb) (pb_valid_until pb)) demo_world
      = (w', ERR (EDb §"permissions_window_order")).
Proof.
  destruct (PermissionCreate demo_night_body) as [pb|] eqn:E; [|exfalso; vm_compute in E; discriminate E].
  exists pb. split; [reflexivity|].
  assert (H : pg_time (Postgres:=demo_postgres) (pb_start_time pb) = Some 86399000000
              /\ pg_time (Postgres:=demo_postgres) (pb_end_time pb) = Some 0 /\ pg_text (pb_time_zone pb) = true)
    by (vm_compute in E; injection E as <-; vm_compute; auto).
  destruct H as (H1 & H2 & H3).
  apply (window_order_is_left_to_the_table (EN:=demo_entropy) (PG:=demo_postgres) demo_night_body pb None 86399000000 0
    demo_world E H1 H2 H3). lia.
Defined.
