(* ===== verification/Http.v ===== *)
(** * The two applications as their clients see them: [app/main.py] and
    [admin/main.py]

    Requests, routes and responses; the exception handler and the header
    middleware of the public application; the source restriction of the
    administration.  A request has been matched to its route, a path or query
    parameter converted, and the body is a JSON object. Starlette's responses and
    what FastAPI makes of a response model are parameters. *)

From S2P Require Import Prelude Text Sha256 Clock Json Config Ip Errors Proc World Demo AuditLog Repos Schema Signer Security Proximity RateLimit Hub Evolve Auth Unlock Der Attestation Enrollment Api Schemas.

(** The headers of a response: what is read of them, [headers[k] = v], the ones
    a new response with a given content starts with, and FastAPI's encoding of a
    response model. *)
Class Starlette := {
  Headers : Type;
  header : pystr -> Headers -> option pystr;
  set_header : pystr -> pystr -> Headers -> Headers;
  new_headers : option json -> list (pystr * pystr) -> Headers;
  encoded : forall {A : Type}, A -> json
}.

(** Names are compared without their case; a header that is set is the one that
    is read, the others stay; a new response carries the headers it was given. *)
Class StarletteHeaders {ST : Starlette} := {
  header_set : forall k k' v h, lower k = lower k' -> header k (set_header k' v h) = Some v;
  header_set_other : forall k k' v h, lower k <> lower k' -> header k (set_header k' v h) = header k h;
  header_given : forall content given k v, (k, v) ∈ given -> NoDup (lower <$> given.*1) ->
    lower k <> §"content-length" -> lower k <> §"content-type" -> header k (new_headers content given) = Some v
}.

Inductive Method := GET | POST | WEBSOCKET.

#[global] Instance Method_eq_dec : EqDecision Method.
Proof. solve_decision. Defined.

(** What a decorator declares: the method, the path under the router's prefix,
    and the status of an answer. *)
Record Route := { rt_method : Method; rt_path : pystr; rt_status : Z }.

#[global] Instance Route_eq_dec : EqDecision Route.
Proof. solve_decision. Defined.

Definition route (method : Method) (path : pystr) (status : Z) : Route :=
  {| rt_method := method; rt_path := path; rt_status := status |}.

Inductive PublicRequest :=
| PostEnrollChallenge (body : dict)
| PostEnroll (request : Request) (body : dict)
| PostLogin (request : Request) (body : dict)
| PostRefresh (request : Request) (body : dict)
| PostLogout (authorization : option pystr) (request : Request) (body : dict)
| GetDoors (authorization : option pystr)
| PostUnlock (authorization : option pystr) (request : Request) (door_id : uuid) (body : dict)
| GetAccessHistory (authorization : option pystr) (limit : option Z)
| GetHealth
| GetReady.

Inductive AdminRequest :=
| GetAudit (authorization : option pystr) (limit before_seq : option Z) (event_type : option pystr)
| GetAuditVerify (authorization : option pystr) (from_seq : option Z)
| GetControllers (authorization : option pystr)
| PostController (authorization : option pystr) (body : dict)
| PostBlock (authorization : option pystr) (controller_id reason : pystr)
| PostDoor (authorization : option pystr) (body : dict)
| PostPermission (authorization : option pystr) (body : dict).

(* @src backend/app/api/auth.py 27-27 router *)
Definition auth_prefix : pystr := §"/api/v1/auth".
(* @src backend/app/api/doors.py 21-21 router *)
Definition doors_prefix : pystr := §"/api/v1".
(* @src backend/admin/main.py 46-46 router *)
Definition admin_prefix : pystr := §"/admin/v1".

(** The decorators of the routers [create_app] includes. *)
(* @src backend/app/main.py 55-58 create_app *)
Definition public_route (r : PublicRequest) : Route :=
  match r with
  | PostEnrollChallenge _ => route POST (auth_prefix ++ §"/enroll/challenge") 200
  | PostEnroll _ _ => route POST (auth_prefix ++ §"/enroll") 200
  | PostLogin _ _ => route POST (auth_prefix ++ §"/login") 200
  | PostRefresh _ _ => route POST (auth_prefix ++ §"/refresh") 200
  | PostLogout _ _ _ => route POST (auth_prefix ++ §"/logout") 204
  | GetDoors _ => route GET (doors_prefix ++ §"/doors") 200
  | PostUnlock _ _ _ _ => route POST (doors_prefix ++ §"/doors/{door_id}/unlock") 200
  | GetAccessHistory _ _ => route GET (doors_prefix ++ §"/me/access-history") 200
  | GetHealth => route GET §"/health" 200
  | GetReady => route GET §"/health/ready" 200
  end.

(** The socket has a route too, but no middleware for [http] and no answer. *)
(* @src backend/app/ws/controller_ws.py 51-51 controller_socket *)
Definition socket_route : Route := route WEBSOCKET §"/ws/controller" 101.

(* @src backend/admin/main.py 233-233 create_admin_app *)
Definition admin_route (r : AdminRequest) : Route :=
  match r with
  | GetAudit _ _ _ _ => route GET (admin_prefix ++ §"/audit") 200
  | GetAuditVerify _ _ => route GET (admin_prefix ++ §"/audit/verify") 200
  | GetControllers _ => route GET (admin_prefix ++ §"/controllers") 200
  | PostController _ _ => route POST (admin_prefix ++ §"/controllers") 201
  | PostBlock _ _ _ => route POST (admin_prefix ++ §"/controllers/{controller_id}/block") 204
  | PostDoor _ _ => route POST (admin_prefix ++ §"/doors") 201
  | PostPermission _ _ => route POST (admin_prefix ++ §"/permissions") 201
  end.

(** The schema and the interactive documentation, where they are served:
    [docs_url] and [openapi_url]. *)
(* @src backend/app/main.py 44-53 create_app *)
Definition public_documents (settings : Settings) : option pystr * option pystr :=
  (if negb (bool_decide (env settings = production)) then Some §"/docs" else None,
   if negb (bool_decide (env settings = production)) then Some §"/openapi.json" else None).

(* @src backend/admin/main.py 226-232 create_admin_app *)
Definition admin_documents : option pystr * option pystr := (Some §"/docs", Some §"/openapi.json").

Section http.
Context {EN : Entropy} {PG : Postgres} {AR : Argon2} {PR : PyRepr} {X5 : X509} {SK : SignerSocket}
  {TR : Transport} {PY : Pydantic} {ST : Starlette} (settings : Settings).

Record Response := { rs_status : Z; rs_content : option json; rs_headers : Headers }.

(** [JSONResponse(status_code=..., content=..., headers=...)] *)
Definition JSONResponse (status : Z) (content : json) (headers : list (pystr * pystr)) : Response :=
  {| rs_status := status; rs_content := Some content; rs_headers := new_headers (Some content) headers |}.

(** [Response(status_code=...)] *)
Definition EmptyResponse (status : Z) : Response :=
  {| rs_status := status; rs_content := None; rs_headers := new_headers None [] |}.

(** An endpoint's result, encoded and sent with the status of its route. *)
Definition answers {A} (rt : Route) (p : io A) : io Response := a ← p; Ret (JSONResponse (rt_status rt) (encoded a) []).
Definition answers_id (rt : Route) (name : pystr) (p : io uuid) : io Response :=
  id ← p; Ret (JSONResponse (rt_status rt) (JObj [(name, JStr (uuid_str id))]) []).
Definition answers_nothing (rt : Route) (p : io unit) : io Response := _ ← p; Ret (EmptyResponse (rt_status rt)).

(** The endpoint behind each route, with the defaults of its query. *)
(* @src backend/app/main.py 55-58 create_app *)
Definition public_endpoint (r : PublicRequest) : io Response :=
  let rt := public_route r in
  match r with
  | PostEnrollChallenge body => answers rt (post_enroll_challenge body)
  | PostEnroll request body => answers rt (post_enroll settings request body)
  | PostLogin request body => answers rt (post_login settings request body)
  | PostRefresh request body => answers rt (post_refresh settings request body)
  | PostLogout authorization request body => answers_nothing rt (post_logout settings authorization request body)
  | GetDoors authorization => answers rt (get_doors settings authorization)
  | PostUnlock authorization request door body => answers rt (post_unlock settings authorization request door body)
  | GetAccessHistory authorization limit => answers rt (get_access_history settings authorization (default 50 limit))
  | GetHealth => Ret (JSONResponse (rt_status rt) (JObj [(§"status", JStr health)]) [])
  | GetReady => answers rt ready
  end.

(* @src backend/admin/main.py 233-233 create_admin_app *)
Definition admin_endpoint (r : AdminRequest) : io Response :=
  let rt := admin_route r in
  match r with
  | GetAudit authorization limit before event =>
      answers rt (get_audit settings authorization (default 100 limit) before event)
  | GetAuditVerify authorization from_seq => answers rt (get_chain settings authorization (default 0 from_seq))
  | GetControllers authorization => answers rt (get_controllers settings authorization)
  | PostController authorization body => answers_id rt §"controller_id" (post_controller settings authorization body)
  | PostBlock authorization id reason => answers_nothing rt (block_controller settings authorization id reason)
  | PostDoor authorization body => answers_id rt §"door_id" (post_door settings authorization body)
  | PostPermission authorization body =>
      answers_id rt §"permission_id" (post_permission settings authorization body)
  end.

(** What the registered handlers answer to an exception: [_api_error] of the
    application, and FastAPI's own for [HTTPException]. [None] goes through to
    the server. *)
(* @src backend/app/main.py * create_app._api_error *)
Definition api_error_response (exc : ApiError) : Response :=
  let h := _api_error exc in JSONResponse (http_status h) (http_detail h) (http_headers h).

Definition http_exception_response (exc : HTTPException) : Response :=
  JSONResponse (http_status exc) (JObj [(§"detail", http_detail exc)]) (http_headers exc).

(** The administration registers no handler of its own. *)
Definition handled (api_errors : bool) (p : io Response) : io Response :=
  catch p (fun e =>
    match e with
    | EApi exc => if api_errors then Some (Ret (api_error_response exc)) else None
    | EHttp exc => Some (Ret (http_exception_response exc))
    | _ => None
    end).

(* @src backend/app/main.py 76-83 create_app.security_headers *)
Definition hardening : list (pystr * pystr) :=
  [(§"X-Content-Type-Options", §"nosniff"); (§"X-Frame-Options", §"DENY"); (§"Referrer-Policy", §"no-referrer");
   (§"Content-Security-Policy", §"default-src 'none'"); (§"Cache-Control", §"no-store");
   (§"Strict-Transport-Security", §"max-age=63072000; includeSubDomains")].

Definition with_headers (headers : list (pystr * pystr)) (r : Response) : Response :=
  {| rs_status := rs_status r; rs_content := rs_content r;
     rs_headers := foldl (fun h kv => set_header kv.1 kv.2 h) (rs_headers r) headers |}.

(* @src backend/app/main.py * create_app.security_headers *)
Definition security_headers (call_next : io Response) : io Response :=
  response ← call_next; Ret (with_headers hardening response).

(* @src backend/app/main.py * create_app *)
Definition public_app (r : PublicRequest) : io Response := security_headers (handled true (public_endpoint r)).

Definition forbidden : Response := JSONResponse 403 (JObj [(§"error", JStr §"forbidden")]) [].

(** The middleware of the administration around its endpoints. *)
(* @src backend/admin/main.py * create_admin_app *)
Definition admin_app (networks : list IpNetwork) (peer : option pystr) (r : AdminRequest) : io Response :=
  if restrict_source networks peer then handled false (admin_endpoint r) else Ret forbidden.

(** ** The public application *)

(** What a finished request becomes on its way out. *)
Definition outgoing (o : outcome Exn Response) : outcome Exn Response :=
  match o with
  | OK r => OK (with_headers hardening r)
  | ERR (EApi exc) => OK (with_headers hardening (api_error_response exc))
  | ERR (EHttp exc) => OK (with_headers hardening (http_exception_response exc))
  | ERR e => ERR e
  end.

Lemma run_public_app r w :
  run (public_app r) w = let '(w', o) := run (public_endpoint r) w in (w', outgoing o).
Proof.
  unfold public_app, security_headers, handled. rewrite run_bind, run_catch.
  destruct (run (public_endpoint r) w) as [w' [a|[]]]; done.
Qed.

Context {SH : StarletteHeaders}.

Lemma header_foldl_other k hs h : lower k ∉ (lower <$> hs.*1) ->
  header k (foldl (fun h kv => set_header kv.1 kv.2 h) h hs) = header k h.
Proof.
  revert h. induction hs as [|[k' v] hs IH]; intros h Hn; [done|]. cbn in *.
  apply not_elem_of_cons in Hn as [Hne Hn]. rewrite IH by done. by apply header_set_other.
Qed.

Lemma header_foldl k v hs h : NoDup (lower <$> hs.*1) -> (k, v) ∈ hs ->
  header k (foldl (fun h kv => set_header kv.1 kv.2 h) h hs) = Some v.
Proof.
  revert h. induction hs as [|[k' v'] hs IH]; intros h Hd Hin; [by apply not_elem_of_nil in Hin|].
  cbn in *. apply NoDup_cons in Hd as [Hn Hd]. apply elem_of_cons in Hin as [[= <- <-]|Hin]; [|by apply IH].
  rewrite header_foldl_other by done. by apply header_set.
Qed.

Lemma hardened k v r : (k, v) ∈ hardening -> header k (rs_headers (with_headers hardening r)) = Some v.
Proof. intros Hin. apply header_foldl; [|done]. apply (bool_decide_unpack _). vm_compute. exact I. Qed.

(** [resp] is [inner] with the six headers set, each with its value. *)
Record is_hardened (inner resp : Response) : Prop := {
  hd_status : rs_status resp = rs_status inner;
  hd_content : rs_content resp = rs_content inner;
  hd_sniff : header §"X-Content-Type-Options" (rs_headers resp) = Some §"nosniff";
  hd_frame : header §"X-Frame-Options" (rs_headers resp) = Some §"DENY";
  hd_referrer : header §"Referrer-Policy" (rs_headers resp) = Some §"no-referrer";
  hd_policy : header §"Content-Security-Policy" (rs_headers resp) = Some §"default-src 'none'";
  hd_cache : header §"Cache-Control" (rs_headers resp) = Some §"no-store";
  hd_transport :
    header §"Strict-Transport-Security" (rs_headers resp) = Some §"max-age=63072000; includeSubDomains";
  hd_kept : forall k,
    lower k ∉ [§"x-content-type-options"; §"x-frame-options"; §"referrer-policy"; §"content-security-policy";
               §"cache-control"; §"strict-transport-security"] ->
    header k (rs_headers resp) = header k (rs_headers inner)
}.

Lemma with_hardening r : is_hardened r (with_headers hardening r).
Proof.
  split; try done; try (apply hardened; apply (bool_decide_unpack _); vm_compute; exact I).
  intros k Hk. by apply header_foldl_other.
Qed.

(** C22 Every answer of the public application is hardened: whatever the request
    and whatever the endpoint does, an answer carries
    [X-Content-Type-Options: nosniff], [X-Frame-Options: DENY],
    [Referrer-Policy: no-referrer], [Content-Security-Policy: default-src 'none'],
    [Cache-Control: no-store] and a [Strict-Transport-Security] of two years with
    the subdomains, and otherwise is the endpoint's own, or the one response that
    belongs to its error: the status and the public code of the error, never the
    internal reason. Only an exception that is neither of the two kinds the
    handlers know leaves without an answer of the application. *)
Theorem public_answers_are_hardened r w :
  let '(w', o) := run (public_endpoint r) w in
  match o with
  | OK inner => exists resp, run (public_app r) w = (w', OK resp) /\ is_hardened inner resp
  | ERR (EApi exc) =>
      exists resp, run (public_app r) w = (w', OK resp)
        /\ is_hardened (JSONResponse (status_code exc) (JObj [(§"error", JStr (error_code exc))])
                          (http_headers (_api_error exc))) resp
  | ERR (EHttp exc) =>
      exists resp, run (public_app r) w = (w', OK resp)
        /\ is_hardened (JSONResponse (http_status exc) (JObj [(§"detail", http_detail exc)]) (http_headers exc)) resp
  | ERR e => run (public_app r) w = (w', ERR e)
  end.
Proof.
  rewrite run_public_app. destruct (run (public_endpoint r) w) as [w' [a|[]]]; try done;
    eexists; (split; [reflexivity|apply with_hardening]).
Qed.

(** *** A locked out login *)

Definition user_failures (username : pystr) (w : World) : Z :=
  count (RateLimitRepository.counts subj_user (py_lower username) (w_now w - seconds (rate_window_seconds settings)) None)
    (failed_attempts (w_db w)).

Lemma run_locked_out request username password device ip w :
  client_ip settings request = OK ip -> pg_text (py_lower username) = true ->
  (forall a, ip = Some a -> pg_text a = true /\ is_Some (pg_inet a)) ->
  rate_max_login_failures settings <= user_failures username w
    \/ rate_max_login_failures settings <= ip_failures settings ip w ->
  exists r, run (login settings request username password device) w
            = (appended r w, ERR (EHttp (http_error (RateLimited (rate_window_seconds settings)))))
    /\ a_event_type r = event_value RATE_LIMIT_TRIPPED.
Proof.
  intros Hip Hu Ha Hl. unfold login. rewrite Hip. cbn [of_outcome]. rewrite run_bind. cbn [run].
  rewrite run_bind, run_check_login by (try done; intros a Hp; destruct ip as [[|c l]|]; cbn in Hp; simplify_eq;
    by eapply Ha). fold (user_failures username w). unfold RateLimiter.decide_login.
  rewrite (proj2 (Z.leb_le _ _)) by lia. cbn [allowed negb]. rewrite run_bind.
  unfold AuditService.denied, AuditService.record. rewrite run_append.
  destruct (AuditRepository.new_row _ _ _ _ _) as [r|] eqn:E.
  - exists r. split; [done|]. by apply new_row_some in E as (_ & _ & -> & _).
  - exfalso. revert E. unfold AuditRepository.new_row. cbn [anonymous_audit actor_type AuditLog.client_ip detail].
    destruct ip as [a|]; [destruct (Ha a eq_refl) as [_ [x Hx]]; rewrite Hx|];
      cbn [rd_subject_type failures];
      match goal with |- context [JInt ?n] => generalize n end;
      match goal with |- context [Repos.subject_text ?t] => generalize t end; intros [] n; vm_compute; discriminate.
Qed.

(** Who is locked out is told so and nothing else: a login whose user name or
    address has used up its failures is answered with 429, the code of the rate
    limit and the number of seconds to wait in [Retry-After]; the refusal is the
    one new audit row, no time is spent on the password, and no token, no user and
    no failure is touched. *)
Theorem locked_out_login_is_answered_429 request body username password device ip w :
  LoginRequest body = Some (username, password, device) ->
  client_ip settings request = OK ip -> pg_text (py_lower username) = true ->
  (forall a, ip = Some a -> pg_text a = true /\ is_Some (pg_inet a)) ->
  rate_max_login_failures settings <= user_failures username w
    \/ rate_max_login_failures settings <= ip_failures settings ip w ->
  exists resp r, run (public_app (PostLogin request body)) w = (appended r w, OK resp)
    /\ rs_status resp = 429
    /\ rs_content resp = Some (JObj [(§"detail", JObj [(§"error", JStr §"rate_limited")])])
    /\ header §"Retry-After" (rs_headers resp) = Some (int_str (rate_window_seconds settings))
    /\ a_event_type r = event_value RATE_LIMIT_TRIPPED.
Proof.
  intros Hb Hip Hu Ha Hl. destruct (run_locked_out request username password device ip w Hip Hu Ha Hl) as (r & Hr & He).
  eexists _, r. rewrite run_public_app. unfold public_endpoint, answers, post_login, validated. rewrite run_bind, Hb, run_bind, Hr.
  cbn [outgoing]. split; [reflexivity|]. split; [done|]. split; [done|]. split; [|done].
  unfold with_headers. cbn [rs_headers]. rewrite header_foldl_other by (apply (bool_decide_unpack _); vm_compute; exact I).
  apply header_given; [left|apply NoDup_singleton|discriminate..].
Qed.

(** *** An opened door *)

Lemma client_ip_error request e : client_ip settings request = ERR e -> exists net, e = EValue net.
Proof.
  assert (Hin : forall address nets e, in_any address nets = ERR e -> exists net, e = EValue net).
  { intros address nets e'. induction nets as [|net nets IH]; [done|]. cbn. destruct (ip_network net); [|intros [= <-]; by eexists].
    by destruct (ip_in address _). }
  unfold client_ip. destruct (non_empty _); [|done]. destruct (non_empty _); [|done]. destruct (ip_address _); [|done].
  destruct (in_any _ _) as [[]|e'] eqn:E; [by destruct (is_some _)|done|]. intros [= <-]. by eapply Hin.
Qed.


(** ** The administration *)

Definition admin_authorization (r : AdminRequest) : option pystr :=
  match r with
  | GetAudit a _ _ _ | GetAuditVerify a _ | GetControllers a | PostController a _ | PostBlock a _ _ | PostDoor a _
  | PostPermission a _ => a
  end.

Lemma run_with_admin_bind {A B} authorization (body : Session -> io A) (k : A -> io B) w :
  run (with_admin settings authorization body ≫= k) w
  = run (with_admin settings authorization (fun s => body s ≫= k)) w.
Proof.
  unfold with_admin, with_session. rewrite run_bind_assoc, !run_bind.
  destruct (run (current_session settings authorization) w) as [w' [s|e]]; [by rewrite run_bind_assoc|done].
Qed.

(** Every endpoint of the router is behind the administrator's dependency. *)
Lemma admin_endpoint_guarded r :
  exists body, forall w, run (admin_endpoint r) w = run (with_admin settings (admin_authorization r) body) w.
Proof.
  destruct r; cbn [admin_endpoint admin_authorization];
    unfold answers, answers_id, answers_nothing, get_audit, get_chain, get_controllers, post_controller, post_door,
      post_permission, validated, admin_guard.
  1-3: eexists; intros w; rewrite run_bind_assoc; apply run_with_admin_bind.
  2: eexists; intros w; apply run_with_admin_bind.
  all: case_match; [repeat case_match|]; eexists; intros w; apply run_with_admin_bind.
Qed.

Lemma restrict_source_iff networks peer :
  restrict_source networks peer = true <->
  exists address, ip_address (default [] peer) = Some address
    /\ (networks = [] \/ exists net, net ∈ networks /\ ip_in address net = true).
Proof.
  unfold restrict_source. destruct (ip_address _) as [address|]; [|by split; [|intros (? & ? & _)]].
  destruct networks as [|n ns]; [split; [intros _; exists address; by split; [|left]|done]|].
  rewrite existsb_exists. split.
  - intros (net & Hin & Hn). exists address. split; [done|]. right. exists net. by rewrite list_elem_of_In.
  - intros (a & [= <-] & [|(net & Hin & Hn)]); [done|]. exists net. by rewrite <- list_elem_of_In.
Qed.


(** An empty list of networks admits every peer with an address. *)
Theorem empty_allow_list_admits_everyone peer :
  admin_cidr_list settings = [] ->
  exists nets, admin_networks settings = OK nets /\ (restrict_source nets peer = true <-> is_Some (ip_address (default [] peer))).
Proof.
  intros E. exists []. unfold admin_networks. rewrite E. split; [done|]. unfold restrict_source.
  destruct (ip_address (default [] peer)) as [a|]; cbn; split; intros H; try done; destruct H; discriminate.
Qed.
End http.

(** ** The routes *)

Definition public_routes : list Route :=
  socket_route :: map public_route
    [PostEnrollChallenge []; PostEnroll {| peer_host := None; x_forwarded_for := None |} [];
     PostLogin {| peer_host := None; x_forwarded_for := None |} []; PostRefresh {| peer_host := None; x_forwarded_for := None |} [];
     PostLogout None {| peer_host := None; x_forwarded_for := None |} []; GetDoors None;
     PostUnlock None {| peer_host := None; x_forwarded_for := None |} 0 []; GetAccessHistory None None; GetHealth; GetReady].

(** The public application has no route below the administration's prefix, no
    two requests share one, and in production it serves no description of
    itself. *)
Theorem public_routes_are_its_own settings :
  (forall r, public_route r ∈ public_routes) /\ NoDup public_routes
  /\ Forall (fun rt => starts_with admin_prefix (rt_path rt) = false) public_routes
  /\ (public_documents settings = (None, None) <-> env settings = production).
Proof.
  split; [|split; [|split]].
  - intros []; apply (bool_decide_unpack _); vm_compute; exact I.
  - apply (bool_decide_unpack _). vm_compute. exact I.
  - repeat constructor.
  - unfold public_documents. by destruct (env settings).
Qed.

(** ** Witnesses *)

#[local] Existing Instances demo_entropy demo_postgres demo_argon2 demo_ed25519 demo_repr demo_x509 demo_transport demo_pydantic.
#[local] Instance demo_socket : SignerSocket := served_by demo_service.

(** Headers as a list, searched from the front, with their names in lower case. *)
Fixpoint find_header (k : pystr) (h : list (pystr * pystr)) : option pystr :=
  match h with
  | [] => None
  | (k', v) :: r => if bool_decide (lower k = k') then Some v else find_header k r
  end.

#[local] Instance demo_starlette : Starlette := {|
  Headers := list (pystr * pystr);
  header := find_header;
  set_header := fun k v h => (lower k, v) :: h;
  new_headers := fun content given => map (fun kv => (lower kv.1, kv.2)) given;
  encoded := fun A _ => JNull
|}.

#[local] Instance demo_starlette_headers : StarletteHeaders.
Proof.
  split.
  - intros k k' v h E. cbn. by rewrite bool_decide_eq_true_2.
  - intros k k' v h E. cbn. by rewrite bool_decide_eq_false_2.
  - intros content given k v Hin Hd _ _. cbn. induction given as [|[k' v'] r IH]; [by apply not_elem_of_nil in Hin|].
    cbn in *. apply NoDup_cons in Hd as [Hn Hd]. apply elem_of_cons in Hin as [[= <- <-]|Hin].
    + by rewrite bool_decide_eq_true_2.
    + rewrite bool_decide_eq_false_2; [by apply IH|]. intros E. apply Hn. rewrite <- E.
      by apply (list_elem_of_fmap_2 lower r.*1 k), (list_elem_of_fmap_2 fst r (k, v)).
Qed.

Lemma public_answers_are_hardened_witness :
  exists resp, run (public_app demo_settings GetHealth) demo_world = (demo_world, OK resp)
    /\ header §"Strict-Transport-Security" (rs_headers resp) = Some §"max-age=63072000; includeSubDomains".
Proof.
  pose proof (public_answers_are_hardened demo_settings GetHealth demo_world) as H. cbn [public_endpoint run] in H.
  destruct H as (resp & E & Hh). exists resp. split; [exact E|]. exact (hd_transport _ _ Hh).
Defined.

Fixpoint demo_failures (n : nat) : io unit :=
  match n with
  | O => Ret tt
  | S n => _ ← RateLimiter.record_login_failure demo_settings §"mallory" None §"auth.login"; demo_failures n
  end.
Definition demo_locked : World := (run (demo_failures 5) demo_world).1.
Definition demo_login_body : dict :=
  [(§"username", JStr §"Mallory"); (§"password", JStr §"guess"); (§"device_id", JInt 7)].

Lemma locked_out_login_is_answered_429_witness :
  exists resp, (run (public_app demo_settings (PostLogin demo_direct demo_login_body)) demo_locked).2 = OK resp
    /\ rs_status resp = 429 /\ header §"Retry-After" (rs_headers resp) = Some §"900".
Proof.
  destruct (locked_out_login_is_answered_429 demo_settings demo_direct demo_login_body §"Mallory" §"guess" 7 None demo_locked)
    as (resp & r & E & Hs & _ & Hh & _).
  - vm_compute. reflexivity.
  - reflexivity.
  - vm_compute. reflexivity.
  - intros a Ha. discriminate Ha.
  - left. vm_compute. discriminate.
  - exists resp. rewrite E. split; [reflexivity|]. split; [exact Hs|]. rewrite Hh. vm_compute. reflexivity.
Defined.

(** The logged in phone at the demonstration's door, whose controller answers. *)
Section opened.
#[local] Existing Instance demo_controller.

Definition demo_door_run := run demo_install demo_logged_in.
Definition demo_phone : option pystr := Some (§"Bearer " ++ it_access_token demo_pair).
Definition demo_door_id : uuid := match demo_door_run.2 with OK p => p.1 | ERR _ => 0 end.
Definition demo_unlock_request : dict := [(§"proximity_beacon_id", JStr demo_beacon)].
Definition demo_opening : PublicRequest := PostUnlock demo_phone demo_direct demo_door_id demo_unlock_request.

Lemma demo_door_ok : db_ok (w_db demo_door_run.1).
Proof.
  apply (run_db_ok demo_install demo_logged_in _ demo_door_run.2).
  - unfold demo_install. evolves_tac.
  - unfold demo_door_run. by destruct (run demo_install demo_logged_in).
  - apply demo_logged_in_ok.
Qed.

Lemma demo_phone_hashed token : bearer demo_phone = Some token -> exists h, hash_token demo_settings token = OK h.
Proof.
  intros Hb. apply demo_hashed. assert (H : from_option (forallb is_scalar) true (bearer demo_phone) = true)
    by (vm_compute; reflexivity). by rewrite Hb in H.
Qed.

End opened.

Definition demo_networks : list IpNetwork := [network_of IPv4 2130706433 32].


(** An address of the documentation range, under an empty list and under the
    default one. *)
Example open_and_closed :
  (restrict_source [] (Some §"203.0.113.9"), restrict_source demo_networks (Some §"203.0.113.9")) = (true, false).
Proof. vm_compute. reflexivity. Qed.
