(* ===== verification/ControllerWs.v ===== *)
(** * The controller's socket: [app/ws/controller_ws.py]

    Handshake, message loop and clean-up of one connection, and the heartbeat
    task beside it.  What the controller sends is an argument: the answer to the
    challenge ([None] when it does not come in time or the socket closes), then
    the texts received until the socket closes; a heartbeat is given the number
    of rounds it gets before it is cancelled.  Before each of them other tasks
    may run: receiving is a step of its own. *)

From S2P Require Import Prelude Text Sha256 Clock Json Config Errors Proc World Demo AuditLog Repos Schema Signer Security RateLimit Hub Evolve Auth Unlock Der Attestation Enrollment.

(** Sends before there is a session, and [close]: what other tasks do in the
    meantime, and the message of an exception.  [json_digit_limit text]: the
    failure of [json.loads] on the text is the one of an integer of more than
    4300 digits, a [ValueError] that is not a [JSONDecodeError]. *)
Class WebSocket := {
  ws_text : pystr -> World -> World * option pystr;
  ws_close : Z -> World -> World * option pystr;
  json_digit_limit : pystr -> bool
}.

(** Code that raises without awaiting, in sequence. *)
#[local] Instance outcome_bind : MBind (outcome Exn) :=
  fun A B k o => match o with OK a => k a | ERR e => ERR e end.

(* @src backend/app/ws/controller_ws.py * AUTH_DOMAIN *)
Definition AUTH_DOMAIN : bytes := §"acs-controller-auth:v1" ++ [0].

(* @src backend/app/ws/controller_ws.py * MAX_MESSAGE_BYTES *)
Definition MAX_MESSAGE_BYTES : Z := 16 * 1024.

(* @src backend/app/ws/controller_ws.py * auth_message *)
Definition auth_message (controller_code : pystr) (nonce : bytes) : outcome Exn bytes :=
  c ← encode_utf8 controller_code;
  OK (AUTH_DOMAIN ++ c ++ [0] ++ nonce).

(** A coroutine whose exception is a value. *)
Definition attempt {A} (p : io A) : io (outcome Exn A) :=
  catch (a ← p; Ret (OK a)) (fun e => Some (Ret (ERR e))).

Section ws.
Context {EN : Entropy} {PG : Postgres} {ED : Ed25519} {PR : PyRepr} {WS : WebSocket} (settings : Settings).

Definition deliver (f : World -> World * option pystr) : io unit :=
  atomic (fun w => let '(w, r) := f w in (w, match r with None => OK tt | Some m => ERR (ERuntime m) end)).

(** The time at which something is received. *)
Definition receive {A} (a : A) : io A := reads (fun _ => a).

Definition json_loads (raw : pystr) : outcome Exn json :=
  match loads raw with
  | Some v => OK v
  | None => ERR (if json_digit_limit raw then EValue §"integer string conversion" else EJSONDecode)
  end.

(** [message.get]: only a [dict] has it. *)
Definition as_message (v : json) : outcome Exn dict :=
  match v with JObj m => OK m | _ => ERR (EAttribute §"get") end.

Definition get_json (k : pystr) (m : dict) : json := default JNull (dict_get k m).

(** [message.get(k) == text] *)
Definition says (k text : pystr) (m : dict) : bool :=
  match dict_get k m with Some (JStr s) => str_eqb s text | _ => false end.

Definition item (k : pystr) (m : dict) : outcome Exn json :=
  match dict_get k m with Some v => OK v | None => ERR (EKey k) end.

(** [base64.b64decode(v, validate=True)] of a JSON value. *)
Definition b64_value (v : json) : outcome Exn bytes :=
  match v with JStr s => EnrollmentService.b64_strict s | _ => ERR (EType §"b64decode") end.

(* @src backend/app/ws/controller_ws.py 61-68 controller_socket *)
Definition challenge_text (nonce : bytes) (now : instant) : pystr :=
  dumps true false None
    (JObj [(§"type", JStr §"challenge"); (§"nonce", JStr (b64encode nonce)); (§"server_time", JInt (now / seconds 1))]).

(* @src backend/app/ws/controller_ws.py 120-127 controller_socket *)
Definition auth_ok_text : pystr :=
  dumps true false None
    (JObj [(§"type", JStr §"auth_ok"); (§"heartbeat", JInt (ws_heartbeat_seconds settings));
           (§"signer_key_id", JStr (signer_key_id settings))]).

(** The first half of the [try] block: what the answer claims. *)
(* @src backend/app/ws/controller_ws.py 81-87 controller_socket *)
Definition claims (raw : pystr) : outcome Exn (dict * pystr * bytes) :=
  if MAX_MESSAGE_BYTES <? len raw then ERR (EValue §"handshake too large")
  else
    v ← json_loads raw;
    message ← as_message v;
    if negb (says §"type" §"auth" message) then ERR (EValue §"expected auth")
    else
      code ← item §"controller_code" message;
      s ← item §"signature" message;
      signature ← b64_value s;
      OK (message, py_str code, signature).

(** The driver's own error for text it cannot encode is a [ValueError]. *)
(* @src backend/app/ws/controller_ws.py 89-89 controller_socket *)
Definition find_controller (code : pystr) : io (option (uuid * controller_row)) :=
  if forallb is_scalar code then ControllerRepository.by_code code
  else Raise (EValue §"invalid input for query argument").

(* @src backend/app/ws/controller_ws.py 93-95 controller_socket *)
Definition check_signature (c : controller_row) (code : pystr) (signature nonce : bytes) : outcome Exn unit :=
  m ← auth_message code nonce;
  if ed25519_verify (c_public_key c) signature m then OK tt else ERR EInvalidSignature.

(** The [try] block: the controller it had found when it ended, and how it
    ended. *)
(* @src backend/app/ws/controller_ws.py 79-96 controller_socket *)
Definition authenticate (raw : pystr) (nonce : bytes)
    : io (option uuid * outcome Exn (dict * uuid * controller_row)) :=
  match claims raw with
  | ERR e => Ret (None, ERR e)
  | OK (message, code, signature) =>
      found ← attempt (find_controller code);
      match found with
      | ERR e => Ret (None, ERR e)
      | OK None => Ret (None, ERR (EValue §"unknown or blocked controller"))
      | OK (Some (id, c)) =>
          if c_is_blocked c then Ret (Some id, ERR (EValue §"unknown or blocked controller"))
          else Ret (Some id, _ ← check_signature c code signature nonce; OK (message, id, c))
      end
  end.

(** The exceptions the [except] clause names. *)
(* @src backend/app/ws/controller_ws.py 96-96 controller_socket *)
Definition handshake_caught (e : Exn) : bool :=
  match e with EValue _ | EJSONDecode | EKey _ | EInvalidSignature => true | _ => false end.

Definition controller_audit (id : option uuid) (peer : option pystr) (d : dict) : AuditArgs := {|
  actor_type := §"controller"; actor_id := None; device_id := None; door_id := None;
  controller_id := id; client_ip := peer; detail := d |}.

(** The handshake: the controller's claims once its signature holds, [None]
    when the socket has been closed. *)
(* @src backend/app/ws/controller_ws.py 59-105 controller_socket *)
Definition handshake (peer : option pystr) (answer : option pystr) : io (option (dict * uuid * controller_row)) :=
  nonce ← atomic (fun w => let '(w, b) := token_bytes 32 w in (w, OK b));
  now ← reads w_now;
  _ ← deliver (ws_text (challenge_text nonce now));
  answer ← receive answer;
  match answer with
  | None => _ ← deliver (ws_close 4408); Ret None
  | Some raw =>
      r ← authenticate raw nonce;
      match r.2 with
      | OK a => Ret (Some a)
      | ERR e =>
          if handshake_caught e then
            _ ← AuditService.failure CONTROLLER_AUTH_FAILED
                  (controller_audit r.1 peer [(§"reason", JStr (py_type_name e))]);
            _ ← deliver (ws_close 4401);
            Ret None
          else Raise e
      end
  end.

(** A text parameter of a statement. *)
Definition text_param (v : json) : outcome Exn (option pystr) :=
  match v with JNull => OK None | JStr s => OK (Some s) | _ => ERR (EDb §"invalid input for query argument") end.

(** One message of the loop. *)
(* @src backend/app/ws/controller_ws.py 150-166 controller_socket *)
Definition handle (peer : option pystr) (id : uuid) (s : nat) (message : dict) : io unit :=
  if says §"type" §"pong" message then
    _ ← atomic (fun w =>
      (set_hub (with_session_heap (alter (with_last_pong (w_now w)) s (h_session_heap (w_hub w))) (w_hub w)) w, OK tt));
    ControllerRepository.touch_seen id peer None
  else if says §"type" §"ack" message then ControllerHub.resolve s message
  else if says §"type" §"event" message then
    let event := §"controller." ++ py_str (default (JStr §"unknown") (dict_get §"event" message)) in
    outcome ← of_outcome (text_param (default (JStr §"success") (dict_get §"outcome" message)));
    match outcome with
    | None => Raise (EDb §"not_null")
    | Some outcome =>
        _ ← AuditService.record event outcome
              (controller_audit (Some id) peer [(§"payload", default (JObj []) (dict_get §"detail" message))]);
        Ret tt
    end
  else Ret tt.

(** [while True: raw = await websocket.receive_text()]; the end of the texts is
    the [WebSocketDisconnect] the code passes over. *)
(* @src backend/app/ws/controller_ws.py 141-168 controller_socket *)
Fixpoint serve (peer : option pystr) (id : uuid) (s : nat) (incoming : list pystr) : io unit :=
  match incoming with
  | [] => Ret tt
  | raw :: rest =>
      raw ← receive raw;
      if MAX_MESSAGE_BYTES <? len raw then Ret tt
      else
        match json_loads raw with
        | ERR EJSONDecode => serve peer id s rest
        | ERR e => Raise e
        | OK v =>
            message ← of_outcome (as_message v);
            _ ← handle peer id s message;
            serve peer id s rest
        end
  end.

(** The [finally] block. *)
(* @src backend/app/ws/controller_ws.py 169-179 controller_socket *)
Definition hang_up (peer : option pystr) (id : uuid) (code : pystr) (s : nat) : io unit :=
  _ ← ControllerHub.unregister code s;
  seconds_up ← reads (fun w =>
    (w_now w - from_option cs_connected_at 0 (h_session_heap (w_hub w) !! s)) ÷ seconds 1);
  _ ← AuditService.record (event_value CONTROLLER_DISCONNECTED) §"success"
        (controller_audit (Some id) peer [(§"connected_seconds", JInt seconds_up)]);
  Ret tt.

(** From the handshake on. *)
(* @src backend/app/ws/controller_ws.py 107-179 controller_socket *)
Definition connected (peer : option pystr) (message : dict) (id : uuid) (c : controller_row)
    (incoming : list pystr) : io unit :=
  let firmware := get_json §"firmware_version" message in
  version ← of_outcome (text_param firmware);
  _ ← ControllerRepository.touch_seen id peer version;
  _ ← AuditService.success CONTROLLER_CONNECTED
        (controller_audit (Some id) peer
           [(§"controller_code", JStr (c_code c)); (§"firmware_version", firmware)]);
  _ ← deliver (ws_text auth_ok_text);
  s ← new_session id (c_code c) peer version;
  _ ← ControllerHub.register s;
  finally (serve peer id s incoming) (hang_up peer id (c_code c) s).

(* @src backend/app/ws/controller_ws.py * controller_socket *)
Definition controller_socket (peer : option pystr) (answer : option pystr) (incoming : list pystr) : io unit :=
  r ← handshake peer answer;
  match r with
  | None => Ret tt
  | Some (message, id, c) => connected peer message id c incoming
  end.

(* @src backend/app/ws/controller_ws.py 183-183 _heartbeat *)
Definition ping_text : pystr := dumps true false None (JObj [(§"type", JStr §"ping")]).

Section heartbeat.
Context {TR : Transport}.

(** [except (CancelledError, RuntimeError, WebSocketDisconnect): return] *)
(* @src backend/app/ws/controller_ws.py 191-192 _heartbeat *)
Definition heartbeat_caught (e : Exn) : option (io unit) := match e with ERuntime _ => Some (Ret tt) | _ => None end.

(* @src backend/app/ws/controller_ws.py 185-190 _heartbeat *)
Fixpoint beats (s : nat) (rounds : nat) : io unit :=
  match rounds with
  | O => Ret tt
  | S rounds =>
      _ ← sleep_usec (seconds (ws_heartbeat_seconds settings));
      silent ← reads (fun w =>
        seconds (ws_heartbeat_timeout_seconds settings)
        <? w_now w - from_option cs_last_pong_at 0 (h_session_heap (w_hub w) !! s));
      if silent : bool then deliver (ws_close 4408)
      else _ ← send s ping_text; beats s rounds
  end.

(* @src backend/app/ws/controller_ws.py * _heartbeat *)
Definition _heartbeat (s : nat) (rounds : nat) : io unit := catch (beats s rounds) heartbeat_caught.
End heartbeat.
End ws.

(** ** Every step evolves *)

(** What runs while the socket is written to or closed are steps of others. *)
Class WebSocketEvolves {WS : WebSocket} := {
  ws_text_evolves : forall t w, evolves w (ws_text t w).1;
  ws_close_evolves : forall c w, evolves w (ws_close c w).1
}.

Section evolution.
Context {EN : Entropy} {PG : Postgres} {ED : Ed25519} {PR : PyRepr} {WS : WebSocket} {WE : WebSocketEvolves}
  (settings : Settings).

Lemma deliver_evolves f : (forall w, evolves w (f w).1) -> guar evolves (deliver f).
Proof. intros Hf. apply guar_atomic. intros w. specialize (Hf w). by destruct (f w). Qed.

Lemma receive_evolves {A} (a : A) : guar evolves (receive a).
Proof. apply evolves_reads. Qed.

Lemma attempt_evolves {A} (p : io A) : guar evolves p -> guar evolves (attempt p).
Proof. intros Hp. apply guar_catch; [by apply guar_bind|]. by intros e q [= <-]. Qed.

Lemma pong_evolves s :
  guar evolves (atomic (fun w =>
    (set_hub (with_session_heap (alter (with_last_pong (w_now w)) s (h_session_heap (w_hub w))) (w_hub w)) w, OK tt))
    : io unit).
Proof. apply evolves_hub. intros w. by apply hub_le_sessions. Qed.

Lemma draw_evolves n : guar evolves (atomic (fun w => let '(w, b) := token_bytes n w in (w, OK b)) : io bytes).
Proof. apply evolves_frame. intros w. split_and!; try done; cbn; lia. Qed.

#[local] Hint Resolve receive_evolves pong_evolves draw_evolves ws_text_evolves ws_close_evolves : evolves.

Ltac ws_step :=
  first [ apply deliver_evolves; intros ?; solve [apply ws_text_evolves | apply ws_close_evolves]
        | apply attempt_evolves | evolves_step ].

Lemma authenticate_evolves raw nonce : guar evolves (authenticate raw nonce).
Proof. unfold authenticate, find_controller. repeat ws_step. Qed.

Lemma handshake_evolves peer answer : guar evolves (handshake peer answer).
Proof.
  unfold handshake, AuditService.failure, AuditService.record.
  repeat first [apply authenticate_evolves | ws_step].
Qed.

Lemma handle_evolves peer id s message : guar evolves (handle peer id s message).
Proof. unfold handle, AuditService.record. repeat ws_step. Qed.

Lemma serve_evolves peer id s incoming : guar evolves (serve peer id s incoming).
Proof.
  induction incoming as [|raw rest IH]; [done|]. cbn [serve].
  repeat first [apply IH | apply handle_evolves | ws_step].
Qed.

Lemma hang_up_evolves peer id code s : guar evolves (hang_up peer id code s).
Proof. unfold hang_up, AuditService.record. repeat ws_step. Qed.

Lemma connected_evolves peer message id c incoming : guar evolves (connected settings peer message id c incoming).
Proof.
  apply guar_bind; [apply evolves_of_outcome|intros version].
  apply guar_bind; [apply controller_touch_evolves|intros _].
  apply guar_bind; [apply append_evolves|intros _].
  apply guar_bind; [apply deliver_evolves, ws_text_evolves|intros _].
  apply guar_bind; [apply new_session_evolves|intros s].
  apply guar_bind; [apply register_evolves|intros _].
  apply guar_finally; [apply serve_evolves|apply hang_up_evolves].
Qed.

Lemma controller_socket_evolves peer answer incoming : guar evolves (controller_socket settings peer answer incoming).
Proof.
  apply guar_bind; [apply handshake_evolves|]. intros [[[message id] c]|]; [apply connected_evolves|done].
Qed.

Lemma heartbeat_evolves {TR : Transport} {TE : TransportEvolves} s rounds : guar evolves (_heartbeat settings s rounds).
Proof.
  apply guar_catch; [|intros [] q He; cbn in He; by simplify_eq].
  induction rounds as [|n IH]; [done|]. apply guar_bind; [apply sleep_evolves|intros _].
  apply guar_bind; [apply evolves_reads|intros []].
  - apply deliver_evolves, ws_close_evolves.
  - apply guar_bind; [apply send_evolves|intros _; apply IH].
Qed.
End evolution.

(** ** What the handshake proves *)

Lemma outcome_bind_ok {A B} (o : outcome Exn A) (k : A -> outcome Exn B) b :
  (o ≫= k) = OK b <-> exists a, o = OK a /\ k a = OK b.
Proof. destruct o as [a|e]; cbn; split; [eauto|by intros (a' & [= ->] & H)|done|by intros (a' & [=] & _)]. Qed.

Lemma says_iff k text m : says k text m = true <-> dict_get k m = Some (JStr text).
Proof.
  unfold says, str_eqb. destruct (dict_get k m) as [[]|]; split; intros H; try done.
  - by apply bool_decide_eq_true_1 in H as ->.
  - injection H as ->. by apply bool_decide_eq_true_2.
Qed.

(** What the text of an authenticated answer holds. *)
Record claimed {PR : PyRepr} (raw : pystr) (message : dict) (code : pystr) (signature : bytes) : Prop := {
  cl_size : len raw <= MAX_MESSAGE_BYTES;
  cl_json : loads raw = Some (JObj message);
  cl_type : dict_get §"type" message = Some (JStr §"auth");
  cl_code : exists v, dict_get §"controller_code" message = Some v /\ py_str v = code;
  cl_signature : exists t, dict_get §"signature" message = Some (JStr t) /\ b64decode t = Some signature
}.

(** The answer names a controller that is not blocked, and carries a signature
    of this connection's nonce under that controller's key. *)
Record proven {ED : Ed25519} {PR : PyRepr} (d : Db) (raw : pystr) (nonce : bytes)
    (message : dict) (id : uuid) (c : controller_row) : Prop := {
  pv_row : controllers d !! id = Some c;
  pv_open : c_is_blocked c = false;
  pv_text : pg_text (c_code c) = true;
  pv_signed : exists signature m,
    claimed raw message (c_code c) signature
    /\ auth_message (c_code c) nonce = OK m /\ ed25519_verify (c_public_key c) signature m = true
}.

Section proofs.
Context {EN : Entropy} {PG : Postgres} {ED : Ed25519} {PR : PyRepr} {WS : WebSocket} (settings : Settings).

Lemma claims_ok raw message code signature :
  claims raw = OK (message, code, signature) <-> claimed raw message code signature.
Proof.
  unfold claims, json_loads, item, b64_value, EnrollmentService.b64_strict. split.
  - destruct (MAX_MESSAGE_BYTES <? len raw) eqn:E; [done|]. intros (v & Hv & H)%outcome_bind_ok.
    destruct (loads raw) as [v'|] eqn:El; [|by destruct (json_digit_limit raw)]. injection Hv as ->.
    apply outcome_bind_ok in H as (m & Hm & H). destruct v; try done. injection Hm as ->.
    destruct (says §"type" §"auth" m) eqn:Es; [|done]. apply outcome_bind_ok in H as (cv & Hc & H).
    apply outcome_bind_ok in H as (sv & Hs & H). apply outcome_bind_ok in H as (b & Hb & [= <- <- <-]).
    destruct (dict_get §"controller_code" m) eqn:Ec; simplify_eq.
    destruct (dict_get §"signature" m) as [[]|] eqn:Eg; simplify_eq; try done.
    destruct (b64decode s) eqn:Eb; simplify_eq. split; try done; [|by apply says_iff|by eexists|by eexists].
    by apply Z.ltb_ge.
  - intros [Hsize Hjson Htype (v & Hv & <-) (t & Ht & Hb)]. apply says_iff in Htype.
    rewrite (proj2 (Z.ltb_ge _ _) Hsize), Hjson. cbn.
    rewrite Htype. cbn. rewrite Hv. cbn. rewrite Ht. cbn. by rewrite Hb.
Qed.

Lemma run_attempt {A} (p : io A) w :
  run (attempt p) w = ((run p w).1, OK (run p w).2).
Proof.
  unfold attempt. rewrite run_catch, run_bind. by destruct (run p w) as [w1 [a|e]].
Qed.

Lemma pg_text_scalar s : pg_text s = true -> forallb is_scalar s = true.
Proof.
  unfold pg_text. rewrite !forallb_forall. intros H x Hx. apply H in Hx. by bool_to_prop.
Qed.

(** Authentication reads; it changes nothing. *)
Lemma authenticate_reads raw nonce w : exists r, run (authenticate raw nonce) w = (w, OK r).
Proof.
  unfold authenticate. destruct (claims raw) as [[[message code] signature]|e]; [|by eexists].
  rewrite run_bind, run_attempt. unfold find_controller, ControllerRepository.by_code.
  destruct (forallb is_scalar code), (pg_text code); cbn; try by eexists.
  destruct (fetchrow _ _) as [[id c]|]; [|by eexists]. destruct (c_is_blocked c); by eexists.
Qed.

Lemma find_by_code d id c code :
  db_ok d -> pg_text code = true ->
  fetchrow (fun c => str_eqb (c_code c) code) (controllers d) = Some (id, c)
  <-> controllers d !! id = Some c /\ c_code c = code.
Proof.
  intros Hd Ht. split.
  - intros [Hk Hc]%fetchrow_some. by apply bool_decide_eq_true_1 in Hc.
  - intros [Hk <-]. apply fetchrow_unique; [done|by apply str_eqb_refl|].
    intros k' v' Hk' E%bool_decide_eq_true_1. destruct (ok_controllers d Hd) as [Hu _]. by eapply Hu.
Qed.

Lemma authenticate_proves raw nonce w who message id c :
  db_ok (w_db w) -> run (authenticate raw nonce) w = (w, OK (who, OK (message, id, c))) ->
  proven (w_db w) raw nonce message id c.
Proof.
  intros Hd Hr. unfold authenticate in Hr. destruct (claims raw) as [[[m code] signature]|e] eqn:Ec; [|by simplify_eq].
  apply claims_ok in Ec. rewrite run_bind, run_attempt in Hr.
  unfold find_controller, ControllerRepository.by_code in Hr.
  destruct (forallb is_scalar code); [|by cbn in Hr; simplify_eq].
  destruct (pg_text code) eqn:Et; [|by cbn in Hr; simplify_eq]. rewrite run_query in Hr. cbn [fst snd] in Hr.
  destruct (fetchrow _ _) as [[id' c']|] eqn:Ef; [|by cbn in Hr; simplify_eq].
  apply find_by_code in Ef as [Hk <-]; [|done..].
  destruct (c_is_blocked c') eqn:Eb; cbn [run] in Hr; injection Hr as _ H; [done|].
  apply outcome_bind_ok in H as ([] & Hs & [= <- <- <-]). apply outcome_bind_ok in Hs as (am & Ha & Hv).
  destruct (ed25519_verify _ _ am) eqn:Ev; [|done]. split; try done. by exists signature, am.
Qed.

Lemma proof_authenticates raw nonce w message id c :
  db_ok (w_db w) -> proven (w_db w) raw nonce message id c ->
  run (authenticate raw nonce) w = (w, OK (Some id, OK (message, id, c))).
Proof.
  intros Hd. unfold authenticate. intros [Hk Hb Ht (signature & m & Hc & Ha & Hv)]. apply claims_ok in Hc as ->.
  rewrite run_bind, run_attempt. unfold find_controller, ControllerRepository.by_code.
  rewrite pg_text_scalar, Ht by done. rewrite run_query. cbn [fst snd].
  rewrite (proj2 (find_by_code _ id c (c_code c) Hd Ht)) by done. rewrite Hb. cbn [run].
  unfold check_signature. rewrite Ha. cbn. by rewrite Hv.
Qed.

(** C8 A controller is let in exactly when it proves who it is: the answer is
    within the size limit, is the JSON object of an authentication, names a
    controller that is registered and not blocked, and carries a signature under
    that controller's registered key of the message made of its code and the
    nonce of this very connection. *)
Theorem controller_authenticated_iff raw nonce w message id c :
  db_ok (w_db w) ->
  (exists who, run (authenticate raw nonce) w = (w, OK (who, OK (message, id, c))))
  <-> proven (w_db w) raw nonce message id c.
Proof.
  intros Hd. split.
  - intros (who & Hr). by eapply authenticate_proves.
  - intros Hp. eexists. by apply proof_authenticates.
Qed.

(** A recorded handshake is worth nothing on another connection or for
    another controller: with the nonces of the server, two signed messages are
    equal only if code and nonce are. *)
Theorem auth_message_binds code nonce code' nonce' m :
  length nonce = 32%nat -> length nonce' = 32%nat ->
  auth_message code nonce = OK m -> auth_message code' nonce' = OK m -> code = code' /\ nonce = nonce'.
Proof.
  unfold auth_message, encode_utf8. intros Hn Hn'.
  destruct (utf8_encode code) as [b|] eqn:E; [|done]. destruct (utf8_encode code') as [b'|] eqn:E'; [|done].
  cbn [mbind outcome_bind]. intros [= <-] [= Hm].
  apply app_inj_2 in Hm as [-> [= ->]]; [|cbn; congruence]. split; [|done]. by eapply utf8_encode_inj.
Qed.

(** *** A handshake and its ends *)

Context {WE : WebSocketEvolves}.

(** The world in which the challenge is out and the answer is awaited. *)
Definition challenged (w : World) : World :=
  let w1 := set_draws (S (w_draws w)) w in
  (ws_text (challenge_text (csprng (w_draws w) 32) (w_now w)) w1).1.

Definition challenge_sent (w : World) : option pystr :=
  (ws_text (challenge_text (csprng (w_draws w) 32) (w_now w)) (set_draws (S (w_draws w)) w)).2.

Lemma challenged_evolves w : evolves w (challenged w).
Proof.
  transitivity (set_draws (S (w_draws w)) w); [|apply ws_text_evolves].
  split; [done|reflexivity..].
Qed.

(** What follows the challenge. *)
Definition judged (peer : option pystr) (r : option uuid * outcome Exn (dict * uuid * controller_row))
    : io (option (dict * uuid * controller_row)) :=
  match r.2 with
  | OK a => Ret (Some a)
  | ERR e =>
      if handshake_caught e then
        _ ← AuditService.failure CONTROLLER_AUTH_FAILED
              (controller_audit r.1 peer [(§"reason", JStr (py_type_name e))]);
        _ ← deliver (ws_close 4401);
        Ret None
      else Raise e
  end.

Definition judge_answer (peer answer : option pystr) (nonce : bytes) : io (option (dict * uuid * controller_row)) :=
  match answer with
  | None => _ ← deliver (ws_close 4408); Ret None
  | Some raw => r ← authenticate raw nonce; judged peer r
  end.

Lemma run_handshake peer answer w :
  run (handshake peer answer) w =
  match challenge_sent w with
  | Some m => (challenged w, ERR (ERuntime m))
  | None => run (judge_answer peer answer (csprng (w_draws w) 32)) (challenged w)
  end.
Proof.
  unfold handshake, challenge_sent, challenged, token_bytes. rewrite run_bind, run_atomic, run_bind, run_reads.
  rewrite run_bind. unfold deliver at 1. rewrite run_atomic. cbn [w_now set_draws].
  destruct (ws_text _ _) as [w1 [m|]]; [done|]. cbn [fst snd]. unfold receive. by rewrite run_bind, run_reads.
Qed.

Lemma run_deliver f w : exists o, run (deliver f) w = ((f w).1, o).
Proof. unfold deliver. rewrite run_atomic. destruct (f w) as [w1 r]. by eexists. Qed.

(** Without an identity proved, what follows the challenge leaves the hub
    alone. *)
Lemma judge_quiet peer answer nonce w w' o :
  (forall k v, w_hub (ws_close k v).1 = w_hub v) ->
  run (judge_answer peer answer nonce) w = (w', o) -> (forall a, o <> OK (Some a)) -> w_hub w' = w_hub w.
Proof.
  intros Hclose Hr Hno. destruct answer as [raw|]; cbn [judge_answer] in Hr.
  - destruct (authenticate_reads raw nonce w) as [[who [a|e]] Ha]; rewrite run_bind, Ha in Hr;
      unfold judged in Hr; cbn [fst snd] in Hr; [by injection Hr as <- _|].
    destruct (handshake_caught e); [|by injection Hr as <- _].
    unfold AuditService.failure, AuditService.record in Hr. rewrite run_bind, run_append in Hr.
    destruct (AuditRepository.new_row _ _ _ _ _) as [r|]; [|by injection Hr as <- _].
    rewrite run_bind in Hr. destruct (run_deliver (ws_close 4401) (appended r w)) as [o' Ho].
    rewrite Ho in Hr. destruct o'; injection Hr as <- _; by rewrite Hclose.
  - rewrite run_bind in Hr. destruct (run_deliver (ws_close 4408) w) as [o' Ho].
    rewrite Ho in Hr. destruct o'; injection Hr as <- _; by rewrite Hclose.
Qed.

Lemma judge_proven peer answer nonce w w' message id c :
  db_ok (w_db w) -> run (judge_answer peer answer nonce) w = (w', OK (Some (message, id, c))) ->
  exists raw, answer = Some raw /\ w' = w /\ proven (w_db w) raw nonce message id c.
Proof.
  intros Hd Hr. destruct answer as [raw|]; cbn [judge_answer] in Hr; rewrite run_bind in Hr.
  - exists raw. split; [done|]. destruct (authenticate_reads raw nonce w) as [[who [a|e]] Ha]; rewrite Ha in Hr;
      unfold judged in Hr; cbn [fst snd] in Hr.
    + injection Hr as <- ->. split; [done|]. by eapply authenticate_proves.
    + destruct (handshake_caught e); [|done]. apply run_bind_ok in Hr as (w1 & n & _ & Hr).
      by apply run_bind_ok in Hr as (w2 & u & _ & [=]).
  - destruct (run_deliver (ws_close 4408) w) as [o' Ho]. rewrite Ho in Hr. by destruct o'.
Qed.

(** C9 Nobody gets in on the strength of something else: if a connection
    changed the hub at all, its answer to the challenge proved the identity of a
    registered controller, over a nonce drawn for this connection, at a moment
    between its start and the change. *)
Theorem only_proven_controllers_register peer answer incoming w w' o :
  (forall t v, w_hub (ws_text t v).1 = w_hub v) -> (forall k v, w_hub (ws_close k v).1 = w_hub v) ->
  db_ok (w_db w) -> run (controller_socket settings peer answer incoming) w = (w', o) ->
  w_hub w' <> w_hub w ->
  exists raw w1 message id c, answer = Some raw /\ evolves w w1
    /\ proven (w_db w1) raw (csprng (w_draws w) 32) message id c.
Proof.
  intros Htext Hclose Hd Hr Hne. unfold controller_socket in Hr. rewrite run_bind, run_handshake in Hr.
  assert (Hq : w_hub (challenged w) = w_hub w) by by unfold challenged; rewrite Htext.
  assert (Hd1 : db_ok (w_db (challenged w))) by (eapply le_ok, Hd; apply ev_db, challenged_evolves).
  destruct (challenge_sent w); [by injection Hr as <- _|].
  destruct (run (judge_answer peer answer (csprng (w_draws w) 32)) (challenged w)) as [w1 o1] eqn:Ea.
  destruct o1 as [[[[message id] c]|]|e].
  - apply judge_proven in Ea as (raw & -> & -> & Hp); [|done].
    exists raw, (challenged w), message, id, c. split; [done|]. split; [apply challenged_evolves|done].
  - apply judge_quiet in Ea; [|done..]. injection Hr as <- _. congruence.
  - apply judge_quiet in Ea; [|done..]. injection Hr as <- _. congruence.
Qed.

(** A controller that is turned away leaves a trace: an answered handshake
    that ends with the socket closed appended the row of a failed controller
    authentication, with the controller it was about when there is one. *)
Theorem refused_handshake_audited peer raw w w' :
  run (handshake peer (Some raw)) w = (w', OK None) ->
  exists who e r,
    run (authenticate raw (csprng (w_draws w) 32)) (challenged w) = (challenged w, OK (who, ERR e))
    /\ audit_log (w_db (appended r (challenged w)))
       = audit_log (w_db (challenged w)) ++ [audit_hash_chain (audit_log (w_db (challenged w))) r]
    /\ a_event_type r = §"controller.auth_failed" /\ a_outcome r = out_failure /\ a_controller_id r = who
    /\ evolves (appended r (challenged w)) w'.
Proof.
  rewrite run_handshake. destruct (challenge_sent w); [done|]. cbn [judge_answer].
  destruct (authenticate_reads raw (csprng (w_draws w) 32) (challenged w)) as [[who [a|e]] Ha];
    rewrite run_bind, Ha; unfold judged; cbn [fst snd]; [done|].
  destruct (handshake_caught e); [|done]. unfold AuditService.failure, AuditService.record.
  rewrite run_bind, run_append. destruct (AuditRepository.new_row _ _ _ _ _) as [r|] eqn:Er; [|done].
  apply new_row_some in Er as (_ & _ & Ev & Eo & _ & _ & _ & _ & Ec & _).
  rewrite run_bind. destruct (run_deliver (ws_close 4401) (appended r (challenged w))) as [o' Ho].
  rewrite Ho. destruct o' as [[]|]; [|done]. intros [= <-]. exists who, e, r. split; [done|]. split; [done|].
  split; [done|]. split; [|split; [done|apply ws_close_evolves]]. apply (inj Some). by rewrite <- Eo.
Qed.

(** Not every refusal does: an answer that is JSON but no object ends the
    connection in an [AttributeError] the handler does not name, with nothing
    written to the audit log and the socket left to the framework. *)
Theorem non_object_answer_unaudited peer raw v w :
  len raw <= MAX_MESSAGE_BYTES -> loads raw = Some v -> (forall m, v <> JObj m) -> challenge_sent w = None ->
  run (controller_socket settings peer (Some raw) []) w = (challenged w, ERR (EAttribute §"get")).
Proof.
  intros Hs Hj Hv Hc. unfold controller_socket. rewrite run_bind, run_handshake, Hc.
  unfold judge_answer, authenticate, claims, json_loads. rewrite (proj2 (Z.ltb_ge _ _) Hs), Hj. cbn [mbind outcome_bind].
  destruct v; try done. by destruct (Hv m).
Qed.

(** *** The message loop and the end of a connection *)

(** The registered sessions and what they wait for stay; futures are at most
    settled. *)
Definition sessions_kept (w w' : World) : Prop :=
  h_sessions (w_hub w') = h_sessions (w_hub w)
  /\ (forall s, pending_of (w_hub w') s = pending_of (w_hub w) s)
  /\ futures_grow (w_hub w) (w_hub w').

#[local] Instance sessions_kept_preorder : PreOrder sessions_kept.
Proof.
  split; [by intros w; split_and!|]. intros w1 w2 w3 (A1 & B1 & C1) (A2 & B2 & C2).
  split; [congruence|]. split; [intros s; by rewrite B2|by etransitivity].
Qed.

Lemma kept_frame {A} (f : World -> World * outcome Exn A) :
  (forall w, w_hub (f w).1 = w_hub w) -> guar sessions_kept (atomic f : io A).
Proof. intros Hf. apply guar_atomic. intros w. unfold sessions_kept. by rewrite Hf. Qed.

Lemma append_kept event outcome a : guar sessions_kept (AuditRepository.append event outcome a).
Proof.
  apply guar_bind; [|intros r]; apply kept_frame; intros w; cbn; [|done].
  by destruct (AuditRepository.new_row _ _ _ _ _).
Qed.

Lemma touch_kept id ip version : guar sessions_kept (ControllerRepository.touch_seen id ip version).
Proof. unfold ControllerRepository.touch_seen. repeat case_match; try done; by apply kept_frame. Qed.

Lemma pong_kept s :
  guar sessions_kept (atomic (fun w =>
    (set_hub (with_session_heap (alter (with_last_pong (w_now w)) s (h_session_heap (w_hub w))) (w_hub w)) w, OK tt))
    : io unit).
Proof.
  apply guar_atomic. intros w. split; [done|].
  split; [|intros f v Hf; exists v; split; [done|by right]]. intros s'. unfold pending_of. cbn.
  destruct (decide (s' = s)) as [->|]; [|by rewrite lookup_alter_ne]. rewrite lookup_alter_eq.
  by destruct (h_session_heap (w_hub w) !! s).
Qed.

Lemma resolve_kept s m : guar sessions_kept (ControllerHub.resolve s m).
Proof.
  apply guar_atomic. intros w. cbn. unfold sessions_kept. cbn. split_and!; [| |apply resolved_grows];
    unfold ControllerHub.resolved, settle, pending_of; repeat case_match; done.
Qed.

Lemma handle_kept peer id s message : guar sessions_kept (handle peer id s message).
Proof.
  unfold handle, AuditService.record. repeat case_match; try done.
  - apply guar_bind; [apply pong_kept|intros _; apply touch_kept].
  - apply resolve_kept.
  - apply guar_bind; [by destruct (text_param _)|]. intros [outcome|]; [|done].
    by apply guar_bind; [apply append_kept|].
Qed.

Lemma serve_kept peer id s incoming : guar sessions_kept (serve peer id s incoming).
Proof.
  induction incoming as [|raw rest IH]; [done|]. cbn [serve]. apply guar_bind; [by apply guar_reads; reflexivity|].
  intros raw'. case_match; [done|]. destruct (json_loads raw') as [v|e]; [|by destruct e].
  apply guar_bind; [by destruct (as_message v)|intros m].
  by apply guar_bind; [apply handle_kept|].
Qed.

Lemma disconnect_row_accepted peer id n seq now :
  from_option (fun p => is_Some (pg_inet p)) True peer ->
  is_Some (AuditRepository.new_row §"controller.disconnected" §"success"
    (controller_audit (Some id) peer [(§"connected_seconds", JInt n)]) seq now).
Proof.
  intros Hp. unfold AuditRepository.new_row. cbn [client_ip controller_audit].
  destruct peer as [p|]; [destruct Hp as [h Hh]; cbn in Hh; rewrite Hh|]; by eexists.
Qed.

(** The sessions an ended connection leaves: all but its own. *)
Lemma unregistered_sessions code s h code' s' :
  h_sessions (ControllerHub.unregistered code s h) !! code' = Some s'
  <-> h_sessions h !! code' = Some s' /\ (code', s') <> (code, s).
Proof.
  unfold ControllerHub.unregistered. case_bool_decide as E; cbn.
  - rewrite lookup_delete_Some. split; [|intros [Hs Hne]; split; [congruence|done]].
    intros [Hne Hs]. split; [done|]. congruence.
  - split; [|by intros [? _]]. intros Hs. split; [done|]. congruence.
Qed.

(** C33 The loop of a connection leaves the registered sessions alone, and when
    it ends, after whatever messages and with whatever exception, the [finally]
    block runs and the end of the loop is passed on. In whatever state it finds
    the hub, it takes this session and no other out of it: the code is offline
    if the session was still the one it named, and keeps naming the one that
    superseded it. Every command this session was waiting for is over, and one
    row, the disconnection, is appended to the audit log. (A connection that fails between the row [CONNECTED] and
    the [try] never comes here: it was not registered, and no row says that it
    ended.) *)
Theorem disconnect_cleans_up peer id code s incoming :
  from_option (fun p => is_Some (pg_inet p)) True peer ->
  (forall w w1 o, run (serve peer id s incoming) w = (w1, o) ->
     h_sessions (w_hub w1) = h_sessions (w_hub w)
     /\ run (finally (serve peer id s incoming) (hang_up peer id code s)) w
     = ((run (hang_up peer id code s) w1).1, o))
  /\ forall w1, exists w',
       run (hang_up peer id code s) w1 = (w', OK tt)
       /\ (forall code' s', h_sessions (w_hub w') !! code' = Some s'
            <-> h_sessions (w_hub w1) !! code' = Some s' /\ (code', s') <> (code, s))
       /\ (forall c f v, pending_of (w_hub w1) s !! c = Some f -> h_future_heap (w_hub w1) !! f = Some v ->
             is_done (w_hub w') f)
       /\ exists r, audit_log (w_db w') = audit_log (w_db w1) ++ [r]
            /\ a_event_type r = §"controller.disconnected" /\ a_controller_id r = Some id.
Proof.
  intros Hp. assert (Hh : forall w1, exists w', run (hang_up peer id code s) w1 = (w', OK tt)
    /\ w_hub w' = ControllerHub.unregistered code s (w_hub w1)
    /\ exists r, audit_log (w_db w') = audit_log (w_db w1) ++ [r]
         /\ a_event_type r = §"controller.disconnected" /\ a_controller_id r = Some id).
  { intros w1. unfold hang_up, ControllerHub.unregister, AuditService.record.
    rewrite run_bind, run_atomic, run_bind, run_reads, run_bind, run_append.
    change (event_value CONTROLLER_DISCONNECTED) with §"controller.disconnected".
    match goal with |- context [AuditRepository.new_row ?e ?x (controller_audit _ _ [(_, JInt ?n)]) ?q ?t] =>
      destruct (disconnect_row_accepted peer id n q t Hp) as [r Er] end.
    rewrite Er. cbn [run]. eexists. split; [done|]. split; [done|].
    apply new_row_some in Er as (_ & _ & Ev & _ & _ & _ & _ & _ & Ec & _). by eexists. }
  split.
  - intros w w1 o Hs.
    assert (sessions_kept w w1) as (Hk & _) by (eapply guar_run; [apply _|apply serve_kept|exact Hs]).
    split; [done|]. rewrite run_finally, Hs. by destruct (Hh w1) as (w' & -> & _).
  - intros w1. destruct (Hh w1) as (w' & Hr & Ehub & Hrow). exists w'. split; [done|]. rewrite Ehub. split; [|split; [|done]].
    + apply unregistered_sessions.
    + intros c f v Hc Hf. unfold ControllerHub.unregistered.
      apply fail_pending_done with c v; case_bool_decide; done.
Qed.
End proofs.

(** ** The heartbeat *)

Section heartbeat.
Context {WS : WebSocket} {TR : Transport} (settings : Settings).

Abbreviation last_pong s w := (from_option cs_last_pong_at 0 (h_session_heap (w_hub w) !! s)).

(** C34 A controller that falls silent is dropped: if its pings go out and no
    pong comes back, the heartbeat closes the socket once the last pong is older
    than the timeout, and no later than one period after that. *)
Theorem silent_controller_dropped s rounds w :
  let period := seconds (ws_heartbeat_seconds settings) in
  let timeout := seconds (ws_heartbeat_timeout_seconds settings) in
  (forall t v, (ws_send s t v).2 = None /\ w_now (ws_send s t v).1 = w_now v
               /\ last_pong s (ws_send s t v).1 = last_pong s v) ->
  0 < period -> w_now w - last_pong s w <= timeout ->
  timeout < w_now w - last_pong s w + Z.of_nat rounds * period ->
  exists w1,
    run (_heartbeat settings s rounds) w = run (catch (deliver (ws_close 4408)) heartbeat_caught) w1
    /\ last_pong s w1 = last_pong s w /\ timeout < w_now w1 - last_pong s w <= timeout + period.
Proof.
  intros period timeout Hsend Hp. revert w. induction rounds as [|n IH]; intros w Hle Hlt; [lia|].
  set (w1 := advance period w). assert (Hw1 : w_now w1 = w_now w + period) by done.
  assert (Hl1 : last_pong s w1 = last_pong s w) by done.
  assert (E : run (beats settings s (S n)) w =
    run (if timeout <? w_now w1 - last_pong s w1 then deliver (ws_close 4408)
         else _ ← send s ping_text; beats settings s n) w1).
  { cbn [beats]. rewrite run_bind. unfold sleep_usec. rewrite run_atomic. fold period.
    rewrite Z.max_r by lia. fold w1. rewrite run_bind, run_reads. fold timeout. done. }
  unfold _heartbeat. rewrite run_catch, E. clear E.
  destruct (timeout <? w_now w1 - last_pong s w1) eqn:Et.
  - bool_to_prop. exists w1. rewrite run_catch. split; [done|]. split; [done|]. lia.
  - bool_to_prop. destruct (Hsend ping_text w1) as (H1 & H2 & H3). rewrite run_bind. unfold send.
    rewrite run_atomic. destruct (ws_send s ping_text w1) as [w2 r]. cbn [fst snd] in *. subst r.
    destruct (IH w2) as (w3 & Hr & Hl & Hb); [lia|lia|]. exists w3.
    unfold _heartbeat in Hr. rewrite run_catch in Hr. split; [exact Hr|]. split; [congruence|]. lia.
Qed.
End heartbeat.

(** ** Witnesses *)

#[local] Existing Instances demo_entropy demo_postgres demo_repr demo_ed25519.

#[local] Instance demo_websocket : WebSocket := {|
  ws_text := fun _ w => (w, None); ws_close := fun _ w => (w, None); json_digit_limit := fun _ => false |}.

#[local] Instance demo_websocket_evolves : WebSocketEvolves.
Proof. split; intros; reflexivity. Qed.

Definition demo_nonce (w : World) : bytes := csprng (w_draws w) 32.

(** The answer of the demonstration's controller to a nonce. *)
Definition demo_answer (nonce : bytes) : pystr :=
  let signed := match auth_message §"ctrl-1" nonce with OK m => m | ERR _ => [] end in
  dumps true false None
    (JObj [(§"type", JStr §"auth"); (§"controller_code", JStr §"ctrl-1");
           (§"signature", JStr (b64encode (Sha256.sha256 (replicate 32 3 ++ signed))))]).

Lemma auth_message_binds_witness :
  §"ctrl-1" = §"ctrl-1" /\ demo_nonce demo_site = demo_nonce demo_site.
Proof.
  apply (auth_message_binds §"ctrl-1" (demo_nonce demo_site) §"ctrl-1" (demo_nonce demo_site)
    (AUTH_DOMAIN ++ §"ctrl-1" ++ [0] ++ demo_nonce demo_site)); reflexivity.
Defined.

Lemma only_proven_controllers_register_witness :
  exists raw w1 message id c, Some (demo_answer (demo_nonce demo_site)) = Some raw /\ evolves demo_site w1
    /\ proven (w_db w1) raw (demo_nonce demo_site) message id c.
Proof.
  destruct (run (controller_socket demo_settings None (Some (demo_answer (demo_nonce demo_site))) []) demo_site)
    as [w' o] eqn:E.
  apply (only_proven_controllers_register (WS:=demo_websocket) demo_settings None (Some (demo_answer (demo_nonce demo_site))) []
    demo_site w' o (fun _ _ => eq_refl) (fun _ _ => eq_refl) demo_site_ok E).
  intros Hh. assert (Hn : (h_next (w_hub (run (controller_socket demo_settings None
    (Some (demo_answer (demo_nonce demo_site))) []) demo_site).1) =? h_next (w_hub demo_site))%nat = false)
    by (vm_compute; reflexivity).
  rewrite E in Hn. cbn [fst] in Hn. rewrite Hh, Nat.eqb_refl in Hn. discriminate Hn.
Defined.

Lemma controller_authenticated_iff_witness :
  (exists message id c, proven (w_db demo_site) (demo_answer (demo_nonce demo_site)) (demo_nonce demo_site) message id c).
Proof.
  assert (Hok : match (run (authenticate (demo_answer (demo_nonce demo_site)) (demo_nonce demo_site)) demo_site).2 with
                OK (_, OK _) => true | _ => false end = true) by (vm_compute; reflexivity).
  destruct (authenticate_reads (demo_answer (demo_nonce demo_site)) (demo_nonce demo_site) demo_site) as [[who r] Hr].
  rewrite Hr in Hok. cbn [snd] in Hok. destruct r as [[[message id] c]|]; [|discriminate Hok].
  exists message, id, c. apply (controller_authenticated_iff _ _ _ _ _ _ demo_site_ok). exists who. exact Hr.
Defined.

Lemma refused_handshake_audited_witness :
  exists who e r,
    run (authenticate §"{}" (demo_nonce demo_site)) (challenged demo_site) = (challenged demo_site, OK (who, ERR e))
    /\ a_event_type r = §"controller.auth_failed" /\ a_controller_id r = who.
Proof.
  assert (Hok : match (run (handshake None (Some §"{}")) demo_site).2 with OK None => true | _ => false end = true)
    by (vm_compute; reflexivity).
  destruct (run (handshake None (Some §"{}")) demo_site) as [w' o] eqn:E. cbn [snd] in Hok.
  destruct o as [[a|]|e]; try discriminate Hok.
  destruct (refused_handshake_audited None §"{}" demo_site w' E) as (who & e & r & H1 & _ & H3 & _ & H5 & _).
  exists who, e, r. exact (conj H1 (conj H3 H5)).
Defined.

Lemma non_object_answer_unaudited_witness :
  run (controller_socket demo_settings None (Some §"[]") []) demo_site = (challenged demo_site, ERR (EAttribute §"get")).
Proof.
  apply (non_object_answer_unaudited demo_settings None §"[]" (JList []) demo_site);
    [vm_compute; discriminate|reflexivity|intros m; discriminate|reflexivity].
Defined.

(** The session was superseded by the session 1 meanwhile, which stays. *)
Lemma disconnect_cleans_up_witness :
  exists w', run (hang_up None 7 §"ctrl-1" 0)
               (set_hub (with_sessions (<[§"ctrl-1" := 1%nat]> (h_sessions demo_hub)) demo_hub) demo_world) = (w', OK tt)
    /\ h_sessions (w_hub w') !! §"ctrl-1" = Some 1%nat.
Proof.
  destruct (disconnect_cleans_up None 7 §"ctrl-1" 0 [§"{"; §"[]"] I) as [_ H].
  destruct (H (set_hub (with_sessions (<[§"ctrl-1" := 1%nat]> (h_sessions demo_hub)) demo_hub) demo_world))
    as (w' & Hr & Hs & _).
  exists w'. split; [exact Hr|]. apply Hs. split; [vm_compute; reflexivity|]. intros [=].
Defined.

(** The session of the demonstration has just answered a ping. *)
Definition demo_alive : World :=
  (run (handle None 7 0 [(§"type", JStr §"pong")]) (set_hub demo_hub demo_world)).1.

Lemma silent_controller_dropped_witness :
  exists w1,
    run (_heartbeat (TR:=demo_transport) demo_settings 0 3) demo_alive
    = run (catch (deliver (ws_close 4408)) heartbeat_caught) w1
    /\ seconds 60 < w_now w1 - w_now demo_world.
Proof.
  destruct (silent_controller_dropped (TR:=demo_transport) demo_settings 0 3 demo_alive) as (w1 & Hr & _ & Hb).
  - intros t v. split_and!; reflexivity.
  - reflexivity.
  - vm_compute. discriminate.
  - vm_compute. reflexivity.
  - exists w1. split; [exact Hr|]. exact (proj1 Hb).
Defined.
