(* ===== verification/Surface.v ===== *)
(** * What the exposed process cannot do

    The public application and the administration run in separate processes
    "because publishing them together would mean the internet-facing process
    holds code paths that mint permissions" ([admin/main.py]). [administered]
    collects what only the administration and the operator's scripts may write:
    grants, doors, the identity of controllers, the credentials and roles of
    users, and the enrolment codes that exist. [kept] says that a step leaves all
    of it alone; every operation of the public application is made of such
    steps. *)

From S2P Require Import Prelude Text Sha256 Clock Json Config Ip Errors Proc World Demo AuditLog Repos Schema Signer Security Proximity RateLimit Hub Evolve Auth Unlock Der Attestation Enrollment Api ControllerWs.

(** ** What is administered *)

Record administered := {
  ad_permissions : gmap Z permission_row;
  ad_doors : gmap Z door_row;
  ad_controllers : gmap Z (pystr * pystr * bytes * bytes * bool);
  ad_users : gmap Z (pystr * pystr * bool * bool);
  ad_codes : gmap Z (uuid * bytes * option uuid * instant)
}.

Definition controller_identity (c : controller_row) : pystr * pystr * bytes * bytes * bool :=
  (c_code c, c_name c, c_public_key c, c_beacon_key c, c_is_blocked c).
Definition user_authority (u : user_row) : pystr * pystr * bool * bool :=
  (u_username u, u_password_hash u, u_is_admin u, u_is_active u).
Definition code_terms (e : enrollment_row) : uuid * bytes * option uuid * instant :=
  (e_user_id e, e_code_hash e, e_created_by e, e_expires_at e).

Definition authority (d : Db) : administered := {|
  ad_permissions := permissions d; ad_doors := doors d; ad_controllers := controller_identity <$> controllers d;
  ad_users := user_authority <$> users d; ad_codes := code_terms <$> enrollment_codes d |}.

Definition kept (w w' : World) : Prop := authority (w_db w') = authority (w_db w).

#[global] Instance kept_preorder : PreOrder kept.
Proof. split; [done|]. intros a b c H1 H2. unfold kept in *. congruence. Qed.

Lemma fmap_alter_same {A B} (p : A -> B) (f : A -> A) k (m : gmap Z A) :
  (forall x, p (f x) = p x) -> p <$> alter f k m = p <$> m.
Proof.
  intros Hp. apply map_eq. intros i. rewrite !lookup_fmap. destruct (decide (i = k)) as [->|Hne].
  - rewrite lookup_alter_eq. destruct (m !! k); cbn; [by rewrite Hp|done].
  - by rewrite lookup_alter_ne.
Qed.

Lemma fmap_update_same {A B} (p : A -> B) (P : A -> bool) (f : A -> A) (m : gmap Z A) :
  (forall x, p (f x) = p x) -> p <$> update_where P f m = p <$> m.
Proof.
  intros Hp. apply map_eq. intros i. rewrite !lookup_fmap, lookup_update_where.
  destruct (m !! i) as [x|]; cbn; [|done]. destruct (P x); by rewrite ?Hp.
Qed.

(** *** And what only an issued pair adds

    A refresh token that still works; [calm] steps add none, and the random source
    moves forward only. *)

Definition usable (t : token_row) : bool :=
  bool_decide (t_kind t = refresh_kind) && negb (is_some (t_used_at t)) && negb (is_some (t_revoked_at t)).

Record calm (w w' : World) : Prop := {
  ca_draws : (w_draws w <= w_draws w')%nat;
  ca_tokens : forall id t', tokens (w_db w') !! id = Some t' -> t_kind t' = refresh_kind ->
    exists t, tokens (w_db w) !! id = Some t /\ t_kind t = refresh_kind /\ t_family_id t = t_family_id t'
              /\ (usable t' = true -> usable t = true)
}.

#[global] Instance calm_preorder : PreOrder calm.
Proof.
  split.
  - intros w. split; [done|]. intros id t Ht Hk. by exists t.
  - intros a b c [H1 H2] [H3 H4]. split; [lia|]. intros id t Ht Hk. destruct (H4 id t Ht Hk) as (t1 & Ht1 & Hk1 & Hf1 & Hu1).
    destruct (H2 id t1 Ht1 Hk1) as (t2 & Ht2 & Hk2 & Hf2 & Hu2). exists t2. split_and!; try done; [congruence|auto].
Qed.

Lemma calm_same w w' : (w_draws w <= w_draws w')%nat -> tokens (w_db w') = tokens (w_db w) -> calm w w'.
Proof. intros Hd E. split; [done|]. rewrite E. intros id t Ht Hk. by exists t. Qed.

Definition quiet (w w' : World) : Prop := kept w w' /\ calm w w'.

#[global] Instance quiet_preorder : PreOrder quiet.
Proof. split; [by split|]. intros a b c [] []. split; by etransitivity. Qed.

Lemma quiet_same w w' :
  (w_draws w <= w_draws w')%nat -> authority (w_db w') = authority (w_db w) -> tokens (w_db w') = tokens (w_db w) ->
  quiet w w'.
Proof. intros Hd Ha Ht. split; [done|by apply calm_same]. Qed.

(** A step that marks tokens used or revoked. *)
Lemma calm_marks (f : uuid -> token_row -> token_row) w w' :
  w_draws w' = w_draws w ->
  (forall id t, t_kind (f id t) = t_kind t /\ t_family_id (f id t) = t_family_id t
                /\ (usable (f id t) = true -> usable t = true)) ->
  (forall id, tokens (w_db w') !! id = f id <$> tokens (w_db w) !! id) -> calm w w'.
Proof.
  intros Hd Hf Ht. split; [lia|]. intros id t' Ht' Hk. rewrite Ht in Ht'. apply fmap_Some in Ht' as (t & Hrow & ->).
  destruct (Hf id t) as (H1 & H2 & H3). exists t. split_and!; try done; congruence.
Qed.

Lemma revoked_not_usable reason now t :
  t_kind (TokenRepository.revoked reason now t) = t_kind t
  /\ t_family_id (TokenRepository.revoked reason now t) = t_family_id t
  /\ usable (TokenRepository.revoked reason now t) = false.
Proof.
  unfold TokenRepository.revoked. destruct (t_revoked_at t) as [a|] eqn:E; (split; [done|]); (split; [done|]);
    unfold usable; cbn; rewrite ?E; cbn; by rewrite !andb_false_r.
Qed.

Lemma quiet_kept {A} (p : io A) : guar quiet p -> guar kept p.
Proof. apply guar_impl. by intros w w' []. Qed.
Lemma quiet_calm {A} (p : io A) : guar quiet p -> guar calm p.
Proof. apply guar_impl. by intros w w' []. Qed.

(** ** Steps *)

Lemma kept_reads {A} (f : World -> A) : guar quiet (reads f : io A).
Proof. by apply guar_reads. Qed.

Lemma kept_of_outcome {A} (o : outcome Exn A) : guar quiet (of_outcome o : io A).
Proof. by destruct o. Qed.

(** A step that computes a world whose administered part is the same by
    definition, whatever it branches on. *)
Ltac by_atomic :=
  apply guar_atomic; intros w; cbn; repeat case_match; simplify_eq;
  try (apply quiet_same; [cbn; lia|reflexivity|reflexivity]).

Create HintDb quiet.
#[export] Hint Resolve kept_reads kept_of_outcome : quiet.

Ltac quiet_step :=
  first [ done
        | solve [auto 1 with quiet]
        | apply guar_bind; [|intros ?]
        | apply guar_finally
        | apply guar_catch; [|intros ? ? ?; simplify_eq]
        | apply guar_of_option
        | progress cbv zeta
        | case_match ].
Ltac quiet_tac := repeat quiet_step.

Section statements.
Context {EN : Entropy} {PG : Postgres}.

Lemma query_quiet {A} (f : instant -> Db -> A) : guar quiet (query f).
Proof. by apply guar_reads. Qed.
#[local] Hint Resolve query_quiet : quiet.

Lemma by_username_quiet u : guar quiet (UserRepository.by_username u).
Proof. unfold UserRepository.by_username. quiet_tac. Qed.

Lemma touch_login_quiet id : guar quiet (UserRepository.touch_login id).
Proof.
  apply guar_atomic. intros w. apply quiet_same; [done| |done]. unfold authority. cbn. f_equal. by apply fmap_alter_same.
Qed.

Lemma device_touch_quiet id : guar quiet (DeviceRepository.touch_seen id).
Proof. by_atomic. Qed.

Lemma devices_create_quiet user label key platform version status det :
  guar quiet (DeviceRepository.create user label key platform version status det).
Proof. unfold DeviceRepository.create. repeat case_match; try done; by_atomic. Qed.

Lemma claim_quiet h : guar quiet (EnrollmentRepository.claim h).
Proof.
  apply guar_atomic. intros w. apply quiet_same; [done| |done]. unfold authority. cbn. f_equal. by apply fmap_update_same.
Qed.

Lemma attach_device_quiet id dev : guar quiet (EnrollmentRepository.attach_device id dev).
Proof.
  apply guar_atomic. intros w. cbn. case_match; [done|]. apply quiet_same; [done| |done]. unfold authority. cbn. f_equal. by apply fmap_alter_same.
Qed.

Lemma controller_touch_quiet id ip fw : guar quiet (ControllerRepository.touch_seen id ip fw).
Proof.
  unfold ControllerRepository.touch_seen. repeat case_match; try done; apply guar_atomic; intros w;
    apply quiet_same; try done; unfold authority; cbn; f_equal; by apply fmap_alter_same.
Qed.

Lemma by_code_quiet c : guar quiet (ControllerRepository.by_code c).
Proof. unfold ControllerRepository.by_code. quiet_tac. Qed.

Lemma effective_quiet u d : guar quiet (PermissionRepository.effective u d).
Proof. unfold PermissionRepository.effective. quiet_tac. Qed.

(** Inserting a token is the one step that may add a refresh token. *)
Lemma tokens_insert_kept family user device kind h ttl parent :
  guar kept (TokenRepository.insert family user device kind h ttl parent).
Proof. apply guar_atomic. intros w. unfold kept. cbn. by case_match. Qed.
Lemma access_insert_calm family user device h ttl parent :
  guar calm (TokenRepository.insert family user device access_kind h ttl parent).
Proof.
  apply guar_atomic. intros w. cbn. case_match; [by apply calm_same; [cbn; lia|]|]. cbn. split; [cbn; lia|]. cbn. intros id t.
  rewrite lookup_insert_Some. intros [[<- <-]|[_ Ht]] Hk; [discriminate Hk|]. by exists t.
Qed.
Lemma mark_used_quiet id : guar quiet (TokenRepository.mark_used id).
Proof.
  apply guar_atomic. intros w. split; [done|]. cbn.
  eapply (calm_marks (fun k t => if decide (k = id) then TokenRepository.used (w_now w) t else t)); [done| |].
  - intros k t. destruct (decide (k = id)); [|done]. split_and!; try done. unfold usable, TokenRepository.used. cbn.
    destruct (t_used_at t); [done|]. by rewrite andb_false_r.
  - intros k. cbn. destruct (decide (k = id)) as [->|]; [by rewrite lookup_alter_eq|rewrite lookup_alter_ne by done].
    by destruct (tokens _ !! k).
Qed.
Lemma revoke_where_quiet P r : guar quiet (TokenRepository.revoke_where P r).
Proof.
  apply guar_atomic. intros w. split; [done|]. cbn.
  eapply (calm_marks (fun k t => if P t then TokenRepository.revoked r (w_now w) t else t)); [done| |].
  - intros k t. destruct (P t); [|done]. destruct (revoked_not_usable r (w_now w) t) as (H1 & H2 & H3). by rewrite H1, H2, H3.
  - intros k. cbn. rewrite lookup_update_where. done.
Qed.
Lemma token_revoke_quiet id r : guar quiet (TokenRepository.revoke id r).
Proof.
  apply guar_atomic. intros w. split; [done|]. cbn.
  eapply (calm_marks (fun k t => if decide (k = id) then TokenRepository.revoked r (w_now w) t else t)); [done| |].
  - intros k t. destruct (decide (k = id)); [|done].
    destruct (revoked_not_usable r (w_now w) t) as (H1 & H2 & H3). by rewrite H1, H2, H3.
  - intros k. cbn. destruct (decide (k = id)) as [->|]; [by rewrite lookup_alter_eq|rewrite lookup_alter_ne by done].
    by destruct (tokens _ !! k).
Qed.

Lemma record_failure_quiet s subj ep ip : guar quiet (RateLimitRepository.record_failure s subj ep ip).
Proof. unfold RateLimitRepository.record_failure. repeat case_match; try done; by_atomic. Qed.
Lemma failure_count_quiet s subj win ep : guar quiet (RateLimitRepository.failure_count s subj win ep).
Proof. unfold RateLimitRepository.failure_count. quiet_tac. Qed.

Lemma append_quiet event outcome a : guar quiet (AuditRepository.append event outcome a).
Proof. apply guar_bind; [|intros r]; by_atomic. Qed.
Lemma latest_quiet P n : guar quiet (AuditRepository.latest P n).
Proof. unfold AuditRepository.latest. quiet_tac. Qed.
End statements.

#[export] Hint Resolve query_quiet by_username_quiet touch_login_quiet device_touch_quiet devices_create_quiet claim_quiet
  attach_device_quiet controller_touch_quiet by_code_quiet effective_quiet mark_used_quiet
  token_revoke_quiet revoke_where_quiet record_failure_quiet failure_count_quiet append_quiet latest_quiet : quiet.

(** ** Hub, security, limits, signer *)

(** Nobody administers while a send is awaited. *)
Class TransportQuiet {TR : Transport} := ws_send_quiet : forall s t w, quiet w (ws_send s t w).1.
Class WebSocketQuiet {WS : WebSocket} := {
  ws_text_quiet : forall t w, quiet w (ws_text t w).1;
  ws_close_quiet : forall c w, quiet w (ws_close c w).1
}.

Section parts.
Context {EN : Entropy} {PG : Postgres} {AR : Argon2} {PR : PyRepr} {SK : SignerSocket} (settings : Settings).

Lemma register_quiet s : guar quiet (ControllerHub.register s).
Proof. by_atomic. Qed.
Lemma unregister_quiet code s : guar quiet (ControllerHub.unregister code s).
Proof. by_atomic. Qed.
Lemma resolve_quiet s m : guar quiet (ControllerHub.resolve s m).
Proof. by_atomic. Qed.
Lemma new_session_quiet id code ip fw : guar quiet (new_session id code ip fw).
Proof. by_atomic. Qed.
Lemma wait_for_quiet f t : guar quiet (ControllerHub.wait_for f t).
Proof. by_atomic. Qed.

Lemma sleep_quiet d : guar quiet (sleep_usec d).
Proof. by_atomic. Qed.
Lemma new_token_quiet : guar quiet new_token.
Proof. by_atomic. Qed.
Lemma hash_password_quiet p : guar quiet (hash_password settings p).
Proof. unfold hash_password. repeat case_match; try done; by_atomic. Qed.
Lemma burn_quiet : guar quiet (burn_password_time settings).
Proof. apply guar_bind; [by_atomic|intros st]. quiet_tac. Qed.

Lemma fixed_duration_quiet {A} ms (body : io A) : guar quiet body -> guar quiet (fixed_duration ms body).
Proof.
  intros Hb. apply guar_bind; [apply kept_reads|intros t]. apply guar_finally; [done|].
  apply guar_bind; [apply kept_reads|]. intros e. cbv zeta. destruct (0 <? _); [apply sleep_quiet|done].
Qed.

Lemma remember_quiet st subj : guar quiet (RateLimiter._remember settings st subj).
Proof. by_atomic. Qed.
Lemma check_login_quiet u ip : guar quiet (RateLimiter.check_login settings u ip).
Proof. unfold RateLimiter.check_login. quiet_tac. Qed.
Lemma check_unlock_quiet u d : guar quiet (RateLimiter.check_unlock settings u d).
Proof. unfold RateLimiter.check_unlock, RateLimitRepository.unlock_count. quiet_tac. Qed.
#[local] Hint Resolve remember_quiet : quiet.
Lemma record_login_failure_quiet u ip ep : guar quiet (RateLimiter.record_login_failure settings u ip ep).
Proof. unfold RateLimiter.record_login_failure. quiet_tac. Qed.
Lemma apply_delay_quiet d : guar quiet (RateLimiter.apply_delay d).
Proof. unfold RateLimiter.apply_delay. destruct (0 <? _); [apply sleep_quiet|done]. Qed.

Lemma request_quiet p : guar quiet (SignerClient._request p).
Proof. apply guar_bind; [by_atomic|]. intros [m|[|x l]]; quiet_tac. Qed.
#[local] Hint Resolve request_quiet : quiet.
Lemma sign_command_quiet c : guar quiet (SignerClient.sign_command c).
Proof. unfold SignerClient.sign_command, SignerClient.unpack, SignerClient.checked_response. quiet_tac. Qed.
Lemma public_key_quiet : guar quiet SignerClient.public_key.
Proof. unfold SignerClient.public_key, SignerClient.unpack, SignerClient.checked_response. quiet_tac. Qed.

Context {TR : Transport} {TK : TransportQuiet}.

Lemma send_quiet s t : guar quiet (send s t).
Proof. apply guar_atomic. intros w. pose proof (ws_send_quiet s t w) as H. by destruct (ws_send s t w). Qed.

Lemma send_command_quiet code envelope timeout : guar quiet (ControllerHub.send_command code envelope timeout).
Proof.
  apply guar_bind; [by_atomic|intros [[s f] c]]. apply guar_finally; [apply guar_catch|by_atomic].
  - apply guar_bind; [apply send_quiet|intros _; apply wait_for_quiet].
  - intros e q He. destruct e; simplify_eq. done.
Qed.
End parts.

#[export] Hint Resolve register_quiet unregister_quiet resolve_quiet new_session_quiet wait_for_quiet sleep_quiet
  new_token_quiet hash_password_quiet burn_quiet check_login_quiet check_unlock_quiet record_login_failure_quiet
  apply_delay_quiet sign_command_quiet public_key_quiet send_quiet send_command_quiet : quiet.

(** ** Judgements that quiet programs satisfy

    What is shown of the programs that issue tokens is shown once for every
    judgement that follows the structure of a program and holds of the quiet
    ones: for [guar kept], and for "keeps an invariant when it runs alone". *)

Class Framed (J : forall A, io A -> Prop) := {
  j_quiet : forall A (p : io A), guar quiet p -> J A p;
  j_bind : forall A B (p : io A) (k : A -> io B), J A p -> (forall a, J B (k a)) -> J B (p ≫= k);
  j_catch : forall A (p : io A) h, J A p -> (forall e q, h e = Some q -> J A q) -> J A (catch p h);
  j_finally : forall A (p : io A) q, J A p -> J unit q -> J A (finally p q)
}.

#[global] Instance kept_framed : Framed (fun A p => guar kept p).
Proof.
  split; intros.
  - by apply quiet_kept.
  - by apply guar_bind.
  - by apply guar_catch.
  - by apply guar_finally.
Qed.

(** Alone, [p] leaves [I] true, however it ends. *)
Definition keeps (I : World -> Prop) A (p : io A) : Prop := forall w w' o, I w -> run p w = (w', o) -> I w'.

Lemma keeps_framed I : (forall w w', quiet w w' -> I w -> I w') -> Framed (keeps I).
Proof.
  intros HI. split.
  - intros A p Hp w w' o Hw Hr. eapply HI, Hw. by eapply (guar_run quiet).
  - intros A B p k Hp Hk w w' o Hw. rewrite run_bind. destruct (run p w) as [w1 [a|e]] eqn:E.
    + intros Hr. eapply Hk, Hr. by eapply Hp.
    + intros [= <- _]. by eapply Hp.
  - intros A p h Hp Hh w w' o Hw. rewrite run_catch. destruct (run p w) as [w1 [a|e]] eqn:E.
    + intros [= <- _]. by eapply Hp.
    + destruct (h e) as [q|] eqn:Eh; [intros Hr; eapply (Hh e q Eh), Hr|intros [= <- _]]; by eapply Hp.
  - intros A p q Hp Hq w w' o Hw. rewrite run_finally. destruct (run p w) as [w1 o1] eqn:E.
    destruct (run q w1) as [w2 [u|e]] eqn:E2; intros [= <- _]; eapply Hq, E2; by eapply Hp.
Qed.

Ltac framed_step :=
  first [ assumption
        | solve [eauto 1]
        | solve [apply j_quiet; first [done | auto 1 with quiet]]
        | apply j_bind; [|intros ?]
        | apply j_catch; [|intros ? ? ?; simplify_eq]
        | progress cbv zeta
        | case_match ].
Ltac framed_tac := repeat framed_step.

(** ** The services *)

Section services.
Context {EN : Entropy} {PG : Postgres} {AR : Argon2} {PR : PyRepr} {X5 : X509} {SK : SignerSocket} {TR : Transport}
  {TK : TransportQuiet} (settings : Settings).

Lemma success_quiet ev a : guar quiet (AuditService.success ev a).
Proof. apply append_quiet. Qed.
Lemma failure_quiet ev a : guar quiet (AuditService.failure ev a).
Proof. apply append_quiet. Qed.
Lemma denied_quiet ev a : guar quiet (AuditService.denied ev a).
Proof. apply append_quiet. Qed.
#[local] Hint Resolve success_quiet failure_quiet denied_quiet : quiet.

Lemma issue_pair_kept u d f p : guar kept (AuthService.issue_pair settings u d f p).
Proof.
  apply guar_bind; [destruct f; [done|apply quiet_kept; by_atomic]|intros family].
  do 2 (apply guar_bind; [apply quiet_kept, new_token_quiet|intros ?]).
  do 2 (apply guar_bind; [apply quiet_kept, kept_of_outcome|intros ?]; apply guar_bind; [apply tokens_insert_kept|intros _]). done.
Qed.

Lemma login_framed (J : forall A, io A -> Prop) `{!Framed J} u p d ip :
  (forall user device, J _ (AuthService.issue_pair settings user device None None)) ->
  J _ (AuthService.login settings u p d ip).
Proof. intros Hi. unfold AuthService.login, auth_error, DeviceRepository.by_id. framed_tac. Qed.

Lemma refresh_replay_quiet r u ip : guar quiet (AuthService.refresh_replay r u ip).
Proof. unfold AuthService.refresh_replay, TokenRepository.revoke_family, auth_error. quiet_tac. Qed.

Lemma refresh_kept t ip : guar kept (AuthService.refresh settings t ip).
Proof.
  apply guar_bind; [apply quiet_kept, kept_of_outcome|intros h]. apply guar_bind; [apply quiet_kept, query_quiet|intros [r|]; [|done]].
  unfold AuthService.refresh_found. destruct (t_used_at _); [apply quiet_kept, refresh_replay_quiet|].
  apply guar_bind; [apply quiet_kept, kept_reads|intros now]. destruct (negb _); [done|].
  apply guar_bind; [apply quiet_kept, mark_used_quiet|intros _]. apply guar_bind; [apply quiet_kept, token_revoke_quiet|intros _].
  apply guar_bind; [apply issue_pair_kept|intros pair]. by apply guar_bind; [apply quiet_kept, success_quiet|].
Qed.
Lemma resolve_token_quiet t : guar quiet (AuthService.resolve_access_token settings t).
Proof. unfold AuthService.resolve_access_token, auth_error, TokenRepository.lookup. quiet_tac. Qed.
Lemma logout_quiet s all ip : guar quiet (AuthService.logout s all ip).
Proof. unfold AuthService.logout, TokenRepository.revoke_family, TokenRepository.revoke_device_sessions. quiet_tac. Qed.

Lemma deny_quiet {A} base r d ex cid : guar quiet (UnlockService._deny base r d ex cid : io A).
Proof. by apply guar_bind; [apply append_quiet|]. Qed.
Lemma fail_quiet {A} base door id r : guar quiet (UnlockService._fail base door id r : io A).
Proof. by apply guar_bind; [apply append_quiet|]. Qed.
#[local] Hint Resolve deny_quiet fail_quiet : quiet.

Lemma unlock_quiet user device door beacon ip : guar quiet (UnlockService.unlock settings user device door beacon ip).
Proof.
  apply guar_bind; [apply append_quiet|intros _]. apply guar_bind.
  - unfold UnlockService.unlock_checks, AuditService.record. quiet_tac.
  - intros g. apply guar_bind; [by_atomic|intros [[id issued] nonce]].
    apply guar_bind; [apply guar_catch; [apply sign_command_quiet|intros [] q He; simplify_eq; apply deny_quiet]|intros sk].
    apply guar_bind; [apply append_quiet|intros _].
    apply guar_bind; [apply guar_catch; [by apply send_command_quiet|intros [] q He; simplify_eq; apply fail_quiet]|intros ack].
    apply guar_bind; [destruct (negb _); [apply fail_quiet|done]|intros _].
    by apply guar_bind; [apply append_quiet|].
Qed.

Lemma challenge_issue_quiet h : guar quiet (ChallengeStore.issue h).
Proof. by_atomic. Qed.
Lemma challenge_take_quiet h : guar quiet (ChallengeStore.take h).
Proof. by_atomic. Qed.
#[local] Hint Resolve challenge_issue_quiet challenge_take_quiet : quiet.

Lemma issue_challenge_quiet c : guar quiet (EnrollmentService.issue_challenge c).
Proof. unfold EnrollmentService.issue_challenge. quiet_tac. Qed.

Lemma enroll_framed (J : forall A, io A -> Prop) `{!Framed J} c l k ch t p a ip :
  (forall user device, J _ (AuthService.issue_pair settings user device None None)) ->
  J _ (EnrollmentService.enroll settings c l k ch t p a ip).
Proof.
  intros Hi. unfold EnrollmentService.enroll, EnrollmentService.check_challenge, EnrollmentService.attestation_detail,
    EnrollmentService.create_device, EnrollmentService.denied_with. framed_tac.
Qed.
End services.

#[export] Hint Resolve success_quiet failure_quiet denied_quiet resolve_token_quiet logout_quiet
  unlock_quiet issue_challenge_quiet fixed_duration_quiet : quiet.

(** ** The endpoints *)

Section endpoints.
Context {EN : Entropy} {PG : Postgres} {AR : Argon2} {PR : PyRepr} {X5 : X509} {SK : SignerSocket} {TR : Transport}
  {TK : TransportQuiet} {ED : Ed25519} {WS : WebSocket} {WK : WebSocketQuiet} (settings : Settings).

Lemma to_http_quiet {A} (p : io A) : guar quiet p -> guar quiet (catch p api_to_http) /\ guar quiet (catch p auth_to_http).
Proof.
  intros Hp. split; (apply guar_catch; [done|]); intros e q He; unfold api_to_http, auth_to_http in He;
    repeat case_match; by simplify_eq.
Qed.

Lemma with_session_quiet {A} authorization (body : Session -> io A) :
  (forall s, guar quiet (body s)) -> guar quiet (with_session settings authorization body).
Proof.
  intros Hb. apply guar_bind; [|done]. unfold current_session. destruct (bearer authorization); [|done].
  apply to_http_quiet, resolve_token_quiet.
Qed.

Lemma login_failed_quiet username device ip decision reason :
  guar quiet (login_failed settings username device ip decision reason).
Proof. unfold login_failed. quiet_tac. Qed.

Lemma deliver_quiet f : (forall w, quiet w (f w).1) -> guar quiet (deliver f).
Proof. intros Hf. apply guar_atomic. intros w. specialize (Hf w). by destruct (f w). Qed.

Ltac ws_step :=
  first [ apply deliver_quiet; intros ?; solve [apply ws_text_quiet | apply ws_close_quiet] | quiet_step ].

Lemma handshake_quiet peer answer : guar quiet (handshake peer answer).
Proof.
  apply guar_bind; [by_atomic|intros nonce]. unfold receive, authenticate, find_controller, attempt. repeat ws_step.
Qed.

Lemma handle_kept_by peer id s message : guar quiet (handle peer id s message).
Proof.
  unfold handle, AuditService.record. case_match; [apply guar_bind; [by_atomic|intros _; apply controller_touch_quiet]|].
  repeat ws_step.
Qed.

Lemma serve_kept_by peer id s incoming : guar quiet (serve peer id s incoming).
Proof.
  induction incoming as [|raw rest IH]; [done|]. cbn [serve]. unfold receive.
  repeat first [apply IH | apply handle_kept_by | ws_step].
Qed.

Lemma controller_socket_quiet peer answer incoming : guar quiet (controller_socket settings peer answer incoming).
Proof.
  apply guar_bind; [apply handshake_quiet|]. intros [[[message id] c]|]; [|done].
  apply guar_bind; [apply kept_of_outcome|intros version].
  apply guar_bind; [apply controller_touch_quiet|intros _]. apply guar_bind; [apply append_quiet|intros _].
  apply guar_bind; [apply deliver_quiet, ws_text_quiet|intros _]. apply guar_bind; [apply new_session_quiet|intros s].
  apply guar_bind; [apply register_quiet|intros _]. apply guar_finally; [apply serve_kept_by|].
  unfold hang_up, AuditService.record. repeat ws_step.
Qed.

Lemma heartbeat_quiet s rounds : guar quiet (_heartbeat settings s rounds).
Proof.
  apply guar_catch; [|intros [] q He; cbn in He; by simplify_eq].
  induction rounds as [|n IH]; [done|]. apply guar_bind; [apply sleep_quiet|intros _].
  apply guar_bind; [apply kept_reads|intros []]; [apply deliver_quiet, ws_close_quiet|].
  apply guar_bind; [by apply send_quiet|intros _; apply IH].
Qed.

(** The endpoints of the public application. *)
Section issuing.
Context (J : forall A, io A -> Prop) `{!Framed J}.
Hypothesis issue_ok : forall user device, J _ (AuthService.issue_pair settings user device None None).
Hypothesis refresh_ok : forall token ip, J _ (AuthService.refresh settings token ip).

Lemma fixed_duration_framed {A} ms (body : io A) : J _ body -> J _ (fixed_duration ms body).
Proof.
  intros Hb. apply j_bind; [apply j_quiet, kept_reads|intros t]. apply j_finally; [done|]. apply j_quiet.
  apply guar_bind; [apply kept_reads|]. intros e. cbv zeta. destruct (0 <? _); [apply sleep_quiet|done].
Qed.

Lemma to_http_framed {A} (p : io A) : J _ p -> J _ (catch p api_to_http) /\ J _ (catch p auth_to_http).
Proof.
  intros Hp. split; (apply j_catch; [done|]); intros e q He; unfold api_to_http, auth_to_http in He;
    repeat case_match; simplify_eq; by apply j_quiet.
Qed.

Lemma api_enroll_framed request code label key chain token challenge version :
  J _ (enroll settings request code label key chain token challenge version).
Proof.
  apply j_bind; [apply j_quiet, kept_of_outcome|intros ip]. by apply fixed_duration_framed, to_http_framed, enroll_framed.
Qed.

Lemma api_login_framed request username password device : J _ (Api.login settings request username password device).
Proof.
  apply j_bind; [apply j_quiet, kept_of_outcome|intros ip]. apply j_bind; [apply j_quiet, check_login_quiet|intros decision].
  destruct (negb _); [apply j_quiet; by apply guar_bind; [apply append_quiet|]|].
  apply fixed_duration_framed, j_catch; [by apply login_framed|]. intros e q He. repeat case_match; simplify_eq.
  apply j_quiet, login_failed_quiet.
Qed.

Lemma api_refresh_framed request token : J _ (Api.refresh settings request token).
Proof.
  apply j_bind; [apply j_quiet, kept_of_outcome|intros ip]. by apply fixed_duration_framed, to_http_framed, refresh_ok.
Qed.
End issuing.

Lemma api_logout_quiet authorization request all : guar quiet (Api.logout settings authorization request all).
Proof.
  apply with_session_quiet. intros s. apply guar_bind; [apply kept_of_outcome|intros ip].
  by apply guar_bind; [apply logout_quiet|].
Qed.

Lemma list_doors_quiet authorization : guar quiet (list_doors settings authorization).
Proof. apply with_session_quiet. intros s. unfold DoorRepository.list_for_user. quiet_tac. Qed.

Lemma unlock_door_quiet authorization request door beacon :
  guar quiet (unlock_door settings authorization request door beacon).
Proof.
  apply with_session_quiet. intros s. apply guar_bind; [apply kept_of_outcome|intros ip].
  by apply to_http_quiet, unlock_quiet.
Qed.

Lemma access_history_quiet authorization limit : guar quiet (access_history settings authorization limit).
Proof. apply with_session_quiet. intros s. apply latest_quiet. Qed.

Lemma ready_quiet : guar quiet ready.
Proof.
  apply guar_bind; [apply guar_catch; [by apply guar_bind; [apply public_key_quiet|]|intros [] q He; by simplify_eq]|].
  intros ok. apply guar_bind; [apply query_quiet|intros status]. by apply guar_bind; [apply kept_reads|].
Qed.
End endpoints.
