(* ===== verification/Family.v ===== *)
(** * Token families: one refresh token that works

    A family is one login carried on by rotation. Served one request at a time,
    a family never has two refresh tokens that work: an issued pair starts a
    family of its own, and a rotation retires the token it was given before it
    adds the next. ([Auth.concurrent_refreshes_both_succeed] is what two
    interleaved requests can do.) *)

From S2P Require Import Prelude Text Sha256 Clock Json Config Ip Errors Proc World Demo AuditLog Repos Schema Signer Security Proximity RateLimit Hub Evolve Auth Unlock Der Attestation Enrollment Api ControllerWs Surface.

(** At most one refresh token of each family is usable. *)
Definition single_line (d : Db) : Prop :=
  forall id1 t1 id2 t2, tokens d !! id1 = Some t1 -> tokens d !! id2 = Some t2 ->
    usable t1 = true -> usable t2 = true -> t_family_id t1 = t_family_id t2 -> id1 = id2.

Lemma usable_refresh t : usable t = true -> t_kind t = refresh_kind.
Proof. unfold usable. intros H. by bool_to_prop. Qed.

Section family.
Context {EN : Entropy} {PG : Postgres} (settings : Settings).

(** The identifier made of a draw of the random source. *)
Definition uuid_at (i : nat) : uuid := uuid4_of_bytes (csprng i 16).

(** The first [limit] draws make different identifiers. *)
Definition no_repeats (limit : nat) : Prop := forall i j, (i < j < limit)%nat -> uuid_at j <> uuid_at i.

Lemma no_repeats_checked limit :
  forallb (fun j => forallb (fun i => (j <=? i)%nat || negb (uuid_at j =? uuid_at i)) (seq 0 limit)) (seq 0 limit) = true ->
  no_repeats limit.
Proof.
  intros H i j Hij E. rewrite forallb_forall in H. specialize (H j ltac:(apply in_seq; lia)). rewrite forallb_forall in H.
  specialize (H i ltac:(apply in_seq; lia)). rewrite E, Z.eqb_refl, orb_false_r in H. apply Nat.leb_le in H. lia.
Qed.

Context (limit : nat) (unrepeated : no_repeats limit).

(** The family of every refresh token was drawn. *)
Definition families_drawn (w : World) : Prop :=
  forall id t, tokens (w_db w) !! id = Some t -> t_kind t = refresh_kind ->
    exists i, (i < w_draws w)%nat /\ t_family_id t = uuid_at i.

Definition lines_ok (w : World) : Prop := (w_draws w <= limit)%nat -> single_line (w_db w) /\ families_drawn w.

(** Nothing in [family] works, and it is no family of the future. *)
Definition retired (family : uuid) (w : World) : Prop :=
  (w_draws w <= limit)%nat ->
  (exists i, (i < w_draws w)%nat /\ family = uuid_at i)
  /\ forall id t, tokens (w_db w) !! id = Some t -> usable t = true -> t_family_id t <> family.

Lemma calm_lines w w' : calm w w' -> lines_ok w -> lines_ok w'.
Proof.
  intros [Hd Ht] Hi Hl. destruct (Hi ltac:(lia)) as [Hs Hf]. split.
  - intros id1 t1 id2 t2 H1 H2 U1 U2 E. destruct (Ht _ _ H1 (usable_refresh _ U1)) as (s1 & G1 & _ & F1 & V1).
    destruct (Ht _ _ H2 (usable_refresh _ U2)) as (s2 & G2 & _ & F2 & V2). eapply Hs; try done; [auto..|congruence].
  - intros id t H1 Hk. destruct (Ht _ _ H1 Hk) as (s & G & K & F & _). destruct (Hf _ _ G K) as (i & Hi' & E).
    exists i. split; [lia|congruence].
Qed.

Lemma calm_retired family w w' : calm w w' -> retired family w -> retired family w'.
Proof.
  intros [Hd Ht] Hr Hl. destruct (Hr ltac:(lia)) as [(i & Hi & E) Hn]. split; [exists i; split; [lia|done]|].
  intros id t H1 U. destruct (Ht _ _ H1 (usable_refresh _ U)) as (s & G & _ & F & V). rewrite <- F. eapply Hn, V; done.
Qed.

#[global] Instance lines_framed : Framed (keeps lines_ok).
Proof. apply keeps_framed. intros w w' [_ H]. by apply calm_lines. Qed.

(** *** Issuing *)

Lemma insert_refresh_lines family user device h ttl parent :
  forall w w' o, lines_ok w -> retired family w ->
    run (TokenRepository.insert family user device refresh_kind h ttl parent) w = (w', o) -> lines_ok w'.
Proof.
  intros w w' o Hi Hr. unfold TokenRepository.insert. rewrite run_insert_row. destruct (violation _) eqn:Ev.
  { intros [= <- _]. eapply calm_lines, Hi. apply calm_same; [cbn; lia|done]. }
  intros [= <- _]. apply violation_none in Ev. rewrite Forall_app in Ev. destruct Ev as [_ Ev].
  apply Forall_cons in Ev as [Ev _]. cbn in Ev. fold (uuid_at (w_draws w)) in *.
  assert (Hfresh : tokens (w_db w) !! uuid_at (w_draws w) = None) by by destruct (tokens (w_db w) !! uuid_at (w_draws w)).
  intros Hl. cbn in Hl. destruct (Hi ltac:(lia)) as [Hs Hf]. destruct (Hr ltac:(lia)) as [(i & Hi' & Ef) Hn]. split.
  - intros id1 t1 id2 t2. cbn. rewrite !lookup_insert_Some.
    intros [[<- <-]|[_ H1]] [[<- <-]|[_ H2]] U1 U2 E; [done| | |by eapply Hs].
    + exfalso. by eapply (Hn id2 t2).
    + exfalso. by eapply (Hn id1 t1).
  - intros id t. cbn. rewrite lookup_insert_Some. intros [[<- <-]|[_ H1]] Hk.
    + exists i. split; [lia|done].
    + destruct (Hf _ _ H1 Hk) as (j & Hj & E). exists j. split; [lia|done].
Qed.

(** The part of [issue_pair] behind the choice of the family. *)
Lemma issue_in_lines user device family parent w w' o :
  lines_ok w -> retired family w ->
  run (AuthService.issue_pair settings user device (Some family) parent) w = (w', o) -> lines_ok w'.
Proof.
  intros Hi Hr. unfold AuthService.issue_pair. rewrite run_bind. cbn [run].
  assert (Hcalm : forall A (p : io A) (k : A -> io IssuedTokens) v, guar calm p -> lines_ok v -> retired family v ->
    (forall a v', lines_ok v' -> retired family v' -> run (k a) v' = (w', o) -> lines_ok w') ->
    run (p ≫= k) v = (w', o) -> lines_ok w').
  { intros A p k v Hp Hv Hv' Hk. rewrite run_bind. destruct (run p v) as [v1 [a|e]] eqn:E;
      pose proof (guar_run calm p _ _ _ Hp E) as Hc.
    - apply Hk; [by eapply calm_lines|by eapply calm_retired].
    - intros [= <- _]. by eapply calm_lines. }
  apply Hcalm; [apply quiet_calm, new_token_quiet|done..|]. intros access v1 Hi1 Hr1.
  apply Hcalm; [apply quiet_calm, new_token_quiet|done..|]. intros refresh v2 Hi2 Hr2.
  apply Hcalm; [apply quiet_calm, kept_of_outcome|done..|]. intros ha v3 Hi3 Hr3.
  apply Hcalm; [apply access_insert_calm|done..|]. intros _ v4 Hi4 Hr4.
  apply Hcalm; [apply quiet_calm, kept_of_outcome|done..|]. intros hr v5 Hi5 Hr5.
  rewrite run_bind. destruct (run _ v5) as [v6 [id|e]] eqn:E; intros [= <- _]; by eapply insert_refresh_lines.
Qed.

(** A new family is one that no token has. *)
Lemma issue_new_lines user device : keeps lines_ok _ (AuthService.issue_pair settings user device None None).
Proof.
  intros w w' o Hi.
  assert (E : run (AuthService.issue_pair settings user device None None) w
              = run (AuthService.issue_pair settings user device (Some (uuid_at (w_draws w))) None)
                  (set_draws (S (w_draws w)) w)) by reflexivity.
  rewrite E. apply issue_in_lines.
  - eapply calm_lines, Hi. apply calm_same; [cbn; lia|done].
  - intros Hl. cbn in Hl. split; [exists (w_draws w); cbn; split; [lia|done]|]. cbn. intros id t Ht U Ef.
    destruct (Hi ltac:(lia)) as [_ Hf]. destruct (Hf _ _ Ht (usable_refresh _ U)) as (i & Hi' & Ei).
    apply (unrepeated i (w_draws w)); [lia|congruence].
Qed.

(** *** Rotating *)

Lemma retire_line w id t : lines_ok w -> tokens (w_db w) !! id = Some t -> usable t = true ->
  forall w', calm w w' -> (forall t', tokens (w_db w') !! id = Some t' -> usable t' = false) ->
  retired (t_family_id t) w'.
Proof.
  intros Hi Ht Hu w' [Hd Hb] Hn Hl. destruct (Hi ltac:(lia)) as [Hs Hf]. split.
  - destruct (Hf _ _ Ht (usable_refresh _ Hu)) as (i & Hi' & E). exists i. split; [lia|done].
  - intros id' t' Ht' U' Ef. destruct (Hb _ _ Ht' (usable_refresh _ U')) as (s & G & _ & F & V).
    assert (id' = id) as -> by (eapply Hs; try done; [auto|congruence]). by rewrite (Hn _ Ht') in U'.
Qed.

Lemma rotate_lines id t u dv ip : forall w w' o, lines_ok w -> tokens (w_db w) !! id = Some t -> usable t = true ->
  run (AuthService.refresh_rotate settings (record_of id t u dv) ip) w = (w', o) -> lines_ok w'.
Proof.
  intros w w' o Hi Ht Hu. unfold AuthService.refresh_rotate. cbn [tr_token tr_id record_of].
  rewrite run_bind. destruct (run (TokenRepository.mark_used id) w) as [w1 o1] eqn:E1.
  pose proof (guar_run calm _ _ _ _ (quiet_calm _ (mark_used_quiet id)) E1) as C1. injection E1 as E1 <-.
  rewrite run_bind. destruct (run (TokenRepository.revoke id §"rotated") w1) as [w2 o2] eqn:E2.
  pose proof (guar_run calm _ _ _ _ (quiet_calm _ (token_revoke_quiet id §"rotated")) E2) as C2. injection E2 as E2 <-.
  assert (C : calm w w2) by (by transitivity w1). assert (Hi2 : lines_ok w2) by by eapply calm_lines.
  assert (Hr2 : retired (t_family_id t) w2).
  { apply (retire_line w id t Hi Ht Hu w2 C). intros t'. rewrite <- E2. cbn. rewrite lookup_alter_eq. intros (s & _ & ->)%fmap_Some.
    apply revoked_not_usable. }
  rewrite run_bind. destruct (run _ w2) as [w3 [pair|e]] eqn:E3;
    pose proof (issue_in_lines _ _ _ _ _ _ _ Hi2 Hr2 E3) as Hi3; [|by intros [= <- _]].
  eapply (j_quiet (J:=keeps lines_ok)), Hi3. by apply guar_bind; [apply success_quiet|].
Qed.

Lemma refresh_lines token ip : keeps lines_ok _ (AuthService.refresh settings token ip).
Proof.
  intros w w' o Hi. unfold AuthService.refresh. rewrite run_bind, run_of_outcome.
  destruct (hash_token settings token) as [h|e]; [|by intros [= <- _]].
  unfold TokenRepository.lookup. rewrite run_bind, run_query.
  destruct (TokenRepository.lookup_in (w_db w) h refresh_kind) as [r|] eqn:El; [|by intros [= <- _]].
  apply lookup_in_some in El as (id & t & u & dv & [Hrow _ Hk _ _] & ->). unfold AuthService.refresh_found. cbn [tr_token record_of].
  destruct (t_used_at t) as [ua|] eqn:Eu.
  { eapply (j_quiet (J:=keeps lines_ok)), Hi. apply refresh_replay_quiet. }
  rewrite run_bind, run_reads. destruct (TokenRepository.is_live _ _) eqn:Elive; cbn [negb]; [|by intros [= <- _]].
  apply live_iff in Elive as (L1 & _). apply rotate_lines; [done..|]. unfold usable. by rewrite Hk, Eu, L1.
Qed.
End family.
