(* ===== verification/Startup.v ===== *)
(** * Processes: settings, connection pools, wiring, start and end

    [app/db/pool.py], [Services.build] and the constructors it calls, the
    lifespans of the two applications, the scripts around their transactions,
    and the start of the signer.  A process has an environment, pools, files and
    a log next to the world it shares with the others; [lift] runs a piece of
    the backend inside it. *)

From S2P Require Import Prelude Text Sha256 Clock Json Config Errors Proc World Demo AuditLog Repos Schema Signer Security RateLimit Hub Evolve Auth Der Attestation Enrollment Scripts.

(** ** Processes *)

(** [asyncpg.create_pool]: the DSN, the sizes, and the server settings. *)
Record PoolArgs := {
  pa_dsn : pystr; pa_min_size : Z; pa_max_size : Z; pa_application_name : pystr; pa_statement_timeout : pystr
}.
Record Pool := { po_args : PoolArgs; po_open : bool }.

(** Pools and databases are objects, known by their place in the process. *)
(* @src backend/app/db/pool.py * Database.__init__ *)
Record Database := { da_settings : Settings; da_app : option nat; da_audit : option nat }.

(** What is at a path, a socket with its permission bits. *)
Inductive node := a_file | a_directory | a_socket (mode : Z).

Record Host := {
  ho_world : World;
  ho_environ : gmap pystr pystr;
  ho_settings : option Settings;
  ho_pools : list Pool;
  ho_databases : list Database;
  ho_objects : nat;
  ho_files : gmap pystr node;
  ho_log : list pystr
}.

Definition set_world (w : World) (h : Host) : Host := {|
  ho_world := w; ho_environ := ho_environ h; ho_settings := ho_settings h; ho_pools := ho_pools h;
  ho_databases := ho_databases h; ho_objects := ho_objects h; ho_files := ho_files h; ho_log := ho_log h |}.
Definition set_cached (s : option Settings) (h : Host) : Host := {|
  ho_world := ho_world h; ho_environ := ho_environ h; ho_settings := s; ho_pools := ho_pools h;
  ho_databases := ho_databases h; ho_objects := ho_objects h; ho_files := ho_files h; ho_log := ho_log h |}.
Definition set_environ (e : gmap pystr pystr) (h : Host) : Host := {|
  ho_world := ho_world h; ho_environ := e; ho_settings := ho_settings h; ho_pools := ho_pools h;
  ho_databases := ho_databases h; ho_objects := ho_objects h; ho_files := ho_files h; ho_log := ho_log h |}.
Definition set_pools (p : list Pool) (h : Host) : Host := {|
  ho_world := ho_world h; ho_environ := ho_environ h; ho_settings := ho_settings h; ho_pools := p;
  ho_databases := ho_databases h; ho_objects := ho_objects h; ho_files := ho_files h; ho_log := ho_log h |}.
Definition set_databases (d : list Database) (h : Host) : Host := {|
  ho_world := ho_world h; ho_environ := ho_environ h; ho_settings := ho_settings h; ho_pools := ho_pools h;
  ho_databases := d; ho_objects := ho_objects h; ho_files := ho_files h; ho_log := ho_log h |}.
Definition set_objects (n : nat) (h : Host) : Host := {|
  ho_world := ho_world h; ho_environ := ho_environ h; ho_settings := ho_settings h; ho_pools := ho_pools h;
  ho_databases := ho_databases h; ho_objects := n; ho_files := ho_files h; ho_log := ho_log h |}.
Definition set_files (f : gmap pystr node) (h : Host) : Host := {|
  ho_world := ho_world h; ho_environ := ho_environ h; ho_settings := ho_settings h; ho_pools := ho_pools h;
  ho_databases := ho_databases h; ho_objects := ho_objects h; ho_files := f; ho_log := ho_log h |}.
Definition log_line (l : pystr) (h : Host) : Host := {|
  ho_world := ho_world h; ho_environ := ho_environ h; ho_settings := ho_settings h; ho_pools := ho_pools h;
  ho_databases := ho_databases h; ho_objects := ho_objects h; ho_files := ho_files h; ho_log := ho_log h ++ [l] |}.

(** The exceptions of the backend, [SystemExit] with its text, [OSError]. *)
Inductive HostExn := HExn (e : Exn) | HExit (message : pystr) | HOS (message : pystr).

Abbreviation hio := (proc Host HostExn).

(** A piece of the backend inside its process. *)
Fixpoint lift {A} (p : io A) : hio A :=
  match p with
  | Ret a => Ret a
  | Raise e => Raise (HExn e)
  | Step f => Step (fun h => let '(w', p') := f (ho_world h) in (set_world w' h, lift p'))
  end.

Lemma run_lift {A} (p : io A) h :
  run (lift p) h
  = let '(w', o) := run p (ho_world h) in
    (set_world w' h, match o with OK a => OK a | ERR e => ERR (HExn e) end).
Proof.
  revert h. induction p as [a|e|f IH] using proc_nested_ind; intros h; cbn; [by destruct h..|].
  specialize (IH (ho_world h)). destruct (f (ho_world h)) as [w1 p1]. cbn in IH. rewrite IH. cbn.
  by destruct (run p1 w1) as [w' o].
Qed.

(** ** External code *)

(** What pydantic reads out of an environment before the validators of the
    class run, [None] for a value of the wrong type; whether the database
    accepts a pool, and lets it close. *)
Class Environment := {
  parse_settings : gmap pystr pystr -> option Settings;
  create_pool_error : PoolArgs -> World -> option Exn;
  close_pool_error : PoolArgs -> World -> option Exn
}.

(** The file system as the signer uses it: [path.parent.mkdir(parents=True,
    exist_ok=True)] (an error, or the files after it), why a socket cannot be
    bound, the permission bits of a new one, and whether closing a server
    removes its path. *)
Class Unix := {
  mkdir_parents : pystr -> gmap pystr node -> pystr + gmap pystr node;
  bind_error : pystr -> gmap pystr node -> option pystr;
  bound_mode : Z;
  close_removes : bool;
  mkdir_parents_keeps : forall p fs fs', mkdir_parents p fs = inr fs' -> fs' !! p = fs !! p
}.

Section startup.
Context {EV : Environment}.

(** ** Settings *)

(* @src backend/app/core/config.py 119-121 get_settings *)
Definition get_settings : hio Settings :=
  atomic (fun h =>
    match ho_settings h with
    | Some s => (h, OK s)
    | None =>
        match parse_settings (ho_environ h) with
        | None => (h, ERR (HExn (EValue §"validation error for Settings")))
        | Some s =>
            match _pepper_present (token_pepper s) with
            | None => (h, ERR (HExn (EValue §"validation error for Settings")))
            | Some _ => (set_cached (Some s) h, OK s)
            end
        end
    end).

(* @src backend/app/core/config.py * reset_settings_cache *)
Definition reset_settings_cache : hio unit := atomic (fun h => (set_cached None h, OK tt)).

(** ** [app/db/pool.py] *)

Definition create_pool (args : PoolArgs) : hio nat :=
  atomic (fun h =>
    match create_pool_error args (ho_world h) with
    | Some e => (h, ERR (HExn e))
    | None => (set_pools (ho_pools h ++ [{| po_args := args; po_open := true |}]) h, OK (length (ho_pools h)))
    end).

Definition closed (p : Pool) : Pool := {| po_args := po_args p; po_open := false |}.

Definition close_pool (p : nat) : hio unit :=
  atomic (fun h =>
    match ho_pools h !! p with
    | None => (h, OK tt)
    | Some pool =>
        match close_pool_error (po_args pool) (ho_world h) with
        | Some e => (h, ERR (HExn e))
        | None => (set_pools (<[p := closed pool]> (ho_pools h)) h, OK tt)
        end
    end).

(* @src backend/app/db/pool.py * Database.__init__ *)
Definition new_database (settings : Settings) : hio nat :=
  atomic (fun h =>
    (set_databases (ho_databases h ++ [{| da_settings := settings; da_app := None; da_audit := None |}]) h,
     OK (length (ho_databases h)))).

Definition no_database : Database := {| da_settings := default_settings; da_app := None; da_audit := None |}.
Definition self (d : nat) : hio Database := reads (fun h => default no_database (ho_databases h !! d)).

Definition set_app (d : nat) (p : option nat) : hio unit :=
  atomic (fun h =>
    (set_databases (alter (fun o => {| da_settings := da_settings o; da_app := p; da_audit := da_audit o |}) d
                      (ho_databases h)) h, OK tt)).
Definition set_audit (d : nat) (p : option nat) : hio unit :=
  atomic (fun h =>
    (set_databases (alter (fun o => {| da_settings := da_settings o; da_app := da_app o; da_audit := p |}) d
                      (ho_databases h)) h, OK tt)).

(* @src backend/app/db/pool.py 24-33 Database.connect *)
Definition app_pool_args (s : Settings) : PoolArgs := {|
  pa_dsn := db_dsn s; pa_min_size := db_pool_min s; pa_max_size := db_pool_max s;
  pa_application_name := §"acs-api"; pa_statement_timeout := int_str (db_statement_timeout s * 1000) |}.

(* @src backend/app/db/pool.py 38-43 Database.connect *)
Definition audit_pool_args (s : Settings) : PoolArgs := {|
  pa_dsn := audit_dsn s; pa_min_size := 1; pa_max_size := Z.max 2 (db_pool_max s / 2);
  pa_application_name := §"acs-audit"; pa_statement_timeout := int_str (db_statement_timeout s * 1000) |}.

(* @src backend/app/db/pool.py * Database.connect *)
Definition connect (d : nat) : hio unit :=
  o ← self d;
  let s := da_settings o in
  app ← create_pool (app_pool_args s);
  _ ← set_app d (Some app);
  if str_eqb (audit_dsn s) (db_dsn s) then set_audit d (Some app)
  else audit ← create_pool (audit_pool_args s); set_audit d (Some audit).

(* @src backend/app/db/pool.py * Database.close *)
Definition close (d : nat) : hio unit :=
  o ← self d;
  _ ← match da_audit o with
      | Some a => if negb (bool_decide (da_app o = Some a)) then close_pool a else Ret tt
      | None => Ret tt
      end;
  o ← self d;
  _ ← match da_app o with Some p => close_pool p | None => Ret tt end;
  _ ← set_app d None;
  set_audit d None.

(* @src backend/app/db/pool.py * Database.pool *)
Definition pool (d : nat) : hio nat :=
  o ← self d; of_option (HExn (ERuntime §"database pool is not connected")) (da_app o).

(* @src backend/app/db/pool.py * Database.audit_pool *)
Definition audit_pool (d : nat) : hio nat :=
  o ← self d; of_option (HExn (ERuntime §"audit pool is not connected")) (da_audit o).

(** ** The container: [app/api/deps.py] and the constructors *)

(** A repository is the pool it queries, so it is named by it. Objects with a
    state of their own (the limiter's cache, the challenges, the client's lock,
    the hub) are numbered as they are made. *)
(* @src backend/app/services/audit_service.py * AuditService.__init__ *)
Record AuditServiceObj := { as_repo : nat }.

(* @src backend/app/core/ratelimit.py * RateLimiter.__init__ *)
Record RateLimiterObj := { rl_repo : nat; rl_settings : Settings; rl_recent : nat }.

(* @src backend/app/core/signer_client.py * SignerClient.__init__ *)
Record SignerClientObj := { sc_socket_path : pystr; sc_timeout_ms : Z; sc_lock : nat }.

(* @src backend/app/services/auth_service.py * AuthService.__init__ *)
Record AuthServiceObj := {
  au_users : nat; au_devices : nat; au_tokens : nat; au_audit : AuditServiceObj; au_settings : Settings
}.

(* @src backend/app/services/unlock_service.py * UnlockService.__init__ *)
Record UnlockServiceObj := {
  un_doors : nat; un_permissions : nat; un_controllers : nat; un_audit : AuditServiceObj;
  un_signer : SignerClientObj; un_hub : nat; un_limiter : RateLimiterObj; un_settings : Settings
}.

(* @src backend/app/services/enrollment_service.py * EnrollmentService.__init__ *)
Record EnrollmentServiceObj := {
  en_enrollments : nat; en_devices : nat; en_auth : AuthServiceObj; en_audit : AuditServiceObj;
  en_challenges : nat; en_settings : Settings
}.

(* @src backend/app/api/deps.py 32-48 Services *)
Record Services := {
  sv_settings : Settings; sv_database : nat; sv_users : nat; sv_devices : nat; sv_enrollments : nat;
  sv_doors : nat; sv_permissions : nat; sv_controllers : nat; sv_tokens : nat; sv_audit : AuditServiceObj;
  sv_auth : AuthServiceObj; sv_unlock : UnlockServiceObj; sv_enrollment : EnrollmentServiceObj;
  sv_limiter : RateLimiterObj; sv_signer : SignerClientObj; sv_hub : nat
}.

(** The module's one hub. *)
(* @src backend/app/ws/hub.py 112-112 hub *)
Definition default_hub : nat := 0.

Definition new_object : hio nat := atomic (fun h => (set_objects (S (ho_objects h)) h, OK (S (ho_objects h)))).

(* @src backend/app/core/signer_client.py * SignerClient.from_settings *)
Definition signer_from_settings (s : Settings) : hio SignerClientObj :=
  lock ← new_object; Ret {| sc_socket_path := signer_socket s; sc_timeout_ms := signer_timeout_ms s; sc_lock := lock |}.

(* @src backend/app/api/deps.py * Services.build *)
Definition build (settings : Settings) (database : nat) (hub : option nat) (signer : option SignerClientObj)
    : hio Services :=
  pool ← pool database;
  audit_pool ← audit_pool database;
  let audit := {| as_repo := audit_pool |} in
  recent ← new_object;
  let limiter := {| rl_repo := pool; rl_settings := settings; rl_recent := recent |} in
  signer ← match signer with Some s => Ret s | None => signer_from_settings settings end;
  let hub := default default_hub hub in
  let auth := {| au_users := pool; au_devices := pool; au_tokens := pool; au_audit := audit; au_settings := settings |} in
  let unlock := {| un_doors := pool; un_permissions := pool; un_controllers := pool; un_audit := audit;
                   un_signer := signer; un_hub := hub; un_limiter := limiter; un_settings := settings |} in
  challenges ← new_object;
  let enrollment := {| en_enrollments := pool; en_devices := pool; en_auth := auth; en_audit := audit;
                       en_challenges := challenges; en_settings := settings |} in
  Ret {| sv_settings := settings; sv_database := database; sv_users := pool; sv_devices := pool;
         sv_enrollments := pool; sv_doors := pool; sv_permissions := pool; sv_controllers := pool;
         sv_tokens := pool; sv_audit := audit; sv_auth := auth; sv_unlock := unlock; sv_enrollment := enrollment;
         sv_limiter := limiter; sv_signer := signer; sv_hub := hub |}.

(** ** The lifespans and the scripts *)

Definition log (l : pystr) : hio unit := atomic (fun h => (log_line l h, OK tt)).

(** From the settings to the services, the part before the [try]. *)
(* @src backend/app/main.py 32-34 lifespan *)
Definition start_services (settings : Settings) : hio (nat * Services) :=
  database ← new_database settings;
  _ ← connect database;
  services ← build settings database None None;
  Ret (database, services).

Definition env_text (e : env_t) : pystr :=
  match e with production => §"production" | development => §"development" | test => §"test" end.

(** [serve] is what the application does until it is told to stop. *)
(* @src backend/app/main.py * lifespan *)
Definition lifespan (serve : Services -> hio unit) : hio unit :=
  settings ← get_settings;
  ds ← start_services settings;
  _ ← log (§"api started, env=" ++ env_text (env settings));
  finally (serve ds.2) (close ds.1).

(* @src backend/admin/main.py * lifespan *)
Definition admin_lifespan (serve : Services -> hio unit) : hio unit :=
  settings ← get_settings;
  _ ← if existsb (str_eqb (admin_host settings)) [§"127.0.0.1"; §"::1"; §"localhost"] then Ret tt
      else log (§"admin app is bound to " ++ admin_host settings
                ++ §", which is not loopback. This app can grant door access and read the whole audit trail.");
  ds ← start_services settings;
  finally (serve ds.2) (close ds.1).

(** A script: [body] between [connect] and [close], [sys.exit] with a text for
    the left side of its result, the right side printed. *)
(* @src backend/scripts/create_admin.py 24-37 create *)
Definition script {A} (printed : A -> pystr) (body : Settings -> io (pystr + A)) : hio unit :=
  settings ← get_settings;
  database ← new_database settings;
  _ ← connect database;
  finally
    (_ ← pool database;
     r ← lift (body settings);
     match r with inl message => Raise (HExit message) | inr a => log (printed a) end)
    (close database).

(* @src backend/scripts/create_admin.py * main *)
Definition create_admin_main {EN : Entropy} {PG : Postgres} {AR : Argon2} {PR : PyRepr}
    (username display_name password repeated : pystr) (no_admin : bool) : hio unit :=
  if len password <? MIN_PASSWORD_LENGTH then
    Raise (HExit (§"password must be at least " ++ int_str MIN_PASSWORD_LENGTH ++ §" characters"))
  else if negb (str_eqb password repeated) then Raise (HExit §"passwords do not match")
  else
    script (fun id => §"created user " ++ username ++ §" with id " ++ uuid_str id)
      (fun settings => create settings username display_name password (negb no_admin)).

(* @src backend/scripts/issue_enrollment_code.py * main *)
Definition issue_main {EN : Entropy} {PG : Postgres} (username : pystr) (ttl : Z) : hio unit :=
  script (fun code => §"enrollment code for " ++ username ++ §" (valid " ++ int_str ttl ++ §"s): " ++ code)
    (fun _ => issue username ttl).

(** ** Pools are closed *)

Definition fresh (args : PoolArgs) : Pool := {| po_args := args; po_open := true |}.
Definition shares_pool (s : Settings) : bool := str_eqb (audit_dsn s) (db_dsn s).
Definition pools_of (s : Settings) : list Pool :=
  fresh (app_pool_args s) :: if shares_pool s then [] else [fresh (audit_pool_args s)].

(** A process after [connect]: its pools and its database are the newest. *)
Definition connected (s : Settings) (h : Host) : Host :=
  let n := length (ho_pools h) in
  set_databases (ho_databases h ++ [{| da_settings := s; da_app := Some n;
                                       da_audit := Some (if shares_pool s then n else S n) |}])
    (set_pools (ho_pools h ++ pools_of s) h).

(** The database accepts the pools of these settings, and lets them close. *)
Record reachable (s : Settings) : Prop := {
  re_app : forall w, create_pool_error (app_pool_args s) w = None;
  re_audit : forall w, create_pool_error (audit_pool_args s) w = None;
  re_close_app : forall w, close_pool_error (app_pool_args s) w = None;
  re_close_audit : forall w, close_pool_error (audit_pool_args s) w = None
}.

Lemma alter_last {A} (f : A -> A) l x : alter f (length l) (l ++ [x]) = l ++ [f x].
Proof. rewrite alter_app_r_alt by lia. by rewrite Nat.sub_diag. Qed.

Lemma lookup_last {A} (l : list A) x : (l ++ [x]) !! length l = Some x.
Proof. rewrite lookup_app_r by lia. by rewrite Nat.sub_diag. Qed.

Lemma run_self d h o : ho_databases h !! d = Some o -> run (self d) h = (h, OK o).
Proof. intros E. unfold self. by rewrite run_reads, E. Qed.

Lemma run_set_app p d h :
  run (set_app d p) h
  = (set_databases (alter (fun o => {| da_settings := da_settings o; da_app := p; da_audit := da_audit o |}) d
                      (ho_databases h)) h, OK tt).
Proof. reflexivity. Qed.
Lemma run_set_audit p d h :
  run (set_audit d p) h
  = (set_databases (alter (fun o => {| da_settings := da_settings o; da_app := da_app o; da_audit := p |}) d
                      (ho_databases h)) h, OK tt).
Proof. reflexivity. Qed.
Lemma run_create_pool args h : create_pool_error args (ho_world h) = None ->
  run (create_pool args) h = (set_pools (ho_pools h ++ [fresh args]) h, OK (length (ho_pools h))).
Proof. intros E. unfold create_pool. by rewrite run_atomic, E. Qed.
Lemma run_close_pool p pool h : ho_pools h !! p = Some pool -> close_pool_error (po_args pool) (ho_world h) = None ->
  run (close_pool p) h = (set_pools (<[p := closed pool]> (ho_pools h)) h, OK tt).
Proof. intros E1 E2. unfold close_pool. by rewrite run_atomic, E1, E2. Qed.

Lemma run_connected s h : reachable s ->
  run (d ← new_database s; _ ← connect d; Ret d) h = (connected s h, OK (length (ho_databases h))).
Proof.
  intros [Ha Hb _ _]. rewrite run_bind. unfold new_database. rewrite run_atomic. rewrite run_bind. unfold connect.
  erewrite run_bind, run_self by (cbn; apply lookup_last). cbn [da_settings].
  rewrite run_bind, run_create_pool by apply Ha. rewrite run_bind, run_set_app. unfold connected, pools_of, shares_pool.
  destruct (str_eqb _ _); cbn [set_pools set_databases ho_databases ho_pools]; rewrite alter_last.
  - rewrite run_set_audit. cbn. by rewrite alter_last.
  - rewrite run_bind, run_create_pool by apply Hb. rewrite run_set_audit. cbn.
    rewrite alter_last. cbn. rewrite length_app, <- app_assoc. cbn. by rewrite Nat.add_1_r.
Qed.

(** What happens to neither the pools nor the databases of the process. *)
Definition same_objects (h h' : Host) : Prop := ho_pools h' = ho_pools h /\ ho_databases h' = ho_databases h.

#[global] Instance same_objects_preorder : PreOrder same_objects.
Proof. split; [by split|]. intros a b c [H1 H2] [H3 H4]. split; congruence. Qed.

Lemma lift_same_objects {A} (p : io A) : guar same_objects (lift p).
Proof.
  induction p as [a|e|f IH] using proc_nested_ind; cbn; [done..|]. intros h. specialize (IH (ho_world h)).
  destruct (f (ho_world h)) as [w' p']. by split.
Qed.

Lemma run_close s h ps dbs : reachable s -> ho_pools h = ps ++ pools_of s ->
  ho_databases h = dbs ++ [{| da_settings := s; da_app := Some (length ps);
                              da_audit := Some (if shares_pool s then length ps else S (length ps)) |}] ->
  exists h', run (close (length dbs)) h = (h', OK tt) /\ ho_pools h' = ps ++ map closed (pools_of s).
Proof.
  intros [_ _ Hc1 Hc2] Hp Hd. unfold close. erewrite run_bind, run_self by (rewrite Hd; apply lookup_last).
  cbn [da_audit da_app]. rewrite run_bind. unfold pools_of in *. destruct (shares_pool s).
  - rewrite bool_decide_eq_true_2 by done. cbn [negb run]. erewrite run_bind, run_self by (rewrite Hd; apply lookup_last).
    cbn [da_app]. erewrite run_bind, run_close_pool by (try (rewrite Hp; apply lookup_last); apply Hc1).
    rewrite run_bind, run_set_app, run_set_audit. eexists. split; [done|]. cbn.
    rewrite Hp, insert_app_r_alt by lia. by rewrite Nat.sub_diag.
  - rewrite bool_decide_eq_false_2 by (intros [= E]; lia). cbn [negb].
    assert (Hs : (S (length ps) - length ps = 1)%nat) by lia.
    erewrite run_close_pool; [|by rewrite Hp, lookup_app_r, Hs by lia|apply Hc2].
    erewrite run_bind, run_self by (cbn; rewrite Hd; apply lookup_last). cbn [da_app].
    rewrite Hp, insert_app_r_alt, Hs by lia.
    erewrite run_bind, run_close_pool; [|cbn; by rewrite lookup_app_r, Nat.sub_diag by lia|apply Hc1].
    rewrite run_bind, run_set_app, run_set_audit. eexists. split; [done|]. cbn.
    rewrite insert_app_r_alt by lia. by rewrite Nat.sub_diag.
Qed.

(** The wiring of a container over two pools. *)
Definition repositories (sv : Services) : list nat :=
  [sv_users sv; sv_devices sv; sv_enrollments sv; sv_doors sv; sv_permissions sv; sv_controllers sv; sv_tokens sv;
   rl_repo (sv_limiter sv); au_users (sv_auth sv); au_devices (sv_auth sv); au_tokens (sv_auth sv);
   un_doors (sv_unlock sv); un_permissions (sv_unlock sv); un_controllers (sv_unlock sv);
   en_enrollments (sv_enrollment sv); en_devices (sv_enrollment sv)].

Record wired (app audit : nat) (sv : Services) : Prop := {
  wi_app : Forall (fun r => r = app) (repositories sv);
  wi_audit : as_repo (sv_audit sv) = audit;
  wi_audit_shared : au_audit (sv_auth sv) = sv_audit sv /\ un_audit (sv_unlock sv) = sv_audit sv
                    /\ en_audit (sv_enrollment sv) = sv_audit sv;
  wi_auth_shared : en_auth (sv_enrollment sv) = sv_auth sv;
  wi_unlock_shared : un_limiter (sv_unlock sv) = sv_limiter sv /\ un_signer (sv_unlock sv) = sv_signer sv
                     /\ un_hub (sv_unlock sv) = sv_hub sv;
  wi_hub : sv_hub sv = default_hub
}.

Lemma run_build s d o app audit h :
  ho_databases h !! d = Some o -> da_app o = Some app -> da_audit o = Some audit ->
  exists h' sv, run (build s d None None) h = (h', OK sv) /\ same_objects h h' /\ ho_world h' = ho_world h /\ wired app audit sv
    /\ sv_settings sv = s.
Proof.
  intros Hd Ha Hb. unfold build, pool, audit_pool. rewrite !run_bind. erewrite run_self by done. rewrite Ha. cbn [of_option run].
  rewrite !run_bind. erewrite run_self by done. rewrite Hb. cbn [of_option run].
  eexists _, _. split; [reflexivity|]. split; [by split|]. split; [done|]. split; [|done]. split; try done. repeat constructor.
Qed.

Lemma run_start_services s h : reachable s ->
  exists h1 sv, run (start_services s) h = (h1, OK (length (ho_databases h), sv))
    /\ ho_pools h1 = ho_pools h ++ pools_of s /\ ho_databases h1 = ho_databases (connected s h)
    /\ wired (length (ho_pools h)) (if shares_pool s then length (ho_pools h) else S (length (ho_pools h))) sv
    /\ sv_settings sv = s.
Proof.
  intros Hr. pose proof (run_connected s h Hr) as Hc. unfold start_services.
  rewrite run_bind in Hc; rewrite run_bind. destruct (run (new_database s) h) as [h0 [d|]] eqn:E0; [|discriminate Hc].
  rewrite run_bind in Hc; rewrite run_bind. destruct (run (connect d) h0) as [h1 [[]|]] eqn:E1; [|discriminate Hc].
  cbn in Hc. injection Hc as -> ->. rewrite run_bind.
  edestruct (run_build s (length (ho_databases h)) _ _ _ (connected s h) (lookup_last _ _) eq_refl eq_refl)
    as (h2 & sv & -> & [Hp Hd] & _ & Hw & Hs).
  exists h2, sv. split; [done|]. rewrite Hp, Hd. by split_and!.
Qed.

(** Every repository works under the role that is meant for it: the
    application starts when the database accepts its pools, and then every
    repository of every service queries the pool of [db_dsn], except the one
    behind the audit log, which is on the pool of [audit_dsn]; both are open,
    and the services share one audit service, one authentication service, one
    limiter, one signer client and the hub of the process. *)
Theorem services_use_their_roles s h : reachable s ->
  exists h' d sv, run (start_services s) h = (h', OK (d, sv))
    /\ Forall (fun r => ho_pools h' !! r = Some (fresh (app_pool_args s))) (repositories sv)
    /\ (exists p, ho_pools h' !! as_repo (sv_audit sv) = Some p /\ po_open p = true /\ pa_dsn (po_args p) = audit_dsn s)
    /\ (exists app audit, wired app audit sv) /\ sv_settings sv = s.
Proof.
  intros Hr. destruct (run_start_services s h Hr) as (h1 & sv & E & Hp & _ & Hw & Hs).
  exists h1, (length (ho_databases h)), sv. split; [done|]. split; [|split; [|split; [by eexists _, _|done]]].
  - eapply Forall_impl; [apply Hw|]. intros r ->. rewrite Hp, lookup_app_r, Nat.sub_diag by lia. done.
  - rewrite (wi_audit _ _ _ Hw), Hp. unfold pools_of. destruct (shares_pool s) eqn:Es.
    + exists (fresh (app_pool_args s)). rewrite lookup_app_r, Nat.sub_diag by lia. cbn. split_and!; [done..|].
      symmetry. by apply bool_decide_eq_true in Es.
    + exists (fresh (audit_pool_args s)). rewrite lookup_app_r by lia.
      by replace (S (length (ho_pools h)) - length (ho_pools h))%nat with 1%nat by lia.
Qed.

(** The process has the pools it had before, and new ones that are closed. *)
Definition pools_closed (h h' : Host) : Prop :=
  exists opened, ho_pools h' = ho_pools h ++ opened /\ Forall (fun p => po_open p = false) opened.

Lemma pools_of_closed s : Forall (fun p => po_open p = false) (map closed (pools_of s)).
Proof. apply Forall_fmap, Forall_true. done. Qed.

(** [try: body finally: close()] over a connected database. *)
Lemma run_finally_close {A} (body : hio A) s ps dbs h h' o : reachable s -> guar same_objects body ->
  ho_pools h = ps ++ pools_of s ->
  ho_databases h = dbs ++ [{| da_settings := s; da_app := Some (length ps);
                              da_audit := Some (if shares_pool s then length ps else S (length ps)) |}] ->
  run (finally body (close (length dbs))) h = (h', o) ->
  ho_pools h' = ps ++ map closed (pools_of s) /\ (run body h).2 = o.
Proof.
  intros Hr Hb Hp Hd. rewrite run_finally. destruct (run body h) as [h1 o1] eqn:E.
  destruct (guar_run same_objects body _ _ _ Hb E) as [Hp1 Hd1].
  destruct (run_close s h1 ps dbs Hr) as (h2 & -> & Hc); [congruence..|]. by intros [= <- <-].
Qed.

Lemma log_same_objects l : guar same_objects (log l).
Proof. apply guar_atomic. by split. Qed.

Lemma run_get_settings_same h h' o : run get_settings h = (h', o) -> same_objects h h'.
Proof.
  unfold get_settings. rewrite run_atomic. repeat case_match; intros [= <- <-]; by split.
Qed.

Lemma lifespan_closes serve s h h0 h' o : reachable s -> (forall sv, guar same_objects (serve sv)) ->
  run get_settings h = (h0, OK s) -> run (lifespan serve) h = (h', o) -> pools_closed h h'.
Proof.
  intros Hr Hs Hg. destruct (run_get_settings_same _ _ _ Hg) as [Hp0 _]. unfold lifespan. rewrite run_bind, Hg.
  destruct (run_start_services s h0 Hr) as (h1 & sv & E & Hp & Hd & _). rewrite run_bind, E, run_bind.
  unfold log at 1. rewrite run_atomic. cbn [fst snd]. intros Hf.
  eapply (run_finally_close _ s (ho_pools h0) (ho_databases h0)) in Hf as [Hf _]; [|done|apply Hs|done|done].
  rewrite Hp0 in Hf. eexists. split; [exact Hf|apply pools_of_closed].
Qed.

Lemma admin_lifespan_closes serve s h h0 h' o : reachable s -> (forall sv, guar same_objects (serve sv)) ->
  run get_settings h = (h0, OK s) -> run (admin_lifespan serve) h = (h', o) -> pools_closed h h'.
Proof.
  intros Hr Hs Hg. destruct (run_get_settings_same _ _ _ Hg) as [Hp0 _]. unfold admin_lifespan. rewrite run_bind, Hg, run_bind.
  set (warning := if existsb _ _ then _ else _).
  assert (Hw : exists h1, run warning h0 = (h1, OK tt) /\ same_objects h0 h1)
    by (unfold warning; case_match; eexists; by split_and!). destruct Hw as (h1 & -> & [Hp1 _]).
  destruct (run_start_services s h1 Hr) as (h2 & sv & E & Hp & Hd & _). rewrite run_bind, E. cbn [fst snd]. intros Hf.
  eapply (run_finally_close _ s (ho_pools h1) (ho_databases h1)) in Hf as [Hf _]; [|done|apply Hs|done|done].
  rewrite Hp1, Hp0 in Hf. eexists. split; [exact Hf|apply pools_of_closed].
Qed.

Lemma script_closes {A} printed (body : Settings -> io (pystr + A)) s h h0 h' o : reachable s ->
  run get_settings h = (h0, OK s) -> run (script printed body) h = (h', o) -> pools_closed h h'.
Proof.
  intros Hr Hg. destruct (run_get_settings_same _ _ _ Hg) as [Hp0 _]. unfold script. rewrite run_bind, Hg.
  pose proof (run_connected s h0 Hr) as Hc. rewrite run_bind in Hc; rewrite run_bind.
  destruct (run (new_database s) h0) as [h1 [d|]] eqn:E0; [|discriminate Hc].
  rewrite run_bind in Hc; rewrite run_bind. destruct (run (connect d) h1) as [h2 [[]|]] eqn:E1; [|discriminate Hc].
  cbn in Hc. injection Hc as -> ->. intros Hf.
  eapply (run_finally_close _ s (ho_pools h0) (ho_databases h0)) in Hf as [Hf _]; [|done| |done|done].
  - rewrite Hp0 in Hf. eexists. split; [exact Hf|apply pools_of_closed].
  - apply guar_bind; [apply guar_bind; [by apply guar_reads|intros ?; apply guar_of_option]|intros _].
    apply guar_bind; [apply lift_same_objects|]. intros []; [done|apply log_same_objects].
Qed.

(** A process gives back what it took: when the database is reachable, every
    pool that the public application, the administration or a script opens is
    closed when it is over, however its work ends: well, with an exception or
    with [sys.exit]. *)
Theorem processes_close_their_pools {A} serve printed (body : Settings -> io (pystr + A)) s h h0 h' o :
  reachable s -> (forall sv, guar same_objects (serve sv)) -> run get_settings h = (h0, OK s) ->
  run (lifespan serve) h = (h', o) \/ run (admin_lifespan serve) h = (h', o) \/ run (script printed body) h = (h', o) ->
  pools_closed h h'.
Proof.
  intros Hr Hs Hg [H|[H|H]]; [by eapply lifespan_closes|by eapply admin_lifespan_closes|by eapply script_closes].
Qed.

(** The first pool of a [connect] whose second pool fails stays open: neither
    the lifespans nor the scripts have entered their [try] then. *)
Theorem second_pool_failure_leaks serve s h h0 e :
  run get_settings h = (h0, OK s) -> shares_pool s = false ->
  (forall w, create_pool_error (app_pool_args s) w = None) ->
  (forall w, create_pool_error (audit_pool_args s) w = Some e) ->
  exists h', run (lifespan serve) h = (h', ERR (HExn e)) /\ ho_pools h' = ho_pools h ++ [fresh (app_pool_args s)].
Proof.
  intros Hg Hs Ha Hb. destruct (run_get_settings_same _ _ _ Hg) as [Hp0 _]. unfold lifespan. rewrite run_bind, Hg, run_bind.
  unfold start_services. rewrite run_bind. unfold new_database. rewrite run_atomic, run_bind. unfold connect.
  erewrite run_bind, run_self by (cbn; apply lookup_last). cbn [da_settings].
  rewrite run_bind, run_create_pool by apply Ha. rewrite run_bind, run_set_app. unfold shares_pool in Hs. rewrite Hs, run_bind.
  unfold create_pool. rewrite run_atomic. cbn [ho_world set_pools set_databases]. rewrite Hb. eexists. split; [done|].
  cbn. by rewrite Hp0.
Qed.

(** Settings are read once and are sound: what [get_settings] returned it
    returns again whatever becomes of the environment, until the cache is reset,
    and a pepper it accepted is empty or decodes to at least 32 bytes. *)
Theorem settings_are_read_once h h' s environ :
  ho_settings h = None -> run get_settings h = (h', OK s) ->
  run get_settings (set_environ environ h') = (set_environ environ h', OK s)
  /\ parse_settings (ho_environ h) = Some s
  /\ (token_pepper s = [] \/ exists raw, pepper_bytes s = Some raw /\ (32 <= length raw)%nat).
Proof.
  intros Hn. unfold get_settings. rewrite !run_atomic, Hn.
  destruct (parse_settings (ho_environ h)) as [s'|] eqn:Ep; [|done].
  destruct (_pepper_present (token_pepper s')) as [v|] eqn:Ev; [|done]. intros [= <- ->]. split; [done|]. split; [done|].
  destruct (decide (token_pepper s = [])) as [|Hne]; [by left|right]. by eapply pepper_valid.
Qed.
End startup.

(** ** The signer's process: [run] and [main] of [signer/server.py] *)

Section signer.
Context {UN : Unix}.

(** [S_IRUSR | S_IWUSR | S_IRGRP | S_IWGRP] *)
(* @src backend/signer/server.py 128-128 run *)
Definition socket_mode : Z := Z.lor (Z.lor (Z.lor 256 128) 32) 16.

Definition mkdir (path : pystr) : hio unit :=
  atomic (fun h =>
    match mkdir_parents path (ho_files h) with
    | inl message => (h, ERR (HOS message))
    | inr fs => (set_files fs h, OK tt)
    end).

(** [if path.exists(): path.unlink()]; a directory cannot be unlinked. *)
(* @src backend/signer/server.py 120-121 run *)
Definition remove_stale (path : pystr) : hio unit :=
  atomic (fun h =>
    match ho_files h !! path with
    | Some a_directory => (h, ERR (HOS §"Is a directory"))
    | _ => (set_files (delete path (ho_files h)) h, OK tt)
    end).

Definition start_unix_server (path : pystr) : hio unit :=
  atomic (fun h =>
    match bind_error path (ho_files h) with
    | Some message => (h, ERR (HOS message))
    | None => (set_files (<[path := a_socket bound_mode]> (ho_files h)) h, OK tt)
    end).

Definition chmod (path : pystr) (mode : Z) : hio unit :=
  atomic (fun h =>
    (set_files (alter (fun n => match n with a_socket _ => a_socket mode | n => n end) path (ho_files h)) h, OK tt)).

Definition unlink (path : pystr) (h : Host) : Host := set_files (delete path (ho_files h)) h.
Definition server_closed (path : pystr) (h : Host) : Host := if close_removes then unlink path h else h.

(** [serve] is what the server does until it is told to stop. The path is taken
    to be written as [Path] writes it, so that [Path(socket_path)] changes
    nothing. The server already accepts when [start_unix_server] returns; a
    client that connects before [chmod], with the mode of a new socket, is not
    seen here, where serving begins with [serve]. *)
(* @src backend/signer/server.py * run *)
Definition run_signer (socket_path private_key_b64 key_id : pystr) (serve : SignerService -> hio unit) : hio unit :=
  raw ← of_option (HExn (EValue §"Non-base64 digit found")) (b64decode private_key_b64);
  _ ← if negb (length raw =? 32)%nat then Raise (HExit §"ACS_SIGNER_PRIVATE_KEY must decode to exactly 32 bytes")
      else Ret tt;
  let service := {| s_key := raw; s_key_id := key_id |} in
  _ ← mkdir socket_path;
  _ ← remove_stale socket_path;
  _ ← start_unix_server socket_path;
  _ ← chmod socket_path socket_mode;
  _ ← log (§"signer listening on " ++ socket_path ++ §", key_id=" ++ key_id);
  _ ← finally (serve service) (atomic (fun h => (server_closed socket_path h, OK tt)));
  atomic (fun h => (unlink socket_path h, OK tt)).

(** [os.environ.get(name)], where an empty text counts as missing. *)
Definition environ (name : pystr) (h : Host) : option pystr :=
  match ho_environ h !! name with Some [] | None => None | Some v => Some v end.

(* @src backend/signer/server.py * main *)
Definition signer_main (serve : SignerService -> hio unit) : hio unit :=
  socket_path ← reads (environ §"ACS_SIGNER_SOCKET");
  private_key ← reads (environ §"ACS_SIGNER_PRIVATE_KEY");
  key_id ← reads (fun h => default §"signer-1" (ho_environ h !! §"ACS_SIGNER_KEY_ID"));
  match socket_path, private_key with
  | Some path, Some key => run_signer path key key_id serve
  | _, _ => Raise (HExit §"ACS_SIGNER_SOCKET and ACS_SIGNER_PRIVATE_KEY are required")
  end.

Lemma run_signer_started path key kid svc fs serve h :
  service_of_env key kid = Some svc -> mkdir_parents path (ho_files h) = inr fs -> fs !! path <> Some a_directory ->
  bind_error path (delete path fs) = None ->
  exists h1, ho_files h1 = <[path := a_socket socket_mode]> fs /\ ho_world h1 = ho_world h
    /\ run (run_signer path key kid serve) h
       = match run (serve svc) h1 with
         | (h2, OK _) => (unlink path h2, OK tt)
         | (h2, ERR e) => (server_closed path h2, ERR e)
         end.
Proof.
  unfold service_of_env. intros Hk Hm Hd Hb. destruct (b64decode key) as [raw|] eqn:Er; [|done].
  destruct (length raw =? 32)%nat eqn:El; [|done]. injection Hk as <-.
  unfold run_signer. rewrite run_bind, Er. cbn [of_option run]. rewrite run_bind, El. cbn [negb run].
  rewrite run_bind. unfold mkdir. rewrite run_atomic, Hm, run_bind. unfold remove_stale. rewrite run_atomic. cbn [set_files ho_files].
  assert (E : forall A (x y : A), match fs !! path with Some a_directory => x | _ => y end = y)
    by (intros; destruct (fs !! path) as [[]|]; done).
  rewrite E, run_bind. unfold start_unix_server. rewrite run_atomic. cbn [set_files ho_files]. rewrite Hb, run_bind.
  unfold chmod. rewrite run_atomic, run_bind. unfold log. rewrite run_atomic, run_bind, run_finally.
  match goal with |- context [run (serve _) ?x] => exists x end. split; [|split; [done|]].
  - cbn. rewrite insert_delete_eq. by rewrite alter_insert_eq.
  - match goal with |- context [run (serve ?s) ?x] => destruct (run (serve s) x) as [h2 [[]|e]] end; rewrite !run_atomic; [|done].
    f_equal. unfold server_closed, unlink. destruct close_removes; [|done]. cbn. by rewrite delete_idemp || rewrite delete_delete_eq.
Qed.

(** C39 The signer serves with its own key and behind a closed door: over a file
    system that lets it bind its path, it starts exactly when its environment
    names a socket, not the empty text, and a private key of 32 bytes in base64.
    Then it replaces what a crash left at the path, serves with that key and
    nothing else while the socket gives access to owner and group only, and
    removes the socket when it is told to stop; otherwise it ends before it
    touches a file. *)
Theorem signer_starts_iff_key_is_sound serve h :
  let path := default [] (ho_environ h !! §"ACS_SIGNER_SOCKET") in
  let private_key := default [] (ho_environ h !! §"ACS_SIGNER_PRIVATE_KEY") in
  let key_id := default §"signer-1" (ho_environ h !! §"ACS_SIGNER_KEY_ID") in
  (path <> [] -> exists fs, mkdir_parents path (ho_files h) = inr fs /\ fs !! path <> Some a_directory
                   /\ bind_error path (delete path fs) = None) ->
  (forall key, path <> [] -> b64decode private_key = Some key -> length key = 32%nat ->
     exists h1, ho_files h1 !! path = Some (a_socket 432) /\ ho_world h1 = ho_world h
       /\ run (signer_main serve) h
          = match run (serve {| s_key := key; s_key_id := key_id |}) h1 with
            | (h2, OK _) => (unlink path h2, OK tt)
            | (h2, ERR e) => (server_closed path h2, ERR e)
            end)
  /\ (path = [] \/ (forall key, b64decode private_key = Some key -> length key <> 32%nat) ->
        exists e, run (signer_main serve) h = (h, ERR e)).
Proof.
  intros path private_key kid Hfs. unfold signer_main. rewrite !run_bind, !run_reads, !run_bind, !run_reads, !run_bind, !run_reads.
  fold kid. unfold environ. split.
  - intros key Hp Hk Hl. destruct (Hfs Hp) as (fs & Hm & Hd & Hb).
    assert (Es : service_of_env private_key kid = Some {| s_key := key; s_key_id := kid |}).
    { unfold service_of_env. by rewrite Hk, Hl. }
    destruct (run_signer_started path private_key kid _ fs serve h Es Hm Hd Hb) as (h1 & Hf & Hw & Hr).
    exists h1. split; [rewrite Hf; apply lookup_insert_eq|]. split; [done|]. rewrite <- Hr.
    assert (Hne : private_key <> []) by (intros E; rewrite E in Hk; vm_compute in Hk; injection Hk as <-; discriminate Hl).
    subst path private_key. destruct (ho_environ h !! §"ACS_SIGNER_SOCKET") as [[|c p]|]; try done.
    by destruct (ho_environ h !! §"ACS_SIGNER_PRIVATE_KEY") as [[|c' k]|].
  - intros Hbad. subst path private_key.
    destruct (ho_environ h !! §"ACS_SIGNER_SOCKET") as [[|c p]|]; [by eexists| |by eexists].
    destruct Hbad as [|Hbad]; [done|].
    destruct (ho_environ h !! §"ACS_SIGNER_PRIVATE_KEY") as [[|c' k]|]; [by eexists| |by eexists].
    cbn [default from_option id] in *. unfold run_signer. rewrite run_bind.
    destruct (b64decode (c' :: k)) as [raw|]; [|by eexists]. cbn [of_option run].
    specialize (Hbad raw eq_refl). destruct (Nat.eqb_spec (length raw) 32); [done|]. by eexists.
Qed.
End signer.

(** ** Witnesses *)

#[local] Existing Instances demo_entropy demo_postgres demo_argon2 demo_repr.

(** A database that takes every pool, an environment that says nothing about
    the settings, and a file system where everything is possible. *)
#[local] Instance demo_environment : Environment := {|
  parse_settings := fun _ => Some demo_settings;
  create_pool_error := fun _ _ => None;
  close_pool_error := fun _ _ => None |}.

#[local] Instance demo_unix : Unix.
Proof.
  refine {| mkdir_parents := fun _ fs => inr fs; bind_error := fun _ _ => None; bound_mode := 493; close_removes := false |}.
  intros p fs fs' E. by injection E as <-.
Defined.

Definition demo_socket_path : pystr := §"/run/signer.sock".

(** A host whose signer crashed: its socket is still there. *)
Definition demo_host : Host := {|
  ho_world := demo_world;
  ho_environ := <[§"ACS_SIGNER_SOCKET" := demo_socket_path]>
                  (<[§"ACS_SIGNER_PRIVATE_KEY" := b64encode (replicate 32 7)]> ∅);
  ho_settings := None; ho_pools := []; ho_databases := []; ho_objects := 0;
  ho_files := {[demo_socket_path := a_socket 493]}; ho_log := [] |}.

Lemma demo_reachable : reachable demo_settings.
Proof. split; reflexivity. Qed.

Lemma services_use_their_roles_witness :
  exists h' d sv, run (start_services demo_settings) demo_host = (h', OK (d, sv)) /\ length (ho_pools h') = 1%nat.
Proof.
  destruct (services_use_their_roles demo_settings demo_host demo_reachable) as (h' & d & sv & E & _).
  exists h', d, sv. split; [exact E|].
  assert (H : length (ho_pools (run (start_services demo_settings) demo_host).1) = 1%nat) by (vm_compute; reflexivity).
  rewrite E in H. exact H.
Defined.

(** The administrator's script, run for a name that is already taken, ends with
    [sys.exit] and a closed pool. *)
Definition demo_taken : Host := set_world (run (create demo_settings §"boris" §"Boris" §"secret-password" true) demo_world).1 demo_host.
Definition demo_script : hio unit := create_admin_main §"boris" §"Boris" §"secret-password" §"secret-password" false.

Lemma processes_close_their_pools_witness :
  match run demo_script demo_taken with
  | (h', ERR (HExit _)) => pools_closed demo_taken h' /\ length (ho_pools h') = 1%nat
  | _ => False
  end.
Proof.
  assert (Hok : match run demo_script demo_taken with
                | (h', ERR (HExit _)) => (length (ho_pools h') =? 1)%nat | _ => false end = true) by (vm_compute; reflexivity).
  destruct (run demo_script demo_taken) as [h' [[]|[e|message|message]]] eqn:E; try discriminate Hok.
  split; [|by apply Nat.eqb_eq].
  refine (processes_close_their_pools (fun _ => Ret tt) _ _ demo_settings demo_taken _ h' (ERR (HExit message))
    demo_reachable (fun _ => I) eq_refl (or_intror (or_intror E))).
Defined.

Lemma settings_are_read_once_witness :
  exists h', run get_settings demo_host = (h', OK demo_settings)
    /\ run get_settings (set_environ ∅ h') = (set_environ ∅ h', OK demo_settings).
Proof.
  assert (E : run get_settings demo_host = (set_cached (Some demo_settings) demo_host, OK demo_settings)).
  { assert (H : exists v, _pepper_present (token_pepper demo_settings) = Some v) by (eexists; vm_compute; reflexivity).
    destruct H as [v H]. unfold get_settings. rewrite run_atomic. cbn [ho_settings demo_host parse_settings demo_environment].
    rewrite H. reflexivity. }
  eexists. split; [exact E|].
  exact (proj1 (settings_are_read_once demo_host _ demo_settings ∅ eq_refl E)).
Defined.

Lemma signer_starts_iff_key_is_sound_witness :
  exists h1, ho_files h1 !! demo_socket_path = Some (a_socket 432)
    /\ run (signer_main (fun _ => Ret tt)) demo_host = (unlink demo_socket_path h1, OK tt).
Proof.
  assert (H1 : default [] (ho_environ demo_host !! §"ACS_SIGNER_SOCKET") = demo_socket_path) by (vm_compute; reflexivity).
  assert (H2 : ho_files demo_host !! demo_socket_path <> Some a_directory) by (vm_compute; discriminate).
  pose proof (signer_starts_iff_key_is_sound (fun _ => Ret tt) demo_host) as H. cbv zeta in H. rewrite H1 in H.
  destruct H as [H _]; [intros _; eexists; exact (conj eq_refl (conj H2 eq_refl))|].
  destruct (H (replicate 32 7)) as (h1 & Hf & _ & Hr); [discriminate|vm_compute; reflexivity|reflexivity|].
  exists h1. exact (conj Hf Hr).
Defined.
