(* ===== verification/Firmware.v ===== *)
(** * The controller's firmware: [firmware/esp32/src/*.cpp]

    The other end of the socket: the answer to the backend's challenge
    ([acs_ws.cpp]), the check of a signed command, which rebuilds the signed
    bytes from the fields ([acs_command.cpp]), the relay ([acs_relay.cpp]) and
    the advertised beacon identifier ([acs_beacon.cpp]).  A [String] is the list
    of its octets, [uint32_t] arithmetic is taken modulo [2 ^ 32], and what a
    function reads from [time] and [millis] is an argument.

    The theorems: the relay moves for signed commands only, once for each, and
    is released in time; the identifier on the air is the backend's. [EndToEnd]
    puts the two programs together. *)

From S2P Require Import Prelude Text Sha256 Clock Json Config Errors Proc World Demo AuditLog Repos Schema Signer Security Proximity RateLimit Hub Evolve Auth Unlock Der ControllerWs.

(** ** Libraries *)

(** What both ends exchange: objects of printable text, integers of 64 bits and
    Booleans, with at most one more level of objects. *)
Definition plain_value (v : json) : Prop :=
  match v with
  | JNull | JBool _ => True
  | JInt z => - 2 ^ 63 <= z < 2 ^ 63
  | JStr s => Forall plain s
  | _ => False
  end.

Definition flat (m : dict) : Prop :=
  NoDup (map fst m) /\ Forall (fun kv => Forall plain kv.1 /\ plain_value kv.2) m.

Definition nested (m : dict) : Prop :=
  NoDup (map fst m)
  /\ Forall (fun kv => Forall plain kv.1 /\ (plain_value kv.2 \/ exists m', kv.2 = JObj m' /\ flat m')) m.

(** ArduinoJson and the base64, HMAC and SHA-256 of mbedtls, with what is relied on:
    the parser reads back compact JSON, the printer prints it. The strings of a
    parsed document are octets. *)
Class BoardLibraries := {
  deserializeJson : bytes -> option json;
  serializeJson : json -> bytes;
  mbedtls_base64_decode : bytes -> option bytes;
  mbedtls_base64_encode : bytes -> bytes;
  mbedtls_hmac : bytes -> bytes -> bytes;
  mbedtls_sha256 : bytes -> bytes;
  deserialize_dumps : forall m, nested m -> deserializeJson (dumps true false None (JObj m)) = Some (JObj m);
  serialize_dumps : forall m, flat m -> serializeJson (JObj m) = dumps false false None (JObj m);
  base64_decode_encode : forall l, all_bytes l -> mbedtls_base64_decode (b64encode l) = Some l;
  base64_encode_spec : forall l, all_bytes l -> mbedtls_base64_encode l = b64encode l;
  hmac_spec : forall k m, mbedtls_hmac k m = Sha256.hmac_sha256 k m;
  sha256_spec : forall m, mbedtls_sha256 m = Sha256.sha256 m
}.

(* @src firmware/esp32/include/config.example.h 38-112 config.h *)
Record BoardConfig := {
  ACS_CONTROLLER_CODE : bytes; ACS_FIRMWARE_VERSION : bytes; ACS_CONTROLLER_PRIVATE_KEY : bytes;
  ACS_BEACON_KEY : bytes; ACS_SIGNER_PUBLIC_KEY : bytes; ACS_RELAY_MAX_MS : Z;
  ACS_WS_HEARTBEAT_TIMEOUT_S : Z; ACS_BEACON_ROTATION_S : Z; ACS_MAX_CLOCK_SKEW_S : Z
}.

(** [as<const char *>()], assigned to a [String] or compared with [strcmp]. *)
Fixpoint c_str (s : bytes) : bytes :=
  match s with [] => [] | c :: r => if c =? 0 then [] else c :: c_str r end.

(** [document[k]] *)
Definition member (k : pystr) (v : json) : json :=
  match v with JObj m => default JNull (dict_get k m) | _ => JNull end.

(** [document[k] | ""] *)
Definition or_empty (v : json) : bytes := match v with JStr s => c_str s | _ => [] end.

(** [is<const char *>()], [is<uint32_t>()], [is<int64_t>()], and the value. *)
Definition as_text (v : json) : option bytes := match v with JStr s => Some (c_str s) | _ => None end.
Definition as_uint32 (v : json) : option Z :=
  match v with JInt z => if (0 <=? z) && (z <? 2 ^ 32) then Some z else None | _ => None end.
Definition as_int64 (v : json) : option Z :=
  match v with JInt z => if (- 2 ^ 63 <=? z) && (z <? 2 ^ 63) then Some z else None | _ => None end.

Section crypto.
Context {BL : BoardLibraries}.

(** The number of octets written, and the octets; nothing when they do not
    fit. *)
(* @src firmware/esp32/src/acs_crypto.cpp 44-50 base64Decode *)
Definition base64Decode (input : bytes) (outCapacity : nat) : bytes :=
  match mbedtls_base64_decode input with
  | Some l => if (length l <=? outCapacity)%nat then l else []
  | None => []
  end.

(* @src firmware/esp32/src/acs_crypto.cpp 52-68 base64Encode *)
Definition base64Encode (data : bytes) : bytes :=
  let encoded := mbedtls_base64_encode data in
  if (127 <? length encoded)%nat then [] else encoded.

(* @src firmware/esp32/src/acs_crypto.cpp 70-78 base64UrlEncodeNoPad *)
Definition base64UrlEncodeNoPad (data : bytes) : bytes :=
  rstrip_eq ((fun c => if c =? 43 then 45 else if c =? 47 then 95 else c) <$> base64Encode data).
End crypto.

(** ** [acs_relay.cpp] *)

Module Relay.
(* @src firmware/esp32/include/acs_relay.h 14-26 Relay *)
Record Relay := { energised_ : bool; offAtMs_ : Z }.

#[global] Instance Relay_eq_dec : EqDecision Relay.
Proof. solve_decision. Defined.

(** The length used, and the relay. *)
(* @src firmware/esp32/src/acs_relay.cpp 23-29 Relay::pulse *)
Definition pulse (cfg : BoardConfig) (millis requestedMs : Z) : Z * Relay :=
  let duration := if ACS_RELAY_MAX_MS cfg <? requestedMs then ACS_RELAY_MAX_MS cfg else requestedMs in
  (duration, {| energised_ := true; offAtMs_ := (millis + duration) mod 2 ^ 32 |}).

(* @src firmware/esp32/src/acs_relay.cpp 41-44 Relay::forceOff *)
Definition forceOff (r : Relay) : Relay := {| energised_ := false; offAtMs_ := offAtMs_ r |}.

(** [static_cast<int32_t>(millis() - offAtMs_) >= 0] *)
(* @src firmware/esp32/src/acs_relay.cpp 31-39 Relay::tick *)
Definition tick (millis : Z) (r : Relay) : Relay :=
  if negb (energised_ r) then r
  else if (millis - offAtMs_ r) mod 2 ^ 32 <? 2 ^ 31 then forceOff r else r.
End Relay.

(** ** [acs_command.cpp] *)

Module Command.
(* @src firmware/esp32/include/acs_command.h 28-37 UnlockCommand *)
Record UnlockCommand := {
  commandId : bytes; controllerCode : bytes; doorCode : bytes; durationMs : Z; relayChannel : Z;
  issuedAt : Z; expiresAt : Z; nonce : bytes
}.

(* @src firmware/esp32/src/acs_command.cpp 16-27 appendJsonString *)
Definition escape_octet (c : Z) : bytes :=
  if (c =? 34) || (c =? 92) then [92; c] else if c <? 32 then escape_u c else [c].

(* @src firmware/esp32/src/acs_command.cpp 13-29 appendJsonString *)
Definition appendJsonString (out value : bytes) : bytes := out ++ 34 :: (value ≫= escape_octet) ++ [34].

(* @src firmware/esp32/src/acs_command.cpp 33-59 parseUnlockCommand *)
Definition parseUnlockCommand (payload : json) : option UnlockCommand :=
  command_id ← as_text (member §"command_id" payload);
  cmd ← as_text (member §"cmd" payload);
  controller_code ← as_text (member §"controller_code" payload);
  door_code ← as_text (member §"door_code" payload);
  nonce ← as_text (member §"nonce" payload);
  duration_ms ← as_uint32 (member §"duration_ms" payload);
  relay_channel ← as_uint32 (member §"relay_channel" payload);
  issued_at ← as_int64 (member §"issued_at" payload);
  expires_at ← as_int64 (member §"expires_at" payload);
  if negb (str_eqb cmd §"unlock") then None
  else Some {| commandId := command_id; controllerCode := controller_code; doorCode := door_code;
               durationMs := duration_ms; relayChannel := relay_channel; issuedAt := issued_at;
               expiresAt := expires_at; nonce := nonce |}.

Definition quoted (key : pystr) : bytes := 34 :: key ++ [34].

(* @src firmware/esp32/src/acs_command.cpp 64-84 canonicalCommandBytes *)
Definition canonicalBody (command : UnlockCommand) : bytes :=
  let body := 123 :: quoted §"cmd" ++ 58 :: quoted §"unlock" ++ [44] in
  let body := body ++ quoted §"command_id" ++ [58] in
  let body := appendJsonString body (commandId command) in
  let body := body ++ 44 :: quoted §"controller_code" ++ [58] in
  let body := appendJsonString body (controllerCode command) in
  let body := body ++ 44 :: quoted §"door_code" ++ [58] in
  let body := appendJsonString body (doorCode command) in
  let body := body ++ 44 :: quoted §"duration_ms" ++ [58] in
  let body := body ++ int_str (durationMs command) in
  let body := body ++ 44 :: quoted §"expires_at" ++ [58] in
  let body := body ++ int_str (expiresAt command) in
  let body := body ++ 44 :: quoted §"issued_at" ++ [58] in
  let body := body ++ int_str (issuedAt command) in
  let body := body ++ 44 :: quoted §"nonce" ++ [58] in
  let body := appendJsonString body (nonce command) in
  let body := body ++ 44 :: quoted §"relay_channel" ++ [58] in
  let body := body ++ int_str (relayChannel command) in
  body ++ [125].

(** [None]: the result 0, the buffer is too small. *)
(* @src firmware/esp32/src/acs_command.cpp 61-95 canonicalCommandBytes *)
Definition canonicalCommandBytes (command : UnlockCommand) (capacity : nat) : option bytes :=
  let kDomain := §"acs-command:v1" ++ [0] in
  let out := kDomain ++ canonicalBody command in
  if (capacity <? length out)%nat then None else Some out.
End Command.

(** ** [acs_status_led.cpp] *)

Module StatusLed.
(* @src firmware/esp32/include/acs_status_led.h 14-14 LedState *)
Inductive LedState := Booting | WifiConnecting | ServerConnecting | Online | Rejected | Unlocking.

#[global] Instance LedState_eq_dec : EqDecision LedState.
Proof. solve_decision. Defined.

(* @src firmware/esp32/include/acs_status_led.h 16-27 StatusLed *)
Record StatusLed := { state_ : LedState; nextChangeMs_ : Z; phase_ : Z; level_ : bool }.

(* @src firmware/esp32/src/acs_status_led.cpp 14-21 StatusLed::set *)
Definition set (millis : Z) (state : LedState) (l : StatusLed) : StatusLed :=
  if bool_decide (state_ l = state) then l
  else {| state_ := state; nextChangeMs_ := millis; phase_ := 0; level_ := level_ l |}.

(** What a due change makes of state, phase and level, and how long it holds.
    [phase_] is a [uint8_t]. *)
(* @src firmware/esp32/src/acs_status_led.cpp 29-56 StatusLed::tick *)
Definition change (l : StatusLed) : LedState * Z * bool * Z :=
  match state_ l with
  | Booting | WifiConnecting => (state_ l, phase_ l, negb (level_ l), 100)
  | ServerConnecting => (state_ l, phase_ l, negb (level_ l), 500)
  | Online => (state_ l, phase_ l, true, 1000)
  | Unlocking => (state_ l, phase_ l, true, 3000)
  | Rejected =>
      let phase := (phase_ l + 1) mod 256 in
      if 6 <=? phase then (Online, phase, true, 120) else (Rejected, phase, negb (level_ l), 120)
  end.

(* @src firmware/esp32/src/acs_status_led.cpp 23-60 StatusLed::tick *)
Definition tick (millis : Z) (l : StatusLed) : StatusLed :=
  if (millis - nextChangeMs_ l) mod 2 ^ 32 <? 2 ^ 31 then
    let '(state, phase, level, hold) := change l in
    {| state_ := state; nextChangeMs_ := (millis + hold) mod 2 ^ 32; phase_ := phase; level_ := level |}
  else l.
End StatusLed.

(** ** [acs_ws.cpp] *)

Module WsLink.
Import Relay Command StatusLed.

(** The link, and the two objects it drives: the LED and the relay. *)
(* @src firmware/esp32/include/acs_ws.h 17-45 WsLink *)
Record WsLink := {
  authenticated_ : bool; lastPongMs_ : Z; seen_ : list bytes; seenNext_ : nat; led : StatusLed; relay : Relay
}.

(* @src firmware/esp32/include/acs_ws.h 42-42 kSeenCapacity *)
Definition kSeenCapacity : nat := 16.
(* @src firmware/esp32/src/acs_ws.cpp 23-23 kMaxCanonical *)
Definition kMaxCanonical : nat := 512.
(* @src firmware/esp32/src/acs_ws.cpp 22-22 kAuthDomain *)
Definition kAuthDomain : bytes := §"acs-controller-auth:v1" ++ [0].
(** 2024-01-01. *)
Definition clock_sane : Z := 1704067200.

Definition with_led (l : StatusLed) (s : WsLink) : WsLink := {|
  authenticated_ := authenticated_ s; lastPongMs_ := lastPongMs_ s; seen_ := seen_ s;
  seenNext_ := seenNext_ s; led := l; relay := relay s |}.
Definition set_led (millis : Z) (state : LedState) (s : WsLink) : WsLink :=
  with_led (StatusLed.set millis state (led s)) s.
Definition set_link (auth : bool) (pong : Z) (l : StatusLed) (s : WsLink) : WsLink := {|
  authenticated_ := auth; lastPongMs_ := pong; seen_ := seen_ s; seenNext_ := seenNext_ s; led := l;
  relay := relay s |}.

(* @src firmware/esp32/src/acs_ws.cpp 249-256 WsLink::commandAlreadySeen *)
Definition commandAlreadySeen (commandId : bytes) (s : WsLink) : bool :=
  existsb (fun id => negb (bool_decide (id = [])) && str_eqb id commandId) (seen_ s).

(* @src firmware/esp32/src/acs_ws.cpp 258-261 WsLink::rememberCommand *)
Definition rememberCommand (commandId : bytes) (s : WsLink) : WsLink := {|
  authenticated_ := authenticated_ s; lastPongMs_ := lastPongMs_ s;
  seen_ := <[seenNext_ s := commandId]> (seen_ s);
  seenNext_ := (S (seenNext_ s) mod kSeenCapacity)%nat; led := led s; relay := relay s |}.

Section link.
Context {BL : BoardLibraries} {ED : Ed25519} (cfg : BoardConfig).

(* @src firmware/esp32/src/acs_ws.cpp 222-228 WsLink::sendAck *)
Definition ack_doc (commandId result detail : bytes) (relayMs millis : Z) : dict :=
  [(§"type", JStr §"ack"); (§"command_id", JStr commandId); (§"result", JStr result);
   (§"detail", JStr detail); (§"relay_ms", JInt relayMs); (§"uptime_ms", JInt millis)].

(* @src firmware/esp32/src/acs_ws.cpp 220-233 WsLink::sendAck *)
Definition sendAck (commandId result detail : bytes) (relayMs millis : Z) : list bytes :=
  [serializeJson (JObj (ack_doc commandId result detail relayMs millis))].

(* @src firmware/esp32/src/acs_ws.cpp 235-247 WsLink::sendEvent *)
Definition sendEvent (event outcome detailJson : bytes) (s : WsLink) : list bytes :=
  if negb (authenticated_ s) then []
  else
    let out := 123 :: quoted §"type" ++ 58 :: quoted §"event" ++ 44 :: quoted §"event" ++ 58 :: quoted event in
    let out := out ++ 44 :: quoted §"outcome" ++ 58 :: quoted outcome ++ 44 :: quoted §"detail" ++ [58] in
    [out ++ match detailJson with [] => §"{}" | _ => detailJson end ++ [125]].

(** An acknowledged refusal. *)
Definition reject (millis : Z) (command : UnlockCommand) (detail : pystr) (s : WsLink) : WsLink * list bytes :=
  (set_led millis Rejected s, sendAck (commandId command) §"rejected" detail 0 millis).

(** A command whose checks have passed. *)
(* @src firmware/esp32/src/acs_ws.cpp 213-217 WsLink::handleCommand *)
Definition openDoor (millis : Z) (command : UnlockCommand) (s : WsLink) : WsLink * list bytes :=
  let s := rememberCommand (commandId command) s in
  let '(relayMs, r) := pulse cfg millis (durationMs command) in
  ({| authenticated_ := authenticated_ s; lastPongMs_ := lastPongMs_ s; seen_ := seen_ s;
      seenNext_ := seenNext_ s; led := StatusLed.set millis Unlocking (led s); relay := r |},
   sendAck (commandId command) §"opened" §"ok" relayMs millis).

(* @src firmware/esp32/src/acs_ws.cpp 143-218 WsLink::handleCommand *)
Definition handleCommand (now millis : Z) (text : bytes) (s : WsLink) : WsLink * list bytes :=
  match deserializeJson text with
  | None => (s, [])
  | Some document =>
      match parseUnlockCommand (member §"payload" document) with
      | None => (set_led millis Rejected s, [])
      | Some command =>
          if negb (str_eqb (controllerCode command) (c_str (ACS_CONTROLLER_CODE cfg))) then
            reject millis command §"wrong_controller" s
          else
            let signature := base64Decode (or_empty (member §"signature" document)) 64 in
            if negb (length signature =? 64)%nat then reject millis command §"bad_signature_encoding" s
            else
              match canonicalCommandBytes command kMaxCanonical with
              | None => reject millis command §"command_too_large" s
              | Some canonical =>
                  if negb (ed25519_verify (ACS_SIGNER_PUBLIC_KEY cfg) signature canonical) then
                    reject millis command §"bad_signature" s
                  else if now <? clock_sane then reject millis command §"clock_not_synced" s
                  else if expiresAt command <? now - ACS_MAX_CLOCK_SKEW_S cfg then
                    reject millis command §"expired" s
                  else if now + ACS_MAX_CLOCK_SKEW_S cfg <? issuedAt command then
                    reject millis command §"issued_in_the_future" s
                  else if commandAlreadySeen (commandId command) s then reject millis command §"replayed" s
                  else openDoor millis command s
              end
      end
  end.

(* @src firmware/esp32/src/acs_ws.cpp 107-127 WsLink::handleChallenge *)
Definition challengeMessage (nonceB64 : bytes) : option bytes :=
  let nonce := base64Decode nonceB64 64 in
  let code := c_str (ACS_CONTROLLER_CODE cfg) in
  match nonce with
  | [] => None
  | _ =>
      if (128 <? length kAuthDomain + length code + 1 + length nonce)%nat then None
      else Some (kAuthDomain ++ code ++ [0] ++ nonce)
  end.

(* @src firmware/esp32/src/acs_ws.cpp 129-136 WsLink::handleChallenge *)
Definition auth_doc (message : bytes) : dict :=
  [(§"type", JStr §"auth"); (§"controller_code", JStr (c_str (ACS_CONTROLLER_CODE cfg)));
   (§"signature", JStr (base64Encode (ed25519_sign (ACS_CONTROLLER_PRIVATE_KEY cfg) message)));
   (§"firmware_version", JStr (c_str (ACS_FIRMWARE_VERSION cfg)))].

(* @src firmware/esp32/src/acs_ws.cpp 106-141 WsLink::handleChallenge *)
Definition handleChallenge (nonceB64 : bytes) : list bytes :=
  match challengeMessage nonceB64 with
  | None => []
  | Some message => [serializeJson (JObj (auth_doc message))]
  end.

(* @src firmware/esp32/src/acs_ws.cpp 85-104 WsLink::handleText *)
Definition handleText (now millis : Z) (text : bytes) (s : WsLink) : WsLink * list bytes :=
  match deserializeJson text with
  | None => (s, [])
  | Some document =>
      let type := or_empty (member §"type" document) in
      if str_eqb type §"challenge" then (s, handleChallenge (or_empty (member §"nonce" document)))
      else if str_eqb type §"auth_ok" then (set_link true millis (StatusLed.set millis Online (led s)) s, [])
      else if str_eqb type §"ping" then (s, [dumps false false None (JObj [(§"type", JStr §"pong")])])
      else if str_eqb type §"command" then handleCommand now millis text s
      else (s, [])
  end.

(** What the websocket library reports. *)
Inductive WsEvent := CONNECTED | DISCONNECTED | TEXT (payload : bytes) | PONG.

(* @src firmware/esp32/src/acs_ws.cpp 58-83 WsLink::handleEvent *)
Definition handleEvent (now millis : Z) (e : WsEvent) (s : WsLink) : WsLink * list bytes :=
  match e with
  | CONNECTED => (set_link false millis (StatusLed.set millis ServerConnecting (led s)) s, [])
  | DISCONNECTED => (set_link false (lastPongMs_ s) (StatusLed.set millis ServerConnecting (led s)) s, [])
  | TEXT payload => handleText now millis payload (set_link (authenticated_ s) millis (led s) s)
  | PONG => (set_link (authenticated_ s) millis (led s) s, [])
  end.

(** Whether the socket is dropped, and the link, after the library's turn. *)
(* @src firmware/esp32/src/acs_ws.cpp 45-56 WsLink::tick *)
Definition tick (millis : Z) (s : WsLink) : bool * WsLink :=
  if authenticated_ s && (ACS_WS_HEARTBEAT_TIMEOUT_S cfg * 1000 <? (millis - lastPongMs_ s) mod 2 ^ 32)
  then (true, set_link false (lastPongMs_ s) (StatusLed.set millis ServerConnecting (led s)) s)
  else (false, s).
End link.
End WsLink.

(** ** [acs_beacon.cpp] *)

Module Beacon.
(* @src firmware/esp32/src/acs_beacon.cpp 14-14 kDomain *)
Definition kDomain : bytes := §"acs-beacon:v1".

(** Octet [i] of a big-endian [uint64_t]. *)
(* @src firmware/esp32/src/acs_beacon.cpp 53-56 Beacon::updateAdvertisement *)
Definition slot_octets (slot : Z) : bytes :=
  (fun i => Z.land (Z.shiftr slot (56 - 8 * Z.of_nat i)) 255) <$> seq 0 8.

(* @src firmware/esp32/src/acs_beacon.cpp 17-17 kClockSane *)
Definition kClockSane : Z := 1704067200.

(** The identifier on the air at a time: [None] before the clock is set. *)
(* @src firmware/esp32/src/acs_beacon.cpp 34-62 Beacon::tick *)
Definition advertised {BL : BoardLibraries} (cfg : BoardConfig) (now : Z) : option bytes :=
  if now <? kClockSane then None
  else
    let slot := now / ACS_BEACON_ROTATION_S cfg in
    let mac := mbedtls_hmac (ACS_BEACON_KEY cfg) (kDomain ++ slot_octets slot) in
    Some (base64UrlEncodeNoPad (take 16 mac)).
End Beacon.

(** ** What goes over the socket is plain *)

Lemma utf8_key k : forallb (fun c => (32 <=? c) && (c <? 127)) k = true -> Forall plain k.
Proof.
  rewrite forallb_forall. intros H. apply Forall_forall. intros c Hc. apply list_elem_of_In, H in Hc. unfold plain. lia.
Qed.

Lemma c_str_plain s : Forall plain s -> c_str s = s.
Proof.
  induction 1 as [|c s Hc _ IH]; [done|]. cbn. rewrite IH. unfold plain in Hc.
  by rewrite (proj2 (Z.eqb_neq c 0)) by lia.
Qed.

Lemma plain_scalar s : Forall plain s -> forallb is_scalar s = true.
Proof.
  intros Hs. apply forallb_forall. intros c Hc. apply list_elem_of_In in Hc.
  rewrite Forall_forall in Hs. apply Hs in Hc. unfold plain, is_scalar in *. lia.
Qed.

Lemma plain_value_ok v : plain_value v -> json_ok v = true.
Proof.
  destruct v as [|b|z|t|s|l|m]; cbn; try done; [|by apply plain_scalar].
  intros Hz. apply Nat.leb_le.
  assert (Ha : 0 <= Z.abs z < 10 ^ Z.of_nat 19) by (change (10 ^ Z.of_nat 19) with (10 ^ 19); lia).
  pose proof (digits_fuel_length (S (Z.to_nat (Z.log2 (Z.abs z)))) (Z.abs z) 18 Ha) as Hl.
  etransitivity; [exact Hl|]. apply Nat.leb_le. reflexivity.
Qed.

Lemma members_ok (m : dict) :
  NoDup (map fst m) -> Forall (fun kv => Forall plain kv.1 /\ json_ok kv.2 = true) m -> json_ok (JObj m) = true.
Proof.
  intros Hn Hm. cbn [json_ok]. rewrite bool_decide_true by done. apply forallb_forall. intros kv Hkv.
  apply list_elem_of_In in Hkv. rewrite Forall_forall in Hm. apply Hm in Hkv as [Hk Hv].
  by rewrite plain_scalar, Hv.
Qed.

Lemma flat_ok m : flat m -> json_ok (JObj m) = true.
Proof.
  intros [Hn Hm]. apply members_ok; [done|]. eapply Forall_impl; [exact Hm|]. intros kv [Hk Hv].
  split; [done|by apply plain_value_ok].
Qed.

Lemma nested_ok m : nested m -> json_ok (JObj m) = true.
Proof.
  intros [Hn Hm]. apply members_ok; [done|]. eapply Forall_impl; [exact Hm|]. intros kv [Hk [Hv|(m' & -> & Hv)]];
    (split; [done|]); [by apply plain_value_ok|by apply flat_ok].
Qed.

Lemma flat_nested m : flat m -> nested m.
Proof. intros [Hn Hm]. split; [done|]. eapply Forall_impl; [exact Hm|]. intros kv []. auto. Qed.

(** A message given by its items: the keys are literals. *)
Definition keys_ok (m : dict) : bool :=
  bool_decide (NoDup (map fst m)) && forallb (fun k => forallb (fun c => (32 <=? c) && (c <? 127)) k) (map fst m).

Lemma keys_ok_split m :
  keys_ok m = true -> NoDup (map fst m) /\ Forall (fun kv => Forall plain kv.1) m.
Proof.
  unfold keys_ok. intros [Hn%bool_decide_eq_true_1 Hk]%andb_prop. split; [done|].
  apply Forall_forall. intros kv Hkv. rewrite forallb_forall in Hk. apply utf8_key, Hk.
  apply in_map. by apply list_elem_of_In.
Qed.

Lemma flat_intro m : keys_ok m = true -> Forall (fun kv => plain_value kv.2) m -> flat m.
Proof. intros [Hn Hk]%keys_ok_split Hv. split; [done|]. by apply Forall_and. Qed.

Lemma nested_intro m :
  keys_ok m = true -> Forall (fun kv => plain_value kv.2 \/ exists m', kv.2 = JObj m' /\ flat m') m -> nested m.
Proof. intros [Hn Hk]%keys_ok_split Hv. split; [done|]. by apply Forall_and. Qed.

Lemma ack_flat id result detail ms millis :
  Forall plain id -> Forall plain result -> Forall plain detail -> 0 <= ms < 2 ^ 32 -> 0 <= millis < 2 ^ 32 ->
  flat (WsLink.ack_doc id result detail ms millis).
Proof.
  intros. apply flat_intro; [reflexivity|]. unfold WsLink.ack_doc.
  rewrite !Forall_cons, Forall_nil. cbn [snd plain_value]. split_and!; try done; try lia. by apply utf8_key.
Qed.

(** ** The check of a command *)

Section link_theorems.
Import Relay Command WsLink.
Context {BL : BoardLibraries} {ED : Ed25519} (cfg : BoardConfig).

(** Everything a command has to be for the relay to move. *)
Record honoured (now : Z) (text : bytes) (s : WsLink) (command : UnlockCommand) : Prop := {
  ho_document : exists document, deserializeJson text = Some document
    /\ or_empty (member §"type" document) = §"command"
    /\ parseUnlockCommand (member §"payload" document) = Some command
    /\ length (base64Decode (or_empty (member §"signature" document)) 64) = 64%nat
    /\ exists canonical, canonicalCommandBytes command kMaxCanonical = Some canonical
       /\ ed25519_verify (ACS_SIGNER_PUBLIC_KEY cfg) (base64Decode (or_empty (member §"signature" document)) 64)
            canonical = true;
  ho_mine : controllerCode command = c_str (ACS_CONTROLLER_CODE cfg);
  ho_clock : clock_sane <= now;
  ho_fresh : now - ACS_MAX_CLOCK_SKEW_S cfg <= expiresAt command;
  ho_issued : issuedAt command <= now + ACS_MAX_CLOCK_SKEW_S cfg;
  ho_new : commandAlreadySeen (commandId command) s = false
}.

(** A refusal changes nothing but the LED. *)
Lemma reject_quiet millis command detail s : (reject millis command detail s).1 = set_led millis StatusLed.Rejected s.
Proof. done. Qed.

Lemma handleCommand_cases now millis text s :
  (forall document, deserializeJson text = Some document -> or_empty (member §"type" document) = §"command") ->
  (exists l, (handleCommand cfg now millis text s).1 = with_led l s)
  \/ exists command, honoured now text s command
       /\ handleCommand cfg now millis text s = openDoor cfg millis command s.
Proof.
  intros Htype. unfold handleCommand.
  destruct (deserializeJson text) as [document|] eqn:Ed; [|left; exists (led s); by destruct s].
  destruct (parseUnlockCommand _) as [command|] eqn:Ep; [|left; by eexists].
  destruct (str_eqb (controllerCode command) _) eqn:Ec; cbn [negb]; [|left; by eexists].
  apply bool_decide_eq_true_1 in Ec.
  destruct (Nat.eqb_spec (length (base64Decode (or_empty (member §"signature" document)) 64)) 64) as [El|El];
    cbn [negb]; [|left; by eexists].
  destruct (canonicalCommandBytes command kMaxCanonical) as [canonical|] eqn:Eb; [|left; by eexists].
  destruct (ed25519_verify _ _ canonical) eqn:Ev; cbn [negb]; [|left; by eexists].
  destruct (Z.ltb_spec now clock_sane); [left; by eexists|].
  destruct (Z.ltb_spec (expiresAt command) (now - ACS_MAX_CLOCK_SKEW_S cfg)); [left; by eexists|].
  destruct (Z.ltb_spec (now + ACS_MAX_CLOCK_SKEW_S cfg) (issuedAt command)); [left; by eexists|].
  destruct (commandAlreadySeen (commandId command) s) eqn:Es; [left; by eexists|].
  right. exists command. split; [|done]. split; try done. exists document. eauto 8.
Qed.

(** An honoured command is carried out. *)
Lemma handleText_honoured now millis text s command :
  honoured now text s command -> handleText cfg now millis text s = openDoor cfg millis command s.
Proof.
  intros [(document & Hd & Ht & Hp & Hl & canonical & Hc & Hv) Hm Hk Hf Hi Hn].
  unfold handleText. rewrite Hd, Ht. cbv zeta.
  change (str_eqb §"command" §"challenge") with false. change (str_eqb §"command" §"auth_ok") with false.
  change (str_eqb §"command" §"ping") with false. change (str_eqb §"command" §"command") with true.
  cbv iota. unfold handleCommand.
  rewrite Hd, Hp, Hm, str_eqb_refl, Hl. cbn [negb Nat.eqb]. rewrite Hc, Hv. cbn [negb].
  by rewrite (proj2 (Z.ltb_ge _ _) Hk), (proj2 (Z.ltb_ge _ _) Hf), (proj2 (Z.ltb_ge _ _) Hi), Hn.
Qed.

(** What one event does to the relay and to the memory of commands. *)
Lemma handleText_cases now millis text s :
  (relay (handleText cfg now millis text s).1 = relay s
   /\ seen_ (handleText cfg now millis text s).1 = seen_ s
   /\ seenNext_ (handleText cfg now millis text s).1 = seenNext_ s)
  \/ exists command, honoured now text s command
       /\ handleText cfg now millis text s = openDoor cfg millis command s.
Proof.
  unfold handleText. destruct (deserializeJson text) as [document|] eqn:Ed; [|by left].
  repeat case_match; try by left.
  assert (Htype : forall d, deserializeJson text = Some d -> or_empty (member §"type" d) = §"command").
  { intros d E. rewrite Ed in E. injection E as <-.
    match goal with H : str_eqb _ §"command" = true |- _ => by apply bool_decide_eq_true_1 in H end. }
  destruct (handleCommand_cases now millis text s Htype) as [(l & ->)|(command & Hh & ->)]; [by left|right; eauto].
Qed.

Lemma handleEvent_cases now millis e s :
  (relay (handleEvent cfg now millis e s).1 = relay s
   /\ seen_ (handleEvent cfg now millis e s).1 = seen_ s
   /\ seenNext_ (handleEvent cfg now millis e s).1 = seenNext_ s)
  \/ exists text command, e = TEXT text /\ honoured now text s command
       /\ (handleEvent cfg now millis e s).1
          = (openDoor cfg millis command (set_link (authenticated_ s) millis (led s) s)).1.
Proof.
  destruct e as [| |text|]; [by left..| |by left]. cbn [handleEvent].
  destruct (handleText_cases now millis text (set_link (authenticated_ s) millis (led s) s)) as [H|(c & Hh & ->)];
    [by left|right]. exists text, c. split; [done|]. split; [|done]. by destruct Hh.
Qed.

Lemma relay_moved now millis e s :
  relay (handleEvent cfg now millis e s).1 <> relay s ->
  exists text command, e = TEXT text /\ honoured now text s command
    /\ relay (handleEvent cfg now millis e s).1
       = {| energised_ := true;
            offAtMs_ := (millis + Z.min (durationMs command) (ACS_RELAY_MAX_MS cfg)) mod 2 ^ 32 |}.
Proof.
  intros Hr. destruct (handleEvent_cases now millis e s) as [[H _]|(text & command & -> & Hh & ->)]; [done|].
  exists text, command. split; [done|]. split; [done|]. cbn.
  destruct (Z.ltb_spec (ACS_RELAY_MAX_MS cfg) (durationMs command)); [rewrite Z.min_r by lia|rewrite Z.min_l by lia]; done.
Qed.

(** C10 The relay moves for nothing but a command of the signer for this
    controller: if any event at all changes the relay, it is a text whose
    payload parses, names this controller, is signed as a whole under the
    signer's key, is inside its time by a clock that is set, and was not
    honoured before; and the pulse is the one it asks for, cut to the maximum. *)
Theorem controller_opens_only_signed now millis e s :
  relay (handleEvent cfg now millis e s).1 <> relay s ->
  exists text command, e = TEXT text /\ honoured now text s command
    /\ relay (handleEvent cfg now millis e s).1
       = {| energised_ := true;
            offAtMs_ := (millis + Z.min (durationMs command) (ACS_RELAY_MAX_MS cfg)) mod 2 ^ 32 |}.
Proof. apply relay_moved. Qed.

(** *** One command, one opening *)

Definition run_events (evs : list (Z * Z * WsEvent)) (s : WsLink) : WsLink :=
  foldl (fun s ev => (handleEvent cfg ev.1.1 ev.1.2 ev.2 s).1) s evs.

(** How often the door is opened on the way. *)
Fixpoint openings (evs : list (Z * Z * WsEvent)) (s : WsLink) : nat :=
  match evs with
  | [] => 0
  | ev :: rest =>
      let s' := (handleEvent cfg ev.1.1 ev.1.2 ev.2 s).1 in
      ((if (seenNext_ s' =? seenNext_ s)%nat then 0 else 1) + openings rest s')%nat
  end.

Definition ring_ok (s : WsLink) : Prop := length (seen_ s) = kSeenCapacity /\ (seenNext_ s < kSeenCapacity)%nat.

(** [id] was remembered [k] openings ago. *)
Definition remembered (id : bytes) (k : nat) (s : WsLink) : Prop :=
  ring_ok s /\ exists p, (p < kSeenCapacity)%nat /\ seen_ s !! p = Some id
    /\ seenNext_ s = ((p + 1 + k) mod kSeenCapacity)%nat.

Lemma next_lt n : (S n mod kSeenCapacity < kSeenCapacity)%nat.
Proof. apply Nat.mod_upper_bound. done. Qed.

Lemma remember_ring id s : ring_ok s -> ring_ok (rememberCommand id s).
Proof. intros [Hl Hn]. split; cbn; [by rewrite length_insert|apply next_lt]. Qed.

Lemma remember_new id s : ring_ok s -> remembered id 0 (rememberCommand id s).
Proof.
  intros Hok. split; [by apply remember_ring|]. destruct Hok as [Hl Hn]. exists (seenNext_ s). split; [done|].
  split; [cbn; apply list_lookup_insert_eq; by rewrite Hl|]. cbn [rememberCommand seenNext_].
  by replace (seenNext_ s + 1 + 0)%nat with (S (seenNext_ s)) by lia.
Qed.

Lemma remember_other id id' k s :
  (k < 15)%nat -> remembered id k s -> remembered id (S k) (rememberCommand id' s).
Proof.
  intros Hk (Hok & p & Hp & Hs & Hn). split; [by apply remember_ring|]. exists p. split; [done|].
  unfold kSeenCapacity in *. split.
  - cbn [rememberCommand seen_]. rewrite list_lookup_insert_ne; [done|]. rewrite Hn. intros E.
    destruct (Nat.lt_ge_cases (p + 1 + k) 16) as [H|H].
    + rewrite Nat.mod_small in E by done. lia.
    + replace (p + 1 + k)%nat with (p + k - 15 + 1 * 16)%nat in E by lia. rewrite Nat.Div0.mod_add in E.
      rewrite Nat.mod_small in E by lia. lia.
  - cbn [rememberCommand seenNext_]. rewrite Hn. unfold kSeenCapacity.
    rewrite <- Nat.add_1_r, Nat.Div0.add_mod_idemp_l. f_equal. lia.
Qed.

Lemma remembered_seen id k s : id <> [] -> remembered id k s -> commandAlreadySeen id s = true.
Proof.
  intros Hne (_ & p & _ & Hs & _). apply existsb_exists. exists id.
  split; [|by rewrite bool_decide_false, str_eqb_refl]. apply list_elem_of_In. by eapply list_elem_of_lookup_2.
Qed.

Lemma remembered_set_link id k a p l s : remembered id k (set_link a p l s) <-> remembered id k s.
Proof. done. Qed.

Lemma ring_moves s id : ring_ok s -> seenNext_ (rememberCommand id s) <> seenNext_ s.
Proof.
  intros [_ Hn]. cbn [rememberCommand seenNext_]. unfold kSeenCapacity in *. intros E.
  destruct (decide (seenNext_ s = 15%nat)) as [H|H]; [by rewrite H in E|].
  rewrite Nat.mod_small in E by lia. lia.
Qed.

Lemma remembered_run id evs : forall k s,
  remembered id k s -> (k + openings evs s <= 15)%nat -> exists k', remembered id k' (run_events evs s).
Proof.
  induction evs as [|[[now millis] e] evs IH]; intros k s Hr Hk; [by exists k|].
  cbn [openings fst snd] in Hk. change (run_events ((now, millis, e) :: evs) s)
    with (run_events evs (handleEvent cfg now millis e s).1).
  destruct (handleEvent_cases now millis e s) as [(_ & H1 & H2)|(text & command & _ & _ & E)].
  - rewrite H2, Nat.eqb_refl in Hk. apply (IH k); [|done]. destruct Hr as ([Hl Hn] & Hp).
    unfold remembered, ring_ok. by rewrite H1, H2.
  - rewrite E in Hk |- *. destruct Hr as (Hok & Hp).
    rewrite (proj2 (Nat.eqb_neq _ _)) in Hk by exact (ring_moves s (commandId command) Hok).
    apply (IH (S k)); [|lia]. apply (remember_other id (commandId command) k s); [lia|by split].
Qed.

(** C31 A command opens the door once: after it was honoured, and as long as
    fewer than sixteen others were, a text that carries its identifier again
    moves nothing, whatever came in between. *)
Theorem replayed_command_refused now millis text command s evs now' millis' text' :
  ring_ok s -> commandId command <> [] -> honoured now text s command ->
  let s1 := (handleText cfg now millis text s).1 in
  (openings evs s1 < 16)%nat ->
  (forall command', honoured now' text' (run_events evs s1) command' -> commandId command' = commandId command) ->
  relay (handleText cfg now' millis' text' (run_events evs s1)).1 = relay (run_events evs s1).
Proof.
  intros Hok Hne Hh s1 Hn Hid.
  assert (Hr : remembered (commandId command) 0 s1).
  { unfold s1. rewrite (handleText_honoured _ _ _ _ _ Hh). exact (remember_new (commandId command) s Hok). }
  destruct (remembered_run _ evs 0 s1 Hr ltac:(lia)) as (k & Hk).
  destruct (handleText_cases now' millis' text' (run_events evs s1)) as [[H _]|(c & Hc & _)]; [done|].
  exfalso. pose proof (ho_new _ _ _ _ Hc) as Hnew. rewrite (Hid c Hc) in Hnew.
  by rewrite (remembered_seen _ k) in Hnew.
Qed.
End link_theorems.

(** ** The relay and the clock that wraps *)

(** The door locks again: a pulse is never longer than the maximum, and the
    first turn of the loop at or after its end, up to half the range of the
    32-bit millisecond counter later and across its wrap, releases the relay; no
    turn before it does. *)
Theorem relay_releases cfg start requested m :
  0 <= requested -> 0 <= ACS_RELAY_MAX_MS cfg < 2 ^ 31 -> 0 <= start ->
  let '(duration, r) := Relay.pulse cfg (start mod 2 ^ 32) requested in
  duration = Z.min requested (ACS_RELAY_MAX_MS cfg)
  /\ (start <= m < start + duration + 2 ^ 31 ->
      Relay.energised_ (Relay.tick (m mod 2 ^ 32) r) = (m <? start + duration)).
Proof.
  intros Hreq Hmax Hs. unfold Relay.pulse.
  set (d := if ACS_RELAY_MAX_MS cfg <? requested then ACS_RELAY_MAX_MS cfg else requested).
  assert (Hd : d = Z.min requested (ACS_RELAY_MAX_MS cfg)).
  { unfold d. destruct (Z.ltb_spec (ACS_RELAY_MAX_MS cfg) requested); lia. }
  split; [done|]. intros Hm. unfold Relay.tick. cbn [Relay.energised_ negb Relay.offAtMs_].
  replace ((m mod 2 ^ 32 - (start mod 2 ^ 32 + d) mod 2 ^ 32) mod 2 ^ 32) with ((m - start - d) mod 2 ^ 32).
  - destruct (Z.ltb_spec m (start + d)) as [H|H].
    + replace ((m - start - d) mod 2 ^ 32) with (m - start - d + 2 ^ 32) by (clearbody d; lia).
      rewrite (proj2 (Z.ltb_ge _ _)) by lia. done.
    + rewrite Z.mod_small by lia. rewrite (proj2 (Z.ltb_lt _ _)) by lia. done.
  - rewrite Zdiv.Zplus_mod_idemp_l. rewrite Zdiv.Zminus_mod_idemp_l, Zdiv.Zminus_mod_idemp_r. f_equal. lia.
Qed.

(** ** The beacon *)

Lemma slot_octets_be slot : 0 <= slot < 2 ^ 64 -> to_bytes_be 8 slot = Some (Beacon.slot_octets slot).
Proof.
  intros Hs. unfold to_bytes_be. change (256 ^ Z.of_nat 8) with (2 ^ 64).
  rewrite (proj2 (Z.leb_le 0 slot)), (proj2 (Z.ltb_lt slot (2 ^ 64))) by lia. cbn [andb]. f_equal.
  unfold Beacon.slot_octets.
  assert (Hb : forall k, 0 <= k -> Z.land (Z.shiftr slot k) 255 = (slot / 2 ^ k) mod 256).
  { intros k Hk. rewrite Z.shiftr_div_pow2 by done. change 255 with (Z.ones 8). by rewrite Z.land_ones. }
  cbn [seq fmap list_fmap]. rewrite !Hb by lia. cbn [to_bytes_le rev app].
  rewrite !Z.div_div by lia. cbn. rewrite Z.div_1_r. done.
Qed.

Lemma url_of_std l :
  all_bytes l -> (fun c => if c =? 43 then 45 else if c =? 47 then 95 else c) <$> b64_encode std l = b64_encode url l.
Proof.
  assert (Hc : forall n, 0 <= n < 64 ->
    (if b64_char std n =? 43 then 45 else if b64_char std n =? 47 then 95 else b64_char std n) = b64_char url n).
  { intros n Hn. unfold b64_char.
    repeat match goal with |- context [if ?b then _ else _] => destruct b eqn:? end; bool_to_prop; lia. }
  induction l as [|x|x y|x y z r IH] using list_ind3; intros Hl; unfold all_bytes in *;
    rewrite ?Forall_cons in Hl; cbn [b64_encode fmap list_fmap]; rewrite ?Hc by lia; try done.
  rewrite IH; [done|tauto].
Qed.

Lemma url_encode {BL : BoardLibraries} l :
  all_bytes l -> (length l <= 93)%nat -> base64UrlEncodeNoPad l = urlsafe_nopad l.
Proof.
  intros Hl Hlen. unfold base64UrlEncodeNoPad, base64Encode, urlsafe_nopad. rewrite base64_encode_spec by done.
  assert (Hb : (length (b64encode l) <= 127)%nat).
  { unfold b64encode. rewrite b64_encode_nopad, length_app. pose proof (b64_nopad_length std l) as Hn.
    unfold b64_padding. repeat case_match; cbn [length]; lia. }
  rewrite (proj2 (Nat.ltb_ge _ _)) by done. unfold b64encode. by rewrite url_of_std.
Qed.

(** The identifier on the air is the one the backend computes: at a second
    [now] at which the clock is set, the controller advertises exactly
    [derive_beacon_id] of its key and of the backend's slot for that time. *)
Theorem advertised_is_derived {BL : BoardLibraries} cfg now slot :
  Beacon.kClockSane <= now -> length (ACS_BEACON_KEY cfg) = 32%nat -> 0 < ACS_BEACON_ROTATION_S cfg ->
  now < 2 ^ 63 -> slot_for (seconds now) (ACS_BEACON_ROTATION_S cfg) = OK slot ->
  exists id, Beacon.advertised cfg now = Some id /\ derive_beacon_id (ACS_BEACON_KEY cfg) slot = OK id.
Proof.
  intros Hsane Hkey Hrot Hmax. unfold slot_for. rewrite (proj2 (Z.eqb_neq _ _)) by lia. intros [= <-].
  assert (Hslot : seconds now / seconds (ACS_BEACON_ROTATION_S cfg) = now / ACS_BEACON_ROTATION_S cfg).
  { unfold seconds. rewrite Z.div_mul_cancel_r; [done|lia|done]. }
  rewrite Hslot. unfold Beacon.advertised. rewrite (proj2 (Z.ltb_ge _ _)) by done.
  unfold Beacon.kClockSane in Hsane.
  assert (Hr : 0 <= now / ACS_BEACON_ROTATION_S cfg < 2 ^ 64).
  { split; [apply Z.div_pos; lia|]. apply Z.div_lt_upper_bound; [done|]. nia. }
  eexists. split; [done|]. unfold derive_beacon_id, beacon_text. rewrite Hkey, slot_octets_be by done.
  cbn [negb Nat.eqb]. f_equal. rewrite hmac_spec. symmetry. apply url_encode.
  - apply Forall_take, Sha256.hmac_sha256_bytes.
  - rewrite length_take. unfold BEACON_ID_BYTES. lia.
Qed.

(** A command for another relay channel of the same controller moves the same
    relay for the same time. *)
Lemma relay_channel_is_ignored cfg millis command s channel :
  Relay.pulse cfg millis (Command.durationMs command)
  = Relay.pulse cfg millis (Command.durationMs (Command.Build_UnlockCommand
      (Command.commandId command) (Command.controllerCode command) (Command.doorCode command)
      (Command.durationMs command) channel (Command.issuedAt command) (Command.expiresAt command)
      (Command.nonce command)))
  /\ forall BL : BoardLibraries,
       (WsLink.openDoor cfg millis command s).1
       = (WsLink.openDoor cfg millis (Command.Build_UnlockCommand
           (Command.commandId command) (Command.controllerCode command) (Command.doorCode command)
           (Command.durationMs command) channel (Command.issuedAt command) (Command.expiresAt command)
           (Command.nonce command)) s).1.
Proof. split; [done|]. intros BL. reflexivity. Qed.

(** ** Witnesses *)

#[local] Existing Instances demo_repr.

#[local] Program Instance demo_board : BoardLibraries := {|
  deserializeJson := loads; serializeJson := dumps false false None;
  mbedtls_base64_decode := b64decode; mbedtls_base64_encode := b64encode; mbedtls_hmac := Sha256.hmac_sha256;
  mbedtls_sha256 := Sha256.sha256 |}.
Next Obligation. intros m Hm. rewrite loads_dumps by by apply nested_ok. by rewrite normal_none. Qed.
Next Obligation. done. Qed.
Next Obligation. intros l Hl. by apply b64_roundtrip. Qed.
Next Obligation. done. Qed.
Next Obligation. done. Qed.
Next Obligation. done. Qed.

(** Signatures of 64 octets. *)
Definition long_sign (k m : bytes) : bytes := demo_sign k m ++ demo_sign k m.

#[local] Program Instance demo_long_ed25519 : Ed25519 := {|
  ed25519_public := demo_public; ed25519_sign := long_sign;
  ed25519_verify := fun pub signature m => bool_decide (signature = Sha256.sha256 (pub ++ m) ++ Sha256.sha256 (pub ++ m)) |}.
Next Obligation. intros k m. cbn. by rewrite bool_decide_true. Qed.
Next Obligation. intros k m. unfold long_sign. apply all_bytes_app. split; apply Sha256.sha256_bytes. Qed.
Next Obligation. intros k. cbn. apply Forall_fmap, Forall_true. intros b. cbn. lia. Qed.

Lemma long_sign_length k m : length (ed25519_sign k m) = 64%nat.
Proof. cbn. unfold long_sign, demo_sign. by rewrite length_app, !Sha256.sha256_length. Qed.

Definition demo_signer : SignerService := {| s_key := replicate 32 9; s_key_id := §"signer-1" |}.

Definition demo_cfg : BoardConfig := {|
  ACS_CONTROLLER_CODE := §"ctrl-1"; ACS_FIRMWARE_VERSION := §"1.0.0"; ACS_CONTROLLER_PRIVATE_KEY := replicate 32 3;
  ACS_BEACON_KEY := replicate 32 1; ACS_SIGNER_PUBLIC_KEY := demo_public (replicate 32 9); ACS_RELAY_MAX_MS := 3000;
  ACS_WS_HEARTBEAT_TIMEOUT_S := 60; ACS_BEACON_ROTATION_S := 30; ACS_MAX_CLOCK_SKEW_S := 5 |}.

Definition demo_link : WsLink.WsLink := {|
  WsLink.authenticated_ := true; WsLink.lastPongMs_ := 0; WsLink.seen_ := replicate 16 []; WsLink.seenNext_ := 15;
  WsLink.led := {| StatusLed.state_ := StatusLed.Online; StatusLed.nextChangeMs_ := 1000; StatusLed.phase_ := 0;
    StatusLed.level_ := true |}; WsLink.relay := {| Relay.energised_ := false; Relay.offAtMs_ := 0 |} |}.

Definition demo_row : door_row := {|
  dr_code := §"front"; dr_name := §"Front door"; dr_location := None; dr_controller_id := Some 1;
  dr_relay_channel := 1; dr_unlock_seconds := 10; dr_is_active := true; dr_created_at := 0 |}.

Definition demo_payload : dict := command_payload demo_row §"ctrl-1" 10 77 1709208000 (replicate 16 5).
Definition demo_signed_bytes : bytes := default [] (canonical_bytes demo_payload).
Definition demo_text : bytes :=
  dumps true false None (JObj (command_envelope demo_payload (long_sign (replicate 32 9) demo_signed_bytes) (JStr §"signer-1"))).

Lemma demo_opens :
  Relay.energised_ (WsLink.relay (WsLink.handleText demo_cfg 1709208004 500 demo_text demo_link).1) = true.
Proof. vm_compute. reflexivity. Qed.

Lemma demo_identifies :
  match deserializeJson demo_text with
  | Some d => match Command.parseUnlockCommand (member §"payload" d) with
              | Some c => negb (bool_decide (Command.commandId c = [])) | None => false end
  | None => false
  end = true.
Proof. vm_compute. reflexivity. Qed.

Lemma demo_command d command :
  deserializeJson demo_text = Some d -> Command.parseUnlockCommand (member §"payload" d) = Some command ->
  Command.commandId command <> [].
Proof.
  intros Hd Hp. pose proof demo_identifies as H. rewrite Hd, Hp in H.
  by apply negb_true_iff, bool_decide_eq_false_1 in H.
Qed.

Lemma demo_honoured : exists command, honoured demo_cfg 1709208004 demo_text demo_link command
  /\ Command.commandId command <> [].
Proof.
  pose proof demo_opens as Ho.
  destruct (handleText_cases demo_cfg 1709208004 500 demo_text demo_link) as [[H _]|(command & Hh & _)].
  - rewrite H in Ho. discriminate Ho.
  - exists command. split; [exact Hh|]. destruct Hh as [(d & Hd & _ & Hp & _) _ _ _ _ _]. exact (demo_command d command Hd Hp).
Qed.

Lemma controller_opens_only_signed_witness :
  exists text command, WsLink.TEXT demo_text = WsLink.TEXT text /\ honoured demo_cfg 1709208004 text demo_link command.
Proof.
  destruct (controller_opens_only_signed demo_cfg 1709208004 500 (WsLink.TEXT demo_text) demo_link)
    as (text & command & H1 & H2 & _).
  - intros H. assert (Ho : Relay.energised_ (WsLink.relay (WsLink.handleEvent demo_cfg 1709208004 500
      (WsLink.TEXT demo_text) demo_link).1) = true) by (vm_compute; reflexivity).
    rewrite H in Ho. discriminate Ho.
  - exists text, command. exact (conj H1 H2).
Defined.

Lemma replayed_command_refused_witness :
  exists s1, WsLink.relay (WsLink.handleText demo_cfg 1709208005 900 demo_text s1).1 = WsLink.relay s1.
Proof.
  destruct demo_honoured as (command & Hh & Hne).
  exists (run_events demo_cfg [] (WsLink.handleText demo_cfg 1709208004 500 demo_text demo_link).1).
  apply (replayed_command_refused demo_cfg 1709208004 500 demo_text command demo_link [] 1709208005 900 demo_text).
  - split; [reflexivity|cbn; unfold WsLink.kSeenCapacity; lia].
  - exact Hne.
  - exact Hh.
  - cbn [openings]. lia.
  - intros command' [(d' & Hd' & _ & Hp' & _) _ _ _ _ _]. destruct Hh as [(d & Hd & _ & Hp & _) _ _ _ _ _].
    congruence.
Defined.

Lemma relay_releases_witness :
  Relay.energised_ (Relay.tick ((4294967000 + 3000) mod 2 ^ 32) (Relay.pulse demo_cfg (4294967000 mod 2 ^ 32) 10000).2) = false.
Proof.
  pose proof (relay_releases demo_cfg 4294967000 10000 (4294967000 + 3000) ltac:(lia) ltac:(cbn; lia) ltac:(lia)) as H.
  destruct (Relay.pulse demo_cfg (4294967000 mod 2 ^ 32) 10000) as [duration r] eqn:E.
  destruct H as [Hd H]. cbn [ACS_RELAY_MAX_MS demo_cfg] in Hd. cbn [snd]. rewrite H by lia.
  apply Z.ltb_ge. lia.
Defined.

Lemma advertised_is_derived_witness :
  exists id, Beacon.advertised demo_cfg 1709208004 = Some id
    /\ derive_beacon_id (replicate 32 1) 56973600 = OK id.
Proof.
  apply (advertised_is_derived demo_cfg 1709208004 56973600); try reflexivity; try (cbn; lia).
  unfold Beacon.kClockSane. lia.
Defined.
