(* ===== verification/EndToEnd.v ===== *)
(** * Backend and controller together

    The command the backend builds and the signer signs is the one the firmware
    rebuilds and carries out, and the answer of the firmware to a challenge is
    the proof of identity the backend asks for. *)

From S2P Require Import Prelude Text Sha256 Clock Json Config Errors Proc World Demo AuditLog Repos Schema Signer Security Proximity RateLimit Hub Evolve Auth Unlock Der ControllerWs Firmware.

(** ** The same bytes on both sides *)

Section same_bytes.
Import Command.

Lemma utf8_char_escape c bs :
  32 <= c -> utf8_char c = Some bs -> utf8_encode (escape_char false c) = Some (bs ≫= escape_octet).
Proof.
  intros Hc. unfold escape_char. cbn [andb].
  destruct (Z.eqb_spec c 34) as [->|H34]; [by intros [= <-]|].
  destruct (Z.eqb_spec c 92) as [->|H92]; [by intros [= <-]|].
  repeat (rewrite (proj2 (Z.eqb_neq _ _)) by lia). rewrite (proj2 (Z.ltb_ge _ _)) by lia.
  intros Hu. cbn [utf8_encode]. rewrite Hu. f_equal. rewrite app_nil_r. revert Hu. unfold utf8_char.
  assert (Hraw : forall l, Forall (fun b => 32 <= b /\ b <> 34 /\ b <> 92) l -> (l ≫= escape_octet) = l).
  { induction 1 as [|b l (? & ? & ?) _ IH]; [done|]. cbn. rewrite IH. unfold escape_octet.
    rewrite !(proj2 (Z.eqb_neq b _)), (proj2 (Z.ltb_ge b 32)) by lia. done. }
  intros Hu. symmetry. apply Hraw. revert Hu.
  repeat match goal with |- context [if ?b then _ else _] => destruct b eqn:? end; bool_to_prop;
    intros [= <-]; repeat constructor; lia.
Qed.

(** A quoted text, encoded, is what the firmware writes for its octets. *)
Lemma utf8_quote s b :
  Forall (fun c => 32 <= c) s -> utf8_encode s = Some b ->
  utf8_encode (quote false s) = Some (appendJsonString [] b).
Proof.
  intros Hs Hb. unfold quote, appendJsonString.
  assert (H : utf8_encode (s ≫= escape_char false) = Some (b ≫= escape_octet)).
  { revert b Hb. induction Hs as [|c s Hc Hs IH]; intros b Hb; [by injection Hb as <-|]. cbn in Hb.
    destruct (utf8_char c) as [bs|] eqn:Ec; [|done]. destruct (utf8_encode s) as [b'|]; [|done]. injection Hb as <-.
    change ((c :: s) ≫= escape_char false) with (escape_char false c ++ (s ≫= escape_char false)).
    rewrite utf8_encode_app, (utf8_char_escape c bs), (IH b') by done. by rewrite bind_app. }
  change (34 :: (s ≫= escape_char false) ++ [34]) with ([34] ++ (s ≫= escape_char false) ++ [34]).
  by rewrite !utf8_encode_app, H.
Qed.

Lemma utf8_plain s : Forall plain s -> utf8_encode s = Some s.
Proof.
  intros Hs. apply utf8_encode_ascii, is_ascii_forall. eapply Forall_impl; [exact Hs|]. unfold plain. lia.
Qed.
Lemma utf8_app s t a b :
  utf8_encode s = Some a -> utf8_encode t = Some b -> utf8_encode (s ++ t) = Some (a ++ b).
Proof. intros Hs Ht. by rewrite utf8_encode_app, Hs, Ht. Qed.

Lemma utf8_cons c s b : plain c -> utf8_encode s = Some b -> utf8_encode (c :: s) = Some (c :: b).
Proof. intros Hc Hs. apply (utf8_app [c] s [c] b); [|done]. apply utf8_plain. by constructor. Qed.

Lemma utf8_int z : utf8_encode (int_str z) = Some (int_str z).
Proof. apply utf8_plain, int_str_plain. Qed.

(** The command as it arrives, for the octets of the two codes. *)
Definition arrived (dr : door_row) (code door_code : bytes) (ttl : Z) (cid : uuid) (at_ : Z) (rand : bytes)
    : UnlockCommand := {|
  commandId := uuid_str cid; controllerCode := code; doorCode := door_code;
  durationMs := dr_unlock_seconds dr * 1000; relayChannel := dr_relay_channel dr;
  issuedAt := at_; expiresAt := at_ + ttl; nonce := urlsafe_nopad rand |}.

(** Printable, and nothing to escape. *)
Definition simple (c : Z) : Prop := plain c /\ c <> 34 /\ c <> 92.

Lemma simple_plain s : Forall simple s -> Forall plain s.
Proof. intros Hs. eapply Forall_impl; [exact Hs|]. by intros c []. Qed.

Lemma hex_byte_simple b : 0 <= b < 256 -> Forall simple (hex_byte b).
Proof.
  intros Hb. unfold hex_byte, hex_digit, simple, plain.
  repeat match goal with |- context [if ?b then _ else _] => destruct b eqn:? end; bool_to_prop;
    repeat constructor; lia.
Qed.

Lemma hex_simple l : all_bytes l -> Forall simple (hex l).
Proof.
  induction 1 as [|b l Hb _ IH]; [constructor|]. apply (Forall_app simple (hex_byte b)).
  split; [by apply hex_byte_simple|done].
Qed.

Lemma uuid_simple u : Forall simple (uuid_str u).
Proof.
  assert (H : Forall simple (hex (rev (to_bytes_le 16 u)))) by apply hex_simple, Forall_rev, to_bytes_le_bytes.
  unfold uuid_str. revert H. generalize (hex (rev (to_bytes_le 16 u))). intros h H. cbv zeta.
  repeat first [ apply Forall_app; split | apply Forall_cons; split | apply Forall_take | apply Forall_drop
               | exact H | unfold simple, plain; lia ].
Qed.

Lemma b64_char_simple a n : 0 <= n < 64 -> simple (b64_char a n).
Proof.
  intros Hn. unfold b64_char, simple, plain.
  repeat match goal with |- context [if ?b then _ else _] => destruct b eqn:? end; bool_to_prop; destruct a; lia.
Qed.

Lemma b64_nopad_simple a l : all_bytes l -> Forall simple (b64_nopad a l).
Proof.
  induction l as [|x|x y|x y z r IH] using list_ind3; intros Hl; cbn [b64_nopad]; unfold all_bytes in Hl;
    rewrite ?Forall_cons in Hl; [by constructor|..]; repeat (apply Forall_cons; split); try done;
    try (apply b64_char_simple; lia).
  apply IH. unfold all_bytes. tauto.
Qed.

Lemma b64_simple l : all_bytes l -> Forall simple (b64encode l).
Proof.
  intros Hl. unfold b64encode. rewrite b64_encode_nopad. apply Forall_app. split; [by apply b64_nopad_simple|].
  unfold b64_padding. repeat case_match; repeat constructor; unfold plain; lia.
Qed.

Lemma nonce_simple rand : all_bytes rand -> Forall simple (urlsafe_nopad rand).
Proof. intros Hr. rewrite urlsafe_nopad_eq by done. by apply b64_nopad_simple. Qed.

Lemma plain_low s : Forall plain s -> Forall (fun c => 32 <= c) s.
Proof. intros Hs. eapply Forall_impl; [exact Hs|]. unfold plain. lia. Qed.

Lemma utf8_item k v b :
  quote false k = quoted k -> Forall plain k -> utf8_encode v = Some b ->
  utf8_encode (quote false k ++ 58 :: v) = Some (quoted k ++ 58 :: b).
Proof.
  intros -> Hk Hv. apply utf8_app; [|by apply utf8_cons]. apply utf8_plain. unfold quoted.
  constructor; [done|]. apply Forall_app. split; [done|by repeat constructor].
Qed.

(** The firmware and the signer agree on what is signed. *)
Lemma canonical_body dr code cb db ttl cid at_ rand :
  utf8_encode code = Some cb -> Forall (fun c => 32 <= c) code ->
  utf8_encode (dr_code dr) = Some db -> Forall (fun c => 32 <= c) (dr_code dr) -> all_bytes rand ->
  utf8_encode (dumps false false (Some str_leb) (JObj (command_payload dr code ttl cid at_ rand)))
  = Some (canonicalBody (arrived dr cb db ttl cid at_ rand)).
Proof.
  intros Hc Hcl Hd Hdl Hr.
  transitivity (utf8_encode (123 :: (
    (quote false §"cmd" ++ 58 :: quote false §"unlock") ++ [44]
    ++ (quote false §"command_id" ++ 58 :: quote false (uuid_str cid)) ++ [44]
    ++ (quote false §"controller_code" ++ 58 :: quote false code) ++ [44]
    ++ (quote false §"door_code" ++ 58 :: quote false (dr_code dr)) ++ [44]
    ++ (quote false §"duration_ms" ++ 58 :: int_str (dr_unlock_seconds dr * 1000)) ++ [44]
    ++ (quote false §"expires_at" ++ 58 :: int_str (at_ + ttl)) ++ [44]
    ++ (quote false §"issued_at" ++ 58 :: int_str at_) ++ [44]
    ++ (quote false §"nonce" ++ 58 :: quote false (urlsafe_nopad rand)) ++ [44]
    ++ (quote false §"relay_channel" ++ 58 :: int_str (dr_relay_channel dr))) ++ [125])).
  { reflexivity. }
  rewrite (utf8_cons 123 _ ((
    (quoted §"cmd" ++ 58 :: quoted §"unlock") ++ [44]
    ++ (quoted §"command_id" ++ 58 :: appendJsonString [] (uuid_str cid)) ++ [44]
    ++ (quoted §"controller_code" ++ 58 :: appendJsonString [] cb) ++ [44]
    ++ (quoted §"door_code" ++ 58 :: appendJsonString [] db) ++ [44]
    ++ (quoted §"duration_ms" ++ 58 :: int_str (dr_unlock_seconds dr * 1000)) ++ [44]
    ++ (quoted §"expires_at" ++ 58 :: int_str (at_ + ttl)) ++ [44]
    ++ (quoted §"issued_at" ++ 58 :: int_str at_) ++ [44]
    ++ (quoted §"nonce" ++ 58 :: appendJsonString [] (urlsafe_nopad rand)) ++ [44]
    ++ (quoted §"relay_channel" ++ 58 :: int_str (dr_relay_channel dr))) ++ [125])).
  - f_equal. unfold canonicalBody, arrived, appendJsonString. cbn [commandId controllerCode doorCode durationMs
      relayChannel issuedAt expiresAt nonce]. rewrite <- !app_assoc. cbn [app]. by rewrite <- ?app_assoc.
  - done.
  - assert (Hid := utf8_quote _ _ (plain_low _ (simple_plain _ (uuid_simple cid))) (utf8_plain _ (simple_plain _ (uuid_simple cid)))).
    assert (Hnc := utf8_quote _ _ (plain_low _ (simple_plain _ (nonce_simple rand Hr)))
      (utf8_plain _ (simple_plain _ (nonce_simple rand Hr)))).
    assert (Hcode := utf8_quote _ _ Hcl Hc). assert (Hdoor := utf8_quote _ _ Hdl Hd).
    assert (Hcmd : utf8_encode (quote false §"unlock") = Some (quoted §"unlock")) by reflexivity.
    apply utf8_app; [|done].
    repeat (apply utf8_app; [apply utf8_item; [reflexivity|by apply utf8_key|first [eassumption|apply utf8_int]]
                            |apply utf8_app; [done|]]).
    apply utf8_item; [reflexivity|by apply utf8_key|apply utf8_int].
Qed.
(** *** How long they are *)

Lemma length_str s : length (str s) = String.length s.
Proof. unfold str. rewrite length_fmap. induction s as [|c s IH]; [done|]. cbn. by rewrite IH. Qed.

Lemma escape_simple s : Forall simple s -> (s ≫= escape_octet) = s.
Proof.
  induction 1 as [|c s (Hp & H1 & H2) _ IH]; [done|]. cbn. rewrite IH. unfold escape_octet, plain in *.
  by rewrite (proj2 (Z.eqb_neq c 34)), (proj2 (Z.eqb_neq c 92)), (proj2 (Z.ltb_ge c 32)) by lia.
Qed.

Lemma append_length out s : Forall simple s -> length (appendJsonString out s) = (length out + length s + 2)%nat.
Proof. intros Hs. unfold appendJsonString. rewrite escape_simple by done. rewrite !length_app. cbn. rewrite length_app. cbn. lia. Qed.

Lemma quoted_length k : length (quoted (str k)) = (String.length k + 2)%nat.
Proof. unfold quoted. cbn [length]. rewrite length_app, length_str. cbn. lia. Qed.

Lemma nonce_length rand : all_bytes rand -> length rand = 16%nat -> length (urlsafe_nopad rand) = 22%nat.
Proof.
  intros Hr Hl. rewrite urlsafe_nopad_eq by done. apply Nat2Z.inj. rewrite b64_nopad_length, Hl. reflexivity.
Qed.

(** A door the API can store, a code it can register. *)
Record door_fits (dr : door_row) (code : pystr) : Prop := {
  df_code : Forall simple code /\ (length code <= 64)%nat;
  df_door_code : Forall simple (dr_code dr) /\ (length (dr_code dr) <= 64)%nat;
  df_seconds : 1 <= dr_unlock_seconds dr <= 10;
  df_relay : 1 <= dr_relay_channel dr <= 4
}.

Lemma body_length dr code ttl cid at_ rand :
  door_fits dr code -> all_bytes rand -> length rand = 16%nat -> 0 <= at_ -> 0 <= ttl -> at_ + ttl < 2 ^ 63 ->
  (length (canonicalBody (arrived dr code (dr_code dr) ttl cid at_ rand)) <= 400)%nat.
Proof.
  intros [[Hc Hcl] [Hd Hdl] Hs Hr] Hb Hl Hat Httl Hmax.
  unfold canonicalBody, arrived. cbn [commandId controllerCode doorCode durationMs relayChannel issuedAt expiresAt nonce].
  repeat first [rewrite append_length by first [done | apply uuid_simple | by apply nonce_simple]
               | rewrite length_app | progress cbn [length] | rewrite quoted_length].
  rewrite uuid_str_length, nonce_length by done. cbn [String.length].
  pose proof (int_str_length (dr_unlock_seconds dr * 1000) 4 ltac:(lia)).
  pose proof (int_str_length (at_ + ttl) 18 ltac:(lia)). pose proof (int_str_length at_ 18 ltac:(lia)).
  pose proof (int_str_length (dr_relay_channel dr) 0 ltac:(lia)). lia.
Qed.
End same_bytes.

Lemma command_flat dr code ttl cid at_ rand :
  door_fits dr code -> all_bytes rand -> 0 <= at_ -> 0 <= ttl -> at_ + ttl < 2 ^ 63 ->
  flat (command_payload dr code ttl cid at_ rand).
Proof.
  intros [[Hc _] [Hd _] Hs Hr] Hb Hat Httl Hmax. apply flat_intro; [reflexivity|].
  unfold command_payload. rewrite !Forall_cons, Forall_nil. cbn [snd plain_value].
  split_and!; try lia; try done;
    first [ apply simple_plain; first [exact Hc | exact Hd | apply uuid_simple | by apply nonce_simple]
          | by apply utf8_key ].
Qed.

Lemma envelope_nested payload sig kid :
  flat payload -> all_bytes sig -> Forall plain kid -> nested (command_envelope payload sig (JStr kid)).
Proof.
  intros Hp Hs Hk. apply nested_intro; [reflexivity|]. unfold command_envelope.
  rewrite !Forall_cons, Forall_nil. cbn [snd plain_value]. split_and!; [left|right|left|left|left|done].
  - by apply utf8_key.
  - by exists payload.
  - by apply simple_plain, b64_simple.
  - done.
  - by apply utf8_key.
Qed.

(** ** The two programs together *)

Section together.
Import Relay Command WsLink.
Context {BL : BoardLibraries} {ED : Ed25519} (cfg : BoardConfig).

(** A door that fits, and the parameters of its command. *)
Definition command_fits (dr : door_row) (code : pystr) (ttl at_ : Z) (rand : bytes) : Prop :=
  door_fits dr code /\ all_bytes rand /\ length rand = 16%nat /\ 0 <= at_ /\ 0 <= ttl /\ at_ + ttl < 2 ^ 63.

Lemma parse_arrived dr code ttl cid at_ rand :
  command_fits dr code ttl at_ rand ->
  parseUnlockCommand (JObj (command_payload dr code ttl cid at_ rand))
  = Some (arrived dr code (dr_code dr) ttl cid at_ rand).
Proof.
  intros ([[Hc _] [Hd _] Hs Hr] & Hb & _ & Hat & Httl & Hmax).
  transitivity (
    duration_ms ← as_uint32 (JInt (dr_unlock_seconds dr * 1000));
    relay_channel ← as_uint32 (JInt (dr_relay_channel dr));
    issued_at ← as_int64 (JInt at_);
    expires_at ← as_int64 (JInt (at_ + ttl));
    Some {| commandId := c_str (uuid_str cid); controllerCode := c_str code; doorCode := c_str (dr_code dr);
            durationMs := duration_ms; relayChannel := relay_channel; issuedAt := issued_at;
            expiresAt := expires_at; nonce := c_str (urlsafe_nopad rand) |}).
  { reflexivity. }
  unfold as_uint32, as_int64.
  rewrite !(proj2 (Z.leb_le _ _)), !(proj2 (Z.ltb_lt _ _)) by lia. cbn.
  rewrite !c_str_plain; [done|by apply simple_plain, nonce_simple|by apply simple_plain..|apply simple_plain, uuid_simple].
Qed.

Lemma canonical_arrived dr code ttl cid at_ rand :
  command_fits dr code ttl at_ rand ->
  exists canonical,
    canonicalCommandBytes (arrived dr code (dr_code dr) ttl cid at_ rand) kMaxCanonical = Some canonical
    /\ canonical_bytes (command_payload dr code ttl cid at_ rand) = Some canonical.
Proof.
  intros (Hf & Hb & Hl & Hat & Httl & Hmax). pose proof Hf as [[Hc _] [Hd _] _ _].
  pose proof (body_length dr code ttl cid at_ rand Hf Hb Hl Hat Httl Hmax) as Hlen.
  eexists. unfold canonicalCommandBytes, canonical_bytes. cbv zeta. rewrite length_app.
  rewrite (proj2 (Nat.ltb_ge _ _)) by (change (length (§"acs-command:v1" ++ [0])) with 15%nat; unfold kMaxCanonical; lia).
  split; [done|]. rewrite (canonical_body dr code code (dr_code dr)); [done|..]; try done;
    first [by apply utf8_plain, simple_plain | by apply plain_low, simple_plain].
Qed.

(** Both sides rebuild the same bytes: for the command of any door that can
    be stored, what the firmware writes out field by field is what the signer
    signed, and it fits the buffer. *)
Theorem firmware_rebuilds_signed_bytes dr code ttl cid at_ rand :
  command_fits dr code ttl at_ rand ->
  exists command canonical,
    parseUnlockCommand (JObj (command_payload dr code ttl cid at_ rand)) = Some command
    /\ canonicalCommandBytes command kMaxCanonical = Some canonical
    /\ canonical_bytes (command_payload dr code ttl cid at_ rand) = Some canonical.
Proof.
  intros Hf. destruct (canonical_arrived dr code ttl cid at_ rand Hf) as (canonical & H1 & H2).
  exists (arrived dr code (dr_code dr) ttl cid at_ rand), canonical. split; [by apply parse_arrived|done].
Qed.

Lemma controller_opens svc dr ttl cid at_ rand body kid now millis s :
  let code := ACS_CONTROLLER_CODE cfg in
  let payload := command_payload dr code ttl cid at_ rand in
  let envelope := command_envelope payload (ed25519_sign (s_key svc) body) (JStr kid) in
  let pulse_ms := Z.min (dr_unlock_seconds dr * 1000) (ACS_RELAY_MAX_MS cfg) in
  command_fits dr code ttl at_ rand -> canonical_bytes payload = Some body ->
  ACS_SIGNER_PUBLIC_KEY cfg = ed25519_public (s_key svc) ->
  length (ed25519_sign (s_key svc) body) = 64%nat -> Forall plain kid ->
  clock_sane <= now -> at_ <= now + ACS_MAX_CLOCK_SKEW_S cfg -> now - ACS_MAX_CLOCK_SKEW_S cfg <= at_ + ttl ->
  commandAlreadySeen (uuid_str cid) s = false ->
  0 <= ACS_RELAY_MAX_MS cfg < 2 ^ 31 -> 0 <= millis < 2 ^ 32 ->
  exists s',
    handleText cfg now millis (dumps true false None (JObj envelope)) s
      = (s', [dumps false false None (JObj (ack_doc (uuid_str cid) §"opened" §"ok" pulse_ms millis))])
    /\ energised_ (relay s') = true /\ flat (ack_doc (uuid_str cid) §"opened" §"ok" pulse_ms millis).
Proof.
  intros code payload envelope pulse_ms Hf Hbody Hkey Hlen Hkid Hsane Hiss Hexp Hnew Hmax Hms.
  set (command := arrived dr code (dr_code dr) ttl cid at_ rand).
  assert (Hh : honoured cfg now (dumps true false None (JObj envelope)) s command).
  { destruct (canonical_arrived dr code ttl cid at_ rand Hf) as (canonical & Hc1 & Hc2).
    unfold payload in Hbody. rewrite Hbody in Hc2. injection Hc2 as <-.
    pose proof Hf as (Hd & Hb & _ & Hat & Httl & Hm). pose proof Hd as [[Hcode _] _ _ _].
    split; try done; [|by rewrite c_str_plain by by apply simple_plain].
    exists (JObj envelope). split.
    { apply deserialize_dumps, envelope_nested; [by apply command_flat|apply ed25519_sign_bytes|done]. }
    split; [reflexivity|]. split; [by apply parse_arrived|].
    change (member §"signature" (JObj envelope)) with (JStr (b64encode (ed25519_sign (s_key svc) body))).
    cbn [or_empty]. rewrite c_str_plain by apply simple_plain, b64_simple, ed25519_sign_bytes.
    unfold base64Decode. rewrite base64_decode_encode by apply ed25519_sign_bytes. rewrite Hlen. cbn [Nat.leb].
    split; [done|]. exists body. split; [done|]. rewrite Hkey. apply ed25519_complete. }
  assert (Hp : (pulse cfg millis (durationMs command)).1 = pulse_ms).
  { unfold pulse, command, pulse_ms. cbn [fst arrived durationMs].
    destruct (Z.ltb_spec (ACS_RELAY_MAX_MS cfg) (dr_unlock_seconds dr * 1000)); lia. }
  pose proof Hf as ([_ _ Hsec _] & _).
  assert (Hack : flat (ack_doc (uuid_str cid) §"opened" §"ok" pulse_ms millis)).
  { apply ack_flat; try done; [apply simple_plain, uuid_simple|by apply utf8_key..|]. unfold pulse_ms. lia. }
  rewrite (handleText_honoured cfg now millis _ s command Hh). unfold openDoor. revert Hp.
  destruct (pulse cfg millis (durationMs command)) as [ms r] eqn:Ep. cbn [fst]. intros ->.
  eexists. split; [by rewrite <- serialize_dumps|]. split; [cbn [relay]; unfold pulse in Ep; by injection Ep as _ <-|done].
Qed.

(** A door opens: the command the backend builds for a door that can be
    stored, signed by the signer and sent in its envelope, is carried out by the
    controller it is for while its lifetime has not passed (give or take
    the clock skew) and it was not seen before; the relay is energised, the pulse is the time asked for, cut
    to the maximum, and what is sent back is an acknowledgement the backend reads
    as [opened], of the same command. *)
Theorem controller_opens_for_backend svc dr ttl cid at_ rand body kid now millis s :
  let code := ACS_CONTROLLER_CODE cfg in
  let payload := command_payload dr code ttl cid at_ rand in
  let envelope := command_envelope payload (ed25519_sign (s_key svc) body) (JStr kid) in
  let pulse_ms := Z.min (dr_unlock_seconds dr * 1000) (ACS_RELAY_MAX_MS cfg) in
  command_fits dr code ttl at_ rand -> canonical_bytes payload = Some body ->
  ACS_SIGNER_PUBLIC_KEY cfg = ed25519_public (s_key svc) ->
  length (ed25519_sign (s_key svc) body) = 64%nat -> Forall plain kid ->
  clock_sane <= now -> at_ <= now + ACS_MAX_CLOCK_SKEW_S cfg -> now - ACS_MAX_CLOCK_SKEW_S cfg <= at_ + ttl ->
  commandAlreadySeen (uuid_str cid) s = false ->
  0 <= ACS_RELAY_MAX_MS cfg < 2 ^ 31 -> 0 <= millis < 2 ^ 32 ->
  exists s' text ack,
    handleText cfg now millis (dumps true false None (JObj envelope)) s = (s', [text])
    /\ energised_ (relay s') = true
    /\ loads text = Some (JObj ack) /\ UnlockService.opened ack = true
    /\ dict_get §"command_id" ack = Some (JStr (uuid_str cid)) /\ dict_get §"relay_ms" ack = Some (JInt pulse_ms).
Proof.
  intros code payload envelope pulse_ms Hf Hbody Hkey Hlen Hkid Hsane Hiss Hexp Hnew Hmax Hms.
  destruct (controller_opens svc dr ttl cid at_ rand body kid now millis s Hf Hbody Hkey Hlen Hkid Hsane Hiss Hexp Hnew Hmax Hms)
    as (s' & Hh & He & Hflat).
  exists s'. eexists. exists (ack_doc (uuid_str cid) §"opened" §"ok" pulse_ms millis). split; [exact Hh|]. split; [exact He|]. split; [|split; [reflexivity|split; reflexivity]].
  rewrite loads_dumps by by apply flat_ok. by rewrite normal_none.
Qed.
(** *** The handshake *)

Lemma quote_simple v : Forall simple v -> quote false v = 34 :: v ++ [34].
Proof.
  intros Hv. unfold quote. do 2 f_equal. induction Hv as [|c v (Hp & H1 & H2) _ IH]; [done|].
  change ((c :: v) ≫= escape_char false) with (escape_char false c ++ (v ≫= escape_char false)). rewrite IH.
  unfold escape_char, plain in *. cbn [andb].
  by rewrite !(proj2 (Z.eqb_neq c _)), (proj2 (Z.ltb_ge c 32)) by lia.
Qed.

Lemma auth_flat message :
  Forall simple (ACS_CONTROLLER_CODE cfg) -> Forall simple (ACS_FIRMWARE_VERSION cfg) ->
  length (ed25519_sign (ACS_CONTROLLER_PRIVATE_KEY cfg) message) = 64%nat ->
  auth_doc cfg message =
    [(§"type", JStr §"auth"); (§"controller_code", JStr (ACS_CONTROLLER_CODE cfg));
     (§"signature", JStr (b64encode (ed25519_sign (ACS_CONTROLLER_PRIVATE_KEY cfg) message)));
     (§"firmware_version", JStr (ACS_FIRMWARE_VERSION cfg))]
  /\ flat (auth_doc cfg message).
Proof.
  intros Hc Hv Hl. assert (Hb := ed25519_sign_bytes (ACS_CONTROLLER_PRIVATE_KEY cfg) message).
  assert (Hs : base64Encode (ed25519_sign (ACS_CONTROLLER_PRIVATE_KEY cfg) message)
               = b64encode (ed25519_sign (ACS_CONTROLLER_PRIVATE_KEY cfg) message)).
  { unfold base64Encode. rewrite base64_encode_spec by done. rewrite (proj2 (Nat.ltb_ge _ _)); [done|].
    unfold b64encode. rewrite b64_encode_nopad, length_app. pose proof (b64_nopad_length std (ed25519_sign (ACS_CONTROLLER_PRIVATE_KEY cfg) message)) as Hn.
    rewrite Hl in *. change (b64_padding 64) with [61; 61]. cbn [length]. lia. }
  unfold auth_doc. rewrite Hs, !c_str_plain by by apply simple_plain. split; [done|].
  apply flat_intro; [reflexivity|]. rewrite !Forall_cons, Forall_nil. cbn [snd plain_value].
  split_and!; try done; first [by apply simple_plain | by apply simple_plain, b64_simple | by apply utf8_key].
Qed.

Lemma answer_size message :
  Forall simple (ACS_CONTROLLER_CODE cfg) -> (length (ACS_CONTROLLER_CODE cfg) <= 64)%nat ->
  Forall simple (ACS_FIRMWARE_VERSION cfg) -> (length (ACS_FIRMWARE_VERSION cfg) <= 64)%nat ->
  length (ed25519_sign (ACS_CONTROLLER_PRIVATE_KEY cfg) message) = 64%nat ->
  len (dumps false false None (JObj (auth_doc cfg message))) <= MAX_MESSAGE_BYTES.
Proof.
  intros Hc Hcl Hv Hvl Hl. destruct (auth_flat message Hc Hv Hl) as [-> _].
  set (sig := b64encode (ed25519_sign (ACS_CONTROLLER_PRIVATE_KEY cfg) message)).
  assert (Hsl : length sig = 88%nat).
  { unfold sig, b64encode. rewrite b64_encode_nopad, length_app, Hl. change (b64_padding 64) with [61; 61].
    pose proof (b64_nopad_length std (ed25519_sign (ACS_CONTROLLER_PRIVATE_KEY cfg) message)) as Hn.
    rewrite Hl in Hn. cbn [length]. lia. }
  assert (Hs : Forall simple sig) by apply b64_simple, ed25519_sign_bytes.
  transitivity (len (123 :: ((quoted §"type" ++ 58 :: quoted §"auth") ++ [44]
    ++ (quoted §"controller_code" ++ 58 :: quote false (ACS_CONTROLLER_CODE cfg)) ++ [44]
    ++ (quoted §"signature" ++ 58 :: quote false sig) ++ [44]
    ++ (quoted §"firmware_version" ++ 58 :: quote false (ACS_FIRMWARE_VERSION cfg))) ++ [125])).
  { apply Z.eq_le_incl. reflexivity. }
  rewrite !quote_simple by done. unfold len.
  repeat first [rewrite length_app | progress cbn [length] | rewrite quoted_length].
  cbn [String.length]. rewrite Hsl. unfold MAX_MESSAGE_BYTES. lia.
Qed.

Lemma challenge_nested nonce t :
  all_bytes nonce -> - 2 ^ 63 <= t < 2 ^ 63 ->
  nested [(§"type", JStr §"challenge"); (§"nonce", JStr (b64encode nonce)); (§"server_time", JInt t)].
Proof.
  intros Hn Ht. apply flat_nested, flat_intro; [reflexivity|]. rewrite !Forall_cons, Forall_nil.
  cbn [snd plain_value]. split_and!; try done; try lia; [by apply utf8_key|by apply simple_plain, b64_simple].
Qed.

Lemma challenge_message nonce :
  Forall simple (ACS_CONTROLLER_CODE cfg) -> (length (ACS_CONTROLLER_CODE cfg) <= 64)%nat ->
  all_bytes nonce -> length nonce = 32%nat ->
  exists message, challengeMessage cfg (b64encode nonce) = Some message
    /\ auth_message (ACS_CONTROLLER_CODE cfg) nonce = OK message.
Proof.
  intros Hc Hcl Hn Hl. unfold challengeMessage, base64Decode. rewrite base64_decode_encode, Hl by done.
  cbn [Nat.leb]. rewrite c_str_plain by by apply simple_plain. destruct nonce as [|b rest]; [done|].
  rewrite (proj2 (Nat.ltb_ge _ _)) by (rewrite Hl; change (length kAuthDomain) with 23%nat; lia).
  eexists. split; [done|]. unfold auth_message, encode_utf8. rewrite utf8_plain by by apply simple_plain. done.
Qed.

(** C12 A registered controller gets in: to the challenge of a connection, the
    firmware answers with a text that proves its identity to the backend, when
    its code and public key are the registered ones and it is not blocked. *)
Theorem controller_answer_is_proven {PR : PyRepr} d id c nonce server_now now millis s :
  controllers d !! id = Some c -> c_is_blocked c = false ->
  c_code c = ACS_CONTROLLER_CODE cfg -> c_public_key c = ed25519_public (ACS_CONTROLLER_PRIVATE_KEY cfg) ->
  Forall simple (ACS_CONTROLLER_CODE cfg) -> (length (ACS_CONTROLLER_CODE cfg) <= 64)%nat ->
  Forall simple (ACS_FIRMWARE_VERSION cfg) -> (length (ACS_FIRMWARE_VERSION cfg) <= 64)%nat ->
  (forall m, length (ed25519_sign (ACS_CONTROLLER_PRIVATE_KEY cfg) m) = 64%nat) ->
  all_bytes nonce -> length nonce = 32%nat -> - 2 ^ 63 <= server_now / seconds 1 < 2 ^ 63 ->
  exists raw message,
    handleText cfg now millis (challenge_text nonce server_now) s = (s, [raw])
    /\ proven d raw nonce message id c.
Proof.
  intros Hrow Hopen Hcode Hpub Hc Hcl Hv Hvl Hsig Hn Hl Ht.
  destruct (challenge_message nonce Hc Hcl Hn Hl) as (m & Hm1 & Hm2).
  destruct (auth_flat m Hc Hv (Hsig m)) as [Hdoc Hflat].
  exists (dumps false false None (JObj (auth_doc cfg m))), (auth_doc cfg m). split.
  - unfold handleText, challenge_text. rewrite deserialize_dumps by by apply challenge_nested.
    change (or_empty (member §"type" (JObj _))) with §"challenge".
    change (str_eqb §"challenge" §"challenge") with true. cbv iota.
    change (member §"nonce" (JObj _)) with (JStr (b64encode nonce)). cbn [or_empty].
    rewrite c_str_plain by by apply simple_plain, b64_simple. unfold handleChallenge. rewrite Hm1.
    by rewrite serialize_dumps.
  - split; [done..| |].
    { rewrite Hcode. unfold pg_text. apply forallb_forall. intros x Hx. apply list_elem_of_In in Hx.
      rewrite Forall_forall in Hc. destruct (Hc x Hx) as [Hp _]. unfold plain, is_scalar in *. lia. }
    exists (ed25519_sign (ACS_CONTROLLER_PRIVATE_KEY cfg) m), m.
    split; [|split; [by rewrite Hcode|rewrite Hpub; apply ed25519_complete]]. rewrite Hcode. split.
    + by apply answer_size.
    + rewrite loads_dumps by by apply flat_ok. by rewrite normal_none.
    + done.
    + rewrite Hdoc. by eexists.
    + rewrite Hdoc. eexists. split; [done|]. unfold b64decode, b64encode. apply b64_roundtrip, ed25519_sign_bytes.
Qed.
End together.

(** ** Witnesses *)

#[local] Existing Instances demo_repr demo_board demo_long_ed25519.

Lemma simple_text s :
  forallb (fun c => (32 <=? c) && (c <? 127) && negb (c =? 34) && negb (c =? 92)) s = true -> Forall simple s.
Proof.
  intros H. apply Forall_forall. intros c Hc. rewrite forallb_forall in H. apply list_elem_of_In, H in Hc.
  unfold simple, plain. bool_to_prop. lia.
Qed.

Lemma demo_fits : command_fits demo_row §"ctrl-1" 10 1709208000 (replicate 16 5).
Proof.
  split; [|split_and!; try done; repeat constructor; lia].
  split; [split; [by apply simple_text|by apply Nat.leb_le]|split; [by apply simple_text|by apply Nat.leb_le]|cbn; lia|cbn; lia].
Qed.

Lemma firmware_rebuilds_signed_bytes_witness :
  exists command canonical,
    Command.canonicalCommandBytes command WsLink.kMaxCanonical = Some canonical
    /\ canonical_bytes demo_payload = Some canonical.
Proof.
  destruct (firmware_rebuilds_signed_bytes demo_row §"ctrl-1" 10 77 1709208000 (replicate 16 5) demo_fits)
    as (command & canonical & _ & H1 & H2).
  exists command, canonical. exact (conj H1 H2).
Defined.

Lemma controller_opens_for_backend_witness :
  exists s' text ack,
    WsLink.handleText demo_cfg 1709208004 500 demo_text demo_link = (s', [text])
    /\ loads text = Some (JObj ack) /\ UnlockService.opened ack = true.
Proof.
  destruct (controller_opens_for_backend demo_cfg demo_signer demo_row 10 77 1709208000 (replicate 16 5)
    demo_signed_bytes §"signer-1" 1709208004 500 demo_link demo_fits) as (s' & text & ack & H1 & _ & H2 & H3 & _);
    [vm_compute; reflexivity|vm_compute; reflexivity|apply long_sign_length|by apply utf8_key
    |unfold WsLink.clock_sane; lia|cbn; lia|cbn; lia|vm_compute; reflexivity|cbn; lia|lia|].
  exists s', text, ack. exact (conj H1 (conj H2 H3)).
Defined.

Definition demo_controller_row : controller_row := {|
  c_code := §"ctrl-1"; c_name := §"Front"; c_public_key := demo_public (replicate 32 3); c_beacon_key := replicate 32 1;
  c_firmware_version := None; c_is_blocked := false; c_blocked_reason := None; c_last_seen_at := None;
  c_last_ip := None; c_created_at := 0 |}.

Lemma controller_answer_is_proven_witness :
  exists raw message,
    WsLink.handleText demo_cfg 1709208000 10 (challenge_text (replicate 32 8) 1709208000000000) demo_link = (demo_link, [raw])
    /\ proven (with_controllers {[ 1 := demo_controller_row ]} empty_db) raw (replicate 32 8) message 1 demo_controller_row.
Proof.
  apply (controller_answer_is_proven demo_cfg (with_controllers {[ 1 := demo_controller_row ]} empty_db) 1
    demo_controller_row (replicate 32 8) 1709208000000000 1709208000 10 demo_link); try reflexivity.
  - apply demo_fits.
  - apply Nat.leb_le. reflexivity.
  - apply simple_text. reflexivity.
  - apply Nat.leb_le. reflexivity.
  - repeat (apply Forall_cons_2; [lia|]). apply Forall_nil_2.
  - vm_compute. split; [discriminate|reflexivity].
Defined.
