(* ===== verification/Tooling.v ===== *)
(** * Keys and firmware images: [signer/keygen.py],
    [firmware/esp32/scripts/sign_firmware.py], and the check of an update in
    [firmware/esp32/src/acs_ota.cpp]

    What the two command-line tools print, and that the programs they are for
    accept it: a generated key starts a signer, a signed image is installed. The
    random source is [Entropy]; what the network delivers is an argument. *)

From S2P Require Import Prelude Text Sha256 Json Errors Proc World Demo AuditLog Signer Security Der ControllerWs Firmware EndToEnd.

Import Command.
#[local] Existing Instance outcome_bind.

(** ** [signer/keygen.py] *)

Module Keygen.
(* @src backend/signer/keygen.py * b64 *)
Definition b64 (raw : bytes) : pystr := b64encode raw.

(** [f"0x{b:02X}"] *)
Definition upper_digit (n : Z) : Z := if n <? 10 then 48 + n else 55 + n.
Definition c_octet (b : Z) : pystr := §"0x" ++ [upper_digit (b / 16); upper_digit (b mod 16)].

(* @src backend/signer/keygen.py * hex_c_array *)
Definition hex_c_array (raw : bytes) (name : pystr) : pystr :=
  let body := join §", " (map c_octet raw) in
  §"static const uint8_t " ++ name ++ §"[" ++ int_str (len raw) ++ §"] = { " ++ body ++ §" };".

(** The lines that are printed; [i] is the position in the random source. *)
(* @src backend/signer/keygen.py * main *)
Definition main {EN : Entropy} {ED : Ed25519} (i : nat) (controller : bool) : list pystr :=
  let private_raw := csprng i 32 in
  let public_raw := ed25519_public private_raw in
  if negb controller then
    [§"# signer keypair"; §"ACS_SIGNER_PRIVATE_KEY=" ++ b64 private_raw; §"ACS_SIGNER_PUBLIC_KEY=" ++ b64 public_raw;
     []; §"# for firmware/esp32/include/config.h"; hex_c_array public_raw §"ACS_SIGNER_PUBLIC_KEY"]
  else
    let beacon_key := csprng (S i) 32 in
    [§"# controller keypair - store the public key and beacon key in the database";
     §"public_key  (base64) = " ++ b64 public_raw; §"beacon_key  (base64) = " ++ b64 beacon_key; [];
     §"# for firmware/esp32/include/config.h - private key never leaves the board";
     hex_c_array private_raw §"ACS_CONTROLLER_PRIVATE_KEY"; hex_c_array public_raw §"ACS_CONTROLLER_PUBLIC_KEY";
     hex_c_array beacon_key §"ACS_BEACON_KEY"].
End Keygen.

(** ** [sign_firmware.py] *)

Module SignFirmware.
(* @src firmware/esp32/scripts/sign_firmware.py * DOMAIN *)
Definition DOMAIN : pystr := §"acs-ota:v1".

(* @src firmware/esp32/scripts/sign_firmware.py 41-49 main *)
Definition signed_text (version : pystr) (image : bytes) : pystr :=
  DOMAIN ++ 124 :: version ++ 124 :: int_str (len image) ++ 124 :: b64encode (Sha256.sha256 image).

(** [image] is [None] when there is no such file; the message of [sys.exit], or
    the object that is printed. *)
(* @src firmware/esp32/scripts/sign_firmware.py * main *)
Definition main {ED : Ed25519} (image_path : pystr) (image : option bytes) (version url key_file : pystr)
    : outcome Exn (pystr + dict) :=
  match image with
  | None => OK (inl (§"no such image: " ++ image_path))
  | Some image =>
      match b64decode (strip key_file) with
      | None => ERR (EValue §"base64")
      | Some private_raw =>
          if negb (length private_raw =? 32)%nat then
            OK (inl §"the key file must contain exactly 32 base64 encoded bytes")
          else
            m ← encode_utf8 (signed_text version image);
            OK (inr [(§"version", JStr version); (§"url", JStr url); (§"size", JInt (len image));
                     (§"sha256", JStr (b64encode (Sha256.sha256 image)));
                     (§"signature", JStr (b64encode (ed25519_sign private_raw m)))])
      end
  end.
End SignFirmware.

(** ** [acs_ota.cpp] *)

(** Every octet is looked at, whatever differs before it. *)
(* @src firmware/esp32/src/acs_crypto.cpp 80-86 equalsConstantTime *)
Definition equalsConstantTime (a b : bytes) (length : nat) : bool :=
  foldl (fun difference i => Z.lor difference (Z.lxor (a !!! i) (b !!! i))) 0 (seq 0 length) =? 0.

Lemma differences_zero f l d :
  foldl (fun difference i => Z.lor difference (f i)) d l = 0 <-> d = 0 /\ Forall (fun i : nat => f i = 0) l.
Proof.
  revert d. induction l as [|i l IH]; intros d; cbn; [rewrite Forall_nil; tauto|].
  rewrite IH, Z.lor_eq_0_iff, Forall_cons. tauto.
Qed.

(** It is equality, on buffers of that length. *)
Lemma equals_constant_time a b n :
  length a = n -> length b = n -> equalsConstantTime a b n = bool_decide (a = b).
Proof.
  intros Ha Hb. unfold equalsConstantTime. apply eq_true_iff_eq. rewrite Z.eqb_eq, differences_zero, bool_decide_eq_true.
  split; [|intros ->; split; [done|]; apply Forall_true; intros i; apply Z.lxor_nilpotent].
  intros [_ H]. apply list_eq_same_length with n; [congruence..|]. intros i x y Hi Hx Hy. rewrite Forall_forall in H.
  specialize (H i ltac:(apply elem_of_seq; lia)). apply Z.lxor_eq in H.
  by rewrite (list_lookup_total_correct _ _ _ Hx), (list_lookup_total_correct _ _ _ Hy) in H.
Qed.

Module OtaUpdater.
Section ota.
Context {BL : BoardLibraries} {ED : Ed25519} (ACS_OTA_PUBLIC_KEY : bytes) (cfg : BoardConfig).

(** [manifest["size"] | 0]: an [int]. *)
Definition or_zero (v : json) : Z :=
  match v with JInt z => if (- 2 ^ 31 <=? z) && (z <? 2 ^ 31) then z else 0 | _ => 0 end.

(** What becomes of a manifest; when it passes, it says where from, the hash,
    the size and the version. *)
Inductive ManifestVerdict := Ignored | BadSignature | Accepted (location sha : bytes) (size : Z) (version : bytes).

(* @src firmware/esp32/src/acs_ota.cpp 58-96 OtaUpdater::checkNow *)
Definition judge_manifest (manifest : json) : ManifestVerdict :=
  let version := or_empty (member §"version" manifest) in
  if bool_decide (version = []) || str_eqb version (c_str (ACS_FIRMWARE_VERSION cfg)) then Ignored
  else
    let url := or_empty (member §"url" manifest) in
    let size := or_zero (member §"size" manifest) mod 2 ^ 32 in
    if bool_decide (url = []) || (size =? 0) then Ignored
    else
      let sha256 := or_empty (member §"sha256" manifest) in
      let expectedSha := base64Decode sha256 32 in
      let signature := base64Decode (or_empty (member §"signature" manifest)) 64 in
      if negb (length expectedSha =? 32)%nat || negb (length signature =? 64)%nat then Ignored
      else
        let signedText := §"acs-ota:v1|" ++ version ++ 124 :: int_str size ++ 124 :: sha256 in
        if negb (ed25519_verify ACS_OTA_PUBLIC_KEY signature signedText) then BadSignature
        else Accepted url expectedSha size version.

(** The loop over the stream: each chunk comes with whether it could be written
    in full. What was hashed, and how much was received. *)
(* @src firmware/esp32/src/acs_ota.cpp 126-144 OtaUpdater::applyUpdate *)
Fixpoint receive_image (imageSize : Z) (hashed : bytes) (received : Z) (chunks : list (bytes * bool)) : bytes * Z :=
  match chunks with
  | [] => (hashed, received)
  | (chunk, written) :: rest =>
      if received <? imageSize then
        match chunk with
        | [] => (hashed, received)
        | _ => if written then receive_image imageSize (hashed ++ chunk) (received + len chunk) rest
               else (hashed ++ chunk, received)
        end
      else (hashed, received)
  end.

(** What the network and the flash do during a check: the manifest, when one
    arrives and is JSON; the stream behind an address; whether the slot can be
    opened and closed. *)
Record UpdateSource := {
  us_manifest : option json;
  us_download : bytes -> option (list (bytes * bool));
  us_flash_begins : Z -> bool;
  us_flash_ends : bool
}.

(** The image the board will boot, when it takes one, and the texts it sends. *)
(* @src firmware/esp32/src/acs_ota.cpp 99-169 OtaUpdater::applyUpdate *)
Definition applyUpdate (src : UpdateSource) (location expectedSha : bytes) (imageSize : Z) (version : bytes)
    (s : WsLink.WsLink) : option bytes * list bytes :=
  match us_download src location with
  | None => (None, [])
  | Some chunks =>
      if negb (us_flash_begins src imageSize) then (None, [])
      else
        let '(hashed, received) := receive_image imageSize [] 0 chunks in
        if negb (received =? imageSize) || negb (equalsConstantTime (mbedtls_sha256 hashed) expectedSha 32) then
          (None, WsLink.sendEvent §"ota_rejected" §"failure" (123 :: quoted §"reason" ++ 58 :: quoted §"hash_mismatch" ++ [125]) s)
        else if negb (us_flash_ends src) then
          (None, WsLink.sendEvent §"ota_rejected" §"failure" (123 :: quoted §"reason" ++ 58 :: quoted §"flash_failed" ++ [125]) s)
        else
          (Some hashed, WsLink.sendEvent §"ota_applied" §"success" (123 :: quoted §"version" ++ 58 :: quoted version ++ [125]) s)
  end.

(* @src firmware/esp32/src/acs_ota.cpp 37-97 OtaUpdater::checkNow *)
Definition checkNow (src : UpdateSource) (s : WsLink.WsLink) : option bytes * list bytes :=
  match us_manifest src with
  | None => (None, [])
  | Some manifest =>
      match judge_manifest manifest with
      | Ignored => (None, [])
      | BadSignature =>
          (None, WsLink.sendEvent §"ota_rejected" §"failure"
                   (123 :: quoted §"reason" ++ 58 :: quoted §"bad_manifest_signature" ++ [125]) s)
      | Accepted location expectedSha size version => applyUpdate src location expectedSha size version s
      end
  end.
End ota.
End OtaUpdater.

(** ** A signed text says one thing *)

Lemma app_split_last (x y s t : list Z) c :
  Forall (fun a => a <> c) s -> Forall (fun a => a <> c) t -> x ++ c :: s = y ++ c :: t -> x = y /\ s = t.
Proof.
  intros Hs Ht. assert (Hno : forall u v (z : list Z), Forall (fun a => a <> c) u -> u = z ++ c :: v -> False).
  { intros u v z Hu ->. apply Forall_app in Hu as [_ Hu]. by apply Forall_inv in Hu. }
  revert y. induction x as [|a x IH]; intros [|b y]; cbn; intros E.
  - by injection E.
  - injection E as <- E. by destruct (Hno s t y).
  - injection E as -> E. by destruct (Hno t s x).
  - injection E as -> E. apply IH in E as [-> ->]. done.
Qed.

Lemma digits_no_bar z : 0 <= z -> Forall (fun a => a <> 124) (int_str z).
Proof.
  intros Hz. unfold int_str. rewrite (proj2 (Z.ltb_ge z 0)) by lia.
  eapply Forall_impl; [by apply digits_digit|]. intros c Hc. unfold is_digit in Hc. lia.
Qed.

Lemma b64_no_bar l : all_bytes l -> Forall (fun a => a <> 124) (b64encode l).
Proof.
  intros Hl. unfold b64encode. rewrite b64_encode_nopad. apply Forall_app. split.
  - induction l as [|x|x y|x y z r IH] using list_ind3; cbn [b64_nopad]; unfold all_bytes in *;
      rewrite ?Forall_cons in Hl; [by constructor|..];
      repeat (apply Forall_cons; split); try done; try (unfold b64_char; repeat case_match; bool_to_prop; lia). tauto.
  - unfold b64_padding. repeat case_match; repeat constructor; lia.
Qed.

(** A signature of a firmware image is for one version and one image: two
    signed texts are equal only for equal versions and equal images, whatever
    the version texts contain, up to a collision of the hash. *)
Theorem signed_text_determines_image v1 i1 v2 i2 :
  SignFirmware.signed_text v1 i1 = SignFirmware.signed_text v2 i2 -> v1 = v2 /\ (i1 = i2 \/ collision).
Proof.
  unfold SignFirmware.signed_text. intros [= E]%app_inv_head.
  assert (Hr : forall v s t : list Z, v ++ 124 :: s ++ 124 :: t = (v ++ 124 :: s) ++ 124 :: t).
  { intros v s t. by rewrite <- app_assoc. }
  rewrite !Hr in E. clear Hr.
  apply app_split_last in E as [E Eh]; [|apply b64_no_bar, Sha256.sha256_bytes..].
  apply app_split_last in E as [-> _]; [|apply digits_no_bar; unfold len; lia..]. split; [done|].
  apply b64_encode_inj in Eh; [|apply Sha256.sha256_bytes..].
  destruct (decide (i1 = i2)) as [|Hne]; [by left|right]. by exists i1, i2.
Qed.

(** ** What the board installs *)

Section updates.
Context {BL : BoardLibraries} {ED : Ed25519} (key : bytes) (cfg : BoardConfig).
Import OtaUpdater.

(** An image that is received in full is the chunks in order. *)
Lemma receive_image_spec size chunks : forall hashed received h r,
  received = len hashed -> receive_image size hashed received chunks = (h, r) -> r = size -> r = len h.
Proof.
  induction chunks as [|[chunk written] rest IH]; intros hashed received h r Hr; cbn; [by intros [= <- <-]|].
  destruct (Z.ltb_spec received size) as [Hlt|Hge]; [|by intros [= <- <-]].
  destruct chunk as [|c chunk]; [by intros [= <- <-]|]. destruct written.
  - apply IH. unfold len in *. rewrite length_app. lia.
  - intros [= <- <-] ->. lia.
Qed.

Lemma receive_image_whole size chunks : forall hashed,
  Forall (fun p => p.1 <> [] /\ p.2 = true) chunks -> len (hashed ++ concat (map fst chunks)) = size ->
  receive_image size hashed (len hashed) chunks = (hashed ++ concat (map fst chunks), size).
Proof.
  induction chunks as [|[chunk written] rest IH]; intros hashed Hc Hs; cbn in *.
  - rewrite app_nil_r in *. by rewrite Hs.
  - apply Forall_cons in Hc as [[Hne Hw] Hc]. cbn in Hne, Hw. subst written.
    destruct chunk as [|c chunk]; [done|]. rewrite app_assoc in Hs |- *.
    rewrite (proj2 (Z.ltb_lt _ _)) by (rewrite <- Hs; unfold len; rewrite !length_app; cbn [length]; lia).
    rewrite <- (IH (hashed ++ c :: chunk) Hc Hs). f_equal. unfold len. rewrite length_app. lia.
Qed.

(** The board installs nothing but what was signed: an image it takes is
    the one whose version, length and hash make up the text that the manifest's
    signature, under the update key, is for; and it is not the version that
    runs. *)
Theorem installed_image_is_signed src s image :
  (checkNow key cfg src s).1 = Some image ->
  exists version sha256 signature,
    version <> c_str (ACS_FIRMWARE_VERSION cfg)
    /\ ed25519_verify key signature (§"acs-ota:v1|" ++ version ++ 124 :: int_str (len image) ++ 124 :: sha256) = true
    /\ base64Decode sha256 32 = Sha256.sha256 image.
Proof.
  unfold checkNow. destruct (us_manifest src) as [manifest|]; [|done].
  destruct (judge_manifest key cfg manifest) as [| |location sha size version] eqn:Em; [done..|].
  unfold judge_manifest in Em. cbv zeta in Em.
  destruct (bool_decide _ || str_eqb _ _) eqn:Ev in Em; [done|]. apply orb_false_elim in Ev as [_ Ev].
  destruct (bool_decide _ || _) eqn:Eu in Em; [done|].
  destruct (negb _ || negb _) eqn:El in Em; [done|]. apply orb_false_elim in El as [El _].
  apply negb_false_iff, Nat.eqb_eq in El.
  destruct (negb (ed25519_verify _ _ _)) eqn:Es in Em; [done|]. injection Em as <- <- <- <-.
  apply negb_false_iff in Es. apply bool_decide_eq_false_1 in Ev.
  unfold applyUpdate. destruct (us_download src _) as [chunks|]; [|done].
  destruct (negb (us_flash_begins _ _)); [done|]. destruct (receive_image _ [] 0 _) as [h r] eqn:Er.
  destruct (negb (r =? _) || negb _) eqn:E; [done|]. destruct (negb (us_flash_ends src)); [done|].
  intros [= <-]. apply orb_false_elim in E as [E1 E2].
  rewrite sha256_spec, equals_constant_time in E2 by first [apply Sha256.sha256_length | exact El]. bool_to_prop.
  pose proof (receive_image_spec _ _ [] 0 h r eq_refl Er ltac:(done)) as Hlen.
  do 3 eexists. split; [exact Ev|]. split; [|by symmetry]. rewrite <- Hlen. subst r. exact Es.
Qed.
(** A signed image is installed: what the release tool prints for an image
    makes a board that holds the matching key and runs another version take
    exactly that image, in whatever pieces it arrives. *)
Theorem signed_update_installs path image version location key_file private_raw manifest chunks src s :
  SignFirmware.main path (Some image) version location key_file = OK (inr manifest) ->
  b64decode (strip key_file) = Some private_raw -> key = ed25519_public private_raw ->
  (forall m, length (ed25519_sign private_raw m) = 64%nat) ->
  Forall plain version -> version <> [] -> version <> c_str (ACS_FIRMWARE_VERSION cfg) ->
  Forall plain location -> location <> [] -> 0 < len image < 2 ^ 31 ->
  us_manifest src = Some (JObj manifest) -> us_download src location = Some chunks ->
  us_flash_begins src (len image) = true -> us_flash_ends src = true ->
  concat (map fst chunks) = image -> Forall (fun p => p.1 <> [] /\ p.2 = true) chunks ->
  (checkNow key cfg src s).1 = Some image.
Proof.
  intros Hm Hk -> Hsig Hv Hvn Hvc Hl Hln Hsize Hman Hdown Hbegin Hend Hcat Hchunks. unfold SignFirmware.main in Hm. rewrite Hk in Hm.
  destruct (negb _); [done|]. destruct (encode_utf8 (SignFirmware.signed_text version image)) as [m|e] eqn:Em; [|done].
  injection Hm as <-.
  assert (Hd : all_bytes (Sha256.sha256 image)) by apply Sha256.sha256_bytes.
  assert (Hm : m = SignFirmware.signed_text version image).
  { unfold encode_utf8 in Em. rewrite utf8_plain in Em; [by injection Em|]. unfold SignFirmware.signed_text.
    apply Forall_app. split; [by apply utf8_key|]. apply Forall_cons. split; [unfold plain; lia|].
    apply Forall_app. split; [done|]. apply Forall_cons. split; [unfold plain; lia|].
    apply Forall_app. split; [apply int_str_plain|]. apply Forall_cons. split; [unfold plain; lia|].
    by apply simple_plain, b64_simple. }
  unfold checkNow. rewrite Hman. unfold judge_manifest.
  change (member §"version" (JObj _)) with (JStr version). change (member §"url" (JObj _)) with (JStr location).
  change (member §"size" (JObj _)) with (JInt (len image)).
  change (member §"sha256" (JObj _)) with (JStr (b64encode (Sha256.sha256 image))).
  change (member §"signature" (JObj _)) with (JStr (b64encode (ed25519_sign private_raw m))).
  cbn [or_empty]. rewrite (c_str_plain version), (c_str_plain location), (c_str_plain (b64encode (Sha256.sha256 image)))
    by first [done | by apply simple_plain, b64_simple].
  rewrite (c_str_plain (b64encode (ed25519_sign private_raw m))) by apply simple_plain, b64_simple, ed25519_sign_bytes.
  rewrite (bool_decide_false (version = [])), str_eqb_ne by done. cbn [orb].
  unfold or_zero. rewrite (proj2 (Z.leb_le _ _)), (proj2 (Z.ltb_lt _ _)) by lia. cbn [andb].
  rewrite (Z.mod_small (len image)) by lia.
  rewrite (bool_decide_false (location = [])) by done. rewrite (proj2 (Z.eqb_neq (len image) 0)) by lia. cbn [orb].
  unfold base64Decode. rewrite !base64_decode_encode by first [done | apply ed25519_sign_bytes].
  rewrite Hsig, Sha256.sha256_length. cbn [Nat.leb]. rewrite Hsig, Sha256.sha256_length. cbn [Nat.eqb negb orb].
  rewrite Hm. change (§"acs-ota:v1|" ++ version ++ 124 :: int_str (len image) ++ 124 :: b64encode (Sha256.sha256 image))
    with (SignFirmware.signed_text version image).
  rewrite ed25519_complete. cbn [negb]. unfold applyUpdate. rewrite Hdown, Hbegin, Hend.
  pose proof (receive_image_whole (len image) chunks [] Hchunks) as Hw. change (len (@nil Z)) with 0 in Hw.
  cbn [app] in Hw. rewrite Hcat in Hw. rewrite Hw by done.
  rewrite Z.eqb_refl, sha256_spec, equals_constant_time, bool_decide_true by first [done | apply Sha256.sha256_length]. done.
Qed.
End updates.

(** ** A generated key *)

(** A generated key starts the signer it is for: the private half that is
    printed is accepted by the signer's start-up, and the service announces
    exactly the public half that is printed. *)
Theorem generated_key_starts_signer {EN : Entropy} {ED : Ed25519} i kid :
  exists private_b64 public_b64 svc,
    Keygen.main i false !! 1%nat = Some (§"ACS_SIGNER_PRIVATE_KEY=" ++ private_b64)
    /\ Keygen.main i false !! 2%nat = Some (§"ACS_SIGNER_PUBLIC_KEY=" ++ public_b64)
    /\ service_of_env private_b64 kid = Some svc /\ public_key_b64 svc = public_b64 /\ s_key_id svc = kid.
Proof.
  do 3 eexists. split; [done|]. split; [done|]. unfold service_of_env, Keygen.b64, b64decode, b64encode.
  rewrite b64_roundtrip by apply csprng_bytes. rewrite csprng_length. cbn [Nat.eqb]. done.
Qed.

(** ** Witnesses *)

#[local] Existing Instances demo_board demo_long_ed25519.

Definition demo_image : bytes := [1; 2; 3; 4; 5].
Definition demo_key_file : pystr := b64encode (replicate 32 4) ++ [10].
Definition demo_manifest : dict :=
  match SignFirmware.main [] (Some demo_image) §"1.1.0" §"https://updates/fw.bin" demo_key_file with
  | OK (inr m) => m | _ => [] end.
Definition demo_source (manifest : dict) : OtaUpdater.UpdateSource := {|
  OtaUpdater.us_manifest := Some (JObj manifest);
  OtaUpdater.us_download := fun _ => Some [([1; 2; 3], true); ([4; 5], true)];
  OtaUpdater.us_flash_begins := fun _ => true; OtaUpdater.us_flash_ends := true |}.

Lemma signed_update_installs_witness :
  (OtaUpdater.checkNow (demo_public (replicate 32 4)) demo_cfg (demo_source demo_manifest) demo_link).1 = Some demo_image.
Proof.
  apply (signed_update_installs (demo_public (replicate 32 4)) demo_cfg [] demo_image §"1.1.0" §"https://updates/fw.bin"
    demo_key_file (replicate 32 4) demo_manifest [([1; 2; 3], true); ([4; 5], true)]);
    try reflexivity; try discriminate.
  - by apply utf8_key.
  - by apply utf8_key.
  - unfold len. cbn [demo_image length]. lia.
  - repeat (apply Forall_cons_2; [split; [discriminate|reflexivity]|]). apply Forall_nil_2.
Defined.

Lemma installed_image_is_signed_witness :
  exists version, version <> c_str (ACS_FIRMWARE_VERSION demo_cfg).
Proof.
  destruct (installed_image_is_signed (demo_public (replicate 32 4)) demo_cfg (demo_source demo_manifest) demo_link demo_image)
    as (version & sha256 & signature & H & _); [vm_compute; reflexivity|].
  exists version. exact H.
Defined.

Lemma signed_text_determines_image_witness :
  §"1.1.0" = §"1.1.0" /\ (demo_image = demo_image \/ collision).
Proof. apply (signed_text_determines_image §"1.1.0" demo_image §"1.1.0" demo_image). reflexivity. Defined.

(** An older version is installed as well as a newer one. *)
Lemma older_version_installs :
  (OtaUpdater.checkNow (demo_public (replicate 32 4)) demo_cfg
    (demo_source match SignFirmware.main [] (Some demo_image) §"0.9.0" §"https://updates/fw.bin" demo_key_file with
          | OK (inr m) => m | _ => [] end) demo_link).1 = Some demo_image.
Proof. vm_compute. reflexivity. Qed.
