(* ===== verification/Board.v ===== *)
(** * The controller's main loop: [firmware/esp32/src/main.cpp]

    [setup] and one turn of [loop] over the objects of [Firmware] and [Tooling]:
    relay, LED, beacon, link, update check and inputs, in the order of the code.
    A [Site] is a board together with real time: turns, waits and resets take it
    from state to state, the watchdog bounding the time between two feeds.

    Instants are milliseconds; [millis()] is the time since the last boot modulo
    [2 ^ 32]. What the outside does in a turn (events of the socket, levels of
    the pins, network and flash) is the argument [Turn]. *)

From S2P Require Import Prelude Text Sha256 Clock Json Config Errors Proc World Demo AuditLog Repos Schema Signer Security Proximity RateLimit Hub Evolve Auth Unlock Der ControllerWs Firmware EndToEnd Tooling.
From stdpp Require Import relations.
#[local] Open Scope Z_scope.

Import Relay Command StatusLed WsLink OtaUpdater.

(** ** The objects *)

(* @src firmware/esp32/include/acs_beacon.h 21-34 Beacon *)
Record BeaconState := { started_ : bool; advertising_ : bool; currentSlot_ : Z; currentId_ : bytes }.

(* @src firmware/esp32/include/acs_ota.h 25-37 OtaUpdater *)
Record OtaState := { nextCheckMs_ : Z; enabled_ : bool }.

(** The objects with the static variables of [main.cpp] and [loop]. *)
(* @src firmware/esp32/src/main.cpp 26-28 main.cpp *)
Record Board := {
  link : WsLink; beacon : BeaconState; ota : OtaState;
  linkStarted : bool; tamperLatched : bool; lastSenseReportMs : Z; lastDoorClosed : bool
}.

(** The remaining constants of [config.h]. *)
(* @src firmware/esp32/include/config.example.h 105-120 config.h *)
Record LoopConfig := {
  ACS_WATCHDOG_S : Z; ACS_OTA_MANIFEST_URL : bytes; ACS_OTA_CHECK_HOURS : Z; ACS_OTA_PUBLIC_KEY : bytes
}.

(** What happens to a board in one turn of the loop. The events of the socket
    come with the time of day in seconds and the instant. *)
Record Turn := {
  tu_start : Z;
  tu_wifi : bool;
  tu_time : Z;
  tu_events : list (Z * Z * WsEvent);
  tu_update : UpdateSource;
  tu_inputs_at : Z;
  tu_tamper_high : bool;
  tu_door_low : bool;
  tu_end : Z
}.

(** What a turn sends, by the part that sends it. *)
Record Output := { o_link : list bytes; o_ota : list bytes; o_inputs : list bytes; o_image : option bytes }.

Definition with_link (l : WsLink) (b : Board) : Board := {|
  link := l; beacon := beacon b; ota := ota b; linkStarted := linkStarted b; tamperLatched := tamperLatched b;
  lastSenseReportMs := lastSenseReportMs b; lastDoorClosed := lastDoorClosed b |}.
Definition with_beacon (x : BeaconState) (b : Board) : Board := {|
  link := link b; beacon := x; ota := ota b; linkStarted := linkStarted b; tamperLatched := tamperLatched b;
  lastSenseReportMs := lastSenseReportMs b; lastDoorClosed := lastDoorClosed b |}.
Definition with_ota (x : OtaState) (b : Board) : Board := {|
  link := link b; beacon := beacon b; ota := x; linkStarted := linkStarted b; tamperLatched := tamperLatched b;
  lastSenseReportMs := lastSenseReportMs b; lastDoorClosed := lastDoorClosed b |}.
Definition with_started (b : Board) : Board := {|
  link := link b; beacon := beacon b; ota := ota b; linkStarted := true; tamperLatched := tamperLatched b;
  lastSenseReportMs := lastSenseReportMs b; lastDoorClosed := lastDoorClosed b |}.
Definition with_relay (r : Relay) (l : WsLink) : WsLink := {|
  authenticated_ := authenticated_ l; lastPongMs_ := lastPongMs_ l; seen_ := seen_ l; seenNext_ := seenNext_ l;
  led := led l; relay := r |}.

Section board.
Context {BL : BoardLibraries} {ED : Ed25519} (cfg : BoardConfig) (lc : LoopConfig).

(** *** [acs_beacon.cpp] *)

(** The identifier of a slot. *)
(* @src firmware/esp32/src/acs_beacon.cpp 49-62 Beacon::updateAdvertisement *)
Definition slot_identifier (slot : Z) : bytes :=
  base64UrlEncodeNoPad (take 16 (mbedtls_hmac (ACS_BEACON_KEY cfg) (Beacon.kDomain ++ Beacon.slot_octets slot))).

(* @src firmware/esp32/src/acs_beacon.cpp 29-47 Beacon::tick *)
Definition beacon_tick (now : Z) (x : BeaconState) : BeaconState :=
  if negb (started_ x) then x
  else if now <? Beacon.kClockSane then
    {| started_ := true; advertising_ := false; currentSlot_ := currentSlot_ x; currentId_ := currentId_ x |}
  else
    let slot := now / ACS_BEACON_ROTATION_S cfg in
    if advertising_ x && (slot =? currentSlot_ x) then x
    else {| started_ := true; advertising_ := true; currentSlot_ := slot; currentId_ := slot_identifier slot |}.

(** What a phone in range can receive. *)
Definition on_air (x : BeaconState) : option bytes := if advertising_ x then Some (currentId_ x) else None.

(** *** [acs_ota.cpp] *)

(* @src firmware/esp32/src/acs_ota.cpp 21-24 OtaUpdater::begin *)
Definition ota_begin (millis : Z) : OtaState := {|
  nextCheckMs_ := (millis + 60 * 1000) mod 2 ^ 32;
  enabled_ := negb (bool_decide (c_str (ACS_OTA_MANIFEST_URL lc) = [])) |}.

(** The image to restart into, if any, and the texts of a check. *)
(* @src firmware/esp32/src/acs_ota.cpp 26-35 OtaUpdater::tick *)
Definition ota_tick (millis : Z) (src : UpdateSource) (s : WsLink) (o : OtaState)
    : OtaState * (option bytes * list bytes) :=
  if negb (enabled_ o) then (o, (None, []))
  else if negb ((millis - nextCheckMs_ o) mod 2 ^ 32 <? 2 ^ 31) then (o, (None, []))
  else
    ({| nextCheckMs_ := (millis + ACS_OTA_CHECK_HOURS lc * 3600 * 1000) mod 2 ^ 32; enabled_ := true |},
     checkNow (ACS_OTA_PUBLIC_KEY lc) cfg src s).

(** *** [acs_ws.cpp] *)

(* @src firmware/esp32/src/acs_ws.cpp 33-43 WsLink::begin *)
Definition link_begin (millis : Z) (s : WsLink) : WsLink :=
  set_link (authenticated_ s) millis (StatusLed.set millis ServerConnecting (led s)) s.

(** The events of one [socketClient.loop()], and the texts they make the link
    send. *)
Fixpoint deliver (boot : Z) (events : list (Z * Z * WsEvent)) (s : WsLink) : WsLink * list bytes :=
  match events with
  | [] => (s, [])
  | (now, at_, e) :: rest =>
      let '(s, texts) := handleEvent cfg now ((at_ - boot) mod 2 ^ 32) e s in
      let '(s, more) := deliver boot rest s in
      (s, texts ++ more)
  end.

(** *** [main.cpp] *)

Definition tamper_detail : bytes := 123 :: quoted §"state" ++ 58 :: quoted §"open" ++ [125].
Definition door_detail (closed : bool) : bytes :=
  123 :: quoted §"state" ++ 58 :: (if closed then quoted §"closed" else quoted §"open") ++ [125].

(* @src firmware/esp32/src/main.cpp 62-80 readInputs *)
Definition readInputs (millis : Z) (tamperOpen doorClosed : bool) (b : Board) : Board * list bytes :=
  if (millis - lastSenseReportMs b) mod 2 ^ 32 <? 1000 then (b, [])
  else
    let reported := tamperOpen && negb (tamperLatched b) in
    let moved := negb (Bool.eqb doorClosed (lastDoorClosed b)) in
    ({| link := link b; beacon := beacon b; ota := ota b; linkStarted := linkStarted b;
        tamperLatched := tamperLatched b || reported; lastSenseReportMs := millis; lastDoorClosed := doorClosed |},
     (if reported then sendEvent §"tamper" §"failure" tamper_detail (link b) else [])
     ++ (if moved then sendEvent §"door_sense" §"success" (door_detail doorClosed) (link b) else [])).

(** The objects as the program starts, and [setup] at [millis() = 0]. *)
Definition initial_link : WsLink := {|
  authenticated_ := false; lastPongMs_ := 0; seen_ := replicate kSeenCapacity []; seenNext_ := 0;
  led := {| state_ := Booting; nextChangeMs_ := 0; phase_ := 0; level_ := false |};
  relay := {| energised_ := false; offAtMs_ := 0 |} |}.

(* @src firmware/esp32/src/main.cpp 84-106 setup *)
Definition setup : Board := {|
  link := set_led 0 WifiConnecting initial_link;
  beacon := {| started_ := true; advertising_ := false; currentSlot_ := 0; currentId_ := [] |};
  ota := ota_begin 0;
  linkStarted := false; tamperLatched := false; lastSenseReportMs := 0; lastDoorClosed := true |}.

(** Up to the point where the link has its turn. *)
(* @src firmware/esp32/src/main.cpp 111-123 loop *)
Definition loop_head (boot : Z) (t : Turn) (b : Board) : Board :=
  let millis := (tu_start t - boot) mod 2 ^ 32 in
  let b :=
    if tu_wifi t then if linkStarted b then b else with_started (with_link (link_begin millis (link b)) b)
    else with_link (set_led millis WifiConnecting (link b)) b in
  let b := with_link (with_relay (Relay.tick millis (relay (link b))) (link b)) b in
  let b := with_link (with_led (StatusLed.tick millis (led (link b))) (link b)) b in
  with_beacon (beacon_tick (tu_time t) (beacon b)) b.

(** The link, the update check and the inputs. A board that takes an image
    restarts before it reads its inputs. *)
(* @src firmware/esp32/src/main.cpp 125-129 loop *)
Definition loop_tail (boot : Z) (t : Turn) (b : Board) : Board * Output :=
  let millis := (tu_inputs_at t - boot) mod 2 ^ 32 in
  let '(l, texts) := deliver boot (tu_events t) (link b) in
  let '(_, l) := WsLink.tick cfg millis l in
  let b := with_link l b in
  let '(o, (image, more)) := ota_tick millis (tu_update t) l (ota b) in
  let b := with_ota o b in
  match image with
  | Some _ => (b, {| o_link := texts; o_ota := more; o_inputs := []; o_image := image |})
  | None =>
      let '(b, last) := readInputs millis (tu_tamper_high t) (tu_door_low t) b in
      (b, {| o_link := texts; o_ota := more; o_inputs := last; o_image := None |})
  end.

(* @src firmware/esp32/src/main.cpp 108-131 loop *)
Definition loop (boot : Z) (t : Turn) (b : Board) : Board * Output :=
  let b := loop_head boot t b in
  if linkStarted b then loop_tail boot t b
  else (b, {| o_link := []; o_ota := []; o_inputs := []; o_image := None |}).

(** ** A board in time *)

Record Site := {
  board : Board;
  boot : Z;
  fed : Z;
  clock : Z;
  delivered : list (Z * Z * WsEvent)
}.

Definition watchdog : Z := ACS_WATCHDOG_S lc * 1000.

(** After a reset of any cause: power, watchdog, restart into an image. *)
Definition booted (at_ : Z) (history : list (Z * Z * WsEvent)) : Site :=
  {| board := setup; boot := at_; fed := at_; clock := at_; delivered := history |}.

(** The instants of a turn, in the order in which the code runs. *)
Definition in_order (from until : Z) (events : list (Z * Z * WsEvent)) : Prop :=
  Forall (fun ev => from <= ev.1.2 <= until) events /\ StronglySorted (fun a b => a.1.2 <= b.1.2) events.

Record timed (y : Site) (t : Turn) : Prop := {
  ti_start : clock y <= tu_start t;
  ti_fed : tu_start t - fed y <= watchdog;
  ti_events : in_order (tu_start t) (tu_inputs_at t) (tu_events t);
  ti_inputs : tu_start t <= tu_inputs_at t <= tu_end t;
  ti_end : tu_end t - tu_start t <= watchdog
}.

(** The socket is looked at only once the link has been started. *)
Definition arrived_events (y : Site) (t : Turn) : list (Z * Z * WsEvent) :=
  if linkStarted (loop_head (boot y) t (board y)) then tu_events t else [].

(** A turn that ends in a new image restarts the board; the image is taken to be
    this firmware again. *)
Definition after_turn (y : Site) (t : Turn) : Site :=
  let '(b, out) := loop (boot y) t (board y) in
  let history := delivered y ++ arrived_events y t in
  match o_image out with
  | Some _ => booted (tu_end t) history
  | None => {| board := b; boot := boot y; fed := tu_start t; clock := tu_end t; delivered := history |}
  end.

Inductive site_step : Site -> Site -> Prop :=
| step_turn y t : timed y t -> site_step y (after_turn y t)
| step_wait y t : clock y <= t -> t - fed y <= watchdog ->
    site_step y {| board := board y; boot := boot y; fed := fed y; clock := t; delivered := delivered y |}
| step_reset y t : clock y <= t -> site_step y (booted t (delivered y)).

Definition site_reach (y : Site) : Prop := exists t, rtc site_step (booted t []) y.
End board.

(** ** The relay across turns *)

Section relay_theorems.
Context {BL : BoardLibraries} {ED : Ed25519} (cfg : BoardConfig) (lc : LoopConfig).
Hypothesis max_small : 0 <= ACS_RELAY_MAX_MS cfg < 2 ^ 30.
Hypothesis watchdog_small : 0 <= watchdog lc < 2 ^ 30.

(** How long an honoured command holds the relay. *)
Definition pulse_ms (command : UnlockCommand) : Z := Z.min (durationMs command) (ACS_RELAY_MAX_MS cfg).

Lemma parse_duration payload command :
  parseUnlockCommand payload = Some command -> 0 <= durationMs command < 2 ^ 32.
Proof.
  unfold parseUnlockCommand. intros H. repeat (apply bind_Some in H as (? & ? & H)). case_hyp H; [done|].
  injection H as <-. cbn [durationMs].
  match goal with Hd : as_uint32 (member §"duration_ms" payload) = Some ?d |- 0 <= ?d < _ => unfold as_uint32 in Hd;
    destruct (member §"duration_ms" payload); try done; case_hyp Hd; [|done] end.
  simplify_eq. bool_to_prop. lia.
Qed.

Lemma pulse_ms_bound now text s command :
  honoured cfg now text s command -> 0 <= pulse_ms command <= ACS_RELAY_MAX_MS cfg.
Proof.
  intros [(d & _ & _ & Hp & _) _ _ _ _ _]. apply parse_duration in Hp. unfold pulse_ms. lia.
Qed.

(** The relay is off, or a command that was honoured holds it, and the last
    feed was before its end. *)
Definition held (boot_ fed_ clock_ : Z) (history : list (Z * Z * WsEvent)) (r : Relay) : Prop :=
  energised_ r = true ->
  exists now at_ text command s,
    (now, at_, TEXT text) ∈ history /\ honoured cfg now text s command
    /\ at_ <= clock_ /\ offAtMs_ r = (at_ - boot_ + pulse_ms command) mod 2 ^ 32
    /\ fed_ <= at_ + pulse_ms command.

Lemma held_mono boot_ fed_ c c' h h' r :
  c <= c' -> h `sublist_of` h' -> held boot_ fed_ c h r -> held boot_ fed_ c' h' r.
Proof.
  intros Hc Hh Hr He. destruct (Hr He) as (now & at_ & text & command & s & Hin & Hon & Hat & Hoff & Hfed).
  exists now, at_, text, command, s. split_and!; try done; [|lia]. by eapply elem_of_submseteq; [done|apply sublist_submseteq].
Qed.

(** The first thing a turn does to the relay: from then on the bound counts from
    the turn's own feed. *)
Lemma held_tick boot_ fed_ clock_ h start r :
  held boot_ fed_ clock_ h r -> clock_ <= start -> start - fed_ <= watchdog lc ->
  held boot_ start start h (Relay.tick ((start - boot_) mod 2 ^ 32) r).
Proof.
  intros Hr Hc Hf. unfold Relay.tick. destruct (energised_ r) eqn:E; cbn [negb]; [|by intros He; rewrite E in He].
  destruct (Hr E) as (now & at_ & text & command & s & Hin & Hon & Hat & Hoff & Hfed).
  destruct (Z.ltb_spec (((start - boot_) mod 2 ^ 32 - offAtMs_ r) mod 2 ^ 32) (2 ^ 31)) as [Hlt|Hge]; [done|].
  intros _. exists now, at_, text, command, s. split_and!; try done; [lia|].
  rewrite Hoff, <- Zminus_mod in Hge. pose proof (pulse_ms_bound _ _ _ _ Hon).
  destruct (Z.le_gt_cases start (at_ + pulse_ms command)) as [|Hlate]; [done|].
  rewrite Z.mod_small in Hge by lia. lia.
Qed.

(** An event: another pulse at most. *)
Lemma held_event boot_ fed_ clock_ h now at_ e s :
  held boot_ fed_ clock_ h (relay s) -> clock_ <= at_ -> fed_ <= at_ ->
  held boot_ fed_ at_ (h ++ [(now, at_, e)]) (relay (handleEvent cfg now ((at_ - boot_) mod 2 ^ 32) e s).1).
Proof.
  intros Hr Hc Hf.
  destruct (decide (relay (handleEvent cfg now ((at_ - boot_) mod 2 ^ 32) e s).1 = relay s)) as [E|E].
  - rewrite E. eapply held_mono; [exact Hc|by apply sublist_inserts_r|done].
  - apply relay_moved in E as (text & command & -> & Hh & ->). intros _.
    exists now, at_, text, command, s. pose proof (pulse_ms_bound _ _ _ _ Hh).
    split_and!; [apply elem_of_app; right; by apply list_elem_of_singleton|done|lia| |lia].
    cbn [offAtMs_]. by rewrite Zdiv.Zplus_mod_idemp_l.
Qed.

Lemma held_deliver boot_ fed_ until events : forall clock_ h s,
  held boot_ fed_ clock_ h (relay s) -> fed_ <= clock_ <= until -> in_order clock_ until events ->
  held boot_ fed_ until (h ++ events) (relay (deliver cfg boot_ events s).1).
Proof.
  induction events as [|[[now at_] e] events IH]; intros clock_ h s Hr Hc [Hin Hord].
  - rewrite app_nil_r. eapply held_mono; [|done|done]. lia.
  - apply Forall_cons in Hin as [Hat Hin]. cbn [fst snd] in Hat. apply StronglySorted_inv in Hord as [Hord Hfirst].
    cbn [deliver]. assert (H1 : held boot_ fed_ at_ (h ++ [(now, at_, e)]) (relay (handleEvent cfg now ((at_ - boot_) mod 2 ^ 32) e s).1))
      by (apply held_event with clock_; [done|lia|lia]).
    destruct (handleEvent _ _ _ _ s) as [s1 texts]. cbn [fst] in H1.
    specialize (IH at_ (h ++ [(now, at_, e)]) s1 H1 ltac:(lia)). rewrite <- app_assoc in IH. cbn [app] in IH.
    destruct (deliver cfg boot_ events s1) as [s2 more]. cbn [fst] in IH |- *. apply IH. split; [|done].
    apply Forall_forall. intros ev Hev. rewrite Forall_forall in Hin, Hfirst. specialize (Hin _ Hev). specialize (Hfirst _ Hev).
    cbn [fst snd] in *. lia.
Qed.

Lemma tick_relay millis s : relay (WsLink.tick cfg millis s).2 = relay s.
Proof. unfold WsLink.tick. by case_match. Qed.

Lemma inputs_keep millis open_ closed b :
  link (readInputs millis open_ closed b).1 = link b /\ beacon (readInputs millis open_ closed b).1 = beacon b.
Proof. unfold readInputs. by case_match. Qed.

Lemma head_relay boot_ t b :
  relay (link (loop_head cfg boot_ t b)) = Relay.tick ((tu_start t - boot_) mod 2 ^ 32) (relay (link b)).
Proof. unfold loop_head. by destruct (tu_wifi t), (linkStarted b). Qed.

(** What is left of the loop's second half once the image is set aside. *)
Lemma tail_link boot_ t b :
  link (loop_tail cfg lc boot_ t b).1
  = (WsLink.tick cfg ((tu_inputs_at t - boot_) mod 2 ^ 32) (deliver cfg boot_ (tu_events t) (link b)).1).2.
Proof.
  unfold loop_tail. destruct (deliver cfg boot_ (tu_events t) (link b)) as [l texts]. cbn [fst].
  destruct (WsLink.tick cfg _ l) as [d l']. cbn [snd].
  destruct (ota_tick _ _ _ _ _ _) as [o [[image|] more]]; [done|].
  match goal with |- context [readInputs ?m ?x ?y ?b] => pose proof (inputs_keep m x y b) as [H _]; destruct (readInputs m x y b) end.
  exact H.
Qed.

Definition site_ok (y : Site) : Prop :=
  fed y <= clock y /\ clock y - fed y <= watchdog lc
  /\ held (boot y) (fed y) (clock y) (delivered y) (relay (link (board y))).

Lemma booted_ok at_ h : site_ok (booted lc at_ h).
Proof. split_and!; cbn; try lia. done. Qed.

Lemma turn_ok y t : site_ok y -> timed lc y t -> site_ok (after_turn cfg lc y t).
Proof.
  intros (Hf & Hw & Hr) [Hs Hfd Hev Hin Hend]. unfold after_turn, arrived_events, loop.
  pose proof (held_tick _ _ _ _ (tu_start t) _ Hr Hs Hfd) as H1. rewrite <- (head_relay (boot y) t (board y)) in H1.
  destruct (linkStarted (loop_head cfg (boot y) t (board y))).
  - pose proof (held_deliver _ _ (tu_inputs_at t) (tu_events t) _ _ _ H1 ltac:(lia) Hev) as H2.
    pose proof (tail_link (boot y) t (loop_head cfg (boot y) t (board y))) as El.
    destruct (loop_tail cfg lc _ _ _) as [b out]. cbn [fst] in El. destruct (o_image out); [apply booted_ok|].
    split_and!; cbn; [lia|lia|]. rewrite El, tick_relay. eapply held_mono; [|done|exact H2]. lia.
  - cbn [o_image]. rewrite app_nil_r. split_and!; cbn; [lia|lia|]. eapply held_mono; [|done|exact H1]. lia.
Qed.

Lemma reach_ok y : site_reach cfg lc y -> site_ok y.
Proof.
  intros (t0 & Hr). remember (booted lc t0 []) as y0 eqn:E0.
  assert (H0 : site_ok y0) by (subst; apply booted_ok). clear E0.
  induction Hr as [y0|y0 y1 y2 Hs _ IH]; [done|]. apply IH. destruct Hs as [y t Ht|y t Hc Hw|y t Hc].
  - by apply turn_ok.
  - destruct H0 as (Hf & _ & H). split_and!; cbn; [lia|lia|]. eapply held_mono; [|done|exact H]. lia.
  - apply booted_ok.
Qed.

(** C11 The door is never open for long: in every state a board can reach,
    through any turns, resets and waits, an energised relay is due to one
    command that was delivered and passed every check, and that command arrived
    no longer ago than its pulse, cut to the maximum, and one period of the
    watchdog. *)
Theorem door_open_only_briefly y :
  site_reach cfg lc y -> energised_ (relay (link (board y))) = true ->
  exists now at_ text command s,
    (now, at_, TEXT text) ∈ delivered y /\ honoured cfg now text s command
    /\ at_ <= clock y <= at_ + Z.min (durationMs command) (ACS_RELAY_MAX_MS cfg) + watchdog lc.
Proof.
  intros (Hf & Hw & Hr)%reach_ok He. destruct (Hr He) as (now & at_ & text & command & s & H1 & H2 & H3 & _ & H5).
  exists now, at_, text, command, s. unfold pulse_ms in H5. split_and!; try done. lia.
Qed.
End relay_theorems.

(** A reset forgets which commands were honoured: after it, and within the time of
    the command, the same text opens the door again. *)
Lemma reset_forgets_commands {BL : BoardLibraries} {ED : Ed25519} cfg lc now text command s now' millis :
  honoured cfg now text s command ->
  clock_sane <= now' -> issuedAt command - ACS_MAX_CLOCK_SKEW_S cfg <= now' <= expiresAt command + ACS_MAX_CLOCK_SKEW_S cfg ->
  energised_ (relay (handleText cfg now' millis text (link (setup lc))).1) = true.
Proof.
  intros [Hd Hm _ _ _ _] Hsane Ht. rewrite (handleText_honoured cfg now' millis text (link (setup lc)) command); [done|].
  split; try done; lia.
Qed.

(** ** What is on the air *)

Section beacon_theorems.
Context {BL : BoardLibraries} {ED : Ed25519} (cfg : BoardConfig) (lc : LoopConfig).

Definition beacon_ok (x : BeaconState) : Prop :=
  started_ x = true /\ (advertising_ x = true -> currentId_ x = slot_identifier cfg (currentSlot_ x)).

Lemma beacon_tick_ok now x : beacon_ok x -> beacon_ok (beacon_tick cfg now x).
Proof.
  intros [Hs Hi]. unfold beacon_tick. rewrite Hs. cbn [negb]. case_match; [done|]. case_match; done.
Qed.

(** One tick brings the state in line with the clock. *)
Lemma beacon_tick_air now x : beacon_ok x -> on_air (beacon_tick cfg now x) = Beacon.advertised cfg now.
Proof.
  intros [Hs Hi]. unfold beacon_tick, Beacon.advertised, on_air. rewrite Hs. cbn [negb].
  destruct (now <? Beacon.kClockSane); [done|]. cbv zeta.
  destruct (advertising_ x && (_ =? currentSlot_ x)) eqn:E; [|done].
  bool_to_prop. match goal with Ha : advertising_ x = true, Hs : _ = currentSlot_ x |- _ => by rewrite Ha, (Hi Ha), <- Hs end.
Qed.

Lemma head_beacon boot_ t b : beacon (loop_head cfg boot_ t b) = beacon_tick cfg (tu_time t) (beacon b).
Proof. unfold loop_head. by destruct (tu_wifi t), (linkStarted b). Qed.

Lemma loop_beacon boot_ t b : beacon (loop cfg lc boot_ t b).1 = beacon_tick cfg (tu_time t) (beacon b).
Proof.
  rewrite <- (head_beacon boot_). unfold loop. destruct (linkStarted _); [|done].
  unfold loop_tail. destruct (deliver _ _ _ _) as [l texts], (WsLink.tick _ _ l) as [d l'].
  destruct (ota_tick _ _ _ _ _ _) as [o [[image|] more]]; [done|].
  match goal with |- context [readInputs ?m ?x ?y ?b] => pose proof (inputs_keep m x y b) as [_ H]; destruct (readInputs m x y b) end.
  exact H.
Qed.

Lemma reach_beacon y : site_reach cfg lc y -> beacon_ok (beacon (board y)).
Proof.
  intros (t0 & Hr). remember (booted lc t0 []) as y0 eqn:E0.
  assert (H0 : beacon_ok (beacon (board y0))) by by subst. clear E0.
  induction Hr as [y0|y0 y1 y2 Hs _ IH]; [done|]. apply IH. destruct Hs as [y t _|y t _ _|y t _]; [|done|done].
  unfold after_turn. pose proof (loop_beacon (boot y) t (board y)) as E.
  destruct (loop cfg lc (boot y) t (board y)) as [b out]. cbn [fst] in E.
  destruct (o_image out); [done|]. cbn [board]. rewrite E. by apply beacon_tick_ok.
Qed.

(** The identifier on the air follows the clock: whatever happened to the
    board before, each turn of the loop leaves exactly the identifier of its own
    time on the air, and none while the clock is not set; so a phone that hears
    the board right after a turn presents what the backend derives for that
    time. *)
Theorem beacon_follows_clock y t slot :
  site_reach cfg lc y ->
  on_air (beacon (loop cfg lc (boot y) t (board y)).1) = Beacon.advertised cfg (tu_time t)
  /\ (Beacon.kClockSane <= tu_time t < 2 ^ 63 -> length (ACS_BEACON_KEY cfg) = 32%nat -> 0 < ACS_BEACON_ROTATION_S cfg ->
      slot_for (seconds (tu_time t)) (ACS_BEACON_ROTATION_S cfg) = OK slot ->
      exists id, on_air (beacon (loop cfg lc (boot y) t (board y)).1) = Some id
        /\ derive_beacon_id (ACS_BEACON_KEY cfg) slot = OK id).
Proof.
  intros Hr%reach_beacon.
  assert (E : on_air (beacon (loop cfg lc (boot y) t (board y)).1) = Beacon.advertised cfg (tu_time t)).
  { rewrite loop_beacon. by apply beacon_tick_air. }
  split; [done|]. intros Ht Hk Hrot Hs.
  destruct (advertised_is_derived cfg (tu_time t) slot ltac:(lia) Hk Hrot ltac:(lia) Hs) as (id & Ha & Hd).
  exists id. by rewrite E.
Qed.
End beacon_theorems.

(** ** The tamper switch *)

Section tamper_theorems.
Context {BL : BoardLibraries} {ED : Ed25519} (cfg : BoardConfig) (lc : LoopConfig).

Definition tamper_text : bytes :=
  dumps false false None
    (JObj [(§"type", JStr §"event"); (§"event", JStr §"tamper"); (§"outcome", JStr §"failure");
           (§"detail", JObj [(§"state", JStr §"open")])]).

Definition door_text (closed : bool) : bytes :=
  dumps false false None
    (JObj [(§"type", JStr §"event"); (§"event", JStr §"door_sense"); (§"outcome", JStr §"success");
           (§"detail", JObj [(§"state", JStr (if closed then §"closed" else §"open"))])]).

(** The concatenated texts are JSON. *)
Lemma tamper_sent s : authenticated_ s = true -> sendEvent §"tamper" §"failure" tamper_detail s = [tamper_text].
Proof. intros H. unfold sendEvent. rewrite H. vm_compute. reflexivity. Qed.

Lemma door_sent closed s :
  authenticated_ s = true -> sendEvent §"door_sense" §"success" (door_detail closed) s = [door_text closed].
Proof. intros H. unfold sendEvent. rewrite H. destruct closed; vm_compute; reflexivity. Qed.

(** What the inputs make the board send, case by case. *)
Lemma inputs_texts millis tamper closed b :
  1000 <= (millis - lastSenseReportMs b) mod 2 ^ 32 ->
  (readInputs millis tamper closed b).2
  = if authenticated_ (link b) then
      (if tamper && negb (tamperLatched b) then [tamper_text] else [])
      ++ (if Bool.eqb closed (lastDoorClosed b) then [] else [door_text closed])
    else [].
Proof.
  intros H. unfold readInputs. rewrite (proj2 (Z.ltb_ge _ _)) by done. cbn [snd].
  destruct (authenticated_ (link b)) eqn:Ea.
  - rewrite tamper_sent, door_sent by done. by destruct (Bool.eqb _ _).
  - unfold sendEvent. rewrite Ea. cbn [negb]. by destruct (_ && _), (negb _).
Qed.

(** A latched switch is silent. *)
Lemma latched_silent millis tamper closed b :
  tamperLatched b = true ->
  (tamper_text ∉ (readInputs millis tamper closed b).2) /\ tamperLatched (readInputs millis tamper closed b).1 = true.
Proof.
  intros Hl. destruct (Z.lt_ge_cases ((millis - lastSenseReportMs b) mod 2 ^ 32) 1000) as [Hlt|Hge].
  - unfold readInputs. rewrite (proj2 (Z.ltb_lt _ _)) by done. split; [by apply not_elem_of_nil|done].
  - split.
    + rewrite inputs_texts by done. rewrite Hl, andb_false_r. cbn [app].
      assert (Hne : forall c, tamper_text <> door_text c) by (intros []; vm_compute; discriminate).
      destruct (authenticated_ (link b)), (Bool.eqb closed (lastDoorClosed b)); try by apply not_elem_of_nil.
      rewrite list_elem_of_singleton. apply Hne.
    + unfold readInputs. rewrite (proj2 (Z.ltb_ge _ _)) by done. cbn [fst tamperLatched]. by rewrite Hl.
Qed.

Lemma head_latched boot_ t b : tamperLatched (loop_head cfg boot_ t b) = tamperLatched b.
Proof. unfold loop_head. by destruct (tu_wifi t), (linkStarted b). Qed.

Lemma loop_latched boot_ t b :
  tamperLatched b = true ->
  (tamper_text ∉ o_inputs (loop cfg lc boot_ t b).2) /\ tamperLatched (loop cfg lc boot_ t b).1 = true.
Proof.
  intros Hl. rewrite <- (head_latched boot_ t) in Hl. unfold loop. destruct (linkStarted _).
  - unfold loop_tail. destruct (deliver _ _ _ _) as [l texts], (WsLink.tick _ _ l) as [d l'].
    destruct (ota_tick _ _ _ _ _ _) as [o [[image|] more]]; [split; [by apply not_elem_of_nil|done]|].
    match goal with |- context [readInputs ?m ?x ?c ?b] => pose proof (latched_silent m x c b Hl) as H;
      destruct (readInputs m x c b) end. exact H.
  - split; [by apply not_elem_of_nil|done].
Qed.

(** Turn after turn without a reset. *)
Fixpoint run_turns (boot_ : Z) (turns : list Turn) (b : Board) : Board * list Output :=
  match turns with
  | [] => (b, [])
  | t :: rest =>
      let '(b, out) := loop cfg lc boot_ t b in
      let '(b, outs) := run_turns boot_ rest b in
      (b, out :: outs)
  end.

(** The enclosure opened while the link is down is never reported: when the
    inputs are read and the switch is open, but the backend has not authenticated
    the link, nothing is sent, and from then on, through any number of turns,
    with the link up again and the switch open or closed, the board does not
    report it. *)
Theorem offline_tamper_is_lost boot_ millis closed b turns :
  1000 <= (millis - lastSenseReportMs b) mod 2 ^ 32 -> authenticated_ (link b) = false ->
  let '(b1, texts) := readInputs millis true closed b in
  texts = []
  /\ Forall (fun out => tamper_text ∉ o_inputs out) (run_turns boot_ turns b1).2.
Proof.
  intros Hm Ha. pose proof (inputs_texts millis true closed b Hm) as Ht. rewrite Ha in Ht.
  assert (Hl : tamperLatched (readInputs millis true closed b).1 = true).
  { unfold readInputs. rewrite (proj2 (Z.ltb_ge _ _)) by done. cbn [fst tamperLatched]. by destruct (tamperLatched b). }
  destruct (readInputs millis true closed b) as [b1 texts]. cbn [fst snd] in *. split; [done|]. clear Ht Ha Hm.
  revert b1 Hl. induction turns as [|t turns IH]; intros b1 Hl; cbn [run_turns]; [by apply Forall_nil|].
  destruct (loop_latched boot_ t b1 Hl) as [H1 H2]. destruct (loop cfg lc boot_ t b1) as [b2 out]. cbn [fst snd] in *.
  specialize (IH b2 H2). destruct (run_turns boot_ turns b2) as [b3 outs]. by apply Forall_cons.
Qed.

(** The enclosure opened while the link is up reaches the audit log: the one
    text that reading the inputs sends (the door has not moved) makes the backend
    append exactly one row, a failure [controller.tamper] of that controller
    with the switch's state. *)
Theorem tamper_reaches_audit_log {PG : Postgres} {PR : PyRepr} {WS : WebSocket} millis b peer id s w :
  1000 <= (millis - lastSenseReportMs b) mod 2 ^ 32 -> authenticated_ (link b) = true -> tamperLatched b = false ->
  match peer with Some p => is_Some (pg_inet p) | None => True end ->
  let texts := (readInputs millis true (lastDoorClosed b) b).2 in
  exists r w', run (serve peer id s texts) w = (w', OK tt)
    /\ audit_log (w_db w') = audit_log (w_db w) ++ [r]
    /\ a_event_type r = §"controller.tamper" /\ a_outcome r = out_failure /\ a_actor_type r = act_controller
    /\ a_controller_id r = Some id /\ a_occurred_at r = w_now w
    /\ a_detail r = JObj [(§"payload", JObj [(§"state", JStr §"open")])].
Proof.
  intros Hm Ha Hl Hp. cbv zeta. rewrite inputs_texts by done. rewrite Ha, Hl, eqb_reflx. cbn [andb negb app].
  cbn [serve]. unfold receive. rewrite run_bind, run_reads.
  replace (MAX_MESSAGE_BYTES <? len tamper_text) with false by (vm_compute; reflexivity).
  replace (json_loads tamper_text) with (@OK Exn _ (JObj [(§"type", JStr §"event"); (§"event", JStr §"tamper");
    (§"outcome", JStr §"failure"); (§"detail", JObj [(§"state", JStr §"open")])])) by (vm_compute; reflexivity).
  cbn [as_message]. rewrite run_bind, run_of_outcome, run_bind. unfold handle.
  change (says §"type" §"pong" _) with false. change (says §"type" §"ack" _) with false.
  change (says §"type" §"event" _) with true. cbv iota. rewrite run_bind, run_of_outcome.
  change (text_param _) with (@OK Exn _ (Some §"failure")). cbv iota.
  change (§"controller." ++ py_str _) with §"controller.tamper". unfold AuditService.record. rewrite run_bind, run_append.
  destruct (AuditRepository.new_row _ _ _ _ _) as [r|] eqn:E.
  - pose proof (new_row_some _ _ _ _ _ _ E) as (_ & Hat & Hev & Hout & Hact & _ & _ & _ & Hcid & _ & Hdet & _).
    eexists _, _. split; [reflexivity|]. split; [reflexivity|]. cbn in *. split_and!; try done.
    + by injection Hout.
    + by injection Hact.
    + by injection Hdet.
  - exfalso. unfold AuditRepository.new_row in E. cbn [client_ip controller_audit] in E.
    destruct peer as [p|]; [destruct Hp as [h Hp]; rewrite Hp in E|]; vm_compute in E; discriminate E.
Qed.
End tamper_theorems.

(** ** Witnesses *)

#[local] Existing Instances demo_board demo_long_ed25519 demo_postgres demo_repr.

Definition demo_loop : LoopConfig := {|
  ACS_WATCHDOG_S := 15; ACS_OTA_MANIFEST_URL := []; ACS_OTA_CHECK_HOURS := 12; ACS_OTA_PUBLIC_KEY := [] |}.

Definition auth_ok_bytes : bytes := dumps true false None (JObj [(§"type", JStr §"auth_ok")]).

(** The link comes up, and a command arrives. *)
Definition demo_turn : Turn := {|
  tu_start := 5000; tu_wifi := true; tu_time := 1709208004;
  tu_events := [(1709208004, 5010, CONNECTED); (1709208004, 5020, TEXT auth_ok_bytes); (1709208004, 5030, TEXT demo_text)];
  tu_update := demo_source []; tu_inputs_at := 5040; tu_tamper_high := false; tu_door_low := true; tu_end := 5045 |}.

Definition demo_site : Site := after_turn demo_cfg demo_loop (booted demo_loop 0 []) demo_turn.

Lemma demo_site_reached : site_reach demo_cfg demo_loop demo_site.
Proof.
  exists 0. apply rtc_once. apply step_turn. split; cbn [demo_turn booted clock fed tu_start tu_events tu_inputs_at tu_end];
    unfold watchdog; cbn [demo_loop ACS_WATCHDOG_S]; try lia.
  split.
  - repeat (apply Forall_cons; split; [cbn; lia|]). apply Forall_nil_2.
  - repeat (apply SSorted_cons; [|repeat (apply Forall_cons; split; [cbn; lia|]); apply Forall_nil_2]). apply SSorted_nil.
Qed.

Lemma demo_site_open : energised_ (relay (link (board demo_site))) = true.
Proof. vm_compute. reflexivity. Qed.

Lemma door_open_only_briefly_witness :
  exists now at_ text, (now, at_, TEXT text) ∈ delivered demo_site /\ at_ <= clock demo_site.
Proof.
  destruct (door_open_only_briefly demo_cfg demo_loop ltac:(cbn; lia) ltac:(unfold watchdog; cbn; lia) demo_site
    demo_site_reached demo_site_open) as (now & at_ & text & command & s & H1 & _ & H2 & _).
  exists now, at_, text. exact (conj H1 H2).
Defined.

Lemma beacon_follows_clock_witness :
  on_air (beacon (loop demo_cfg demo_loop (boot demo_site) demo_turn (board demo_site)).1) = Beacon.advertised demo_cfg 1709208004.
Proof.
  exact (proj1 (beacon_follows_clock demo_cfg demo_loop demo_site demo_turn 56973600 demo_site_reached)).
Defined.

Definition demo_fresh : Board := setup demo_loop.
Definition demo_online : Board := board demo_site.

Lemma offline_tamper_is_lost_witness :
  (readInputs 1500 true true demo_fresh).2 = []
  /\ Forall (fun out => tamper_text ∉ o_inputs out)
       (run_turns demo_cfg demo_loop 0 [demo_turn] (readInputs 1500 true true demo_fresh).1).2.
Proof.
  pose proof (offline_tamper_is_lost demo_cfg demo_loop 0 1500 true demo_fresh [demo_turn]
    ltac:(vm_compute; discriminate) eq_refl) as H.
  destruct (readInputs 1500 true true demo_fresh) as [b texts]. exact H.
Defined.

#[local] Instance demo_socket : WebSocket := {| ws_text := fun _ w => (w, None); ws_close := fun _ w => (w, None);
  json_digit_limit := fun _ => false |}.

Lemma tamper_reaches_audit_log_witness :
  exists r w', run (serve (Some §"10.0.0.1") 7 0 (readInputs 9000 true (lastDoorClosed demo_online) demo_online).2) demo_world = (w', OK tt)
    /\ audit_log (w_db w') = [r].
Proof.
  destruct (tamper_reaches_audit_log 9000 demo_online (Some §"10.0.0.1") 7 0 demo_world) as (r & w' & H1 & H2 & _);
    [vm_compute; discriminate|vm_compute; reflexivity|reflexivity|eexists; reflexivity|].
  exists r, w'. exact (conj H1 H2).
Defined.
