(* ===== verification/Backend.v ===== *)
(** * The backend as a whole: every task, in any interleaving

    [task] lists what the two processes of the backend run: the endpoints of the
    public API, the controller sockets and their heartbeats, the endpoints of
    the administration, the operator's scripts.  Any number of tasks of any kind
    may be under way at once, their atomic steps interleave in any order, and
    other steps (time passing, the audit cache of another process) may come in
    between, as long as they are steps that evolve the world. *)

From stdpp Require Import relations.
From S2P Require Import Prelude Text Sha256 Clock Json Config Ip Errors Proc World Demo AuditLog Repos Schema Signer Security Proximity RateLimit Hub Evolve Auth Unlock Der Attestation Enrollment Api ControllerWs Scripts Surface Family.

Inductive task :=
| EnrollChallenge (code : pystr)
| Enroll (request : Request) (code label key : pystr) (chain : list pystr) (token challenge : pystr) (version : option pystr)
| Login (request : Request) (username password : pystr) (device : uuid)
| Refresh (request : Request) (token : pystr)
| Logout (authorization : option pystr) (request : Request) (all_devices : bool)
| ListDoors (authorization : option pystr)
| Unlock (authorization : option pystr) (request : Request) (door : uuid) (beacon : pystr)
| AccessHistory (authorization : option pystr) (limit : Z)
| Ready
| ControllerSocket (peer answer : option pystr) (incoming : list pystr)
| Heartbeat (session rounds : nat)
| ReadAudit (authorization : option pystr) (limit : Z) (before : option Z) (event : option pystr)
| VerifyChain (authorization : option pystr) (from_seq : Z)
| ListControllers (authorization : option pystr)
| RegisterController (authorization : option pystr) (code name key beacon : pystr)
| BlockController (authorization : option pystr) (id reason : pystr)
| CreateDoor (authorization : option pystr) (code name : pystr) (location : option pystr) (controller : option uuid)
    (relay secs : Z)
| GrantPermission (authorization : option pystr) (user door : uuid) (mask : Z) (start_time end_time zone : pystr)
    (until : option instant)
| CreateAdmin (username display password repeated : pystr) (is_admin : bool)
| IssueCode (username : pystr) (ttl : Z).

Section backend.
Context {EN : Entropy} {PG : Postgres} {AR : Argon2} {ED : Ed25519} {PR : PyRepr} {X5 : X509} {SK : SignerSocket}
  {TR : Transport} {TE : TransportEvolves} {WS : WebSocket} {WE : WebSocketEvolves}
  (settings : Settings).

(** The response is of no interest here. *)
Definition quietly {A} (p : io A) : io unit := _ ← p; Ret tt.

Definition start (t : task) : io unit :=
  match t with
  | EnrollChallenge code => quietly (enroll_challenge code)
  | Enroll request code label key chain token challenge version =>
      quietly (enroll settings request code label key chain token challenge version)
  | Login request username password device => quietly (login settings request username password device)
  | Refresh request token => quietly (refresh settings request token)
  | Logout authorization request all_devices => logout settings authorization request all_devices
  | ListDoors authorization => quietly (list_doors settings authorization)
  | Unlock authorization request door beacon => quietly (unlock_door settings authorization request door beacon)
  | AccessHistory authorization limit => quietly (access_history settings authorization limit)
  | Ready => quietly ready
  | ControllerSocket peer answer incoming => controller_socket settings peer answer incoming
  | Heartbeat session rounds => _heartbeat settings session rounds
  | ReadAudit authorization limit before event => quietly (read_audit settings authorization limit before event)
  | VerifyChain authorization from_seq => quietly (verify_chain settings authorization from_seq)
  | ListControllers authorization => quietly (list_controllers settings authorization)
  | RegisterController authorization code name key beacon =>
      quietly (register_controller settings authorization code name key beacon)
  | BlockController authorization id reason => block_controller settings authorization id reason
  | CreateDoor authorization code name location controller relay secs =>
      quietly (create_door settings authorization code name location controller relay secs)
  | GrantPermission authorization user door mask start_time end_time zone until =>
      quietly (grant_permission settings authorization user door mask start_time end_time zone until)
  | CreateAdmin username display password repeated is_admin =>
      quietly (create_admin settings username display password repeated is_admin)
  | IssueCode username ttl => quietly (issue username ttl)
  end.

Lemma quietly_evolves {A} (p : io A) : guar evolves p -> guar evolves (quietly p).
Proof. intros Hp. by apply guar_bind. Qed.

(** Every task is made of evolving steps. *)
Lemma start_evolves t : guar evolves (start t).
Proof.
  destruct t; cbn [start].
  - apply quietly_evolves, api_enroll_challenge_evolves.
  - apply quietly_evolves, api_enroll_evolves.
  - apply quietly_evolves, api_login_evolves.
  - apply quietly_evolves, api_refresh_evolves.
  - apply api_logout_evolves.
  - apply quietly_evolves, list_doors_evolves.
  - apply quietly_evolves, unlock_door_evolves.
  - apply quietly_evolves, access_history_evolves.
  - apply quietly_evolves, ready_evolves.
  - apply controller_socket_evolves.
  - apply heartbeat_evolves, _.
  - apply quietly_evolves, read_audit_evolves.
  - apply quietly_evolves, verify_chain_evolves.
  - apply quietly_evolves, list_controllers_evolves.
  - apply quietly_evolves, register_controller_evolves.
  - apply block_controller_evolves.
  - apply quietly_evolves, create_door_evolves.
  - apply quietly_evolves, grant_permission_evolves.
  - apply quietly_evolves, create_admin_evolves.
  - apply quietly_evolves, issue_code_evolves.
Qed.

(** The worlds any interleaving of the tasks can reach. *)
Definition reaches (tasks : list task) (w w' : World) : Prop :=
  exists ps, sys_reach evolves (w, start <$> tasks) (w', ps).

Lemma reaches_evolves tasks w w' : reaches tasks w w' -> evolves w w'.
Proof.
  intros [ps Hr]. eapply (guar_reach evolves evolves) in Hr as [H _]; [done|done|].
  apply Forall_fmap, Forall_true. intros t. apply start_evolves.
Qed.

(** A task that runs alone is one of the interleavings. *)
Lemma run_reaches i t tasks w : tasks !! i = Some t -> reaches tasks w (run (start t) w).1.
Proof.
  intros Hi. destruct (run (start t) w) as [w' o] eqn:E. eexists.
  eapply (run_sys_reach _ i); [|exact E]. by rewrite list_lookup_fmap, Hi.
Qed.

(** The constraints of migration 003 hold at every moment: starting from tables
    that satisfy them, whatever tasks run and however their steps interleave, the
    tables satisfy them again. *)
Theorem schema_holds_in_every_interleaving tasks w w' :
  db_ok (w_db w) -> reaches tasks w w' -> db_ok (w_db w').
Proof. intros Hd Hr%reaches_evolves. by eapply le_ok, Hd; apply ev_db. Qed.

(** C6 History is append only: no interleaving of any tasks changes or removes
    an audit row, forgets a recorded failure, deletes a row of any table or
    moves the clock back. A token keeps its hash, owner, device, family, kind and
    times, an enrolment code its hash, owner and end, and a use or a revocation
    that is on record stays as it is. *)
Theorem history_is_append_only tasks w w' :
  reaches tasks w w' ->
  audit_log (w_db w) `prefix_of` audit_log (w_db w')
  /\ failed_attempts (w_db w) `prefix_of` failed_attempts (w_db w')
  /\ extends (users (w_db w)) (users (w_db w')) /\ extends (devices (w_db w)) (devices (w_db w'))
  /\ extends (controllers (w_db w)) (controllers (w_db w')) /\ extends (doors (w_db w)) (doors (w_db w'))
  /\ extends (permissions (w_db w)) (permissions (w_db w'))
  /\ rows_le token_le (tokens (w_db w)) (tokens (w_db w'))
  /\ rows_le code_le (enrollment_codes (w_db w)) (enrollment_codes (w_db w'))
  /\ w_now w <= w_now w'.
Proof. intros Hr%reaches_evolves. destruct Hr as [Hn [] _]. by split_and!. Qed.

(** C17 A revoked token is dead for good: whatever runs after the revocation, in
    any interleaving, the token opens no session and every endpoint behind the
    session dependency answers it with the one 401 response. *)
Theorem revoked_token_stays_dead {A} tasks w w' id t at_ token authorization (body : Session -> io A) :
  db_ok (w_db w) -> tokens (w_db w) !! id = Some t -> t_revoked_at t = Some at_ ->
  hash_token settings token = OK (t_token_hash t) -> reaches tasks w w' ->
  bearer authorization = Some token ->
  run (with_session settings authorization body) w' = (w', ERR (EHttp unauthorized)).
Proof.
  intros Hd Ht Hrev Hh Hr%reaches_evolves Hb.
  assert (Hdead : denies (run (AuthService.resolve_access_token settings token) w').2)
    by (eapply revoked_is_dead; [exact Hr|exact Hd|exact Ht|congruence|exact Hh]).
  rewrite (run_resolve _ _ _ _ Hh) in Hdead. destruct Hdead as [r Hdead]. cbn [snd] in Hdead.
  unfold with_session, current_session. rewrite Hb, run_bind, run_catch, (run_resolve _ _ _ _ Hh), Hdead. done.
Qed.

(** A used code stays used: once a claim of an enrolment code went through,
    no later claim of it does, whatever runs in between. *)
Theorem used_code_stays_used tasks h w w1 w2 id r :
  db_ok (w_db w) -> run (EnrollmentRepository.claim h) w = (w1, OK (Some (id, r))) -> reaches tasks w1 w2 ->
  (run (EnrollmentRepository.claim h) w2).2 = OK None.
Proof. intros Hd Hr Hev%reaches_evolves. by rewrite (claimed_gone h w w1 w2 id r Hd Hr Hev). Qed.
(** *** The public process *)

(** What the process exposed to the internet runs. *)
Definition is_public (t : task) : bool :=
  match t with
  | ReadAudit _ _ _ _ | VerifyChain _ _ | ListControllers _ | RegisterController _ _ _ _ _ | BlockController _ _ _
  | CreateDoor _ _ _ _ _ _ _ | GrantPermission _ _ _ _ _ _ _ _ | CreateAdmin _ _ _ _ _ | IssueCode _ _ => false
  | _ => true
  end.

(** The worlds any interleaving of the tasks can reach while the environment
    leaves what is administered alone. *)
Definition reaches_unadministered (tasks : list task) (w w' : World) : Prop :=
  exists ps, sys_reach kept (w, start <$> tasks) (w', ps).

Context {TK : TransportQuiet} {WK : WebSocketQuiet}.

(** Of the public tasks only a login, a refresh and an enrolment are not quiet,
    and those are up to the pairs they issue. *)
Lemma public_framed (J : forall A, io A -> Prop) `{!Framed J} t :
  (forall user device, J _ (AuthService.issue_pair settings user device None None)) ->
  (forall token ip, J _ (AuthService.refresh settings token ip)) ->
  is_public t = true -> J _ (start t).
Proof.
  intros Hi Hf Ht.
  assert (Hq : forall A (p : io A), J _ p -> J _ (quietly p)) by (intros A p Hp; apply j_bind; [done|intros a; by apply j_quiet]).
  destruct t; try discriminate Ht; clear Ht; cbn [start].
  - by apply Hq, j_quiet, issue_challenge_quiet.
  - by apply Hq, api_enroll_framed.
  - by apply Hq, api_login_framed.
  - by apply Hq, api_refresh_framed.
  - by apply j_quiet, api_logout_quiet.
  - by apply Hq, j_quiet, list_doors_quiet.
  - by apply Hq, j_quiet, unlock_door_quiet.
  - by apply Hq, j_quiet, access_history_quiet.
  - by apply Hq, j_quiet, ready_quiet.
  - by apply j_quiet, controller_socket_quiet.
  - by apply j_quiet, heartbeat_quiet.
Qed.

Lemma public_kept t : is_public t = true -> guar kept (start t).
Proof.
  apply (public_framed (fun A p => guar kept p)); intros; [apply issue_pair_kept|apply refresh_kept].
Qed.

(** C7 The exposed process cannot administer: whatever requests and controller
    sockets the public API serves, in any interleaving and whatever they answer,
    no grant, no door, no controller's name, keys or block, no user's password
    or role and no enrolment code's terms are created, changed or removed. *)
Theorem public_tasks_cannot_administer tasks w w' :
  Forall (fun t => is_public t = true) tasks -> reaches_unadministered tasks w w' ->
  authority (w_db w') = authority (w_db w).
Proof.
  intros Ht [ps Hr]. eapply (guar_reach kept kept) in Hr as [H _]; [exact H|done|].
  apply Forall_fmap. eapply Forall_impl; [exact Ht|]. intros t. apply public_kept.
Qed.
(** *** One request after the other *)

(** A public task that runs to its end before the next one starts, or a step of
    another process that issues no tokens. *)
Inductive served : World -> World -> Prop :=
| served_task t w : is_public t = true -> served w (run (start t) w).1
| served_calm w w' : calm w w' -> served w w'.

Lemma served_lines limit w w' : no_repeats limit -> rtc served w w' -> lines_ok limit w -> lines_ok limit w'.
Proof.
  intros Hn. induction 1 as [w|w1 w2 w3 [t v Ht|v v' Hc] _ IH]; intros H; [done|apply IH..].
  - destruct (run (start t) v) as [v' o] eqn:E.
    by eapply (public_framed (keeps (lines_ok limit)) t (issue_new_lines settings limit Hn) (refresh_lines settings limit) Ht).
  - by eapply calm_lines.
Qed.

(** C21 One refresh token per session: as long as the random source repeats no
    identifier, the public API that serves its requests one after the other keeps
    at most one refresh token of every family that still works, through any
    logins, refreshes, enrolments and everything else it serves. *)
Theorem one_refresh_token_per_family limit w w' :
  no_repeats limit -> single_line (w_db w) -> families_drawn w ->
  rtc served w w' -> (w_draws w' <= limit)%nat -> single_line (w_db w').
Proof. intros Hn Hs Hf Hr Hl. by apply (served_lines limit w w'). Qed.
End backend.

(** ** Witnesses *)

#[local] Existing Instances demo_entropy demo_postgres demo_argon2 demo_ed25519 demo_repr demo_x509 demo_transport
  demo_websocket demo_websocket_evolves.
#[local] Instance demo_socket : SignerSocket := served_by demo_service.
#[local] Instance demo_transport_evolves : TransportEvolves.
Proof. intros s t w. reflexivity. Qed.

Definition demo_login_task : task := Login demo_direct §"alice" §"secret" demo_device.
Definition demo_tasks : list task := [ControllerSocket None (Some §"[]") []; demo_login_task; Ready].
Definition demo_after (w : World) : World := (run (start demo_settings demo_login_task) w).1.

Lemma demo_reaches w : reaches demo_settings demo_tasks w (demo_after w).
Proof. by apply (run_reaches demo_settings 1). Qed.

Lemma schema_holds_in_every_interleaving_witness : db_ok (w_db demo_account) /\ db_ok (w_db (demo_after demo_account)).
Proof.
  split; [exact demo_account_ok|].
  exact (schema_holds_in_every_interleaving demo_settings demo_tasks _ _ demo_account_ok (demo_reaches demo_account)).
Defined.

Lemma history_is_append_only_witness :
  audit_log (w_db demo_account) `prefix_of` audit_log (w_db (demo_after demo_account)).
Proof. exact (proj1 (history_is_append_only demo_settings demo_tasks _ _ (demo_reaches demo_account))). Defined.

(** The session of the demonstration, logged out. *)
Definition demo_header : option pystr := Some (§"Bearer " ++ it_access_token demo_pair).
Definition demo_logged_out : World := (run (start demo_settings (Logout demo_header demo_direct true)) demo_logged_in).1.
Definition demo_token_row : option (Z * token_row) :=
  match hash_token demo_settings (it_access_token demo_pair) with
  | OK h => fetchrow (fun t => bool_decide (t_token_hash t = h)) (tokens (w_db demo_logged_out))
  | ERR _ => None
  end.

Lemma demo_logged_out_ok : db_ok (w_db demo_logged_out).
Proof.
  eapply le_ok, demo_logged_in_ok. apply ev_db.
  apply (reaches_evolves demo_settings [Logout demo_header demo_direct true]). by apply (run_reaches demo_settings 0).
Qed.

Lemma revoked_token_stays_dead_witness :
  run (list_doors demo_settings demo_header) (demo_after demo_logged_out)
  = (demo_after demo_logged_out, ERR (EHttp unauthorized)).
Proof.
  assert (Hok : match demo_token_row with Some (_, t) => is_some (t_revoked_at t) | None => false end = true)
    by (vm_compute; reflexivity).
  assert (Hb : bearer demo_header = Some (it_access_token demo_pair)) by (vm_compute; reflexivity).
  unfold demo_token_row in Hok.
  destruct (hash_token demo_settings (it_access_token demo_pair)) as [h|e] eqn:Eh; [|discriminate Hok].
  destruct (fetchrow _ _) as [[id t]|] eqn:Ef; [|discriminate Hok]. apply fetchrow_some in Ef as [Ht Hh].
  apply bool_decide_eq_true_1 in Hh. destruct (t_revoked_at t) as [at_|] eqn:Er; [|discriminate Hok].
  rewrite <- Hh in Eh.
  exact (revoked_token_stays_dead demo_settings demo_tasks _ _ id t at_ _ demo_header _ demo_logged_out_ok Ht Er Eh
    (demo_reaches demo_logged_out) Hb).
Defined.

Lemma used_code_stays_used_witness :
  exists w1 p, run (EnrollmentRepository.claim demo_code_hash) demo_invited = (w1, OK (Some p))
    /\ (run (EnrollmentRepository.claim demo_code_hash) (demo_after w1)).2 = OK None.
Proof.
  assert (Hok : match (run (EnrollmentRepository.claim demo_code_hash) demo_invited).2 with
                OK (Some _) => true | _ => false end = true) by (vm_compute; reflexivity).
  destruct (run (EnrollmentRepository.claim demo_code_hash) demo_invited) as [w1 o] eqn:E. cbn [snd] in Hok.
  destruct o as [[[id r]|]|e]; try discriminate Hok. exists w1, (id, r). split; [exact eq_refl|].
  exact (used_code_stays_used demo_settings demo_tasks demo_code_hash _ _ _ id r demo_invited_ok E (demo_reaches w1)).
Defined.

#[local] Instance demo_transport_quiet : TransportQuiet.
Proof. intros s t w. reflexivity. Qed.
#[local] Instance demo_websocket_quiet : WebSocketQuiet.
Proof. split; intros ? w; reflexivity. Qed.

Lemma public_tasks_cannot_administer_witness :
  authority (w_db (demo_after demo_account)) = authority (w_db demo_account).
Proof.
  assert (Ht : Forall (fun t => is_public t = true) demo_tasks) by (repeat constructor).
  apply (public_tasks_cannot_administer demo_settings demo_tasks _ _ Ht).
  eexists. apply (run_sys_reach kept 1 (start demo_settings demo_login_task) _ _ _ (run (start demo_settings demo_login_task) demo_account).2);
    [reflexivity|]. apply surjective_pairing.
Defined.

(** The draws up to the end of the demonstration's login make different
    identifiers. *)
Definition demo_limit : nat := w_draws (demo_after demo_account).

Lemma demo_no_repeats : no_repeats demo_limit.
Proof. apply no_repeats_checked. vm_compute. reflexivity. Qed.

Lemma one_refresh_token_per_family_witness :
  single_line (w_db (demo_after demo_account)) /\ size (tokens (w_db (demo_after demo_account))) = 2%nat.
Proof.
  assert (He : tokens (w_db demo_account) = ∅) by (vm_compute; reflexivity).
  split; [|vm_compute; reflexivity].
  apply (one_refresh_token_per_family demo_settings demo_limit demo_account _ demo_no_repeats).
  - intros id1 t1 id2 t2 H1. rewrite He in H1. discriminate H1.
  - intros id t H1. rewrite He in H1. discriminate H1.
  - eapply rtc_once. exact (served_task demo_settings demo_login_task demo_account eq_refl).
  - apply Nat.le_refl.
Defined.
