(* ===== verification/Roles.v ===== *)
(** * The database roles: what the grants of the migrations allow

    The privileges of the service roles as the migrations build them
    ([db/migrations/002] to [006]): objects, access control lists, default
    privileges and the triggers that refuse a change, one [ddl] value per
    statement, executed in order by [apply].  Partitions of the audit log that
    are created later ([ensure_audit_partition]) are further steps of the
    catalog.  A step of the backend is [within] a role when every change of a
    table is one the role may make. *)

From stdpp Require Import relations.
From S2P Require Import Prelude Text Sha256 Clock Json Config Ip Errors Proc World Demo AuditLog Repos Schema Signer Security Proximity RateLimit Hub Evolve Auth Unlock Der Attestation Enrollment Api ControllerWs Scripts Surface Family Backend.

(** ** Roles, objects, privileges *)

(* @src backend/db/migrations/001_roles.sql 28-38 acs_migrate, acs_app, acs_audit *)
Inductive role := acs_migrate | acs_app | acs_audit.
Inductive grantee := PUBLIC | To (r : role).

(** [t_partition m] is the partition of the month with the number [m]. *)
Inductive table :=
| t_schema_migrations | t_users | t_devices | t_enrollment_codes | t_controllers | t_doors | t_permissions
| t_tokens | t_failed_attempts | t_audit_log | t_partition (month : Z).
Inductive routine :=
| f_audit_chain_lock_key | f_audit_genesis_hash | f_audit_payload | f_deny_mutation | f_deny_truncate
| f_audit_hash_chain | f_verify_audit_chain | f_audit_chain_head | f_ensure_audit_partition
| f_ensure_audit_partitions_ahead.
Inductive object :=
| Schema | Table (t : table) | Audit_seq | Failed_attempts_id_seq | Routine (f : routine).
Inductive privilege := SELECT | INSERT | UPDATE | DELETE | TRUNCATE | USAGE | EXECUTE | CREATE.
Inductive kind := TABLES | SEQUENCES | FUNCTIONS.

#[global] Instance role_eq_dec : EqDecision role. Proof. solve_decision. Defined.
#[global] Instance grantee_eq_dec : EqDecision grantee. Proof. solve_decision. Defined.
#[global] Instance table_eq_dec : EqDecision table. Proof. solve_decision. Defined.
#[global] Instance routine_eq_dec : EqDecision routine. Proof. solve_decision. Defined.
#[global] Instance object_eq_dec : EqDecision object. Proof. solve_decision. Defined.
#[global] Instance privilege_eq_dec : EqDecision privilege. Proof. solve_decision. Defined.
#[global] Instance kind_eq_dec : EqDecision kind. Proof. solve_decision. Defined.

Definition kind_of (o : object) : option kind :=
  match o with
  | Schema => None
  | Table _ => Some TABLES
  | Audit_seq | Failed_attempts_id_seq => Some SEQUENCES
  | Routine _ => Some FUNCTIONS
  end.

Record Catalog := {
  cat_objects : list object;
  cat_acl : list (grantee * object * privilege);
  cat_defaults : list (grantee * kind * privilege);
  cat_refused : list (table * privilege)  (* triggers that raise *)
}.

Definition empty_catalog : Catalog := {| cat_objects := []; cat_acl := []; cat_defaults := []; cat_refused := [] |}.

Definition with_acl (l : list (grantee * object * privilege)) (c : Catalog) : Catalog := {|
  cat_objects := cat_objects c; cat_acl := l; cat_defaults := cat_defaults c; cat_refused := cat_refused c |}.
Definition with_defaults (l : list (grantee * kind * privilege)) (c : Catalog) : Catalog := {|
  cat_objects := cat_objects c; cat_acl := cat_acl c; cat_defaults := l; cat_refused := cat_refused c |}.
Definition with_refused (l : list (table * privilege)) (c : Catalog) : Catalog := {|
  cat_objects := cat_objects c; cat_acl := cat_acl c; cat_defaults := cat_defaults c; cat_refused := l |}.

(** ** Statements *)

Inductive target := These (os : list object) | All (k : kind).

Inductive ddl :=
| Create (o : object)
| CreateTrigger (t : table) (p : privilege)
| Grant (ps : list privilege) (on : target) (gs : list grantee)
| Revoke (ps : list privilege) (on : target) (gs : list grantee)
| DefaultGrant (ps : list privilege) (k : kind) (gs : list grantee)
| DefaultRevoke (ps : list privilege) (k : kind) (gs : list grantee).

Definition exists_in_catalog (c : Catalog) (o : object) : bool := bool_decide (o ∈ cat_objects c).

Definition targets (c : Catalog) (on : target) : list object :=
  match on with
  | These os => os
  | All k => filter (fun o => kind_of o = Some k) (cat_objects c)
  end.

Definition entries {A} (ps : list privilege) (xs : list A) (gs : list grantee) : list (grantee * A * privilege) :=
  g ← gs; x ← xs; p ← ps; [(g, x, p)].

(** What a new object comes with: the default privileges of its kind, and for a
    function the right of everyone to call it. *)
Definition defaults_for (c : Catalog) (o : object) : list (grantee * object * privilege) :=
  match kind_of o with
  | Some FUNCTIONS => [(PUBLIC, o, EXECUTE)]
  | _ => []
  end
  ++ (d ← cat_defaults c; if decide (kind_of o = Some d.1.2) then [(d.1.1, o, d.2)] else []).

(** A row trigger of a partitioned table is one of each of its partitions, of
    the present and of the later ones. *)
Definition row_level (p : privilege) : bool := bool_decide (p = UPDATE \/ p = DELETE).
Definition is_partition (o : object) : option table :=
  match o with Table (t_partition m) => Some (t_partition m) | _ => None end.
Definition inherited (c : Catalog) (o : object) : list (table * privilege) :=
  match is_partition o with
  | Some t => (q ← cat_refused c; if decide (q.1 = t_audit_log /\ row_level q.2 = true) then [(t, q.2)] else [])
  | None => []
  end.

Definition exec (c : Catalog) (s : ddl) : Catalog :=
  match s with
  | Create o => {| cat_objects := cat_objects c ++ [o]; cat_acl := cat_acl c ++ defaults_for c o;
                   cat_defaults := cat_defaults c; cat_refused := cat_refused c ++ inherited c o |}
  | CreateTrigger t p =>
      let parts := if decide (t = t_audit_log /\ row_level p = true) then omap is_partition (cat_objects c) else [] in
      with_refused (cat_refused c ++ map (fun t => (t, p)) (t :: parts)) c
  | Grant ps on gs => with_acl (cat_acl c ++ entries ps (targets c on) gs) c
  | Revoke ps on gs => with_acl (filter (fun e => e ∉ entries ps (targets c on) gs) (cat_acl c)) c
  | DefaultGrant ps k gs => with_defaults (cat_defaults c ++ entries ps [k] gs) c
  | DefaultRevoke ps k gs => with_defaults (filter (fun e => e ∉ entries ps [k] gs) (cat_defaults c)) c
  end.

Definition apply (l : list ddl) (c : Catalog) : Catalog := fold_left exec l c.

Definition ALL : list privilege := [SELECT; INSERT; UPDATE; DELETE; TRUNCATE; USAGE; EXECUTE; CREATE].

(** ** The migrations *)

(* @src backend/db/migrations/002_schema.sql 11 acs *)
Definition schema_002 : list ddl := [Create Schema; Create (Table t_schema_migrations)].

Definition core_tables : list table :=
  [t_users; t_devices; t_enrollment_codes; t_controllers; t_doors; t_permissions; t_tokens].

Definition core_003 : list ddl :=
  map (fun t => Create (Table t)) core_tables ++ [Create (Table t_failed_attempts); Create Failed_attempts_id_seq].

Definition audit_log_004 : list ddl :=
  [Create Audit_seq; Create (Table t_audit_log);
   Create (Routine f_ensure_audit_partition); Create (Routine f_ensure_audit_partitions_ahead)].

(* @src backend/db/migrations/004_audit_log.sql 64-94 acs.ensure_audit_partition *)
Definition ensure_audit_partition (month : Z) (c : Catalog) : Catalog :=
  let p := Table (t_partition month) in
  if exists_in_catalog c p then c
  else apply [Create p; CreateTrigger (t_partition month) TRUNCATE;
              Revoke [UPDATE; DELETE; TRUNCATE] (These [p]) [PUBLIC];
              Grant [SELECT; INSERT] (These [p]) [To acs_app; To acs_audit]] c.

(* @src backend/db/migrations/004_audit_log.sql 102-113 acs.ensure_audit_partitions_ahead *)
Definition ensure_audit_partitions_ahead (current : Z) (p_months : Z) (c : Catalog) : Catalog :=
  fold_left (fun c i => ensure_audit_partition (current + Z.of_nat i) c) (seq 0 (S (Z.to_nat (Z.max (p_months - 1) 0)))) c.

(* @src backend/db/migrations/005_audit_chain.sql 139-149 triggers *)
Definition chain_005 : list ddl :=
  map (fun f => Create (Routine f))
    [f_audit_chain_lock_key; f_audit_genesis_hash; f_audit_payload; f_deny_mutation; f_deny_truncate; f_audit_hash_chain]
  ++ [Revoke ALL (These [Routine f_audit_hash_chain]) [PUBLIC];
      CreateTrigger t_audit_log UPDATE; CreateTrigger t_audit_log DELETE;
      Create (Routine f_verify_audit_chain); Create (Routine f_audit_chain_head)].

Definition service_roles : list grantee := [To acs_app; To acs_audit].

(* @src backend/db/migrations/006_grants.sql 16-83 grants *)
Definition grants_006 : list ddl := [
  Revoke ALL (These [Schema]) [PUBLIC];
  Grant [USAGE] (These [Schema]) service_roles;
  Revoke ALL (All TABLES) [PUBLIC];
  Revoke ALL (All SEQUENCES) [PUBLIC];
  Revoke ALL (All FUNCTIONS) [PUBLIC];
  Grant [SELECT; INSERT; UPDATE] (These (map Table core_tables)) [To acs_app];
  Grant [SELECT; INSERT] (These [Table t_failed_attempts]) [To acs_app];
  Grant [USAGE] (These [Failed_attempts_id_seq]) [To acs_app];
  Grant [SELECT; INSERT] (These [Table t_audit_log]) [To acs_app];
  Grant [USAGE] (These [Audit_seq]) [To acs_app];
  Grant [EXECUTE] (These [Routine f_audit_genesis_hash]) service_roles;
  Grant [EXECUTE] (These [Routine f_audit_chain_lock_key]) service_roles;
  Grant [EXECUTE] (These [Routine f_audit_payload]) service_roles;
  Grant [EXECUTE] (These [Routine f_verify_audit_chain]) [To acs_app];
  Grant [EXECUTE] (These [Routine f_audit_chain_head]) [To acs_app];
  Grant [EXECUTE] (These [Routine f_ensure_audit_partition]) [To acs_app];
  Grant [EXECUTE] (These [Routine f_ensure_audit_partitions_ahead]) [To acs_app];
  Grant [SELECT; INSERT] (These [Table t_audit_log]) [To acs_audit];
  Grant [USAGE] (These [Audit_seq]) [To acs_audit];
  Grant [EXECUTE] (These [Routine f_verify_audit_chain]) [To acs_audit];
  Grant [EXECUTE] (These [Routine f_audit_chain_head]) [To acs_audit];
  Grant [EXECUTE] (These [Routine f_ensure_audit_partition]) [To acs_audit];
  Grant [EXECUTE] (These [Routine f_ensure_audit_partitions_ahead]) [To acs_audit];
  Revoke [UPDATE; DELETE; TRUNCATE] (These [Table t_audit_log]) service_roles;
  Revoke [DELETE] (All TABLES) service_roles;
  Revoke [TRUNCATE] (All TABLES) service_roles;
  DefaultRevoke ALL TABLES [PUBLIC];
  DefaultGrant [SELECT; INSERT; UPDATE] TABLES [To acs_app];
  DefaultGrant [USAGE] SEQUENCES service_roles
].

(** The catalog after [apply.sh] on an empty database; months are counted from
    that one. *)
Definition migrated : Catalog :=
  apply grants_006
    (ensure_audit_partitions_ahead 0 2
      (apply (schema_002 ++ core_003 ++ audit_log_004 ++ chain_005) empty_catalog)).

(** ... and after any number of calls of [ensure_audit_partition], which the
    cron job makes as the owner, and the insert trigger with the owner's
    rights. *)
Definition ages (c c' : Catalog) : Prop := exists month, c' = ensure_audit_partition month c.
Definition in_use (c : Catalog) : Prop := rtc ages migrated c.

(** ** What a role may do *)

Definition holds (c : Catalog) (g : grantee) (o : object) (p : privilege) : bool := bool_decide ((g, o, p) ∈ cat_acl c).

(** The owner of the schema needs no grant. *)
Definition allowed (c : Catalog) (r : role) (o : object) (p : privilege) : bool :=
  bool_decide (r = acs_migrate) || holds c PUBLIC o p || holds c (To r) o p.

(** A [TRUNCATE] of the log truncates its partitions. *)
Definition refused (c : Catalog) (p : privilege) (t : table) : bool :=
  bool_decide ((t, p) ∈ cat_refused c)
  || bool_decide (t = t_audit_log /\ p = TRUNCATE) && existsb (fun q => bool_decide (q.2 = TRUNCATE)) (cat_refused c).

Inductive verdict := executed | permission_denied | restrict_violation.
#[global] Instance verdict_eq_dec : EqDecision verdict. Proof. solve_decision. Defined.

(** A role's statement that concerns at least one row of an existing table. *)
Definition attempt (c : Catalog) (r : role) (p : privilege) (t : table) : verdict :=
  if negb (allowed c r Schema USAGE && allowed c r (Table t) p) then permission_denied
  else if refused c p t then restrict_violation else executed.

(** ** The catalog over time *)

Lemma elem_of_entries {A} ps (xs : list A) gs g x p :
  (g, x, p) ∈ entries ps xs gs <-> g ∈ gs /\ x ∈ xs /\ p ∈ ps.
Proof.
  unfold entries. rewrite list_elem_of_bind. setoid_rewrite list_elem_of_bind. setoid_rewrite list_elem_of_bind.
  setoid_rewrite list_elem_of_singleton. naive_solver.
Qed.

(** What [ensure_audit_partition] does with an entry. *)
Lemma acl_ensure c m e : exists_in_catalog c (Table (t_partition m)) = false ->
  e ∈ cat_acl (ensure_audit_partition m c) <->
    (e ∈ cat_acl c \/ e ∈ defaults_for c (Table (t_partition m)))
      /\ e ∉ entries [UPDATE; DELETE; TRUNCATE] [Table (t_partition m)] [PUBLIC]
    \/ e ∈ entries [SELECT; INSERT] [Table (t_partition m)] [To acs_app; To acs_audit].
Proof.
  intros Hm. unfold ensure_audit_partition. rewrite Hm. cbn -[entries defaults_for].
  rewrite elem_of_app, list_elem_of_filter, elem_of_app. tauto.
Qed.

(** The privileges on a partition: the two that are granted, and for one that was
    created after the default privileges were set, [UPDATE] of [acs_app]. *)
Definition on_partition (m : Z) (g : grantee) (p : privilege) : Prop :=
  (g = To acs_app \/ g = To acs_audit) /\ (p = SELECT \/ p = INSERT) \/ g = To acs_app /\ p = UPDATE /\ ~ 0 <= m <= 1.

(** What holds of every catalog in use. *)
Record usual (c : Catalog) : Prop := {
  us_defaults : cat_defaults c = cat_defaults migrated;
  us_others g o p : is_partition o = None -> (g, o, p) ∈ cat_acl c <-> (g, o, p) ∈ cat_acl migrated;
  us_partitions m g p : (g, Table (t_partition m), p) ∈ cat_acl c
    <-> Table (t_partition m) ∈ cat_objects c /\ on_partition m g p;
  us_first m : 0 <= m <= 1 -> Table (t_partition m) ∈ cat_objects c;
  us_triggers m p : Table (t_partition m) ∈ cat_objects c -> row_level p = true \/ p = TRUNCATE ->
    (t_partition m, p) ∈ cat_refused c;
  us_quiet t p : is_partition (Table t) = None -> (t, p) ∈ cat_refused c <-> (t, p) ∈ cat_refused migrated
}.

(** The lists of the catalog that is installed, computed once. *)
Lemma migrated_partition m : Table (t_partition m) ∈ cat_objects migrated <-> 0 <= m <= 1.
Proof.
  split.
  - intros H. let l := eval vm_compute in (cat_objects migrated) in change (Table (t_partition m) ∈ l) in H.
    rewrite !elem_of_cons, elem_of_nil in H. destruct_or?; simplify_eq; lia.
  - intros H. assert (m = 0 \/ m = 1) as [-> | ->] by lia; by apply (bool_decide_unpack _); vm_compute.
Qed.

Lemma migrated_entry g m p : (g, Table (t_partition m), p) ∈ cat_acl migrated
  <-> (g = To acs_app \/ g = To acs_audit) /\ (p = SELECT \/ p = INSERT) /\ 0 <= m <= 1.
Proof.
  split.
  - intros H. let l := eval vm_compute in (cat_acl migrated) in change ((g, Table (t_partition m), p) ∈ l) in H.
    rewrite !elem_of_cons, elem_of_nil in H. destruct_or?; simplify_eq; split_and!; auto; lia.
  - intros (Hg & Hp & Hm). assert (m = 0 \/ m = 1) as [-> | ->] by lia;
      destruct_or?; subst; by apply (bool_decide_unpack _); vm_compute.
Qed.

Lemma migrated_trigger t p : (t, p) ∈ cat_refused migrated
  <-> t = t_audit_log /\ row_level p = true
      \/ (t = t_partition 0 \/ t = t_partition 1) /\ (row_level p = true \/ p = TRUNCATE).
Proof.
  split.
  - intros H. let l := eval vm_compute in (cat_refused migrated) in change ((t, p) ∈ l) in H.
    rewrite !elem_of_cons, elem_of_nil in H. destruct_or?; simplify_eq; auto.
  - intros H. unfold row_level in H. rewrite bool_decide_eq_true in H.
    destruct_or?; destruct_and?; destruct_or?; subst; by apply (bool_decide_unpack _); vm_compute.
Qed.

Lemma usual_migrated : usual migrated.
Proof.
  split; [done..| | | |done].
  - intros m g p. rewrite migrated_entry, migrated_partition. unfold on_partition. naive_solver lia.
  - intros m Hm. by apply migrated_partition.
  - intros m p Hm Hp. apply migrated_partition in Hm. apply migrated_trigger.
    assert (m = 0 \/ m = 1) as [-> | ->] by lia; auto.
Qed.

Lemma acl_ensured c m e : usual c -> exists_in_catalog c (Table (t_partition m)) = false ->
  e ∈ cat_acl (ensure_audit_partition m c) <->
    e ∈ cat_acl c \/ exists g p, e = (g, Table (t_partition m), p)
      /\ ((g = To acs_app \/ g = To acs_audit) /\ (p = SELECT \/ p = INSERT) \/ g = To acs_app /\ p = UPDATE).
Proof.
  intros U Hm. rewrite acl_ensure by done. destruct e as [[g o] p]. rewrite !elem_of_entries.
  assert (Hd : defaults_for c (Table (t_partition m)) = entries [SELECT; INSERT; UPDATE] [Table (t_partition m)] [To acs_app])
    by (unfold defaults_for; rewrite (us_defaults c U); reflexivity).
  rewrite Hd, elem_of_entries, !elem_of_cons, !elem_of_nil.
  assert (Hn : (PUBLIC, Table (t_partition m), p) ∉ cat_acl c).
  { rewrite (us_partitions c U). unfold on_partition. naive_solver. }
  destruct (decide (o = Table (t_partition m))) as [->|Ho]; [|naive_solver]. destruct g; naive_solver.
Qed.

Lemma us_log c p : usual c -> row_level p = true -> (t_audit_log, p) ∈ cat_refused c.
Proof. intros U Hp. apply (us_quiet c U); [done|]. apply migrated_trigger. auto. Qed.

Lemma usual_ensure c m : usual c -> usual (ensure_audit_partition m c).
Proof.
  intros U. destruct (exists_in_catalog c (Table (t_partition m))) eqn:Hm.
  { unfold ensure_audit_partition. by rewrite Hm. }
  pose proof (fun e => acl_ensured c m e U Hm) as Ha.
  assert (Hobj : cat_objects (ensure_audit_partition m c) = cat_objects c ++ [Table (t_partition m)])
    by (unfold ensure_audit_partition; by rewrite Hm).
  assert (Href : cat_refused (ensure_audit_partition m c)
                 = (cat_refused c ++ inherited c (Table (t_partition m))) ++ [(t_partition m, TRUNCATE)])
    by (unfold ensure_audit_partition; by rewrite Hm).
  assert (Hinh : forall t p, (t, p) ∈ inherited c (Table (t_partition m)) <-> t = t_partition m /\ row_level p = true).
  { intros t p. unfold inherited. cbn. rewrite list_elem_of_bind. split.
    - intros ([t' p'] & Hin & _). case_decide; cbn in *; [|by apply elem_of_nil in Hin].
      apply list_elem_of_singleton in Hin. naive_solver.
    - intros [-> Hp]. exists (t_audit_log, p). split; [|by apply us_log]. cbn.
      rewrite decide_True by done. by apply list_elem_of_singleton. }
  unfold exists_in_catalog in Hm. apply bool_decide_eq_false in Hm.
  assert (Hfirst : ~ 0 <= m <= 1) by (intros H; by apply Hm, (us_first c U)).
  split.
  - rewrite <- (us_defaults c U). unfold ensure_audit_partition. by case_match.
  - intros g o p Ho. rewrite Ha, <- (us_others c U) by done. naive_solver.
  - intros m' g p. rewrite Ha, (us_partitions c U), Hobj, elem_of_app, list_elem_of_singleton. unfold on_partition.
    naive_solver.
  - intros m' H. rewrite Hobj, elem_of_app. left. by apply (us_first c U).
  - intros m' p Hm' Hp. rewrite Href, !elem_of_app, Hinh, list_elem_of_singleton.
    rewrite Hobj, elem_of_app, list_elem_of_singleton in Hm'. destruct Hm' as [Hm'|[= ->]].
    + left. left. by apply (us_triggers c U).
    + destruct Hp as [Hp | ->]; auto.
  - intros t p Ht. rewrite Href, !elem_of_app, Hinh, list_elem_of_singleton, <- (us_quiet c U) by done. naive_solver.
Qed.

Lemma in_use_usual c : in_use c -> usual c.
Proof.
  intros H. unfold in_use in H. remember migrated as c0 eqn:E. assert (U : usual c0) by (subst; apply usual_migrated).
  clear E. induction H as [|c0 c1 c2 [m ->] _ IH]; [done|]. by apply IH, usual_ensure.
Qed.

Lemma allowed_other c r o p : in_use c -> is_partition o = None -> allowed c r o p = allowed migrated r o p.
Proof.
  intros U%in_use_usual Ho. unfold allowed, holds. f_equal; [f_equal|]; apply bool_decide_ext, (us_others c U), Ho.
Qed.

Lemma allowed_partition c r m p : in_use c -> Table (t_partition m) ∈ cat_objects c ->
  allowed c r (Table (t_partition m)) p = true <-> r = acs_migrate \/ on_partition m (To r) p.
Proof.
  intros U%in_use_usual Hm. unfold allowed, holds.
  rewrite !orb_true_iff, !bool_decide_eq_true, !(us_partitions c U). unfold on_partition. naive_solver.
Qed.

(** The tables of the audit log: the partitioned one and its partitions. *)
Definition audit_table (c : Catalog) (t : table) : Prop :=
  t = t_audit_log \/ exists m, t = t_partition m /\ Table t ∈ cat_objects c.

Lemma audit_tables_refuse c t p : in_use c -> audit_table c t -> row_level p = true \/ p = TRUNCATE ->
  refused c p t = true.
Proof.
  intros U%in_use_usual Ht Hp. unfold refused. rewrite orb_true_iff, andb_true_iff, !bool_decide_eq_true.
  destruct Ht as [->|(m & -> & Hm)]; [|left; by apply (us_triggers c U)].
  destruct Hp as [Hp | ->]; [left; by apply (us_log)|right]. split; [done|].
  assert (H : (t_partition 0, TRUNCATE) ∈ cat_refused c) by (apply (us_triggers c U); [by apply (us_first c U)|by right]).
  apply existsb_exists. exists (t_partition 0, TRUNCATE). split; [by apply list_elem_of_In|done].
Qed.

(** C27 The rows of the audit log are out of everyone's reach, the owner's included,
    however many partitions have been created: a change, a removal and a
    truncation are refused on the log and on each partition. The trigger does it:
    the privilege to update is missing for the service roles on the log and on the
    two partitions that the migration created, but [acs_app] has it, by the
    default privileges, on every partition created after them. *)
Theorem audit_rows_are_out_of_reach c t p r : in_use c -> audit_table c t -> p = UPDATE \/ p = DELETE \/ p = TRUNCATE ->
  attempt c r p t <> executed
  /\ (attempt c r p t = restrict_violation
      <-> r = acs_migrate \/ r = acs_app /\ p = UPDATE /\ exists m, t = t_partition m /\ ~ 0 <= m <= 1).
Proof.
  intros U Ht Hp. unfold attempt. rewrite (audit_tables_refuse c t p U Ht) by (destruct_or?; subst; auto).
  split; [by destruct (_ && _)|].
  assert (Hs : allowed c r Schema USAGE = true) by (rewrite allowed_other by done; by destruct r).
  rewrite Hs. cbn [andb]. transitivity (allowed c r (Table t) p = true).
  { destruct (allowed c r (Table t) p); cbn; naive_solver. }
  destruct Ht as [->|(m & -> & Hm)].
  - rewrite allowed_other by done. transitivity (r = acs_migrate); [|naive_solver].
    destruct r, Hp as [->|[-> | ->]]; vm_compute; split; congruence.
  - rewrite allowed_partition by done. unfold on_partition. naive_solver.
Qed.

(** No service role can delete or truncate, whatever the table. *)
Theorem service_roles_never_delete c r t p : in_use c -> r <> acs_migrate -> p = DELETE \/ p = TRUNCATE ->
  allowed c r (Table t) p = false.
Proof.
  intros U Hr Hp. destruct (is_partition (Table t)) as [t'|] eqn:Ht.
  - destruct t; try discriminate Ht. apply not_true_iff_false. unfold allowed, holds.
    rewrite !orb_true_iff, !bool_decide_eq_true, !(us_partitions c (in_use_usual c U)). unfold on_partition.
    destruct Hp; naive_solver.
  - rewrite allowed_other by done.
    destruct t; try discriminate Ht; destruct r; try congruence; destruct Hp as [-> | ->]; vm_compute; reflexivity.
Qed.

(** ** The steps of the backend under a role *)

(** Every change of a table is one that is executed. *)
Definition changes_covered {A} (may : privilege -> verdict) (m m' : gmap Z A) : Prop :=
  forall k, match m !! k, m' !! k with
            | None, None => True
            | None, Some _ => may INSERT = executed
            | Some _, None => may DELETE = executed
            | Some x, Some y => x = y \/ may UPDATE = executed
            end.
Definition lines_covered {A} (may : privilege -> verdict) (l l' : list A) : Prop :=
  l' = l \/ may INSERT = executed /\ l `prefix_of` l' \/ may UPDATE = executed \/ may DELETE = executed.

Record covered (may : privilege -> table -> verdict) (d d' : Db) : Prop := {
  co_users : changes_covered (fun p => may p t_users) (users d) (users d');
  co_devices : changes_covered (fun p => may p t_devices) (devices d) (devices d');
  co_codes : changes_covered (fun p => may p t_enrollment_codes) (enrollment_codes d) (enrollment_codes d');
  co_controllers : changes_covered (fun p => may p t_controllers) (controllers d) (controllers d');
  co_doors : changes_covered (fun p => may p t_doors) (doors d) (doors d');
  co_permissions : changes_covered (fun p => may p t_permissions) (permissions d) (permissions d');
  co_tokens : changes_covered (fun p => may p t_tokens) (tokens d) (tokens d');
  co_failures : lines_covered (fun p => may p t_failed_attempts) (failed_attempts d) (failed_attempts d');
  co_log : lines_covered (fun p => may p t_audit_log) (audit_log d) (audit_log d')
}.

(** The change from [w] to [w'] is one that [r] may make. *)
Definition within (c : Catalog) (r : role) (w w' : World) : Prop := covered (attempt c r) (w_db w) (w_db w').

Lemma changes_extended {A} may (m m' : gmap Z A) :
  may INSERT = executed -> may UPDATE = executed -> (forall k, is_Some (m !! k) -> is_Some (m' !! k)) ->
  changes_covered may m m'.
Proof.
  intros Hi Hu Hm k. specialize (Hm k). destruct (m !! k) as [x|]; [|by destruct (m' !! k)].
  destruct Hm as [y ->]; [by eexists|]. by right.
Qed.

Lemma rows_le_dom {A} (R : A -> A -> Prop) m m' : rows_le R m m' -> forall k, is_Some (m !! k) -> is_Some (m' !! k).
Proof. intros H k [x Hx]. destruct (H k x Hx) as (y & Hy & _). by exists y. Qed.

(** On the tables that are not partitions the roles can do what they could on the
    day of the installation. *)
Lemma attempt_other c r p t : in_use c -> is_partition (Table t) = None -> attempt c r p t = attempt migrated r p t.
Proof.
  intros U Ht. unfold attempt. rewrite !(allowed_other c) by done.
  assert (Hr : refused c p t = refused migrated p t); [|by rewrite Hr].
  unfold refused. f_equal; [apply bool_decide_ext, us_quiet; [by apply in_use_usual|done]|].
  destruct (decide (t = t_audit_log /\ p = TRUNCATE)) as [[-> ->]|Hn]; [|by rewrite bool_decide_eq_false_2].
  cbn [andb bool_decide]. pose proof (audit_tables_refuse c t_audit_log TRUNCATE U (or_introl eq_refl) (or_intror eq_refl)) as H.
  revert H. unfold refused. rewrite (bool_decide_eq_false_2 ((t_audit_log, TRUNCATE) ∈ cat_refused c)).
  - cbn [orb]. intros ->. reflexivity.
  - rewrite (us_quiet c) by (done || by apply in_use_usual). apply (bool_decide_unpack _). by vm_compute.
Qed.

(** Whatever evolves the world is within the rights of [acs_app]. *)
Lemma evolves_within c w w' : in_use c -> evolves w w' -> within c acs_app w w'.
Proof.
  intros U [_ Hd _]. destruct Hd.
  split; try (apply changes_extended; [by rewrite attempt_other..|]; by eauto using rows_le_dom);
    right; left; (split; [by rewrite attempt_other|done]).
Qed.

(** A role with no right to change anything but to add to the log. *)
Lemma covered_log_only may d d' : covered may d d' ->
  (forall p t, is_partition (Table t) = None -> t <> t_audit_log -> may p t <> executed) ->
  may UPDATE t_audit_log <> executed -> may DELETE t_audit_log <> executed ->
  with_audit [] (with_audit_seq 0 d') = with_audit [] (with_audit_seq 0 d) /\ audit_log d `prefix_of` audit_log d'.
Proof.
  intros [H1 H2 H3 H4 H5 H6 H7 H8 H9] Hno Hu Hd.
  assert (Hrows : forall A (m m' : gmap Z A) t, is_partition (Table t) = None -> t <> t_audit_log ->
    changes_covered (fun p => may p t) m m' -> m' = m).
  { intros A m m' t Ht Hlog Hm. apply map_eq. intros k. specialize (Hm k).
    destruct (m !! k), (m' !! k); try done; [destruct Hm as [->|Hm]; [done|]|..]; by apply Hno in Hm. }
  apply Hrows in H1, H2, H3, H4, H5, H6, H7; try done. split.
  - destruct H8 as [H8|[[H8 _]|[H8|H8]]]; [|by apply Hno in H8..].
    unfold with_audit, with_audit_seq. cbn. by rewrite H1, H2, H3, H4, H5, H6, H7, H8.
  - destruct H9 as [->|[[_ H9]|[H9|H9]]]; done.
Qed.

Lemma within_acs_audit c w w' : in_use c -> within c acs_audit w w' ->
  with_audit [] (with_audit_seq 0 (w_db w')) = with_audit [] (with_audit_seq 0 (w_db w))
  /\ audit_log (w_db w) `prefix_of` audit_log (w_db w').
Proof.
  intros U H. apply (covered_log_only _ _ _ H).
  - intros p t Ht Hlog. rewrite attempt_other by done. destruct t; try discriminate Ht; try congruence;
      destruct p; vm_compute; discriminate.
  - rewrite attempt_other by done. vm_compute. discriminate.
  - rewrite attempt_other by done. vm_compute. discriminate.
Qed.

Section backend.
Context {EN : Entropy} {PG : Postgres} {AR : Argon2} {ED : Ed25519} {PR : PyRepr} {X5 : X509} {SK : SignerSocket}
  {TR : Transport} {TE : TransportEvolves} {WS : WebSocket} {WE : WebSocketEvolves}
  (settings : Settings).

(** The grants are enough for the backend, and those of [acs_audit] for no more
    than the log: every atomic step of every task, the administration included,
    is within the rights of [acs_app], however many partitions there are; and a
    step within the rights of [acs_audit] changes the stored state only by rows at
    the end of the audit log. *)
Theorem backend_works_as_acs_app c t : in_use c ->
  guar (within c acs_app) (start settings t)
  /\ forall w w', within c acs_audit w w' ->
       with_audit [] (with_audit_seq 0 (w_db w')) = with_audit [] (with_audit_seq 0 (w_db w))
       /\ audit_log (w_db w) `prefix_of` audit_log (w_db w').
Proof.
  intros U. split; [|intros w w'; by apply within_acs_audit].
  eapply guar_impl, start_evolves. intros w w'. by apply evolves_within.
Qed.
End backend.

(** ** What the statements of the repositories need *)

(** A statement per method of [db/repositories/], by its class. *)
Inductive sql :=
| Users_by_username | Users_by_id | Users_create | Users_touch_login | Users_set_active
| Devices_by_id | Devices_for_user | Devices_create | Devices_touch_seen | Devices_block
| Codes_create | Codes_claim | Codes_attach_device
| Controllers_by_code | Controllers_by_id | Controllers_register | Controllers_touch_seen | Controllers_block
| Controllers_list_all
| Doors_by_id | Doors_list_for_user | Doors_create
| Permissions_effective | Permissions_grant | Permissions_revoke
| Tokens_insert | Tokens_lookup | Tokens_mark_used | Tokens_revoke | Tokens_revoke_family | Tokens_revoke_device_sessions
| Limits_record_failure | Limits_failure_count | Limits_unlock_count
| Audit_append | Audit_recent | Audit_for_user | Audit_verify_chain | Audit_head.

(** [SELECT], [INSERT ... RETURNING] and [UPDATE ... WHERE] over columns. *)
Definition reads_from (ts : list table) : list (object * privilege) := map (fun t => (Table t, SELECT)) ts.
Definition inserts_into (t : table) : list (object * privilege) := [(Table t, INSERT); (Table t, SELECT)].
Definition updates (t : table) : list (object * privilege) := [(Table t, UPDATE); (Table t, SELECT)].

(** The privileges a statement is checked for, those of the functions it calls
    included: only [audit_hash_chain] runs with the rights of its owner. *)
Definition needs (q : sql) : list (object * privilege) :=
  (Schema, USAGE) ::
  match q with
  | Users_by_username | Users_by_id => reads_from [t_users]
  | Users_create => inserts_into t_users
  | Users_touch_login | Users_set_active => updates t_users
  | Devices_by_id | Devices_for_user => reads_from [t_devices]
  | Devices_create => inserts_into t_devices
  | Devices_touch_seen | Devices_block => updates t_devices
  | Codes_create => inserts_into t_enrollment_codes
  | Codes_claim | Codes_attach_device => updates t_enrollment_codes
  | Controllers_by_code | Controllers_by_id | Controllers_list_all => reads_from [t_controllers]
  | Controllers_register => inserts_into t_controllers
  | Controllers_touch_seen | Controllers_block => updates t_controllers
  | Doors_by_id => reads_from [t_doors; t_controllers]
  | Doors_list_for_user => reads_from [t_permissions; t_doors; t_controllers]
  | Doors_create => inserts_into t_doors
  | Permissions_effective => reads_from [t_permissions]
  | Permissions_grant => inserts_into t_permissions ++ updates t_permissions
  | Permissions_revoke => updates t_permissions
  | Tokens_insert => inserts_into t_tokens
  | Tokens_lookup => reads_from [t_tokens; t_users; t_devices]
  | Tokens_mark_used | Tokens_revoke | Tokens_revoke_family | Tokens_revoke_device_sessions => updates t_tokens
  | Limits_record_failure => [(Table t_failed_attempts, INSERT)]
  | Limits_failure_count => reads_from [t_failed_attempts]
  | Limits_unlock_count | Audit_recent | Audit_for_user => reads_from [t_audit_log]
  | Audit_append => (Audit_seq, USAGE) :: inserts_into t_audit_log
  | Audit_verify_chain =>
      map (fun f => (Routine f, EXECUTE)) [f_verify_audit_chain; f_audit_genesis_hash; f_audit_payload]
      ++ reads_from [t_audit_log]
  | Audit_head => (Routine f_audit_chain_head, EXECUTE) :: reads_from [t_audit_log]
  end.

Definition granted (c : Catalog) (r : role) (q : sql) : bool := forallb (fun n => allowed c r n.1 n.2) (needs q).

(** The statements over the log alone; all but the count are those of
    [AuditRepository], which is the one on the pool of [audit_dsn]. *)
Definition log_statement (q : sql) : bool :=
  match q with
  | Audit_append | Audit_recent | Audit_for_user | Audit_verify_chain | Audit_head | Limits_unlock_count => true
  | _ => false
  end.

(** Both pools can execute what is sent over them, with one connection string for
    both or with two; and under [acs_audit] nothing but the log can be read, so
    that no request of the administration gets past the lookup of its session
    when [db_dsn] names that role. *)
Theorem pools_execute_their_statements c q : in_use c ->
  granted c acs_app q = true /\ granted c acs_audit q = log_statement q.
Proof.
  intros U.
  assert (H : forall r, granted c r q = granted migrated r q).
  { intros r. assert (Ho : Forall (fun n => is_partition n.1 = None) (needs q)) by (destruct q; repeat constructor).
    unfold granted. induction Ho as [|n l Hn _ IH]; [reflexivity|]. cbn [forallb]. f_equal; [|exact IH].
    exact (allowed_other c r n.1 n.2 U Hn). }
  rewrite !H. destruct q; vm_compute; split; reflexivity.
Qed.

(** ** Witnesses *)

(** Half a year after the installation. *)
Definition demo_catalog : Catalog := ensure_audit_partition 6 migrated.

Lemma demo_in_use : in_use demo_catalog.
Proof. apply rtc_once. by exists 6. Qed.

Lemma audit_rows_are_out_of_reach_witness :
  attempt demo_catalog acs_app UPDATE (t_partition 6) = restrict_violation
  /\ attempt demo_catalog acs_app UPDATE t_audit_log = permission_denied.
Proof.
  assert (Ht : audit_table demo_catalog (t_partition 6))
    by (right; exists 6; split; [reflexivity|]; apply (bool_decide_unpack _); vm_compute; exact I).
  split; [|vm_compute; reflexivity].
  apply (audit_rows_are_out_of_reach demo_catalog (t_partition 6) UPDATE acs_app demo_in_use Ht (or_introl eq_refl)).
  right. split; [reflexivity|]. split; [reflexivity|]. exists 6. split; [reflexivity|lia].
Defined.

Lemma service_roles_never_delete_witness : allowed demo_catalog acs_app (Table (t_partition 6)) DELETE = false.
Proof.
  exact (service_roles_never_delete demo_catalog acs_app (t_partition 6) DELETE demo_in_use ltac:(discriminate) (or_introl eq_refl)).
Defined.

#[local] Existing Instances demo_entropy demo_postgres demo_argon2 demo_ed25519 demo_repr demo_x509 demo_transport
  demo_websocket demo_websocket_evolves.
#[local] Instance roles_socket : SignerSocket := served_by demo_service.
#[local] Instance roles_transport : TransportEvolves.
Proof. intros s t w. reflexivity. Qed.

Lemma backend_works_as_acs_app_witness : guar (within demo_catalog acs_app) (start demo_settings demo_login_task).
Proof. exact (proj1 (backend_works_as_acs_app demo_settings demo_catalog demo_login_task demo_in_use)). Defined.

Lemma pools_execute_their_statements_witness : granted demo_catalog acs_audit Tokens_lookup = false.
Proof. exact (proj2 (pools_execute_their_statements demo_catalog Tokens_lookup demo_in_use)). Defined.
