(* ===== verification/Asked.v ===== *)
(** * Who asks the signer

    Of everything the backend runs only the unlock of a door asks the signer for
    a signature, and only after every check of the request has held.  [silent]
    steps write nothing to the signer's socket; [unlock_told] says of the unlock
    that it is justified by what it has seen ([History]), whatever runs next to
    it; [signature_requests_are_justified] carries that to every interleaving of
    all tasks. *)

From stdpp Require Import relations.
From S2P Require Import Prelude Text Sha256 Clock Json Config Ip Errors Proc History World Demo AuditLog Repos Schema Signer Security Proximity RateLimit Hub Evolve Auth Unlock Der Attestation Enrollment Api ControllerWs Scripts Surface Family Backend.

(** ** Nothing is asked *)

Definition silent (w w' : World) : Prop := w_asked w' = w_asked w.

#[global] Instance silent_preorder : PreOrder silent.
Proof. split; [done|]. intros a b c H1 H2. unfold silent in *. congruence. Qed.

(** A step that computes a world with the same log by definition, whatever it
    branches on. *)
Ltac silent_atomic := apply guar_atomic; intros w; cbn; repeat case_match; simplify_eq; reflexivity.

Create HintDb silent.

Lemma silent_reads {A} (f : World -> A) : guar silent (reads f : io A).
Proof. by apply guar_reads. Qed.
Lemma silent_of_outcome {A} (o : outcome Exn A) : guar silent (of_outcome o : io A).
Proof. by destruct o. Qed.
Lemma silent_query {A} (f : instant -> Db -> A) : guar silent (query f).
Proof. by apply guar_reads. Qed.
Lemma silent_execute (f : instant -> Db -> Db) : guar silent (execute f).
Proof. silent_atomic. Qed.
Lemma silent_insert_row `{EN : Entropy} {A} table put checks (row : instant -> Db -> A) :
  guar silent (insert_row table put checks row).
Proof. silent_atomic. Qed.

#[export] Hint Resolve silent_reads silent_of_outcome silent_query silent_execute silent_insert_row : silent.

Ltac silent_step :=
  first [ solve [auto 1 with silent]
        | done
        | apply guar_bind; [|intros ?]
        | apply guar_finally
        | apply guar_catch; [|let H := fresh in intros ? ? H; repeat case_hyp H; simplify_eq]
        | apply guar_of_option
        | solve [silent_atomic]
        | progress cbv zeta
        | case_match ].
Ltac silent_tac := repeat silent_step.

Class TransportSilent {TR : Transport} := ws_send_silent : forall s t w, silent w (ws_send s t w).1.
Class WebSocketSilent {WS : WebSocket} := {
  ws_text_silent : forall t w, silent w (ws_text t w).1;
  ws_close_silent : forall c w, silent w (ws_close c w).1
}.

Section silence.
Context {EN : Entropy} {PG : Postgres} {AR : Argon2} {PR : PyRepr} {ED : Ed25519} {X5 : X509} {SK : SignerSocket}
  {TR : Transport} {TS : TransportSilent} {WS : WebSocket} {WT : WebSocketSilent} (settings : Settings).

Lemma append_silent event outcome a : guar silent (AuditRepository.append event outcome a).
Proof. unfold AuditRepository.append. silent_tac. Qed.
Lemma send_silent s t : guar silent (send s t).
Proof. apply guar_atomic. intros w. pose proof (ws_send_silent s t w) as H. by destruct (ws_send s t w). Qed.
Lemma deliver_silent f : (forall w, silent w (f w).1) -> guar silent (deliver f).
Proof. intros Hf. apply guar_atomic. intros w. specialize (Hf w). by destruct (f w). Qed.
Lemma text_silent t : guar silent (deliver (ws_text t)).
Proof. apply deliver_silent, ws_text_silent. Qed.
Lemma close_silent c : guar silent (deliver (ws_close c)).
Proof. apply deliver_silent, ws_close_silent. Qed.
#[local] Hint Resolve append_silent send_silent text_silent close_silent : silent.

Lemma send_command_silent code envelope timeout : guar silent (ControllerHub.send_command code envelope timeout).
Proof. unfold ControllerHub.send_command, ControllerHub.wait_for. silent_tac. Qed.
#[local] Hint Resolve send_command_silent : silent.

#[local] Hint Unfold UserRepository.by_username UserRepository.touch_login UserRepository.create UserRepository.set_active
  DeviceRepository.by_id DeviceRepository.create DeviceRepository.touch_seen EnrollmentRepository.create
  EnrollmentRepository.claim EnrollmentRepository.attach_device ControllerRepository.by_code ControllerRepository.register
  ControllerRepository.touch_seen ControllerRepository.block ControllerRepository.list_all DoorRepository.by_id
  DoorRepository.list_for_user DoorRepository.create PermissionRepository.effective
  TokenRepository.insert TokenRepository.lookup TokenRepository.mark_used TokenRepository.revoke TokenRepository.revoke_where
  TokenRepository.revoke_family TokenRepository.revoke_device_sessions RateLimitRepository.record_failure
  RateLimitRepository.failure_count RateLimitRepository.unlock_count AuditRepository.latest AuditRepository.recent
  AuditRepository.for_user AuditRepository.verify_chain AuditRepository.head AuditService.record AuditService.success
  AuditService.failure AuditService.denied AuditService.chain_status AuditService.head : silent.
#[local] Hint Unfold sleep_usec new_token token_urlsafe hash_password burn_password_time fixed_duration RateLimiter._remember
  RateLimiter.check_login RateLimiter.check_unlock RateLimiter.record_login_failure RateLimiter.apply_delay
  ControllerHub.register ControllerHub.unregister ControllerHub.resolve ControllerHub.is_online ControllerHub.online_count
  new_session AuthService.issue_pair AuthService.login AuthService.refresh AuthService.refresh_found
  AuthService.refresh_replay AuthService.refresh_rotate AuthService.resolve_access_token AuthService.logout auth_error
  ChallengeStore.issue ChallengeStore.take EnrollmentService.issue_challenge EnrollmentService.enroll
  EnrollmentService.denied_with EnrollmentService.check_challenge EnrollmentService.attestation_detail
  EnrollmentService.create_device : silent.

Ltac silently := autounfold with silent; silent_tac.

Lemma issue_pair_silent u d f p : guar silent (AuthService.issue_pair settings u d f p).
Proof. silently. Qed.

Lemma resolve_token_silent t : guar silent (AuthService.resolve_access_token settings t).
Proof. silently. Qed.

Lemma to_http_silent {A} (p : io A) : guar silent p -> guar silent (catch p api_to_http) /\ guar silent (catch p auth_to_http).
Proof.
  intros Hp. split; (apply guar_catch; [done|]); intros e q He; unfold api_to_http, auth_to_http in He;
    repeat case_match; by simplify_eq.
Qed.

Lemma with_session_silent {A} authorization (body : Session -> io A) :
  (forall s, guar silent (body s)) -> guar silent (with_session settings authorization body).
Proof.
  intros Hb. apply guar_bind; [|done]. unfold current_session. destruct (bearer authorization); [|done].
  apply to_http_silent, resolve_token_silent.
Qed.
Lemma with_admin_silent {A} authorization (body : Session -> io A) :
  (forall s, guar silent (body s)) -> guar silent (with_admin settings authorization body).
Proof. intros Hb. apply with_session_silent. intros s. apply guar_bind; [|done]. unfold admin_session. by case_match. Qed.

Lemma auth_login_silent u p d ip : guar silent (AuthService.login settings u p d ip).
Proof. silently. Qed.
Lemma auth_refresh_silent t ip : guar silent (AuthService.refresh settings t ip).
Proof. silently. Qed.
Lemma enroll_silent c l k ch t p a ip : guar silent (EnrollmentService.enroll settings c l k ch t p a ip).
Proof. silently. Qed.

Lemma fixed_duration_silent {A} ms (body : io A) : guar silent body -> guar silent (fixed_duration ms body).
Proof. intros Hb. unfold fixed_duration, sleep_usec. silent_tac. Qed.

Lemma api_login_silent request username password device : guar silent (Api.login settings request username password device).
Proof.
  apply guar_bind; [apply silent_of_outcome|intros ip]. apply guar_bind; [silently|intros decision].
  destruct (negb _); [silently|]. apply fixed_duration_silent, guar_catch; [apply auth_login_silent|].
  intros e q He. repeat case_match; simplify_eq. unfold login_failed. silently.
Qed.

Lemma controller_socket_silent peer answer incoming : guar silent (controller_socket settings peer answer incoming).
Proof.
  unfold controller_socket. apply guar_bind.
  { unfold handshake, receive, authenticate, find_controller, attempt. silently. }
  intros [[[message id] c]|]; [|done]. unfold connected, hang_up.
  assert (Hs : forall s, guar silent (serve (PG:=PG) (PR:=PR) (WS:=WS) peer id s incoming)).
  { intros s. induction incoming as [|raw rest IH]; [done|]. cbn [serve]. unfold receive, handle. silently. }
  silently.
Qed.

Lemma heartbeat_silent s rounds : guar silent (_heartbeat settings s rounds).
Proof.
  apply guar_catch; [|intros [] q He; cbn in He; by simplify_eq].
  induction rounds as [|n IH]; [done|]. cbn [beats]. silently.
Qed.

Lemma grant_silent user door by_ mask st en tz until : guar silent (PermissionRepository.grant user door by_ mask st en tz until).
Proof.
  unfold PermissionRepository.grant. destruct (pg_time st), (pg_time en), (pg_text tz); try done.
  apply guar_atomic. intros w. cbn -[violation]. repeat case_match; reflexivity.
Qed.
#[local] Hint Resolve grant_silent : silent.

Lemma quietly_silent {A} (p : io A) : guar silent p -> guar silent (quietly p).
Proof. intros Hp. by apply guar_bind. Qed.

Lemma admin_audit_silent s door ctl d : guar silent (admin_audit s door ctl d).
Proof. apply append_silent. Qed.
#[local] Hint Resolve admin_audit_silent : silent.

(** Every task but the unlock of a door and the health check. *)
Definition asks_nothing (t : task) : bool := match t with Unlock _ _ _ _ | Ready => false | _ => true end.

Lemma start_silent t : asks_nothing t = true -> guar silent (start settings t).
Proof.
  intros Ht. destruct t; try discriminate Ht; cbn [start].
  - apply quietly_silent; unfold enroll_challenge; silently.
  - apply quietly_silent, guar_bind; [apply silent_of_outcome|intros ip]. by apply fixed_duration_silent, to_http_silent, enroll_silent.
  - apply quietly_silent, api_login_silent.
  - apply quietly_silent, guar_bind; [apply silent_of_outcome|intros ip]. by apply fixed_duration_silent, to_http_silent, auth_refresh_silent.
  - apply with_session_silent; intros s; silently.
  - apply quietly_silent, with_session_silent; intros s; silently.
  - apply quietly_silent, with_session_silent; intros s; silently.
  - apply controller_socket_silent.
  - apply heartbeat_silent.
  - apply quietly_silent, with_admin_silent; intros s; silently.
  - apply quietly_silent, with_admin_silent; intros s; silently.
  - apply quietly_silent, with_admin_silent; intros s; unfold with_online; silently.
  - apply quietly_silent, with_admin_silent; intros s; silently.
  - apply with_admin_silent; intros s; silently.
  - apply quietly_silent, with_admin_silent; intros s; silently.
  - apply quietly_silent, with_admin_silent. intros s. apply guar_bind; [apply grant_silent|intros id].
    apply guar_bind; [apply admin_audit_silent|intros n]. exact I.
  - apply quietly_silent; unfold create_admin, create; silently.
  - apply quietly_silent; unfold issue; silently.
Qed.
End silence.

(** ** What justifies a request for a signature *)

(** The moments of one request, in the order in which the code comes to them. *)
Record Moments := {
  m_session : World; m_recorded : World; m_door : World; m_grant : World; m_near : World; m_budget : World;
  m_online : World; m_issued : World
}.

Definition moments (m : Moments) : list World :=
  [m_session m; m_recorded m; m_door m; m_grant m; m_near m; m_budget m; m_online m; m_issued m].

(** Each is a later state of the one before. *)
Fixpoint in_turn (l : list World) : Prop :=
  match l with a :: ((b :: _) as r) => evolves a b /\ in_turn r | _ => True end.

(** Every check held, each at the moment of the request at which the code makes
    it, and [payload] is the command for the door that was looked up. *)
Record authorised `{PG : Postgres} (settings : Settings) (authorization : option pystr) (door : uuid) (beacon : pystr)
    (m : Moments) (s : Session) (g : Grounds) (payload : dict) : Prop := {
  au_session : exists token h t u dv, bearer authorization = Some token /\ hash_token settings token = OK h
    /\ session_valid settings (w_db (m_session m)) (w_now (m_session m)) h s t u dv;
  au_recorded : exists r, r ∈ audit_log (w_db (m_recorded m)) /\ a_event_type r = event_value DOOR_UNLOCK_REQUESTED
    /\ a_actor_id r = Some (se_user_id s) /\ a_device_id r = Some (se_device_id s) /\ a_door_id r = Some door;
  au_door : doors (w_db (m_door m)) !! door = Some (g_door g) /\ dr_is_active (g_door g) = true;
  au_controller : exists cid, dr_controller_id (g_door g) = Some cid
    /\ controllers (w_db (m_door m)) !! cid = Some (g_controller g) /\ c_is_blocked (g_controller g) = false;
  au_grant : exists pid p local, permissions (w_db (m_grant m)) !! pid = Some p /\ p_user_id p = se_user_id s
    /\ p_door_id p = door /\ p_is_active p = true /\ DoorRepository.valid_now (w_now (m_grant m)) p = true
    /\ pg_local (p_time_zone p) (w_now (m_grant m)) = Some local
    /\ PermissionRepository.within_window p (isodow (local / usec_per_day)) (local mod usec_per_day) = true;
  au_near : verify_proximity (c_beacon_key (g_controller g)) beacon (beacon_rotation_seconds settings)
    (proximity_max_age_seconds settings) (w_now (m_near m)) = OK (true, g_age g);
  au_budget : recent_unlock_events (w_now (m_budget m)) (w_db (m_budget m)) (se_user_id s)
    < rate_max_unlocks_per_minute settings;
  au_online : is_Some (h_sessions (w_hub (m_online m)) !! c_code (g_controller g));
  au_payload : exists cid nonce, length nonce = 16%nat /\ all_bytes nonce
    /\ payload = command_payload (g_door g) (c_code (g_controller g)) (command_ttl_seconds settings) cid
                   (w_now (m_issued m) / usec_per_sec) nonce
}.

Definition justified `{PG : Postgres} (settings : Settings) (h : list World) (authorization : option pystr) (door : uuid)
    (beacon : pystr) (payload : dict) : Prop :=
  exists m s g, moments m ⊆ h /\ in_turn (moments m)
    /\ authorised settings authorization door beacon m s g payload.

(** The line of the health check. *)
Definition key_request : bytes := encode_request [(§"op", JStr §"public_key")].

(** What a task may write to the signer's socket after it has seen [h]. *)
Definition may_ask `{PG : Postgres} (settings : Settings) (tasks : list task) (h : list World) (line : bytes) : Prop :=
  line = key_request
  \/ exists authorization request door beacon payload,
       Unlock authorization request door beacon ∈ tasks
       /\ line = encode_request (SignerClient.sign_request payload)
       /\ justified settings h authorization door beacon payload.

Definition asking `{PG : Postgres} (settings : Settings) (tasks : list task) (h : list World) (w w' : World) : Prop :=
  silent w w' \/ exists line, w_asked w' = w_asked w ++ [line] /\ may_ask settings tasks h line.

Lemma may_ask_mono `{PG : Postgres} settings tasks h h' line : h ⊆ h' -> may_ask settings tasks h line -> may_ask settings tasks h' line.
Proof.
  intros Hh [->|(authorization & request & door & beacon & payload & Hin & -> & m & s & g & Hm & Ht & Ha)]; [by left|right].
  exists authorization, request, door, beacon, payload. split_and!; try done. exists m, s, g. split_and!; try done. set_solver.
Qed.

Lemma asking_mono `{PG : Postgres} settings tasks h h' w w' : h ⊆ h' -> asking settings tasks h w w' -> asking settings tasks h' w w'.
Proof. intros Hh [Hs|(line & Hl & Hm)]; [by left|right]. exists line. split; [done|]. by eapply may_ask_mono. Qed.

(** ** The unlock is justified by what it has seen *)

Section unlock_told.
Context {EN : Entropy} {PG : Postgres} {AR : Argon2} {PR : PyRepr} {ED : Ed25519} {X5 : X509} {SK : SignerSocket}
  {TR : Transport} {TS : TransportSilent} (settings : Settings) (tasks : list task).

Abbreviation tells := (told evolves (asking settings tasks)) (only parsing).

Lemma silent_asking h w w' : silent w w' -> asking settings tasks h w w'.
Proof. by left. Qed.

Lemma tells_any {A} (Q : list World -> A -> Prop) (p : io A) h :
  guar silent p -> (forall h' a, Q h' a) -> tells Q h p.
Proof. intros Hp HQ. eapply told_impl; [|apply (guar_told _ _ silent silent_asking), Hp]. auto. Qed.

Lemma tells_query {A B} Q (f : instant -> Db -> A) (k : A -> io B) h :
  (forall w, Forall (fun v => evolves v w) h -> tells Q (h ++ [w; w]) (k (f (w_now w) (w_db w)))) ->
  tells Q h (query f ≫= k).
Proof. intros Hk. apply (told_reads_after _ _ silent silent_asking); [done|]. exact Hk. Qed.

Lemma tells_reads {A B} Q (f : World -> A) (k : A -> io B) h :
  (forall w, Forall (fun v => evolves v w) h -> tells Q (h ++ [w; w]) (k (f w))) -> tells Q h (reads f ≫= k).
Proof. intros Hk. apply (told_reads_after _ _ silent silent_asking); [done|]. exact Hk. Qed.

Lemma tells_of_outcome {A B} Q (o : outcome Exn A) (k : A -> io B) h :
  (forall a, o = OK a -> tells Q h (k a)) -> tells Q h (of_outcome o ≫= k).
Proof. intros H. apply told_bind. destruct o; cbn; auto. Qed.

Lemma tells_deny {A B} Q base ir reason extra ctl (k : A -> io B) h :
  tells Q h ((UnlockService._deny base ir reason extra ctl : io A) ≫= k).
Proof.
  apply told_bind. unfold UnlockService._deny. apply (told_after _ _ silent silent_asking); [apply append_silent|done].
Qed.

(** A guard: behind it, its condition is false. *)
Lemma tells_guard {A} Q (b : bool) base ir reason extra ctl (k : unit -> io A) h :
  (b = false -> tells Q h (k tt)) ->
  tells Q h ((if b then UnlockService._deny base ir reason extra ctl else Ret tt) ≫= k).
Proof. intros H. destruct b; [apply tells_deny|]. by apply told_bind, H. Qed.


Lemma tells_session {B} Q authorization (k : Session -> io B) h :
  (forall ws h' s, h' = h ++ ws ->
     (exists w token hh t u dv, w ∈ ws /\ Forall (fun v => evolves v w) h /\ bearer authorization = Some token
        /\ hash_token settings token = OK hh /\ session_valid settings (w_db w) (w_now w) hh s t u dv) ->
     tells Q h' (k s)) ->
  tells Q h (with_session settings authorization k).
Proof.
  intros Hk. apply told_bind. unfold current_session. destruct (bearer authorization) as [token|] eqn:Eb; [|done].
  apply told_catch.
  2: { intros h' e q _ He. unfold auth_to_http in He. repeat case_hyp He; simplify_eq. done. }
  unfold AuthService.resolve_access_token. apply tells_of_outcome. intros hh Hh.
  apply tells_query. intros w Hw. apply tells_reads. intros w1 Hw1. apply Forall_app in Hw1 as [_ Hw1].
  apply Forall_cons in Hw1 as [Hww1 _].
  destruct (TokenRepository.lookup_in (w_db w) hh access_kind) as [r|] eqn:El; [|done].
  destruct (TokenRepository.is_live r (w_now w1)) eqn:Elive; cbn [negb]; [|done].
  destruct (AuthService.unattested settings _) eqn:Eatt; [done|].
  apply lookup_in_some in El as (id & t & u & dv & Hat & ->). apply live_iff in Elive as (L1 & L2 & L3 & L4).
  rewrite unattested_false in Eatt. apply ev_now in Hww1.
  eapply (Hk ([w; w] ++ [w1; w1])); [by rewrite app_assoc|].
  exists w, token, hh, t, u, dv. split; [by left|]. split_and!; try done. split; try done. lia.
Qed.

Lemma tells_record {B} Q event outcome a (k : Z -> io B) h :
  (forall ws w n, w ∈ ws -> Forall (fun v => evolves v w) h ->
     (exists r, r ∈ audit_log (w_db w) /\ a_event_type r = event /\ a_actor_id r = actor_id a
        /\ a_device_id r = device_id a /\ a_door_id r = door_id a) ->
     tells Q (h ++ ws) (k n)) ->
  tells Q h (AuditService.record event outcome a ≫= k).
Proof.
  intros Hk. unfold AuditService.record, AuditRepository.append. apply told_bind, told_bind, told_atomic.
  intros w Hw. cbn. destruct (AuditRepository.new_row _ _ _ _ _) as [r|] eqn:Er; cbn; [|by split; [left|]].
  split; [by left|]. apply new_row_some in Er as (_ & _ & Ee & _ & _ & Ea & Ed & Edoor & _).
  set (w0 := set_db _ _). intros w1 Hw1. split; [by left|].
  set (w2 := set_db _ w1).
  rewrite <- app_assoc. apply (Hk _ w2); [right; right; right; by left| |].
  - apply Forall_app in Hw1 as [Hw1 _]. eapply Forall_impl; [exact Hw1|]. intros v Hv. transitivity w1; [done|].
    split; [cbn; lia| |reflexivity]. db_le_tac; [by intros []|by eexists].
  - eexists. split; [cbn; apply elem_of_app; right; by apply list_elem_of_singleton|]. by cbn.
Qed.

(** The checks, in front of anything: each holds at the moment of its query. *)
Lemma tells_checks {B} Q base beacon (k : Grounds -> io B) h :
  (forall ws wd wp wb wr wo g pid p local,
     [wd; wp; wb; wr; wo] ⊆ ws -> Forall (fun v => evolves v wd) h -> in_turn [wd; wp; wb; wr; wo] ->
     doors (w_db wd) !! b_door_id base = Some (g_door g) /\ dr_is_active (g_door g) = true ->
     (exists cid, dr_controller_id (g_door g) = Some cid /\ controllers (w_db wd) !! cid = Some (g_controller g)
        /\ c_is_blocked (g_controller g) = false) ->
     permissions (w_db wp) !! pid = Some p /\ p_user_id p = b_user_id base /\ p_door_id p = b_door_id base
       /\ p_is_active p = true /\ DoorRepository.valid_now (w_now wp) p = true
       /\ pg_local (p_time_zone p) (w_now wp) = Some local
       /\ PermissionRepository.within_window p (isodow (local / usec_per_day)) (local mod usec_per_day) = true ->
     verify_proximity (c_beacon_key (g_controller g)) beacon (beacon_rotation_seconds settings)
       (proximity_max_age_seconds settings) (w_now wb) = OK (true, g_age g) ->
     recent_unlock_events (w_now wr) (w_db wr) (b_user_id base) < rate_max_unlocks_per_minute settings ->
     is_Some (h_sessions (w_hub wo) !! c_code (g_controller g)) ->
     tells Q (h ++ ws) (k g)) ->
  tells Q h (UnlockService.unlock_checks settings base beacon ≫= k).
Proof.
  intros Hk. apply told_bind. unfold UnlockService.unlock_checks, DoorRepository.by_id. apply tells_query. intros wd Hd.
  destruct (doors (w_db wd) !! b_door_id base) as [door|] eqn:Edoor; [|apply tells_deny]. cbn [fmap option_fmap option_map].
  cbn [dj_door]. destruct (dr_is_active door) eqn:Ea; cbn [negb orb]; [|apply tells_deny].
  destruct (is_some (dr_controller_id door)) eqn:Ec; cbn [negb]; [|apply tells_deny].
  apply told_bind. cbn [told]. apply told_bind. unfold PermissionRepository.effective. apply tells_query. intros wp Hp.
  fold (the_grant (w_now wp) (w_db wp) base). destruct (the_grant (w_now wp) (w_db wp) base) as [[pid p]|] eqn:Eg.
  2: { cbn [of_option told]. apply tells_deny. }
  destruct (pg_local (p_time_zone p) (w_now wp)) as [local|] eqn:El; [|done]. cbn [fmap option_fmap option_map of_option told].
  apply tells_guard. intros Ew%negb_false_iff. apply tells_guard. intros Eb. cbn [dj_controller] in *.
  apply told_bind, told_of_option. intros c Ej. rewrite Ej in Eb. cbn [from_option] in Eb. apply tells_reads. intros wb Hb.
  apply tells_of_outcome. intros [acc age] Ev. cbn [fst snd]. apply tells_guard. intros Eacc%negb_false_iff. subst acc.
  apply told_bind. unfold RateLimiter.check_unlock, RateLimitRepository.unlock_count. apply tells_query. intros wr Hr.
  fold (recent_unlock_events (w_now wr) (w_db wr) (b_user_id base)).
  destruct (Z.leb_spec (rate_max_unlocks_per_minute settings) (recent_unlock_events (w_now wr) (w_db wr) (b_user_id base)))
    as [|Hn]; cbn [told allowed negb].
  { apply told_bind. apply (told_after _ _ silent silent_asking); [apply append_silent|done]. }
  apply told_bind. cbn [told]. unfold ControllerHub.is_online. apply tells_reads. intros wo Ho.
  apply tells_guard. intros Eo%negb_false_iff. cbn [told].
  apply fetchrow_some in Eg as [Hrow HP]. apply bind_Some in Ej as (cid & Ecid & Ectl). bool_to_prop.
  rewrite !Forall_app, !Forall_cons in Hp, Hb, Hr, Ho. rewrite <- !app_assoc.
  apply (Hk _ wd wp wb wr wo _ pid p local); cbn [g_door g_controller g_age]; try done.
  - set_solver.
  - cbn. tauto.
  - by exists cid.
  - by apply is_some_true.
Qed.

(** What comes after the signature. *)
Lemma after_signature_silent base g id payload sk :
  guar silent (
    _ ← AuditService.success DOOR_UNLOCK_GRANTED
          (with_base base (dr_controller_id (g_door g))
             [(§"command_id", JStr (uuid_str id)); (§"signer_key_id", sk.2);
              (§"proximity_age_seconds", match g_age g with Some a => JInt a | None => JNull end);
              (§"duration_ms", JInt (dr_unlock_seconds (g_door g) * 1000))]);
    ack ← UnlockService.acknowledged settings base (g_door g) id (c_code (g_controller g)) (command_envelope payload sk.1 sk.2);
    _ ← if negb (UnlockService.opened ack) then UnlockService._fail base (g_door g) id (UnlockService.refused_text ack) else Ret tt;
    _ ← AuditService.success DOOR_UNLOCK_CONFIRMED
          (with_base base (dr_controller_id (g_door g))
             [(§"command_id", JStr (uuid_str id)); (§"controller_uptime_ms", default JNull (dict_get §"uptime_ms" ack));
              (§"relay_ms", default JNull (dict_get §"relay_ms" ack))]);
    Ret {| uo_command_id := id; uo_opened_for_ms := dr_unlock_seconds (g_door g) * 1000;
           uo_proximity_age_seconds := default 0 (g_age g) |}).
Proof.
  assert (Hf : forall A r, guar silent (UnlockService._fail base (g_door g) id r : io A))
    by (intros A r; apply guar_bind; [apply append_silent|done]).
  apply guar_bind; [apply append_silent|intros _]. apply guar_bind.
  { apply guar_catch; [apply send_command_silent|]. intros [] q He; simplify_eq; apply Hf. }
  intros ack. apply guar_bind; [destruct (negb _); [apply Hf|done]|intros _]. by apply guar_bind; [apply append_silent|].
Qed.

Lemma tells_command base g h :
  (forall wc w id nonce, Forall (fun v => evolves v wc) h -> evolves wc w -> Forall (fun v => evolves v w) h ->
     length nonce = 16%nat -> all_bytes nonce ->
     may_ask settings tasks (h ++ [wc; w]) (encode_request (SignerClient.sign_request
       (command_payload (g_door g) (c_code (g_controller g)) (command_ttl_seconds settings) id (w_now wc / usec_per_sec) nonce)))) ->
  tells (fun _ _ => True) h (UnlockService.unlock_command settings base g).
Proof.
  intros Hask. unfold UnlockService.unlock_command. apply told_bind, told_atomic. intros wc Hc. split; [by left|].
  cbn [fst snd UnlockService.new_command uuid4 token_bytes]. set (payload := command_payload _ _ _ _ _ _).
  apply told_bind, told_catch.
  2: { intros h' e q _ He. destruct e; simplify_eq; unfold UnlockService._deny;
         (apply (told_after _ _ silent silent_asking); [apply append_silent|done]). }
  unfold SignerClient.sign_command, SignerClient._request. apply told_bind, told_bind, told_atomic. intros w Hw. split.
  - right. eexists. split; [reflexivity|]. rewrite !Forall_app, !Forall_cons in Hw. destruct Hw as (Hw & Hcw & _).
    eapply may_ask_mono; [|by apply (Hask wc w _ (csprng (S (w_draws wc)) 16) Hc Hcw Hw); [apply csprng_length|apply csprng_bytes]].
    set_solver.
  - cbn [snd]. apply tells_any; [destruct (signer_exchange _ _) as [|[]]; silent_tac|]. intros h1 response.
    apply tells_any; [unfold SignerClient.checked_response, SignerClient.unpack; silent_tac|]. intros h2 sk.
    apply tells_any; [|done]. exact (after_signature_silent base g _ payload sk).
Qed.

(** The unlock of a door, whatever has been seen before. *)
Lemma tells_unlock authorization request door beacon h :
  Unlock authorization request door beacon ∈ tasks ->
  tells (fun _ _ => True) h (unlock_door settings authorization request door beacon).
Proof.
  intros Hin. unfold unlock_door. apply tells_session. intros ws h1 s -> (w0 & token & hh & t & u & dv & Hw0 & _ & Hb & Hh & Hv).
  apply tells_of_outcome. intros ip _. apply told_catch.
  2: { intros h' e q _ He. unfold api_to_http in He. repeat case_hyp He; simplify_eq. done. }
  unfold UnlockService.unlock. apply tells_record. intros ws1 w1 n Hw1 Hw1' (r & Hr & Er & Ea & Ed & Edoor).
  apply tells_checks. intros ws2 wd wp wb wr wo g pid p local Hws Hd Ht Hdoor Hctl Hgrant Hnear Hbud Hon.
  apply tells_command. intros wc w id nonce Hc Hcw _ Hl Hb'. right.
  exists authorization, request, door, beacon, (command_payload (g_door g) (c_code (g_controller g))
    (command_ttl_seconds settings) id (w_now wc / usec_per_sec) nonce).
  split; [done|]. split; [done|].
  exists {| m_session := w0; m_recorded := w1; m_door := wd; m_grant := wp; m_near := wb; m_budget := wr; m_online := wo; m_issued := wc |}, s, g.
  rewrite !Forall_app in Hd, Hc, Hw1'. rewrite !Forall_forall in Hd, Hc, Hw1'. cbn in Ht.
  split; [cbn; set_solver|]. split.
  - cbn. split_and!; try tauto; first [apply Hw1' | apply Hd | apply Hc]; set_solver.
  - split; cbn; try done.
    + by exists token, hh, t, u, dv.
    + by exists r.
    + by exists pid, p, local.
    + by exists id, nonce.
Qed.

Lemma tells_ready h : tells (fun _ _ => True) h ready.
Proof.
  unfold ready. apply told_bind, told_catch.
  2: { intros h' e q _ He. destruct e; simplify_eq; cbn [told]; (apply tells_any; [|done]);
         unfold AuditService.chain_status, AuditRepository.verify_chain, ControllerHub.online_count; silent_tac. }
  unfold SignerClient.public_key, SignerClient._request. apply told_bind, told_bind, told_bind, told_atomic. intros w Hw.
  split; [right; eexists; split; [reflexivity|by left]|]. cbn [snd].
  apply tells_any; [destruct (signer_exchange _ _) as [|[]]; silent_tac|]. intros h1 response.
  apply tells_any; [unfold SignerClient.checked_response, SignerClient.unpack; silent_tac|]. intros h2 key. cbn [told].
  apply tells_any; [|done].
  unfold AuditService.chain_status, AuditRepository.verify_chain, ControllerHub.online_count; silent_tac.
Qed.

Context {WS : WebSocket} {WT : WebSocketSilent}.

Lemma tells_start t : t ∈ tasks -> tells (fun _ _ => True) [] (start settings t).
Proof.
  intros Ht. destruct (asks_nothing t) eqn:Ha; [apply tells_any; [by apply start_silent|done]|].
  destruct t; try discriminate Ha; cbn [start]; apply told_bind.
  - eapply told_impl; [|by eapply tells_unlock]. done.
  - eapply told_impl; [|apply tells_ready]. done.
Qed.

(** ** Every interleaving *)

Context {TE : TransportEvolves} {WE : WebSocketEvolves}.

(** The environment moves time and other processes, which do not hold the
    signer's socket. *)
Definition elsewhere (w w' : World) : Prop := evolves w w' /\ silent w w'.

(** [h] lists the states from [w] to [w'] of some interleaving of the tasks. *)
Definition history (w : World) (h : list World) (w' : World) : Prop :=
  exists ps, rtc (hist_step elsewhere) ([w], (w, start settings <$> tasks)) (h, (w', ps)).

Lemma requests_justified w h w' line :
  w_asked w = [] -> history w h w' -> line ∈ w_asked w' -> may_ask settings tasks h line.
Proof.
  intros H0 [ps Hr] Hline.
  destruct (told_reach elsewhere evolves (asking settings tasks) (fun w w' H => proj1 H) (asking_mono settings tasks)
    (fun h w => forall line, line ∈ w_asked w -> may_ask settings tasks h line) [w] w (start settings <$> tasks) h w' ps)
    as [_ H]; try done.
  - intros g v v' HP Hstep l Hl.
    assert (Hsub : g ⊆ g ++ [v']) by set_solver. destruct Hstep as [Hs|(l' & El & Hm)].
    + rewrite Hs in Hl. eapply may_ask_mono, HP, Hl. done.
    + rewrite El in Hl. apply elem_of_app in Hl as [Hl| ->%list_elem_of_singleton]; eapply may_ask_mono; eauto.
  - intros g v v' HP [_ Hs] l Hl. rewrite Hs in Hl. eapply may_ask_mono, HP, Hl. set_solver.
  - apply looking_back_start; [apply _|..]; apply Forall_fmap, Forall_forall; intros t Ht.
    + apply start_evolves.
    + by apply tells_start.
  - intros l Hl. rewrite H0 in Hl. by apply elem_of_nil in Hl.
  - by apply H.
Qed.

(** C2 Nobody gets a signature without having passed: whatever the backend runs, in
    any interleaving, each line it writes to the signer's socket is the question
    for the public key, or asks for the signature of a command that one of the
    unlock requests among the tasks has earned: its session, the door, the
    controller, the grant and its window, the beacon, the budget and the connection
    were each found good at a moment of that very request, in this order and
    before the command was made, with the audit row of the request written first;
    and the command is the one for that door and its controller. *)
Theorem signature_requests_are_justified w h w' line :
  w_asked w = [] -> history w h w' -> line ∈ w_asked w' -> may_ask settings tasks h line.
Proof. apply requests_justified. Qed.
End unlock_told.

(** ** A concrete door *)

#[local] Existing Instances demo_entropy demo_postgres demo_argon2 demo_ed25519 demo_repr demo_x509 demo_controller
  demo_controller_evolves demo_websocket demo_websocket_evolves.
#[local] Instance demo_socket : SignerSocket := served_by demo_service.
#[local] Instance demo_controller_silent : TransportSilent.
Proof. intros s t w. reflexivity. Qed.
#[local] Instance demo_websocket_silent : WebSocketSilent.
Proof. split; intros ? w; reflexivity. Qed.

(** The user of the login example, signed in, in front of the door that
    [demo_install] sets up. *)
Definition demo_entrance := run demo_install demo_logged_in.
Definition demo_before : World := demo_entrance.1.
Definition demo_entry : task :=
  Unlock (Some (§"Bearer " ++ it_access_token demo_pair)) demo_direct
    (match demo_entrance.2 with OK p => p.1 | ERR _ => 0 end) demo_beacon.
Definition demo_states : list World := demo_before :: trace (start demo_settings demo_entry) demo_before.
Definition demo_entered : World := (run (start demo_settings demo_entry) demo_before).1.

Lemma demo_history : history demo_settings [demo_entry; Ready] demo_before demo_states demo_entered.
Proof.
  eexists. apply (run_history elsewhere 0 (start demo_settings demo_entry) _ _ _
    (run (start demo_settings demo_entry) demo_before).2 [demo_before]); [reflexivity|]. apply surjective_pairing.
Qed.

Lemma demo_nothing_asked : w_asked demo_before = [].
Proof. vm_compute. reflexivity. Qed.

Lemma signature_requests_are_justified_witness :
  exists line, line ∈ w_asked demo_entered /\ line <> key_request
    /\ may_ask demo_settings [demo_entry; Ready] demo_states line.
Proof.
  assert (Hok : match w_asked demo_entered with [line] => negb (bool_decide (line = key_request)) | _ => false end = true)
    by (vm_compute; reflexivity).
  destruct (w_asked demo_entered) as [|line []] eqn:E; try discriminate Hok. exists line.
  assert (Hin : line ∈ w_asked demo_entered) by (rewrite E; by left).
  split; [by left|]. split; [by apply negb_true_iff, bool_decide_eq_false_1 in Hok|].
  exact (signature_requests_are_justified demo_settings [demo_entry; Ready] demo_before demo_states demo_entered line
    demo_nothing_asked demo_history Hin).
Defined.
