(* ===== verification/Door.v ===== *)
(** * From the request to the relay

    The whole way at once: the backend's tasks in any interleaving ([Asked]), the
    signer that answers its lines ([Signer]), and a controller through its turns
    and resets ([Board]).  What joins them are bytes: the controller rebuilds what
    the signer signed ([EndToEnd]), and [body_determines] says that those bytes
    determine the command.  Between the three anything may be delayed, repeated or
    made up, except a signature ([unforged]). *)

From S2P Require Import Prelude Text Sha256 Clock Json Config Ip Errors Proc History World Demo AuditLog Repos Schema Signer Security Proximity RateLimit Hub Evolve Auth Unlock Der Attestation Enrollment Api ControllerWs Scripts Surface Family Firmware EndToEnd Tooling Board Backend Asked.
From stdpp Require Import relations.
#[local] Open Scope Z_scope.

Import Relay Command WsLink.

(** ** The bytes determine the command *)

(** Text up to its closing quote. *)
Lemma text_determined a b x y :
  Forall simple b -> (a ≫= escape_octet) ++ 34 :: x = b ++ 34 :: y -> a = b /\ x = y.
Proof.
  intros Hb. revert a. induction Hb as [|c b (Hp & H34 & H92) _ IH]; intros a.
  - destruct a as [|c a]; [by intros [= ->]|]. cbn. unfold escape_octet.
    destruct (Z.eqb_spec c 34) as [->|]; [by intros [= ?]|]. destruct (Z.eqb_spec c 92) as [->|]; [by intros [= ?]|].
    cbn [orb]. destruct (c <? 32); cbn; intros [= ? ?]; lia.
  - destruct a as [|c' a]; [cbn; intros [= ? ?]; lia|]. cbn. unfold escape_octet.
    destruct (Z.eqb_spec c' 34) as [->|]; [cbn; intros [= ? ?]; lia|].
    destruct (Z.eqb_spec c' 92) as [->|]; [cbn; intros [= ? ?]; lia|].
    cbn [orb]. destruct (c' <? 32); cbn; intros [= E1 E]; [lia|]. subst c'. apply IH in E as [-> ->]. done.
Qed.

Lemma span_determined (P : Z -> Prop) a b c d x y :
  Forall P a -> Forall P b -> ~ P c -> ~ P d -> a ++ c :: x = b ++ d :: y -> a = b /\ x = y.
Proof.
  intros Ha Hb Hc Hd. revert b Hb. induction Ha as [|z a Hz _ IH]; intros b Hb E.
  - destruct Hb as [|z' b Hz' _]; [by injection E as _ ->|]. injection E as -> _. done.
  - destruct Hb as [|z' b Hz' Hb]; [injection E as -> _; done|]. injection E as -> E. by apply IH in E as [-> ->].
Qed.

Definition numeral (c : Z) : Prop := c = 45 \/ 48 <= c <= 57.

Lemma int_str_numeral z : Forall numeral (int_str z).
Proof.
  assert (H : forall n, 0 <= n -> Forall numeral (digits n)).
  { intros n Hn. eapply Forall_impl; [by apply digits_digit|]. unfold is_digit, numeral. lia. }
  unfold int_str. destruct (Z.ltb_spec z 0); [constructor; [by left|]|]; apply H; lia.
Qed.

Lemma int_determined a b c x y :
  ~ numeral c -> int_str a ++ c :: x = int_str b ++ c :: y -> a = b /\ x = y.
Proof.
  intros Hc E. apply (span_determined numeral) in E as [E ->]; [|apply int_str_numeral..|done|done].
  split; [by apply int_str_inj|done].
Qed.

(** The body as one sequence. *)
Lemma body_shape command :
  canonicalBody command =
    (123 :: quoted §"cmd" ++ 58 :: quoted §"unlock" ++ [44] ++ quoted §"command_id" ++ [58; 34])
    ++ (commandId command ≫= escape_octet) ++ 34 :: (44 :: quoted §"controller_code" ++ [58; 34])
    ++ (controllerCode command ≫= escape_octet) ++ 34 :: (44 :: quoted §"door_code" ++ [58; 34])
    ++ (doorCode command ≫= escape_octet) ++ 34 :: (44 :: quoted §"duration_ms" ++ [58])
    ++ int_str (durationMs command) ++ 44 :: (quoted §"expires_at" ++ [58])
    ++ int_str (expiresAt command) ++ 44 :: (quoted §"issued_at" ++ [58])
    ++ int_str (issuedAt command) ++ 44 :: (quoted §"nonce" ++ [58; 34])
    ++ (nonce command ≫= escape_octet) ++ 34 :: (44 :: quoted §"relay_channel" ++ [58])
    ++ int_str (relayChannel command) ++ [125].
Proof.
  unfold canonicalBody, appendJsonString. cbv zeta.
  repeat first [rewrite <- app_assoc | progress cbn [app]]. done.
Qed.

Record simple_texts (command : UnlockCommand) : Prop := {
  st_id : Forall simple (commandId command); st_controller : Forall simple (controllerCode command);
  st_door : Forall simple (doorCode command); st_nonce : Forall simple (nonce command)
}.

Lemma not_numeral_comma : ~ numeral 44. Proof. unfold numeral. lia. Qed.
Lemma not_numeral_brace : ~ numeral 125. Proof. unfold numeral. lia. Qed.

(** Whatever command has the bytes of one whose texts need no escape is that
    command: nothing of a signed command can be changed, and no field can be
    moved into another. *)
Lemma body_determines c c' : simple_texts c' -> canonicalBody c = canonicalBody c' -> c = c'.
Proof.
  intros [Hi Hc Hd Hn]. rewrite !body_shape, !(escape_simple (commandId c')), !(escape_simple (controllerCode c')),
    !(escape_simple (doorCode c')), !(escape_simple (nonce c')) by done.
  intros E%app_inv_head. apply text_determined in E as [E1 E%app_inv_head]; [|done].
  apply text_determined in E as [E2 E%app_inv_head]; [|done]. apply text_determined in E as [E3 E%app_inv_head]; [|done].
  apply int_determined in E as [E4 E%app_inv_head]; [|apply not_numeral_comma].
  apply int_determined in E as [E5 E%app_inv_head]; [|apply not_numeral_comma].
  apply int_determined in E as [E6 E%app_inv_head]; [|apply not_numeral_comma].
  apply text_determined in E as [E7 E%app_inv_head]; [|done].
  apply int_determined in E as [E8 _]; [|apply not_numeral_brace]. destruct c, c'; cbn in *. congruence.
Qed.

(** ** What the signer signs *)

Section door.
Context {BL : BoardLibraries} {ED : Ed25519} {PG : Postgres} (settings : Settings).

(** The bytes under the signature the signer gives for a line, if it gives one. *)
Definition signed_for (line : bytes) : option bytes :=
  request ← decode_line line;
  match get_str §"op" request, dict_get §"payload" request with
  | Some op, Some (JObj payload) =>
      if str_eqb op §"sign" && bool_decide (validate_command payload = None) then canonical_bytes payload else None
  | _, _ => None
  end.

(** It is what the server signs: a response carries a signature exactly for the
    lines of which [signed_for] has a body, and it is the signature of that body. *)
Lemma signed_for_handle svc line request response :
  decode_line line = Some request -> Signer.handle svc request = Some response ->
  dict_get §"signature" response = (fun body => JStr (b64encode (ed25519_sign (s_key svc) body))) <$> signed_for line.
Proof.
  unfold signed_for, Signer.handle. intros ->. cbn [mbind option_bind].
  destruct (get_str §"op" request) as [op|]; [|by intros [= <-]].
  destruct (str_eqb op §"public_key") eqn:Ek.
  { apply bool_decide_eq_true_1 in Ek as ->. intros [= <-]. by repeat case_match. }
  destruct (str_eqb op §"sign"); [|intros [= <-]; by repeat case_match].
  destruct (dict_get §"payload" request) as [[| | | | | |payload]|]; try by intros [= <-]. cbn [andb].
  destruct (validate_command payload); [by intros [= <-]|]. rewrite bool_decide_true by done.
  destruct (canonical_bytes payload); [by intros [= <-]|done].
Qed.

Lemma signed_for_key : signed_for key_request = None.
Proof. vm_compute. reflexivity. Qed.

Lemma signed_for_request payload body :
  flat payload -> signed_for (encode_request (SignerClient.sign_request payload)) = Some body ->
  canonical_bytes payload = Some body.
Proof.
  intros Hf. assert (Hn : nested (SignerClient.sign_request payload)).
  { apply nested_intro; [reflexivity|]. unfold SignerClient.sign_request. rewrite !Forall_cons, Forall_nil.
    split_and!; [left; by apply utf8_key|right; by exists payload|done]. }
  unfold signed_for. rewrite decode_encode_request by by apply nested_ok. cbn [mbind option_bind].
  change (get_str §"op" (SignerClient.sign_request payload)) with (Some §"sign").
  change (dict_get §"payload" (SignerClient.sign_request payload)) with (Some (JObj payload)). cbv iota.
  by destruct (_ && _).
Qed.

(** ** The two ends *)

(** What is stored, and when: every pair of a door and a controller is one the
    administration accepts ([door_fits]), and the time can be written in 64 bits. *)
Record well_stored (v : World) : Prop := {
  ws_doors : forall id dr cid c, doors (w_db v) !! id = Some dr -> controllers (w_db v) !! cid = Some c ->
    door_fits dr (c_code c);
  ws_time : 0 <= w_now v /\ w_now v / usec_per_sec + command_ttl_seconds settings < 2 ^ 63
}.

(** The signature scheme is not broken: what is delivered to the controller with
    a signature that verifies over the command it carries, the signer has signed
    in answer to a line it was asked. *)
Definition unforged (cfg : BoardConfig) (lines : list bytes) (history : list (Z * Z * WsEvent)) : Prop :=
  forall now at_ text document command canonical,
    (now, at_, TEXT text) ∈ history -> deserializeJson text = Some document ->
    parseUnlockCommand (member §"payload" document) = Some command ->
    canonicalCommandBytes command kMaxCanonical = Some canonical ->
    ed25519_verify (ACS_SIGNER_PUBLIC_KEY cfg) (base64Decode (or_empty (member §"signature" document)) 64) canonical = true ->
    exists line, line ∈ lines /\ signed_for line = Some canonical.

(** The command that was made for a request. *)
Definition made_for (m : Moments) (g : Grounds) (command : UnlockCommand) : Prop :=
  exists cid rand, command = arrived (g_door g) (c_code (g_controller g)) (dr_code (g_door g)) (command_ttl_seconds settings) cid
    (w_now (m_issued m) / usec_per_sec) rand.

Lemma authorised_fits authorization door beacon m s g payload h :
  0 <= command_ttl_seconds settings -> Forall well_stored h -> moments m ⊆ h ->
  authorised settings authorization door beacon m s g payload ->
  exists cid rand,
    payload = command_payload (g_door g) (c_code (g_controller g)) (command_ttl_seconds settings) cid
                (w_now (m_issued m) / usec_per_sec) rand
    /\ command_fits (g_door g) (c_code (g_controller g)) (command_ttl_seconds settings) (w_now (m_issued m) / usec_per_sec) rand.
Proof.
  intros Httl Hs Hm [_ _ [Hd _] (ctl & _ & Hc & _) _ _ _ _ (cid & rand & Hl & Hb & ->)]. rewrite Forall_forall in Hs.
  assert (Hdoor : well_stored (m_door m)) by (apply Hs, Hm; cbn; set_solver).
  assert (Hissued : well_stored (m_issued m)) by (apply Hs, Hm; cbn; set_solver).
  destruct Hissued as [_ [H0 H1]]. exists cid, rand. split; [done|]. split_and!; try done.
  - by eapply (ws_doors _ Hdoor).
  - apply Z.div_pos; [done|]. reflexivity.
Qed.

(** A controller that rebuilds the bytes the signer signed for a request has the
    command of that request in its hands. *)
Lemma rebuilt_is_made command dr code ttl cid at_ rand canonical :
  command_fits dr code ttl at_ rand ->
  canonical_bytes (command_payload dr code ttl cid at_ rand) = Some canonical ->
  canonicalCommandBytes command kMaxCanonical = Some canonical ->
  command = arrived dr code (dr_code dr) ttl cid at_ rand.
Proof.
  intros Hf Hb Hc. destruct (canonical_arrived dr code ttl cid at_ rand Hf) as (body & Ha & Hb').
  rewrite Hb in Hb'. injection Hb' as <-. destruct Hf as ([[Hcode _] [Hdoor _] _ _] & Hr & _).
  unfold canonicalCommandBytes in Ha, Hc. cbv zeta in Ha, Hc. case_hyp Ha; [done|]. case_hyp Hc; [done|].
  apply (inj Some) in Ha, Hc. rewrite <- Ha in Hc. apply app_inv_head in Hc. apply body_determines; [|done].
  split; cbn; try done; [apply uuid_simple|by apply nonce_simple].
Qed.
End door.

(** ** The whole way *)

Section whole.
Context {EN : Entropy} {PG : Postgres} {AR : Argon2} {PR : PyRepr} {ED : Ed25519} {X5 : X509} {SK : SignerSocket}
  {TR : Transport} {TS : TransportSilent} {TE : TransportEvolves} {WS : WebSocket} {WT : WebSocketSilent}
  {WE : WebSocketEvolves} {BL : BoardLibraries}
  (settings : Settings) (tasks : list task) (cfg : BoardConfig) (lc : LoopConfig).
Hypothesis max_small : 0 <= ACS_RELAY_MAX_MS cfg < 2 ^ 30.
Hypothesis watchdog_small : 0 <= watchdog lc < 2 ^ 30.

(** The requests with their moments, and the command each has earned. *)
Definition earned (h : list World) (m : Moments) (g : Grounds) (command : UnlockCommand) : Prop :=
  exists authorization request door beacon s payload,
    Unlock authorization request door beacon ∈ tasks /\ moments m ⊆ h /\ in_turn (moments m)
    /\ authorised settings authorization door beacon m s g payload /\ made_for settings m g command.

(** Whatever is delivered, the controller honours only commands that requests
    have earned. *)
Lemma honoured_is_earned w h w' events now at_ text command s :
  w_asked w = [] -> history settings tasks w h w' -> Forall (well_stored settings) h -> 0 <= command_ttl_seconds settings ->
  unforged cfg (w_asked w') events -> (now, at_, TEXT text) ∈ events -> honoured cfg now text s command ->
  exists m g, earned h m g command.
Proof.
  intros H0 Hh Hs Httl Hu Hin [(document & Hd & _ & Hp & _ & canonical & Hc & Hv) _ _ _ _ _].
  destruct (Hu _ _ _ _ _ _ Hin Hd Hp Hc Hv) as (line & Hline & Hsigned).
  destruct (requests_justified settings tasks w h w' line H0 Hh Hline)
    as [->|(authorization & request & door & beacon & payload & Ht & -> & m & ss & g & Hm & Hturn & Ha)].
  { rewrite signed_for_key in Hsigned. done. }
  destruct (authorised_fits settings _ _ _ _ _ _ _ h Httl Hs Hm Ha) as (cid & rand & Epay & Hf).
  apply signed_for_request in Hsigned.
  2: { rewrite Epay. destruct Hf as (? & ? & _ & ? & ? & ?). by apply command_flat. }
  exists m, g, authorization, request, door, beacon, ss, payload. split_and!; try done.
  exists cid, rand. eapply rebuilt_is_made; [done| |done]. by rewrite <- Epay.
Qed.

(** C1 An open door was authorised: in every state a controller can reach while the
    backend serves its tasks in any interleaving, an energised relay is due to one
    unlock request among the tasks. Its session, the door, this controller, the
    grant and its window, the beacon, the budget and the connection were each found
    good, in that order, before its command was made; that command names this
    controller and was delivered no longer ago than the seconds of that very door,
    cut to the maximum, and one period of the watchdog; and the time of day at its
    delivery was within the command's lifetime, give or take the clock skew, of the
    moment it was made. *)
Theorem open_door_was_authorised w h w' y :
  w_asked w = [] -> history settings tasks w h w' -> Forall (well_stored settings) h -> 0 <= command_ttl_seconds settings ->
  site_reach cfg lc y -> unforged cfg (w_asked w') (delivered y) ->
  energised_ (relay (link (board y))) = true ->
  exists authorization request door beacon m s g payload now at_ text,
    Unlock authorization request door beacon ∈ tasks
    /\ moments m ⊆ h /\ in_turn (moments m)
    /\ authorised settings authorization door beacon m s g payload
    /\ c_code (g_controller g) = c_str (ACS_CONTROLLER_CODE cfg)
    /\ (now, at_, TEXT text) ∈ delivered y
    /\ at_ <= clock y <= at_ + Z.min (dr_unlock_seconds (g_door g) * 1000) (ACS_RELAY_MAX_MS cfg) + watchdog lc
    /\ now - ACS_MAX_CLOCK_SKEW_S cfg <= w_now (m_issued m) / usec_per_sec + command_ttl_seconds settings
    /\ w_now (m_issued m) / usec_per_sec <= now + ACS_MAX_CLOCK_SKEW_S cfg.
Proof.
  intros H0 Hh Hs Httl Hy Hu He. destruct (reach_ok cfg lc max_small watchdog_small y Hy) as (Hf & Hw & Hr).
  destruct (Hr He) as (now & at_ & text & command & st & Hin & Hon & Hat & _ & Hfed).
  destruct (honoured_is_earned w h w' _ _ _ _ _ _ H0 Hh Hs Httl Hu Hin Hon)
    as (m & g & authorization & request & door & beacon & s & payload & Ht & Hm & Hturn & Ha & cid & rand & ->).
  destruct Hon as [_ Hmine _ Hfresh Hissued _]. unfold pulse_ms in Hfed. cbn in Hmine, Hfresh, Hissued, Hfed.
  exists authorization, request, door, beacon, m, s, g, payload, now, at_, text. split_and!; try done; lia.
Qed.
End whole.

(** ** A concrete opening *)

#[local] Existing Instances demo_entropy demo_postgres demo_argon2 demo_repr demo_x509 demo_controller
  demo_controller_evolves demo_controller_silent demo_websocket demo_websocket_evolves demo_websocket_silent
  demo_board demo_long_ed25519.
#[local] Instance demo_socket : SignerSocket := served_by demo_signer.

(** What the hypotheses ask, decided. *)
Definition simple_check (s : pystr) : bool :=
  forallb (fun c => (32 <=? c) && (c <? 127) && negb (c =? 34) && negb (c =? 92)) s && (length s <=? 64)%nat.
Definition fits_check (dr : door_row) (code : pystr) : bool :=
  simple_check code && simple_check (dr_code dr) && (1 <=? dr_unlock_seconds dr) && (dr_unlock_seconds dr <=? 10)
  && (1 <=? dr_relay_channel dr) && (dr_relay_channel dr <=? 4).
Definition stored_check (settings : Settings) (v : World) : bool :=
  forallb (fun d => forallb (fun c => fits_check d.2 (c_code c.2)) (map_to_list (controllers (w_db v))))
    (map_to_list (doors (w_db v)))
  && (0 <=? w_now v) && (w_now v / usec_per_sec + command_ttl_seconds settings <? 2 ^ 63).

Lemma simple_checked s : simple_check s = true -> Forall simple s /\ (length s <= 64)%nat.
Proof. intros [H1 H2]%andb_true_iff. split; [by apply simple_text|by apply Nat.leb_le]. Qed.

Lemma fits_checked dr code : fits_check dr code = true -> door_fits dr code.
Proof.
  unfold fits_check. rewrite !andb_true_iff. intros (((((H2 & H3) & ?) & ?) & ?) & ?).
  bool_to_prop. split; [by apply simple_checked..|lia|lia].
Qed.

Lemma stored_checked settings v : stored_check settings v = true -> well_stored settings v.
Proof.
  intros [[H H0]%andb_true_iff H1]%andb_true_iff. bool_to_prop. split; [|lia]. intros id dr cid c Hd Hc.
  rewrite forallb_forall in H. specialize (H (id, dr)). rewrite <- list_elem_of_In, elem_of_map_to_list in H. specialize (H Hd).
  rewrite forallb_forall in H. specialize (H (cid, c)). rewrite <- list_elem_of_In, elem_of_map_to_list in H. specialize (H Hc).
  by apply fits_checked.
Qed.

Definition unforged_check (cfg : BoardConfig) (lines : list bytes) (ev : Z * Z * WsEvent) : bool :=
  match ev.2 with
  | TEXT text =>
      match deserializeJson text with
      | Some document =>
          match parseUnlockCommand (member §"payload" document) ≫= fun c => canonicalCommandBytes c kMaxCanonical with
          | Some canonical => existsb (fun line => bool_decide (signed_for line = Some canonical)) lines
          | None => true
          end
      | None => true
      end
  | _ => true
  end.

Lemma unforged_checked cfg lines events : forallb (unforged_check cfg lines) events = true -> unforged cfg lines events.
Proof.
  intros H now at_ text document command canonical Hin Hd Hp Hc _. rewrite forallb_forall in H.
  apply list_elem_of_In, H in Hin. unfold unforged_check in Hin. cbn [snd] in Hin. rewrite Hd, Hp in Hin.
  cbn [mbind option_bind] in Hin. rewrite Hc in Hin. apply existsb_exists in Hin as (line & Hl & E).
  exists line. split; [by apply list_elem_of_In|by apply bool_decide_eq_true_1 in E].
Qed.

(** The request of [Asked.demo_entry], with the signer of [Firmware], and what
    the controller receives for it. *)
Definition demo_passage : list World := demo_before :: trace (start demo_settings demo_entry) demo_before.
Definition demo_passed : World := (run (start demo_settings demo_entry) demo_before).1.
Definition demo_order : dict :=
  match head (w_asked demo_passed) ≫= decode_line with
  | Some request => match dict_get §"payload" request with Some (JObj payload) => payload | _ => [] end
  | None => []
  end.
Definition demo_envelope : bytes :=
  dumps true false None (JObj (command_envelope demo_order
    (ed25519_sign (s_key demo_signer) (default [] (canonical_bytes demo_order))) (JStr §"signer-1"))).
Definition demo_arrival : Turn := {|
  tu_start := 5000; tu_wifi := true; tu_time := 1709208004;
  tu_events := [(1709208004, 5010, CONNECTED); (1709208004, 5020, TEXT auth_ok_bytes); (1709208004, 5030, TEXT demo_envelope)];
  tu_update := demo_source []; tu_inputs_at := 5040; tu_tamper_high := false; tu_door_low := true; tu_end := 5045 |}.
Definition demo_unlocked : Site := after_turn demo_cfg demo_loop (booted demo_loop 0 []) demo_arrival.

Lemma demo_unlocked_reached : site_reach demo_cfg demo_loop demo_unlocked.
Proof.
  exists 0. apply rtc_once. apply step_turn. split; cbn [demo_arrival booted clock fed tu_start tu_events tu_inputs_at tu_end];
    unfold watchdog; cbn [demo_loop ACS_WATCHDOG_S]; try lia.
  split.
  - repeat (apply Forall_cons; split; [cbn; lia|]). apply Forall_nil_2.
  - repeat (apply SSorted_cons; [|repeat (apply Forall_cons; split; [cbn; lia|]); apply Forall_nil_2]). apply SSorted_nil.
Qed.

Lemma demo_passage_history : history demo_settings [demo_entry; Ready] demo_before demo_passage demo_passed.
Proof.
  eexists. apply (run_history elsewhere 0 (start demo_settings demo_entry) _ _ _
    (run (start demo_settings demo_entry) demo_before).2 [demo_before]); [reflexivity|]. apply surjective_pairing.
Qed.

Lemma demo_passage_stored : Forall (well_stored demo_settings) demo_passage.
Proof.
  assert (H : forallb (stored_check demo_settings) demo_passage = true) by (vm_compute; reflexivity).
  apply Forall_forall. intros v Hv. rewrite forallb_forall in H. by apply stored_checked, H, list_elem_of_In.
Qed.

Lemma open_door_was_authorised_witness :
  exists authorization request door beacon m s g payload,
    Unlock authorization request door beacon ∈ [demo_entry; Ready]
    /\ authorised demo_settings authorization door beacon m s g payload
    /\ c_code (g_controller g) = §"ctrl-1".
Proof.
  assert (Hu : unforged demo_cfg (w_asked demo_passed) (delivered demo_unlocked))
    by (apply unforged_checked; vm_compute; reflexivity).
  assert (He : energised_ (relay (link (board demo_unlocked))) = true) by (vm_compute; reflexivity).
  destruct (open_door_was_authorised demo_settings [demo_entry; Ready] demo_cfg demo_loop ltac:(cbn; lia)
    ltac:(unfold watchdog; cbn; lia) demo_before demo_passage demo_passed demo_unlocked demo_nothing_asked
    demo_passage_history demo_passage_stored ltac:(cbn; lia) demo_unlocked_reached Hu He)
    as (authorization & request & door & beacon & m & s & g & payload & now & at_ & text & H1 & _ & _ & H2 & H3 & _).
  exists authorization, request, door, beacon, m, s, g, payload. exact (conj H1 (conj H2 H3)).
Defined.
