(* ===== verification/Passage.v ===== *)
(** * A request that passes opens the door

    The other direction of [Door]: with a signer and a board at the far ends of
    their sockets ([served_by], [wired]), an unlock request that no check refuses
    does open the door.  Every part takes its own code's way: the command is
    signed by [Signer.handle], sent by [ControllerHub.send_command], carried out by
    [WsLink.handleText], and the board's answer comes back through the receive loop
    of its connection ([ControllerWs.serve]) to the future the request waits for. *)

From S2P Require Import Prelude Text Sha256 Clock Json Config Errors Proc World Demo AuditLog Repos Schema Signer Security Proximity RateLimit Hub Evolve Auth Unlock Der Attestation Enrollment Api Schemas Http ControllerWs Firmware EndToEnd Tooling Board Scripts Surface Family Backend Asked Door.
#[local] Open Scope Z_scope.

Import Relay Command WsLink.

(** ** A row for the log *)

Lemma simple_pg_text s : Forall plain s -> pg_text s = true.
Proof.
  intros Hs. unfold pg_text. apply forallb_forall. intros c Hc. apply list_elem_of_In in Hc. rewrite Forall_forall in Hs.
  specialize (Hs c Hc). unfold plain, is_scalar in *. lia.
Qed.

Lemma plain_jsonb `{PG : Postgres} v : plain_value v -> is_Some (jsonb v).
Proof. destruct v; cbn; try done; try by eexists. intros Hs. rewrite simple_pg_text by done. by eexists. Qed.

Lemma flat_jsonb `{PG : Postgres} m : flat m -> is_Some (jsonb (JObj m)).
Proof.
  intros [_ Hm]. cbn [jsonb]. apply fmap_is_Some, mapM_is_Some_2. eapply Forall_impl; [exact Hm|].
  intros kv [Hk Hv]. unfold compose. rewrite (simple_pg_text kv.1) by done. by apply fmap_is_Some, plain_jsonb.
Qed.

(** A row of a user's event with printable detail is accepted when the first row
    of the request was: the two differ in detail and controller only. *)
Lemma user_row_accepted `{PG : Postgres} base event ctl d seq now :
  (forall h, b_client_ip base = Some h -> is_Some (pg_inet h)) -> flat d ->
  is_Some (AuditRepository.new_row (event_value event) §"success" (with_base base ctl d) seq now).
Proof.
  intros Hip Hd. unfold AuditRepository.new_row, with_base. cbn [AuditLog.detail actor_type AuditLog.client_ip].
  change (outcome_in §"success") with (Some out_success). change (actor_in §"user") with (Some act_user).
  cbn [mbind option_bind]. destruct (flat_jsonb d Hd) as [v ->].
  assert (He : pg_text (event_value event) = true) by (destruct event; vm_compute; reflexivity).
  destruct (b_client_ip base) as [h|] eqn:E; cbn; [destruct (Hip h eq_refl) as [i ->]; cbn|]; rewrite He; by eexists.
Qed.

Lemma appended_types r w :
  a_event_type <$> audit_log (w_db (appended r w)) = (a_event_type <$> audit_log (w_db w)) ++ [a_event_type r].
Proof.
  unfold appended. cbn. rewrite fmap_app. by destruct r.
Qed.

(** ** Sizes *)

Lemma quote_any ascii v : Forall simple v -> quote ascii v = 34 :: v ++ [34].
Proof.
  intros Hv. unfold quote. do 2 f_equal. induction Hv as [|c v (Hp & H1 & H2) _ IH]; [done|].
  change ((c :: v) ≫= escape_char ascii) with (escape_char ascii c ++ (v ≫= escape_char ascii)). rewrite IH.
  unfold escape_char, plain in *.
  by rewrite !(proj2 (Z.eqb_neq c _)), (proj2 (Z.ltb_ge c 32)), (proj2 (Z.ltb_ge 126 c)), andb_false_r by lia.
Qed.

Lemma request_size dr code ttl cid at_ rand :
  command_fits dr code ttl at_ rand ->
  (length (encode_request (SignerClient.sign_request (command_payload dr code ttl cid at_ rand))) <= MAX_LINE_BYTES)%nat.
Proof.
  intros ([[Hc Hcl] [Hd Hdl] Hs Hr] & Hb & Hl & Hat & Httl & Hmax).
  transitivity (length ((123 :: (quoted §"op" ++ 58 :: quoted §"sign") ++ [44] ++ quoted §"payload" ++ 58 :: (123 :: (
    (quoted §"command_id" ++ 58 :: quote true (uuid_str cid)) ++ [44]
    ++ (quoted §"cmd" ++ 58 :: quoted §"unlock") ++ [44]
    ++ (quoted §"controller_code" ++ 58 :: quote true code) ++ [44]
    ++ (quoted §"door_code" ++ 58 :: quote true (dr_code dr)) ++ [44]
    ++ (quoted §"relay_channel" ++ 58 :: int_str (dr_relay_channel dr)) ++ [44]
    ++ (quoted §"duration_ms" ++ 58 :: int_str (dr_unlock_seconds dr * 1000)) ++ [44]
    ++ (quoted §"issued_at" ++ 58 :: int_str at_) ++ [44]
    ++ (quoted §"expires_at" ++ 58 :: int_str (at_ + ttl)) ++ [44]
    ++ (quoted §"nonce" ++ 58 :: quote true (urlsafe_nopad rand))) ++ [125]) ++ [125]) ++ [10])).
  { apply Nat.eq_le_incl. reflexivity. }
  rewrite !quote_any by first [done | apply uuid_simple | by apply nonce_simple].
  repeat first [rewrite length_app | progress cbn [length] | rewrite quoted_length].
  rewrite uuid_str_length, nonce_length by done. cbn [String.length].
  pose proof (int_str_length (dr_unlock_seconds dr * 1000) 4 ltac:(lia)).
  pose proof (int_str_length (at_ + ttl) 18 ltac:(lia)). pose proof (int_str_length at_ 18 ltac:(lia)).
  pose proof (int_str_length (dr_relay_channel dr) 0 ltac:(lia)). unfold MAX_LINE_BYTES. lia.
Qed.

Lemma ack_size cid ms millis :
  0 <= ms < 2 ^ 31 -> 0 <= millis < 2 ^ 32 ->
  len (dumps false false None (JObj (ack_doc (uuid_str cid) §"opened" §"ok" ms millis))) <= MAX_MESSAGE_BYTES.
Proof.
  intros Hms Hmillis.
  transitivity (len (123 :: ((quoted §"type" ++ 58 :: quoted §"ack") ++ [44]
    ++ (quoted §"command_id" ++ 58 :: quote false (uuid_str cid)) ++ [44]
    ++ (quoted §"result" ++ 58 :: quoted §"opened") ++ [44]
    ++ (quoted §"detail" ++ 58 :: quoted §"ok") ++ [44]
    ++ (quoted §"relay_ms" ++ 58 :: int_str ms) ++ [44]
    ++ (quoted §"uptime_ms" ++ 58 :: int_str millis)) ++ [125])).
  { apply Z.eq_le_incl. reflexivity. }
  rewrite quote_any by apply uuid_simple. unfold len.
  repeat first [rewrite length_app | progress cbn [length] | rewrite quoted_length].
  rewrite uuid_str_length. cbn [String.length].
  pose proof (int_str_length ms 9 ltac:(lia)). pose proof (int_str_length millis 9 ltac:(lia)).
  unfold MAX_MESSAGE_BYTES. lia.
Qed.

(** ** The wire *)

Section wire.
Context {PG : Postgres} {PR : PyRepr} {WS : WebSocket} {BL : BoardLibraries} {ED : Ed25519} (cfg : BoardConfig).

(** While a text is being sent, the board handles it, its clock [drift] seconds
    ahead, and the coroutine of its connection takes what it answers. *)
Definition wired (board : WsLink) (drift millis : Z) (peer : option pystr) (id : uuid) : Transport := {|
  ws_send := fun s text w =>
    ((run (serve peer id s (handleText cfg (w_now w / usec_per_sec + drift) millis text board).2) w).1, None) |}.

(** One acknowledgement through the receive loop. *)
Lemma run_serve_ack peer id s raw ack w :
  len raw <= MAX_MESSAGE_BYTES -> loads raw = Some (JObj ack) -> dict_get §"type" ack = Some (JStr §"ack") ->
  run (serve peer id s [raw]) w = (set_hub (ControllerHub.resolved s ack (w_hub w)) w, OK tt).
Proof.
  intros Hl Hj Ht. cbn [serve]. unfold receive. rewrite run_bind, run_reads, (proj2 (Z.ltb_ge _ _)) by done.
  unfold json_loads. rewrite Hj. rewrite run_bind, run_of_outcome. cbn [as_message].
  unfold ControllerWs.handle, says. rewrite Ht. change (str_eqb §"ack" §"pong") with false.
  change (str_eqb §"ack" §"ack") with true. cbv iota. rewrite run_bind. done.
Qed.

(** The future of the command gets the acknowledgement that names it. *)
Lemma resolved_expected s cid ack h :
  is_Some (h_session_heap h !! s) -> ControllerHub.message_command_id ack = cid ->
  let '(h1, f) := ControllerHub.expect s cid h in
  h_future_heap (ControllerHub.resolved s ack h1) !! f = Some (Result ack).
Proof.
  intros [c Hc] Hid. unfold ControllerHub.expect, ControllerHub.resolved. rewrite pending_set_pending, Hid. cbn.
  rewrite Hc, lookup_insert_eq. unfold settle. cbn. rewrite lookup_insert_eq. cbn. by rewrite lookup_insert_eq.
Qed.

(** A command over the wire comes back with the acknowledgement of the board. *)
Lemma run_send_wired board drift millis peer id code envelope timeout w s cid ack board' raw :
  h_sessions (w_hub w) !! code = Some s -> is_Some (h_session_heap (w_hub w) !! s) ->
  ControllerHub.envelope_command_id envelope = OK cid ->
  handleText cfg (w_now w / usec_per_sec + drift) millis (dumps true false None (JObj envelope)) board = (board', [raw]) ->
  len raw <= MAX_MESSAGE_BYTES -> loads raw = Some (JObj ack) -> dict_get §"type" ack = Some (JStr §"ack") ->
  ControllerHub.message_command_id ack = cid ->
  exists h, run (ControllerHub.send_command (TR:=wired board drift millis peer id) code envelope timeout) w = (set_hub h w, OK ack).
Proof.
  intros Hs Hheap Hcid Hb Hl Hj Ht Hid. unfold ControllerHub.send_command. rewrite run_bind, run_atomic, Hs, Hcid.
  pose proof (resolved_expected s cid ack (w_hub w) Hheap Hid) as Hr.
  destruct (ControllerHub.expect s cid (w_hub w)) as [h1 f]. cbv beta iota.
  rewrite run_finally, run_catch, run_bind. unfold send. rewrite run_atomic. cbn [ws_send wired].
  change (w_now (set_hub h1 w)) with (w_now w). rewrite Hb. cbn [snd]. rewrite (run_serve_ack _ _ _ _ ack) by done. cbn [fst].
  unfold ControllerHub.wait_for. rewrite run_atomic. cbn [w_hub set_hub]. rewrite Hr.
  rewrite run_atomic. by eexists.
Qed.
End wire.

(** ** From the grounds to the open door *)

Section passage.
Context {EN : Entropy} {PG : Postgres} {AR : Argon2} {PR : PyRepr} {X5 : X509} {WS : WebSocket} {BL : BoardLibraries} {ED : Ed25519}
  {PY : Pydantic} {ST : Starlette} (settings : Settings) (svc : SignerService) (cfg : BoardConfig) (board : WsLink) (drift millis : Z)
  (peer : option pystr) (id : uuid).

#[local] Instance signer_up : SignerSocket := served_by svc.
#[local] Instance board_up : Transport := wired cfg board drift millis peer id.

(** An installation in order, at the moment of [w]: one signing key, the code of
    the controller on its board, the settings within the bounds of their comments,
    a clock that is set, and the controller connected. *)
Record in_order (w : World) (dr : door_row) (c : controller_row) : Prop := {
  io_key : ACS_SIGNER_PUBLIC_KEY cfg = ed25519_public (s_key svc);
  io_signature : forall m, length (ed25519_sign (s_key svc) m) = 64%nat;
  io_key_id : Forall plain (s_key_id svc);
  io_code : c_code c = ACS_CONTROLLER_CODE cfg;
  io_fits : door_fits dr (c_code c);
  io_lifetime : 0 < command_ttl_seconds settings <= 30;
  io_near : 0 < proximity_max_age_seconds settings /\ proximity_max_age_seconds settings + beacon_rotation_seconds settings < 2 ^ 63;
  io_time : 0 <= w_now w /\ w_now w / usec_per_sec + command_ttl_seconds settings < 2 ^ 63;
  io_clock : clock_sane <= w_now w / usec_per_sec + drift;
  io_drift : - ACS_MAX_CLOCK_SKEW_S cfg <= drift <= command_ttl_seconds settings + ACS_MAX_CLOCK_SKEW_S cfg;
  io_relay : 0 <= ACS_RELAY_MAX_MS cfg < 2 ^ 31;
  io_millis : 0 <= millis < 2 ^ 32;
  io_session : exists s, h_sessions (w_hub w) !! c_code c = Some s /\ is_Some (h_session_heap (w_hub w) !! s)
}.

Lemma run_user_row base event ctl d w :
  (forall h, b_client_ip base = Some h -> is_Some (pg_inet h)) -> flat d ->
  exists r n, run (AuditService.success event (with_base base ctl d)) w = (appended r w, OK n)
    /\ a_event_type r = event_value event.
Proof.
  intros Hip Hd. destruct (user_row_accepted base event ctl d (audit_seq (w_db w) + 1) (w_now w) Hip Hd) as [r Hr].
  exists r. eexists. unfold AuditService.success, AuditService.record. rewrite run_append, Hr. split; [done|].
  by apply new_row_some in Hr as (_ & _ & -> & _).
Qed.

(** The bytes the signer signs. *)
Definition body_of (payload : dict) : bytes := default [] (canonical_bytes payload).
Definition envelope_of (payload : dict) : dict :=
  command_envelope payload (ed25519_sign (s_key svc) (body_of payload)) (JStr (s_key_id svc)).

Lemma run_signed base door dr code ttl cid at_ rand w :
  let payload := command_payload dr code ttl cid at_ rand in
  command_fits dr code ttl at_ rand -> 0 < ttl <= 30 -> Forall plain (s_key_id svc) ->
  run (UnlockService.signed base door payload) w
  = (asked_to_sign payload w, OK (ed25519_sign (s_key svc) (body_of payload), JStr (s_key_id svc))).
Proof.
  intros payload Hf Httl Hkid. unfold UnlockService.signed, signer_up. rewrite run_catch, sign_command_served.
  - replace (validate_command payload) with (@None pystr); [done|]. symmetry. apply validate_command_iff.
    destruct Hf as ([_ _ Hs _] & Hb & Hl & _). exists at_, (at_ + ttl), (dr_unlock_seconds dr * 1000).
    by apply payload_ok.
  - apply flat_ok. destruct Hf as (? & ? & _ & ? & ? & ?). by apply command_flat.
  - apply forallb_forall. intros c Hc. apply list_elem_of_In in Hc. rewrite Forall_forall in Hkid. specialize (Hkid c Hc).
    unfold plain, is_scalar in *. lia.
  - by apply request_size.
Qed.

Lemma run_acknowledged base door dr c ttl cid at_ rand w :
  let payload := command_payload dr (c_code c) ttl cid at_ rand in
  in_order w dr c -> command_fits dr (c_code c) ttl at_ rand -> at_ = w_now w / usec_per_sec ->
  ttl = command_ttl_seconds settings -> commandAlreadySeen (uuid_str cid) board = false ->
  exists h ms,
    run (UnlockService.acknowledged settings base door cid (c_code c) (envelope_of payload)) w
      = (set_hub h w, OK (ack_doc (uuid_str cid) §"opened" §"ok" ms millis))
    /\ flat (ack_doc (uuid_str cid) §"opened" §"ok" ms millis)
    /\ energised_ (relay (handleText cfg (w_now w / usec_per_sec + drift) millis
         (dumps true false None (JObj (envelope_of payload))) board).1) = true.
Proof.
  intros payload [Hkey Hsig Hkid Hcode Hfits Httl _ Ht Hclock Hdrift Hrelay Hmillis (s & Hs & Hheap)] Hf Hat Hlt Hnew.
  destruct (canonical_arrived _ _ _ cid _ _ Hf) as (body & _ & Hbody). fold payload in Hbody.
  assert (Hpay : payload = command_payload dr (ACS_CONTROLLER_CODE cfg) ttl cid at_ rand) by (unfold payload; by rewrite Hcode).
  destruct (controller_opens cfg svc dr ttl cid at_ rand body (s_key_id svc) (w_now w / usec_per_sec + drift) millis board)
    as (board' & Hh & He & Hflat); try done; [by rewrite <- Hcode|by rewrite <- Hpay|lia|lia|].
  rewrite <- Hpay in Hh. assert (Henv : envelope_of payload = command_envelope payload (ed25519_sign (s_key svc) body) (JStr (s_key_id svc)))
    by (unfold envelope_of, body_of; by rewrite Hbody). rewrite <- Henv in Hh.
  destruct (run_send_wired cfg board drift millis peer id (c_code c) (envelope_of payload) (command_ttl_seconds settings) w s
    (uuid_str cid) (ack_doc (uuid_str cid) §"opened" §"ok" (Z.min (dr_unlock_seconds dr * 1000) (ACS_RELAY_MAX_MS cfg)) millis) board' _
    Hs Hheap eq_refl Hh) as (h & Hrun); try done.
  - destruct Hf as ([_ _ Hsec _] & _). apply ack_size; lia.
  - rewrite loads_dumps by by apply flat_ok. by rewrite normal_none.
  - exists h. eexists. unfold UnlockService.acknowledged, board_up. rewrite run_catch, Hrun. split; [done|]. split; [done|]. by rewrite Hh.
Qed.

Lemma in_order_same w w' dr c : w_now w' = w_now w -> w_hub w' = w_hub w -> in_order w dr c -> in_order w' dr c.
Proof. intros En Eh []. split; rewrite ?En, ?Eh; done. Qed.

(** The command is signed, sent, carried out and acknowledged, with its two rows,
    and the relay of the board is energised by it. *)
Lemma command_opens base g w :
  (forall h, b_client_ip base = Some h -> is_Some (pg_inet h)) ->
  from_option (fun a => - 2 ^ 63 <= a < 2 ^ 63) True (g_age g) ->
  in_order w (g_door g) (g_controller g) -> commandAlreadySeen (uuid_str (uuid4 w).2) board = false ->
  exists w' out envelope,
    run (UnlockService.unlock_command settings base g) w = (w', OK out)
    /\ uo_opened_for_ms out = dr_unlock_seconds (g_door g) * 1000
    /\ a_event_type <$> audit_log (w_db w')
       = (a_event_type <$> audit_log (w_db w)) ++ [event_value DOOR_UNLOCK_GRANTED; event_value DOOR_UNLOCK_CONFIRMED]
    /\ ControllerHub.envelope_command_id envelope = OK (uuid_str (uo_command_id out))
    /\ energised_ (relay (handleText cfg (w_now w / usec_per_sec + drift) millis (dumps true false None (JObj envelope)) board).1) = true.
Proof.
  intros Hip Hage Hin Hnew. pose proof Hin as [_ _ Hkid _ Hfits Httl _ [Ht0 Ht1] _ _ _ _ _].
  set (at_ := w_now w / usec_per_sec) in *. set (ttl := command_ttl_seconds settings) in *.
  set (cid := (uuid4 w).2) in *. set (rand := csprng (S (w_draws w)) 16).
  set (payload := command_payload (g_door g) (c_code (g_controller g)) ttl cid at_ rand).
  assert (Hf : command_fits (g_door g) (c_code (g_controller g)) ttl at_ rand).
  { split_and!; try done; [apply csprng_bytes|apply csprng_length|by apply Z.div_pos|lia]. }
  set (w1 := set_draws (S (S (w_draws w))) w).
  assert (H1 : run UnlockService.new_command w = (w1, OK (cid, at_, rand))) by reflexivity.
  pose proof (run_signed base (g_door g) _ _ _ cid _ _ w1 Hf Httl Hkid) as H2. fold payload in H2.
  destruct (run_user_row base DOOR_UNLOCK_GRANTED (dr_controller_id (g_door g))
    [(§"command_id", JStr (uuid_str cid)); (§"signer_key_id", JStr (s_key_id svc));
     (§"proximity_age_seconds", match g_age g with Some a => JInt a | None => JNull end);
     (§"duration_ms", JInt (dr_unlock_seconds (g_door g) * 1000))] (asked_to_sign payload w1) Hip) as (r1 & n1 & H3 & E1).
  { destruct Hfits as [_ _ Hsec _]. apply flat_intro; [reflexivity|]. rewrite !Forall_cons, Forall_nil. cbn [snd plain_value].
    split_and!; try done; try lia; [apply simple_plain, uuid_simple|by destruct (g_age g)]. }
  set (w3 := appended r1 (asked_to_sign payload w1)) in *.
  destruct (run_acknowledged base (g_door g) (g_door g) (g_controller g) ttl cid at_ rand w3) as (h & ms & H4 & Hflat & He); try done.
  { by apply (in_order_same w). }
  fold payload in H4, He.
  destruct (run_user_row base DOOR_UNLOCK_CONFIRMED (dr_controller_id (g_door g))
    [(§"command_id", JStr (uuid_str cid)); (§"controller_uptime_ms", JInt millis); (§"relay_ms", JInt ms)] (set_hub h w3) Hip)
    as (r2 & n2 & H5 & E2).
  { destruct Hflat as [_ Hflat]. unfold ack_doc in Hflat. rewrite !Forall_cons in Hflat. destruct Hflat as (_ & [_ Hc] & _ & _ & [_ Hm] & [_ Hu] & _).
    apply flat_intro; [reflexivity|]. rewrite !Forall_cons, Forall_nil. by split_and!. }
  exists (appended r2 (set_hub h w3)).
  exists {| uo_command_id := cid; uo_opened_for_ms := dr_unlock_seconds (g_door g) * 1000;
            uo_proximity_age_seconds := default 0 (g_age g) |}, (envelope_of payload).
  split; [|split; [reflexivity|split; [|split; [reflexivity|exact He]]]].
  - unfold UnlockService.unlock_command. fold ttl. rewrite run_bind, H1, run_bind. fold payload. rewrite H2, run_bind. cbn [snd fst].
    rewrite H3, run_bind. fold (envelope_of payload). rewrite H4, run_bind.
    change (UnlockService.opened _) with true. cbn [negb run]. rewrite run_bind.
    change (default JNull (dict_get §"uptime_ms" _)) with (JInt millis).
    change (default JNull (dict_get §"relay_ms" _)) with (JInt ms). rewrite H5. reflexivity.
  - rewrite appended_types, E2. cbn [w_db set_hub]. unfold w3. by rewrite appended_types, E1, <- app_assoc.
Qed.

(** ** The whole request *)

Lemma recorded_inet base event d w w1 n :
  run (AuditService.record (event_value event) §"success" (with_base base None d)) w = (w1, OK n) ->
  forall h, b_client_ip base = Some h -> is_Some (pg_inet h).
Proof.
  intros Hr h Hh. unfold AuditService.record in Hr. rewrite run_append in Hr. unfold AuditRepository.new_row, with_base in Hr.
  cbn [AuditLog.client_ip AuditLog.detail actor_type] in Hr. rewrite Hh in Hr.
  destruct (pg_inet h); [by eexists|]. exfalso. by destruct (outcome_in _), (actor_in _).
Qed.

Lemma none_failing checks : first_failing checks = None -> Forall (fun p => p.1 = true) checks.
Proof. induction checks as [|[[] r] checks IH]; cbn; [done| |done]. intros H. constructor; [done|by apply IH]. Qed.

(** An unlock that no check refuses. *)
Lemma unlock_opens user device door beacon ip w w1 n dr c :
  let base := {| b_user_id := user; b_device_id := device; b_door_id := door; b_client_ip := ip |} in
  db_ok (w_db w) ->
  run (AuditService.record (event_value DOOR_UNLOCK_REQUESTED) §"success" (with_base base None [])) w = (w1, OK n) ->
  decidable_request settings w1 base beacon ->
  first_failing (unlock_checklist settings w1 base beacon) = None ->
  the_door (w_db w1) base = Some {| dj_door := dr; dj_controller := Some c |} ->
  in_order w1 dr c -> commandAlreadySeen (uuid_str (uuid4 w1).2) board = false ->
  exists w' out envelope,
    run (UnlockService.unlock settings user device door beacon ip) w = (w', OK out)
    /\ uo_opened_for_ms out = dr_unlock_seconds dr * 1000
    /\ a_event_type <$> audit_log (w_db w')
       = (a_event_type <$> audit_log (w_db w))
         ++ [event_value DOOR_UNLOCK_REQUESTED; event_value DOOR_UNLOCK_GRANTED; event_value DOOR_UNLOCK_CONFIRMED]
    /\ ControllerHub.envelope_command_id envelope = OK (uuid_str (uo_command_id out))
    /\ energised_ (relay (handleText cfg (w_now w1 / usec_per_sec + drift) millis (dumps true false None (JObj envelope)) board).1) = true.
Proof.
  intros base Hd H1 Hq Hf Hdoor Hin Hnew. pose proof (recorded_inet _ _ _ _ _ _ H1) as Hip.
  assert (Hd1 : db_ok (w_db w1)) by (eapply run_db_ok; [apply append_evolves|exact H1|done]).
  pose proof (unlock_checks_refine settings base beacon w1 Hd1 Hq) as Hc. rewrite Hf, Hdoor in Hc.
  unfold the_controller in Hc. rewrite Hdoor in Hc. cbn [mbind option_bind dj_controller dj_door] in Hc.
  assert (Hnear : exists a, proximity settings (w_now w1) (w_db w1) base beacon = OK (true, a)
    /\ from_option (fun a => - 2 ^ 63 <= a < 2 ^ 63) True a).
  { destruct (door_controller (w_db w1) base _ Hd1 Hdoor) as (c' & Ec & Hkey).
    { apply none_failing, (Forall_lookup_1 _ _ 0) with (2 := eq_refl) in Hf. cbn [fst] in Hf. unfold door_usable in Hf.
      rewrite Hdoor in Hf. cbn [dj_door] in Hf |- *. by apply andb_true_iff in Hf as [_ Hf]. }
    injection Ec as <-. destruct Hq as [_ Hrot Hrange Hasc]. destruct Hin as [_ _ _ _ _ _ [Hage Hsum] _ _ _ _ _ _].
    unfold proximity, the_controller. rewrite Hdoor. cbn [mbind option_bind dj_controller].
    destruct (verify_total (c_beacon_key c) beacon _ _ _ Hkey Hrot Hrange Hasc) as [[acc a] Hv]. exists a. rewrite Hv.
    assert (acc = true) as ->.
    { apply none_failing, (Forall_lookup_1 _ _ 4) with (2 := eq_refl) in Hf. cbn [fst] in Hf.
      unfold proximity, the_controller in Hf. rewrite Hdoor in Hf. cbn [mbind option_bind dj_controller] in Hf. by rewrite Hv in Hf. }
    split; [done|]. destruct (accepted_slot (c_beacon_key c) beacon _ _ _ a Hkey Hrot Hage Hrange Hasc Hv) as (slot & _ & _ & -> & Hb).
    cbn. lia. }
  destruct Hnear as (a & Ha & Hb). rewrite Ha in Hc.
  destruct (command_opens base {| g_door := dr; g_controller := c; g_age := a |} w1 Hip Hb Hin Hnew)
    as (w' & out & envelope & Hr & Hms & Hlog & Hid & He).
  exists w', out, envelope. split; [|split; [done|split; [|done]]].
  - unfold UnlockService.unlock. fold base. by rewrite run_bind, H1, run_bind, Hc.
  - destruct (run_record _ _ _ _ _ _ H1) as (r & Er & ->). apply new_row_some in Er as (_ & _ & Et & _).
    by rewrite Hlog, appended_types, Et, <- app_assoc.
Qed.

(** The token of a valid session carries the request through. *)
Lemma run_with_valid_session {A} authorization (inside : Session -> io A) token h s t u dv w :
  db_ok (w_db w) -> bearer authorization = Some token -> hash_token settings token = OK h ->
  session_valid settings (w_db w) (w_now w) h s t u dv ->
  run (with_session settings authorization inside) w = run (inside s) w.
Proof.
  intros Hd Hb Hh [Hat H1 H2 H3 H4 H5 ->]. unfold with_session, current_session. rewrite Hb, run_bind, run_catch.
  rewrite (run_resolve settings token h w Hh), (lookup_in_at _ _ _ _ _ _ _ Hd Hat).
  rewrite (proj2 (live_iff _ _ _ _ _) (conj H1 (conj H2 (conj H3 H4)))). cbn [negb].
  assert (E : AuthService.unattested settings (d_attestation_status dv) = false) by by apply unattested_false.
  unfold record_of at 1. cbn [tr_attestation_status]. by rewrite E.
Qed.

(** C3 A request that passes opens the door: with a signer up and the board of the
    controller on its connection, a request with the token of a valid session, an
    accepted body and no failing entry on the checklist is answered 200 with the
    command and the time of that door; the three rows of the request are
    on the log; and the relay of the board is energised by the command that
    was sent for it. *)
Theorem passing_request_opens_the_door authorization request door body w token h s t u dv beacon ip w1 n dr c :
  let base := {| b_user_id := se_user_id s; b_device_id := se_device_id s; b_door_id := door; b_client_ip := ip |} in
  db_ok (w_db w) -> bearer authorization = Some token -> hash_token settings token = OK h ->
  session_valid settings (w_db w) (w_now w) h s t u dv ->
  UnlockRequest body = Some beacon -> client_ip settings request = OK ip ->
  run (AuditService.record (event_value DOOR_UNLOCK_REQUESTED) §"success" (with_base base None [])) w = (w1, OK n) ->
  decidable_request settings w1 base beacon ->
  first_failing (unlock_checklist settings w1 base beacon) = None ->
  the_door (w_db w1) base = Some {| dj_door := dr; dj_controller := Some c |} ->
  in_order w1 dr c -> commandAlreadySeen (uuid_str (uuid4 w1).2) board = false ->
  exists w' resp answer envelope,
    run (public_app settings (PostUnlock authorization request door body)) w = (w', OK resp)
    /\ rs_status resp = 200 /\ rs_content resp = Some (encoded answer)
    /\ ur_result answer = §"opened" /\ ur_door_id answer = door /\ ur_opened_for_ms answer = dr_unlock_seconds dr * 1000
    /\ a_event_type <$> audit_log (w_db w')
       = (a_event_type <$> audit_log (w_db w))
         ++ [event_value DOOR_UNLOCK_REQUESTED; event_value DOOR_UNLOCK_GRANTED; event_value DOOR_UNLOCK_CONFIRMED]
    /\ ControllerHub.envelope_command_id envelope = OK (uuid_str (ur_command_id answer))
    /\ energised_ (relay (handleText cfg (w_now w1 / usec_per_sec + drift) millis (dumps true false None (JObj envelope)) board).1) = true.
Proof.
  intros base Hd Hb Hh Hs Hbody Hip H1 Hq Hf Hdoor Hin Hnew.
  destruct (unlock_opens (se_user_id s) (se_device_id s) door beacon ip w w1 n dr c Hd H1 Hq Hf Hdoor Hin Hnew)
    as (w' & out & envelope & Hr & Hms & Hlog & Hid & He).
  eexists w', _, {| ur_result := §"opened"; ur_door_id := door; ur_command_id := uo_command_id out;
    ur_opened_for_ms := uo_opened_for_ms out; ur_proximity_age_seconds := uo_proximity_age_seconds out |}, envelope.
  split; [|split; [|split; [|split; [reflexivity|split; [reflexivity|split; [exact Hms|split; [exact Hlog|split; [exact Hid|exact He]]]]]]]].
  - rewrite run_public_app. unfold public_endpoint, answers, post_unlock, validated. rewrite Hbody, run_bind, run_bind.
    unfold unlock_door. rewrite (run_with_valid_session authorization _ token h s t u dv w Hd Hb Hh Hs).
    rewrite run_bind, run_of_outcome, Hip, run_catch, Hr. reflexivity.
  - reflexivity.
  - reflexivity.
Qed.
End passage.

(** ** A concrete passage *)

#[local] Existing Instances demo_entropy demo_postgres demo_argon2 demo_repr demo_x509 demo_board demo_long_ed25519
  demo_websocket demo_pydantic demo_starlette.

Definition demo_base (s : Session) : Base :=
  {| b_user_id := se_user_id s; b_device_id := se_device_id s; b_door_id := demo_door_id; b_client_ip := None |}.

(** What the hypotheses ask of the demonstration, decided. *)
Definition in_order_check (w : World) (dr : door_row) (c : controller_row) : bool :=
  bool_decide (c_code c = ACS_CONTROLLER_CODE demo_cfg) && fits_check dr (c_code c) && (0 <=? w_now w)
  && (w_now w / usec_per_sec + 10 <? 2 ^ 63) && (clock_sane <=? w_now w / usec_per_sec + 0)
  && match h_sessions (w_hub w) !! c_code c with Some s => is_some (h_session_heap (w_hub w) !! s) | None => false end.

Lemma in_order_checked w dr c :
  in_order_check w dr c = true -> in_order demo_settings demo_signer demo_cfg 0 500 w dr c.
Proof.
  unfold in_order_check. rewrite !andb_true_iff. intros (((((H1 & H2) & H3) & H4) & H5) & H6).
  apply bool_decide_eq_true_1 in H1. bool_to_prop.
  split; first [ done | apply long_sign_length | by apply utf8_key | by apply fits_checked | cbn; lia | idtac ].
  destruct (h_sessions (w_hub w) !! c_code c) as [s|]; [|done]. exists s. split; [done|by apply is_some_true].
Qed.

(** Where the demonstration's request stands once it is on record. *)
Definition demo_session : option Session :=
  match bearer demo_phone with
  | Some token => match (run (AuthService.resolve_access_token demo_settings token) demo_door_run.1).2 with
                  | OK s => Some s | ERR _ => None end
  | None => None
  end.
Definition demo_recorded (s : Session) : World * outcome Exn Z :=
  run (AuditService.record (event_value DOOR_UNLOCK_REQUESTED) §"success" (with_base (demo_base s) None [])) demo_door_run.1.

Definition passage_check : bool :=
  match demo_session with
  | Some s =>
      let base := demo_base s in
      let w1 := (demo_recorded s).1 in
      match (demo_recorded s).2, the_door (w_db w1) base with
      | OK _, Some {| dj_door := dr; dj_controller := Some c |} =>
          negb (is_some (first_failing (unlock_checklist demo_settings w1 base demo_beacon))) && in_order_check w1 dr c
          && negb (commandAlreadySeen (uuid_str (uuid4 w1).2) demo_link)
          && (slot_span 30 60 <=? w_now w1 / seconds 30) && (w_now w1 / seconds 30 <? 2 ^ 64)
      | _, _ => false
      end
  | None => false
  end.

Lemma passing_request_opens_the_door_witness :
  exists w1 w' resp envelope,
    run (public_app (SK:=served_by demo_signer) (TR:=wired demo_cfg demo_link 0 500 None 1) demo_settings demo_opening)
      demo_door_run.1 = (w', OK resp)
    /\ rs_status resp = 200
    /\ energised_ (relay (handleText demo_cfg (w_now w1 / usec_per_sec + 0) 500 (dumps true false None (JObj envelope)) demo_link).1) = true.
Proof.
  assert (Hc : passage_check = true) by (vm_compute; reflexivity). unfold passage_check, demo_session in Hc.
  destruct (bearer demo_phone) as [token|] eqn:Hb; [|discriminate Hc].
  destruct (demo_phone_hashed token Hb) as [h Hh].
  destruct (resolve_access_token_spec demo_settings token h demo_door_run.1 demo_door_ok Hh) as (o & Er & Ho).
  rewrite Er in Hc. cbn [snd] in Hc. destruct o as [s|e]; [|discriminate Hc]. destruct Ho as (t & u & dv & Hs).
  cbv zeta in Hc. destruct (demo_recorded s) as [w1 [n|e]] eqn:H1; cbn [fst snd] in Hc; [|discriminate Hc].
  destruct (the_door (w_db w1) (demo_base s)) as [[dr [c|]]|] eqn:Hdoor; [|discriminate Hc|discriminate Hc].
  rewrite !andb_true_iff in Hc. destruct Hc as ((((Hf & Hin) & Hnew) & Hlow) & Hhigh). bool_to_prop.
  destruct (passing_request_opens_the_door demo_settings demo_signer demo_cfg demo_link 0 500 None 1 demo_phone demo_direct
    demo_door_id demo_unlock_request demo_door_run.1 token h s t u dv demo_beacon None w1 n dr c demo_door_ok Hb Hh Hs)
    as (w' & resp & answer & envelope & Hr & Hst & _ & _ & _ & _ & _ & _ & He).
  - vm_compute. reflexivity.
  - vm_compute. reflexivity.
  - exact H1.
  - split; [by intros; eexists|cbn; lia|by split|vm_compute; reflexivity].
  - by destruct (first_failing _).
  - exact Hdoor.
  - by apply in_order_checked.
  - by apply negb_true_iff in Hnew.
  - exists w1, w', resp, envelope. exact (conj Hr (conj Hst He)).
Defined.
